(* ===== verification/_CoqProject ===== *)
-Q . S2P
Prelude.v
PhysMem.v
Pmm.v
Vmm.v
Malloc.v
Io.v
Ata.v
Fat16.v
Fat16Dir.v
Fat16Path.v
Fat16File.v
Fat16Write.v
Fat16Roundtrip.v
Task.v
Paging.v
Sched.v
SchedSpec.v
SchedFair.v
SchedLife.v
SchedExit.v
Elf.v
ElfSpec.v
TaskUser.v
UserStack.v
Drivers.v
Libc.v
Descriptors.v
Module.v
Syscall.v
Boot.v
User.v
UserShell.v
UserInit.v
UserHello.v
UserShellSpec.v
UserTerminal.v
Info.v
Menu.v
MenuMain.v
MenuSpec.v
MenuNav.v
MenuInput.v
SyscallSpec.v
SyscallIo.v
SyscallAlloc.v
Fishbone.v
Barebones.v
HelloModule.v
