(* ===== verification/Prelude.v ===== *)
(** * Machine-checked model of the fishboneOS monolithic kernel

    fishboneOS is a 32-bit x86 kernel in C (src/src/kernel/monolithic).  This
    development translates its components to executable Rocq functions over
    explicit state and proves what they are meant to do.  Paths below are
    relative to src/src/kernel/monolithic; [kernel/x.c] is
    kernel/src/kernel/x.c, [drivers/x.c] is kernel/src/drivers/x.c, [arch/x]
    is kernel/src/arch/i386/x, [libc/x] is libc/src/x.

    ** How the code is modelled

    - C functions are programs of the monad [M S A] (Prelude): they take the state
      [S] of their component and answer a value and a state, or [Trap] (an index
      outside its array, an access to an unmapped page, a dereferenced NULL), or
      [NoFuel] (the bound of a loop was reached).  [wp c Q s] says that [c] returns
      from [s] and [Q] holds: a proof of it excludes both failures.  [total c] says
      that [c] never answers [NoFuel].  [zoom] runs a component's program inside a
      larger state, which is how the components are composed.
    - Integers are [Z] with the wrap-around of their width written out ([u32],
      [u16], [u8], [s32]); structs are records with an [Eta] instance and the update
      notation [x <| field := v |>]; enums are inductive types; arrays are lists,
      memory is a finite map from addresses to bytes.
    - What is not code of the repository is an interface: the processor's [in] and
      [out] instructions are the class [PortIO] (Io), the disk as the file system
      sees it is [BlockDevice] (Io), the frame allocator as its clients see it is
      [FrameAllocator] (Pmm).  The last two have laws, and the components that
      implement them discharge these: [pmm_FrameAllocator] in Pmm, and
      [drive_BlockDevice] in Ata for the ATA driver over a programmed-I/O drive.
      The clients' theorems hold for every implementation.

    ** The files

    - Prelude: the monad, its loops ([for_each], [for_], [iter]) and their rules, the
      tactics [wp_steps] and [total_steps], width arithmetic, array access.
    - PhysMem: physical memory as bytes, little-endian words, the page walk of the
      processor.
    - Pmm: [kernel/pmm.c], the frame bitmap and the region table.
    - Vmm: [kernel/vmm.c] on a machine with CR3, memory and a TLB that may keep
      stale translations; [vspace d s] is the invariant of the address space whose
      directory is frame [d].
    - Malloc: [kernel/malloc.c], the heap as a doubly linked list of headers;
      [heap_inv] relates it to the list of its chunks.
    - Paging: [kernel/paging.c], the address space built at boot.
    - Io, Ata: [kernel/io.h], [drivers/block.h]; [drivers/ata.c], [drivers/block.c]
      and a drive with a status register, latency and a data phase.
    - Fat16 (the code of [kernel/fat16.c]), Fat16Dir, Fat16Path, Fat16File,
      Fat16Write, Fat16Roundtrip: the directory, paths and mounting, reading,
      writing, and the round trip of a file.
    - Task (the code of [kernel/task.c] up to kernel tasks, [drivers/timer.c]'s tick),
      Sched, SchedSpec, SchedFair, SchedLife, SchedExit: the ready list as a queue,
      an abstract scheduler ([sched]: the tasks without their links, and a list),
      that the code refines it ([models]), fairness, creation and stacks, exit and
      zombies.
    - Elf, ElfSpec: [kernel/elf_loader.c], and what the loader leaves in memory.
    - TaskUser: the rest of [kernel/task.c], user tasks and their stacks, and the
      [libc/string] functions they use; UserStack: the stack a program starts on.
    - Drivers: [drivers/keyboard.c], [drivers/serial.c], [drivers/timer.c],
      [arch/tty.c], [arch/pic.c].
    - Libc: [libc/stdlib/itoa.c], [libc/stdio], [kernel/log.c].
    - Descriptors: [arch/gdt.c], [arch/idt.c] and what the processor decodes.
    - Module: [kernel/module.c], [kernel/module_loader.c].
    - Syscall, SyscallSpec: [kernel/syscall.c], [kernel/interrupt.c] over [os], the
      composition of the tasks, the console, the file system and the modules.
      SyscallIo: [user_bytes], the bytes of a buffer as the process sees them, and the
      calls on files; SyscallAlloc: the pages of a process's heap ([heap_pages]), taken
      and given back.
    - Boot: [kernel_main] of [kernel/kernel.c] over [machine], which adds the heap
      and the descriptor tables to [os].
    - Info: [kernel/cpu.c], [kernel/info.c], [kernel/memory_layout.c] and the tests of
      the DEBUG build, over [processor], a record of what the processor answers.
    - Menu, MenuMain: [kernel/menu_renderer.c], [kernel/menu_main.c] and [kernel_idle],
      over [desk], which adds the statics of the menus to [machine].  The renderer takes
      the callbacks as a parameter; [call_menu] is its instance.  MenuSpec: the screen
      after a text; MenuNav: the menus as an abstract navigation state ([nav]) and the
      picture of a menu; MenuInput: the input of a file name as an abstract [entry].
    - User: the system-call wrappers (src/src/user/include, kernel/user_syscalls.h).  A user
      program is an interaction tree over its memory accesses and its [int 0x80]; [uwp]
      runs it to its end on a kernel that is a parameter, [reaches] follows one that has
      none.  UserShell, UserInit, UserHello: the programs under src/src/user and the tasks
      linked into the kernel.  UserShellSpec, UserTerminal: the words of a line, the
      interface [Terminal] of a kernel's calls 1 and 8, and the shell on it.
    - Fishbone, Barebones: the two smaller kernels, src/src/kernel/fishbone (on a model
      of the 16550 port, [uart]) and src/src/kernel/barebones.  HelloModule: the example
      module.

    ** What is proved

    - Memory: [pmm_init] frees exactly the available and unreserved frames;
      allocation and release; [vmm_map_page] and [vmm_unmap_page] change one
      translation and keep [vspace]; a cloned directory agrees with its parent and
      shares its user tables; [paging_init] enters a good address space; [kmalloc]
      and [kfree] keep the heap a tiling of chunks and change the allocations by
      exactly one block.
    - Files: the driver transfers exactly one sector; the functions of the file
      system are described on the volume's bytes for any block device; what is
      written to a new file is read back after it is closed and reopened.
    - Tasks: the scheduler, the tick, creation and exit refine their abstract
      counterparts; every ready task runs after a bounded number of interrupts;
      kernel stacks are disjoint; zombies never run.
    - Programs: [load_elf] always comes back; loading a segment puts its bytes and
      zeros in place, page by page; [vsprintf] writes what a declarative reading of
      the format says; [itoa] writes numerals.
    - The boundary to user code: which buffers [validate_user_pointer] accepts, and
      that refused calls answer an error and change only the result register; what
      [SYS_WRITE_FILE] and [SYS_READ_FILE] move between the process's memory and the file,
      composing the theorems on the page tables and on the file system; how [SYS_ALLOC]
      grows the heap or takes everything back.
    - The user: the frames of the menus refine the transitions of [nav] and leave the
      picture of the menu on the screen; the keys of a file name create the file they
      spell, with the message that says so; the shell splits a line into its words and
      carries on its dialogue with the terminal.
    - The whole: [boot_memory] composes the theorems on memory and tasks into one on
      the machine after its initialisation, and [boot_idle] starts the first task.
    - The smaller kernels: what the stepwise kernel has sent and loaded when it halts,
      its tests passed; the screen of the smallest kernel as a ring of cells.
    - Some theorems state what the code does where this is not what it means to do:
      shared user tables after a clone, a wrapped buffer that is accepted, a write
      at a cluster boundary that overwrites.

    ** Bounds

    Loops whose bound the code gives run that often ([for_each], [for_]).  The
    others take fuel: the walk over the memory map (the theorems ask for more than
    the number of its entries), searches in the heap's list (more than its chunks),
    chains of clusters and string loops (a parameter), the polls of a device (a
    parameter; the theorems on the drive ask for more than its latency, those on
    booting that the serial port takes a character in time), digits (32, enough for
    base 2), the format loop (its length, since every step consumes a character).
    [load_elf_terminates] shows that the bounds inside the loader are never reached.

    ** Not modelled

    - Messages that components print with [printk] and that do not bear on their
      result, outside of Boot and Libc.
    - The assembly: register saving, [iret], the stack switch, and the flag that
      masks interrupts.  Handlers run to completion, as in the code, whose gates
      disable interrupts; a system call's loop that waits for an interrupt runs out
      of fuel.  The frame of an interrupt is a list of words.
    - CR0: paging is on after [paging_init], whose own accesses are physical.
    - The bytes inside heap blocks, the stack of the kernel's C code, and code run
      by tasks and modules (parameters).
    - The entry of an exception in the stepwise kernel, but for the gate it goes through.
    - The kernel a user program runs on is a parameter: Syscall, which is that kernel, is
      not connected to the interface [Terminal]. *)

From stdpp Require Import base list gmap numbers option tactics.
From Stdlib Require Import Lia ZArith.

#[export] Set Default Proof Using "Type".
Open Scope Z_scope.

(** ** Outcomes and the state monad of the kernel's C code

    [Ret] is a normal return; [Trap] is behaviour the C text does not define or
    the CPU faults on (an index outside its array, an access to an unmapped
    page); [NoFuel] says the iteration bound given to a loop ran out. *)

Inductive result (A : Type) : Type :=
  | Ret (a : A)
  | Trap
  | NoFuel.
Arguments Ret {A} a.
Arguments Trap {A}.
Arguments NoFuel {A}.

Definition M (S A : Type) : Type := S -> result (A * S).

Definition ret {S A} (a : A) : M S A := fun s => Ret (a, s).

Definition bind {S A B} (c : M S A) (k : A -> M S B) : M S B := fun s =>
  match c s with
  | Ret (a, s') => k a s'
  | Trap => Trap
  | NoFuel => NoFuel
  end.

Definition trap {S A} : M S A := fun _ => Trap.
Definition no_fuel {S A} : M S A := fun _ => NoFuel.
Definition get {S} : M S S := fun s => Ret (s, s).
Definition put {S} (s : S) : M S unit := fun _ => Ret (tt, s).
Definition gets {S A} (f : S -> A) : M S A := fun s => Ret (f s, s).
Definition modify {S} (f : S -> S) : M S unit := fun s => Ret (tt, f s).

(** An array access that may be out of range. *)
Definition some_or_trap {S A} (o : option A) : M S A :=
  match o with Some a => ret a | None => trap end.

Declare Scope c_scope.
Delimit Scope c_scope with c.
Notation "x <- c1 ;; c2" := (bind c1 (fun x => c2))
  (at level 100, c1 at next level, right associativity) : c_scope.
Notation "'let*' p := c1 'in' c2" := (bind c1 (fun v => match v with p => c2 end))
  (at level 100, p pattern, c1 at level 200, c2 at level 200, right associativity) : c_scope.
Notation "c1 ;; c2" := (bind c1 (fun _ => c2))
  (at level 100, right associativity) : c_scope.
Open Scope c_scope.

(** A component's code run inside a larger state. *)
Definition zoom {S T A} (pr : S -> T) (up : T -> S -> S) (c : M T A) : M S A :=
  fun s => match c (pr s) with
           | Ret (a, t) => Ret (a, up t s)
           | Trap => Trap
           | NoFuel => NoFuel
           end.

(** *** Loops

    [for_each n i body] runs [body i], ..., [body (i + n - 1)].
    [for_ n i body l] threads local variables and may leave early: [inl] goes
    on with new locals, [inr] is a [return] or [break] from inside the loop.
    [iter] is the general loop with an iteration bound. *)

Fixpoint for_each {S} (n : nat) (i : Z) (body : Z -> M S unit) : M S unit :=
  match n with
  | O => ret tt
  | S n' => body i ;; for_each n' (i + 1) body
  end.

Fixpoint for_ {S L R} (n : nat) (i : Z) (body : Z -> L -> M S (L + R)) (l : L)
  : M S (L + R) :=
  match n with
  | O => ret (inl l)
  | S n' =>
      r <- body i l ;;
      match r with
      | inl l' => for_ n' (i + 1) body l'
      | inr v => ret (inr v)
      end
  end.

Fixpoint iter {S L R} (fuel : nat) (body : L -> M S (L + R)) (l : L) : M S R :=
  match fuel with
  | O => no_fuel
  | S f =>
      r <- body l ;;
      match r with
      | inl l' => iter f body l'
      | inr v => ret v
      end
  end.

(** [for (i = a; i < b; ++i)] *)
Definition upto (a b : Z) : nat := Z.to_nat (b - a).

(** ** Total-correctness weakest preconditions *)

Definition wp {S A} (c : M S A) (Q : A -> S -> Prop) (s : S) : Prop :=
  match c s with
  | Ret (a, s') => Q a s'
  | _ => False
  end.

Section wp_rules.
Context {S : Type}.
Implicit Types s : S.

Lemma wp_ret {A} (a : A) Q s : Q a s -> wp (ret a) Q s.
Proof. done. Qed.

Lemma wp_bind {A B} (c : M S A) (k : A -> M S B) Q s :
  wp c (fun a s' => wp (k a) Q s') s -> wp (bind c k) Q s.
Proof. unfold wp, bind. by destruct (c s) as [[a s']| |]. Qed.

Lemma wp_bind_inv {A B} (c : M S A) (k : A -> M S B) Q s :
  wp (bind c k) Q s -> wp c (fun a s' => wp (k a) Q s') s.
Proof. unfold wp, bind. by destruct (c s) as [[a s']| |]. Qed.

Lemma wp_mono {A} (c : M S A) (P Q : A -> S -> Prop) s :
  wp c P s -> (forall a s', P a s' -> Q a s') -> wp c Q s.
Proof. unfold wp. destruct (c s) as [[a s']| |]; eauto. Qed.

Lemma wp_and {A} (c : M S A) (P Q : A -> S -> Prop) s :
  wp c P s -> wp c Q s -> wp c (fun a s' => P a s' /\ Q a s') s.
Proof. unfold wp. destruct (c s) as [[a s']| |]; eauto. Qed.

Lemma wp_get Q s : Q s s -> wp get Q s.
Proof. done. Qed.
Lemma wp_put Q s t : Q tt t -> wp (put t) Q s.
Proof. done. Qed.
Lemma wp_gets {A} (f : S -> A) Q s : Q (f s) s -> wp (gets f) Q s.
Proof. done. Qed.
Lemma wp_modify f Q s : Q tt (f s) -> wp (modify f) Q s.
Proof. done. Qed.
Lemma wp_some_or_trap {A} (o : option A) a Q s :
  o = Some a -> Q a s -> wp (some_or_trap o) Q s.
Proof. by intros ->. Qed.

Lemma wp_bind_ret {A} (c : M S A) Q s : wp (bind c ret) Q s -> wp c Q s.
Proof. unfold wp, bind. by destruct (c s) as [[a s']| |]. Qed.

Lemma wp_bind_assoc {A B C} (c : M S A) (k : A -> M S B) (k' : B -> M S C) Q s :
  wp (bind c (fun a => bind (k a) k')) Q s -> wp (bind (bind c k) k') Q s.
Proof. unfold wp, bind. by destruct (c s) as [[a s']| |]. Qed.

Lemma wp_unit_ret (c : M S unit) Q s : wp (bind c (fun _ => ret tt)) Q s -> wp c Q s.
Proof. unfold wp, bind. by destruct (c s) as [[[] s']| |]. Qed.

Lemma wp_run {A} (c : M S A) Q s :
  wp c Q s <-> exists a s', c s = Ret (a, s') /\ Q a s'.
Proof.
  unfold wp. destruct (c s) as [[a s']| |]; split.
  - eauto.
  - by intros (a0 & s0 & [= -> ->] & ?).
  - done.
  - by intros (? & ? & ? & ?).
  - done.
  - by intros (? & ? & ? & ?).
Qed.

Lemma wp_for_each (I : Z -> S -> Prop) (n : nat) (i : Z) body s (Q : unit -> S -> Prop) :
  I i s ->
  (forall j s', i <= j < i + Z.of_nat n -> I j s' -> wp (body j) (fun _ t => I (j + 1) t) s') ->
  (forall s', I (i + Z.of_nat n) s' -> Q tt s') ->
  wp (for_each n i body) Q s.
Proof.
  revert i s. induction n as [|n IH]; intros i s HI Hb HQ; simpl.
  - apply wp_ret, HQ. by rewrite Z.add_0_r.
  - apply wp_bind. eapply wp_mono; [apply Hb; [lia|done]|].
    intros [] s' HI'. apply IH; [done| |].
    + intros j t Hj. apply Hb. lia.
    + intros t Ht. apply HQ. by replace (i + Z.of_nat (Datatypes.S n)) with (i + 1 + Z.of_nat n) by lia.
Qed.

Lemma wp_for {L R} (I : Z -> L -> S -> Prop) (n : nat) (i : Z)
    (body : Z -> L -> M S (L + R)) (l : L) s (Q : L + R -> S -> Prop) :
  I i l s ->
  (forall j l' s', i <= j < i + Z.of_nat n -> I j l' s' ->
     wp (body j l') (fun r t => match r with
                                | inl l'' => I (j + 1) l'' t
                                | inr v => Q (inr v) t
                                end) s') ->
  (forall l' s', I (i + Z.of_nat n) l' s' -> Q (inl l') s') ->
  wp (for_ n i body l) Q s.
Proof.
  revert i l s. induction n as [|n IH]; intros i l s HI Hb HQ; simpl.
  - apply wp_ret, HQ. by rewrite Z.add_0_r.
  - apply wp_bind. eapply wp_mono; [apply Hb; [lia|done]|].
    intros [l'|v] s' HI'; simpl.
    + apply IH; [done| |].
      * intros j l2 t Hj. apply Hb. lia.
      * intros l2 t Ht. apply HQ.
        by replace (i + Z.of_nat (Datatypes.S n)) with (i + 1 + Z.of_nat n) by lia.
    + by apply wp_ret.
Qed.

(** A loop with a variant: [m] decreases on every iteration and [fuel]
    exceeds its first value. *)
Lemma wp_iter {L R} (I : L -> S -> Prop) (m : L -> S -> nat) (fuel : nat)
    (body : L -> M S (L + R)) (l : L) s (Q : R -> S -> Prop) :
  (m l s < fuel)%nat ->
  I l s ->
  (forall l' s', I l' s' ->
     wp (body l') (fun r t => match r with
                              | inl l'' => I l'' t /\ (m l'' t < m l' s')%nat
                              | inr v => Q v t
                              end) s') ->
  wp (iter fuel body l) Q s.
Proof.
  revert l s. induction fuel as [|f IH]; intros l s Hm HI Hb; [lia|].
  simpl. apply wp_bind. eapply wp_mono; [by apply Hb|].
  intros [l'|v] s'; simpl.
  - intros [HI' Hlt]. apply IH; [lia|done|done].
  - by apply wp_ret.
Qed.

Lemma wp_zoom {T A} (pr : S -> T) (up : T -> S -> S) (c : M T A) Q s :
  wp c (fun a t => Q a (up t s)) (pr s) -> wp (zoom pr up c) Q s.
Proof. unfold wp, zoom. by destruct (c (pr s)) as [[a t]| |]. Qed.
End wp_rules.

(** Symbolic execution of the straight-line part of a program. *)
Ltac wp_step :=
  lazymatch goal with
  | |- wp (bind _ _) _ _ => apply wp_bind
  | |- wp (ret _) _ _ => apply wp_ret
  | |- wp get _ _ => apply wp_get
  | |- wp (gets _) _ _ => apply wp_gets
  | |- wp (put _) _ _ => apply wp_put
  | |- wp (modify _) _ _ => apply wp_modify
  | |- wp (zoom _ _ _) _ _ => apply wp_zoom
  end; cbv beta.
Ltac wp_steps := repeat wp_step.

(** ** Programs that never run out of fuel

    [total c] says that the iteration bounds in [c] are never reached: [c] returns
    or traps. *)

Definition total {S A} (c : M S A) : Prop := forall s, c s <> NoFuel.

Section total_rules.
Context {S : Type}.

Lemma total_ret {A} (a : A) : total (S := S) (ret a).
Proof. done. Qed.
Lemma total_trap {A} : total (S := S) (A := A) trap.
Proof. done. Qed.
Lemma total_get : total (S := S) get.
Proof. done. Qed.
Lemma total_put (s : S) : total (put s).
Proof. done. Qed.
Lemma total_gets {A} (f : S -> A) : total (gets f).
Proof. done. Qed.
Lemma total_modify (f : S -> S) : total (modify f).
Proof. done. Qed.
Lemma total_some_or_trap {A} (o : option A) : total (S := S) (some_or_trap o).
Proof. by destruct o. Qed.

Lemma total_bind {A B} (c : M S A) (k : A -> M S B) :
  total c -> (forall a, total (k a)) -> total (bind c k).
Proof.
  intros Hc Hk s. unfold bind. specialize (Hc s). destruct (c s) as [[a t]| |]; [apply Hk|done|done].
Qed.

Lemma total_zoom {T A} (pr : S -> T) (up : T -> S -> S) (c : M T A) : total c -> total (zoom pr up c).
Proof. intros Hc s. unfold zoom. specialize (Hc (pr s)). by destruct (c (pr s)) as [[a t]| |]. Qed.

Lemma total_for_each n i (body : Z -> M S unit) : (forall j, total (body j)) -> total (for_each n i body).
Proof.
  intros Hb. revert i. induction n as [|n IH]; intros i; [done|]. by apply total_bind.
Qed.

Lemma total_for {L R} n i (body : Z -> L -> M S (L + R)) l :
  (forall j l, total (body j l)) -> total (for_ n i body l).
Proof.
  intros Hb. revert i l. induction n as [|n IH]; intros i l; [done|].
  apply total_bind; [done|]. by intros [?|?].
Qed.

Lemma bind_Ret {A B} (c : M S A) (k : A -> M S B) s r :
  bind c k s = Ret r -> exists a s1, c s = Ret (a, s1) /\ k a s1 = Ret r.
Proof. unfold bind. destruct (c s) as [[a s1]| |]; [eauto|done|done]. Qed.

(** A loop whose body makes [m] smaller whenever it goes on. *)
Lemma total_iter {L R} (m : L -> nat) fuel (body : L -> M S (L + R)) l :
  (forall l, total (body l)) ->
  (forall l s l' s', body l s = Ret (inl l', s') -> (m l' < m l)%nat) ->
  (m l < fuel)%nat -> total (iter fuel body l).
Proof.
  intros Hb Hm. revert l. induction fuel as [|fuel IH]; intros l Hl s; [lia|]. cbn [iter]. unfold bind.
  pose proof (Hb l s) as Ht. specialize (Hm l s). destruct (body l s) as [[[l'|v] s']| |]; try done.
  apply IH. specialize (Hm l' s' eq_refl). lia.
Qed.
End total_rules.

Create HintDb total.
#[export] Hint Resolve total_ret total_trap total_get total_put total_gets total_modify total_some_or_trap
  total_zoom : total.

(** Walks through a program; what calls functions of its own is left to the hints. *)
Ltac total_step :=
  lazymatch goal with
  | |- forall _, _ => intro
  | |- total (bind _ _) => apply total_bind
  | |- total (for_each _ _ _) => apply total_for_each
  | |- total (for_ _ _ _ _) => apply total_for
  | |- total (match ?x with _ => _ end) => destruct x
  | |- total (let '(_, _) := ?x in _) => destruct x
  | |- total _ => solve [auto with total]
  end; cbv beta zeta.
Ltac total_steps := repeat total_step.

(** ** Machine-width integers *)

Definition wrap (w x : Z) : Z := x mod 2 ^ w.
Definition u8 (x : Z) : Z := x mod 256.
Definition u16 (x : Z) : Z := x mod 65536.
Definition u32 (x : Z) : Z := x mod 4294967296.
(** The value of a 32-bit pattern read as [int]. *)
Definition s32 (x : Z) : Z :=
  let y := u32 x in if y <? 2147483648 then y else y - 4294967296.

Lemma u32_range x : 0 <= u32 x < 4294967296.
Proof. apply Z.mod_pos_bound. lia. Qed.
Lemma u16_range x : 0 <= u16 x < 65536.
Proof. apply Z.mod_pos_bound. lia. Qed.
Lemma u8_range x : 0 <= u8 x < 256.
Proof. apply Z.mod_pos_bound. lia. Qed.
Lemma u32_small x : 0 <= x < 4294967296 -> u32 x = x.
Proof. apply Z.mod_small. Qed.
Lemma u16_small x : 0 <= x < 65536 -> u16 x = x.
Proof. apply Z.mod_small. Qed.
Lemma u8_small x : 0 <= x < 256 -> u8 x = x.
Proof. apply Z.mod_small. Qed.
Lemma u32_u32 x : u32 (u32 x) = u32 x.
Proof. apply u32_small, u32_range. Qed.

Create HintDb kernel.
#[export] Hint Resolve u8_range u16_range u32_range : kernel.

(** C truth value of an integer expression. *)
Definition truthy (x : Z) : bool := negb (x =? 0).

(** ** Arrays with C indices

    An index outside the array has no meaning in C; the model's accessors
    return [None] there and the caller traps. *)

Definition arr_get {A} (l : list A) (i : Z) : option A :=
  if 0 <=? i then l !! Z.to_nat i else None.

Definition arr_set {A} (l : list A) (i : Z) (v : A) : option (list A) :=
  if (0 <=? i) && (i <? Z.of_nat (length l)) then Some (<[Z.to_nat i := v]> l) else None.

Lemma arr_get_Some {A} (l : list A) i :
  0 <= i < Z.of_nat (length l) -> exists a, arr_get l i = Some a.
Proof.
  intros H. unfold arr_get. destruct (Z.leb_spec 0 i); [|lia].
  apply lookup_lt_is_Some_2. lia.
Qed.

Lemma arr_get_range {A} (l : list A) i a :
  arr_get l i = Some a -> 0 <= i < Z.of_nat (length l).
Proof.
  unfold arr_get. destruct (Z.leb_spec 0 i); [|done].
  intros ?%lookup_lt_Some. lia.
Qed.

Lemma arr_get_None {A} (l : list A) i :
  arr_get l i = None <-> ~ (0 <= i < Z.of_nat (length l)).
Proof.
  split.
  - intros H Hr. destruct (arr_get_Some l i Hr). congruence.
  - intros H. destruct (arr_get l i) eqn:E; [|done].
    by apply arr_get_range in E.
Qed.

Lemma arr_set_Some {A} (l : list A) i v :
  0 <= i < Z.of_nat (length l) -> arr_set l i v = Some (<[Z.to_nat i := v]> l).
Proof.
  intros H. unfold arr_set.
  by rewrite (proj2 (Z.leb_le 0 i)), (proj2 (Z.ltb_lt i _)) by lia.
Qed.

Lemma arr_set_inv {A} (l l' : list A) i v :
  arr_set l i v = Some l' ->
  0 <= i < Z.of_nat (length l) /\ l' = <[Z.to_nat i := v]> l.
Proof.
  unfold arr_set. intros H.
  destruct (Z.leb_spec 0 i), (Z.ltb_spec i (Z.of_nat (length l))); simplify_eq/=.
  split; [lia|done].
Qed.

Lemma arr_set_length {A} (l l' : list A) i v :
  arr_set l i v = Some l' -> length l' = length l.
Proof. intros [_ ->]%arr_set_inv. apply length_insert. Qed.

Lemma arr_get_set_eq {A} (l l' : list A) i v :
  arr_set l i v = Some l' -> arr_get l' i = Some v.
Proof.
  intros [H ->]%arr_set_inv. unfold arr_get.
  rewrite (proj2 (Z.leb_le 0 i)) by lia. apply list_lookup_insert_eq. lia.
Qed.

Lemma arr_get_set_ne {A} (l l' : list A) i j v :
  arr_set l i v = Some l' -> i <> j -> arr_get l' j = arr_get l j.
Proof.
  intros [H ->]%arr_set_inv Hne. unfold arr_get.
  destruct (Z.leb_spec 0 j); [|done]. apply list_lookup_insert_ne. lia.
Qed.

Lemma arr_get_set {A} (l l' : list A) i j v :
  arr_set l i v = Some l' ->
  arr_get l' j = if decide (i = j) then Some v else arr_get l j.
Proof.
  intros H. case_decide; subst; eauto using arr_get_set_eq, arr_get_set_ne.
Qed.

(** ** Field update

    [r <| p := v |>] is the record [r] with field [p] set to [v].  A record type
    supports it through an instance of [Eta] that rebuilds the record from its
    projections. *)

Class Eta (R : Type) := { eta : R -> R }.
Class Update {R T : Type} (p : R -> T) := { update : T -> R -> R }.
Arguments update {R T} p {_} v r : simpl never.
#[export] Hint Mode Update + + + : typeclass_instances.

Ltac solve_update :=
  lazymatch goal with
  | |- @Update ?R ?T ?p =>
      let i := constr:(_ : Eta R) in
      let u := constr:(fun (v : T) (r : R) =>
        ltac:(let f := eval cbv [eta] in (@eta R i) in
              let e := eval red in (f r) in
              match e with context C [p r] => let e' := context C [v] in exact e' end)) in
      exact {| update := u |}
  end.
#[export] Hint Extern 0 (Update _) => solve_update : typeclass_instances.

Notation "r <| p := v |>" := (update p v r)
  (at level 1, left associativity, p at level 9, v at level 200) : c_scope.

(** ** Bits *)

Lemma testbit_lor_bit b k j :
  0 <= k -> 0 <= j -> Z.testbit (Z.lor b (Z.shiftl 1 k)) j = Z.testbit b j || (j =? k).
Proof.
  intros Hk Hj. rewrite Z.lor_spec. f_equal.
  destruct (Z.eqb_spec j k) as [->|Hne].
  - rewrite Z.shiftl_spec, Z.sub_diag by lia. done.
  - rewrite Z.shiftl_spec by lia. destruct (Z.ltb_spec j k).
    + apply Z.testbit_neg_r. lia.
    + apply (Z.bits_above_log2 1 (j - k)); simpl; lia.
Qed.

Lemma testbit_land_not_bit b k j :
  0 <= k -> 0 <= j ->
  Z.testbit (Z.land b (Z.lnot (Z.shiftl 1 k))) j = Z.testbit b j && negb (j =? k).
Proof.
  intros Hk Hj. rewrite Z.land_spec, Z.lnot_spec by lia. do 2 f_equal.
  replace (Z.shiftl 1 k) with (Z.lor 0 (Z.shiftl 1 k)) by apply Z.lor_0_l.
  rewrite testbit_lor_bit by lia. by rewrite Z.bits_0.
Qed.

Lemma land_bit_zero b k :
  0 <= k -> (Z.land b (Z.shiftl 1 k) =? 0) = negb (Z.testbit b k).
Proof.
  intros Hk. destruct (Z.testbit b k) eqn:E; simpl.
  - apply Z.eqb_neq. intros H0.
    assert (Z.testbit (Z.land b (Z.shiftl 1 k)) k = true) as H1.
    { rewrite Z.land_spec, E, Z.shiftl_spec, Z.sub_diag by lia. done. }
    rewrite H0 in H1. by rewrite Z.bits_0 in H1.
  - apply Z.eqb_eq. apply Z.bits_inj'. intros n Hn.
    rewrite Z.bits_0, Z.land_spec.
    replace (Z.shiftl 1 k) with (Z.lor 0 (Z.shiftl 1 k)) by apply Z.lor_0_l.
    rewrite testbit_lor_bit, Z.bits_0 by lia. simpl.
    destruct (Z.eqb_spec n k) as [->|]; [by rewrite E|apply andb_false_r].
Qed.

Lemma u8_testbit b j : 0 <= j < 8 -> Z.testbit (u8 b) j = Z.testbit b j.
Proof. intros. unfold u8. change 256 with (2 ^ 8). by rewrite Z.mod_pow2_bits_low by lia. Qed.
