(* ===== verification/PhysMem.v ===== *)
(** * Byte-addressed memory and little-endian words

    Physical memory is a finite map from addresses to bytes, 0 where nothing
    was stored yet.  The 16, 32 and 64-bit accesses are the CPU's: little
    endian and without alignment. *)

From stdpp Require Import base list gmap numbers option tactics.
From Stdlib Require Import Lia ZArith.
From S2P Require Import Prelude.

(** ** Little-endian words as lists of bytes *)

Fixpoint le_bytes (n : nat) (v : Z) : list Z :=
  match n with
  | O => []
  | S n' => u8 v :: le_bytes n' (v / 256)
  end.

Fixpoint le_value (l : list Z) : Z :=
  match l with
  | [] => 0
  | b :: l' => u8 b + 256 * le_value l'
  end.

Lemma length_le_bytes n v : length (le_bytes n v) = n.
Proof. revert v. induction n; intros; simpl; auto. Qed.

Lemma le_value_bytes n v : le_value (le_bytes n v) = v mod 256 ^ Z.of_nat n.
Proof.
  revert v. induction n as [|n IH]; intros v; simpl.
  - by rewrite Z.mod_1_r.
  - rewrite IH. rewrite (u8_small (u8 v)) by apply u8_range.
    rewrite Nat2Z.inj_succ, Z.pow_succ_r by lia.
    rewrite Z.rem_mul_r by lia. done.
Qed.

Lemma le_value_range l : 0 <= le_value l < 256 ^ Z.of_nat (length l).
Proof.
  induction l as [|b l IH]; cbn [le_value length].
  - simpl. lia.
  - rewrite Nat2Z.inj_succ, Z.pow_succ_r by lia. pose proof (u8_range b). lia.
Qed.

Lemma le_bytes_value l :
  Forall (fun b => 0 <= b < 256) l -> le_bytes (length l) (le_value l) = l.
Proof.
  induction 1 as [|b l Hb _ IH]; simpl; [done|].
  rewrite (u8_small b) by done. f_equal.
  - unfold u8. rewrite Z.mul_comm, Z.mod_add by lia. by apply Z.mod_small.
  - rewrite Z.mul_comm, Z.div_add by lia. by rewrite (Z.div_small b), Z.add_0_l by lia.
Qed.

(** ** Memory *)

Definition read8 (m : gmap Z Z) (a : Z) : Z := u8 (default 0 (m !! a)).
Definition write8 (m : gmap Z Z) (a v : Z) : gmap Z Z := <[a := u8 v]> m.

Fixpoint read_bytes (m : gmap Z Z) (a : Z) (n : nat) : list Z :=
  match n with
  | O => []
  | S n' => read8 m a :: read_bytes m (a + 1) n'
  end.

Fixpoint write_bytes (m : gmap Z Z) (a : Z) (l : list Z) : gmap Z Z :=
  match l with
  | [] => m
  | b :: l' => write_bytes (write8 m a b) (a + 1) l'
  end.

Definition read32 (m : gmap Z Z) (a : Z) : Z := le_value (read_bytes m a 4).
Definition read64 (m : gmap Z Z) (a : Z) : Z := le_value (read_bytes m a 8).
Definition write32 (m : gmap Z Z) (a v : Z) : gmap Z Z := write_bytes m a (le_bytes 4 v).

Lemma read8_range m a : 0 <= read8 m a < 256.
Proof. apply u8_range. Qed.

Lemma read8_write8 m a b v :
  read8 (write8 m a v) b = if decide (a = b) then u8 v else read8 m b.
Proof.
  unfold read8, write8. case_decide; subst.
  - rewrite lookup_insert_eq. simpl. apply u8_small, u8_range.
  - by rewrite lookup_insert_ne.
Qed.

Lemma length_read_bytes m a n : length (read_bytes m a n) = n.
Proof. revert a. induction n; intros; simpl; auto. Qed.

Lemma read_bytes_lookup m a n i :
  (i < n)%nat -> read_bytes m a n !! i = Some (read8 m (a + Z.of_nat i)).
Proof.
  revert a i. induction n as [|n IH]; intros a [|i] Hi; [lia|lia|simpl|simpl].
  - by rewrite Z.add_0_r.
  - rewrite IH by lia. do 2 f_equal. lia.
Qed.

Lemma read_bytes_range m a n : Forall (fun b => 0 <= b < 256) (read_bytes m a n).
Proof.
  revert a. induction n; intros; simpl; constructor; auto using read8_range.
Qed.

Lemma read8_write_bytes_out m a l b :
  ~ (a <= b < a + Z.of_nat (length l)) -> read8 (write_bytes m a l) b = read8 m b.
Proof.
  revert m a. induction l as [|x l IH]; intros m a H; cbn [write_bytes length] in *; [done|].
  rewrite IH by lia. rewrite read8_write8. rewrite decide_False by lia. done.
Qed.

Lemma read8_write_bytes_in m a l i x :
  l !! i = Some x -> read8 (write_bytes m a l) (a + Z.of_nat i) = u8 x.
Proof.
  revert m a i. induction l as [|y l IH]; intros m a [|i] H; simplify_eq/=.
  - rewrite read8_write_bytes_out by lia. rewrite read8_write8, decide_True by lia. done.
  - replace (a + Z.of_nat (S i)) with (a + 1 + Z.of_nat i) by lia. by apply IH.
Qed.

Lemma read_bytes_ext m m' a n :
  (forall b, a <= b < a + Z.of_nat n -> read8 m b = read8 m' b) ->
  read_bytes m a n = read_bytes m' a n.
Proof.
  revert a. induction n as [|n IH]; intros a H; simpl; [done|].
  f_equal; [apply H; lia|]. apply IH. intros b Hb. apply H. lia.
Qed.

Lemma read_bytes_write_bytes_out m a l b n :
  a + Z.of_nat (length l) <= b \/ b + Z.of_nat n <= a ->
  read_bytes (write_bytes m a l) b n = read_bytes m b n.
Proof. intros H. apply read_bytes_ext. intros. apply read8_write_bytes_out. lia. Qed.

Lemma read_bytes_write_bytes_eq m a l :
  Forall (fun b => 0 <= b < 256) l ->
  read_bytes (write_bytes m a l) a (length l) = l.
Proof.
  intros Hl. apply list_eq_same_length with (length l); [done|by rewrite length_read_bytes|].
  intros i x y Hi Hx Hy. rewrite read_bytes_lookup in Hx by lia. simplify_eq.
  rewrite (read8_write_bytes_in m a l i y) by done.
  apply u8_small. rewrite Forall_lookup in Hl. eauto.
Qed.

Lemma read32_range m a : 0 <= read32 m a < 4294967296.
Proof.
  unfold read32. pose proof (le_value_range (read_bytes m a 4)) as H.
  rewrite length_read_bytes in H. done.
Qed.

Lemma le_bytes_range n v : Forall (fun b => 0 <= b < 256) (le_bytes n v).
Proof. revert v. induction n; intros; simpl; constructor; auto using u8_range. Qed.

Lemma read32_write32_eq m a v : read32 (write32 m a v) a = u32 v.
Proof.
  unfold read32, write32. pose proof (le_bytes_range 4 v) as Hr.
  pose proof (read_bytes_write_bytes_eq m a (le_bytes 4 v) Hr) as H.
  rewrite length_le_bytes in H. rewrite H, le_value_bytes. done.
Qed.

Lemma read32_write32_ne m a b v :
  a + 4 <= b \/ b + 4 <= a -> read32 (write32 m a v) b = read32 m b.
Proof.
  intros H. unfold read32, write32. rewrite read_bytes_write_bytes_out; [done|].
  by rewrite length_le_bytes.
Qed.

Lemma read8_write32_out m a b v : ~ (a <= b < a + 4) -> read8 (write32 m a v) b = read8 m b.
Proof. intros H. unfold write32. apply read8_write_bytes_out. by rewrite length_le_bytes. Qed.

Lemma read32_ext m m' a :
  (forall b, a <= b < a + 4 -> read8 m b = read8 m' b) -> read32 m a = read32 m' a.
Proof. intros H. unfold read32. f_equal. by apply read_bytes_ext. Qed.
