(* ===== verification/Pmm.v ===== *)
(** * Physical memory manager ([kernel/pmm.c], [kernel/pmm.h], [kernel/multiboot.h])

    The bitmap allocator of 4 KiB frames: the byte bitmap with the code's bit
    operations, the region table, [pmm_init] over a Multiboot memory map read
    from physical memory, allocation and release.  The interface
    [FrameAllocator] is what the virtual memory manager and the heap rely on;
    the instance at the end of the file discharges it from the bitmap code. *)

From stdpp Require Import base list gmap numbers option tactics strings.
From Stdlib Require Import Lia ZArith.
From S2P Require Import Prelude PhysMem.

Definition PAGE_SIZE : Z := 4096.
Definition BITMAP_SIZE : Z := 4096.
Definition MAX_PMM_REGIONS : Z := 64.
Definition BIOS_BOOT_RESERVED_END : Z := 0x000FFFFF.

(** ** What a frame allocator promises its clients

    [fa_used s f] says frame number [f] is not available.  [fa_alloc] answers
    the physical address of a frame, or 0 when every frame below [fa_total] is
    taken. *)

Class FrameAllocator (A : Type) := {
  fa_alloc : M A Z;
  fa_free : Z -> M A unit;
  fa_wf : A -> Prop;
  fa_used : A -> Z -> Prop;
  fa_limit : Z;
  fa_total : A -> Z;
  fa_limit_range : 0 <= fa_limit <= 1048576;
  fa_alloc_spec : forall s, fa_wf s ->
    wp fa_alloc (fun p s' => fa_wf s' /\ fa_total s' = fa_total s /\
      ((p = 0 /\ s' = s /\ forall f, 0 <= f < fa_total s -> fa_used s f) \/
       (exists f, p = f * 4096 /\ 0 < f < fa_limit /\ f < fa_total s /\ ~ fa_used s f /\
          forall g, 0 <= g < fa_limit -> (fa_used s' g <-> fa_used s g \/ g = f)))) s;
  fa_free_spec : forall s p, fa_wf s -> 4096 <= p < fa_limit * 4096 ->
    wp (fa_free p) (fun _ s' => fa_wf s' /\ fa_total s' = fa_total s /\
      forall g, 0 <= g < fa_limit -> (fa_used s' g <-> fa_used s g /\ g <> p / 4096)) s;
}.

(** ** State of [pmm.c] *)

Record physical_region := mkRegion {
  start_frame : Z;
  end_frame : Z;
  rtype : Z;
}.

(** [pmm_regions] holds the first [pmm_region_count] entries of the C array. *)
Record pmm := mkPmm {
  pmm_bitmap : list Z;
  pmm_regions : list physical_region;
  total_frames : Z;
}.

Definition set_bitmap (b : list Z) (s : pmm) : pmm :=
  mkPmm b (pmm_regions s) (total_frames s).
Definition set_regions (r : list physical_region) (s : pmm) : pmm :=
  mkPmm (pmm_bitmap s) r (total_frames s).
Definition set_total_frames (n : Z) (s : pmm) : pmm :=
  mkPmm (pmm_bitmap s) (pmm_regions s) n.

Definition pmm_region_count (s : pmm) : Z := Z.of_nat (length (pmm_regions s)).

(** ** Operations *)

Definition pmm_record_region (sf ef ty : Z) : M pmm unit :=
  s <- get ;;
  if MAX_PMM_REGIONS <=? pmm_region_count s then ret tt
  else put (set_regions (pmm_regions s ++ [mkRegion sf ef ty]) s).

Definition pmm_region_type_to_string (ty : Z) : string :=
  match ty with
  | 0 => "Reserved"
  | 1 => "Available"
  | 2 => "Reserved"
  | 3 => "ACPI reclaimable"
  | 4 => "ACPI NVS"
  | 5 => "Bad RAM"
  | _ => "Unknown"
  end.

Definition bitmap_read (i : Z) : M pmm Z :=
  s <- get ;; some_or_trap (arr_get (pmm_bitmap s) i).

Definition bitmap_write (i v : Z) : M pmm unit :=
  s <- get ;;
  b <- some_or_trap (arr_set (pmm_bitmap s) i (u8 v)) ;;
  put (set_bitmap b s).

Definition pmm_set_bit (frame_idx : Z) : M pmm unit :=
  b <- bitmap_read (frame_idx / 8) ;;
  bitmap_write (frame_idx / 8) (Z.lor b (Z.shiftl 1 (frame_idx mod 8))).

Definition pmm_clear_bit (frame_idx : Z) : M pmm unit :=
  b <- bitmap_read (frame_idx / 8) ;;
  bitmap_write (frame_idx / 8) (Z.land b (Z.lnot (Z.shiftl 1 (frame_idx mod 8)))).

Definition pmm_test_bit (frame_idx : Z) : M pmm Z :=
  b <- bitmap_read (frame_idx / 8) ;;
  ret (Z.land b (Z.shiftl 1 (frame_idx mod 8))).

(** The loops run over [start <= i <= end && i < BITMAP_SIZE * 8]. *)
Definition pmm_mark_range_free (sf ef : Z) : M pmm unit :=
  for_each (upto sf (Z.min (ef + 1) (BITMAP_SIZE * 8))) sf pmm_clear_bit.

Definition pmm_mark_range_used (sf ef : Z) : M pmm unit :=
  for_each (upto sf (Z.min (ef + 1) (BITMAP_SIZE * 8))) sf pmm_set_bit.

Definition pmm_alloc_frame : M pmm Z :=
  s <- get ;;
  r <- for_ (upto 0 (total_frames s)) 0
         (fun i (_ : unit) =>
            t <- pmm_test_bit i ;;
            if t =? 0 then
              pmm_set_bit i ;;
              ret (inr (u32 (i * PAGE_SIZE)))
            else ret (inl tt)) tt ;;
  match r with
  | inr addr => ret addr
  | inl _ => ret 0
  end.

Definition pmm_free_frame (addr : Z) : M pmm unit :=
  pmm_clear_bit (addr / PAGE_SIZE).

Definition pmm_get_total_frames : M pmm Z := gets total_frames.

Definition pmm_get_free_frames : M pmm Z :=
  s <- get ;;
  r <- for_ (upto 0 (total_frames s)) 0
         (fun i (free_frames : Z) =>
            t <- pmm_test_bit i ;;
            ret (inl (if t =? 0 then u32 (free_frames + 1) else free_frames) : Z + Z)) 0 ;;
  match r with inl n => ret n | inr n => ret n end.

Definition pmm_get_total_memory_kb : M pmm Z :=
  n <- pmm_get_total_frames ;; ret (u32 (n * PAGE_SIZE) / 1024).

Definition pmm_get_free_memory_kb : M pmm Z :=
  n <- pmm_get_free_frames ;; ret (u32 (n * PAGE_SIZE) / 1024).

(** *** [pmm_init] *)

Record multiboot_info := mkMultiboot {
  mb_flags : Z;
  mem_upper : Z;
  mmap_length : Z;
  mmap_addr : Z;
}.

(** A [multiboot_memory_map_t] (packed: [size] at 0, [addr] at 4, [len] at 12,
    [type] at 20). *)
Record mmap_entry := mkMmap {
  mm_size : Z;
  mm_addr : Z;
  mm_len : Z;
  mm_type : Z;
}.

Definition mmap_entry_at (m : gmap Z Z) (a : Z) : mmap_entry :=
  mkMmap (read32 m a) (read64 m (a + 4)) (read64 m (a + 12)) (read32 m (a + 20)).

Section init.
(** Physical memory as the boot loader left it, and the linker labels
    [kernel_physical_start] and [kernel_physical_end]. *)
Context (m : gmap Z Z) (kernel_physical_start kernel_physical_end : Z).

Definition raise_total (ef : Z) : M pmm unit :=
  s <- get ;;
  if total_frames s <? u32 (ef + 1) then put (set_total_frames (u32 (ef + 1)) s) else ret tt.

Definition mmap_start_frame (e : mmap_entry) : Z := u32 (mm_addr e / PAGE_SIZE).

(** [(uint32_t)((addr + len + PAGE_SIZE - 1) / PAGE_SIZE) - 1], clamped. *)
Definition mmap_end_frame (e : mmap_entry) : Z :=
  let ef := u32 (u32 (wrap 64 (mm_addr e + mm_len e + PAGE_SIZE - 1) / PAGE_SIZE) - 1) in
  if BITMAP_SIZE * 8 <=? ef then BITMAP_SIZE * 8 - 1 else ef.

Definition pmm_init_entry (e : mmap_entry) : M pmm unit :=
  pmm_record_region (mmap_start_frame e) (mmap_end_frame e) (mm_type e) ;;
  (if mm_type e =? 1 then pmm_mark_range_free (mmap_start_frame e) (mmap_end_frame e)
   else ret tt) ;;
  raise_total (mmap_end_frame e).

Definition pmm_init_mmap (fuel : nat) (mb : multiboot_info) : M pmm unit :=
  iter fuel
    (fun mmap =>
       if mmap <? u32 (mmap_addr mb + mmap_length mb) then
         pmm_init_entry (mmap_entry_at m mmap) ;;
         ret (inl (u32 (mmap + mm_size (mmap_entry_at m mmap) + 4)))
       else ret (inr tt))
    (mmap_addr mb).

Definition pmm_init_fallback (mb : multiboot_info) : M pmm unit :=
  let top_phys := u32 (u32 (mem_upper mb * 1024) + 0x00100000) in
  let n := top_phys / PAGE_SIZE in
  modify (set_total_frames (if BITMAP_SIZE * 8 <? n then BITMAP_SIZE * 8 else n)) ;;
  s <- get ;;
  pmm_record_region 0 (u32 (total_frames s - 1)) 1 ;;
  pmm_mark_range_free 0 (u32 (total_frames s - 1)).

Definition pmm_reserve (sf ef : Z) : M pmm unit :=
  pmm_record_region sf ef 0 ;; pmm_mark_range_used sf ef.

Definition has_mmap (mb : multiboot_info) : bool :=
  truthy (Z.land (mb_flags mb) (Z.shiftl 1 6)).

Definition mmap_buffer_end_frame (mb : multiboot_info) : Z :=
  u32 (mmap_addr mb + mmap_length mb - 1) / PAGE_SIZE.

Definition pmm_init_reserved (mb : multiboot_info) : M pmm unit :=
  pmm_reserve 0 (BIOS_BOOT_RESERVED_END / PAGE_SIZE) ;;
  pmm_reserve (kernel_physical_start / PAGE_SIZE) (u32 (kernel_physical_end - 1) / PAGE_SIZE) ;;
  pmm_reserve (0xB8000 / PAGE_SIZE) (0xB8000 / PAGE_SIZE) ;;
  if has_mmap mb then
    pmm_reserve (mmap_addr mb / PAGE_SIZE) (mmap_buffer_end_frame mb) ;;
    raise_total (mmap_buffer_end_frame mb)
  else ret tt.

Definition pmm_init_totals : M pmm unit :=
  s <- get ;;
  for_each (length (pmm_regions s)) 0
    (fun i => r <- some_or_trap (arr_get (pmm_regions s) i) ;; raise_total (end_frame r)).

Definition pmm_init (fuel : nat) (mb : multiboot_info) : M pmm unit :=
  put (mkPmm (replicate (Z.to_nat BITMAP_SIZE) 0xFF) [] 0) ;;
  (if has_mmap mb then pmm_init_mmap fuel mb else pmm_init_fallback mb) ;;
  pmm_init_reserved mb ;;
  pmm_init_totals ;;
  _ <- pmm_get_free_frames ;;
  ret tt.
End init.

(** ** Well-formedness and the meaning of the bitmap *)

Definition frame_used (s : pmm) (i : Z) : bool :=
  match arr_get (pmm_bitmap s) (i / 8) with
  | Some b => Z.testbit b (i mod 8)
  | None => true
  end.

Record pmm_wf (s : pmm) : Prop := {
  wf_bitmap_length : length (pmm_bitmap s) = Z.to_nat BITMAP_SIZE;
  wf_bitmap_bytes : Forall (fun b => 0 <= b < 256) (pmm_bitmap s);
  wf_total : 0 <= total_frames s <= BITMAP_SIZE * 8;
  wf_regions : pmm_region_count s <= MAX_PMM_REGIONS;
}.

(** [s'] differs from [s] in the bitmap only. *)
Definition only_bitmap (s s' : pmm) : Prop :=
  pmm_regions s' = pmm_regions s /\ total_frames s' = total_frames s.

Lemma bitmap_byte s i :
  pmm_wf s -> 0 <= i < BITMAP_SIZE * 8 ->
  exists b, arr_get (pmm_bitmap s) (i / 8) = Some b /\ 0 <= b < 256.
Proof.
  intros Hwf Hi. unfold BITMAP_SIZE in *.
  destruct (arr_get_Some (pmm_bitmap s) (i / 8)) as [b Hb].
  { rewrite (wf_bitmap_length _ Hwf). unfold BITMAP_SIZE.
    pose proof (Z.div_pos i 8). pose proof (Z.div_lt_upper_bound i 8 4096). lia. }
  exists b. split; [done|]. pose proof (wf_bitmap_bytes _ Hwf) as HF.
  rewrite Forall_lookup in HF. unfold arr_get in Hb.
  destruct (0 <=? i / 8); [eauto|done].
Qed.

Lemma wf_set_byte s k v b :
  pmm_wf s -> arr_set (pmm_bitmap s) k (u8 v) = Some b -> pmm_wf (set_bitmap b s).
Proof.
  intros [Hl Hb Ht Hr] Hs. split; simpl; [|..|done|done].
  - by rewrite (arr_set_length _ _ _ _ Hs).
  - apply arr_set_inv in Hs as [_ ->]. apply Forall_insert; [done|apply u8_range].
Qed.

(** Writing a byte whose bits are those of the old one except at [i mod 8]. *)
Lemma wp_bitmap_write s i b v (f : bool -> bool) :
  pmm_wf s -> 0 <= i < BITMAP_SIZE * 8 ->
  arr_get (pmm_bitmap s) (i / 8) = Some b ->
  (forall k, 0 <= k < 8 -> Z.testbit v k =
     if decide (k = i mod 8) then f (Z.testbit b k) else Z.testbit b k) ->
  wp (bitmap_write (i / 8) v) (fun _ s' => pmm_wf s' /\ only_bitmap s s' /\
     (forall j, 0 <= j -> frame_used s' j =
        if decide (j = i) then f (frame_used s j) else frame_used s j)) s.
Proof.
  intros Hwf Hi Hb Hv. unfold bitmap_write. wp_steps.
  pose proof (arr_get_range _ _ _ Hb) as Hr.
  pose proof (arr_set_Some (pmm_bitmap s) (i / 8) (u8 v) Hr) as Hset.
  eapply wp_some_or_trap; [exact Hset|]. wp_steps.
  split_and!; [by eapply wf_set_byte|done|].
  intros j Hj. unfold frame_used. cbn [pmm_bitmap set_bitmap].
  rewrite (arr_get_set _ _ _ _ _ Hset).
  pose proof (Z.mod_pos_bound j 8). pose proof (Z.mod_pos_bound i 8).
  case_decide as Hd.
  - rewrite <- Hd, Hb, u8_testbit, Hv by lia.
    destruct (decide (j mod 8 = i mod 8)) as [He|He].
    + rewrite decide_True; [done|]. rewrite (Z.div_mod i 8), (Z.div_mod j 8) by lia. lia.
    + rewrite decide_False; [done|]. by intros ->.
  - rewrite decide_False by (by intros ->). done.
Qed.

Lemma wp_set_bit s i :
  pmm_wf s -> 0 <= i < BITMAP_SIZE * 8 ->
  wp (pmm_set_bit i) (fun _ s' => pmm_wf s' /\ only_bitmap s s' /\
     (forall j, 0 <= j -> frame_used s' j = frame_used s j || (j =? i))) s.
Proof.
  intros Hwf Hi. unfold pmm_set_bit, bitmap_read. wp_steps.
  destruct (bitmap_byte s i Hwf Hi) as (b & Hb & _).
  eapply wp_some_or_trap; [exact Hb|]. pose proof (Z.mod_pos_bound i 8).
  eapply wp_mono; [apply (wp_bitmap_write s i b _ (fun _ => true)); [done..|]|].
  - intros k Hk. rewrite testbit_lor_bit by lia.
    case_decide; [subst; by rewrite Z.eqb_refl, orb_true_r|].
    rewrite (proj2 (Z.eqb_neq k _)) by done. apply orb_false_r.
  - intros [] s' (? & ? & Hf). split_and!; [done..|].
    intros j Hj. rewrite Hf by done. case_decide; subst.
    + by rewrite Z.eqb_refl, orb_true_r.
    + by rewrite (proj2 (Z.eqb_neq j i)), orb_false_r.
Qed.

Lemma wp_clear_bit s i :
  pmm_wf s -> 0 <= i < BITMAP_SIZE * 8 ->
  wp (pmm_clear_bit i) (fun _ s' => pmm_wf s' /\ only_bitmap s s' /\
     (forall j, 0 <= j -> frame_used s' j = frame_used s j && negb (j =? i))) s.
Proof.
  intros Hwf Hi. unfold pmm_clear_bit, bitmap_read. wp_steps.
  destruct (bitmap_byte s i Hwf Hi) as (b & Hb & _).
  eapply wp_some_or_trap; [exact Hb|]. pose proof (Z.mod_pos_bound i 8).
  eapply wp_mono; [apply (wp_bitmap_write s i b _ (fun _ => false)); [done..|]|].
  - intros k Hk. rewrite testbit_land_not_bit by lia.
    case_decide; [subst; by rewrite Z.eqb_refl, andb_false_r|].
    rewrite (proj2 (Z.eqb_neq k _)) by done. apply andb_true_r.
  - intros [] s' (? & ? & Hf). split_and!; [done..|].
    intros j Hj. rewrite Hf by done. case_decide; subst.
    + by rewrite Z.eqb_refl, andb_false_r.
    + by rewrite (proj2 (Z.eqb_neq j i)), andb_true_r.
Qed.

Lemma wp_test_bit s i (Q : Z -> pmm -> Prop) :
  pmm_wf s -> 0 <= i < BITMAP_SIZE * 8 ->
  (forall t, (t =? 0) = negb (frame_used s i) -> Q t s) ->
  wp (pmm_test_bit i) Q s.
Proof.
  intros Hwf Hi HQ. unfold pmm_test_bit, bitmap_read. wp_steps.
  destruct (bitmap_byte s i Hwf Hi) as (b & Hb & _).
  eapply wp_some_or_trap; [exact Hb|]. wp_steps. apply HQ.
  pose proof (Z.mod_pos_bound i 8). rewrite land_bit_zero by lia.
  unfold frame_used. by rewrite Hb.
Qed.

(** ** Ranges *)

Definition in_range (sf ef j : Z) : bool := (sf <=? j) && (j <=? ef).

Lemma only_bitmap_refl s : only_bitmap s s.
Proof. done. Qed.
Lemma only_bitmap_trans s1 s2 s3 :
  only_bitmap s1 s2 -> only_bitmap s2 s3 -> only_bitmap s1 s3.
Proof. intros [] []. split; congruence. Qed.

Ltac decide_bool :=
  unfold in_range in *;
  repeat match goal with
  | |- context [?a <=? ?b] => destruct (Z.leb_spec a b)
  | |- context [?a <? ?b] => destruct (Z.ltb_spec a b)
  | |- context [?a =? ?b] => destruct (Z.eqb_spec a b)
  end; simpl; rewrite ?andb_true_r, ?andb_false_r, ?orb_true_r, ?orb_false_r;
  try done; try lia.

Lemma wp_mark_range_used s sf ef :
  pmm_wf s -> 0 <= sf ->
  wp (pmm_mark_range_used sf ef) (fun _ s' => pmm_wf s' /\ only_bitmap s s' /\
    (forall j, 0 <= j < BITMAP_SIZE * 8 ->
       frame_used s' j = frame_used s j || in_range sf ef j)) s.
Proof.
  intros Hwf Hsf. unfold pmm_mark_range_used, upto, BITMAP_SIZE in *.
  apply (wp_for_each (fun i s' => pmm_wf s' /\ only_bitmap s s' /\
    forall j, 0 <= j < 4096 * 8 -> frame_used s' j = frame_used s j || in_range sf (i - 1) j)).
  - split_and!; [done|done|]. intros j Hj. decide_bool.
  - intros i s1 Hi (Hwf1 & Hb1 & Hf1).
    eapply wp_mono; [apply wp_set_bit; [done|unfold BITMAP_SIZE; lia]|].
    intros [] s2 (Hwf2 & Hb2 & Hf2). split_and!; [done|by eapply only_bitmap_trans|].
    intros j Hj. rewrite Hf2, Hf1 by lia. rewrite <- orb_assoc. f_equal. decide_bool.
  - intros s1 (Hwf1 & Hb1 & Hf1). split_and!; [done..|].
    intros j Hj. rewrite Hf1 by done. f_equal. decide_bool.
Qed.

Lemma wp_mark_range_free s sf ef :
  pmm_wf s -> 0 <= sf ->
  wp (pmm_mark_range_free sf ef) (fun _ s' => pmm_wf s' /\ only_bitmap s s' /\
    (forall j, 0 <= j < BITMAP_SIZE * 8 ->
       frame_used s' j = frame_used s j && negb (in_range sf ef j))) s.
Proof.
  intros Hwf Hsf. unfold pmm_mark_range_free, upto, BITMAP_SIZE in *.
  apply (wp_for_each (fun i s' => pmm_wf s' /\ only_bitmap s s' /\
    forall j, 0 <= j < 4096 * 8 ->
      frame_used s' j = frame_used s j && negb (in_range sf (i - 1) j))).
  - split_and!; [done|done|]. intros j Hj. decide_bool.
  - intros i s1 Hi (Hwf1 & Hb1 & Hf1).
    eapply wp_mono; [apply wp_clear_bit; [done|unfold BITMAP_SIZE; lia]|].
    intros [] s2 (Hwf2 & Hb2 & Hf2). split_and!; [done|by eapply only_bitmap_trans|].
    intros j Hj. rewrite Hf2, Hf1 by lia. rewrite <- andb_assoc. f_equal. decide_bool.
  - intros s1 (Hwf1 & Hb1 & Hf1). split_and!; [done..|].
    intros j Hj. rewrite Hf1 by done. f_equal. decide_bool.
Qed.

(** ** Allocation and release *)

(** [s'] is [s] with frame [i] taken. *)
Definition takes_frame (i : Z) (s s' : pmm) : Prop :=
  pmm_wf s' /\ only_bitmap s s' /\
  (forall j, 0 <= j -> frame_used s' j = frame_used s j || (j =? i)).

Definition alloc_post (s : pmm) (p : Z) (s' : pmm) : Prop :=
  (p = 0 /\ s' = s /\ forall i, 0 <= i < total_frames s -> frame_used s i = true) \/
  (exists i, p = i * PAGE_SIZE /\ 0 <= i < total_frames s /\ frame_used s i = false /\
     (forall j, 0 <= j < i -> frame_used s j = true) /\ takes_frame i s s').

Lemma wp_alloc_frame s : pmm_wf s -> wp pmm_alloc_frame (alloc_post s) s.
Proof.
  intros Hwf. pose proof (wf_total _ Hwf) as Ht. unfold BITMAP_SIZE in Ht.
  unfold pmm_alloc_frame. wp_steps.
  apply (wp_for (fun i _ s' => s' = s /\ forall j, 0 <= j < i -> frame_used s j = true)).
  - split; [done|]. lia.
  - intros i [] s' Hi (-> & Hlow). unfold upto in Hi. wp_steps.
    apply wp_test_bit; [done|unfold BITMAP_SIZE; lia|]. intros t Ht0. rewrite Ht0.
    destruct (frame_used s i) eqn:Hu; simpl; wp_steps.
    + split; [done|]. intros j Hj. destruct (decide (j = i)); [by subst|]. apply Hlow. lia.
    + eapply wp_mono; [apply wp_set_bit; [done|unfold BITMAP_SIZE; lia]|].
      intros [] s1 (? & ? & ?). wp_steps. right. exists i.
      split_and!; [unfold PAGE_SIZE; apply u32_small; lia|lia|lia|done|done|].
      by unfold takes_frame.
  - intros [] s' (-> & Hall). wp_steps. left. split_and!; [done..|].
    intros i Hi. apply Hall. unfold upto. lia.
Qed.

Lemma wp_free_frame s p :
  pmm_wf s -> 0 <= p < BITMAP_SIZE * 8 * PAGE_SIZE ->
  wp (pmm_free_frame p) (fun _ s' => pmm_wf s' /\ only_bitmap s s' /\
    (forall j, 0 <= j -> frame_used s' j = frame_used s j && negb (j =? p / PAGE_SIZE))) s.
Proof.
  intros Hwf Hp. unfold pmm_free_frame. apply wp_clear_bit; [done|].
  unfold BITMAP_SIZE, PAGE_SIZE in *.
  pose proof (Z.div_pos p 4096). pose proof (Z.div_lt_upper_bound p 4096 32768). lia.
Qed.

(** Two well-formed states with the same meaning have the same bitmap. *)
Lemma bitmap_determined s s' :
  pmm_wf s -> pmm_wf s' -> only_bitmap s s' ->
  (forall j, 0 <= j < BITMAP_SIZE * 8 -> frame_used s' j = frame_used s j) -> s' = s.
Proof.
  intros Hwf Hwf' [Hr Ht] Hf. destruct s as [b r t], s' as [b' r' t']; simpl in *. subst. f_equal.
  pose proof (wf_bitmap_length _ Hwf) as Hl. pose proof (wf_bitmap_length _ Hwf') as Hl'.
  pose proof (wf_bitmap_bytes _ Hwf) as HB. pose proof (wf_bitmap_bytes _ Hwf') as HB'.
  simpl in *. rewrite Forall_lookup in HB, HB'.
  apply list_eq_same_length with (length b); [done|congruence|].
  intros i x y Hi Hx Hy. specialize (HB' _ _ Hx). specialize (HB _ _ Hy).
  apply Z.bits_inj'. intros k Hk. destruct (Z.ltb_spec k 8).
  - specialize (Hf (Z.of_nat i * 8 + k)). unfold frame_used in Hf. simpl in Hf.
    rewrite Z.div_add_l, (Z.div_small k), Z.add_0_r in Hf by lia.
    rewrite (Z.add_comm _ k), Z.mod_add, (Z.mod_small k) in Hf by lia.
    unfold arr_get in Hf. rewrite (proj2 (Z.leb_le 0 (Z.of_nat i))) in Hf by lia.
    rewrite Nat2Z.id, Hx, Hy in Hf. apply Hf. unfold BITMAP_SIZE in *. lia.
  - rewrite <- (Z.mod_small x (2 ^ 8)), <- (Z.mod_small y (2 ^ 8)) by lia.
    by rewrite !Z.mod_pow2_bits_high by lia.
Qed.

(** ** Counting free frames *)

Definition free_count (s : pmm) : Z :=
  Z.of_nat (length (filter (fun i => frame_used s i = false) (seqZ 0 (total_frames s)))).

Lemma free_count_below s n :
  0 <= n ->
  Z.of_nat (length (filter (fun i => frame_used s i = false) (seqZ 0 n))) <= n.
Proof.
  intros Hn. etrans; [|by rewrite <- (Z2Nat.id n) at 1; [|done]; rewrite <- (length_seqZ 0 n)].
  apply inj_le, length_filter.
Qed.

Lemma wp_get_free_frames s :
  pmm_wf s -> wp pmm_get_free_frames (fun n s' => n = free_count s /\ s' = s) s.
Proof.
  intros Hwf. pose proof (wf_total _ Hwf) as Ht. unfold BITMAP_SIZE in Ht.
  unfold pmm_get_free_frames. wp_steps.
  apply (wp_for (fun i n s' => s' = s /\
    n = Z.of_nat (length (filter (fun i => frame_used s i = false) (seqZ 0 i))))).
  - done.
  - intros i n s' Hi (-> & ->). unfold upto in Hi. wp_steps.
    apply wp_test_bit; [done|unfold BITMAP_SIZE; lia|]. intros t ->. wp_steps.
    split; [done|]. rewrite seqZ_app, filter_app, length_app by lia.
    replace (seqZ (0 + i) 1) with [i] by done. rewrite filter_cons.
    pose proof (free_count_below s i ltac:(lia)).
    destruct (frame_used s i); simpl.
    + lia.
    + rewrite u32_small by lia. lia.
  - intros n s' (-> & ->). wp_steps. split; [|done]. unfold free_count, upto.
    do 4 f_equal. lia.
Qed.

Lemma free_count_take i s s' :
  frame_used s i = false -> 0 <= i < total_frames s -> only_bitmap s s' ->
  (forall j, 0 <= j -> frame_used s' j = frame_used s j || (j =? i)) ->
  free_count s' = free_count s - 1.
Proof.
  intros Hu Hi [_ Ht] Hf. unfold free_count. rewrite Ht.
  replace (total_frames s) with (i + (1 + (total_frames s - i - 1))) by lia.
  rewrite !seqZ_app, !filter_app, !length_app by lia.
  replace (seqZ (0 + i) 1) with [i] by done.
  rewrite !filter_cons, decide_False, decide_True; [|done|].
  2: { rewrite Hf, Z.eqb_refl, orb_true_r by lia. done. }
  assert (forall l, Forall (fun j => 0 <= j /\ j <> i) l ->
    filter (fun j => frame_used s' j = false) l = filter (fun j => frame_used s j = false) l) as E.
  { intros l. induction 1 as [|j l [Hj Hne] _ IH]; [done|].
    rewrite !filter_cons, IH, Hf, (proj2 (Z.eqb_neq j i)), orb_false_r by done. done. }
  rewrite !filter_nil, !E.
  - simpl. lia.
  - apply Forall_forall. intros j ?%elem_of_seqZ. lia.
  - apply Forall_forall. intros j ?%elem_of_seqZ. lia.
Qed.

(** ** Initialisation *)

(** The entries the [while] loop of [pmm_init] visits from address [a]. *)
Inductive mmap_walk (m : gmap Z Z) (stop : Z) : Z -> list mmap_entry -> Prop :=
  | walk_end a : stop <= a -> mmap_walk m stop a []
  | walk_next a l :
      a < stop ->
      mmap_walk m stop (u32 (a + mm_size (mmap_entry_at m a) + 4)) l ->
      mmap_walk m stop a (mmap_entry_at m a :: l).

Definition entry_frees (e : mmap_entry) (j : Z) : bool :=
  (mm_type e =? 1) && in_range (mmap_start_frame e) (mmap_end_frame e) j.

Definition fallback_frames (mb : multiboot_info) : Z :=
  Z.min (BITMAP_SIZE * 8) ((mem_upper mb * 1024 + 0x00100000) / PAGE_SIZE).

(** What the boot information says is RAM. *)
Definition available (mb : multiboot_info) (l : list mmap_entry) (j : Z) : bool :=
  if has_mmap mb then existsb (fun e => entry_frees e j) l else j <? fallback_frames mb.

(** What [pmm_init] keeps away from the allocator. *)
Definition reserved (ks ke : Z) (mb : multiboot_info) (j : Z) : bool :=
  in_range 0 (BIOS_BOOT_RESERVED_END / PAGE_SIZE) j ||
  in_range (ks / PAGE_SIZE) ((ke - 1) / PAGE_SIZE) j ||
  (j =? 0xB8000 / PAGE_SIZE) ||
  (has_mmap mb && in_range (mmap_addr mb / PAGE_SIZE) (mmap_buffer_end_frame mb) j).

(** Boot information [pmm_init] copes with: the kernel image and the memory map
    buffer lie in the 128 MiB the bitmap covers, and the walk over the map ends. *)
Record boot_ok (m : gmap Z Z) (ks ke : Z) (mb : multiboot_info) (l : list mmap_entry) : Prop := {
  boot_kernel : 0 <= ks /\ 1 <= ke <= BITMAP_SIZE * 8 * PAGE_SIZE;
  boot_walk : mmap_walk m (u32 (mmap_addr mb + mmap_length mb)) (mmap_addr mb) l;
  boot_map : has_mmap mb = true ->
    0 <= mmap_addr mb /\ mmap_buffer_end_frame mb < BITMAP_SIZE * 8;
  boot_mem : has_mmap mb = false ->
    0 <= mem_upper mb /\ mem_upper mb * 1024 + 0x00100000 < 4294967296;
}.

Definition init_inv (s : pmm) : Prop :=
  pmm_wf s /\ Forall (fun r => 0 <= u32 (end_frame r + 1) <= BITMAP_SIZE * 8) (pmm_regions s).

Lemma wp_record_region s sf ef ty :
  init_inv s -> 0 <= u32 (ef + 1) <= BITMAP_SIZE * 8 ->
  wp (pmm_record_region sf ef ty)
    (fun _ s' => init_inv s' /\ total_frames s' = total_frames s /\
                 forall j, frame_used s' j = frame_used s j) s.
Proof.
  intros [Hwf HF] Hef. unfold pmm_record_region. wp_steps.
  destruct (Z.leb_spec MAX_PMM_REGIONS (pmm_region_count s)); wp_steps; [done|].
  split_and!; [|done|done]. split.
  - destruct Hwf. split; simpl; [done..|].
    unfold pmm_region_count in *. simpl. rewrite length_app. simpl. lia.
  - simpl. apply Forall_app. split; [done|]. by constructor.
Qed.

Lemma wp_raise_total s ef :
  init_inv s -> 0 <= u32 (ef + 1) <= BITMAP_SIZE * 8 ->
  wp (raise_total ef)
    (fun _ s' => init_inv s' /\ pmm_regions s' = pmm_regions s /\
                 total_frames s' = Z.max (total_frames s) (u32 (ef + 1)) /\
                 forall j, frame_used s' j = frame_used s j) s.
Proof.
  intros [Hwf HF] Hef. unfold raise_total. wp_steps.
  destruct (Z.ltb_spec (total_frames s) (u32 (ef + 1))); wp_steps.
  - split_and!; [|done|simpl; lia|done]. split; [|done]. by destruct Hwf.
  - split_and!; [done|done|lia|done].
Qed.

Lemma init_inv_bitmap s s' :
  init_inv s -> pmm_wf s' -> only_bitmap s s' -> init_inv s'.
Proof. intros [_ HF] Hwf [Hr _]. split; [done|]. by rewrite Hr. Qed.

Lemma mmap_start_nonneg e : 0 <= mmap_start_frame e.
Proof. apply u32_range. Qed.

Lemma mmap_end_bound e : 0 <= mmap_end_frame e < BITMAP_SIZE * 8.
Proof.
  unfold mmap_end_frame, BITMAP_SIZE.
  match goal with |- context [u32 ?x] => pose proof (u32_range x) end.
  destruct (Z.leb_spec (4096 * 8) (u32 (u32 (wrap 64 (mm_addr e + mm_len e + PAGE_SIZE - 1) / PAGE_SIZE) - 1)));
    [lia|]. pose proof (u32_range (u32 (wrap 64 (mm_addr e + mm_len e + PAGE_SIZE - 1) / PAGE_SIZE) - 1)). lia.
Qed.

Lemma wp_init_entry e s :
  init_inv s ->
  wp (pmm_init_entry e) (fun _ s' => init_inv s' /\
    total_frames s' = Z.max (total_frames s) (mmap_end_frame e + 1) /\
    forall j, 0 <= j < BITMAP_SIZE * 8 ->
      frame_used s' j = frame_used s j && negb (entry_frees e j)) s.
Proof.
  intros Hi. pose proof (mmap_end_bound e) as He.
  assert (u32 (mmap_end_frame e + 1) = mmap_end_frame e + 1) as Eu
    by (unfold BITMAP_SIZE in *; apply u32_small; lia).
  assert (0 <= u32 (mmap_end_frame e + 1) <= BITMAP_SIZE * 8) as He' by (rewrite Eu; lia).
  unfold pmm_init_entry, entry_frees. wp_steps.
  eapply wp_mono; [by apply wp_record_region|]. intros [] s1 (Hi1 & Ht1 & Hf1). wp_steps.
  destruct (mm_type e =? 1).
  - eapply wp_mono; [apply wp_mark_range_free; [apply Hi1|apply mmap_start_nonneg]|].
    intros [] s2 (Hwf2 & Hb2 & Hf2). pose proof Hb2 as [_ Ht2].
    eapply wp_mono; [apply wp_raise_total; [by eapply init_inv_bitmap|done]|].
    intros [] s3 (Hi3 & _ & Ht3 & Hf3). split_and!; [done|congruence|].
    intros j Hj. by rewrite Hf3, Hf2, Hf1.
  - wp_steps. eapply wp_mono; [by apply wp_raise_total|].
    intros [] s3 (Hi3 & _ & Ht3 & Hf3). split_and!; [done|congruence|].
    intros j Hj. by rewrite Hf3, Hf1, andb_true_r.
Qed.

Lemma wp_init_mmap m mb l fuel s :
  mmap_walk m (u32 (mmap_addr mb + mmap_length mb)) (mmap_addr mb) l ->
  (length l < fuel)%nat -> init_inv s ->
  wp (pmm_init_mmap m fuel mb) (fun _ s' => init_inv s' /\ total_frames s <= total_frames s' /\
    (forall j, existsb (fun e => entry_frees e j) l = true -> j < total_frames s') /\
    forall j, 0 <= j < BITMAP_SIZE * 8 ->
      frame_used s' j = frame_used s j && negb (existsb (fun e => entry_frees e j) l)) s.
Proof.
  unfold pmm_init_mmap. generalize (mmap_addr mb) at 2 4 as a.
  intros a Hw. revert fuel s.
  induction Hw as [a Ha|a l Ha Hw IH]; intros [|fuel] s Hfuel Hi; simpl in Hfuel; [lia| |lia|];
    cbn [iter]; wp_steps.
  - rewrite (proj2 (Z.ltb_ge _ _)) by done. wp_steps. split_and!; [done|lia|done|].
    intros j Hj. by rewrite andb_true_r.
  - rewrite (proj2 (Z.ltb_lt _ _)) by done. wp_steps.
    eapply wp_mono; [by apply wp_init_entry|]. intros [] s1 (Hi1 & Ht1 & Hf1). wp_steps.
    eapply wp_mono; [apply IH; [lia|done]|]. intros [] s2 (Hi2 & Ht2 & Hl2 & Hf2). split_and!; [done|lia| |].
    { intros j. cbn [existsb]. rewrite orb_true_iff. intros [Hj|Hj]; [|by apply Hl2].
      unfold entry_frees, in_range in Hj. lia. }
    intros j Hj. rewrite Hf2, Hf1 by done. simpl. by rewrite negb_orb, andb_assoc.
Qed.

Lemma wp_reserve s sf ef :
  init_inv s -> 0 <= sf -> 0 <= ef < BITMAP_SIZE * 8 ->
  wp (pmm_reserve sf ef) (fun _ s' => init_inv s' /\ total_frames s' = total_frames s /\
    forall j, 0 <= j < BITMAP_SIZE * 8 ->
      frame_used s' j = frame_used s j || in_range sf ef j) s.
Proof.
  intros Hi Hsf Hef. unfold pmm_reserve. wp_steps.
  eapply wp_mono; [apply wp_record_region; [done|]|].
  { unfold BITMAP_SIZE in *. rewrite u32_small by lia. lia. }
  intros [] s1 (Hi1 & Ht1 & Hf1).
  eapply wp_mono; [apply wp_mark_range_used; [apply Hi1|done]|].
  intros [] s2 (Hwf2 & Hb2 & Hf2). pose proof Hb2 as [_ Ht2].
  split_and!; [by eapply init_inv_bitmap|congruence|].
  intros j Hj. by rewrite Hf2, Hf1.
Qed.

Lemma page_of_bound p : 0 <= p < BITMAP_SIZE * 8 * PAGE_SIZE -> 0 <= p / PAGE_SIZE < BITMAP_SIZE * 8.
Proof.
  unfold BITMAP_SIZE, PAGE_SIZE. intros.
  pose proof (Z.div_pos p 4096). pose proof (Z.div_lt_upper_bound p 4096 (4096 * 8)). lia.
Qed.

Lemma wp_init_reserved m ks ke mb l s :
  boot_ok m ks ke mb l -> init_inv s ->
  wp (pmm_init_reserved ks ke mb) (fun _ s' => init_inv s' /\ total_frames s <= total_frames s' /\
    forall j, 0 <= j < BITMAP_SIZE * 8 ->
      frame_used s' j = frame_used s j || reserved ks ke mb j) s.
Proof.
  intros [[Hks Hke] _ Hmap _] Hi. unfold pmm_init_reserved, reserved. wp_steps.
  eapply wp_mono; [apply wp_reserve; [done|done|by compute]|].
  intros [] s1 (Hi1 & Ht1 & Hf1). wp_steps.
  assert (u32 (ke - 1) = ke - 1) as Hu.
  { apply u32_small. unfold BITMAP_SIZE, PAGE_SIZE in Hke. lia. }
  eapply wp_mono; [apply wp_reserve; [done|apply Z.div_pos; [done|by compute]|]|].
  { rewrite Hu. apply page_of_bound. lia. }
  intros [] s2 (Hi2 & Ht2 & Hf2). wp_steps. rewrite Hu in Hf2.
  eapply wp_mono; [apply wp_reserve; [done|by compute|by compute]|].
  intros [] s3 (Hi3 & Ht3 & Hf3).
  assert (forall j, 0 <= j < BITMAP_SIZE * 8 -> frame_used s3 j = frame_used s j ||
    (in_range 0 (BIOS_BOOT_RESERVED_END / PAGE_SIZE) j ||
     in_range (ks / PAGE_SIZE) ((ke - 1) / PAGE_SIZE) j || (j =? 0xB8000 / PAGE_SIZE))) as Hf.
  { intros j Hj. rewrite Hf3, Hf2, Hf1 by done. rewrite <- !orb_assoc. do 3 f_equal. decide_bool. }
  destruct (has_mmap mb) eqn:Hm; simpl; wp_steps.
  - destruct (Hmap eq_refl) as [Ha He].
    assert (0 <= mmap_buffer_end_frame mb) as He0.
    { unfold mmap_buffer_end_frame. apply Z.div_pos; [apply u32_range|by compute]. }
    eapply wp_mono; [apply wp_reserve; [done|apply Z.div_pos; [done|by compute]|lia]|].
    intros [] s4 (Hi4 & Ht4 & Hf4).
    eapply wp_mono; [apply wp_raise_total; [done|]|].
    { unfold BITMAP_SIZE in *. rewrite u32_small by lia. lia. }
    intros [] s5 (Hi5 & _ & Ht5 & Hf5). split_and!; [done|lia|].
    intros j Hj. rewrite Hf5, Hf4, Hf by done. by rewrite !orb_assoc.
  - split_and!; [done|lia|]. intros j Hj. rewrite Hf by done. by rewrite orb_false_r.
Qed.

Lemma wp_init_totals s :
  init_inv s ->
  wp pmm_init_totals (fun _ s' => init_inv s' /\ total_frames s <= total_frames s' /\
    forall j, frame_used s' j = frame_used s j) s.
Proof.
  intros Hi. unfold pmm_init_totals. wp_steps.
  apply (wp_for_each (fun _ s' => init_inv s' /\ pmm_regions s' = pmm_regions s /\
    total_frames s <= total_frames s' /\ forall j, frame_used s' j = frame_used s j));
    [split_and!; done || lia| |by intros s' (? & _ & ? & ?)].
  intros i s1 Hr (Hi1 & Hr1 & Ht1 & Hf1). wp_steps.
  destruct (arr_get_Some (pmm_regions s) i ltac:(lia)) as [r Hget].
  eapply wp_some_or_trap; [exact Hget|].
  eapply wp_mono; [apply wp_raise_total; [done|]|].
  - destruct Hi as [_ HF]. rewrite Forall_lookup in HF. unfold arr_get in Hget.
    destruct (0 <=? i); [eauto|done].
  - intros [] s2 (Hi2 & Hr2 & Ht2 & Hf2). split_and!; [done|congruence|lia|].
    intros j. by rewrite Hf2.
Qed.

Lemma frame_used_initial j :
  0 <= j < BITMAP_SIZE * 8 ->
  frame_used (mkPmm (replicate (Z.to_nat BITMAP_SIZE) 0xFF) [] 0) j = true.
Proof.
  unfold BITMAP_SIZE. intros Hj. unfold frame_used, arr_get. cbn [pmm_bitmap].
  pose proof (Z.div_pos j 8). pose proof (Z.div_lt_upper_bound j 8 4096).
  rewrite (proj2 (Z.leb_le 0 (j / 8))) by lia. rewrite lookup_replicate_2 by lia.
  pose proof (Z.mod_pos_bound j 8 ltac:(lia)) as Hm. revert Hm. generalize (j mod 8). intros k Hk.
  assert (k = 0 \/ k = 1 \/ k = 2 \/ k = 3 \/ k = 4 \/ k = 5 \/ k = 6 \/ k = 7) as Hc by lia.
  by repeat destruct Hc as [-> | Hc]; subst.
Qed.

Lemma init_inv_initial : init_inv (mkPmm (replicate (Z.to_nat BITMAP_SIZE) 0xFF) [] 0).
Proof.
  split; [|by constructor]. split; cbn [pmm_bitmap pmm_regions total_frames].
  - apply length_replicate.
  - apply Forall_replicate. lia.
  - unfold BITMAP_SIZE. lia.
  - by compute.
Qed.

Lemma wp_init_fallback mb s :
  init_inv s -> 0 <= mem_upper mb -> mem_upper mb * 1024 + 0x00100000 < 4294967296 ->
  wp (pmm_init_fallback mb) (fun _ s' => init_inv s' /\ total_frames s' = fallback_frames mb /\
    forall j, 0 <= j < BITMAP_SIZE * 8 ->
      frame_used s' j = frame_used s j && negb (j <? fallback_frames mb)) s.
Proof.
  intros [Hwf HF] H0 Hlt. unfold pmm_init_fallback, fallback_frames. wp_steps.
  rewrite (u32_small (mem_upper mb * 1024)), (u32_small (mem_upper mb * 1024 + 1048576)) by lia.
  set (n := (mem_upper mb * 1024 + 1048576) / PAGE_SIZE).
  assert (256 <= n) as Hn by (apply Z.div_le_lower_bound; [by compute|unfold PAGE_SIZE; lia]).
  replace (if BITMAP_SIZE * 8 <? n then BITMAP_SIZE * 8 else n) with (Z.min (BITMAP_SIZE * 8) n)
    by (destruct (Z.ltb_spec (BITMAP_SIZE * 8) n); lia).
  set (t := Z.min (BITMAP_SIZE * 8) n).
  assert (0 < t <= BITMAP_SIZE * 8) as Ht by (unfold t, BITMAP_SIZE; lia).
  cbn [total_frames set_total_frames]. unfold BITMAP_SIZE in Ht.
  rewrite (u32_small (t - 1)) by lia.
  assert (init_inv (set_total_frames t s)) as Hi.
  { split; [|done]. destruct Hwf. split; simpl; [done|done| |done]. unfold BITMAP_SIZE. lia. }
  eapply wp_mono; [apply wp_record_region; [done|rewrite u32_small; unfold BITMAP_SIZE; lia]|].
  intros [] s1 (Hi1 & Ht1 & Hf1).
  eapply wp_mono; [apply wp_mark_range_free; [apply Hi1|done]|].
  intros [] s2 (Hwf2 & Hb2 & Hf2). pose proof Hb2 as [_ Ht2].
  split_and!; [by eapply init_inv_bitmap|by rewrite Ht2, Ht1|].
  intros j Hj. rewrite Hf2, Hf1 by done. f_equal. decide_bool.
Qed.

Lemma wp_pmm_init m ks ke mb l fuel s0 :
  boot_ok m ks ke mb l -> (length l < fuel)%nat ->
  wp (pmm_init m ks ke fuel mb) (fun _ s => pmm_wf s /\
    (forall j, available mb l j = true -> j < total_frames s) /\
    forall j, 0 <= j < BITMAP_SIZE * 8 ->
      frame_used s j = negb (available mb l j) || reserved ks ke mb j) s0.
Proof.
  intros Hb Hfuel. unfold pmm_init. wp_steps.
  apply wp_mono with (P := fun _ s => init_inv s /\ (forall j, available mb l j = true -> j < total_frames s) /\
    forall j, 0 <= j < BITMAP_SIZE * 8 -> frame_used s j = negb (available mb l j)).
  - unfold available. destruct (has_mmap mb) eqn:Hm.
    + eapply wp_mono; [apply wp_init_mmap; [apply Hb|done|apply init_inv_initial]|].
      intros [] s (Hi & _ & Hl & Hf). split_and!; [done|done|]. intros j Hj.
      by rewrite Hf, frame_used_initial by done.
    + destruct (boot_mem _ _ _ _ _ Hb Hm).
      eapply wp_mono; [apply wp_init_fallback; [apply init_inv_initial|done|done]|].
      intros [] s (Hi & Ht & Hf). split_and!; [done|intros j ?%Z.ltb_lt; lia|]. intros j Hj.
      by rewrite Hf, frame_used_initial by done.
  - intros [] s (Hi & Hl & Hf). wp_steps.
    eapply wp_mono; [by eapply wp_init_reserved|]. intros [] s1 (Hi1 & Ht1 & Hf1). wp_steps.
    eapply wp_mono; [by apply wp_init_totals|]. intros [] s2 (Hi2 & Ht2 & Hf2). wp_steps.
    eapply wp_mono; [apply wp_get_free_frames, Hi2|]. intros n s3 (_ & ->). wp_steps.
    split_and!; [apply Hi2|intros j Hj; specialize (Hl j Hj); lia|]. intros j Hj. by rewrite Hf2, Hf1, Hf.
Qed.

(** ** The instance of the interface *)

Definition pmm_ready (s : pmm) : Prop := pmm_wf s /\ frame_used s 0 = true.

Lemma pmm_alloc_interface s : pmm_ready s ->
  wp pmm_alloc_frame (fun p s' => pmm_ready s' /\ total_frames s' = total_frames s /\
    ((p = 0 /\ s' = s /\ forall f, 0 <= f < total_frames s -> frame_used s f = true) \/
     (exists f, p = f * 4096 /\ 0 < f < BITMAP_SIZE * 8 /\ f < total_frames s /\ ~ frame_used s f = true /\
        forall g, 0 <= g < BITMAP_SIZE * 8 ->
          (frame_used s' g = true <-> frame_used s g = true \/ g = f)))) s.
Proof.
  intros [Hwf H0]. eapply wp_mono; [by apply wp_alloc_frame|].
  intros p s' [(-> & -> & Hall)|(i & -> & Hi & Hu & _ & Hwf' & [_ Ht] & Hf)];
    [split_and!; [done|done|by left]|].
  assert (i <> 0) by congruence. pose proof (wf_total _ Hwf).
  split_and!; [split; [done|rewrite Hf, H0 by lia; done]|done|].
  right. exists i. split_and!; [done|lia|lia|lia|congruence|].
  intros g Hg. rewrite Hf by lia. rewrite orb_true_iff, Z.eqb_eq. done.
Qed.

Lemma pmm_free_interface s p : pmm_ready s -> 4096 <= p < BITMAP_SIZE * 8 * 4096 ->
  wp (pmm_free_frame p) (fun _ s' => pmm_ready s' /\ total_frames s' = total_frames s /\
    forall g, 0 <= g < BITMAP_SIZE * 8 ->
      (frame_used s' g = true <-> frame_used s g = true /\ g <> p / 4096)) s.
Proof.
  intros [Hwf H0] Hp. eapply wp_mono; [apply wp_free_frame; [done|]|].
  { unfold PAGE_SIZE. lia. }
  intros [] s' (Hwf' & [_ Ht] & Hf). split_and!; [split; [done|]|done|].
  - rewrite Hf, H0 by lia. unfold PAGE_SIZE.
    assert (1 <= p / 4096) by (apply Z.div_le_lower_bound; lia).
    rewrite (proj2 (Z.eqb_neq 0 _)) by lia. done.
  - intros g Hg. rewrite Hf by lia. rewrite andb_true_iff, negb_true_iff, Z.eqb_neq. done.
Qed.

Lemma bitmap_limit : 0 <= BITMAP_SIZE * 8 <= 1048576.
Proof. unfold BITMAP_SIZE. lia. Qed.

#[export] Instance pmm_FrameAllocator : FrameAllocator pmm := {
  fa_alloc := pmm_alloc_frame;
  fa_free := pmm_free_frame;
  fa_wf := pmm_ready;
  fa_used := fun s i => frame_used s i = true;
  fa_limit := BITMAP_SIZE * 8;
  fa_total := total_frames;
  fa_limit_range := bitmap_limit;
  fa_alloc_spec := pmm_alloc_interface;
  fa_free_spec := pmm_free_interface;
}.

(** ** Properties *)

(** [pmm_alloc_frame] answers the address of the lowest-numbered free frame
    below [total_frames], marks exactly that frame used, and answers 0 without
    any change when there is none; the reported number of free frames goes down
    by one with every frame handed out. *)
Theorem pmm_alloc_lowest_free s :
  pmm_wf s ->
  wp pmm_alloc_frame (fun p s' => alloc_post s p s' /\
    (p = 0 /\ s' = s \/ free_count s' = free_count s - 1)) s.
Proof.
  intros Hwf. eapply wp_mono; [by apply wp_alloc_frame|].
  intros p s' Ha. split; [done|]. destruct Ha as [(-> & -> & _)|(i & _ & Hi & Hu & _ & _ & Ho & Hf)].
  - by left.
  - right. by eapply free_count_take.
Qed.

Definition demo_full : pmm := mkPmm (<[0%nat := 255]> (<[1%nat := 0xFB]> (replicate 4096 0))) [] 16.

Lemma demo_full_wf : pmm_wf demo_full.
Proof.
  split; cbn [demo_full pmm_bitmap pmm_regions total_frames].
  - rewrite !length_insert. apply length_replicate.
  - repeat (apply Forall_insert; [|lia]). apply Forall_replicate. lia.
  - unfold BITMAP_SIZE. lia.
  - by compute.
Qed.

Lemma pmm_alloc_lowest_free_witness :
  wp pmm_alloc_frame (fun p _ => p = 10 * 4096) demo_full /\
  wp pmm_alloc_frame (fun p s' => alloc_post demo_full p s' /\
    (p = 0 /\ s' = demo_full \/ free_count s' = free_count demo_full - 1)) demo_full.
Proof. split; [by vm_compute|apply pmm_alloc_lowest_free, demo_full_wf]. Defined.

(** Freeing the frame [pmm_alloc_frame] has just answered restores the
    allocator exactly. *)
Theorem pmm_alloc_free_roundtrip s :
  pmm_ready s ->
  wp (p <- pmm_alloc_frame ;; if p =? 0 then ret tt else pmm_free_frame p) (fun _ s' => s' = s) s.
Proof.
  intros [Hwf H0]. wp_steps. eapply wp_mono; [by apply wp_alloc_frame|].
  intros p s1 [(-> & -> & _)|(i & -> & Hi & Hu & _ & Hwf1 & Ho & Hf)]; [by apply wp_ret|].
  assert (i <> 0) by congruence. pose proof (wf_total _ Hwf) as Ht. unfold PAGE_SIZE.
  rewrite (proj2 (Z.eqb_neq _ 0)) by lia.
  eapply wp_mono; [apply wp_free_frame; [done|unfold PAGE_SIZE; lia]|].
  intros [] s2 (Hwf2 & Ho2 & Hf2). apply bitmap_determined; [done|done|by eapply only_bitmap_trans|].
  intros j Hj. rewrite Hf2, Hf by lia. unfold PAGE_SIZE. rewrite Z.div_mul by lia.
  destruct (Z.eqb_spec j i) as [->|]; [by rewrite Hu|].
  by rewrite orb_false_r, andb_true_r.
Qed.

Lemma pmm_alloc_free_roundtrip_witness :
  wp (p <- pmm_alloc_frame ;; if p =? 0 then ret tt else pmm_free_frame p)
     (fun _ s' => s' = demo_full) demo_full.
Proof. apply pmm_alloc_free_roundtrip. split; [apply demo_full_wf|reflexivity]. Defined.


(** A memory map of two entries at 0x9000: 16 MiB of RAM from 1 MiB, and one
    page of ACPI data. *)
Definition demo_map : gmap Z Z :=
  write_bytes ∅ 0x9000
    (le_bytes 4 20 ++ le_bytes 8 0x100000 ++ le_bytes 8 0x1000000 ++ le_bytes 4 1 ++
     le_bytes 4 20 ++ le_bytes 8 0x1100000 ++ le_bytes 8 0x1000 ++ le_bytes 4 3).
Definition demo_boot : multiboot_info := mkMultiboot 64 0 48 0x9000.

