(* ===== verification/Vmm.v ===== *)
(** * Virtual memory manager ([kernel/vmm.c], [kernel/vmm.h], [arch/i386/paging.s], [arch/i386/cpu.s])

    The kernel edits page directories and page tables through the recursive
    slot 1023 of the current directory.  The model runs that code on a small
    i386: byte-addressed physical memory, CR3, the two-level page walk, and a
    TLB that keeps every translation it ever used until [invlpg] or a write of
    CR3 drops it (the worst case for stale entries).  A virtual access to an
    unmapped page traps.  The frame allocator is the interface of [Pmm]. *)

From stdpp Require Import base list gmap numbers option tactics.
From Stdlib Require Import Lia ZArith.
From S2P Require Import Prelude PhysMem Pmm.

Definition KERNEL_VIRT_BASE : Z := 0xC0000000.
Definition VMM_PDT_VIRTUAL_ADDR : Z := 0xFFFFF000.
Definition VMM_TEMP_PAGE : Z := 0xC03FF000.
Definition PAGE_PRESENT : Z := 1.
Definition PAGE_WRITE : Z := 2.
Definition PAGE_USER : Z := 4.

(** ** The machine *)

(** The frame address held by a directory or table entry, and its present bit. *)
Definition entry_frame (e : Z) : Z := Z.land e 0xFFFFF000.
Definition present (e : Z) : bool := truthy (Z.land e PAGE_PRESENT).

(** Entry [k] of the directory or table in the frame at [F]. *)
Definition ent (m : gmap Z Z) (F k : Z) : Z := read32 m (F + 4 * k).

(** The page walk, from a virtual page number to the address of a frame. *)
Definition walk (m : gmap Z Z) (cr3 pg : Z) : option Z :=
  let pde := ent m (entry_frame cr3) (pg / 1024) in
  if present pde then
    let pte := ent m (entry_frame pde) (pg mod 1024) in
    if present pte then Some (entry_frame pte) else None
  else None.

Record vm (A : Type) := mkVm {
  vm_frames : A;
  vm_mem : gmap Z Z;
  vm_cr3 : Z;
  vm_tlb : gmap Z Z;
  current_pdt_phys : Z;
  kernel_pdt_phys : Z;
}.
Arguments mkVm {A}.
Arguments vm_frames {A}.
Arguments vm_mem {A}.
Arguments vm_cr3 {A}.
Arguments vm_tlb {A}.
Arguments current_pdt_phys {A}.
Arguments kernel_pdt_phys {A}.

Definition set_frames {A} (a : A) (s : vm A) : vm A :=
  mkVm a (vm_mem s) (vm_cr3 s) (vm_tlb s) (current_pdt_phys s) (kernel_pdt_phys s).
Definition set_mem {A} (m : gmap Z Z) (s : vm A) : vm A :=
  mkVm (vm_frames s) m (vm_cr3 s) (vm_tlb s) (current_pdt_phys s) (kernel_pdt_phys s).
Definition set_cr3 {A} (c : Z) (s : vm A) : vm A :=
  mkVm (vm_frames s) (vm_mem s) c (vm_tlb s) (current_pdt_phys s) (kernel_pdt_phys s).
Definition set_tlb {A} (t : gmap Z Z) (s : vm A) : vm A :=
  mkVm (vm_frames s) (vm_mem s) (vm_cr3 s) t (current_pdt_phys s) (kernel_pdt_phys s).

Tactic Notation "vm_simpl" "in" "*" :=
  cbn [set_frames set_mem set_cr3 set_tlb vm_frames vm_mem vm_cr3 vm_tlb
       current_pdt_phys kernel_pdt_phys] in *.

Section machine.
Context {A : Type}.

(** Translate one virtual address, through the TLB. *)
Definition mmu (va : Z) : M (vm A) Z :=
  s <- get ;;
  match vm_tlb s !! (va / 4096) with
  | Some f => ret (f + va mod 4096)
  | None =>
      match walk (vm_mem s) (vm_cr3 s) (va / 4096) with
      | Some f =>
          put (set_tlb (<[va / 4096 := f]> (vm_tlb s)) s) ;;
          ret (f + va mod 4096)
      | None => trap
      end
  end.

Definition vread8 (va : Z) : M (vm A) Z :=
  pa <- mmu va ;; s <- get ;; ret (read8 (vm_mem s) pa).
Definition vwrite8 (va v : Z) : M (vm A) unit :=
  pa <- mmu va ;; s <- get ;; put (set_mem (write8 (vm_mem s) pa v) s).

(** A 32-bit access inside one page is translated once; one that straddles
    two pages is a sequence of byte accesses. *)
Definition vread32 (va : Z) : M (vm A) Z :=
  if va mod 4096 <=? 4092 then
    pa <- mmu va ;; s <- get ;; ret (read32 (vm_mem s) pa)
  else
    b0 <- vread8 va ;; b1 <- vread8 (u32 (va + 1)) ;;
    b2 <- vread8 (u32 (va + 2)) ;; b3 <- vread8 (u32 (va + 3)) ;;
    ret (le_value [b0; b1; b2; b3]).
Definition vwrite32 (va v : Z) : M (vm A) unit :=
  if va mod 4096 <=? 4092 then
    pa <- mmu va ;; s <- get ;; put (set_mem (write32 (vm_mem s) pa v) s)
  else
    vwrite8 va (v mod 256) ;;
    vwrite8 (u32 (va + 1)) (v / 256 mod 256) ;;
    vwrite8 (u32 (va + 2)) (v / 65536 mod 256) ;;
    vwrite8 (u32 (va + 3)) (v / 16777216 mod 256).

(** [invlpg], and reads and writes of CR3 ([paging.s], [cpu.s]). *)
Definition invalidate_tlb_entry (va : Z) : M (vm A) unit :=
  modify (fun s => set_tlb (delete (va / 4096) (vm_tlb s)) s).
Definition read_cr3 : M (vm A) Z := gets vm_cr3.
Definition load_cr3 (c : Z) : M (vm A) unit :=
  modify (fun s => set_tlb ∅ (set_cr3 c s)).

(** [memset] of the kernel's libc, on virtual memory. *)
Definition vmemset (va c n : Z) : M (vm A) unit :=
  for_each (Z.to_nat n) 0 (fun i => vwrite8 (va + i) (u8 c)).

(** [uint32_t] element [k] of the table at virtual address [t]. *)
Definition table_get (t k : Z) : M (vm A) Z := vread32 (t + 4 * k).
Definition table_set (t k v : Z) : M (vm A) unit := vwrite32 (t + 4 * k) v.
End machine.

(** ** Operations of [vmm.c] *)

Section vmm.
Context {A : Type} `{!FrameAllocator A}.

Definition vm_alloc_frame : M (vm A) Z := zoom vm_frames set_frames fa_alloc.
Definition vm_free_frame (p : Z) : M (vm A) unit := zoom vm_frames set_frames (fa_free p).

Definition vmm_init (pdt_phys_addr : Z) : M (vm A) unit :=
  modify (fun s => mkVm (vm_frames s) (vm_mem s) (vm_cr3 s) (vm_tlb s)
                        pdt_phys_addr pdt_phys_addr).

Definition vmm_get_kernel_pdt_phys : M (vm A) Z := gets kernel_pdt_phys.

Definition pde_index (va : Z) : Z := Z.shiftr va 22.
Definition pte_index (va : Z) : Z := Z.land (Z.shiftr va 12) 0x3FF.

(** [(uint32_t * )(0xFFC00000 + idx * PAGE_SIZE)] *)
Definition pt_window (pde_idx : Z) : Z := 0xFFC00000 + pde_idx * PAGE_SIZE.
Definition kernel_pt : Z := pt_window (Z.shiftr KERNEL_VIRT_BASE 22).

Definition vmm_clone_kernel_mappings : M (vm A) Z :=
  new_pdt_phys <- vm_alloc_frame ;;
  if new_pdt_phys =? 0 then ret 0
  else
    table_set kernel_pt 1023 (Z.lor (Z.lor new_pdt_phys PAGE_PRESENT) PAGE_WRITE) ;;
    invalidate_tlb_entry VMM_TEMP_PAGE ;;
    vmemset VMM_TEMP_PAGE 0 PAGE_SIZE ;;
    (let kernel_base_pde := Z.shiftr KERNEL_VIRT_BASE 22 in
     for_each (upto 0 kernel_base_pde) 0
       (fun i => e <- table_get VMM_PDT_VIRTUAL_ADDR i ;; table_set VMM_TEMP_PAGE i e) ;;
     for_each (upto kernel_base_pde 1023) kernel_base_pde
       (fun i => e <- table_get VMM_PDT_VIRTUAL_ADDR i ;; table_set VMM_TEMP_PAGE i e)) ;;
    table_set VMM_TEMP_PAGE 1023 (Z.lor (Z.lor new_pdt_phys PAGE_PRESENT) PAGE_WRITE) ;;
    table_set kernel_pt 1023 0 ;;
    invalidate_tlb_entry VMM_TEMP_PAGE ;;
    ret new_pdt_phys.

(** Step 3 of [vmm_map_page] when the directory entry is absent; [false] is
    the early [return] taken when no frame is left. *)
Definition vmm_new_table (pde_idx flags : Z) : M (vm A) bool :=
  new_pt_paddr <- vm_alloc_frame ;;
  if new_pt_paddr =? 0 then ret false
  else
    table_set kernel_pt 1023 (Z.lor (Z.lor new_pt_paddr PAGE_PRESENT) PAGE_WRITE) ;;
    invalidate_tlb_entry VMM_TEMP_PAGE ;;
    vmemset VMM_TEMP_PAGE 0 PAGE_SIZE ;;
    table_set VMM_PDT_VIRTUAL_ADDR pde_idx (Z.lor (Z.lor new_pt_paddr flags) PAGE_PRESENT) ;;
    table_set kernel_pt 1023 0 ;;
    invalidate_tlb_entry VMM_TEMP_PAGE ;;
    ret true.

Definition vmm_map_page (vaddr paddr flags : Z) : M (vm A) unit :=
  let pde_idx := pde_index vaddr in
  let pte_idx := pte_index vaddr in
  pde <- table_get VMM_PDT_VIRTUAL_ADDR pde_idx ;;
  ok <- (if present pde then ret true else vmm_new_table pde_idx flags) ;;
  if (ok : bool) then
    table_set (pt_window pde_idx) pte_idx
      (Z.lor (Z.lor (Z.land paddr 0xFFFFF000) flags) PAGE_PRESENT) ;;
    invalidate_tlb_entry vaddr
  else ret tt.

Definition vmm_unmap_page (vaddr : Z) : M (vm A) unit :=
  table_set (pt_window (pde_index vaddr)) (pte_index vaddr) 0 ;;
  invalidate_tlb_entry vaddr.

Definition vmm_map_page_for_pdt (pdt_phys vaddr paddr flags : Z) : M (vm A) unit :=
  old_cr3 <- read_cr3 ;;
  load_cr3 pdt_phys ;;
  vmm_map_page vaddr paddr flags ;;
  load_cr3 old_cr3.

Definition vmm_unmap_page_for_pdt (pdt_phys vaddr : Z) : M (vm A) unit :=
  old_cr3 <- read_cr3 ;;
  load_cr3 pdt_phys ;;
  vmm_unmap_page vaddr ;;
  load_cr3 old_cr3.

Definition vmm_map_kernel_page (vaddr paddr : Z) : M (vm A) unit :=
  vmm_map_page vaddr paddr (Z.lor PAGE_PRESENT PAGE_WRITE).
Definition vmm_map_user_page (vaddr paddr : Z) : M (vm A) unit :=
  vmm_map_page vaddr paddr (Z.lor (Z.lor PAGE_PRESENT PAGE_WRITE) PAGE_USER).

Definition vmm_get_phys_addr (vaddr : Z) : M (vm A) Z :=
  let pde_idx := pde_index vaddr in
  let pte_idx := pte_index vaddr in
  let offset := Z.land vaddr 0xFFF in
  pde <- table_get VMM_PDT_VIRTUAL_ADDR pde_idx ;;
  if present pde then
    pte <- table_get (pt_window pde_idx) pte_idx ;;
    if present pte then
      ret (u32 (Z.land pte 0xFFFFF000 + offset))
    else ret 0
  else ret 0.

Definition vmm_free_page_directory (pdt_phys : Z) : M (vm A) unit :=
  kpdt <- vmm_get_kernel_pdt_phys ;;
  if (pdt_phys =? 0) || (pdt_phys =? kpdt) then ret tt
  else
    old_cr3 <- read_cr3 ;;
    load_cr3 pdt_phys ;;
    for_each (upto 0 (Z.shiftr KERNEL_VIRT_BASE 22)) 0
      (fun pde_idx =>
         e <- table_get VMM_PDT_VIRTUAL_ADDR pde_idx ;;
         if present e then
           let pt_phys := Z.land e 0xFFFFF000 in
           if pt_phys =? 0 then ret tt
           else
             table_set VMM_PDT_VIRTUAL_ADDR pde_idx 0 ;;
             vm_free_frame pt_phys
         else ret tt) ;;
    table_set VMM_PDT_VIRTUAL_ADDR 1023 0 ;;
    invalidate_tlb_entry VMM_PDT_VIRTUAL_ADDR ;;
    load_cr3 old_cr3 ;;
    vm_free_frame pdt_phys.
End vmm.

(** ** Address and entry arithmetic *)

Lemma land_low_high b f : 0 <= f < 4096 -> Z.land (4096 * b) f = 0.
Proof.
  intros Hf. apply Z.bits_inj'. intros n Hn. rewrite Z.land_spec, Z.bits_0.
  rewrite Z.mul_comm. change 4096 with (2 ^ 12). destruct (Z.ltb_spec n 12).
  - by rewrite Z.mul_pow2_bits_low by lia.
  - rewrite <- (Z.mod_small f (2 ^ 12)) by lia.
    by rewrite Z.mod_pow2_bits_high, andb_false_r by lia.
Qed.

Lemma lor_low_high b f : 0 <= f < 4096 -> Z.lor (4096 * b) f = 4096 * b + f.
Proof.
  intros Hf. pose proof (land_low_high b f Hf) as H.
  by rewrite Z.add_nocarry_lxor, Z.lxor_lor.
Qed.

Lemma entry_frame_spec e : 0 <= e < 4294967296 -> entry_frame e = 4096 * (e / 4096).
Proof.
  intros He. unfold entry_frame. rewrite (Z.div_mod e 4096) at 1 by lia.
  pose proof (Z.mod_pos_bound e 4096 ltac:(lia)) as Hm.
  rewrite <- lor_low_high, Z.land_lor_distr_l by done.
  change 0xFFFFF000 with (4096 * 0xFFFFF). rewrite (Z.land_comm (e mod 4096)).
  rewrite (land_low_high 0xFFFFF (e mod 4096)), Z.lor_0_r by done.
  assert (0 <= e / 4096 < 2 ^ 20) as Hq.
  { split; [apply Z.div_pos; lia|]. apply Z.div_lt_upper_bound; lia. }
  revert Hq. generalize (e / 4096). intros q Hq.
  rewrite !(Z.mul_comm 4096). change 4096 with (2 ^ 12).
  rewrite <- !Z.shiftl_mul_pow2, <- Z.shiftl_land by lia. f_equal.
  change 0xFFFFF with (Z.ones 20). rewrite Z.land_ones by lia. by apply Z.mod_small.
Qed.

Lemma entry_frame_add b f :
  0 <= b < 1048576 -> 0 <= f < 4096 -> entry_frame (4096 * b + f) = 4096 * b.
Proof.
  intros. rewrite entry_frame_spec by lia. f_equal. symmetry. apply Z.div_unique with f; lia.
Qed.

Lemma present_odd e : present e = Z.odd e.
Proof.
  unfold present, truthy, PAGE_PRESENT. change 1 with (Z.ones 1).
  rewrite Z.land_ones by lia. change (2 ^ 1) with 2. rewrite Zmod_odd. by destruct (Z.odd e).
Qed.

Lemma lor_flags_range f : 0 <= f < 4096 -> 0 <= Z.lor f PAGE_PRESENT < 4096.
Proof.
  intros Hf. split; [apply Z.lor_nonneg; unfold PAGE_PRESENT; lia|].
  apply Z.log2_lt_cancel.
  change (Z.log2 4096) with 12. rewrite Z.log2_lor by (unfold PAGE_PRESENT; lia).
  pose proof (Z.log2_le_mono f 4095 ltac:(lia)) as Hl. change (Z.log2 4095) with 11 in Hl.
  change (Z.log2 PAGE_PRESENT) with 0. lia.
Qed.

(** The entries the code builds: frame [4096 * b], some flags, present. *)
Definition mk_entry (b f : Z) : Z := 4096 * b + Z.lor f PAGE_PRESENT.

Lemma mk_entry_lor b f :
  0 <= f < 4096 -> Z.lor (Z.lor (4096 * b) f) PAGE_PRESENT = mk_entry b f.
Proof.
  intros Hf. rewrite <- Z.lor_assoc. apply lor_low_high, lor_flags_range, Hf.
Qed.

Lemma mk_entry_range b f :
  0 <= b < 1048576 -> 0 <= f < 4096 -> 0 <= mk_entry b f < 4294967296.
Proof. intros. unfold mk_entry. pose proof (lor_flags_range f). lia. Qed.

Lemma mk_entry_frame b f :
  0 <= b < 1048576 -> 0 <= f < 4096 -> entry_frame (mk_entry b f) = 4096 * b.
Proof. intros. apply entry_frame_add; [done|]. by apply lor_flags_range. Qed.

Lemma mk_entry_present b f : present (mk_entry b f) = true.
Proof.
  rewrite present_odd. unfold mk_entry.
  replace (4096 * b) with (2 * (2048 * b)) by lia. rewrite Z.odd_add, Z.odd_mul. simpl.
  rewrite <- Z.bit0_odd, Z.lor_spec. change (Z.testbit PAGE_PRESENT 0) with true.
  by rewrite orb_true_r.
Qed.

Lemma ent_range m F k : 0 <= ent m F k < 4294967296.
Proof. apply read32_range. Qed.

Lemma pde_index_spec va : pde_index va = va / 4096 / 1024.
Proof.
  unfold pde_index. rewrite Z.shiftr_div_pow2 by lia.
  rewrite Z.div_div by lia. done.
Qed.

Lemma pte_index_spec va : pte_index va = (va / 4096) mod 1024.
Proof.
  unfold pte_index. rewrite Z.shiftr_div_pow2 by lia.
  change 0x3FF with (Z.ones 10). by rewrite Z.land_ones by lia.
Qed.

(** ** Memory as tables *)

(** Frames as numbers: [4096 * f] is the address of frame [f]. *)
Lemma ent_write m f k g j v :
  0 <= k < 1024 -> 0 <= j < 1024 ->
  ent (write32 m (4096 * f + 4 * k) v) (4096 * g) j =
  if decide (f = g /\ k = j) then u32 v else ent m (4096 * g) j.
Proof.
  intros Hk Hj. unfold ent. case_decide as Hd.
  - destruct Hd as [-> ->]. apply read32_write32_eq.
  - apply read32_write32_ne. lia.
Qed.

Lemma ent_ext m m' F k :
  (forall b, F + 4 * k <= b < F + 4 * k + 4 -> read8 m b = read8 m' b) ->
  ent m F k = ent m' F k.
Proof. apply read32_ext. Qed.

(** [m'] is [m] with the frame number [f] zeroed. *)
Definition zeroed (f : Z) (m m' : gmap Z Z) : Prop :=
  forall a, read8 m' a = if decide (a / 4096 = f) then 0 else read8 m a.

Lemma ent_zeroed f m m' g k :
  zeroed f m m' -> 0 <= k < 1024 ->
  ent m' (4096 * g) k = if decide (g = f) then 0 else ent m (4096 * g) k.
Proof.
  intros Hz Hk.
  assert (forall b, 4096 * g + 4 * k <= b < 4096 * g + 4 * k + 4 -> b / 4096 = g) as Hpage.
  { intros b Hb. symmetry. apply Z.div_unique with (b - 4096 * g); lia. }
  case_decide as Hd.
  - rewrite (ent_ext m' ∅).
    + unfold ent, read32. cbn [read_bytes]. unfold read8. by rewrite !lookup_empty.
    + intros b Hb. rewrite Hz, decide_True by (rewrite Hpage; done).
      unfold read8. by rewrite lookup_empty.
  - apply ent_ext. intros b Hb. rewrite Hz, decide_False; [done|]. by rewrite Hpage.
Qed.

(** The two-level walk in terms of frame numbers. *)
Definition pde (m : gmap Z Z) (d i : Z) : Z := ent m (4096 * d) i.
Definition pde_frame (m : gmap Z Z) (d i : Z) : Z := pde m d i / 4096.

Lemma walk_spec m d pg :
  0 <= d < 1048576 ->
  walk m (4096 * d) pg =
  if present (pde m d (pg / 1024)) then
    let pte := ent m (4096 * pde_frame m d (pg / 1024)) (pg mod 1024) in
    if present pte then Some (4096 * (pte / 4096)) else None
  else None.
Proof.
  intros Hd. unfold walk, pde, pde_frame. rewrite (entry_frame_spec (4096 * d)) by lia.
  rewrite (Z.mul_comm 4096 d), Z.div_mul, (Z.mul_comm d) by lia.
  destruct (present _); [|done]. unfold pde.
  rewrite (entry_frame_spec (ent m (4096 * d) (pg / 1024))) by apply ent_range. cbv zeta.
  destruct (present _); [|done]. by rewrite entry_frame_spec by apply ent_range.
Qed.

(** ** Recursive page tables

    Directory [d] (a frame number) in memory [m]: slot 1023 is the directory
    itself, the kernel's table (slot 768) is there, and no two present slots
    share a table. *)
Record tables_ok (m : gmap Z Z) (d : Z) : Prop := {
  to_range : 0 <= d < 1048576;
  to_self : present (pde m d 1023) = true /\ pde_frame m d 1023 = d;
  to_kernel : present (pde m d 768) = true;
  to_inj : forall i j, 0 <= i < 1024 -> 0 <= j < 1024 ->
    present (pde m d i) = true -> present (pde m d j) = true ->
    pde_frame m d i = pde_frame m d j -> i = j;
}.

(** Frame [n] holds neither the directory nor one of its tables. *)
Definition fresh_frame (m : gmap Z Z) (d n : Z) : Prop :=
  forall j, 0 <= j < 1024 -> present (pde m d j) = true -> pde_frame m d j <> n.

Definition tlb_of (m : gmap Z Z) (c : Z) (t : gmap Z Z) : Prop :=
  forall pg f, t !! pg = Some f -> 0 <= pg < 1048576 -> walk m c pg = Some f.

(** An address space the kernel can work in. *)
Record vspace {A} `{!FrameAllocator A} (d : Z) (s : vm A) : Prop := {
  vs_cr3 : vm_cr3 s = 4096 * d;
  vs_tables : tables_ok (vm_mem s) d;
  vs_tlb : tlb_of (vm_mem s) (4096 * d) (vm_tlb s);
  vs_alloc : fa_wf (vm_frames s);
  vs_used : forall i, 0 <= i < 1024 -> present (pde (vm_mem s) d i) = true ->
    pde_frame (vm_mem s) d i < fa_limit -> fa_used (vm_frames s) (pde_frame (vm_mem s) d i);
}.

Lemma pde_frame_range m d i : 0 <= pde_frame m d i < 1048576.
Proof.
  unfold pde_frame, pde. pose proof (ent_range m (4096 * d) i).
  split; [apply Z.div_pos; lia|]. apply Z.div_lt_upper_bound; lia.
Qed.

Lemma page_split i k : 0 <= k < 1024 -> (i * 1024 + k) / 1024 = i /\ (i * 1024 + k) mod 1024 = k.
Proof.
  intros. split; [symmetry; apply Z.div_unique with k; lia|].
  symmetry. apply Z.mod_unique with i; lia.
Qed.

Lemma page_index pg : 0 <= pg < 1048576 -> 0 <= pg / 1024 < 1024 /\ 0 <= pg mod 1024 < 1024.
Proof.
  intros. pose proof (Z.mod_pos_bound pg 1024). split; [|lia].
  split; [apply Z.div_pos; lia|]. apply Z.div_lt_upper_bound; lia.
Qed.

Section walks.
Context (m : gmap Z Z) (d : Z) (Hok : tables_ok m d).

Let Hd := to_range _ _ Hok.

Lemma pde_frame_ne i : 0 <= i < 1023 -> present (pde m d i) = true -> pde_frame m d i <> d.
Proof using Hok.
  intros Hi Hp He. destruct (to_self _ _ Hok) as [Hs1 Hs2].
  assert (i = 1023); [|lia]. apply (to_inj _ _ Hok); [lia|lia|done|done|congruence].
Qed.

(** The directory and the tables through the recursive slot. *)
Lemma walk_table p :
  0 <= p < 1024 -> present (pde m d p) = true ->
  walk m (4096 * d) (1023 * 1024 + p) = Some (4096 * pde_frame m d p).
Proof using Hok Hd.
  intros Hp Hpres. destruct (page_split 1023 p Hp) as [E1 E2].
  destruct (to_self _ _ Hok) as [Hs1 Hs2].
  rewrite walk_spec, E1, E2, Hs1, Hs2 by done. cbv zeta.
  change (ent m (4096 * d) p) with (pde m d p). by rewrite Hpres.
Qed.

Lemma walk_self : walk m (4096 * d) (1023 * 1024 + 1023) = Some (4096 * d).
Proof using Hok Hd.
  destruct (to_self _ _ Hok) as [Hs1 Hs2]. rewrite walk_table, Hs2 by (done || lia). done.
Qed.

(** Changing a frame that is no page table changes no translation. *)
Lemma fresh_pde m' n :
  fresh_frame m d n -> (forall a, a / 4096 <> n -> read8 m' a = read8 m a) ->
  forall j k, 0 <= j < 1024 -> present (pde m d j) = true -> 0 <= k < 1024 ->
    ent m' (4096 * pde_frame m d j) k = ent m (4096 * pde_frame m d j) k.
Proof using.
  intros Hf Ha j k Hj Hp Hk. apply ent_ext. intros b Hb. apply Ha.
  replace (b / 4096) with (pde_frame m d j); [by apply Hf|].
  apply Z.div_unique with (b - 4096 * pde_frame m d j); lia.
Qed.

Lemma fresh_same m' n :
  fresh_frame m d n -> (forall a, a / 4096 <> n -> read8 m' a = read8 m a) ->
  (forall j, 0 <= j < 1024 -> pde m' d j = pde m d j) /\ tables_ok m' d /\
  (forall pg, 0 <= pg < 1048576 -> walk m' (4096 * d) pg = walk m (4096 * d) pg).
Proof using Hok Hd.
  intros Hf Ha. destruct (to_self _ _ Hok) as [Hs1 Hs2].
  assert (forall j, 0 <= j < 1024 -> pde m' d j = pde m d j) as Hpde.
  { intros j Hj. unfold pde.
    pose proof (fresh_pde m' n Hf Ha 1023 j ltac:(lia) Hs1 Hj) as H. by rewrite Hs2 in H. }
  split_and!; [done| |].
  - pose proof (to_kernel _ _ Hok).
    split; unfold pde_frame; rewrite ?Hpde by lia; [done..|].
    intros i j Hi Hj. rewrite !Hpde by lia. by apply (to_inj _ _ Hok).
  - intros pg Hpg. destruct (page_index pg Hpg) as [Hi Hk].
    rewrite !walk_spec by done. unfold pde_frame at 1. rewrite !Hpde by lia.
    destruct (present (pde m d (pg / 1024))) eqn:Hp; [|done].
    change (pde m d (pg / 1024) / 4096) with (pde_frame m d (pg / 1024)).
    by rewrite (fresh_pde m' n Hf Ha).
Qed.

(** Writing entry [k] of the table of slot [i] changes one translation. *)
Lemma table_write i k v :
  0 <= i < 1023 -> 0 <= k < 1024 -> present (pde m d i) = true ->
  let m' := write32 m (4096 * pde_frame m d i + 4 * k) v in
  (forall j, 0 <= j < 1024 -> pde m' d j = pde m d j) /\ tables_ok m' d /\
  (forall pg, 0 <= pg < 1048576 -> pg <> i * 1024 + k ->
     walk m' (4096 * d) pg = walk m (4096 * d) pg) /\
  walk m' (4096 * d) (i * 1024 + k) =
    if present (u32 v) then Some (4096 * (u32 v / 4096)) else None.
Proof using Hok Hd.
  intros Hi Hk Hp m'. destruct (to_self _ _ Hok) as [Hs1 Hs2].
  assert (forall j, 0 <= j < 1024 -> pde m' d j = pde m d j) as Hpde.
  { intros j Hj. unfold pde, m'. rewrite ent_write by done.
    rewrite decide_False; [done|]. intros [He _]. by apply (pde_frame_ne i). }
  assert (tables_ok m' d) as Hok'.
  { pose proof (to_kernel _ _ Hok).
    split; unfold pde_frame; rewrite ?Hpde by lia; [done..|].
    intros i' j' Hi' Hj'. rewrite !Hpde by lia. by apply (to_inj _ _ Hok). }
  split_and!; [done|done| |].
  - intros pg Hpg Hne. destruct (page_index pg Hpg) as [Hj Hl].
    rewrite !walk_spec by done. unfold pde_frame at 1. rewrite !Hpde by lia.
    destruct (present (pde m d (pg / 1024))) eqn:Hpj; [|done].
    change (pde m d (pg / 1024) / 4096) with (pde_frame m d (pg / 1024)).
    unfold m'. rewrite ent_write by done. rewrite decide_False; [done|].
    intros [He ->]. apply Hne. apply (to_inj _ _ Hok) in He as ->; [|lia|lia|done|done].
    rewrite (Z.div_mod pg 1024) at 1 by lia. lia.
  - destruct (page_split i k Hk) as [E1 E2].
    rewrite walk_spec, E1, E2 by done. unfold pde_frame. rewrite Hpde, Hp by lia. cbv zeta.
    change (pde m d i / 4096) with (pde_frame m d i).
    unfold m'. by rewrite ent_write, decide_True by done.
Qed.

(** Linking a zeroed fresh frame [n] into the absent slot [i]. *)
Lemma link_table i n f :
  0 <= i < 1023 -> present (pde m d i) = false -> 0 <= n < 1048576 -> 0 <= f < 4096 ->
  fresh_frame m d n -> (forall k, 0 <= k < 1024 -> ent m (4096 * n) k = 0) ->
  let m' := write32 m (4096 * d + 4 * i) (mk_entry n f) in
  (forall j, 0 <= j < 1024 ->
     pde m' d j = if decide (j = i) then mk_entry n f else pde m d j) /\
  tables_ok m' d /\
  (forall pg, 0 <= pg < 1048576 ->
     walk m' (4096 * d) pg =
     if decide (pg = 1023 * 1024 + i) then Some (4096 * n) else walk m (4096 * d) pg).
Proof using Hok Hd.
  intros Hi Habs Hn Hf Hfresh Hzero m'. destruct (to_self _ _ Hok) as [Hs1 Hs2].
  pose proof (to_kernel _ _ Hok) as Hkern.
  assert (i <> 768) as Hi768 by congruence.
  assert (n <> d) as Hnd. { intros ->. by apply (Hfresh 1023). }
  assert (u32 (mk_entry n f) = mk_entry n f) as Hu by (by apply u32_small, mk_entry_range).
  assert (forall j, 0 <= j < 1024 ->
     pde m' d j = if decide (j = i) then mk_entry n f else pde m d j) as Hpde.
  { intros j Hj. unfold pde, m'. rewrite ent_write, Hu by lia.
    destruct (decide (j = i)) as [->|Hne]; [by rewrite decide_True|].
    rewrite decide_False; [done|]. intros [_ ?]. congruence. }
  assert (pde_frame m' d i = n) as Hfi.
  { unfold pde_frame. rewrite Hpde, decide_True by (done || lia).
    pose proof (mk_entry_frame n f Hn Hf) as H.
    rewrite entry_frame_spec in H by (by apply mk_entry_range). lia. }
  assert (forall j, 0 <= j < 1024 -> j <> i -> pde_frame m' d j = pde_frame m d j) as Hfj.
  { intros j Hj Hne. unfold pde_frame. by rewrite Hpde, decide_False. }
  assert (tables_ok m' d) as Hok'.
  { split.
    - done.
    - rewrite Hfj, Hpde, decide_False by lia. done.
    - rewrite Hpde, decide_False by lia. done.
    - intros a b Ha Hb. rewrite !Hpde by done.
      destruct (decide (a = i)) as [->|Hai], (decide (b = i)) as [->|Hbi]; intros Hpa Hpb.
      + done.
      + rewrite Hfi, Hfj by done. intros E. by destruct (Hfresh b Hb Hpb).
      + rewrite Hfi, Hfj by done. intros E. by destruct (Hfresh a Ha Hpa).
      + rewrite !Hfj by done. by apply (to_inj _ _ Hok). }
  split_and!; [done|done|].
  intros pg Hpg. destruct (page_index pg Hpg) as [Hj Hl].
  rewrite !walk_spec, Hpde by done.
  destruct (decide (pg / 1024 = i)) as [E|E].
  - rewrite mk_entry_present, E, Hfi. cbv zeta.
    unfold m'. rewrite ent_write by lia. rewrite decide_False by (intros [? _]; congruence).
    rewrite Hzero, Habs by lia. rewrite decide_False; [done|].
    intros ->. destruct (page_split 1023 i ltac:(lia)) as [E1 _]. lia.
  - rewrite Hfj by done. destruct (present (pde m d (pg / 1024))) eqn:Hp.
    + cbv zeta. unfold m'. rewrite ent_write, Hu by lia.
      case_decide as Hc.
      * destruct Hc as [Hc1 Hc2].
        assert (pg / 1024 = 1023) as E3.
        { apply (to_inj _ _ Hok); [lia|lia|done|done|congruence]. }
        rewrite mk_entry_present, decide_True.
        2: { rewrite (Z.div_mod pg 1024) by lia. lia. }
        do 2 f_equal. rewrite <- (Z.mul_cancel_l _ _ 4096) by lia.
        rewrite <- entry_frame_spec by (by apply mk_entry_range). by apply mk_entry_frame.
      * rewrite decide_False; [done|]. intros ->. apply Hc.
        destruct (page_split 1023 i ltac:(lia)) as [E1 E2]. by rewrite E1, E2, Hs2.
    + rewrite decide_False; [done|]. intros ->.
      destruct (page_split 1023 i ltac:(lia)) as [E1 E2]. rewrite E1 in Hp. congruence.
Qed.
End walks.

(** ** Virtual accesses under a correct TLB *)

Lemma tlb_of_empty m c : tlb_of m c ∅.
Proof. intros pg f H. by rewrite lookup_empty in H. Qed.

Lemma tlb_of_insert m c t pg f :
  tlb_of m c t -> walk m c pg = Some f -> tlb_of m c (<[pg := f]> t).
Proof.
  intros Ht Hw pg' f'. destruct (decide (pg = pg')) as [->|Hne].
  - rewrite lookup_insert_eq. by intros [= <-].
  - rewrite lookup_insert_ne by done. apply Ht.
Qed.

Lemma tlb_of_walk_eq m m' c t :
  tlb_of m c t -> (forall pg, 0 <= pg < 1048576 -> walk m' c pg = walk m c pg) -> tlb_of m' c t.
Proof. intros Ht Hw pg f Hl Hpg. rewrite Hw by done. by apply Ht. Qed.

(** After [invlpg] of the one page whose translation changed. *)
Lemma tlb_of_delete m m' c t x :
  tlb_of m c t ->
  (forall pg, 0 <= pg < 1048576 -> pg <> x -> walk m' c pg = walk m c pg) ->
  tlb_of m' c (delete x t).
Proof.
  intros Ht Hw pg f Hl Hpg. apply lookup_delete_Some in Hl as [Hne Hl].
  rewrite Hw by done. by apply Ht.
Qed.

Section accesses.
Context {A : Type}.
Implicit Types s : vm A.

Lemma wp_mmu s va f (Q : Z -> vm A -> Prop) :
  0 <= va < 4294967296 ->
  tlb_of (vm_mem s) (vm_cr3 s) (vm_tlb s) ->
  walk (vm_mem s) (vm_cr3 s) (va / 4096) = Some f ->
  (forall t, tlb_of (vm_mem s) (vm_cr3 s) t -> Q (f + va mod 4096) (set_tlb t s)) ->
  wp (mmu va) Q s.
Proof.
  intros Hva Ht Hw HQ. unfold mmu. wp_steps.
  destruct (vm_tlb s !! (va / 4096)) as [f'|] eqn:E.
  - rewrite (Ht _ _ E) in Hw.
    2: { split; [apply Z.div_pos; lia|]. apply Z.div_lt_upper_bound; lia. }
    simplify_eq. wp_steps. specialize (HQ (vm_tlb s) Ht). by destruct s.
  - rewrite Hw. wp_steps. apply HQ. by apply tlb_of_insert.
Qed.

Lemma page_address pg o :
  0 <= o < 4096 -> (4096 * pg + o) / 4096 = pg /\ (4096 * pg + o) mod 4096 = o.
Proof.
  intros. split; [symmetry; apply Z.div_unique with o; lia|].
  symmetry. apply Z.mod_unique with pg; lia.
Qed.

(** Element [k] of the table mapped at page [pg]. *)
Lemma wp_table_get s pg k f (Q : Z -> vm A -> Prop) :
  0 <= pg < 1048576 -> 0 <= k < 1024 ->
  tlb_of (vm_mem s) (vm_cr3 s) (vm_tlb s) ->
  walk (vm_mem s) (vm_cr3 s) pg = Some (4096 * f) ->
  (forall t, tlb_of (vm_mem s) (vm_cr3 s) t -> Q (ent (vm_mem s) (4096 * f) k) (set_tlb t s)) ->
  wp (table_get (4096 * pg) k) Q s.
Proof.
  intros Hpg Hk Ht Hw HQ. unfold table_get, vread32.
  destruct (page_address pg (4 * k) ltac:(lia)) as [E1 E2].
  rewrite E2, (proj2 (Z.leb_le _ _)) by lia. wp_steps.
  eapply wp_mmu; [lia|done|by rewrite E1|]. intros t Ht'. rewrite E2. wp_steps. by apply HQ.
Qed.

Lemma wp_table_set s pg k f v (Q : unit -> vm A -> Prop) :
  0 <= pg < 1048576 -> 0 <= k < 1024 ->
  tlb_of (vm_mem s) (vm_cr3 s) (vm_tlb s) ->
  walk (vm_mem s) (vm_cr3 s) pg = Some (4096 * f) ->
  (forall t, tlb_of (vm_mem s) (vm_cr3 s) t ->
     Q tt (set_mem (write32 (vm_mem s) (4096 * f + 4 * k) v) (set_tlb t s))) ->
  wp (table_set (4096 * pg) k v) Q s.
Proof.
  intros Hpg Hk Ht Hw HQ. unfold table_set, vwrite32.
  destruct (page_address pg (4 * k) ltac:(lia)) as [E1 E2].
  rewrite E2, (proj2 (Z.leb_le _ _)) by lia. wp_steps.
  eapply wp_mmu; [lia|done|by rewrite E1|]. intros t Ht'. rewrite E2. wp_steps. by apply HQ.
Qed.

Lemma wp_vwrite8 s pg o f v (Q : unit -> vm A -> Prop) :
  0 <= pg < 1048576 -> 0 <= o < 4096 ->
  tlb_of (vm_mem s) (vm_cr3 s) (vm_tlb s) ->
  walk (vm_mem s) (vm_cr3 s) pg = Some (4096 * f) ->
  (forall t, tlb_of (vm_mem s) (vm_cr3 s) t ->
     Q tt (set_mem (write8 (vm_mem s) (4096 * f + o) v) (set_tlb t s))) ->
  wp (vwrite8 (4096 * pg + o) v) Q s.
Proof.
  intros Hpg Hk Ht Hw HQ. unfold vwrite8.
  destruct (page_address pg o ltac:(lia)) as [E1 E2]. wp_steps.
  eapply wp_mmu; [lia|done|by rewrite E1|]. intros t Ht'. rewrite E2. wp_steps. by apply HQ.
Qed.

Lemma wp_vread8 s pg o f (Q : Z -> vm A -> Prop) :
  0 <= pg < 1048576 -> 0 <= o < 4096 ->
  tlb_of (vm_mem s) (vm_cr3 s) (vm_tlb s) ->
  walk (vm_mem s) (vm_cr3 s) pg = Some (4096 * f) ->
  (forall t, tlb_of (vm_mem s) (vm_cr3 s) t ->
     Q (read8 (vm_mem s) (4096 * f + o)) (set_tlb t s)) ->
  wp (vread8 (4096 * pg + o)) Q s.
Proof.
  intros Hpg Hk Ht Hw HQ. unfold vread8.
  destruct (page_address pg o ltac:(lia)) as [E1 E2]. wp_steps.
  eapply wp_mmu; [lia|done|by rewrite E1|]. intros t Ht'. rewrite E2. wp_steps. by apply HQ.
Qed.

(** [memset(page, 0, PAGE_SIZE)] on a page mapped to a fresh frame. *)
Lemma wp_vmemset_page s pg d n (Q : unit -> vm A -> Prop) :
  0 <= pg < 1048576 -> vm_cr3 s = 4096 * d -> tables_ok (vm_mem s) d ->
  tlb_of (vm_mem s) (vm_cr3 s) (vm_tlb s) ->
  fresh_frame (vm_mem s) d n ->
  walk (vm_mem s) (4096 * d) pg = Some (4096 * n) ->
  (forall m t, zeroed n (vm_mem s) m -> tlb_of m (vm_cr3 s) t ->
     Q tt (set_mem m (set_tlb t s))) ->
  wp (vmemset (4096 * pg) 0 PAGE_SIZE) Q s.
Proof.
  intros Hpg Hc Hok Ht Hf Hw HQ. unfold vmemset, PAGE_SIZE.
  apply (wp_for_each (fun i s' => exists m t, s' = set_mem m (set_tlb t s) /\
    tlb_of m (vm_cr3 s) t /\
    forall a, read8 m a = if decide (a / 4096 = n /\ a mod 4096 < i) then 0
                         else read8 (vm_mem s) a)).
  - exists (vm_mem s), (vm_tlb s). split_and!; [by destruct s|done|].
    intros a. rewrite decide_False; [done|]. pose proof (Z.mod_pos_bound a 4096). lia.
  - intros i s' Hi (m & t & -> & Htm & Hm).
    destruct (fresh_same (vm_mem s) d Hok m n Hf) as (_ & _ & Hw').
    { intros a Ha. rewrite Hm, decide_False; [done|]. by intros [? _]. }
    eapply wp_vwrite8; [done|lia|done| |].
    { simpl. rewrite Hc, Hw'; [exact Hw|done]. }
    intros t' Ht'. simpl in *. eexists _, _. split_and!; [reflexivity| |].
    + rewrite Hc in *. eapply tlb_of_walk_eq; [done|]. intros pg' Hpg'.
      rewrite (Hw' pg' Hpg').
      destruct (fresh_same (vm_mem s) d Hok (write8 m (4096 * n + i) (u8 0)) n Hf) as (_ & _ & ->);
        [|done|done].
      intros a Ha. rewrite read8_write8, decide_False.
      * rewrite Hm, decide_False; [done|]. by intros [? _].
      * intros <-. apply Ha. by destruct (page_address n i ltac:(lia)).
    + intros a. rewrite read8_write8. case_decide as Ha.
      * subst a. destruct (page_address n i ltac:(lia)) as [-> ->].
        rewrite decide_True by lia. done.
      * rewrite Hm. pose proof (Z.div_mod a 4096 ltac:(lia)).
        destruct (decide (a / 4096 = n /\ a mod 4096 < i)).
        -- rewrite decide_True by lia. done.
        -- rewrite decide_False by lia. done.
  - intros s' (m & t & -> & Htm & Hm). apply HQ; [|done].
    intros a. rewrite Hm. pose proof (Z.mod_pos_bound a 4096).
    destruct (decide (a / 4096 = n)); [rewrite decide_True by lia|rewrite decide_False by lia]; done.
Qed.
End accesses.

(** ** Specifications *)

Definition TEMP_PG : Z := 768 * 1024 + 1023.
Definition rec_pg (i : Z) : Z := 1023 * 1024 + i.

(** CR3 and the two directory variables are untouched. *)
Definition same_regs {A} (s s' : vm A) : Prop :=
  vm_cr3 s' = vm_cr3 s /\ current_pdt_phys s' = current_pdt_phys s /\
  kernel_pdt_phys s' = kernel_pdt_phys s.

Lemma temp_page_addr : VMM_TEMP_PAGE = 4096 * TEMP_PG.
Proof. done. Qed.
Lemma pdt_addr : VMM_PDT_VIRTUAL_ADDR = 4096 * rec_pg 1023.
Proof. done. Qed.
Lemma kernel_pt_addr : kernel_pt = 4096 * rec_pg 768.
Proof. done. Qed.
Lemma pt_window_addr i : pt_window i = 4096 * rec_pg i.
Proof. unfold pt_window, rec_pg, PAGE_SIZE. lia. Qed.
Lemma window_entry n :
  Z.lor (Z.lor (4096 * n) PAGE_PRESENT) PAGE_WRITE = mk_entry n PAGE_WRITE.
Proof. unfold mk_entry. rewrite <- Z.lor_assoc. by rewrite lor_low_high. Qed.

Lemma mk_entry_div n f :
  0 <= n < 1048576 -> 0 <= f < 4096 -> mk_entry n f / 4096 = n.
Proof.
  intros. symmetry. apply Z.div_unique with (Z.lor f PAGE_PRESENT); [|done].
  left. by apply lor_flags_range.
Qed.

Section specs.
Context {A : Type} `{!FrameAllocator A}.
Implicit Types s : vm A.

(** What opening the temporary window on fresh frame [n] leaves: the frame
    zeroed and mapped at [VMM_TEMP_PAGE], nothing else changed. *)
Record window_open (d n : Z) (s s' : vm A) : Prop := {
  wo_frames : vm_frames s' = vm_frames s;
  wo_regs : same_regs s s';
  wo_tables : tables_ok (vm_mem s') d;
  wo_tlb : tlb_of (vm_mem s') (4096 * d) (vm_tlb s');
  wo_pde : forall j, 0 <= j < 1024 -> pde (vm_mem s') d j = pde (vm_mem s) d j;
  wo_walk : forall pg, 0 <= pg < 1048576 ->
    walk (vm_mem s') (4096 * d) pg =
    if decide (pg = TEMP_PG) then Some (4096 * n) else walk (vm_mem s) (4096 * d) pg;
  wo_zero : forall k, 0 <= k < 1024 -> ent (vm_mem s') (4096 * n) k = 0;
  wo_other : forall a, a / 4096 <> n -> a / 4096 <> pde_frame (vm_mem s) d 768 ->
    read8 (vm_mem s') a = read8 (vm_mem s) a;
}.

(** Same address space parts, with the frames and registers apart. *)
Record mapped (d : Z) (s : vm A) : Prop := {
  mp_cr3 : vm_cr3 s = 4096 * d;
  mp_tables : tables_ok (vm_mem s) d;
  mp_tlb : tlb_of (vm_mem s) (4096 * d) (vm_tlb s);
}.

Lemma vspace_mapped d s : vspace d s -> mapped d s.
Proof. by intros []. Qed.

Lemma read8_write32_frame m f k v a :
  0 <= k < 1024 -> a / 4096 <> f -> read8 (write32 m (4096 * f + 4 * k) v) a = read8 m a.
Proof.
  intros Hk Ha. apply read8_write32_out. intros Hr. apply Ha. symmetry.
  apply Z.div_unique with (a - 4096 * f); lia.
Qed.

(** Writing through the window of the table of slot [i], then [invlpg]. *)
Lemma wp_table_set_inval {B} s d i k v va (c : M (vm A) B) (Q : B -> vm A -> Prop) :
  mapped d s -> 0 <= i < 1023 -> 0 <= k < 1024 -> present (pde (vm_mem s) d i) = true ->
  va / 4096 = i * 1024 + k ->
  (forall t, let m' := write32 (vm_mem s) (4096 * pde_frame (vm_mem s) d i + 4 * k) v in
     mapped d (set_mem m' (set_tlb t s)) -> wp c Q (set_mem m' (set_tlb t s))) ->
  wp (table_set (4096 * rec_pg i) k v ;; invalidate_tlb_entry va ;; c) Q s.
Proof.
  intros [Hc Hok Ht] Hi Hk Hp Hva HQ.
  destruct (table_write _ _ Hok i k v Hi Hk Hp) as (Hpde & Hok' & Hw & _).
  unfold invalidate_tlb_entry. wp_steps.
  eapply wp_table_set; [unfold rec_pg; lia|done|by rewrite Hc|rewrite Hc; apply walk_table; [done|lia|done]|].
  intros t Ht'. rewrite Hc in Ht'. wp_steps.
  specialize (HQ (delete (va / 4096) t)). cbv zeta in HQ. vm_simpl in *. apply HQ.
  split; simpl; [done|done|]. rewrite Hva. by eapply tlb_of_delete.
Qed.

Lemma wp_open_window {B} s d n (c : M (vm A) B) (Q : B -> vm A -> Prop) :
  mapped d s -> 0 <= n < 1048576 -> fresh_frame (vm_mem s) d n ->
  (forall s', window_open d n s s' -> wp c Q s') ->
  wp (table_set kernel_pt 1023 (Z.lor (Z.lor (4096 * n) PAGE_PRESENT) PAGE_WRITE) ;;
      invalidate_tlb_entry VMM_TEMP_PAGE ;;
      vmemset VMM_TEMP_PAGE 0 PAGE_SIZE ;; c) Q s.
Proof.
  intros Hmap Hn Hf HQ. pose proof Hmap as [Hc Hok Ht].
  pose proof (to_kernel _ _ Hok) as Hk.
  rewrite window_entry, kernel_pt_addr, temp_page_addr.
  destruct (table_write _ _ Hok 768 1023 (mk_entry n PAGE_WRITE)) as (Hpde & Hok' & Hw & Hwx);
    [lia|lia|done|].
  rewrite u32_small, mk_entry_present, mk_entry_div in Hwx;
    [|done|done|by apply mk_entry_range].
  eapply wp_table_set_inval; [done|lia|lia|done|done|].
  intros t m1 [Hc1 _ Ht1]. fold m1 in Hpde, Hok', Hw, Hwx. simpl in *.
  assert (fresh_frame m1 d n) as Hf1.
  { intros j Hj. unfold pde_frame. rewrite Hpde by done. by apply Hf. }
  wp_steps.
  apply (wp_vmemset_page _ _ d n); simpl; [unfold TEMP_PG; lia|done|done|by rewrite Hc1|done|done|].
  intros m2 t2 Hz Ht2. apply HQ.
  destruct (fresh_same m1 d Hok' m2 n Hf1) as (Hpde2 & Hok2 & Hw2).
  { intros a Ha. by rewrite Hz, decide_False. }
  split; simpl; [done|done|done|by rewrite Hc in Ht2| | | |].
  - intros j Hj. by rewrite Hpde2, Hpde.
  - intros pg Hpg. rewrite Hw2 by done. case_decide as Hd.
    + subst pg. exact Hwx.
    + by apply Hw.
  - intros k0 Hk0. rewrite (ent_zeroed n m1 m2 n k0 Hz Hk0). by rewrite decide_True.
  - intros a Ha1 Ha2. rewrite Hz, decide_False by done. by apply read8_write32_frame.
Qed.

(** No frame is left. *)
Definition exhausted (a : A) : Prop := forall f, 0 <= f < fa_total a -> fa_used a f.

Lemma wp_vm_alloc s (Q : Z -> vm A -> Prop) :
  fa_wf (vm_frames s) ->
  (exhausted (vm_frames s) -> Q 0 s) ->
  (forall n a', 0 < n < fa_limit -> ~ fa_used (vm_frames s) n -> fa_wf a' ->
     fa_total a' = fa_total (vm_frames s) ->
     (forall g, 0 <= g < fa_limit -> (fa_used a' g <-> fa_used (vm_frames s) g \/ g = n)) ->
     Q (4096 * n) (set_frames a' s)) ->
  wp vm_alloc_frame Q s.
Proof.
  intros Hwf H0 H1. unfold vm_alloc_frame. wp_steps.
  eapply wp_mono; [by apply fa_alloc_spec|].
  intros p a' (Hwf' & Ht & [(-> & -> & Hall)|(n & -> & Hn & _ & Hu & Hg)]).
  - destruct s. by apply H0.
  - rewrite Z.mul_comm. by apply H1.
Qed.

(** A frame the allocator had not given out is no table of a [vspace]. *)
Lemma vspace_fresh d s n :
  vspace d s -> 0 < n < fa_limit -> ~ fa_used (vm_frames s) n -> fresh_frame (vm_mem s) d n.
Proof.
  intros Hv Hn Hu j Hj Hp He. apply Hu. rewrite <- He. apply (vs_used _ _ Hv); [done|done|lia].
Qed.

(** The slot [i] was absent and now leads to the fresh, empty table [n]. *)
Record new_table (d i n f : Z) (s s' : vm A) : Prop := {
  nt_range : 0 < n < fa_limit;
  nt_unused : ~ fa_used (vm_frames s) n;
  nt_total : fa_total (vm_frames s') = fa_total (vm_frames s);
  nt_used : forall g, 0 <= g < fa_limit ->
    (fa_used (vm_frames s') g <-> fa_used (vm_frames s) g \/ g = n);
  nt_pde : forall j, 0 <= j < 1024 ->
    pde (vm_mem s') d j = if decide (j = i) then mk_entry n f else pde (vm_mem s) d j;
  nt_walk : forall pg, 0 <= pg < 1048576 ->
    walk (vm_mem s') (4096 * d) pg =
    if decide (pg = TEMP_PG) then None
    else if decide (pg = rec_pg i) then Some (4096 * n)
    else walk (vm_mem s) (4096 * d) pg;
  nt_other : forall a, a / 4096 <> n -> a / 4096 <> pde_frame (vm_mem s) d 768 ->
    a / 4096 <> d -> read8 (vm_mem s') a = read8 (vm_mem s) a;
}.

(** [pdt[i] = entry] for a slot that was absent. *)
Lemma wp_link {B} s d i n f (c : M (vm A) B) (Q : B -> vm A -> Prop) :
  mapped d s -> 0 <= i < 1023 -> present (pde (vm_mem s) d i) = false ->
  0 <= n < 1048576 -> 0 <= f < 4096 -> fresh_frame (vm_mem s) d n ->
  (forall k, 0 <= k < 1024 -> ent (vm_mem s) (4096 * n) k = 0) ->
  (forall t, let m' := write32 (vm_mem s) (4096 * d + 4 * i) (mk_entry n f) in
     mapped d (set_mem m' (set_tlb t s)) -> wp c Q (set_mem m' (set_tlb t s))) ->
  wp (table_set VMM_PDT_VIRTUAL_ADDR i (mk_entry n f) ;; c) Q s.
Proof.
  intros [Hc Hok Ht] Hi Habs Hn Hf Hfr Hz HQ. rewrite pdt_addr. wp_steps.
  eapply wp_table_set; [by compute|lia|by rewrite Hc|rewrite Hc; by apply walk_self|].
  intros t Ht'. rewrite Hc in Ht'. apply HQ.
  destruct (link_table _ _ Hok i n f) as (_ & Hok' & Hw); [done..|].
  split; [done|done|]. intros pg g Hl Hpg. vm_simpl in *. rewrite Hw by done.
  specialize (Ht' pg g Hl Hpg). rewrite decide_False; [done|]. intros ->.
  pose proof (page_split 1023 i ltac:(lia)) as [E1 E2].
  rewrite walk_spec, E1, E2 in Ht' by apply Hok.
  destruct (to_self _ _ Hok) as [Hs1 Hs2]. rewrite Hs1, Hs2 in Ht'. cbv zeta in Ht'.
  change (ent (vm_mem s) (4096 * d) i) with (pde (vm_mem s) d i) in Ht'. by rewrite Habs in Ht'.
Qed.

(** Closing the temporary window. *)
Lemma wp_close_window {B} s d (c : M (vm A) B) (Q : B -> vm A -> Prop) :
  mapped d s ->
  (forall s', mapped d s' -> vm_frames s' = vm_frames s -> same_regs s s' ->
     (forall j, 0 <= j < 1024 -> pde (vm_mem s') d j = pde (vm_mem s) d j) ->
     (forall pg, 0 <= pg < 1048576 ->
        walk (vm_mem s') (4096 * d) pg =
        if decide (pg = TEMP_PG) then None else walk (vm_mem s) (4096 * d) pg) ->
     (forall a, a / 4096 <> pde_frame (vm_mem s) d 768 ->
        read8 (vm_mem s') a = read8 (vm_mem s) a) ->
     wp c Q s') ->
  wp (table_set kernel_pt 1023 0 ;; invalidate_tlb_entry VMM_TEMP_PAGE ;; c) Q s.
Proof.
  intros Hmap HQ. pose proof Hmap as [Hc Hok Ht]. pose proof (to_kernel _ _ Hok) as Hk.
  rewrite kernel_pt_addr.
  destruct (table_write _ _ Hok 768 1023 0) as (Hpde & Hok' & Hw & Hwx); [lia|lia|done|].
  eapply wp_table_set_inval; [done|lia|lia|done|done|].
  intros t m' Hmap'. apply HQ; [done|done|done|done| |].
  - intros pg Hpg. case_decide as Hd; [subst pg; exact Hwx|by apply Hw].
  - intros a Ha. by apply read8_write32_frame.
Qed.

Lemma wp_new_table s d i f :
  vspace d s -> 0 <= i < 1023 -> present (pde (vm_mem s) d i) = false -> 0 <= f < 4096 ->
  wp (vmm_new_table i f) (fun ok s' =>
    vspace d s' /\ same_regs s s' /\
    if ok then exists n, new_table d i n f s s'
    else vm_mem s' = vm_mem s /\ vm_frames s' = vm_frames s /\ exhausted (vm_frames s)) s.
Proof.
  intros Hv Hi Habs Hf. unfold vmm_new_table. wp_steps.
  apply wp_vm_alloc; [apply Hv|simpl; wp_steps; done|].
  intros n a' Hn Hu Hwf' Htot Hg. pose proof (vspace_fresh d s n Hv Hn Hu) as Hfr.
  pose proof (fa_limit_range (A := A)) as Hlim.
  assert (i <> 768) as Hne by (intros ->; pose proof (to_kernel _ _ (vs_tables _ _ Hv)); congruence).
  rewrite (proj2 (Z.eqb_neq _ _)), mk_entry_lor by lia.
  apply (wp_open_window (set_frames a' s) d n); [by destruct Hv|lia|done|].
  intros s1 [Hfr1 Hregs1 Hok1 Ht1 Hpde1 Hw1 Hz1 Hoth1]. vm_simpl in *.
  assert (fresh_frame (vm_mem s1) d n) as Hfresh1.
  { intros j Hj. unfold pde_frame. rewrite Hpde1 by done. by apply Hfr. }
  assert (vm_cr3 s1 = 4096 * d) as Hc1 by (destruct Hregs1 as [-> _]; apply Hv).
  apply (wp_link s1 d i n f); [done|done|by rewrite Hpde1 by lia|lia|done|done|done|].
  intros t2 m2 Hmap2.
  destruct (link_table _ _ Hok1 i n f) as (Hpde2 & Hok2 & Hw2);
    [done|by rewrite Hpde1 by lia|lia|done|done|done|]. fold m2 in Hpde2, Hok2, Hw2.
  apply (wp_close_window _ d); [done|]. intros s3 Hmap3 Hfr3 Hregs3 Hpde3 Hw3 Hoth3. wp_steps.
  vm_simpl in *.
  assert (forall j, 0 <= j < 1024 ->
    pde (vm_mem s3) d j = if decide (j = i) then mk_entry n f else pde (vm_mem s) d j) as Hpde.
  { intros j Hj. by rewrite Hpde3, Hpde2, Hpde1. }
  assert (forall g, 0 <= g < fa_limit ->
    (fa_used (vm_frames s3) g <-> fa_used (vm_frames s) g \/ g = n)) as Hused.
  { intros g Hgr. rewrite Hfr3, Hfr1. by apply Hg. }
  split_and!; [split; [apply Hmap3|apply Hmap3|apply Hmap3|by rewrite Hfr3, Hfr1|]| |exists n; split].
  - intros j Hj. pose proof (pde_frame_range (vm_mem s3) d j) as Hr.
    unfold pde_frame in *. rewrite Hpde in * by done. intros Hp Hlt. apply Hused; [lia|].
    case_decide; [right; apply mk_entry_div; lia|left; by apply (vs_used _ _ Hv)].
  - destruct Hregs1 as (?&?&?), Hregs3 as (?&?&?). vm_simpl in *. split_and!; congruence.
  - done.
  - done.
  - by rewrite Hfr3, Hfr1.
  - done.
  - done.
  - intros pg Hpg. rewrite Hw3, Hw2, Hw1 by done. unfold rec_pg.
    destruct (decide (pg = TEMP_PG)) as [->|]; done.
  - intros a Ha1 Ha2 Ha3. rewrite Hoth3.
    + unfold m2. rewrite read8_write32_frame by (done || lia). by apply Hoth1.
    + unfold pde_frame. rewrite Hpde2, decide_False, Hpde1 by lia. exact Ha2.
Qed.

(** [vmm_map_page] took effect: the page leads to the frame of [paddr]; every
    other page outside the recursive slot translates as before, except that
    building a new table leaves the temporary window closed. *)
Record page_mapped (d va paddr : Z) (s s' : vm A) : Prop := {
  pm_walk : walk (vm_mem s') (4096 * d) (va / 4096) = Some (4096 * (paddr / 4096));
  pm_other : forall pg, 0 <= pg < 1023 * 1024 -> pg <> va / 4096 ->
    pg <> TEMP_PG \/ present (pde (vm_mem s) d (va / 4096 / 1024)) = true ->
    walk (vm_mem s') (4096 * d) pg = walk (vm_mem s) (4096 * d) pg;
  pm_present : present (pde (vm_mem s') d (va / 4096 / 1024)) = true;
  pm_pde : forall j, 0 <= j < 1024 -> j <> va / 4096 / 1024 ->
    pde (vm_mem s') d j = pde (vm_mem s) d j;
  pm_frames : present (pde (vm_mem s) d (va / 4096 / 1024)) = true ->
    vm_frames s' = vm_frames s /\
    pde (vm_mem s') d (va / 4096 / 1024) = pde (vm_mem s) d (va / 4096 / 1024);
  pm_fresh : present (pde (vm_mem s) d (va / 4096 / 1024)) = false ->
    0 < pde_frame (vm_mem s') d (va / 4096 / 1024) < fa_limit /\
    ~ fa_used (vm_frames s) (pde_frame (vm_mem s') d (va / 4096 / 1024)) /\
    fa_used (vm_frames s') (pde_frame (vm_mem s') d (va / 4096 / 1024));
  pm_total : fa_total (vm_frames s') = fa_total (vm_frames s);
  pm_taken : forall g, 0 <= g < fa_limit -> fa_used (vm_frames s) g -> fa_used (vm_frames s') g;
  pm_data : forall a, a / 4096 <> d -> a / 4096 <> pde_frame (vm_mem s) d 768 ->
    a / 4096 <> pde_frame (vm_mem s') d (va / 4096 / 1024) ->
    read8 (vm_mem s') a = read8 (vm_mem s) a;
}.

Lemma vspace_table_write d s i k v t :
  vspace d s -> 0 <= i < 1023 -> 0 <= k < 1024 -> present (pde (vm_mem s) d i) = true ->
  let m' := write32 (vm_mem s) (4096 * pde_frame (vm_mem s) d i + 4 * k) v in
  mapped d (set_mem m' (set_tlb t s)) -> vspace d (set_mem m' (set_tlb t s)).
Proof.
  intros Hv Hi Hk Hp m' [Hc Hok Ht].
  destruct (table_write _ _ (vs_tables _ _ Hv) i k v Hi Hk Hp) as (Hpde & _ & _).
  fold m' in Hpde. split; vm_simpl in *; [done|done|done|apply Hv|].
  intros j Hj. unfold pde_frame. rewrite Hpde by done. by apply (vs_used _ _ Hv).
Qed.

Lemma page_of_va va : 0 <= va < 4294967296 -> 0 <= va / 4096 < 1048576.
Proof. intros. split; [apply Z.div_pos; lia|]. apply Z.div_lt_upper_bound; lia. Qed.

Lemma entry_value paddr f :
  0 <= paddr < 4294967296 -> 0 <= f < 4096 ->
  Z.lor (Z.lor (Z.land paddr 0xFFFFF000) f) PAGE_PRESENT = mk_entry (paddr / 4096) f.
Proof.
  intros Hp Hf. change (Z.land paddr 0xFFFFF000) with (entry_frame paddr).
  rewrite entry_frame_spec by done. by apply mk_entry_lor.
Qed.

(** The last two steps of [vmm_map_page], with the table in place. *)
Lemma wp_map_present s d va paddr f :
  vspace d s -> 0 <= va < 4294967296 -> va / 4096 / 1024 < 1023 ->
  0 <= paddr < 4294967296 -> 0 <= f < 4096 ->
  present (pde (vm_mem s) d (va / 4096 / 1024)) = true ->
  wp (table_set (pt_window (pde_index va)) (pte_index va)
        (Z.lor (Z.lor (Z.land paddr 0xFFFFF000) f) PAGE_PRESENT) ;;
      invalidate_tlb_entry va)
     (fun _ s' => vspace d s' /\ same_regs s s' /\ page_mapped d va paddr s s') s.
Proof.
  intros Hv Hva Hi Hpa Hf Hp. pose proof (page_of_va va Hva) as Hpg.
  pose proof (page_of_va paddr Hpa) as Hpp. pose proof (page_index _ Hpg) as [Hi0 Hk].
  rewrite pde_index_spec, pte_index_spec, pt_window_addr, entry_value by done.
  apply wp_unit_ret, wp_bind_assoc.
  apply (wp_table_set_inval s d); [by apply vspace_mapped|lia|done|done| |].
  { rewrite (Z.div_mod (va / 4096) 1024) at 1 by lia. lia. }
  intros t m' Hmap.
  destruct (table_write _ _ (vs_tables _ _ Hv) (va / 4096 / 1024) ((va / 4096) mod 1024)
    (mk_entry (paddr / 4096) f)) as (Hpde & Hok' & Hw & Hwx); [lia|done|done|].
  fold m' in Hpde, Hok', Hw, Hwx.
  replace (va / 4096 / 1024 * 1024 + (va / 4096) mod 1024) with (va / 4096) in *
    by (rewrite (Z.div_mod (va / 4096) 1024) at 1 by lia; lia).
  rewrite u32_small, mk_entry_present, mk_entry_div in Hwx by (done || by apply mk_entry_range).
  wp_steps. split_and!; [apply vspace_table_write; done || lia|done|].
  split; vm_simpl in *.
  - exact Hwx.
  - intros pg Hpg' Hne _. apply Hw; lia.
  - by rewrite Hpde by lia.
  - intros j Hj _. by apply Hpde.
  - intros _. split; [done|]. apply Hpde; lia.
  - congruence.
  - done.
  - done.
  - intros a _ _ Ha. unfold m'. apply read8_write32_frame; [done|].
    unfold pde_frame in *. by rewrite Hpde in Ha by lia.
Qed.

Lemma wp_map_page s d va paddr f :
  vspace d s -> 0 <= va < 4294967296 -> va / 4096 / 1024 < 1023 ->
  0 <= paddr < 4294967296 -> 0 <= f < 4096 ->
  wp (vmm_map_page va paddr f) (fun _ s' => vspace d s' /\ same_regs s s' /\
    (page_mapped d va paddr s s' \/
     present (pde (vm_mem s) d (va / 4096 / 1024)) = false /\ exhausted (vm_frames s) /\
     vm_mem s' = vm_mem s /\ vm_frames s' = vm_frames s)) s.
Proof.
  intros Hv Hva Hi Hpa Hf. unfold vmm_map_page. cbv zeta.
  pose proof (page_of_va va Hva) as Hpg. pose proof (page_index _ Hpg) as [Hi0 Hk].
  rewrite pdt_addr. rewrite pde_index_spec at 1. wp_steps.
  pose proof (vs_cr3 _ _ Hv) as Hc.
  eapply wp_table_get; [by compute|lia|rewrite Hc; apply Hv|rewrite Hc; by apply walk_self, Hv|].
  intros t Ht. rewrite Hc in Ht. wp_steps.
  change (ent (vm_mem s) (4096 * d)) with (pde (vm_mem s) d).
  assert (vspace d (set_tlb t s)) as Hv1 by (by destruct Hv).
  destruct (present (pde (vm_mem s) d (va / 4096 / 1024))) eqn:Hp; cbv iota.
  - apply wp_ret. cbv iota. eapply wp_mono; [exact (wp_map_present (set_tlb t s) d va paddr f Hv1 Hva Hi Hpa Hf Hp)|].
    intros [] s' (? & ? & Hm). split_and!; [assumption|assumption|left].
    destruct Hm. split; assumption.
  - rewrite pde_index_spec at 1.
    eapply wp_mono; [apply (wp_new_table (set_tlb t s) d); [done|lia|done|done]|].
    intros ok s1 (Hv2 & Hr2 & Hok). destruct ok; cbv iota.
    + destruct Hok as [n Hnt]. pose proof (fa_limit_range (A := A)) as Hlim.
      pose proof (nt_pde _ _ _ _ _ _ Hnt) as Hpde. vm_simpl in *.
      pose proof (nt_range _ _ _ _ _ _ Hnt) as Hn.
      eapply wp_mono; [apply (wp_map_present s1 d); [done..|]|].
      { rewrite Hpde, decide_True by (done || lia). apply mk_entry_present. }
      intros [] s2 (Hv3 & Hr3 & Hm). split_and!; [done| |left].
      { destruct Hr2 as (?&?&?), Hr3 as (?&?&?). vm_simpl in *. split_and!; congruence. }
      assert (present (pde (vm_mem s1) d (va / 4096 / 1024)) = true) as Hp1.
      { rewrite Hpde, decide_True by (done || lia). apply mk_entry_present. }
      destruct (pm_frames _ _ _ _ _ Hm Hp1) as [Hf3 Hpde3].
      split; [apply Hm| |apply Hm| | | | | |].
      * intros pg Hpg' Hne [Hne'|]; [|congruence]. rewrite (pm_other _ _ _ _ _ Hm) by auto.
        rewrite (nt_walk _ _ _ _ _ _ Hnt), !decide_False; [done|unfold rec_pg; lia|done|lia].
      * intros j Hj Hne. rewrite (pm_pde _ _ _ _ _ Hm), Hpde, decide_False by done. done.
      * congruence.
      * intros _. unfold pde_frame. rewrite Hpde3, Hpde, decide_True, mk_entry_div, Hf3 by (done || lia).
        split_and!; [lia|lia|apply (nt_unused _ _ _ _ _ _ Hnt)|].
        apply (nt_used _ _ _ _ _ _ Hnt); [lia|by right].
      * rewrite Hf3. apply (nt_total _ _ _ _ _ _ Hnt).
      * intros g Hg Hu. rewrite Hf3. apply (nt_used _ _ _ _ _ _ Hnt); [done|by left].
      * intros a Ha1 Ha2 Ha3. unfold pde_frame in Ha3. rewrite Hpde3, Hpde, decide_True in Ha3 by (done || lia).
        rewrite mk_entry_div in Ha3 by lia.
        rewrite (pm_data _ _ _ _ _ Hm); [by apply (nt_other _ _ _ _ _ _ Hnt)|done| |].
        -- unfold pde_frame. rewrite Hpde, decide_False by (lia || (intros E;
             rewrite <- E in Hp; pose proof (to_kernel _ _ (vs_tables _ _ Hv)); congruence)). done.
        -- unfold pde_frame. rewrite Hpde3, Hpde, decide_True by (done || lia). by rewrite mk_entry_div by lia.
    + destruct Hok as (Hm2 & Hf2 & Hex). wp_steps. split_and!; [done|done|right]. done.
Qed.

(** The page leads nowhere; nothing else changed. *)
Record page_unmapped (d va : Z) (s s' : vm A) : Prop := {
  pu_walk : walk (vm_mem s') (4096 * d) (va / 4096) = None;
  pu_other : forall pg, 0 <= pg < 1048576 -> pg <> va / 4096 ->
    walk (vm_mem s') (4096 * d) pg = walk (vm_mem s) (4096 * d) pg;
  pu_frames : vm_frames s' = vm_frames s;
  pu_data : forall a, a / 4096 <> pde_frame (vm_mem s) d (va / 4096 / 1024) ->
    read8 (vm_mem s') a = read8 (vm_mem s) a;
}.

Lemma va_index va :
  va / 4096 / 1024 * 1024 + (va / 4096) mod 1024 = va / 4096.
Proof. rewrite (Z.div_mod (va / 4096) 1024) at 3 by lia. lia. Qed.

Lemma wp_unmap_page s d va :
  vspace d s -> 0 <= va < 4294967296 -> va / 4096 / 1024 < 1023 ->
  present (pde (vm_mem s) d (va / 4096 / 1024)) = true ->
  wp (vmm_unmap_page va)
     (fun _ s' => vspace d s' /\ same_regs s s' /\ page_unmapped d va s s') s.
Proof.
  intros Hv Hva Hi Hp. pose proof (page_of_va va Hva) as Hpg.
  pose proof (page_index _ Hpg) as [Hi0 Hk]. unfold vmm_unmap_page.
  rewrite pde_index_spec, pte_index_spec, pt_window_addr.
  apply wp_unit_ret, wp_bind_assoc.
  apply (wp_table_set_inval s d); [by apply vspace_mapped|lia|done|done| |].
  { by rewrite va_index. }
  intros t m' Hmap.
  destruct (table_write _ _ (vs_tables _ _ Hv) (va / 4096 / 1024) ((va / 4096) mod 1024)
    0) as (Hpde & Hok' & Hw & Hwx); [lia|done|done|].
  fold m' in Hpde, Hok', Hw, Hwx. rewrite va_index in *.
  wp_steps. split_and!; [apply vspace_table_write; done || lia|done|].
  split; vm_simpl in *; [exact Hwx|exact Hw|done|].
  intros a Ha. by apply read8_write32_frame.
Qed.

(** What the hardware walk finds for [va], as the code reports it: 0 when the
    page is not mapped. *)
Definition phys_of (m : gmap Z Z) (d va : Z) : Z :=
  match walk m (4096 * d) (va / 4096) with
  | Some f => f + va mod 4096
  | None => 0
  end.

Lemma wp_get_phys_addr s d va :
  vspace d s -> 0 <= va < 4294967296 -> va / 4096 / 1024 < 1023 ->
  wp (vmm_get_phys_addr va) (fun p s' => p = phys_of (vm_mem s) d va /\
     exists t, s' = set_tlb t s /\ vspace d s') s.
Proof.
  intros Hv Hva Hi. unfold vmm_get_phys_addr. cbv zeta.
  pose proof (page_of_va va Hva) as Hpg. pose proof (page_index _ Hpg) as [Hi0 Hk].
  pose proof (to_range _ _ (vs_tables _ _ Hv)) as Hd.
  rewrite pdt_addr, pde_index_spec, pte_index_spec, pt_window_addr.
  change 0xFFF with (Z.ones 12). rewrite Z.land_ones by lia. change (2 ^ 12) with 4096.
  pose proof (vs_cr3 _ _ Hv) as Hc. unfold phys_of. rewrite walk_spec by done.
  apply wp_bind. eapply wp_table_get; [by compute|lia|rewrite Hc; apply Hv|rewrite Hc; by apply walk_self, Hv|].
  intros t Ht. rewrite Hc in Ht.
  change (ent (vm_mem s) (4096 * d)) with (pde (vm_mem s) d).
  assert (vspace d (set_tlb t s)) as Hv1 by (by destruct Hv).
  destruct (present (pde (vm_mem s) d (va / 4096 / 1024))) eqn:Hp; cbv iota; cycle 1.
  { wp_steps. eauto. }
  apply wp_bind. eapply (wp_table_get (set_tlb t s)); vm_simpl in *;
    [unfold rec_pg; lia|lia|rewrite Hc; apply Hv1|rewrite Hc; apply walk_table; [apply Hv1|lia|exact Hp]|].
  intros t2 Ht2. rewrite Hc in Ht2.
  change (set_tlb t2 (set_tlb t s)) with (set_tlb t2 s).
  assert (vspace d (set_tlb t2 s)) as Hv2 by (by destruct Hv).
  set (e := ent _ _ _). pose proof (ent_range (vm_mem s)
    (4096 * pde_frame (vm_mem s) d (va / 4096 / 1024)) ((va / 4096) mod 1024)) as He.
  fold e in He. cbv zeta. destruct (present e); wp_steps; [|by eauto].
  split; [|by eauto]. change (Z.land e 0xFFFFF000) with (entry_frame e).
  rewrite entry_frame_spec by done. apply u32_small.
  pose proof (page_of_va e He). pose proof (Z.mod_pos_bound va 4096). lia.
Qed.

(** One step of the two copy loops of [vmm_clone_kernel_mappings]: the window
    shows the fresh frame [n], whose entries below [i] are already copies. *)
Record copying (d n i : Z) (s0 s : vm A) : Prop := {
  cp_mapped : mapped d s;
  cp_frames : vm_frames s = vm_frames s0;
  cp_regs : same_regs s0 s;
  cp_fresh : fresh_frame (vm_mem s) d n;
  cp_pde : forall j, 0 <= j < 1024 -> pde (vm_mem s) d j = pde (vm_mem s0) d j;
  cp_walk : forall pg, 0 <= pg < 1048576 ->
    walk (vm_mem s) (4096 * d) pg =
    if decide (pg = TEMP_PG) then Some (4096 * n) else walk (vm_mem s0) (4096 * d) pg;
  cp_entries : forall j, 0 <= j < i -> pde (vm_mem s) n j = pde (vm_mem s0) d j;
  cp_other : forall a, a / 4096 <> n -> a / 4096 <> pde_frame (vm_mem s0) d 768 ->
    read8 (vm_mem s) a = read8 (vm_mem s0) a;
}.

(** A store into the fresh frame through the temporary window. *)
Lemma wp_window_set s s0 d n i k v (Q : unit -> vm A -> Prop) :
  copying d n i s0 s -> 0 <= n < 1048576 -> 0 <= k < 1024 -> i <= k ->
  (forall s', copying d n i s0 s' -> pde (vm_mem s') n k = u32 v ->
     (forall j, 0 <= j < 1024 -> j <> k -> pde (vm_mem s') n j = pde (vm_mem s) n j) -> Q tt s') ->
  wp (table_set VMM_TEMP_PAGE k v) Q s.
Proof.
  intros [Hmap Hfr Hregs Hf Hpde Hw Hent Hoth] Hn Hk Hik HQ. pose proof Hmap as [Hc Hok Ht].
  rewrite temp_page_addr.
  eapply wp_table_set; [by compute|done|by rewrite Hc| |].
  { rewrite Hc, Hw, decide_True by (done || by compute). done. }
  intros t Ht'. rewrite Hc in Ht'. vm_simpl in *. set (m' := write32 _ _ _) in *.
  destruct (fresh_same (vm_mem s) d Hok m' n Hf) as (Hpde2 & Hok2 & Hw2).
  { intros a Ha. by apply read8_write32_frame. }
  assert (forall j, 0 <= j < 1024 ->
    pde m' n j = if decide (j = k) then u32 v else pde (vm_mem s) n j) as Hn'.
  { intros j Hj. unfold pde, m'. rewrite ent_write by done.
    destruct (decide (j = k)) as [->|]; [by rewrite decide_True|].
    rewrite decide_False by (intros [_ ?]; congruence). done. }
  apply HQ; vm_simpl in *; cycle 1.
  { rewrite Hn', decide_True by done. done. }
  { intros j Hj Hne. rewrite Hn', decide_False by done. done. }
  assert (tlb_of m' (4096 * d) t) as Ht2 by by eapply tlb_of_walk_eq.
  split; vm_simpl in *; [by split|done|done| | | | |].
  - intros j Hj. unfold pde_frame. rewrite Hpde2 by done. by apply Hf.
  - intros j Hj. by rewrite Hpde2, Hpde.
  - intros pg Hpg. by rewrite Hw2, Hw.
  - intros j Hj. rewrite Hn', decide_False by lia. by apply Hent.
  - intros a Ha1 Ha2. unfold m'. rewrite read8_write32_frame by done. by apply Hoth.
Qed.

Lemma wp_copy_entry s s0 d n i :
  copying d n i s0 s -> 0 <= n < 1048576 -> 0 <= i < 1023 ->
  wp (e <- table_get VMM_PDT_VIRTUAL_ADDR i ;; table_set VMM_TEMP_PAGE i e)
     (fun _ s' => copying d n (i + 1) s0 s') s.
Proof.
  intros Hcp Hn Hi. pose proof (cp_mapped _ _ _ _ _ Hcp) as [Hc Hok Ht].
  rewrite pdt_addr. apply wp_bind.
  eapply wp_table_get; [by compute|lia|by rewrite Hc|rewrite Hc; by apply walk_self|].
  intros t Ht'. rewrite Hc in Ht'.
  apply (wp_window_set _ s0 d n i); [|done|lia|lia|].
  { destruct Hcp. split; vm_simpl in *; [|assumption..]. split; vm_simpl in *; done. }
  intros s' Hcp' Hk Hj. pose proof (cp_entries _ _ _ _ _ Hcp') as Hent.
  destruct Hcp'. split; try assumption.
  intros j Hj'. destruct (decide (j = i)) as [->|]; [|apply Hent; lia].
  rewrite Hk. change (ent (vm_mem s) (4096 * d) i) with (pde (vm_mem s) d i).
  rewrite (cp_pde _ _ _ _ _ Hcp) by lia. apply u32_small, ent_range.
Qed.

Lemma wp_copy_range s s0 d n a b :
  copying d n a s0 s -> 0 <= n < 1048576 -> 0 <= a <= b -> b <= 1023 ->
  wp (for_each (upto a b) a
        (fun i => e <- table_get VMM_PDT_VIRTUAL_ADDR i ;; table_set VMM_TEMP_PAGE i e))
     (fun _ s' => copying d n b s0 s') s.
Proof.
  intros Hcp Hn Ha Hb. unfold upto.
  apply (wp_for_each (fun i s' => copying d n i s0 s')); [done| |].
  - intros i s' Hi Hs'. apply wp_copy_entry; [done|done|lia].
  - intros s'. by replace (a + Z.of_nat (Z.to_nat (b - a))) with b by lia.
Qed.

(** The new directory [n] holds the entries of [d] and its own recursive
    slot; [d] translates as before, with the temporary window closed. *)
Record cloned (d n : Z) (s s' : vm A) : Prop := {
  cl_range : 0 < n < fa_limit;
  cl_unused : ~ fa_used (vm_frames s) n;
  cl_total : fa_total (vm_frames s') = fa_total (vm_frames s);
  cl_used : forall g, 0 <= g < fa_limit ->
    (fa_used (vm_frames s') g <-> fa_used (vm_frames s) g \/ g = n);
  cl_entries : forall j, 0 <= j < 1023 -> pde (vm_mem s') n j = pde (vm_mem s') d j;
  cl_self : pde (vm_mem s') n 1023 = mk_entry n PAGE_WRITE;
  cl_fresh : fresh_frame (vm_mem s') d n;
  cl_pde : forall j, 0 <= j < 1024 -> pde (vm_mem s') d j = pde (vm_mem s) d j;
  cl_walk : forall pg, 0 <= pg < 1048576 ->
    walk (vm_mem s') (4096 * d) pg =
    if decide (pg = TEMP_PG) then None else walk (vm_mem s) (4096 * d) pg;
  cl_other : forall a, a / 4096 <> n -> a / 4096 <> pde_frame (vm_mem s) d 768 ->
    read8 (vm_mem s') a = read8 (vm_mem s) a;
}.

Lemma wp_clone s d :
  vspace d s ->
  wp vmm_clone_kernel_mappings (fun p s' => vspace d s' /\ same_regs s s' /\
    (p = 0 /\ s' = s /\ exhausted (vm_frames s) \/ exists n, p = 4096 * n /\ cloned d n s s')) s.
Proof.
  intros Hv. unfold vmm_clone_kernel_mappings. apply wp_bind.
  apply wp_vm_alloc; [apply Hv|intros Hex; cbv iota; apply wp_ret; split_and!; [done|done|by left]|].
  intros n a' Hn Hu Hwf' Htot Hg. pose proof (vspace_fresh d s n Hv Hn Hu) as Hfr.
  pose proof (fa_limit_range (A := A)) as Hlim. cbv zeta.
  rewrite (proj2 (Z.eqb_neq _ _)) by lia.
  apply (wp_open_window (set_frames a' s) d n); [by destruct Hv|lia|done|].
  intros s1 [Hfr1 Hregs1 Hok1 Ht1 Hpde1 Hw1 Hz1 Hoth1].
  assert (copying d n 0 (set_frames a' s) s1) as Hcp1.
  { split; vm_simpl in *; [split|done|done| |done|done|lia|done]; [|done|done|].
    - destruct Hregs1 as [-> _]. apply Hv.
    - intros j Hj. unfold pde_frame. rewrite Hpde1 by done. by apply Hfr. }
  change (Z.shiftr KERNEL_VIRT_BASE 22) with 768.
  apply wp_bind, wp_bind. eapply wp_mono; [apply (wp_copy_range _ _ d n 0 768 Hcp1); lia|].
  intros [] s2 Hcp2.
  eapply wp_mono; [apply (wp_copy_range _ _ d n 768 1023 Hcp2); lia|].
  intros [] s3 Hcp3. rewrite window_entry.
  apply wp_bind, (wp_window_set s3 (set_frames a' s) d n 1023); [done|lia|lia|lia|].
  intros s4 Hcp4 Hself _.
  rewrite u32_small in Hself by (apply mk_entry_range; [lia|by compute]).
  apply (wp_close_window s4 d); [apply Hcp4|].
  intros s5 Hmap5 Hfr5 Hregs5 Hpde5 Hw5 Hoth5. apply wp_ret.
  destruct Hcp4 as [_ Hfr4 Hregs4 Hf4 Hpde4 Hw4 Hent4 Hoth4]. vm_simpl in *.
  assert (forall j, 0 <= j < 1024 -> pde (vm_mem s5) d j = pde (vm_mem s) d j) as Hpde.
  { intros j Hj. by rewrite Hpde5, Hpde4. }
  assert (forall j, 0 <= j < 1024 -> pde (vm_mem s5) n j = pde (vm_mem s4) n j) as Hn5.
  { intros j Hj. apply ent_ext. intros b Hb. apply Hoth5.
    replace (b / 4096) with n by (apply Z.div_unique with (b - 4096 * n); lia).
    apply not_eq_sym, Hf4; [lia|]. rewrite Hpde4 by lia.
    apply (to_kernel _ _ (vs_tables _ _ Hv)). }
  assert (forall g, 0 <= g < fa_limit ->
    (fa_used (vm_frames s5) g <-> fa_used (vm_frames s) g \/ g = n)) as Hused.
  { intros g Hgr. rewrite Hfr5, Hfr4. by apply Hg. }
  split_and!; [split; [apply Hmap5..|by rewrite Hfr5, Hfr4|]| |right; exists n; split; [done|]].
  - intros j Hj. unfold pde_frame. rewrite Hpde by done. intros Hp Hlt.
    pose proof (pde_frame_range (vm_mem s) d j) as Hr.
    apply Hused; [unfold pde_frame in *; lia|left; by apply (vs_used _ _ Hv)].
  - destruct Hregs1 as (?&?&?), Hregs4 as (?&?&?), Hregs5 as (?&?&?).
    vm_simpl in *. split_and!; congruence.
  - split; [done|done|by rewrite Hfr5, Hfr4|done| | | |done| |].
    + intros j Hj. rewrite Hn5, Hpde, Hent4 by lia. done.
    + rewrite Hn5 by lia. done.
    + intros j Hj. unfold pde_frame. rewrite Hpde by done. by apply Hfr.
    + intros pg Hpg. rewrite Hw5, Hw4 by done. by destruct (decide (pg = TEMP_PG)).
    + intros a Ha1 Ha2. rewrite Hoth5; [by apply Hoth4|].
      unfold pde_frame. rewrite Hpde4 by lia. exact Ha2.
Qed.

Lemma cloned_vspace d n s t :
  vspace d t -> cloned d n s t -> vspace n (set_tlb ∅ (set_cr3 (4096 * n) t)).
Proof.
  intros Hv Hcl. pose proof (fa_limit_range (A := A)) as Hlim. pose proof (cl_range _ _ _ _ Hcl) as Hn.
  pose proof (vs_tables _ _ Hv) as Hok.
  assert (pde_frame (vm_mem t) n 1023 = n) as Hself.
  { unfold pde_frame. rewrite (cl_self _ _ _ _ Hcl). apply mk_entry_div; [lia|by compute]. }
  assert (forall j, 0 <= j < 1023 -> pde_frame (vm_mem t) n j = pde_frame (vm_mem t) d j) as Hfr.
  { intros j Hj. unfold pde_frame. by rewrite (cl_entries _ _ _ _ Hcl). }
  split; vm_simpl in *; [done| |apply tlb_of_empty|apply Hv|].
  - split; [lia| | |].
    + split; [|done]. rewrite (cl_self _ _ _ _ Hcl). apply mk_entry_present.
    + rewrite (cl_entries _ _ _ _ Hcl) by lia. apply (to_kernel _ _ Hok).
    + intros i j Hi Hj. destruct (decide (i = 1023)) as [->|Hi'], (decide (j = 1023)) as [->|Hj'];
        [done| | |]; intros Hpi Hpj E.
      * rewrite (cl_entries _ _ _ _ Hcl j) in Hpj by lia. rewrite Hself, Hfr in E by lia.
        exfalso. by apply (cl_fresh _ _ _ _ Hcl j ltac:(lia) Hpj).
      * rewrite (cl_entries _ _ _ _ Hcl i) in Hpi by lia. rewrite Hself, Hfr in E by lia.
        exfalso. by apply (cl_fresh _ _ _ _ Hcl i ltac:(lia) Hpi).
      * rewrite (cl_entries _ _ _ _ Hcl) in Hpi, Hpj by lia. rewrite !Hfr in E by lia.
        by apply (to_inj _ _ Hok).
  - intros i Hi. destruct (decide (i = 1023)) as [->|Hne].
    + intros _ _. rewrite Hself.
      apply vs_alloc in Hv as Hwf. apply (cl_used _ _ _ _ Hcl); [lia|by right].
    + rewrite Hfr, (cl_entries _ _ _ _ Hcl) by lia. apply (vs_used _ _ Hv). lia.
Qed.

Lemma wp_map_page_for_pdt s n va paddr f :
  vspace n (set_tlb ∅ (set_cr3 (4096 * n) s)) ->
  0 <= va < 4294967296 -> va / 4096 / 1024 < 1023 ->
  0 <= paddr < 4294967296 -> 0 <= f < 4096 ->
  wp (vmm_map_page_for_pdt (4096 * n) va paddr f) (fun _ s' =>
    vspace n (set_tlb ∅ (set_cr3 (4096 * n) s')) /\ same_regs s s' /\ vm_tlb s' = ∅ /\
    (page_mapped n va paddr s s' \/
     present (pde (vm_mem s) n (va / 4096 / 1024)) = false /\ exhausted (vm_frames s) /\
     vm_mem s' = vm_mem s /\ vm_frames s' = vm_frames s)) s.
Proof.
  intros Hv Hva Hi Hpa Hf. unfold vmm_map_page_for_pdt, read_cr3, load_cr3. wp_steps.
  eapply wp_mono; [by apply wp_map_page|]. intros [] s1 (Hv1 & Hr1 & Hpost). wp_steps.
  destruct Hr1 as (?&?&?). vm_simpl in *. split_and!; vm_simpl in *; [|split_and!; done|done|].
  - destruct Hv1. split; vm_simpl in *; [done|done|apply tlb_of_empty|done|done].
  - destruct Hpost as [Hm|Hm]; [left; destruct Hm|right; exact Hm].
    split; vm_simpl in *; assumption.
Qed.

(** Two directories that agree on a slot translate its pages alike. *)
Lemma walk_shared m d n pg :
  0 <= d < 1048576 -> 0 <= n < 1048576 ->
  pde m n (pg / 1024) = pde m d (pg / 1024) ->
  walk m (4096 * n) pg = walk m (4096 * d) pg.
Proof. intros Hd Hn He. rewrite !walk_spec by done. unfold pde_frame. by rewrite He. Qed.
End specs.

(** ** A concrete machine

    Frames 0 to 3 are taken: directory 2, whose slot 768 is table 3. *)

Definition demo_mem : gmap Z Z :=
  write32 (write32 ∅ (4096 * 2 + 4 * 768) (mk_entry 3 PAGE_WRITE))
    (4096 * 2 + 4 * 1023) (mk_entry 2 PAGE_WRITE).
Definition demo_pmm : pmm := mkPmm (<[0%nat := 15]> (replicate 4096 0)) [] 64.
Definition demo_vm : vm pmm := mkVm demo_pmm demo_mem (4096 * 2) ∅ (4096 * 2) (4096 * 2).

Lemma demo_pde j :
  0 <= j < 1024 ->
  pde demo_mem 2 j = if decide (j = 1023) then mk_entry 2 PAGE_WRITE
                     else if decide (j = 768) then mk_entry 3 PAGE_WRITE else 0.
Proof.
  intros Hj. unfold pde, demo_mem. rewrite !ent_write by lia.
  assert (ent ∅ (4096 * 2) j = 0) as ->.
  { unfold ent, read32. cbn [read_bytes]. unfold read8. by rewrite !lookup_empty. }
  destruct (decide (j = 1023)) as [->|]; [by rewrite decide_True|].
  rewrite decide_False by lia.
  destruct (decide (j = 768)) as [->|]; [by rewrite decide_True|].
  by rewrite decide_False by lia.
Qed.

Lemma demo_tables : tables_ok demo_mem 2.
Proof.
  split; [lia| | |].
  - unfold pde_frame. by rewrite demo_pde by lia.
  - by rewrite demo_pde by lia.
  - intros i j Hi Hj. unfold pde_frame. rewrite !demo_pde by lia.
    repeat case_decide; subst; intros; done.
Qed.

Lemma demo_wf : pmm_wf demo_pmm.
Proof.
  split; cbn [demo_pmm pmm_bitmap pmm_regions total_frames].
  - rewrite length_insert. apply length_replicate.
  - apply Forall_insert; [apply Forall_replicate|]; lia.
  - unfold BITMAP_SIZE. lia.
  - by compute.
Qed.

Lemma demo_vspace : vspace 2 demo_vm.
Proof.
  split; cbn [demo_vm vm_mem vm_cr3 vm_tlb vm_frames].
  - done.
  - apply demo_tables.
  - apply tlb_of_empty.
  - exact (conj demo_wf eq_refl).
  - change (forall i, 0 <= i < 1024 -> present (pde demo_mem 2 i) = true ->
      pde_frame demo_mem 2 i < 32768 -> frame_used demo_pmm (pde_frame demo_mem 2 i) = true).
    intros i Hi. unfold pde_frame. rewrite demo_pde by done.
    repeat case_decide; intros; [by vm_compute|by vm_compute|done].
Qed.

(** ** Properties *)

(** C1: [vmm_map_page] keeps the address space well formed (recursive slot,
    kernel table, unshared tables, TLB agreeing with the tables, tables taken
    from the frame allocator).  Either the page now leads to the frame of
    [paddr] and every other page outside the recursive slot translates as it
    did, or the table of the page was missing, no frame was left, and memory and
    frames are untouched. *)
Theorem vmm_map_page_correct A (HA : FrameAllocator A) s d va paddr f :
  vspace d s -> 0 <= va < 4294967296 -> va / 4096 / 1024 < 1023 ->
  0 <= paddr < 4294967296 -> 0 <= f < 4096 ->
  wp (vmm_map_page va paddr f) (fun _ s' => vspace d s' /\ same_regs s s' /\
    (page_mapped d va paddr s s' \/
     present (pde (vm_mem s) d (va / 4096 / 1024)) = false /\ exhausted (vm_frames s) /\
     vm_mem s' = vm_mem s /\ vm_frames s' = vm_frames s)) s.
Proof. apply wp_map_page. Qed.

Lemma vmm_map_page_correct_witness :
  wp (vmm_map_page 0x08048123 0x00205000 7) (fun _ s' => vspace 2 s' /\ same_regs demo_vm s' /\
    (page_mapped 2 0x08048123 0x00205000 demo_vm s' \/
     present (pde demo_mem 2 32) = false /\ exhausted demo_pmm /\
     vm_mem s' = demo_mem /\ vm_frames s' = demo_pmm)) demo_vm.
Proof. apply (vmm_map_page_correct pmm _ demo_vm 2); [apply demo_vspace|by compute..]. Defined.

(** After [vmm_map_page] has taken effect, [vmm_get_phys_addr] of any
    address of that page answers the byte of the frame it was mapped to. *)
Theorem vmm_map_then_lookup A (HA : FrameAllocator A) s d va paddr f o :
  vspace d s -> 0 <= va < 4294967296 -> va / 4096 / 1024 < 1023 ->
  0 <= paddr < 4294967296 -> 0 <= f < 4096 -> 0 <= o < 4096 ->
  present (pde (vm_mem s) d (va / 4096 / 1024)) = true ->
  wp (vmm_map_page va paddr f ;; vmm_get_phys_addr (4096 * (va / 4096) + o))
     (fun p s' => vspace d s' /\ p = 4096 * (paddr / 4096) + o) s.
Proof.
  intros Hv Hva Hi Hpa Hf Ho Hp. pose proof (page_of_va va Hva) as Hpg. wp_steps.
  destruct (page_address (va / 4096) o Ho) as [E1 E2].
  eapply wp_mono; [by apply wp_map_page|]. intros [] s1 (Hv1 & _ & [Hm|[? _]]); [|congruence].
  eapply wp_mono; [apply (wp_get_phys_addr s1 d); [done|lia|by rewrite E1]|].
  intros p s2 [-> (t & -> & Hv2)]. split; [done|]. unfold phys_of.
  by rewrite E1, E2, (pm_walk _ _ _ _ _ Hm).
Qed.

Lemma vmm_map_then_lookup_witness :
  wp (vmm_map_page 0xC0012345 0x00205000 3 ;; vmm_get_phys_addr (4096 * 0xC0012 + 0x345))
     (fun p s' => vspace 2 s' /\ p = 0x00205345) demo_vm.
Proof.
  apply (vmm_map_then_lookup pmm _ demo_vm 2 0xC0012345 0x00205000 3 0x345);
    [apply demo_vspace|by compute..|]. cbn [demo_vm vm_mem]. by rewrite demo_pde.
Defined.

(** C29: [vmm_unmap_page] on a page whose table exists makes [vmm_get_phys_addr]
    of that page answer 0 and leaves every other translation, the frames and the
    registers as they were. *)
Theorem vmm_unmap_page_correct A (HA : FrameAllocator A) s d va :
  vspace d s -> 0 <= va < 4294967296 -> va / 4096 / 1024 < 1023 ->
  present (pde (vm_mem s) d (va / 4096 / 1024)) = true ->
  wp (vmm_unmap_page va ;; vmm_get_phys_addr va)
     (fun p s' => p = 0 /\ vspace d s' /\ same_regs s s' /\ page_unmapped d va s s') s.
Proof.
  intros Hv Hva Hi Hp. wp_steps.
  eapply wp_mono; [by apply wp_unmap_page|]. intros [] s1 (Hv1 & Hr1 & Hu).
  eapply wp_mono; [by apply (wp_get_phys_addr s1 d)|].
  intros p s2 [-> (t & -> & Hv2)]. unfold phys_of. rewrite (pu_walk _ _ _ _ Hu).
  split_and!; [done|done|done|]. destruct Hu. by split.
Qed.

Lemma vmm_unmap_page_correct_witness :
  wp (vmm_unmap_page 0xC0012345 ;; vmm_get_phys_addr 0xC0012345)
     (fun p s' => p = 0 /\ vspace 2 s' /\ same_regs demo_vm s' /\
        page_unmapped 2 0xC0012345 demo_vm s') demo_vm.
Proof.
  apply (vmm_unmap_page_correct pmm _ demo_vm 2); [apply demo_vspace|by compute..|].
  cbn [demo_vm vm_mem]. by rewrite demo_pde.
Defined.

(** C28: [vmm_clone_kernel_mappings] answers 0 and changes nothing when no frame
    is left; otherwise it answers a frame nobody used, now a directory with the
    current one's first 1023 entries and its own recursive slot, while the
    current address space translates as before (its temporary window closed). *)
Theorem vmm_clone_correct A (HA : FrameAllocator A) s d :
  vspace d s ->
  wp vmm_clone_kernel_mappings (fun p s' => vspace d s' /\ same_regs s s' /\
    (p = 0 /\ s' = s /\ exhausted (vm_frames s) \/
     exists n, p = 4096 * n /\ cloned d n s s' /\
       vspace n (set_tlb ∅ (set_cr3 (4096 * n) s')))) s.
Proof.
  intros Hv. eapply wp_mono; [by apply wp_clone|].
  intros p s' (Hv' & Hr & [?|(n & Hp & Hc)]); split_and!; [done|done|by left|done|done|].
  right. exists n. split_and!; [done|done|by eapply cloned_vspace].
Qed.

Lemma vmm_clone_correct_witness :
  wp vmm_clone_kernel_mappings (fun p s' => vspace 2 s' /\ same_regs demo_vm s' /\
    (p = 0 /\ s' = demo_vm /\ exhausted demo_pmm \/
     exists n, p = 4096 * n /\ cloned 2 n demo_vm s' /\
       vspace n (set_tlb ∅ (set_cr3 (4096 * n) s')))) demo_vm.
Proof. apply (vmm_clone_correct pmm _ demo_vm 2), demo_vspace. Defined.

(** C39: A directory made by [vmm_clone_kernel_mappings] shares every page table
    with its parent, the tables of user space too: mapping a page in the child
    whose table exists changes the parent's translation of that page. *)
Theorem vmm_clone_shares_tables A (HA : FrameAllocator A) s d n s1 va paddr f :
  vspace d s -> vspace d s1 -> cloned d n s s1 -> pde_frame (vm_mem s) d 768 <> d ->
  0 <= va < 4294967296 -> va / 4096 / 1024 < 1023 ->
  0 <= paddr < 4294967296 -> 0 <= f < 4096 ->
  present (pde (vm_mem s) d (va / 4096 / 1024)) = true ->
  wp (vmm_map_page_for_pdt (4096 * n) va paddr f)
     (fun _ s2 => walk (vm_mem s2) (4096 * d) (va / 4096) = Some (4096 * (paddr / 4096))) s1.
Proof.
  intros Hv Hv1 Hcl Hkd Hva Hi Hpa Hf Hp. pose proof (page_of_va va Hva) as Hpg.
  pose proof (page_index _ Hpg) as [Hj _]. pose proof (vs_tables _ _ Hv1) as Hok.
  pose proof (to_range _ _ Hok) as Hd. pose proof (cl_range _ _ _ _ Hcl) as Hn.
  pose proof (fa_limit_range (A := A)) as Hlim.
  eapply wp_mono; [apply (wp_map_page_for_pdt s1 n); [by eapply cloned_vspace|done..]|].
  intros [] s2 (_ & _ & _ & Hpost).
  assert (present (pde (vm_mem s1) n (va / 4096 / 1024)) = true) as Hpn.
  { by rewrite (cl_entries _ _ _ _ Hcl), (cl_pde _ _ _ _ Hcl) by lia. }
  destruct Hpost as [Hm|[? _]]; [|congruence].
  rewrite <- (pm_walk _ _ _ _ _ Hm). symmetry. apply walk_shared; [done|lia|].
  destruct (pm_frames _ _ _ _ _ Hm Hpn) as [_ Hpde].
  rewrite Hpde, (cl_entries _ _ _ _ Hcl) by lia. symmetry. apply ent_ext. intros b Hb.
  assert (b / 4096 = d) as Eb.
  { symmetry. apply Z.div_unique with (b - 4096 * d); lia. }
  assert (n <> d) as Hne.
  { destruct (to_self _ _ Hok) as [Hs1 Hs2].
    intros ->. by apply (cl_fresh _ _ _ _ Hcl 1023 ltac:(lia) Hs1). }
  apply (pm_data _ _ _ _ _ Hm); rewrite Eb; [done| |].
  - unfold pde_frame. rewrite (cl_entries _ _ _ _ Hcl), (cl_pde _ _ _ _ Hcl) by lia.
    by apply not_eq_sym.
  - unfold pde_frame. rewrite Hpde, (cl_entries _ _ _ _ Hcl) by lia.
    apply not_eq_sym. apply (pde_frame_ne _ _ Hok); [lia|].
    by rewrite (cl_pde _ _ _ _ Hcl) by lia.
Qed.

(** The clone answers the frame its allocation answered. *)
Lemma clone_answers A (HA : FrameAllocator A) (s : vm A) P Q :
  P <> 0 -> wp vm_alloc_frame (fun p _ => p = P) s ->
  wp vmm_clone_kernel_mappings Q s ->
  wp vmm_clone_kernel_mappings (fun p s' => p = P /\ Q p s') s.
Proof.
  unfold vmm_clone_kernel_mappings. intros HP Ha Hc%wp_bind_inv. apply wp_bind.
  pose proof (wp_and _ _ _ _ Ha Hc) as H.
  eapply wp_mono; [exact H|]. cbv beta. clear Ha Hc H. intros p s' [-> H].
  rewrite (proj2 (Z.eqb_neq P 0)) in * by done.
  repeat (apply wp_bind_inv in H; apply wp_bind; eapply wp_mono; [exact H|]; clear H;
          cbv beta; intros [] ? H).
  exact (conj eq_refl H).
Qed.

Lemma vmm_clone_shares_tables_witness :
  exists s1, cloned 2 4 demo_vm s1 /\
  wp (vmm_map_page_for_pdt (4096 * 4) 0xC0012345 0x00205000 3)
     (fun _ s2 => walk (vm_mem s2) (4096 * 2) 0xC0012 = Some (4096 * 0x205)) s1.
Proof.
  pose proof (clone_answers pmm _ demo_vm (4096 * 4) _ ltac:(done)
    ltac:(vm_compute; reflexivity) (wp_clone demo_vm 2 demo_vspace)) as H.
  apply (proj1 (wp_run _ _ _)) in H.
  destruct H as (p & s1 & _ & -> & Hv1 & _ & [[? _]|(n & E & Hcl)]); [done|].
  assert (n = 4) by lia. subst n. exists s1. split; [exact Hcl|].
  apply (vmm_clone_shares_tables pmm _ demo_vm 2 4 s1 0xC0012345 0x00205000 3);
    [apply demo_vspace|exact Hv1|exact Hcl| |by compute..|];
    cbn [demo_vm vm_mem]; unfold pde_frame; by rewrite demo_pde.
Defined.
