(* ===== verification/Malloc.v ===== *)
(** * Kernel heap ([kernel/malloc.c], [kernel/malloc.h])

    [kmalloc], [kfree], [heap_init] and [expand_heap].  The chunk headers are a
    store from header addresses to [header] records; a header access traps when
    its page is not mapped or when no header was stored there.  [expand_heap]
    runs the code of [Vmm] on the machine state inside the heap's state.  The
    bytes of the chunks' data, which the allocator never reads, are not stored. *)

From Stdlib Require Import Lia ZArith.
From stdpp Require Import base list gmap numbers option tactics.
From S2P Require Import Prelude PhysMem Pmm Vmm.

Definition HEAP_START : Z := 0xC0400000.
Definition KERNEL_HEAP_END : Z := 0xC07FFFFF.

Record header := mkHeader {
  size : Z;
  is_free : Z;
  next : Z;
  prev : Z;
}.

(** [sizeof(header_t)] *)
Definition HEADER_SIZE : Z := 16.

Definition set_size (v : Z) (h : header) : header := mkHeader v (is_free h) (next h) (prev h).
Definition set_is_free (v : Z) (h : header) : header := mkHeader (size h) v (next h) (prev h).
Definition set_next (v : Z) (h : header) : header := mkHeader (size h) (is_free h) v (prev h).
Definition set_prev (v : Z) (h : header) : header := mkHeader (size h) (is_free h) (next h) v.

Record heap (A : Type) := mkHeap {
  heap_vm : vm A;
  headers : gmap Z header;
  free_list_start : Z;
  heap_end_vaddr : Z;
}.
Arguments mkHeap {A}.
Arguments heap_vm {A}.
Arguments headers {A}.
Arguments free_list_start {A}.
Arguments heap_end_vaddr {A}.

Definition set_heap_vm {A} (v : vm A) (s : heap A) : heap A :=
  mkHeap v (headers s) (free_list_start s) (heap_end_vaddr s).
Definition set_headers {A} (h : gmap Z header) (s : heap A) : heap A :=
  mkHeap (heap_vm s) h (free_list_start s) (heap_end_vaddr s).
Definition set_free_list {A} (a : Z) (s : heap A) : heap A :=
  mkHeap (heap_vm s) (headers s) a (heap_end_vaddr s).
Definition set_heap_end {A} (a : Z) (s : heap A) : heap A :=
  mkHeap (heap_vm s) (headers s) (free_list_start s) a.

Tactic Notation "heap_simpl" "in" "*" :=
  cbn [set_heap_vm set_headers set_free_list set_heap_end heap_vm headers
       free_list_start heap_end_vaddr size is_free next prev
       set_size set_is_free set_next set_prev] in *.

(** ** Operations *)

Section malloc.
Context {A : Type} `{!FrameAllocator A}.

Definition on_vm {B} (c : M (vm A) B) : M (heap A) B := zoom heap_vm set_heap_vm c.

Definition page_present (s : heap A) (a : Z) : bool :=
  match walk (vm_mem (heap_vm s)) (vm_cr3 (heap_vm s)) (a / 4096) with
  | Some _ => true
  | None => false
  end.

(** [*p], and an assignment to the whole header or to one of its fields. *)
Definition hdr_read (a : Z) : M (heap A) header :=
  s <- get ;;
  if page_present s a then some_or_trap (headers s !! a) else trap.
Definition hdr_write (a : Z) (h : header) : M (heap A) unit :=
  s <- get ;;
  if page_present s a then put (set_headers (<[a := h]> (headers s)) s) else trap.
Definition hdr_update (a : Z) (f : header -> header) : M (heap A) unit :=
  h <- hdr_read a ;; hdr_write a (f h).

Definition expand_heap (sz : Z) : M (heap A) Z :=
  let total_required := u32 (sz + HEADER_SIZE) in
  let num_pages := u32 (total_required + PAGE_SIZE - 1) / PAGE_SIZE in
  s0 <- get ;;
  let old_heap_end := heap_end_vaddr s0 in
  r <- for_ (upto 0 num_pages) 0
         (fun _ (allocated_frames : list Z) =>
            s <- get ;;
            if KERNEL_HEAP_END - PAGE_SIZE + 1 <? heap_end_vaddr s then
              ret (inr allocated_frames)
            else
              phys_frame <- on_vm vm_alloc_frame ;;
              if phys_frame =? 0 then ret (inr allocated_frames)
              else
                on_vm (vmm_map_kernel_page (heap_end_vaddr s) phys_frame) ;;
                modify (fun t => set_heap_end (u32 (heap_end_vaddr t + PAGE_SIZE)) t) ;;
                ret (inl (allocated_frames ++ [phys_frame]))) [] ;;
  match r with
  | inl _ =>
      hdr_write old_heap_end (mkHeader (u32 (num_pages * PAGE_SIZE - HEADER_SIZE)) 1 0 0) ;;
      ret old_heap_end
  | inr allocated_frames =>
      for_each (length allocated_frames) 0
        (fun i =>
           on_vm (vmm_unmap_page (u32 (old_heap_end + i * PAGE_SIZE))) ;;
           f <- some_or_trap (arr_get allocated_frames i) ;;
           on_vm (vm_free_frame f)) ;;
      modify (set_heap_end old_heap_end) ;;
      ret 0
  end.

(** The body of the [if] that found a chunk. *)
Definition take_chunk (curr sz : Z) : M (heap A) unit :=
  h <- hdr_read curr ;;
  (if u32 (sz + HEADER_SIZE + 16) <=? size h then
     let split := u32 (curr + HEADER_SIZE + sz) in
     hdr_write split (mkHeader (u32 (size h - sz - HEADER_SIZE)) 1 (next h) curr) ;;
     (if next h =? 0 then ret tt else hdr_update (next h) (set_prev split)) ;;
     hdr_update curr (set_next split) ;;
     hdr_update curr (set_size sz)
   else ret tt) ;;
  hdr_update curr (set_is_free 0).

(** First-fit search from [curr]; 0 when the list ends. *)
Definition first_fit (fuel : nat) (sz curr : Z) : M (heap A) Z :=
  iter fuel
    (fun curr =>
       if curr =? 0 then ret (inr 0)
       else
         h <- hdr_read curr ;;
         if truthy (is_free h) && (sz <=? size h) then
           take_chunk curr sz ;;
           ret (inr (u32 (curr + HEADER_SIZE)))
         else ret (inl (next h))) curr.

Definition last_chunk (fuel : nat) (a : Z) : M (heap A) Z :=
  iter fuel
    (fun last =>
       h <- hdr_read last ;;
       if next h =? 0 then ret (inr last) else ret (inl (next h))) a.

Definition link_block (fuel : nat) (new_block : Z) : M (heap A) unit :=
  s <- get ;;
  if free_list_start s =? 0 then modify (set_free_list new_block)
  else
    last <- last_chunk fuel (free_list_start s) ;;
    hdr_update last (set_next new_block) ;;
    hdr_update new_block (set_prev last).

Definition align16 (sz : Z) : Z := Z.land (u32 (sz + 15)) 0xFFFFFFF0.

(** [depth] bounds the recursive retry, [fuel] the walks over the list. *)
Fixpoint kmalloc (depth fuel : nat) (sz : Z) : M (heap A) Z :=
  match depth with
  | O => no_fuel
  | S depth' =>
      if sz =? 0 then ret 0
      else
        let sz := align16 sz in
        s <- get ;;
        p <- first_fit fuel sz (free_list_start s) ;;
        if p =? 0 then
          new_block <- expand_heap sz ;;
          if new_block =? 0 then ret 0
          else
            link_block fuel new_block ;;
            kmalloc depth' fuel sz
        else ret p
  end.

Definition kfree (ptr : Z) : M (heap A) unit :=
  if ptr =? 0 then ret tt
  else
    let hdr := u32 (ptr - HEADER_SIZE) in
    hdr_update hdr (set_is_free 1) ;;
    h <- hdr_read hdr ;;
    (if next h =? 0 then ret tt
     else
       n <- hdr_read (next h) ;;
       if truthy (is_free n) then
         hdr_update hdr (fun h => set_size (u32 (size h + u32 (HEADER_SIZE + size n))) h) ;;
         hdr_update hdr (set_next (next n)) ;;
         if next n =? 0 then ret tt else hdr_update (next n) (set_prev hdr)
       else ret tt) ;;
    h <- hdr_read hdr ;;
    if prev h =? 0 then ret tt
    else
      p <- hdr_read (prev h) ;;
      if truthy (is_free p) then
        hdr_update (prev h) (fun p => set_size (u32 (size p + u32 (HEADER_SIZE + size h))) p) ;;
        hdr_update (prev h) (set_next (next h)) ;;
        if next h =? 0 then ret tt else hdr_update (next h) (set_prev (prev h))
      else ret tt.

Definition heap_init : M (heap A) unit :=
  modify (set_free_list 0) ;;
  modify (set_heap_end HEAP_START) ;;
  b <- expand_heap 0 ;;
  modify (set_free_list b).

Definition heap_get_end_vaddr : M (heap A) Z := gets heap_end_vaddr.
End malloc.

(** ** Chunks as a list *)

Record chunk := mkChunk {
  c_addr : Z;
  c_size : Z;
  c_free : bool;
}.

Definition head_or (l : list chunk) (nx : Z) : Z :=
  match l with [] => nx | c :: _ => c_addr c end.

Fixpoint last_or (pv : Z) (l : list chunk) : Z :=
  match l with [] => pv | c :: l' => last_or (c_addr c) l' end.

Definition header_of (pv : Z) (c : chunk) (nx : Z) : header :=
  mkHeader (c_size c) (if c_free c then 1 else 0) nx pv.

(** The headers of [l] form a doubly linked list between [pv] and [nx]. *)
Fixpoint linked (h : gmap Z header) (pv : Z) (l : list chunk) (nx : Z) : Prop :=
  match l with
  | [] => True
  | c :: l' =>
      h !! c_addr c = Some (header_of pv c (head_or l' nx)) /\ linked h (c_addr c) l' nx
  end.

(** The chunks of [l] fill the addresses from [a] to [stop], without gaps. *)
Fixpoint tiles (a : Z) (l : list chunk) (stop : Z) : Prop :=
  match l with
  | [] => a = stop
  | c :: l' =>
      c_addr c = a /\ 0 < c_size c /\ c_size c mod 16 = 0 /\
      tiles (a + HEADER_SIZE + c_size c) l' stop
  end.

Definition is_used (c : chunk) : Prop := c_free c = false.
#[export] Instance is_used_dec c : Decision (is_used c).
Proof. unfold is_used. apply _. Defined.

(** The chunks handed out to clients. *)
Definition allocated (l : list chunk) : list (Z * Z) :=
  map (fun c => (c_addr c, c_size c)) (filter is_used l).

Record heap_inv {A} `{!FrameAllocator A} (d : Z) (l : list chunk) (s : heap A) : Prop := {
  hi_vspace : vspace d (heap_vm s);
  hi_table : present (pde (vm_mem (heap_vm s)) d 769) = true;
  hi_mapped : forall pg, HEAP_START / 4096 <= pg < heap_end_vaddr s / 4096 ->
    is_Some (walk (vm_mem (heap_vm s)) (4096 * d) pg);
  hi_end : HEAP_START <= heap_end_vaddr s <= KERNEL_HEAP_END + 1 /\
           heap_end_vaddr s mod 4096 = 0;
  hi_start : free_list_start s = head_or l 0;
  hi_linked : linked (headers s) 0 l 0;
  hi_tiles : tiles HEAP_START l (heap_end_vaddr s);
}.

Lemma linked_app h pv l1 l2 nx :
  linked h pv (l1 ++ l2) nx <->
  linked h pv l1 (head_or l2 nx) /\ linked h (last_or pv l1) l2 nx.
Proof.
  revert pv. induction l1 as [|c l1 IH]; intros pv; simpl; [tauto|].
  rewrite IH. assert (head_or (l1 ++ l2) nx = head_or l1 (head_or l2 nx)) as -> by by destruct l1.
  tauto.
Qed.

Lemma tiles_app a l1 l2 stop :
  tiles a (l1 ++ l2) stop <-> exists m, tiles a l1 m /\ tiles m l2 stop.
Proof.
  revert a. induction l1 as [|c l1 IH]; intros a; simpl.
  - split; [by exists a|]. by intros (? & -> & ?).
  - rewrite IH. split.
    + intros (? & ? & ? & m & ? & ?). by exists m.
    + intros (m & (? & ? & ? & ?) & ?). split_and!; eauto.
Qed.

Lemma last_or_app pv l1 l2 : last_or pv (l1 ++ l2) = last_or (last_or pv l1) l2.
Proof. revert pv. induction l1; intros; simpl; auto. Qed.

Lemma tiles_le a l stop : tiles a l stop -> a <= stop.
Proof.
  revert a. induction l as [|c l IH]; simpl; [lia|].
  intros a (_ & ? & _ & H%IH). unfold HEADER_SIZE in *. lia.
Qed.

Lemma tiles_mod a l stop : tiles a l stop -> a mod 16 = 0 -> stop mod 16 = 0.
Proof.
  revert a. induction l as [|c l IH]; simpl; [by intros ? ->|].
  intros a (_ & _ & Hm & H) Ha. eapply IH; [exact H|]. unfold HEADER_SIZE.
  rewrite (Z.add_mod (a + 16)), Hm, (Z.add_mod a), Ha by lia. done.
Qed.

Lemma tiles_in a l stop c :
  tiles a l stop -> c ∈ l ->
  a <= c_addr c /\ 0 < c_size c /\ c_addr c + HEADER_SIZE + c_size c <= stop.
Proof.
  revert a. induction l as [|c' l IH]; simpl; intros a Ht Hin; [by apply not_elem_of_nil in Hin|].
  destruct Ht as (Ha & ? & _ & Ht). apply elem_of_cons in Hin as [->|Hin].
  - apply tiles_le in Ht. lia.
  - apply (IH _ Ht) in Hin. unfold HEADER_SIZE in *. lia.
Qed.

(** A header stored outside the list's chunks does not disturb the list. *)
Lemma linked_insert h pv l nx x hd :
  linked h pv l nx -> (forall c, c ∈ l -> c_addr c <> x) -> linked (<[x := hd]> h) pv l nx.
Proof.
  revert pv. induction l as [|c l IH]; simpl; [done|]. intros pv [Hc Hl] Hx. split.
  - rewrite lookup_insert_ne; [done|]. apply not_eq_sym, Hx. by left.
  - apply IH; [done|]. intros c' Hc'. apply Hx. by right.
Qed.

Lemma allocated_app l1 l2 : allocated (l1 ++ l2) = allocated l1 ++ allocated l2.
Proof. unfold allocated. by rewrite list.filter_app, map_app. Qed.

Lemma allocated_cons c l :
  allocated (c :: l) = (if c_free c then [] else [(c_addr c, c_size c)]) ++ allocated l.
Proof.
  unfold allocated. rewrite filter_cons.
  destruct (decide (is_used c)) as [E|E]; unfold is_used in E; by destruct (c_free c).
Qed.

Lemma linked_ext h h' pv l nx :
  (forall c, c ∈ l -> h' !! c_addr c = h !! c_addr c) -> linked h pv l nx -> linked h' pv l nx.
Proof.
  revert pv. induction l as [|c l IH]; simpl; [done|]. intros pv Hx [Hc Hl]. split.
  - rewrite Hx; [done|by left].
  - apply IH; [|done]. intros c' Hc'. apply Hx. by right.
Qed.

(** [l] after its first chunk's [prev] was set to [pv]. *)
Lemma linked_reprev h pv pv' l nx :
  NoDup (map c_addr l) -> linked h pv l nx ->
  match l with
  | [] => True
  | c :: _ => forall h', (forall x, x <> c_addr c -> h' !! x = h !! x) ->
      h' !! c_addr c = set_prev pv' <$> (h !! c_addr c) -> linked h' pv' l nx
  end.
Proof.
  destruct l as [|c l]; [done|]. simpl. intros [Hn _]%list.NoDup_cons [Hc Hl] h' Hx Hc'. split.
  - by rewrite Hc', Hc.
  - eapply linked_ext; [|done]. intros c1 Hin. apply Hx. intros E. apply Hn.
    rewrite <- E. by apply list_elem_of_fmap_2.
Qed.

Lemma tiles_NoDup a l stop : tiles a l stop -> NoDup (map c_addr l).
Proof.
  revert a. induction l as [|c l IH]; simpl; intros a; [constructor|].
  intros (Ha & Hs & _ & Ht). constructor; [|by eapply IH].
  intros (c' & E & Hin)%list_elem_of_fmap. pose proof (tiles_in _ _ _ _ Ht Hin).
  unfold HEADER_SIZE in *. lia.
Qed.

Section specs.
Context {A : Type} `{!FrameAllocator A}.
Implicit Types s : heap A.

Lemma inv_end d l s : heap_inv d l s -> HEAP_START <= heap_end_vaddr s <= 0xC0800000.
Proof. intros [_ _ _ [? _] _ _ _]. unfold KERNEL_HEAP_END in *. lia. Qed.

Lemma inv_page_present d l s a :
  heap_inv d l s -> HEAP_START <= a < heap_end_vaddr s -> page_present s a = true.
Proof.
  intros [Hv _ Hm [_ He] _ _ _] Ha. unfold page_present. rewrite (vs_cr3 _ _ Hv).
  destruct (Hm (a / 4096)) as [f ->]; [|done]. unfold HEAP_START in *.
  split; [apply Z.div_le_mono; lia|]. apply Z.div_lt_upper_bound; [lia|].
  pose proof (Z.div_mod (heap_end_vaddr s) 4096). lia.
Qed.

Lemma wp_hdr_read s a h Q :
  page_present s a = true -> headers s !! a = Some h -> Q h s -> wp (hdr_read a) Q s.
Proof. intros Hp Hh HQ. unfold hdr_read. wp_steps. rewrite Hp. by eapply wp_some_or_trap. Qed.

Lemma wp_hdr_write s a h (Q : unit -> heap A -> Prop) :
  page_present s a = true -> Q tt (set_headers (<[a := h]> (headers s)) s) ->
  wp (hdr_write a h) Q s.
Proof. intros Hp HQ. unfold hdr_write. wp_steps. rewrite Hp. by wp_steps. Qed.

Lemma wp_hdr_update s a h f (Q : unit -> heap A -> Prop) :
  page_present s a = true -> headers s !! a = Some h ->
  Q tt (set_headers (<[a := f h]> (headers s)) s) -> wp (hdr_update a f) Q s.
Proof.
  intros Hp Hh HQ. unfold hdr_update. wp_steps. eapply wp_hdr_read; [done|done|].
  by apply wp_hdr_write.
Qed.

(** The list seen from one of its chunks. *)
Lemma inv_at d l1 c l2 s :
  heap_inv d (l1 ++ c :: l2) s ->
  HEAP_START <= c_addr c /\ c_addr c mod 16 = 0 /\ 0 < c_size c /\ c_size c mod 16 = 0 /\
  c_addr c + HEADER_SIZE + c_size c <= heap_end_vaddr s /\
  tiles HEAP_START l1 (c_addr c) /\
  tiles (c_addr c + HEADER_SIZE + c_size c) l2 (heap_end_vaddr s) /\
  page_present s (c_addr c) = true /\
  headers s !! c_addr c = Some (header_of (last_or 0 l1) c (head_or l2 0)) /\
  linked (headers s) 0 l1 (c_addr c) /\ linked (headers s) (c_addr c) l2 0.
Proof.
  intros Hinv. pose proof (hi_tiles _ _ _ Hinv) as Ht. pose proof (hi_linked _ _ _ Hinv) as Hl.
  apply tiles_app in Ht as (m & Ht1 & Hm & Hs & Hs16 & Ht2). simpl in Hm. subst m.
  apply linked_app in Hl as [Hl1 [Hc Hl2]].
  pose proof (tiles_le _ _ _ Ht1). pose proof (tiles_le _ _ _ Ht2).
  pose proof (tiles_mod _ _ _ Ht1 ltac:(by compute)). pose proof (inv_end _ _ _ Hinv).
  split_and!; try done.
  eapply inv_page_present; [done|]. unfold HEADER_SIZE in *. lia.
Qed.

(** Replacing the list, with the machine and the heap's end as they were. *)
Lemma inv_relink d l l' h s :
  heap_inv d l s -> head_or l' 0 = head_or l 0 ->
  linked h 0 l' 0 -> tiles HEAP_START l' (heap_end_vaddr s) ->
  heap_inv d l' (set_headers h s).
Proof.
  intros [Hv Hp Hm He Hs Hl Ht] Hh Hl' Ht'. by split; heap_simpl in *; rewrite ?Hh.
Qed.

Lemma head_or_mid l1 c l2 nx nx' c' l2' :
  c_addr c' = c_addr c -> head_or (l1 ++ c' :: l2') nx' = head_or (l1 ++ c :: l2) nx.
Proof. by destruct l1. Qed.

(** Storing a header for the chunk in the middle, of the same address. *)
Lemma linked_set_mid h l1 c c' l2 stop :
  linked h 0 l1 (c_addr c) -> linked h (c_addr c) l2 0 -> c_addr c' = c_addr c ->
  tiles HEAP_START l1 (c_addr c) ->
  tiles (c_addr c + HEADER_SIZE + c_size c) l2 stop -> 0 < c_size c ->
  linked (<[c_addr c := header_of (last_or 0 l1) c' (head_or l2 0)]> h) 0 (l1 ++ c' :: l2) 0.
Proof.
  intros Hl1 Hl2 Ha Ht1 Ht2 Hs. apply linked_app. simpl. rewrite Ha. split_and!.
  - apply linked_insert; [done|]. intros c1 Hin E.
    pose proof (tiles_in _ _ _ _ Ht1 Hin). unfold HEADER_SIZE in *. lia.
  - by rewrite lookup_insert_eq.
  - apply linked_insert; [done|]. intros c1 Hin E.
    pose proof (tiles_in _ _ _ _ Ht2 Hin). unfold HEADER_SIZE in *. lia.
Qed.

(** Replacing the middle of a list: outside it only the [prev] of the chunk
    that follows may have changed. *)
Lemma linked_splice h h' l1 mid l2 m1 m2 pv stop :
  tiles HEAP_START l1 m1 -> tiles m2 l2 stop -> m1 <= m2 ->
  linked h 0 l1 m1 -> linked h pv l2 0 ->
  head_or mid 0 = m1 -> mid <> [] ->
  linked h' (last_or 0 l1) mid (head_or l2 0) ->
  (forall x, x < m1 -> h' !! x = h !! x) ->
  (forall x, m2 < x -> h' !! x = h !! x) ->
  (l2 <> [] -> h' !! m2 = set_prev (last_or 0 mid) <$> (h !! m2)) ->
  linked h' 0 (l1 ++ mid ++ l2) 0.
Proof.
  intros Ht1 Ht2 Hm Hl1 Hl2 Hhd Hne Hmid Hlow Hhigh Hnext.
  rewrite !linked_app. split_and!.
  - destruct mid as [|c mid]; [done|]. simpl in *. subst m1.
    eapply linked_ext; [|exact Hl1]. intros c1 Hin. apply Hlow.
    pose proof (tiles_in _ _ _ _ Ht1 Hin). unfold HEADER_SIZE in *. lia.
  - done.
  - destruct l2 as [|c2 l2]; [done|].
    pose proof (linked_reprev h pv (last_or 0 mid) (c2 :: l2) 0 (tiles_NoDup _ _ _ Ht2) Hl2) as Hre.
    cbv beta iota in Hre.
    assert (c_addr c2 = m2) as E by apply Ht2.
    replace (last_or (last_or 0 l1) mid) with (last_or 0 mid) by by destruct mid.
    simpl in Hl2. destruct Hl2 as [Hc2 Hl2]. simpl. split.
    + rewrite E, Hnext by done. rewrite <- E, Hc2. done.
    + eapply linked_ext; [|exact Hl2]. intros c1 Hin. apply Hhigh.
      destruct Ht2 as (_ & ? & _ & Ht2). pose proof (tiles_in _ _ _ _ Ht2 Hin).
      unfold HEADER_SIZE in *. lia.
Qed.

Definition same_machine (s s' : heap A) : Prop :=
  heap_vm s' = heap_vm s /\ heap_end_vaddr s' = heap_end_vaddr s.

Lemma head_lookup h pv l nx m stop :
  tiles m l stop -> linked h pv l nx -> l <> [] ->
  exists c l', l = c :: l' /\ c_addr c = m /\ h !! m = Some (header_of pv c (head_or l' nx)).
Proof.
  destruct l as [|c l']; [done|]. simpl. intros (Ha & _) [Hc _] _.
  exists c, l'. by rewrite <- Ha.
Qed.

(** [a->prev = v] for the chunk that follows, when there is one. *)
Lemma wp_set_next_prev s m l pv nx v stop (Q : unit -> heap A -> Prop) :
  tiles m l stop -> linked (headers s) pv l nx -> 0 < m -> stop <= heap_end_vaddr s ->
  (forall a, m <= a < heap_end_vaddr s -> page_present s a = true) ->
  (forall h', (forall x, x <> m -> h' !! x = headers s !! x) ->
     (l <> [] -> h' !! m = set_prev v <$> (headers s !! m)) ->
     (l = [] -> h' = headers s) -> Q tt (set_headers h' s)) ->
  wp (if head_or l 0 =? 0 then ret tt else hdr_update (head_or l 0) (set_prev v)) Q s.
Proof.
  intros Ht Hl Hm Hstop Hp HQ. destruct (decide (l = [])) as [->|Hne].
  - simpl. apply wp_ret. specialize (HQ (headers s)). destruct s. by apply HQ.
  - destruct (head_lookup _ _ _ _ _ _ Ht Hl Hne) as (c & l' & -> & E & Hh). simpl. rewrite E.
    rewrite (proj2 (Z.eqb_neq m 0)) by lia.
    simpl in Ht. destruct Ht as (_ & ? & _ & Ht%tiles_le). unfold HEADER_SIZE in *.
    eapply wp_hdr_update; [apply Hp; lia|exact Hh|]. apply HQ; [|intros _|done].
    + intros x Hx. by rewrite lookup_insert_ne.
    + by rewrite lookup_insert_eq, Hh.
Qed.

(** The free chunk [c] cut into one of [sz] bytes in use and the free rest. *)
Lemma inv_split d l1 c l2 s sz h :
  heap_inv d (l1 ++ c :: l2) s -> 0 < sz -> sz + 32 <= c_size c -> sz mod 16 = 0 ->
  let m := c_addr c + 16 + sz in
  let c' := mkChunk (c_addr c) sz false in
  let sp := mkChunk m (c_size c - sz - 16) true in
  h !! c_addr c = Some (header_of (last_or 0 l1) c' m) ->
  h !! m = Some (header_of (c_addr c) sp (head_or l2 0)) ->
  (forall x, x < c_addr c \/ c_addr c + 16 + c_size c < x -> h !! x = headers s !! x) ->
  (l2 <> [] -> h !! (c_addr c + 16 + c_size c) = set_prev m <$> headers s !! (c_addr c + 16 + c_size c)) ->
  heap_inv d (l1 ++ c' :: sp :: l2) (set_headers h s).
Proof.
  intros Hinv Hsz Hfit Hsz16 m c' sp Hc Hm Hout Hnext.
  destruct (inv_at _ _ _ _ _ Hinv) as (Ha & Ha16 & Hpos & Hs16 & Hend & Ht1 & Ht2 & _ & _ & Hl1 & Hl2).
  unfold HEADER_SIZE in *. apply (inv_relink d (l1 ++ c :: l2)); [done|by apply head_or_mid| |].
  - apply (linked_splice (headers s) h l1 [c'; sp] l2 (c_addr c) (c_addr c + 16 + c_size c)
      (c_addr c) (heap_end_vaddr s)); [done|done|lia|done|done|done|done| | | |exact Hnext].
    + by split_and!.
    + intros x Hx. apply Hout. by left.
    + intros x Hx. apply Hout. by right.
  - apply tiles_app. exists (c_addr c). split; [done|].
    cbn [tiles c_addr c_size c' sp]. unfold HEADER_SIZE, m. split_and!; [done|lia|done|done|lia| |].
    + rewrite <- Z.sub_add_distr, Zminus_mod, (Z.add_mod sz 16), Hs16, Hsz16 by lia. done.
    + by replace (c_addr c + 16 + sz + 16 + (c_size c - sz - 16)) with (c_addr c + 16 + c_size c) by lia.
Qed.

Lemma wp_take_chunk d l1 c l2 s sz :
  heap_inv d (l1 ++ c :: l2) s -> c_free c = true ->
  0 < sz <= c_size c -> sz mod 16 = 0 ->
  wp (take_chunk (c_addr c) sz) (fun _ s' => exists c' l2',
    heap_inv d (l1 ++ c' :: l2') s' /\ same_machine s s' /\
    c_addr c' = c_addr c /\ c_free c' = false /\ sz <= c_size c' /\
    allocated l2' = allocated l2) s.
Proof.
  intros Hinv Hfree Hsz Hsz16.
  destruct (inv_at _ _ _ _ _ Hinv) as (Ha & Ha16 & Hpos & Hs16 & Hend & Ht1 & Ht2 & Hp & Hh & Hl1 & Hl2).
  pose proof (inv_end _ _ _ Hinv) as He. unfold HEADER_SIZE, HEAP_START in *.
  assert (forall a, c_addr c <= a < heap_end_vaddr s -> page_present s a = true) as Hpp.
  { intros a Har. eapply inv_page_present; [done|]. unfold HEAP_START. lia. }
  unfold take_chunk. apply wp_bind. eapply wp_hdr_read; [done|done|].
  cbn [header_of size]. unfold HEADER_SIZE. rewrite (u32_small (sz + 16 + 16)) by lia.
  destruct (Z.leb_spec (sz + 16 + 16) (c_size c)) as [Hsplit|Hsplit].
  - rewrite (u32_small (c_addr c + 16 + sz)), (u32_small (c_size c - sz - 16)) by lia.
    set (m := c_addr c + 16 + sz).
    set (sp := mkChunk m (c_size c - sz - 16) true).
    set (c' := mkChunk (c_addr c) sz false).
    apply wp_bind, wp_bind, wp_hdr_write; [apply Hpp; unfold m; lia|].
    apply wp_bind. cbn [header_of next].
    eapply (wp_set_next_prev _ (c_addr c + 16 + c_size c) l2 (c_addr c) 0 m); heap_simpl in *;
      [exact Ht2| |lia|lia|intros a Har; apply Hpp; lia|].
    { apply linked_insert; [done|]. intros c1 Hin.
      pose proof (tiles_in _ _ _ _ Ht2 Hin). unfold m. lia. }
    intros h1 Hx1 Hn1 Hn1'. heap_simpl in *.
    assert (h1 !! c_addr c = Some (header_of (last_or 0 l1) c (head_or l2 0))) as Hc1.
    { rewrite Hx1, lookup_insert_ne by (unfold m; lia). exact Hh. }
    apply wp_bind. eapply wp_hdr_update; [apply Hpp; lia|heap_simpl in *; exact Hc1|].
    heap_simpl in *. eapply wp_hdr_update;
      [apply Hpp; lia|heap_simpl in *; by rewrite lookup_insert_eq|].
    heap_simpl in *. eapply wp_hdr_update;
      [apply Hpp; lia|heap_simpl in *; by rewrite lookup_insert_eq|].
    heap_simpl in *. exists c', (sp :: l2).
    split_and!; [|done|done|done|unfold c'; simpl; lia|by rewrite allocated_cons].
    rewrite !insert_insert_eq. set (h2 := <[c_addr c := _]> h1).
    change (set_headers h2 (set_headers _ _)) with (set_headers h2 s).
    apply (inv_split d l1 c l2 s sz h2); [done|lia|lia|done| | | |]; fold m; unfold h2.
    + by rewrite lookup_insert_eq.
    + rewrite lookup_insert_ne, Hx1 by (unfold m; lia). by rewrite lookup_insert_eq.
    + intros x Hx. by rewrite lookup_insert_ne, Hx1, lookup_insert_ne by (unfold m; lia).
    + intros Hne. rewrite lookup_insert_ne, Hn1 by (done || lia). by rewrite lookup_insert_ne by (unfold m; lia).
  - apply wp_bind, wp_ret. eapply wp_hdr_update; [done|done|].
    set (c' := mkChunk (c_addr c) (c_size c) false). exists c', l2.
    split_and!; [|done|done|done|unfold c'; simpl; lia|done].
    apply (inv_relink d (l1 ++ c :: l2)); [done|by apply head_or_mid| |].
    + by apply (linked_set_mid (headers s) l1 c c' l2 (heap_end_vaddr s)).
    + apply tiles_app. by exists (c_addr c).
Qed.

(** The postcondition of a search over the chunks [l2] that follow [l1]. *)
Definition fit_post (d : Z) (l : list chunk) (sz : Z) (s : heap A) (p : Z) (s' : heap A) : Prop :=
  (p = 0 /\ s' = s /\ forall c, c ∈ l -> c_free c = true -> c_size c < sz) \/
  exists l' a sz', heap_inv d l' s' /\ same_machine s s' /\ p = a + HEADER_SIZE /\
    sz <= sz' /\ 0 < a /\ p mod 16 = 0 /\ allocated l' ≡ₚ (a, sz') :: allocated l.

Lemma allocated_take l1 c l2 c' l2' :
  c_free c = true -> c_free c' = false -> allocated l2' = allocated l2 ->
  allocated (l1 ++ c' :: l2') ≡ₚ (c_addr c', c_size c') :: allocated (l1 ++ c :: l2).
Proof.
  intros Hc Hc' Hl. rewrite !allocated_app, !allocated_cons, Hc, Hc', Hl. simpl.
  by rewrite <- Permutation_middle.
Qed.

Lemma wp_first_fit d l s fuel sz :
  heap_inv d l s -> 0 < sz -> sz mod 16 = 0 -> (length l < fuel)%nat ->
  wp (first_fit fuel sz (free_list_start s)) (fit_post d l sz s) s.
Proof.
  intros Hinv Hsz Hsz16 Hf. unfold first_fit. rewrite (hi_start _ _ _ Hinv).
  assert (forall l2 l1 fuel, l = l1 ++ l2 -> (length l2 < fuel)%nat ->
    (forall c, c ∈ l1 -> c_free c = true -> c_size c < sz) ->
    wp (iter fuel (fun curr =>
       if curr =? 0 then ret (inr 0)
       else
         h <- hdr_read curr ;;
         if truthy (is_free h) && (sz <=? size h) then
           take_chunk curr sz ;;
           ret (inr (u32 (curr + HEADER_SIZE)))
         else ret (inl (next h))) (head_or l2 0)) (fit_post d l sz s) s) as H;
    [|by apply (H l [] fuel); [|lia|intros c Hc; apply not_elem_of_nil in Hc]].
  clear fuel Hf. induction l2 as [|c l2 IH]; intros l1 [|fuel] E Hf Hno; simpl in Hf; [lia| |lia|].
  - simpl. apply wp_bind, wp_ret, wp_ret. left. rewrite E, app_nil_r. done.
  - rewrite E in Hinv.
    destruct (inv_at _ _ _ _ _ Hinv) as (Ha & Ha16 & Hpos & Hs16 & Hend & Ht1 & Ht2 & Hp & Hh & _).
    pose proof (inv_end _ _ _ Hinv) as He. unfold HEADER_SIZE, HEAP_START in *.
    cbn [head_or iter]. apply wp_bind. rewrite (proj2 (Z.eqb_neq _ 0)) by lia.
    apply wp_bind. eapply wp_hdr_read; [done|exact Hh|]. cbn [header_of is_free size next].
    replace (truthy (if c_free c then 1 else 0)) with (c_free c) by by destruct (c_free c).
    destruct (c_free c && (sz <=? c_size c)) eqn:Hc.
    + apply andb_true_iff in Hc as [Hc Hle%Z.leb_le]. apply wp_bind.
      eapply wp_mono; [by apply (wp_take_chunk d l1 c l2 s sz)|].
      intros [] s' (c' & l2' & Hinv' & Hm & Ea & Hfc & Hsz' & Hal). apply wp_ret, wp_ret.
      right. exists (l1 ++ c' :: l2'), (c_addr c), (c_size c').
      unfold HEADER_SIZE. rewrite u32_small by lia.
      split_and!; [done|done|done|done|lia| |].
      * by rewrite Z.add_mod, Ha16.
      * rewrite E, <- Ea. by apply allocated_take.
    + apply wp_ret, (IH (l1 ++ [c])); [by rewrite <- app_assoc|lia|].
      intros c1 [Hin|Hin]%elem_of_app; [by apply Hno|].
      apply list_elem_of_singleton in Hin as ->. intros Hfc. rewrite Hfc in Hc. simpl in Hc.
      by apply Z.leb_gt in Hc.
Qed.

(** Absorbing the chunk [n] into the chunk [c] before it. *)
Lemma wp_merge d l1 c n l2 s (Q : unit -> heap A -> Prop) :
  heap_inv d (l1 ++ c :: n :: l2) s ->
  (forall h', heap_inv d (l1 ++ mkChunk (c_addr c) (c_size c + (HEADER_SIZE + c_size n)) (c_free c) :: l2)
      (set_headers h' s) -> Q tt (set_headers h' s)) ->
  wp (hdr_update (c_addr c) (fun h => set_size (u32 (size h + u32 (HEADER_SIZE + c_size n))) h) ;;
      hdr_update (c_addr c) (set_next (head_or l2 0)) ;;
      if head_or l2 0 =? 0 then ret tt else hdr_update (head_or l2 0) (set_prev (c_addr c))) Q s.
Proof.
  intros Hinv HQ. pose proof (inv_end _ _ _ Hinv) as He.
  destruct (inv_at _ _ _ _ _ Hinv) as (Ha & Ha16 & Hpos & Hs16 & Hend & Ht1 & Ht2 & Hp & Hh & Hl1 & Hl2).
  destruct Ht2 as (Han & Hposn & Hsn16 & Ht2). destruct Hl2 as [Hn Hl2].
  pose proof (tiles_le _ _ _ Ht2) as Hle. unfold HEADER_SIZE, HEAP_START in *.
  assert (forall a, c_addr c <= a < heap_end_vaddr s -> page_present s a = true) as Hpp.
  { intros a Har. eapply inv_page_present; [done|]. unfold HEAP_START. lia. }
  set (m := c_addr c + 16 + c_size c + 16 + c_size n) in *.
  set (c' := mkChunk (c_addr c) (c_size c + (16 + c_size n)) (c_free c)) in *.
  apply wp_bind. eapply wp_hdr_update; [done|exact Hh|]. cbn [header_of size].
  rewrite (u32_small (16 + c_size n)), (u32_small (c_size c + _)) by lia.
  apply wp_bind. eapply wp_hdr_update; [apply Hpp; lia|heap_simpl in *; by rewrite lookup_insert_eq|].
  heap_simpl in *. rewrite insert_insert_eq.
  change (set_headers ?h (set_headers _ s)) with (set_headers h s).
  eapply (wp_set_next_prev _ m l2 (c_addr n) 0 (c_addr c)); heap_simpl in *;
    [exact Ht2| |unfold m; lia|lia|intros a Har; apply Hpp; unfold m in Har; lia|].
  { apply linked_insert; [done|]. intros c1 Hin.
    pose proof (tiles_in _ _ _ _ Ht2 Hin). unfold m in *. lia. }
  intros h1 Hx1 Hn1 _. heap_simpl in *.
  change (set_headers h1 (set_headers _ s)) with (set_headers h1 s). apply HQ.
  apply (inv_relink d (l1 ++ c :: n :: l2)); [done|by apply head_or_mid| |].
  - apply (linked_splice (headers s) h1 l1 [c'] l2 (c_addr c) m (c_addr n) (heap_end_vaddr s));
      [done|done|unfold m; lia|done|done|done|done| | | |].
    + simpl. split; [|done]. rewrite Hx1, lookup_insert_eq by (unfold m; lia). done.
    + intros x Hx. rewrite Hx1, lookup_insert_ne by (unfold m; lia). done.
    + intros x Hx. rewrite Hx1, lookup_insert_ne by (unfold m in *; lia). done.
    + intros Hne. rewrite Hn1 by done. rewrite lookup_insert_ne by (unfold m; lia). done.
  - apply tiles_app. exists (c_addr c). split; [done|].
    cbn [tiles c_addr c_size c']. unfold HEADER_SIZE. split_and!; [done|lia| |].
    + rewrite (Z.add_mod (c_size c)), (Z.add_mod 16), Hs16, Hsn16 by lia. done.
    + by replace (c_addr c + 16 + (c_size c + (16 + c_size n))) with m by (unfold m; lia).
Qed.

Lemma linked_free h pv c nx : h = header_of pv c nx -> truthy (is_free h) = c_free c.
Proof. intros ->. simpl. by destruct (c_free c). Qed.

Lemma allocated_elem l a sz :
  (a, sz) ∈ allocated l -> exists l1 l2, l = l1 ++ mkChunk a sz false :: l2.
Proof.
  unfold allocated. intros ([a' sz' f] & [= -> ->] & [Hu Hin]%list_elem_of_filter)%list_elem_of_fmap.
  unfold is_used in Hu. simpl in Hu. subst f. by apply list_elem_of_split in Hin.
Qed.

Lemma allocated_mid l1 l2 l2' c n :
  c_free c = true -> c_free n = true -> allocated l2' = allocated l2 ->
  allocated (l1 ++ n :: l2') = allocated (l1 ++ c :: l2).
Proof. intros Hc Hn E. by rewrite !allocated_app, !allocated_cons, Hc, Hn, E. Qed.

(** Coalescing a free chunk with the next one, when that is free. *)
Lemma wp_coalesce_next d l1 c l2 s :
  heap_inv d (l1 ++ c :: l2) s -> c_free c = true ->
  wp (if head_or l2 0 =? 0 then ret tt
      else
        n <- hdr_read (head_or l2 0) ;;
        if truthy (is_free n) then
          hdr_update (c_addr c) (fun h => set_size (u32 (size h + u32 (HEADER_SIZE + size n))) h) ;;
          hdr_update (c_addr c) (set_next (next n)) ;;
          if next n =? 0 then ret tt else hdr_update (next n) (set_prev (c_addr c))
        else ret tt)
     (fun _ s' => exists c' l2', heap_inv d (l1 ++ c' :: l2') s' /\ same_machine s s' /\
        c_addr c' = c_addr c /\ c_free c' = true /\ allocated l2' = allocated l2) s.
Proof.
  intros Hinv Hc. pose proof (inv_at _ _ _ _ _ Hinv) as (Ha & _ & Hpos & _ & _ & _ & Ht2 & _ & _ & _ & Hl2).
  destruct l2 as [|n l2]; simpl head_or.
  { apply wp_ret. exists c, []. split_and!; [done|split|..]; done. }
  destruct Ht2 as (Han & _ & _ & _). destruct Hl2 as [Hn _].
  rewrite (proj2 (Z.eqb_neq _ 0)) by (unfold HEADER_SIZE, HEAP_START in *; lia).
  assert (heap_inv d ((l1 ++ [c]) ++ n :: l2) s) as Hinv' by by rewrite <- app_assoc.
  pose proof (inv_at _ _ _ _ _ Hinv') as (_ & _ & _ & _ & _ & _ & _ & Hpn & _).
  apply wp_bind. eapply wp_hdr_read; [done|exact Hn|].
  rewrite (linked_free _ _ n _ eq_refl). cbn [header_of size next].
  destruct (c_free n) eqn:Hfn.
  - apply (wp_merge d l1 c n l2); [done|]. intros h' Hinv2. eexists _, l2.
    split_and!; [exact Hinv2|done|done|done|by rewrite allocated_cons, Hfn].
  - apply wp_ret. exists c, (n :: l2). split_and!; [done|split|..]; done.
Qed.

(** Coalescing a free chunk with the one before, when that is free. *)
Lemma wp_coalesce_prev d l1 c l2 s :
  heap_inv d (l1 ++ c :: l2) s -> c_free c = true ->
  wp (h <- hdr_read (c_addr c) ;;
      if prev h =? 0 then ret tt
      else
        p <- hdr_read (prev h) ;;
        if truthy (is_free p) then
          hdr_update (prev h) (fun p => set_size (u32 (size p + u32 (HEADER_SIZE + size h))) p) ;;
          hdr_update (prev h) (set_next (next h)) ;;
          if next h =? 0 then ret tt else hdr_update (next h) (set_prev (prev h))
        else ret tt)
     (fun _ s' => exists l', heap_inv d l' s' /\ same_machine s s' /\
        allocated l' = allocated (l1 ++ c :: l2)) s.
Proof.
  intros Hinv Hc. pose proof (inv_at _ _ _ _ _ Hinv) as (Ha & _ & Hpos & _ & _ & _ & _ & Hp & Hh & _).
  apply wp_bind. eapply wp_hdr_read; [done|exact Hh|]. cbn [header_of prev next size].
  destruct l1 as [|p l0 _] using rev_ind; simpl last_or.
  { apply wp_ret. exists (c :: l2). split_and!; [done|split; done|done]. }
  rewrite last_or_app. simpl last_or. rewrite <- app_assoc in Hinv. simpl in Hinv.
  pose proof (inv_at _ _ _ _ _ Hinv) as (Hap & _ & _ & _ & _ & _ & _ & Hpp & Hhp & _).
  rewrite (proj2 (Z.eqb_neq _ 0)) by (unfold HEAP_START in *; lia).
  apply wp_bind. eapply wp_hdr_read; [done|exact Hhp|].
  rewrite (linked_free _ _ p _ eq_refl). destruct (c_free p) eqn:Hfp.
  - apply (wp_merge d l0 p c l2); [done|]. intros h' Hinv2. eexists.
    split_and!; [exact Hinv2|done|]. rewrite <- app_assoc. simpl.
    by rewrite !allocated_app, !allocated_cons, Hfp, Hc.
  - apply wp_ret. eexists. split_and!; [exact Hinv|split; done|]. by rewrite <- app_assoc.
Qed.

Lemma wp_kfree d l s ptr sz :
  heap_inv d l s -> (ptr - HEADER_SIZE, sz) ∈ allocated l ->
  wp (kfree ptr) (fun _ s' => exists l', heap_inv d l' s' /\ same_machine s s' /\
    allocated l ≡ₚ (ptr - HEADER_SIZE, sz) :: allocated l') s.
Proof.
  intros Hinv Hin. apply allocated_elem in Hin as (l1 & l2 & ->).
  pose proof (inv_end _ _ _ Hinv) as He.
  destruct (inv_at _ _ _ _ _ Hinv) as (Ha & _ & Hpos & _ & Hend & Ht1 & Ht2 & Hp & Hh & Hl1 & Hl2).
  cbn [c_addr c_size] in *. unfold HEADER_SIZE, HEAP_START in *.
  unfold kfree. rewrite (proj2 (Z.eqb_neq ptr 0)) by lia. cbv zeta.
  unfold HEADER_SIZE. rewrite (u32_small (ptr - 16)) by lia. set (c := mkChunk (ptr - 16) sz true).
  apply wp_bind. eapply wp_hdr_update; [done|exact Hh|].
  change (set_is_free 1 (header_of (last_or 0 l1) (mkChunk (ptr - 16) sz false) (head_or l2 0)))
    with (header_of (last_or 0 l1) c (head_or l2 0)).
  set (s1 := set_headers _ s).
  assert (heap_inv d (l1 ++ c :: l2) s1) as Hinv1.
  { apply (inv_relink d (l1 ++ mkChunk (ptr - 16) sz false :: l2)); [done|by apply head_or_mid| |].
    - by apply (linked_set_mid (headers s) l1 (mkChunk (ptr - 16) sz false) c l2 (heap_end_vaddr s)).
    - pose proof (hi_tiles _ _ _ Hinv) as Ht. by rewrite !tiles_app in *. }
  destruct (inv_at _ _ _ _ _ Hinv1) as (_ & _ & _ & _ & _ & _ & _ & Hp1 & Hh1 & _).
  apply wp_bind. eapply wp_hdr_read; [exact Hp1|exact Hh1|]. cbn [header_of next].
  apply wp_bind. eapply wp_mono; [by apply (wp_coalesce_next d l1 c l2)|].
  intros [] s2 (c' & l2' & Hinv2 & Hm2 & Ea & Hfc & Hal).
  change (ptr - 16) with (c_addr c). rewrite <- Ea.
  eapply wp_mono; [by apply (wp_coalesce_prev d l1 c' l2')|].
  intros [] s3 (l' & Hinv3 & Hm3 & Hal3). exists l'. split_and!; [done| |].
  - destruct Hm2, Hm3. unfold s1 in *. split; heap_simpl in *; congruence.
  - rewrite Hal3, !allocated_app, !allocated_cons, Hfc, Hal, Ea. simpl.
    by rewrite <- Permutation_middle.
Qed.

(** ** Growing the heap *)

(** The machine part of [heap_inv]. *)
Record pages_ok (d stop : Z) (v : vm A) : Prop := {
  po_vspace : vspace d v;
  po_table : present (pde (vm_mem v) d 769) = true;
  po_mapped : forall pg, HEAP_START / 4096 <= pg < stop / 4096 ->
    is_Some (walk (vm_mem v) (4096 * d) pg);
}.

Lemma inv_pages d l s : heap_inv d l s -> pages_ok d (heap_end_vaddr s) (heap_vm s).
Proof. by intros []. Qed.

Lemma heap_page a :
  HEAP_START <= a < 0xC0800000 -> 0 <= a < 4294967296 /\ a / 4096 / 1024 = 769.
Proof.
  unfold HEAP_START. intros. split; [lia|]. rewrite Z.div_div by lia.
  symmetry. apply Z.div_unique with (a - 769 * (4096 * 1024)); lia.
Qed.

(** The registers, and every page but [p] and the temporary one, are as before. *)
Definition elsewhere (d p : Z) (v v' : vm A) : Prop :=
  same_regs v v' /\ forall pg, 0 <= pg < 1023 * 1024 -> pg <> p -> pg <> TEMP_PG ->
    walk (vm_mem v') (4096 * d) pg = walk (vm_mem v) (4096 * d) pg.

Lemma wp_map_heap d a n v :
  vspace d v -> HEAP_START <= a < 0xC0800000 -> a mod 4096 = 0 -> 0 < n < fa_limit ->
  (forall pg, HEAP_START / 4096 <= pg < a / 4096 -> is_Some (walk (vm_mem v) (4096 * d) pg)) ->
  present (pde (vm_mem v) d 769) = true \/ ~ exhausted (vm_frames v) ->
  wp (vmm_map_kernel_page a (4096 * n)) (fun _ v' => pages_ok d (a + 4096) v' /\ elsewhere d (a / 4096) v v' /\
    (present (pde (vm_mem v) d 769) = true ->
     vm_frames v' = vm_frames v /\
     forall k, fresh_frame (vm_mem v) d k -> fresh_frame (vm_mem v') d k)) v.
Proof.
  intros Hv Ha Ha16 Hn Hm Hor. destruct (heap_page a Ha) as [Har Hi].
  pose proof (fa_limit_range (A := A)) as Hlim. unfold vmm_map_kernel_page.
  eapply wp_mono; [apply (wp_map_page v d); [done|done|lia|lia|by compute]|].
  intros [] v' (Hv' & Hregs & [Hpm|(Hno & Hex & _)]); [|rewrite Hi in Hno; destruct Hor; congruence].
  pose proof (pm_present _ _ _ _ _ Hpm) as Hp'. rewrite Hi in Hp'. split_and!.
  - split; [done|done|]. intros pg Hpg.
    destruct (decide (pg = a / 4096)) as [->|Hne]; [rewrite (pm_walk _ _ _ _ _ Hpm); eauto|].
    assert ((a + 4096) / 4096 = a / 4096 + 1) as E by (by rewrite <- (Z.div_add a 1 4096)).
    rewrite E in Hpg. change (HEAP_START / 4096) with 0xC0400 in *.
    assert (a / 4096 < 0xC0800) by (apply Z.div_lt_upper_bound; lia).
    rewrite (pm_other _ _ _ _ _ Hpm); [apply Hm; lia|lia|done|left; unfold TEMP_PG; lia].
  - split; [done|]. intros pg Hpg Hne Ht. apply (pm_other _ _ _ _ _ Hpm); [done|done|by left].
  - intros Hp. pose proof (pm_frames _ _ _ _ _ Hpm) as Hfr. rewrite Hi in Hfr.
    destruct (Hfr Hp) as [Hf Hpde]. split; [done|].
    assert (forall j, 0 <= j < 1024 -> pde (vm_mem v') d j = pde (vm_mem v) d j) as E.
    { intros j Hj. destruct (decide (j = 769)) as [->|]; [done|].
      apply (pm_pde _ _ _ _ _ Hpm); [done|]. by rewrite Hi. }
    intros k Hk j Hj. unfold pde_frame. rewrite E by done. by apply Hk.
Qed.

Lemma wp_unmap_heap d stop a v :
  pages_ok d stop v -> HEAP_START <= stop <= a -> a < 0xC0800000 -> stop mod 4096 = 0 ->
  wp (vmm_unmap_page a) (fun _ v' => pages_ok d stop v' /\ vm_frames v' = vm_frames v /\
    forall k, fresh_frame (vm_mem v) d k -> fresh_frame (vm_mem v') d k) v.
Proof.
  intros [Hv Hp Hm] Hs Ha Hs16. destruct (heap_page a ltac:(lia)) as [Har Hi].
  eapply wp_mono; [apply (wp_unmap_page v d); [done|done|lia|by rewrite Hi]|].
  intros [] v' (Hv' & _ & Hpu). rewrite <- Hi in Hp.
  assert (forall j, 0 <= j < 1024 -> pde (vm_mem v') d j = pde (vm_mem v) d j) as E.
  { intros j Hj. apply ent_ext. intros b Hb. apply (pu_data _ _ _ _ Hpu).
    replace (b / 4096) with d by (apply Z.div_unique with (b - 4096 * d); lia).
    apply not_eq_sym. apply pde_frame_ne; [apply Hv|lia|done]. }
  split_and!; [split; [done|rewrite E by lia; by rewrite <- Hi|]|by apply Hpu|].
  - intros pg Hpg. rewrite (pu_other _ _ _ _ Hpu); [by apply Hm| |].
    + change (HEAP_START / 4096) with 0xC0400 in *. unfold HEAP_START in *.
      assert (stop / 4096 <= 0xC0800) by (apply Z.div_le_upper_bound; lia). lia.
    + pose proof (Z.div_le_mono stop a 4096). lia.
  - intros k Hk j Hj. unfold pde_frame. rewrite E by done. by apply Hk.
Qed.

Lemma wp_free_heap d stop n v :
  pages_ok d stop v -> 0 < n < fa_limit -> fresh_frame (vm_mem v) d n ->
  wp (vm_free_frame (4096 * n)) (fun _ v' => pages_ok d stop v' /\ vm_mem v' = vm_mem v) v.
Proof.
  intros [Hv Hp Hm] Hn Hf. unfold vm_free_frame. apply wp_zoom.
  eapply wp_mono; [apply fa_free_spec; [apply Hv|lia]|]. intros [] a' (Hwf & _ & Hg).
  split; [|done]. split; vm_simpl in *; [|done|done].
  destruct Hv as [? ? ? _ Hvu]. split; vm_simpl in *; [done..|]. intros i Hi Hpi Hlt.
  pose proof (pde_frame_range (vm_mem v) d i). apply Hg; [lia|]. split; [by apply Hvu|].
  rewrite Z.mul_comm, Z.div_mul by lia. by apply Hf.
Qed.

(** Frames mapped so far, as addresses: none of them is a page table. *)
Definition frames_ok (d : Z) (fs : list Z) (v : vm A) : Prop :=
  Forall (fun p => exists n, p = 4096 * n /\ 0 < n < fa_limit /\ fresh_frame (vm_mem v) d n) fs.

Lemma frames_ok_mono d fs v v' :
  (forall k, fresh_frame (vm_mem v) d k -> fresh_frame (vm_mem v') d k) ->
  frames_ok d fs v -> frames_ok d fs v'.
Proof.
  intros H. apply Forall_impl. intros p (n & ? & ? & ?). exists n. auto.
Qed.

(** Where [expand_heap] stands after mapping [fs]. *)
Definition expanding (d : Z) (s0 : heap A) (fs : list Z) (s : heap A) : Prop :=
  let stop := heap_end_vaddr s0 + Z.of_nat (length fs) * 4096 in
  s = mkHeap (heap_vm s) (headers s0) (free_list_start s0) stop /\
  stop <= 0xC0800000 /\ pages_ok d stop (heap_vm s) /\ frames_ok d fs (heap_vm s).

Lemma pages_ok_le d stop stop' v : pages_ok d stop v -> stop' <= stop -> pages_ok d stop' v.
Proof.
  intros [Hv Hp Hm] Hle. split; [done|done|]. intros pg Hpg. apply Hm.
  pose proof (Z.div_le_mono stop' stop 4096). lia.
Qed.

Lemma vspace_take d v n a' :
  vspace d v -> fa_wf a' ->
  (forall g, 0 <= g < fa_limit -> (fa_used a' g <-> fa_used (vm_frames v) g \/ g = n)) ->
  vspace d (set_frames a' v).
Proof.
  intros [? ? ? _ Hvu] Hwf Hg. split; vm_simpl in *; [done..|]. intros i Hi Hp Hlt.
  pose proof (pde_frame_range (vm_mem v) d i). apply Hg; [lia|]. left. by apply Hvu.
Qed.

Lemma wp_expand_step d s0 fs s (Q : list Z + list Z -> heap A -> Prop) :
  HEAP_START <= heap_end_vaddr s0 -> heap_end_vaddr s0 mod 4096 = 0 ->
  expanding d s0 fs s ->
  (forall s', expanding d s0 fs s' -> Q (inr fs) s') ->
  (forall p s', expanding d s0 (fs ++ [p]) s' -> Q (inl (fs ++ [p])) s') ->
  wp (s <- get ;;
      if KERNEL_HEAP_END - PAGE_SIZE + 1 <? heap_end_vaddr s then ret (inr fs)
      else
        phys_frame <- on_vm vm_alloc_frame ;;
        if phys_frame =? 0 then ret (inr fs)
        else
          on_vm (vmm_map_kernel_page (heap_end_vaddr s) phys_frame) ;;
          modify (fun t => set_heap_end (u32 (heap_end_vaddr t + PAGE_SIZE)) t) ;;
          ret (inl (fs ++ [phys_frame]))) Q s.
Proof.
  intros H0 H0m Hex HR HL. pose proof Hex as (Es & Hstop & [Hv Hp Hm] & Hfs).
  set (stop := heap_end_vaddr s0 + Z.of_nat (length fs) * 4096) in *.
  assert (heap_end_vaddr s = stop) as Eend by (rewrite Es; done).
  apply wp_bind, wp_get. rewrite Eend. unfold KERNEL_HEAP_END, PAGE_SIZE.
  destruct (Z.ltb_spec (0xC07FFFFF - 4096 + 1) stop); [apply wp_ret; by apply HR|].
  apply wp_bind. unfold on_vm. apply wp_zoom, wp_vm_alloc; [apply Hv|intros _; apply wp_ret, HR; by destruct s|].
  intros n a' Hn Hu Hwf _ Hg. pose proof (vspace_fresh d _ n Hv Hn Hu) as Hfr.
  rewrite (proj2 (Z.eqb_neq _ 0)) by lia. apply wp_bind, wp_zoom. heap_simpl in *.
  assert (HEAP_START <= stop < 0xC0800000) as Hsr by (unfold stop in *; lia).
  assert (stop mod 4096 = 0) as Hsm by (unfold stop; by rewrite Z.mod_add by lia).
  eapply wp_mono; [apply (wp_map_heap d stop n); [by eapply vspace_take|done|done|done|exact Hm|by left]|].
  intros [] v' (Hpo & _ & Hrest). destruct (Hrest Hp) as [_ Hfresh]. vm_simpl in *.
  apply wp_bind, wp_modify, wp_ret, HL. heap_simpl in *. unfold expanding.
  rewrite length_app, Nat2Z.inj_add. cbn [length].
  replace (heap_end_vaddr s0 + (Z.of_nat (length fs) + Z.of_nat 1) * 4096) with (stop + 4096)
    by (unfold stop; lia).
  heap_simpl in *. rewrite u32_small by (unfold HEAP_START in *; lia).
  split_and!; [by rewrite Es|lia|done|]. apply Forall_app. split.
  - by eapply frames_ok_mono.
  - constructor; [|constructor]. exists n. split; [done|]. split; [done|]. by apply Hfresh.
Qed.

Lemma wp_rollback d s0 fs s :
  HEAP_START <= heap_end_vaddr s0 -> heap_end_vaddr s0 mod 4096 = 0 ->
  expanding d s0 fs s ->
  wp (for_each (length fs) 0
        (fun i =>
           on_vm (vmm_unmap_page (u32 (heap_end_vaddr s0 + i * PAGE_SIZE))) ;;
           f <- some_or_trap (arr_get fs i) ;;
           on_vm (vm_free_frame f)) ;;
      modify (set_heap_end (heap_end_vaddr s0)) ;;
      ret 0)
     (fun p s' => p = 0 /\ exists v, s' = set_heap_vm v s0 /\ pages_ok d (heap_end_vaddr s0) v) s.
Proof.
  intros H0 H0m (Es & Hstop & Hpo & Hfs). apply wp_bind.
  apply (wp_for_each (fun _ s' => exists v, s' = set_heap_vm v s /\
    pages_ok d (heap_end_vaddr s0) v /\ frames_ok d fs v)).
  - exists (heap_vm s). split_and!; [by destruct s| |done]. eapply pages_ok_le; [done|lia].
  - intros i s' Hi (v & -> & Hv & Hf). unfold HEAP_START, PAGE_SIZE in *. rewrite u32_small by lia.
    apply wp_bind. unfold on_vm. apply wp_zoom. heap_simpl in *.
    eapply wp_mono; [apply (wp_unmap_heap d (heap_end_vaddr s0)); [exact Hv|unfold HEAP_START; lia|lia|exact H0m]|].
    intros [] v1 (Hv1 & _ & Hfr1). destruct (arr_get_Some fs i ltac:(lia)) as [p Hp].
    apply wp_bind. eapply wp_some_or_trap; [exact Hp|]. apply wp_zoom. heap_simpl in *.
    apply (frames_ok_mono _ _ _ _ Hfr1) in Hf. pose proof Hf as Hf1.
    unfold frames_ok in Hf1. rewrite Forall_lookup in Hf1. unfold arr_get in Hp.
    destruct (0 <=? i); [|done]. destruct (Hf1 _ _ Hp) as (n & -> & Hn & Hnf).
    eapply wp_mono; [by apply (wp_free_heap d (heap_end_vaddr s0) n)|].
    intros [] v2 (Hv2 & Em). exists v2. split_and!; [done|done|].
    eapply frames_ok_mono; [|exact Hf]. by rewrite Em.
  - intros s' (v & -> & Hv & _). apply wp_bind, wp_modify, wp_ret. split; [done|].
    exists v. split; [|done]. rewrite Es. by destruct s0.
Qed.

(** What a grown heap looks like before the new block is linked. *)
Record grown (d sz : Z) (s : heap A) (bsz : Z) (s' : heap A) : Prop := {
  gr_size : sz <= bsz /\ 0 < bsz /\ bsz mod 16 = 0;
  gr_headers : headers s' = <[heap_end_vaddr s := mkHeader bsz 1 0 0]> (headers s);
  gr_start : free_list_start s' = free_list_start s;
  gr_end : heap_end_vaddr s' = heap_end_vaddr s + HEADER_SIZE + bsz;
  gr_limit : heap_end_vaddr s' <= 0xC0800000 /\ heap_end_vaddr s' mod 4096 = 0;
  gr_pages : pages_ok d (heap_end_vaddr s') (heap_vm s');
}.

Lemma expand_pages sz :
  0 <= sz -> sz + 16 + 4095 < 4294967296 ->
  let n := u32 (u32 (sz + HEADER_SIZE) + PAGE_SIZE - 1) / PAGE_SIZE in
  1 <= n /\ sz + 16 <= n * 4096.
Proof.
  intros H0 H1. cbv zeta. unfold HEADER_SIZE, PAGE_SIZE.
  rewrite (u32_small (sz + 16)), u32_small by lia. pose proof (Z.div_mod (sz + 16 + 4096 - 1) 4096).
  pose proof (Z.mod_pos_bound (sz + 16 + 4096 - 1) 4096). lia.
Qed.

Lemma wp_expand d l s sz :
  heap_inv d l s -> 0 <= sz -> sz + 16 + 4095 < 4294967296 ->
  wp (expand_heap sz) (fun p s' =>
    (p = 0 /\ heap_inv d l s') \/
    (p = heap_end_vaddr s /\ exists bsz, grown d sz s bsz s')) s.
Proof.
  intros Hinv Hsz Hsz'. destruct (expand_pages sz Hsz Hsz') as [Hn1 Hn2].
  pose proof (hi_end _ _ _ Hinv) as [[H0 H0'] H0m]. unfold KERNEL_HEAP_END in H0'.
  unfold expand_heap. cbv zeta. set (np := _ / PAGE_SIZE) in *. apply wp_bind, wp_get, wp_bind.
  apply (wp_for (fun i fs s' => i = Z.of_nat (length fs) /\ expanding d s fs s')).
  - split; [done|]. unfold expanding. cbn [length].
    replace (heap_end_vaddr s + Z.of_nat 0 * 4096) with (heap_end_vaddr s) by lia.
    split_and!; [by destruct s|lia|by eapply inv_pages|constructor].
  - intros i fs s1 Hi [-> Hex]. eapply wp_expand_step; [done|done|exact Hex| |].
    + intros s2 Hex2. eapply wp_mono; [by apply (wp_rollback d)|].
      intros p s' (-> & v & -> & []). left. split; [done|].
      destruct Hinv. by split.
    + intros p s2 Hex2. split; [|done]. rewrite length_app. simpl. lia.
  - intros fs s1 [Hlen Hex]. unfold upto in Hlen. destruct Hex as (Es & Hstop & Hpo & _).
    replace (Z.of_nat (length fs)) with np in * by lia. unfold HEADER_SIZE, PAGE_SIZE, HEAP_START in *.
    rewrite u32_small by lia. apply wp_bind, wp_hdr_write.
    { unfold page_present. rewrite (vs_cr3 _ _ (po_vspace _ _ _ Hpo)).
      destruct (po_mapped _ _ _ Hpo (heap_end_vaddr s / 4096)) as [f ->]; [|done].
      unfold HEAP_START. split; [apply Z.div_le_mono; lia|].
      apply Z.div_lt_upper_bound; [lia|]. rewrite Z.mul_comm, Z.mul_comm, Z.div_add by lia. rewrite Z.mul_add_distr_l.
      pose proof (Z.div_mod (heap_end_vaddr s) 4096). lia. }
    apply wp_ret. right. split; [done|]. exists (np * 4096 - 16).
    assert ((np * 4096 - 16) mod 16 = 0) as Hm16.
    { replace (np * 4096 - 16) with ((np * 256 - 1) * 16) by lia. by apply Z.mod_mul. }
    rewrite Es. split; heap_simpl in *; unfold HEADER_SIZE;
      [split_and!; [lia|lia|done]|done|done|lia|split; [lia|by rewrite Z.mod_add by lia]|done].
Qed.

(** ** Linking the new block and retrying *)

Lemma present_below d stop s a :
  pages_ok d stop (heap_vm s) -> stop mod 4096 = 0 -> HEAP_START <= a < stop ->
  page_present s a = true.
Proof.
  intros [Hv _ Hm] H0 Ha. unfold page_present. rewrite (vs_cr3 _ _ Hv).
  destruct (Hm (a / 4096)) as [f ->]; [|done]. unfold HEAP_START in *.
  split; [apply Z.div_le_mono; lia|]. apply Z.div_lt_upper_bound; [lia|].
  pose proof (Z.div_mod stop 4096). lia.
Qed.

Lemma wp_last_chunk l fuel s pv stop (Q : Z -> heap A -> Prop) :
  tiles (head_or l 0) l stop -> 0 < head_or l 0 -> l <> [] -> (length l <= fuel)%nat ->
  linked (headers s) pv l 0 ->
  (forall c, c ∈ l -> page_present s (c_addr c) = true) ->
  Q (last_or pv l) s -> wp (last_chunk fuel (head_or l 0)) Q s.
Proof.
  unfold last_chunk. revert fuel pv. induction l as [|c l IH]; [done|].
  intros [|fuel] pv Ht Hpos _ Hf [Hc Hl] Hp HQ; simpl in Hf; [lia|].
  cbn [iter head_or]. apply wp_bind, wp_bind. eapply wp_hdr_read; [apply Hp; by left|exact Hc|].
  cbn [header_of next]. destruct Ht as (_ & Hs & _ & Ht). destruct l as [|c2 l].
  - by apply wp_ret, wp_ret.
  - destruct (Ht) as (E & _). unfold HEADER_SIZE in *. cbn [head_or] in *.
    rewrite (proj2 (Z.eqb_neq (c_addr c2) 0)) by lia. apply wp_ret.
    apply (IH fuel (c_addr c)); [cbn [head_or]; by rewrite E|cbn [head_or]; lia|done|cbn [length] in *; lia|done| |done].
    intros c' Hc'. apply Hp. by right.
Qed.

Lemma inv_last (l : list chunk) : l <> [] -> exists l0 c, l = l0 ++ [c].
Proof. destruct l as [|c l0 _] using rev_ind; [done|]. eauto. Qed.

Lemma wp_link_block d l s fuel sz bsz s1 :
  heap_inv d l s -> grown d sz s bsz s1 -> (length l <= fuel)%nat ->
  wp (link_block fuel (heap_end_vaddr s))
     (fun _ s' => heap_inv d (l ++ [mkChunk (heap_end_vaddr s) bsz true]) s') s1.
Proof.
  intros Hinv [(Hsz & Hpos & Hb16) Hh Hst Hend [Hlim Hlim16] Hpo] Hf.
  pose proof (hi_end _ _ _ Hinv) as [[H0 _] H0m]. pose proof (hi_tiles _ _ _ Hinv) as Ht.
  set (E := heap_end_vaddr s) in *. set (nc := mkChunk E bsz true).
  assert (forall a, HEAP_START <= a < heap_end_vaddr s1 -> page_present s1 a = true) as Hpp.
  { intros a Ha. by eapply present_below. }
  assert (tiles HEAP_START (l ++ [nc]) (heap_end_vaddr s1)) as Ht'.
  { apply tiles_app. exists E. split; [done|]. by rewrite Hend. }
  assert (linked (headers s1) 0 l 0) as Hl.
  { rewrite Hh. apply linked_insert; [apply Hinv|]. intros c Hc.
    pose proof (tiles_in _ _ _ _ Ht Hc). unfold HEADER_SIZE in *. lia. }
  assert (forall h, free_list_start s1 <> 0 -> linked h 0 (l ++ [nc]) 0 ->
    heap_inv d (l ++ [nc]) (set_headers h s1)) as Hdone.
  { intros h Hne Hlk. destruct Hpo. split; heap_simpl in *; [done|done|done| | |done|done].
    - unfold KERNEL_HEAP_END, HEADER_SIZE in *. lia.
    - rewrite Hst in *. rewrite (hi_start _ _ _ Hinv) in *. by destruct l. }
  unfold link_block, HEADER_SIZE, HEAP_START in *. apply wp_bind, wp_get. rewrite Hst.
  destruct (decide (l = [])) as [->|Hne].
  - rewrite (hi_start _ _ _ Hinv). apply wp_modify. simpl in Ht.
    split; heap_simpl in *; [apply Hpo|apply Hpo|apply Hpo| |done| |done].
    + unfold KERNEL_HEAP_END, HEAP_START. lia.
    + simpl. by rewrite Hh, lookup_insert_eq.
  - destruct (inv_last l Hne) as (l0 & c & ->).
    assert (c ∈ l0 ++ [c]) as Hcin by (apply elem_of_app; right; by left).
    pose proof (tiles_in _ _ _ _ Ht Hcin) as Hc. unfold HEADER_SIZE, HEAP_START in Hc.
    assert (head_or (l0 ++ [c]) 0 = HEAP_START) as Ehd.
    { destruct l0 as [|c0 l0]; simpl in *; apply Ht. }
    rewrite (hi_start _ _ _ Hinv), Ehd. change (HEAP_START =? 0) with false. cbv iota.
    apply wp_bind. rewrite <- Ehd.
    eapply (wp_last_chunk _ _ _ 0); [by rewrite Ehd|rewrite Ehd; by compute|done|done|exact Hl| |].
    { intros c1 Hin. apply Hpp. pose proof (tiles_in _ _ _ _ Ht Hin). unfold HEADER_SIZE in *. lia. }
    rewrite last_or_app. simpl last_or.
    apply linked_app in Hl as [Hl0 [Hlc _]]. simpl in Hl0.
    apply wp_bind. eapply wp_hdr_update; [apply Hpp; lia|exact Hlc|].
    eapply wp_hdr_update; [apply Hpp; lia| |].
    { heap_simpl in *. rewrite lookup_insert_ne by lia. by rewrite Hh, lookup_insert_eq. }
    heap_simpl in *. change (set_headers ?h (set_headers _ s1)) with (set_headers h s1).
    apply Hdone; [rewrite Hst, (hi_start _ _ _ Hinv), Ehd; by compute|].
    rewrite <- app_assoc. apply linked_app. simpl. split_and!; [| | |done].
    + apply linked_insert; [apply linked_insert; [done|]|]; intros c1 Hin;
        apply tiles_app in Ht as (m & Ht0 & Hm & _); simpl in Hm; subst m;
        pose proof (tiles_in _ _ _ _ Ht0 Hin); unfold HEADER_SIZE in *; lia.
    + rewrite lookup_insert_ne by lia. by rewrite lookup_insert_eq.
    + by rewrite lookup_insert_eq.
Qed.

Lemma align16_spec sz :
  0 <= sz -> sz + 15 < 4294967296 -> align16 sz = 16 * ((sz + 15) / 16).
Proof.
  intros H0 H1. unfold align16. rewrite u32_small by lia. set (x := sz + 15) in *.
  assert (Z.land x 0xFFFFFFF0 = Z.ldiff x (Z.ones 4)) as ->.
  { change 0xFFFFFFF0 with (Z.ldiff (Z.ones 32) (Z.ones 4)). apply Z.bits_inj'. intros n Hn.
    rewrite Z.land_spec, !Z.ldiff_spec. destruct (Z.ltb_spec n 32).
    - rewrite (Z.ones_spec_low 32) by lia. done.
    - rewrite <- (Z.mod_small x (2 ^ 32)) by lia. by rewrite Z.mod_pow2_bits_high by lia. }
  rewrite Z.ldiff_ones_r by lia. rewrite Z.shiftl_mul_pow2, Z.shiftr_div_pow2 by lia.
  change (2 ^ 4) with 16. lia.
Qed.

Lemma align16_bounds sz :
  0 < sz -> sz + 15 < 4294967296 ->
  sz <= align16 sz <= sz + 15 /\ align16 sz mod 16 = 0 /\ 16 <= align16 sz.
Proof.
  intros H0 H1. rewrite align16_spec by lia. pose proof (Z.div_mod (sz + 15) 16).
  pose proof (Z.mod_pos_bound (sz + 15) 16). split_and!; [lia|lia| |].
  - rewrite Z.mul_comm. by apply Z.mod_mul.
  - assert (1 <= (sz + 15) / 16) by (apply Z.div_le_lower_bound; lia). lia.
Qed.

Lemma align16_idem sz :
  0 < sz -> sz + 15 < 4294967296 - 16 -> align16 (align16 sz) = align16 sz.
Proof.
  intros H0 H1. destruct (align16_bounds sz) as (Hb & _ & _); [lia|lia|].
  rewrite (align16_spec (align16 sz)) by lia. rewrite align16_spec by lia.
  f_equal. symmetry. apply Z.div_unique with 15; lia.
Qed.

(** What [kmalloc] answers: nothing and an unchanged set of allocations, or a
    16-aligned block of at least [sz] bytes that was not allocated before. *)
Definition kmalloc_post (d : Z) (l : list chunk) (sz p : Z) (s' : heap A) : Prop :=
  (p = 0 /\ exists l', heap_inv d l' s' /\ allocated l' = allocated l) \/
  exists l' a sz', heap_inv d l' s' /\ p = a + HEADER_SIZE /\ 0 < a /\
    sz <= sz' /\ p mod 16 = 0 /\ allocated l' ≡ₚ (a, sz') :: allocated l.

Lemma wp_kmalloc d l s depth fuel sz :
  heap_inv d l s -> 0 <= sz -> sz + 4126 < 4294967296 ->
  (2 <= depth)%nat -> (length l + 1 < fuel)%nat ->
  wp (kmalloc depth fuel sz) (kmalloc_post d l sz) s.
Proof.
  intros Hinv H0 Hov Hd Hf. destruct depth as [|[|depth]]; [lia|lia|]. cbn [kmalloc].
  destruct (Z.eqb_spec sz 0) as [->|Hne].
  { apply wp_ret. left. split; [done|]. by exists l. }
  destruct (align16_bounds sz) as (Hb & Hm & H16); [lia|lia|]. set (a := align16 sz) in *.
  assert (forall l' t p, heap_inv d l' t -> allocated l' = allocated l -> forall t',
    fit_post d l' a t p t' -> p <> 0 -> kmalloc_post d l sz p t') as Hfound.
  { intros l' t p Ht Hal t' [(-> & _)|(l2 & b & sz' & ? & _ & ? & ? & ? & ? & ?)] Hp; [done|].
    right. exists l2, b, sz'. split_and!; [done|done|done|lia|done|by rewrite <- Hal]. }
  apply wp_bind, wp_get, wp_bind. eapply wp_mono; [apply (wp_first_fit d l s fuel a); [done|lia|done|lia]|].
  intros p s1 Hfit. destruct (Z.eqb_spec p 0) as [->|Hp]; cycle 1.
  { apply wp_ret. by eapply Hfound. }
  destruct Hfit as [(_ & -> & Hnone)|(? & b & ? & _ & _ & Ep & _ & Hb0 & _)];
    [|unfold HEADER_SIZE in Ep; lia].
  apply wp_bind. eapply wp_mono; [apply (wp_expand d l s a); [done|lia|lia]|].
  intros nb s1 [(-> & Hinv1)|(-> & bsz & Hg)].
  { apply wp_ret. left. split; [done|]. by exists l. }
  pose proof (hi_end _ _ _ Hinv) as [[He _] _]. unfold HEAP_START in He.
  rewrite (proj2 (Z.eqb_neq _ 0)) by lia.
  apply wp_bind. eapply wp_mono; [eapply (wp_link_block d l s); [done|exact Hg|lia]|].
  intros [] s2 Hinv2. set (l2 := l ++ [_]) in *.
  assert (allocated l2 = allocated l) as Hal.
  { unfold l2. by rewrite allocated_app, allocated_cons, app_nil_r. }
  rewrite (proj2 (Z.eqb_neq a 0)) by lia. replace (align16 a) with a by (symmetry; apply align16_idem; lia).
  apply wp_bind, wp_get, wp_bind. eapply wp_mono.
  { apply (wp_first_fit d l2 s2 fuel a); [done|lia|done|]. unfold l2. rewrite length_app. simpl. lia. }
  intros p s3 Hfit. destruct (Z.eqb_spec p 0) as [->|Hp]; [|apply wp_ret; by eapply Hfound].
  destruct Hfit as [(_ & -> & Hno)|(? & b & ? & _ & _ & Ep & _ & Hb0 & _)];
    [|unfold HEADER_SIZE in Ep; lia].
  exfalso. destruct Hg as [(? & _) _ _ _ _ _].
  assert (bsz < a); [|lia]. apply (Hno (mkChunk (heap_end_vaddr s) bsz true)); [|done].
  unfold l2. apply elem_of_app. right. by left.
Qed.

Definition unused (a : A) (f : Z) : Prop :=
  0 <= f < fa_total a /\ f < fa_limit /\ ~ fa_used a f.

Lemma wp_heap_init d s f1 f2 :
  vspace d (heap_vm s) -> f1 <> f2 ->
  unused (vm_frames (heap_vm s)) f1 -> unused (vm_frames (heap_vm s)) f2 ->
  wp heap_init (fun _ s' => heap_inv d [mkChunk HEAP_START 4080 true] s' /\
    elsewhere d (HEAP_START / 4096) (heap_vm s) (heap_vm s')) s.
Proof.
  intros Hv Hne (H1 & H1' & Hu1) (H2 & H2' & Hu2). unfold heap_init, expand_heap.
  apply wp_bind, wp_modify, wp_bind, wp_modify. heap_simpl in *.
  apply wp_bind, wp_bind, wp_get, wp_bind. heap_simpl in *.
  change (upto 0 (u32 (u32 (0 + HEADER_SIZE) + PAGE_SIZE - 1) / PAGE_SIZE)) with 1%nat.
  cbn [for_]. apply wp_bind, wp_bind, wp_get. heap_simpl in *.
  change (KERNEL_HEAP_END - PAGE_SIZE + 1 <? HEAP_START) with false. cbv iota.
  apply wp_bind. unfold on_vm. apply wp_zoom, wp_vm_alloc; heap_simpl in *;
    [apply Hv|intros Hex; exfalso; by apply Hu1, Hex|].
  intros n a' Hn Hu Hwf Ht Hg. rewrite (proj2 (Z.eqb_neq _ 0)) by lia.
  apply wp_bind, wp_zoom. heap_simpl in *.
  eapply wp_mono; [apply (wp_map_heap d HEAP_START n); [by eapply vspace_take|by compute|done|done|lia|]|].
  { right. vm_simpl in *. intros Hex. unfold exhausted in Hex. rewrite Ht in Hex.
    destruct (decide (f1 = n)) as [->|Hn1].
    - destruct (proj1 (Hg f2 ltac:(lia)) (Hex f2 H2)); [done|congruence].
    - destruct (proj1 (Hg f1 ltac:(lia)) (Hex f1 H1)); [done|congruence]. }
  intros [] v' (Hpo & Hel & _). apply wp_bind, wp_modify, wp_ret, wp_ret, wp_bind, wp_hdr_write.
  { eapply (present_below d (HEAP_START + 4096)); [done|done|by compute]. }
  apply wp_ret, wp_modify. heap_simpl in *. destruct Hpo. split; [|exact Hel].
  split; heap_simpl in *; [done|done|done|by compute|done| |done].
  simpl. by rewrite lookup_insert_eq.
Qed.
End specs.

(** ** A concrete heap *)

Definition demo_table_mem : gmap Z Z :=
  write32 demo_mem (4096 * 2 + 4 * 769) (mk_entry 1 PAGE_WRITE).

(** The machine of [Vmm.demo_vm] whose slot 769 leads to table 1, with an empty
    heap: no page mapped, no chunk. *)
Definition demo_heap : heap pmm :=
  mkHeap (set_mem demo_table_mem demo_vm) ∅ 0 HEAP_START.

Lemma demo_table_pde j :
  0 <= j < 1024 ->
  pde demo_table_mem 2 j = if decide (j = 769) then mk_entry 1 PAGE_WRITE else pde demo_mem 2 j.
Proof.
  intros Hj. unfold pde, demo_table_mem. rewrite ent_write by lia.
  destruct (decide (j = 769)) as [->|]; [by rewrite decide_True|].
  by rewrite decide_False by lia.
Qed.

Lemma demo_table_vspace : vspace 2 (set_mem demo_table_mem demo_vm).
Proof.
  destruct demo_vspace as [Hc [Hr Hs Hk Hi] _ Hwf Hu].
  split; vm_simpl in *; [done| |apply tlb_of_empty|done|].
  - split; [done| | |].
    + unfold pde_frame. by rewrite demo_table_pde, demo_pde by lia.
    + by rewrite demo_table_pde, demo_pde by lia.
    + intros i j Hi' Hj'. unfold pde_frame. rewrite !demo_table_pde, !demo_pde by lia.
      repeat case_decide; subst; intros; done.
  - intros i Hi'. unfold pde_frame. rewrite demo_table_pde by done.
    case_decide; [|by apply Hu]. intros _ _. by vm_compute.
Qed.

Lemma demo_heap_inv : heap_inv 2 [] demo_heap.
Proof.
  split; cbn [demo_heap heap_vm heap_end_vaddr free_list_start headers]; [apply demo_table_vspace| | |by compute|done|done|done].
  - cbn [set_mem vm_mem]. by rewrite demo_table_pde by lia.
  - intros pg Hpg. lia.
Qed.

(** ** Properties *)

(** C2: On a well-formed heap [kmalloc] returns after at most one retry.  It
    answers NULL with the set of allocated blocks unchanged, or a 16-aligned
    pointer behind the header of a fresh block of at least the requested size;
    the chunks still tile the heap region as a doubly linked list and every
    other allocated block keeps its place and size. *)
Theorem kmalloc_correct A (HA : FrameAllocator A) d l (s : heap A) depth fuel sz :
  heap_inv d l s -> 0 <= sz -> sz + 4126 < 4294967296 ->
  (2 <= depth)%nat -> (length l + 1 < fuel)%nat ->
  wp (kmalloc depth fuel sz) (kmalloc_post d l sz) s.
Proof. apply wp_kmalloc. Qed.

Lemma kmalloc_correct_witness :
  wp (kmalloc 2 2 100) (kmalloc_post 2 [] 100) demo_heap.
Proof. apply kmalloc_correct; [apply demo_heap_inv|lia|lia|lia|simpl; lia]. Defined.

(** C5: Freeing an allocated block takes exactly that block out of the set of
    allocated blocks, whether it is merged with its neighbours or not, and
    leaves the page tables, the frames and the heap's end alone. *)
Theorem kfree_correct A (HA : FrameAllocator A) d l (s : heap A) ptr sz :
  heap_inv d l s -> (ptr - HEADER_SIZE, sz) ∈ allocated l ->
  wp (kfree ptr) (fun _ s' => exists l', heap_inv d l' s' /\ same_machine s s' /\
    allocated l ≡ₚ (ptr - HEADER_SIZE, sz) :: allocated l') s.
Proof. apply wp_kfree. Qed.

(** One mapped page: a block of 64 bytes in use and the free rest. *)
Definition demo_chunks : list chunk :=
  [mkChunk HEAP_START 64 false; mkChunk (HEAP_START + 80) 4000 true].
Definition demo_used_heap : heap pmm :=
  mkHeap (set_mem (write32 demo_table_mem (4096 * 1 + 4 * 0) (mk_entry 9 3)) demo_vm)
    {[ HEAP_START := mkHeader 64 0 (HEAP_START + 80) 0;
       (HEAP_START + 80) := mkHeader 4000 1 0 HEAP_START ]}
    HEAP_START (HEAP_START + 4096).

Lemma demo_used_heap_inv : heap_inv 2 demo_chunks demo_used_heap.
Proof.
  pose proof demo_table_vspace as Hv. pose proof (vs_tables _ _ Hv) as Hok. vm_simpl in *.
  assert (present (pde demo_table_mem 2 769) = true) as Hp by by rewrite demo_table_pde by lia.
  destruct (table_write _ _ Hok 769 0 (mk_entry 9 3)) as (Hpde & Hok' & _ & Hw); [lia|lia|done|].
  assert (pde_frame demo_table_mem 2 769 = 1) as E.
  { unfold pde_frame. by rewrite demo_table_pde by lia. }
  rewrite E in *.
  split; cbn [demo_used_heap heap_vm heap_end_vaddr free_list_start headers set_mem vm_mem].
  - apply (vspace_table_write 2 _ 769 0 (mk_entry 9 3) ∅) in Hv as Hv'; vm_simpl in *;
      [by rewrite E in Hv'|lia|lia|done|].
    rewrite E. split; vm_simpl in *; [done|done|apply tlb_of_empty].
  - by rewrite Hpde by lia.
  - intros pg Hpg. assert (pg = 769 * 1024 + 0) as ->.
    { change (HEAP_START / 4096) with 0xC0400 in Hpg.
      change ((HEAP_START + 4096) / 4096) with 0xC0401 in Hpg. lia. }
    rewrite Hw. by eexists.
  - clear. by compute.
  - reflexivity.
  - clear. done.
  - clear. done.
Qed.

Lemma kfree_correct_witness :
  wp (kfree (HEAP_START + 16)) (fun _ s' => exists l', heap_inv 2 l' s' /\
    same_machine demo_used_heap s' /\
    allocated demo_chunks ≡ₚ (HEAP_START + 16 - HEADER_SIZE, 64) :: allocated l') demo_used_heap.
Proof. apply kfree_correct; [apply demo_used_heap_inv|by left]. Defined.

(** When two frames are free at boot (the heap's first page and its page
    table), [heap_init] leaves a well-formed heap of one free chunk that fills
    the first page, and every other page of the address space as it was. *)
Theorem heap_init_correct A (HA : FrameAllocator A) d (s : heap A) f1 f2 :
  vspace d (heap_vm s) -> f1 <> f2 ->
  unused (vm_frames (heap_vm s)) f1 -> unused (vm_frames (heap_vm s)) f2 ->
  wp heap_init (fun _ s' => heap_inv d [mkChunk HEAP_START 4080 true] s' /\
    elsewhere d (HEAP_START / 4096) (heap_vm s) (heap_vm s')) s.
Proof. apply wp_heap_init. Qed.

Lemma heap_init_correct_witness :
  wp heap_init (fun _ s' => heap_inv 2 [mkChunk HEAP_START 4080 true] s' /\
    elsewhere 2 (HEAP_START / 4096) demo_vm (heap_vm s'))
     (mkHeap demo_vm ∅ 0 0).
Proof.
  apply (heap_init_correct pmm _ 2 (mkHeap demo_vm ∅ 0 0) 5 6); [apply demo_vspace|done| |];
    (split; [by compute|split; [by compute|by vm_compute]]).
Defined.

(** A request close to [SIZE_MAX] is not refused: [kmalloc] rounds the size
    up modulo 2^32, so that on a heap with one free chunk [kmalloc(0xFFFFFFF1)]
    answers a block of size 0 there. *)
Theorem kmalloc_wraps fuel :
  exists s', kmalloc 2 (S (S fuel)) 0xFFFFFFF1 demo_used_heap =
    Ret (HEAP_START + 96, s') /\ size <$> (headers s' !! (HEAP_START + 80)) = Some 0.
Proof.
  eexists. split; [by vm_compute|by vm_compute].
Qed.
