(* ===== verification/Io.v ===== *)
(** * Port I/O and block devices: the interfaces ([kernel/io.h], [drivers/block.h])

    [PortIO] stands for the [in] and [out] instructions: the devices behind the
    ports are parameters of the drivers.  [BlockDevice] is what the block layer
    promises the file system: 512-byte sectors with independent contents. *)

From Stdlib Require Import Lia ZArith.
From stdpp Require Import base list gmap numbers option tactics.
From S2P Require Import Prelude.

Class PortIO (P : Type) := {
  inb : Z -> M P Z;
  outb : Z -> Z -> M P unit;
  inw : Z -> M P Z;
  outw : Z -> Z -> M P unit;
}.

Definition is_byte (b : Z) : Prop := 0 <= b < 256.
Definition is_sector (l : list Z) : Prop := length l = 512%nat /\ Forall is_byte l.

(** [bd_read] and [bd_write] transfer one sector; [None] and [false] are the
    error return -1.  Sectors below [bd_sectors] are transferred without error. *)
Class BlockDevice (D : Type) := {
  bd_read : Z -> M D (option (list Z));
  bd_write : Z -> list Z -> M D bool;
  bd_ok : D -> Prop;
  bd_data : D -> Z -> list Z;
  bd_sectors : Z;
  bd_sector : forall s lba, bd_ok s -> is_sector (bd_data s lba);
  bd_read_spec : forall s lba, bd_ok s -> 0 <= lba < bd_sectors ->
    wp (bd_read lba) (fun r s' => r = Some (bd_data s lba) /\ bd_ok s' /\
      forall a, bd_data s' a = bd_data s a) s;
  bd_write_spec : forall s lba l, bd_ok s -> 0 <= lba < bd_sectors -> is_sector l ->
    wp (bd_write lba l) (fun r s' => r = true /\ bd_ok s' /\
      forall a, 0 <= a < bd_sectors ->
        bd_data s' a = if decide (a = lba) then l else bd_data s a) s;
}.
