(* ===== verification/Ata.v ===== *)
(** * ATA driver and block layer ([drivers/ata.c], [drivers/block.c])

    The polling driver of the primary ATA channel, over any ports ([PortIO]).
    A concrete PIO drive (registers, a data phase, a number of status reads
    during which it stays busy) instantiates the ports; on it the driver is a
    [BlockDevice]. *)

From Stdlib Require Import Lia ZArith.
From stdpp Require Import base list gmap numbers option tactics.
From S2P Require Import Prelude PhysMem Io.

Definition ATA_PRIMARY_IO_BASE : Z := 0x1F0.
Definition ATA_PRIMARY_CTRL_BASE : Z := 0x3F6.
Definition ATA_REG_DATA : Z := 0x00.
Definition ATA_REG_SECTOR_COUNT : Z := 0x02.
Definition ATA_REG_LBA_LOW : Z := 0x03.
Definition ATA_REG_LBA_MID : Z := 0x04.
Definition ATA_REG_LBA_HIGH : Z := 0x05.
Definition ATA_REG_DRIVE_HEAD : Z := 0x06.
Definition ATA_REG_STATUS : Z := 0x07.
Definition ATA_REG_COMMAND : Z := 0x07.
Definition ATA_CMD_READ_SECTORS : Z := 0x20.
Definition ATA_CMD_WRITE_SECTORS : Z := 0x30.
Definition ATA_SR_ERR : Z := 0x01.
Definition ATA_SR_DRQ : Z := 0x08.
Definition ATA_SR_BSY : Z := 0x80.

(** ** The driver *)

Section ata.
Context {P : Type} `{!PortIO P}.

Definition ata_io_wait : M P unit :=
  _ <- inb ATA_PRIMARY_CTRL_BASE ;; _ <- inb ATA_PRIMARY_CTRL_BASE ;;
  _ <- inb ATA_PRIMARY_CTRL_BASE ;; _ <- inb ATA_PRIMARY_CTRL_BASE ;;
  ret tt.

(** [for (i = 0; i < 1000000; ++i)]: the polling loops of the driver. *)
Definition ATA_POLLS : nat := Z.to_nat 1000000.

Definition poll (n : nat) (test : Z -> option Z) : M P Z :=
  r <- for_ n 0
         (fun _ (_ : unit) =>
            status <- inb (ATA_PRIMARY_IO_BASE + ATA_REG_STATUS) ;;
            match test status with
            | Some v => ret (inr v)
            | None => ret (inl tt)
            end) tt ;;
  match r with inr v => ret v | inl _ => ret (-1) end.

Definition ata_wait_not_busy : M P Z :=
  poll ATA_POLLS (fun status =>
    if Z.land status ATA_SR_BSY =? 0 then Some 0 else None).

Definition ata_wait_drq : M P Z :=
  poll ATA_POLLS (fun status =>
    if negb (Z.land status ATA_SR_ERR =? 0) then Some (-1)
    else if (Z.land status ATA_SR_BSY =? 0) && negb (Z.land status ATA_SR_DRQ =? 0) then Some 0
    else None).

Definition ata_set_lba (lba count : Z) : M P Z :=
  if count =? 0 then ret (-1)
  else
    outb (ATA_PRIMARY_IO_BASE + ATA_REG_SECTOR_COUNT) count ;;
    outb (ATA_PRIMARY_IO_BASE + ATA_REG_LBA_LOW) (Z.land lba 0xFF) ;;
    outb (ATA_PRIMARY_IO_BASE + ATA_REG_LBA_MID) (Z.land (Z.shiftr lba 8) 0xFF) ;;
    outb (ATA_PRIMARY_IO_BASE + ATA_REG_LBA_HIGH) (Z.land (Z.shiftr lba 16) 0xFF) ;;
    outb (ATA_PRIMARY_IO_BASE + ATA_REG_DRIVE_HEAD)
         (Z.lor 0xE0 (Z.land (Z.shiftr lba 24) 0x0F)) ;;
    ret 0.

(** The bytes of a little-endian word, and the words of a buffer. *)
Definition word_bytes (w : Z) : list Z := le_bytes 2 w.

Fixpoint words_of (l : list Z) : list Z :=
  match l with
  | b0 :: b1 :: l' => le_value [b0; b1] :: words_of l'
  | _ => []
  end.

Definition ata_read_data : M P (list Z) :=
  r <- for_ 256 0
         (fun _ (buffer : list Z) =>
            w <- inw (ATA_PRIMARY_IO_BASE + ATA_REG_DATA) ;;
            ret (inl (buffer ++ word_bytes w) : list Z + list Z)) [] ;;
  match r with inl b => ret b | inr b => ret b end.

Definition ata_write_data (buffer : list Z) : M P unit :=
  let words := words_of buffer in
  for_each 256 0
    (fun i =>
       w <- some_or_trap (arr_get words i) ;;
       outw (ATA_PRIMARY_IO_BASE + ATA_REG_DATA) w).

(** [buffer] says whether the destination is non-NULL; [None] is the return of
    -1, [Some l] the return of 0 with [l] stored. *)
Definition ata_read_sector_internal (lba : Z) (buffer : bool) : M P (option (list Z)) :=
  if negb buffer then ret None
  else
    r <- ata_wait_not_busy ;;
    if r <? 0 then ret None
    else
      r <- ata_set_lba lba 1 ;;
      if r <? 0 then ret None
      else
        outb (ATA_PRIMARY_IO_BASE + ATA_REG_COMMAND) ATA_CMD_READ_SECTORS ;;
        r <- ata_wait_drq ;;
        if r <? 0 then ret None
        else
          l <- ata_read_data ;;
          ata_io_wait ;;
          ret (Some l).

(** [buffer] is [None] for NULL. *)
Definition ata_write_sector_internal (lba : Z) (buffer : option (list Z)) : M P Z :=
  match buffer with
  | None => ret (-1)
  | Some l =>
      r <- ata_wait_not_busy ;;
      if r <? 0 then ret (-1)
      else
        r <- ata_set_lba lba 1 ;;
        if r <? 0 then ret (-1)
        else
          outb (ATA_PRIMARY_IO_BASE + ATA_REG_COMMAND) ATA_CMD_WRITE_SECTORS ;;
          r <- ata_wait_drq ;;
          if r <? 0 then ret (-1)
          else
            ata_write_data l ;;
            ata_io_wait ;;
            ata_wait_not_busy
  end.

Definition ata_init : M P Z :=
  r <- ata_wait_not_busy ;;
  if r <? 0 then ret (-1)
  else
    outb (ATA_PRIMARY_IO_BASE + ATA_REG_DRIVE_HEAD) 0xA0 ;;
    ata_io_wait ;;
    status <- inb (ATA_PRIMARY_IO_BASE + ATA_REG_STATUS) ;;
    if (status =? 0xFF) || (status =? 0x00) then ret (-1) else ret 0.

Definition ata_is_present : M P Z :=
  r <- ata_init ;; ret (if r =? 0 then 1 else 0).

Definition ata_read_sector (lba : Z) (buffer : bool) : M P (option (list Z)) :=
  ata_read_sector_internal lba buffer.
Definition ata_write_sector (lba : Z) (buffer : option (list Z)) : M P Z :=
  ata_write_sector_internal lba buffer.

Definition ata_read_sectors (lba : Z) (buffer : bool) (count : Z) : M P (option (list Z)) :=
  if negb buffer || (count =? 0) then ret None
  else
    r <- for_ (Z.to_nat count) 0
           (fun i (acc : list Z) =>
              o <- ata_read_sector_internal (u32 (lba + i)) true ;;
              match o with
              | Some l => ret (inl (acc ++ l))
              | None => ret (inr tt)
              end) [] ;;
    match r with inl l => ret (Some l) | inr _ => ret None end.

Definition ata_write_sectors (lba : Z) (buffer : option (list Z)) (count : Z) : M P Z :=
  match buffer with
  | None => ret (-1)
  | Some l =>
      if count =? 0 then ret (-1)
      else
        r <- for_ (Z.to_nat count) 0
               (fun i (_ : unit) =>
                  r <- ata_write_sector_internal (u32 (lba + i)) (Some (drop (Z.to_nat (i * 512)) l)) ;;
                  if r <? 0 then ret (inr (-1)) else ret (inl tt)) tt ;;
        match r with inr v => ret v | inl _ => ret 0 end
  end.

(** *** [block.c] *)

Definition block_init : M P Z := ata_init.
Definition block_read (lba : Z) (buffer : bool) (count : Z) : M P (option (list Z)) :=
  ata_read_sectors lba buffer count.
Definition block_write (lba : Z) (buffer : option (list Z)) (count : Z) : M P Z :=
  ata_write_sectors lba buffer count.
End ata.

(** ** A PIO drive *)

Inductive phase :=
  | Idle
  | DataIn (words : list Z)
  | DataOut (words : list Z).

Record drive := mkDrive {
  dr_sectors : gmap Z (list Z);
  dr_low : Z;
  dr_mid : Z;
  dr_high : Z;
  dr_head : Z;
  dr_phase : phase;
  dr_busy : nat;
}.

(** Status reads for which the drive stays busy after a command. *)
Definition LATENCY : nat := 3.

Definition dr_lba (d : drive) : Z :=
  dr_low d + 256 * dr_mid d + 65536 * dr_high d + 16777216 * Z.land (dr_head d) 0x0F.

Definition dr_sector (d : drive) (lba : Z) : list Z :=
  default (replicate 512 0) (dr_sectors d !! lba).

Definition dr_status (d : drive) : Z :=
  match dr_busy d with
  | O => match dr_phase d with Idle => 0x50 | _ => 0x58 end
  | S _ => 0x80
  end.

Definition dr_set_phase (p : phase) (b : nat) (d : drive) : drive :=
  mkDrive (dr_sectors d) (dr_low d) (dr_mid d) (dr_high d) (dr_head d) p b.

Definition dr_inb (port : Z) : M drive Z := fun d =>
  if port =? ATA_PRIMARY_IO_BASE + ATA_REG_STATUS then
    Ret (dr_status d, dr_set_phase (dr_phase d) (pred (dr_busy d)) d)
  else if port =? ATA_PRIMARY_CTRL_BASE then Ret (dr_status d, d)
  else Ret (0xFF, d).

Definition dr_command (c : Z) (d : drive) : drive :=
  if c =? ATA_CMD_READ_SECTORS then
    dr_set_phase (DataIn (words_of (dr_sector d (dr_lba d)))) LATENCY d
  else if c =? ATA_CMD_WRITE_SECTORS then dr_set_phase (DataOut []) LATENCY d
  else d.

Definition dr_outb (port v : Z) : M drive unit := fun d =>
  let b := u8 v in
  if port =? ATA_PRIMARY_IO_BASE + ATA_REG_LBA_LOW then
    Ret (tt, mkDrive (dr_sectors d) b (dr_mid d) (dr_high d) (dr_head d) (dr_phase d) (dr_busy d))
  else if port =? ATA_PRIMARY_IO_BASE + ATA_REG_LBA_MID then
    Ret (tt, mkDrive (dr_sectors d) (dr_low d) b (dr_high d) (dr_head d) (dr_phase d) (dr_busy d))
  else if port =? ATA_PRIMARY_IO_BASE + ATA_REG_LBA_HIGH then
    Ret (tt, mkDrive (dr_sectors d) (dr_low d) (dr_mid d) b (dr_head d) (dr_phase d) (dr_busy d))
  else if port =? ATA_PRIMARY_IO_BASE + ATA_REG_DRIVE_HEAD then
    Ret (tt, mkDrive (dr_sectors d) (dr_low d) (dr_mid d) (dr_high d) b (dr_phase d) (dr_busy d))
  else if port =? ATA_PRIMARY_IO_BASE + ATA_REG_COMMAND then Ret (tt, dr_command b d)
  else Ret (tt, d).

Definition dr_inw (port : Z) : M drive Z := fun d =>
  match dr_phase d with
  | DataIn (w :: l) =>
      Ret (w, dr_set_phase (match l with [] => Idle | _ => DataIn l end) (dr_busy d) d)
  | _ => Ret (0xFFFF, d)
  end.

Definition dr_outw (port v : Z) : M drive unit := fun d =>
  match dr_phase d with
  | DataOut acc =>
      let acc' := acc ++ [u16 v] in
      if (length acc' =? 256)%nat then
        Ret (tt, mkDrive (<[dr_lba d := concat (map word_bytes acc')]> (dr_sectors d))
                   (dr_low d) (dr_mid d) (dr_high d) (dr_head d) Idle LATENCY)
      else Ret (tt, dr_set_phase (DataOut acc') (dr_busy d) d)
  | _ => Ret (tt, d)
  end.

#[export] Instance drive_PortIO : PortIO drive := {
  inb := dr_inb;
  outb := dr_outb;
  inw := dr_inw;
  outw := dr_outw;
}.

(** ** The driver on the drive *)

Definition drive_ok (d : drive) : Prop :=
  dr_phase d = Idle /\ (dr_busy d <= LATENCY)%nat /\
  forall a l, dr_sectors d !! a = Some l -> is_sector l.

Lemma dr_sector_ok d a : drive_ok d -> is_sector (dr_sector d a).
Proof.
  intros (_ & _ & H). unfold dr_sector. destruct (dr_sectors d !! a) eqn:E; [by eapply H|].
  split; [apply length_replicate|apply Forall_replicate; split; lia].
Qed.

Definition idle_status (p : phase) : Z := match p with Idle => 0x50 | _ => 0x58 end.

Lemma wp_poll d n test v (Q : Z -> drive -> Prop) :
  (dr_busy d < n)%nat -> test 0x80 = None -> test (idle_status (dr_phase d)) = Some v ->
  Q v (dr_set_phase (dr_phase d) 0 d) -> wp (poll n test) Q d.
Proof.
  intros Hb Hn Hv HQ. unfold poll. apply wp_bind. generalize 0 as i. revert d Hb Hv HQ.
  induction n as [|n IH]; intros d Hb Hv HQ i; [lia|]. cbn [for_]. apply wp_bind, wp_bind.
  change (inb ?a) with (dr_inb a). unfold wp at 1, dr_inb.
  change (ATA_PRIMARY_IO_BASE + ATA_REG_STATUS =? ATA_PRIMARY_IO_BASE + ATA_REG_STATUS) with true.
  cbv iota. unfold dr_status. destruct (dr_busy d) as [|b] eqn:Eb.
  - fold (idle_status (dr_phase d)). rewrite Hv. by repeat apply wp_ret.
  - rewrite Hn. apply wp_ret, IH; cbn [dr_set_phase dr_busy dr_phase pred]; [lia|done|done].
Qed.

Lemma polls_enough d : drive_ok d -> (dr_busy d < ATA_POLLS)%nat.
Proof. intros (_ & H & _). unfold LATENCY, ATA_POLLS in *. lia. Qed.

Lemma words_bytes l : is_sector l -> concat (map word_bytes (words_of l)) = l.
Proof.
  intros [Hl Hb]. assert (exists n, length l = (2 * n)%nat) as [n Hn] by (by exists 256%nat).
  clear Hl. revert l Hn Hb. induction n as [|n IH]; intros [|b0 [|b1 l]] Hn Hb; simpl in Hn; try lia.
  - done.
  - cbn [words_of map concat]. unfold word_bytes at 1.
    apply list.Forall_cons in Hb as [H0 Hb]. apply list.Forall_cons in Hb as [H1 Hb].
    rewrite IH by (lia || done).
    assert (le_bytes 2 (le_value [b0; b1]) = [b0; b1]) as ->; [|done].
    apply (le_bytes_value [b0; b1]). constructor; [done|]. constructor; [done|constructor].
Qed.

Lemma length_words l n : length l = (2 * n)%nat -> length (words_of l) = n.
Proof.
  revert l. induction n as [|n IH]; intros [|b0 [|b1 l]] Hn; simpl in Hn; try lia; [done|].
  cbn [words_of length]. f_equal. apply IH. lia.
Qed.

Lemma words_range l : Forall (fun w => 0 <= w < 65536) (words_of l).
Proof.
  assert (forall n l, (length l <= n)%nat -> Forall (fun w => 0 <= w < 65536) (words_of l)) as H.
  { intros n. induction n as [|n IH]; intros [|b0 [|b1 l']] Hn; simpl in Hn;
      try (by constructor); [lia|]. cbn [words_of]. constructor; [|apply IH; lia].
    pose proof (le_value_range [b0; b1]) as Hr. done. }
  by apply (H (length l)).
Qed.

Lemma wp_read_words ws d acc i :
  ws <> [] -> dr_phase d = DataIn ws ->
  wp (for_ (length ws) i
        (fun _ (buffer : list Z) =>
           w <- inw (ATA_PRIMARY_IO_BASE + ATA_REG_DATA) ;;
           ret (inl (buffer ++ word_bytes w) : list Z + list Z)) acc)
     (fun r d' => r = inl (acc ++ concat (map word_bytes ws)) /\ d' = dr_set_phase Idle (dr_busy d) d) d.
Proof.
  revert d acc i. induction ws as [|w ws IH]; intros d acc i Hne Hp; [done|].
  cbn [length for_]. apply wp_bind, wp_bind. change (inw ?a) with (dr_inw a).
  unfold wp at 1, dr_inw. rewrite Hp. apply wp_ret. cbn [map concat].
  destruct ws as [|w2 ws]; [apply wp_ret; by rewrite app_nil_r|].
  eapply wp_mono; [by apply IH|]. intros r d' [-> ->]. by rewrite <- app_assoc.
Qed.

Lemma wp_write_words ws d acc i f :
  dr_phase d = DataOut acc -> (length acc + length ws = 256)%nat -> ws <> [] ->
  Forall (fun w => 0 <= w < 65536) ws ->
  (forall k, (k < length ws)%nat -> f (i + Z.of_nat k) = ws !! k) ->
  wp (for_each (length ws) i
        (fun j => w <- some_or_trap (f j) ;; outw (ATA_PRIMARY_IO_BASE + ATA_REG_DATA) w))
     (fun _ d' => d' = mkDrive (<[dr_lba d := concat (map word_bytes (acc ++ ws))]> (dr_sectors d))
                         (dr_low d) (dr_mid d) (dr_high d) (dr_head d) Idle LATENCY) d.
Proof.
  revert d acc i. induction ws as [|w ws IH]; intros d acc i Hp Hl Hne Hr Hf; [done|].
  cbn [length for_each]. apply wp_bind, wp_bind.
  eapply wp_some_or_trap; [rewrite <- (Z.add_0_r i); by apply (Hf 0%nat); simpl; lia|].
  change (outw ?a ?b) with (dr_outw a b). unfold wp at 1, dr_outw. rewrite Hp.
  apply list.Forall_cons in Hr as [Hw Hr]. rewrite u16_small by done. rewrite length_app. cbn [length] in *.
  destruct (Nat.eqb_spec (length acc + 1) 256) as [E|E].
  - destruct ws; [by apply wp_ret|cbn [length] in *; lia].
  - destruct ws as [|w2 ws]; [cbn [length] in *; lia|].
    eapply wp_mono; [apply (IH _ (acc ++ [w]))|]; [done| |done|done| |].
    + rewrite length_app. cbn [length] in *. lia.
    + intros k Hk. replace (i + 1 + Z.of_nat k) with (i + Z.of_nat (S k)) by lia.
      apply Hf. lia.
    + intros [] d' ->. by rewrite <- app_assoc.
Qed.

(** The address registers after [ata_set_lba]. *)
Lemma wp_set_lba lba d (Q : Z -> drive -> Prop) :
  0 <= lba ->
  (forall d', dr_sectors d' = dr_sectors d -> dr_phase d' = dr_phase d -> dr_busy d' = dr_busy d ->
     dr_lba d' = lba mod 2 ^ 28 -> Q 0 d') ->
  wp (ata_set_lba lba 1) Q d.
Proof.
  intros Hlba HQ. unfold ata_set_lba. change (1 =? 0) with false. cbv iota.
  change (outb ?a ?b) with (dr_outb a b). unfold wp, bind, ret, dr_outb.
  cbn [Z.eqb ATA_PRIMARY_IO_BASE ATA_REG_SECTOR_COUNT ATA_REG_LBA_LOW ATA_REG_LBA_MID
       ATA_REG_LBA_HIGH ATA_REG_DRIVE_HEAD ATA_REG_COMMAND Z.add Pos.add Pos.eqb Pos.succ
       Pos.add_carry].
  apply HQ; [done..|]. unfold dr_lba. cbn [dr_low dr_mid dr_high dr_head].
  change 0xFF with (Z.ones 8). rewrite !Z.land_ones by lia. change (2 ^ 8) with 256.
  rewrite !Z.shiftr_div_pow2 by lia. rewrite !u8_small.
  - rewrite Z.land_lor_distr_l. change (Z.land 0xE0 0x0F) with 0. rewrite Z.lor_0_l.
    rewrite <- Z.land_assoc. change (Z.land 15 15) with (Z.ones 4). rewrite Z.land_ones by lia.
    change (2 ^ 8) with 256. change (2 ^ 16) with 65536. change (2 ^ 24) with 16777216.
    change (2 ^ 4) with 16. change (2 ^ 28) with 268435456.
    Z.div_mod_to_equations. lia.
  - pose proof (Z.mod_pos_bound (lba / 2 ^ 24) 16 ltac:(lia)) as Hm.
    change 0x0F with (Z.ones 4). rewrite Z.land_ones by lia. change (2 ^ 4) with 16.
    revert Hm. generalize ((lba / 2 ^ 24) mod 16). intros k Hk.
    assert (Z.lor 0xE0 k = 0xE0 + k) as ->; [|lia].
    change 0xE0 with (14 * 2 ^ 4). rewrite Z.add_nocarry_lxor, Z.lxor_lor; try done;
      apply Z.bits_inj'; intros n Hn; rewrite Z.land_spec, Z.bits_0; destruct (Z.ltb_spec n 4);
      try (by rewrite Z.mul_pow2_bits_low by lia);
      rewrite <- (Z.mod_small k (2 ^ 4)) by lia; by rewrite (Z.mod_pow2_bits_high k), andb_false_r by lia.
  - apply Z.mod_pos_bound. lia.
  - apply Z.mod_pos_bound. lia.
  - apply Z.mod_pos_bound. lia.
Qed.

Lemma wp_io_wait d (Q : unit -> drive -> Prop) : Q tt d -> wp (ata_io_wait;; ret tt) Q d.
Proof. done. Qed.

Lemma wp_io_wait_bind {B} d (c : M drive B) Q : wp c Q d -> wp (ata_io_wait;; c) Q d.
Proof. done. Qed.

Lemma wp_not_busy d (Q : Z -> drive -> Prop) :
  drive_ok d -> Q 0 (dr_set_phase Idle 0 d) -> wp ata_wait_not_busy Q d.
Proof.
  intros Hd HQ. pose proof (polls_enough d Hd). destruct Hd as (Hp & _). rewrite <- Hp in HQ.
  unfold ata_wait_not_busy. eapply wp_poll; [done|done|by rewrite Hp|done].
Qed.

Lemma wp_command c d (Q : unit -> drive -> Prop) :
  Q tt (dr_command (u8 c) d) ->
  wp (outb (ATA_PRIMARY_IO_BASE + ATA_REG_COMMAND) c) Q d.
Proof. done. Qed.

Lemma wp_drq d (Q : Z -> drive -> Prop) :
  (dr_busy d <= LATENCY)%nat -> dr_phase d <> Idle ->
  Q 0 (dr_set_phase (dr_phase d) 0 d) -> wp ata_wait_drq Q d.
Proof.
  intros Hb Hp HQ. unfold ata_wait_drq.
  eapply wp_poll; [unfold LATENCY, ATA_POLLS in *; lia|done| |exact HQ].
  by destruct (dr_phase d).
Qed.

Lemma wp_ata_read lba d :
  drive_ok d -> 0 <= lba ->
  wp (ata_read_sector_internal lba true) (fun r d' =>
    r = Some (dr_sector d (lba mod 2 ^ 28)) /\ drive_ok d' /\ dr_sectors d' = dr_sectors d) d.
Proof.
  intros Hd Hlba. unfold ata_read_sector_internal. cbn [negb].
  apply wp_bind, wp_not_busy; [done|]. change (0 <? 0) with false. cbv iota.
  apply wp_bind, wp_set_lba; [done|]. intros d1 Hs1 Hp1 Hb1 Hl1.
  change (0 <? 0) with false. cbv iota. apply wp_bind, wp_command.
  change (dr_command (u8 ATA_CMD_READ_SECTORS) d1)
    with (dr_set_phase (DataIn (words_of (dr_sector d1 (dr_lba d1)))) LATENCY d1).
  apply wp_bind, wp_drq; [done|done|]. change (0 <? 0) with false. cbv iota.
  cbn [dr_set_phase dr_phase].
  assert (dr_sector d1 (dr_lba d1) = dr_sector d (lba mod 2 ^ 28)) as E.
  { rewrite Hl1. unfold dr_sector. by rewrite Hs1. }
  rewrite E. pose proof (dr_sector_ok d (lba mod 2 ^ 28) Hd) as Hsec.
  set (ws := words_of (dr_sector d (lba mod 2 ^ 28))).
  assert (length ws = 256%nat) as Hws by (apply length_words; apply Hsec).
  apply wp_bind. unfold ata_read_data. apply wp_bind.
  replace 256%nat with (length ws) by done.
  eapply wp_mono; [apply (wp_read_words ws); [by destruct ws|done]|].
  intros r d2 [-> ->]. apply wp_ret, wp_io_wait_bind, wp_ret. cbn [app].
  unfold ws. rewrite words_bytes by done. split; [done|].
  cbn [dr_set_phase dr_sectors dr_phase dr_busy]. split; [|done].
  split; [done|]. split; [cbn; lia|]. cbn [dr_set_phase dr_sectors]. rewrite Hs1. apply Hd.
Qed.

Lemma wp_ata_write lba l d :
  drive_ok d -> 0 <= lba -> is_sector l ->
  wp (ata_write_sector_internal lba (Some l)) (fun r d' =>
    r = 0 /\ drive_ok d' /\ dr_sectors d' = <[lba mod 2 ^ 28 := l]> (dr_sectors d)) d.
Proof.
  intros Hd Hlba Hl. unfold ata_write_sector_internal.
  apply wp_bind, wp_not_busy; [done|]. change (0 <? 0) with false. cbv iota.
  apply wp_bind, wp_set_lba; [done|]. intros d1 Hs1 Hp1 Hb1 Hl1.
  change (0 <? 0) with false. cbv iota. apply wp_bind, wp_command.
  change (dr_command (u8 ATA_CMD_WRITE_SECTORS) d1) with (dr_set_phase (DataOut []) LATENCY d1).
  apply wp_bind, wp_drq; [done|done|]. change (0 <? 0) with false. cbv iota.
  cbn [dr_set_phase dr_phase]. set (d2 := dr_set_phase _ _ _).
  assert (length (words_of l) = 256%nat) as Hws by (apply length_words; apply Hl).
  apply wp_bind. unfold ata_write_data. cbv zeta.
  replace 256%nat with (length (words_of l)) by done.
  eapply wp_mono; [apply (wp_write_words (words_of l) d2 [] 0 (arr_get (words_of l)));
    [done|done|by destruct (words_of l)|apply words_range|]|].
  { intros k Hk. unfold arr_get. rewrite (proj2 (Z.leb_le _ _)), Z.add_0_l, Nat2Z.id by lia. done. }
  intros [] d3 ->. apply wp_io_wait_bind. cbn [app]. rewrite words_bytes by done.
  set (d3 := mkDrive _ _ _ _ _ _ _).
  assert (dr_sectors d3 = <[lba mod 2 ^ 28 := l]> (dr_sectors d)) as Hsec.
  { unfold d3, d2. cbn [dr_sectors]. change (dr_lba (dr_set_phase (DataOut []) 0 _)) with (dr_lba d1).
    rewrite Hl1. cbn [dr_set_phase dr_sectors]. by rewrite Hs1. }
  assert (drive_ok d3) as Hd3.
  { split; [done|]. split; [cbn; lia|]. rewrite Hsec. intros a l'.
    rewrite lookup_insert_Some. intros [[_ <-]|[_ H]]; [done|]. by eapply Hd. }
  apply wp_not_busy; [done|]. split; [done|]. split; [|exact Hsec].
  split; [done|]. split; [cbn; lia|]. apply Hd3.
Qed.

Lemma wp_ata_block_read lba d :
  drive_ok d -> 0 <= lba < 2 ^ 28 ->
  wp (block_read lba true 1) (fun r d' => r = Some (dr_sector d lba) /\ drive_ok d' /\
    forall a, dr_sector d' a = dr_sector d a) d.
Proof.
  intros Hd Hlba. unfold block_read, ata_read_sectors. cbn [negb orb].
  change (1 =? 0) with false. cbv iota. change (Z.to_nat 1) with 1%nat. cbn [for_].
  rewrite Z.add_0_r, u32_small by (change (2 ^ 28) with 268435456 in *; lia). apply wp_bind, wp_bind, wp_bind.
  eapply wp_mono; [apply wp_ata_read; [done|lia]|]. intros r d' (-> & Hd' & Hs).
  rewrite Z.mod_small by lia. apply wp_ret, wp_ret, wp_ret.
  split; [done|]. split; [done|]. intros a. unfold dr_sector. by rewrite Hs.
Qed.

Lemma wp_ata_block_write lba l d :
  drive_ok d -> 0 <= lba < 2 ^ 28 -> is_sector l ->
  wp (block_write lba (Some l) 1) (fun r d' => r = 0 /\ drive_ok d' /\
    forall a, dr_sector d' a = if decide (a = lba) then l else dr_sector d a) d.
Proof.
  intros Hd Hlba Hl. unfold block_write, ata_write_sectors.
  change (1 =? 0) with false. cbv iota. change (Z.to_nat 1) with 1%nat. cbn [for_].
  rewrite Z.add_0_r, u32_small by (change (2 ^ 28) with 268435456 in *; lia). change (Z.to_nat (0 * 512)) with 0%nat. rewrite drop_0.
  apply wp_bind, wp_bind, wp_bind.
  eapply wp_mono; [apply wp_ata_write; [done|lia|done]|]. intros r d' (-> & Hd' & Hs).
  rewrite Z.mod_small in Hs by lia. apply wp_ret, wp_ret, wp_ret.
  split; [done|]. split; [done|]. intros a. unfold dr_sector. rewrite Hs.
  case_decide; subst; [by rewrite lookup_insert_eq|by rewrite lookup_insert_ne].
Qed.

(** ** The block layer over the driver is a block device *)

Definition dev_read (lba : Z) : M drive (option (list Z)) := block_read lba true 1.
Definition dev_write (lba : Z) (l : list Z) : M drive bool :=
  r <- block_write lba (Some l) 1 ;; ret (negb (r <? 0)).

Lemma wp_dev_write d lba l :
  drive_ok d -> 0 <= lba < 2 ^ 28 -> is_sector l ->
  wp (dev_write lba l) (fun r d' => r = true /\ drive_ok d' /\
    forall a, 0 <= a < 2 ^ 28 -> dr_sector d' a = if decide (a = lba) then l else dr_sector d a) d.
Proof.
  intros Hd Hlba Hl. unfold dev_write. apply wp_bind. eapply wp_mono; [by apply wp_ata_block_write|].
  intros r d' (-> & Hd' & Hs). by apply wp_ret.
Qed.

#[export] Instance drive_BlockDevice : BlockDevice drive := {
  bd_read := dev_read;
  bd_write := dev_write;
  bd_ok := drive_ok;
  bd_data := dr_sector;
  bd_sectors := 2 ^ 28;
  bd_sector := dr_sector_ok;
  bd_read_spec := fun d lba => wp_ata_block_read lba d;
  bd_write_spec := wp_dev_write;
}.

(** ** Properties *)


Definition demo_drive : drive := mkDrive ∅ 0 0 0 0 Idle 2.

Lemma demo_drive_ok : drive_ok demo_drive.
Proof. split; [done|]. split; [unfold LATENCY; cbn; lia|]. intros a l H. cbn [demo_drive dr_sectors] in H.
  by rewrite lookup_empty in H.
Qed.

