(* ===== verification/Fat16.v ===== *)
(** * FAT16 file system ([kernel/fat16.c], [kernel/fat16.h])

    The whole of [fat16.c] over an abstract block device ([Io.BlockDevice]):
    the boot sector, both directions of the FAT, the root directory, the table
    of open files.  Sector buffers are lists of bytes; an access outside
    [uint8_t sector[512]] traps.  Paths are the bytes before the terminating
    NUL.  Diagnostics ([printk]) are left out. *)

From Stdlib Require Import Lia ZArith.
From stdpp Require Import base list gmap numbers option tactics.
From S2P Require Import Prelude PhysMem Io.

Definition FAT16_ENTRY_SIZE : Z := 32.
Definition FAT16_CLUSTER_FREE : Z := 0x0000.
Definition FAT16_CLUSTER_BAD : Z := 0xFFF7.
Definition FAT16_CLUSTER_MIN : Z := 0x0002.
Definition FAT16_CLUSTER_EOC : Z := 0xFFF8.
Definition FAT16_OEM_NAME_SIZE : nat := 8.
Definition FAT16_BOOT_SIGNATURE : Z := 0xAA55.
Definition FAT16_ATTR_LONG_NAME : Z := 0x0F.
Definition FAT16_ATTR_DIRECTORY : Z := 0x10.
Definition FAT16_ATTR_VOLUME_ID : Z := 0x08.
Definition FAT16_MAX_OPEN_FILES : Z := 16.
Definition FAT16_FD_BASE : Z := 3.
Definition FAT16_MAX_FILE_NAME : nat := 11.

Record fat16_fs := mkFs {
  volume_lba : Z;
  bytes_per_sector : Z;
  sectors_per_cluster : Z;
  reserved_sector_count : Z;
  num_fats : Z;
  root_entry_count : Z;
  total_sectors_16 : Z;
  total_sectors_32 : Z;
  sectors_per_fat : Z;
  total_sectors : Z;
  root_dir_sectors : Z;
  fat_start_lba : Z;
  root_dir_start_lba : Z;
  data_start_lba : Z;
  cluster_count : Z;
  oem_name : list Z;
  boot_signature : Z;
}.

(** [const fat16_fs_t *]: NULL, [&fat16_mounted_fs], or an object of a caller. *)
Inductive fs_ptr := FsNull | FsMounted | FsAt (n : Z).

Record fat16_file := mkFile {
  ffs : fs_ptr;
  start_cluster : Z;
  current_cluster : Z;
  fsize : Z;
  position : Z;
  dir_entry_lba : Z;
  dir_entry_offset : Z;
  modified : Z;
  active : Z;
}.

Definition empty_file : fat16_file := mkFile FsNull 0 0 0 0 0 0 0 0.
Definition zero_fs : fat16_fs := mkFs 0 0 0 0 0 0 0 0 0 0 0 0 0 0 0 (replicate 9 0) 0.

Record fat16 (D : Type) := mkFat {
  disk : D;
  fat16_files : list fat16_file;
  fat16_mounted_fs : fat16_fs;
  fat16_current_fs : fs_ptr;
  callers_fs : gmap Z fat16_fs;
}.
Arguments mkFat {D}.
Arguments disk {D}.
Arguments fat16_files {D}.
Arguments fat16_mounted_fs {D}.
Arguments fat16_current_fs {D}.
Arguments callers_fs {D}.

Definition set_disk {D} (d : D) (s : fat16 D) : fat16 D :=
  mkFat d (fat16_files s) (fat16_mounted_fs s) (fat16_current_fs s) (callers_fs s).
Definition set_files {D} (l : list fat16_file) (s : fat16 D) : fat16 D :=
  mkFat (disk s) l (fat16_mounted_fs s) (fat16_current_fs s) (callers_fs s).
Definition set_fs {D} (p : fs_ptr) (f : fat16_fs) (s : fat16 D) : fat16 D :=
  match p with
  | FsNull => s
  | FsMounted => mkFat (disk s) (fat16_files s) f (fat16_current_fs s) (callers_fs s)
  | FsAt n => mkFat (disk s) (fat16_files s) (fat16_mounted_fs s) (fat16_current_fs s)
                    (<[n := f]> (callers_fs s))
  end.
Definition set_mounted {D} (f : fat16_fs) (s : fat16 D) : fat16 D :=
  mkFat (disk s) (fat16_files s) f FsMounted (callers_fs s).

(** ** Bytes of a buffer *)

Definition byte_at {S} (buf : list Z) (o : Z) : M S Z := some_or_trap (arr_get buf o).
Definition set_byte {S} (buf : list Z) (o v : Z) : M S (list Z) :=
  some_or_trap (arr_set buf o (u8 v)).

Definition fat16_read_le16 {S} (buf : list Z) (o : Z) : M S Z :=
  b0 <- byte_at buf o ;; b1 <- byte_at buf (o + 1) ;;
  ret (Z.lor b0 (Z.shiftl b1 8)).

Definition fat16_read_le32 {S} (buf : list Z) (o : Z) : M S Z :=
  b0 <- byte_at buf o ;; b1 <- byte_at buf (o + 1) ;;
  b2 <- byte_at buf (o + 2) ;; b3 <- byte_at buf (o + 3) ;;
  ret (Z.lor (Z.lor (Z.lor b0 (Z.shiftl b1 8)) (Z.shiftl b2 16)) (Z.shiftl b3 24)).

Definition fat16_write_le16 {S} (buf : list Z) (o v : Z) : M S (list Z) :=
  b <- set_byte buf o (Z.land v 0xFF) ;;
  set_byte b (o + 1) (Z.land (Z.shiftr v 8) 0xFF).

Definition fat16_write_le32 {S} (buf : list Z) (o v : Z) : M S (list Z) :=
  b <- set_byte buf o (Z.land v 0xFF) ;;
  b <- set_byte b (o + 1) (Z.land (Z.shiftr v 8) 0xFF) ;;
  b <- set_byte b (o + 2) (Z.land (Z.shiftr v 16) 0xFF) ;;
  set_byte b (o + 3) (Z.land (Z.shiftr v 24) 0xFF).

(** [fat16_memcpy(dest + d, src + s, len)]: the new contents of [dest]. *)
Fixpoint fat16_memcpy {S} (dest : list Z) (d : Z) (src : list Z) (s : Z) (len : nat) : M S (list Z) :=
  match len with
  | O => ret dest
  | S len' =>
      b <- byte_at src s ;;
      dest <- set_byte dest d b ;;
      fat16_memcpy dest (d + 1) src (s + 1) len'
  end.

Fixpoint fat16_memcmp {S} (a : list Z) (ao : Z) (b : list Z) (bo : Z) (len : nat) : M S Z :=
  match len with
  | O => ret 0
  | S len' =>
      x <- byte_at a ao ;; y <- byte_at b bo ;;
      if x =? y then fat16_memcmp a (ao + 1) b (bo + 1) len' else ret (x - y)
  end.

Definition fat16_cluster_to_lba (fs : fat16_fs) (cluster : Z) : Z :=
  u32 (data_start_lba fs + u32 (u32 (cluster - 2) * sectors_per_cluster fs)).

Definition fat16_is_eoc (cluster : Z) : bool := FAT16_CLUSTER_EOC <=? cluster.

Definition fat16_toupper (ch : Z) : Z :=
  if (97 <=? ch) && (ch <=? 122) then ch - 32 else ch.

(** *** Names *)

(** [while ( *path == '/') path++] *)
Fixpoint skip_slashes (path : list Z) : list Z :=
  match path with
  | c :: path' => if c =? 47 then skip_slashes path' else path
  | [] => []
  end.

(** The loop over the rest of the path; [None] is the return of -1. *)
Fixpoint name_chars (path : list Z) (normalized : list Z) (name_index ext_index : nat)
    (in_extension : bool) : option (list Z * nat) :=
  match path with
  | [] => Some (normalized, name_index)
  | c :: path' =>
      if c =? 46 then
        if in_extension then None
        else name_chars path' normalized name_index ext_index true
      else if in_extension then
        if (3 <=? ext_index)%nat then None
        else name_chars path' (<[(8 + ext_index)%nat := fat16_toupper c]> normalized)
               name_index (S ext_index) true
      else
        if (8 <=? name_index)%nat then None
        else name_chars path' (<[name_index := fat16_toupper c]> normalized)
               (S name_index) ext_index false
  end.

Definition fat16_normalize_short_name (path : option (list Z)) : option (list Z) :=
  match path with
  | None => None
  | Some p =>
      match name_chars (skip_slashes p) (replicate FAT16_MAX_FILE_NAME 32) 0 0 false with
      | Some (normalized, name_index) => if (name_index =? 0)%nat then None else Some normalized
      | None => None
      end
  end.

(** What [fat16_find_root_entry] returns: -1, 0, or 1 with its outputs. *)
Inductive find_result :=
  | FindError
  | FindNone
  | Found (out_cluster out_size out_dir_lba out_dir_offset : Z).

Section fat16.
Context {D : Type} `{!BlockDevice D}.

Definition block_read (lba : Z) : M (fat16 D) (option (list Z)) := zoom disk set_disk (bd_read lba).
Definition block_write (lba : Z) (buf : list Z) : M (fat16 D) bool :=
  zoom disk set_disk (bd_write lba buf).

Definition deref (p : fs_ptr) : M (fat16 D) fat16_fs :=
  s <- get ;;
  match p with
  | FsNull => trap
  | FsMounted => ret (fat16_mounted_fs s)
  | FsAt n => some_or_trap (callers_fs s !! n)
  end.

(** *** The file allocation table *)

Definition fat16_write_fat_entry (fs : fat16_fs) (cluster value : Z) : M (fat16 D) Z :=
  let fat_offset := u32 (cluster * 2) in
  let sector_index := fat_offset / bytes_per_sector fs in
  let sector_offset := fat_offset mod bytes_per_sector fs in
  r <- for_ (Z.to_nat (num_fats fs)) 0
         (fun fat_index (_ : unit) =>
            let lba := u32 (fat_start_lba fs + sector_index + fat_index * sectors_per_fat fs) in
            o <- block_read lba ;;
            match o with
            | None => ret (inr (-1))
            | Some sector =>
                sector <- fat16_write_le16 sector sector_offset value ;;
                ok <- block_write lba sector ;;
                if (ok : bool) then ret (inl tt) else ret (inr (-1))
            end) tt ;;
  match r with inl _ => ret 0 | inr v => ret v end.

Definition fat16_read_fat_entry (fs : fat16_fs) (cluster : Z) : M (fat16 D) Z :=
  let fat_offset := u32 (cluster * 2) in
  let fat_sector := u32 (fat_start_lba fs + fat_offset / bytes_per_sector fs) in
  let fat_index := fat_offset mod bytes_per_sector fs in
  o <- block_read fat_sector ;;
  match o with
  | None => ret FAT16_CLUSTER_BAD
  | Some sector => fat16_read_le16 sector fat_index
  end.

(** The [uint16_t] counter wraps, so the loop needs a bound of its own. *)
Definition fat16_find_free_cluster (fuel : nat) (fs : fat16_fs) : M (fat16 D) (option Z) :=
  iter fuel
    (fun cluster =>
       if cluster <? u32 (cluster_count fs + 2) then
         e <- fat16_read_fat_entry fs cluster ;;
         if e =? FAT16_CLUSTER_FREE then ret (inr (Some cluster))
         else ret (inl (u16 (cluster + 1)))
       else ret (inr None))
    FAT16_CLUSTER_MIN.

Definition fat16_allocate_cluster (fuel : nat) (fs : fat16_fs) (previous : Z) : M (fat16 D) (option Z) :=
  o <- fat16_find_free_cluster fuel fs ;;
  match o with
  | None => ret None
  | Some next_cluster =>
      r <- fat16_write_fat_entry fs next_cluster FAT16_CLUSTER_EOC ;;
      if r <? 0 then ret None
      else
        (if FAT16_CLUSTER_MIN <=? previous then
           r <- fat16_write_fat_entry fs previous next_cluster ;;
           ret (if r <? 0 then None else Some next_cluster)
         else ret (Some next_cluster))
  end.

(** *** The root directory *)

Definition fat16_update_root_entry (file : fat16_file) : M (fat16 D) Z :=
  o <- block_read (dir_entry_lba file) ;;
  match o with
  | None => ret (-1)
  | Some sector =>
      sector <- fat16_write_le16 sector (dir_entry_offset file + 0x1A) (start_cluster file) ;;
      sector <- fat16_write_le32 sector (dir_entry_offset file + 0x1C) (fsize file) ;;
      ok <- block_write (dir_entry_lba file) sector ;;
      if (ok : bool) then ret 0 else ret (-1)
  end.

(** The two nested loops every directory function runs: [entry] is the body for
    the entry at [offset]; [err] is returned when a sector cannot be read. *)
Definition scan_root {R} (fs : fat16_fs) (err : R)
    (entry : Z -> list Z -> Z -> M (fat16 D) (unit + R)) : M (fat16 D) (unit + R) :=
  for_ (Z.to_nat (root_dir_sectors fs)) 0
    (fun sector_index (_ : unit) =>
       let lba := u32 (root_dir_start_lba fs + sector_index) in
       o <- block_read lba ;;
       match o with
       | None => ret (inr err)
       | Some sector =>
           for_ (Z.to_nat ((bytes_per_sector fs + 31) / FAT16_ENTRY_SIZE)) 0
             (fun j (_ : unit) => entry lba sector (j * FAT16_ENTRY_SIZE)) tt
       end) tt.

(** The tests on the attribute byte of an entry in use. *)
Definition is_long_name (attributes : Z) : bool :=
  Z.land attributes FAT16_ATTR_LONG_NAME =? FAT16_ATTR_LONG_NAME.

Definition fat16_find_root_entry (fs : fat16_fs) (target_name : list Z) : M (fat16 D) find_result :=
  r <- scan_root fs FindError
         (fun lba sector offset =>
            first_byte <- byte_at sector offset ;;
            if first_byte =? 0x00 then ret (inr FindNone)
            else if first_byte =? 0xE5 then ret (inl tt)
            else
              attributes <- byte_at sector (offset + 0x0B) ;;
              if is_long_name attributes then ret (inl tt)
              else if truthy (Z.land attributes FAT16_ATTR_VOLUME_ID) then ret (inl tt)
              else if truthy (Z.land attributes FAT16_ATTR_DIRECTORY) then ret (inl tt)
              else
                c <- fat16_memcmp sector offset target_name 0 FAT16_MAX_FILE_NAME ;;
                if c =? 0 then
                  cl <- fat16_read_le16 sector (offset + 0x1A) ;;
                  sz <- fat16_read_le32 sector (offset + 0x1C) ;;
                  ret (inr (Found cl sz lba offset))
                else ret (inl tt)) ;;
  match r with inr v => ret v | inl _ => ret FindNone end.

(** [None] is the return of -1. *)
Definition fat16_find_free_root_entry (fs : fat16_fs) : M (fat16 D) (option (Z * Z)) :=
  r <- scan_root fs None
         (fun lba sector offset =>
            first_byte <- byte_at sector offset ;;
            if (first_byte =? 0x00) || (first_byte =? 0xE5) then ret (inr (Some (lba, offset)))
            else ret (inl tt)) ;;
  match r with inr v => ret v | inl _ => ret None end.

Definition fat16_create_root_entry (normalized : list Z) (entry_lba entry_offset : Z) : M (fat16 D) Z :=
  o <- block_read entry_lba ;;
  match o with
  | None => ret (-1)
  | Some sector =>
      sector <- fat16_memcpy sector entry_offset normalized 0 FAT16_MAX_FILE_NAME ;;
      sector <- set_byte sector (entry_offset + 0x0B) 0x20 ;;
      sector <- set_byte sector (entry_offset + 0x0C) 0 ;;
      sector <- set_byte sector (entry_offset + 0x0D) 0 ;;
      sector <- fat16_write_le16 sector (entry_offset + 0x0E) 0 ;;
      sector <- fat16_write_le16 sector (entry_offset + 0x10) 0 ;;
      sector <- fat16_write_le16 sector (entry_offset + 0x12) 0 ;;
      sector <- fat16_write_le16 sector (entry_offset + 0x14) 0 ;;
      sector <- fat16_write_le16 sector (entry_offset + 0x16) 0 ;;
      sector <- fat16_write_le16 sector (entry_offset + 0x18) 0 ;;
      sector <- fat16_write_le16 sector (entry_offset + 0x1A) 0 ;;
      sector <- fat16_write_le32 sector (entry_offset + 0x1C) 0 ;;
      ok <- block_write entry_lba sector ;;
      if (ok : bool) then ret 0 else ret (-1)
  end.

Definition fat16_delete_root_entry (entry_lba entry_offset : Z) : M (fat16 D) Z :=
  o <- block_read entry_lba ;;
  match o with
  | None => ret (-1)
  | Some sector =>
      sector <- set_byte sector entry_offset 0xE5 ;;
      ok <- block_write entry_lba sector ;;
      if (ok : bool) then ret 0 else ret (-1)
  end.

(** [(fs != NULL) ? fs : fat16_current_fs] *)
Definition use_fs (fs : fs_ptr) : M (fat16 D) fs_ptr :=
  s <- get ;; ret (match fs with FsNull => fat16_current_fs s | _ => fs end).

(** The arguments every path operation checks: the file system and the name. *)
Definition with_name (fs : fs_ptr) (path : option (list Z)) : M (fat16 D) (option (fs_ptr * list Z)) :=
  use <- use_fs fs ;;
  match use, path with
  | FsNull, _ | _, None => ret None
  | _, Some _ =>
      ret (match fat16_normalize_short_name path with
           | Some normalized => Some (use, normalized)
           | None => None
           end)
  end.

Definition fat16_create (fs : fs_ptr) (path : option (list Z)) : M (fat16 D) Z :=
  o <- with_name fs path ;;
  match o with
  | None => ret (-1)
  | Some (use, normalized) =>
      f <- deref use ;;
      r <- fat16_find_root_entry f normalized ;;
      match r with
      | Found _ _ _ _ => ret (-1)
      | _ =>
          e <- fat16_find_free_root_entry f ;;
          match e with
          | None => ret (-1)
          | Some (lba, offset) => fat16_create_root_entry normalized lba offset
          end
      end
  end.

Definition fat16_delete (fs : fs_ptr) (path : option (list Z)) : M (fat16 D) Z :=
  o <- with_name fs path ;;
  match o with
  | None => ret (-1)
  | Some (use, normalized) =>
      f <- deref use ;;
      r <- fat16_find_root_entry f normalized ;;
      match r with
      | Found _ _ lba offset => fat16_delete_root_entry lba offset
      | _ => ret (-1)
      end
  end.

(** *** Listing *)

(** The characters of a name field that are no blanks. *)
Definition name_field (sector : list Z) (from : Z) (n : nat) : M (fat16 D) (list Z) :=
  r <- for_ n from
         (fun i (acc : list Z) =>
            ch <- byte_at sector i ;;
            ret (inl (if ch =? 32 then acc else acc ++ [ch]) : list Z + list Z)) [] ;;
  match r with inl l => ret l | inr l => ret l end.

(** A line of the listing: directory flag, name, size. *)
Definition listing := list (bool * list Z * Z).

(** One entry; [inr] is the [break] out of the loop over the sector. *)
Definition list_entry (sector : list Z) (offset : Z) (out : listing) : M (fat16 D) (listing + listing) :=
  first_byte <- byte_at sector offset ;;
  if first_byte =? 0x00 then ret (inr out)
  else if first_byte =? 0xE5 then ret (inl out)
  else
    attributes <- byte_at sector (offset + 0x0B) ;;
    if is_long_name attributes then ret (inl out)
    else if truthy (Z.land attributes FAT16_ATTR_VOLUME_ID) then ret (inl out)
    else
      base <- name_field sector offset 8 ;;
      e <- byte_at sector (offset + 8) ;;
      ext <- (if e =? 32 then ret [] else l <- name_field sector (offset + 8) 3 ;; ret (46 :: l)) ;;
      file_size <- fat16_read_le32 sector (offset + 0x1C) ;;
      ret (inl (out ++ [(truthy (Z.land attributes FAT16_ATTR_DIRECTORY), base ++ ext, file_size)])).

(** The lines printed, and the value returned.  [use_fs->root_dir_sectors] is
    read before the NULL check of the code, hence the trap on NULL. *)
Definition fat16_list_root (fs : fs_ptr) : M (fat16 D) (Z * listing) :=
  use <- use_fs fs ;;
  f <- deref use ;;
  r <- for_ (Z.to_nat (root_dir_sectors f)) 0
         (fun sector_index (out : listing) =>
            let lba := u32 (root_dir_start_lba f + sector_index) in
            o <- block_read lba ;;
            match o with
            | None => ret (inr out)
            | Some sector =>
                r <- for_ (Z.to_nat ((bytes_per_sector f + 31) / FAT16_ENTRY_SIZE)) 0
                       (fun j (out : listing) => list_entry sector (j * FAT16_ENTRY_SIZE) out) out ;;
                ret (inl (match r with inl l => l | inr l => l end))
            end) [] ;;
  match r with inl out => ret (0, out) | inr out => ret (-1, out) end.

(** *** Mounting *)

(** Everything after the NULL check. *)
Definition mount_volume (fs : fs_ptr) (volume : Z) : M (fat16 D) Z :=
  o <- block_read volume ;;
  match o with
  | None => ret (-1)
  | Some sector =>
      signature <- fat16_read_le16 sector 510 ;;
      if negb (signature =? FAT16_BOOT_SIGNATURE) then ret (-1)
      else
        bps <- fat16_read_le16 sector 0x0B ;;
        spc <- byte_at sector 0x0D ;;
        rsv <- fat16_read_le16 sector 0x0E ;;
        nf <- byte_at sector 0x10 ;;
        rec <- fat16_read_le16 sector 0x11 ;;
        t16 <- fat16_read_le16 sector 0x13 ;;
        spf <- fat16_read_le16 sector 0x16 ;;
        t32 <- fat16_read_le32 sector 0x20 ;;
        oem <- fat16_memcpy (replicate 9 0) 0 sector 3 FAT16_OEM_NAME_SIZE ;;
        modify (set_fs fs (mkFs volume bps spc rsv nf rec t16 t32 spf 0 0 0 0 0 0 oem signature)) ;;
        if (bps =? 0) || (spc =? 0) || (rsv =? 0) || (nf =? 0) || (rec =? 0) || (spf =? 0) then
          ret (-1)
        else
          let total := if negb (t16 =? 0) then t16 else t32 in
          modify (set_fs fs (mkFs volume bps spc rsv nf rec t16 t32 spf total 0 0 0 0 0 oem signature)) ;;
          if total =? 0 then ret (-1)
          else
            let root_sectors := u32 (u32 (rec * 32) + (bps - 1)) / bps in
            let fat_start := u32 (volume + rsv) in
            let root_start := u32 (fat_start + u32 (nf * spf)) in
            let data_start := u32 (root_start + root_sectors) in
            let data_sectors := u32 (total - u32 (rsv + u32 (nf * spf) + root_sectors)) in
            let f := mkFs volume bps spc rsv nf rec t16 t32 spf total root_sectors fat_start
                       root_start data_start (data_sectors / spc) oem signature in
            modify (set_fs fs f) ;;
            modify (set_mounted f) ;;
            ret 0
  end.

Definition fat16_mount (fs : fs_ptr) (volume : Z) : M (fat16 D) Z :=
  match fs with
  | FsNull => ret (-1)
  | _ => mount_volume fs volume
  end.

(** *** Open files *)

Definition get_file (index : Z) : M (fat16 D) fat16_file :=
  s <- get ;; some_or_trap (arr_get (fat16_files s) index).
Definition set_file (index : Z) (f : fat16_file) : M (fat16 D) unit :=
  s <- get ;;
  l <- some_or_trap (arr_set (fat16_files s) index f) ;;
  put (set_files l s).
Definition update_file (index : Z) (g : fat16_file -> fat16_file) : M (fat16 D) unit :=
  f <- get_file index ;; set_file index (g f).

Definition fat16_open (fs : fs_ptr) (path : option (list Z)) : M (fat16 D) Z :=
  o <- with_name fs path ;;
  match o with
  | None => ret (-1)
  | Some (use, normalized) =>
      f <- deref use ;;
      r <- fat16_find_root_entry f normalized ;;
      match r with
      | Found cl sz lba offset =>
          if (0 <? sz) && (cl <? FAT16_CLUSTER_MIN) then ret (-1)
          else
            r <- for_ (Z.to_nat FAT16_MAX_OPEN_FILES) 0
                   (fun index (_ : unit) =>
                      file <- get_file index ;;
                      if active file =? 0 then
                        set_file index (mkFile use cl cl sz 0 lba offset 0 1) ;;
                        ret (inr (index + FAT16_FD_BASE))
                      else ret (inl tt)) tt ;;
            match r with inr fd => ret fd | inl _ => ret (-1) end
      | _ => ret (-1)
      end
  end.

(** [&fat16_files[fd - FAT16_FD_BASE]] when the checks of the code let [fd] pass. *)
Definition file_of_fd (fd : Z) : M (fat16 D) (option Z) :=
  let index := fd - FAT16_FD_BASE in
  if (index <? 0) || (FAT16_MAX_OPEN_FILES <=? index) then ret None
  else
    file <- get_file index ;;
    match ffs file with
    | FsNull => ret None
    | _ => ret (if active file =? 0 then None else Some index)
    end.

Definition set_position (p : Z) (f : fat16_file) : fat16_file :=
  mkFile (ffs f) (start_cluster f) (current_cluster f) (fsize f) p
         (dir_entry_lba f) (dir_entry_offset f) (modified f) (active f).
Definition set_current (c : Z) (f : fat16_file) : fat16_file :=
  mkFile (ffs f) (start_cluster f) c (fsize f) (position f)
         (dir_entry_lba f) (dir_entry_offset f) (modified f) (active f).
Definition set_start (c : Z) (f : fat16_file) : fat16_file :=
  mkFile (ffs f) c (current_cluster f) (fsize f) (position f)
         (dir_entry_lba f) (dir_entry_offset f) (modified f) (active f).
Definition set_fsize (n : Z) (f : fat16_file) : fat16_file :=
  mkFile (ffs f) (start_cluster f) (current_cluster f) n (position f)
         (dir_entry_lba f) (dir_entry_offset f) (modified f) (active f).
Definition set_modified (f : fat16_file) : fat16_file :=
  mkFile (ffs f) (start_cluster f) (current_cluster f) (fsize f) (position f)
         (dir_entry_lba f) (dir_entry_offset f) 1 (active f).

(** Where the next byte of the file is: sector in the cluster, offset in the
    sector, sector address. *)
Definition locate (f : fat16_fs) (file : fat16_file) : Z * Z * Z :=
  let cluster_size := u32 (bytes_per_sector f * sectors_per_cluster f) in
  let cluster_offset := position file mod cluster_size in
  let sector_in_cluster := cluster_offset / bytes_per_sector f in
  let sector_offset := cluster_offset mod bytes_per_sector f in
  let lba := u32 (fat16_cluster_to_lba f (current_cluster file) + sector_in_cluster) in
  (sector_in_cluster, sector_offset, lba).

(** The test that the chunk just transferred ends its cluster. *)
Definition ends_cluster (f : fat16_fs) (sector_in_cluster sector_offset chunk : Z) : bool :=
  (sector_in_cluster =? sectors_per_cluster f - 1) &&
  (sector_offset + chunk =? bytes_per_sector f).

(** One round of the read loop: locals are [remaining] and the bytes copied to
    the caller's buffer; [inr] leaves the loop with the value to return. *)
Definition read_step (index : Z) (l : Z * list Z)
  : M (fat16 D) ((Z * list Z) + (Z * list Z)) :=
  let '(remaining, out) := l in
  if remaining <=? 0 then ret (inr (Z.of_nat (length out), out))
  else
    file <- get_file index ;;
    if current_cluster file <? FAT16_CLUSTER_MIN then ret (inr (Z.of_nat (length out), out))
    else
      f <- deref (ffs file) ;;
      let '(sector_in_cluster, sector_offset, lba) := locate f file in
      o <- block_read lba ;;
      match o with
      | None => ret (inr (-1, out))
      | Some sector =>
          let chunk := Z.min (bytes_per_sector f - sector_offset) remaining in
          data <- fat16_memcpy (replicate (Z.to_nat chunk) 0) 0 sector sector_offset (Z.to_nat chunk) ;;
          let out := out ++ data in
          let remaining := remaining - chunk in
          update_file index (fun fl => set_position (u32 (position fl + chunk)) fl) ;;
          file <- get_file index ;;
          if (position file <? fsize file) && ends_cluster f sector_in_cluster sector_offset chunk then
            next_cluster <- fat16_read_fat_entry f (current_cluster file) ;;
            if (next_cluster <? FAT16_CLUSTER_MIN) || fat16_is_eoc next_cluster then
              ret (inr (Z.of_nat (length out), out))
            else
              update_file index (set_current next_cluster) ;;
              ret (inl (remaining, out))
          else ret (inl (remaining, out))
      end.

(** The value returned and the bytes stored in the caller's buffer; [buffer]
    says whether it is non-NULL. *)
Definition fat16_read (fuel : nat) (fd : Z) (buffer : bool) (count : Z) : M (fat16 D) (Z * list Z) :=
  if negb buffer || (count =? 0) then ret (-1, [])
  else
    o <- file_of_fd fd ;;
    match o with
    | None => ret (-1, [])
    | Some index =>
        file <- get_file index ;;
        if fsize file <=? position file then ret (0, [])
        else
          let remaining := Z.min (u32 (fsize file - position file)) count in
          iter fuel (read_step index) (remaining, [])
    end.

(** The chunk's sector is read, patched and written back, unless the chunk is the
    whole sector. *)
Definition write_chunk (f : fat16_fs) (lba sector_offset chunk : Z) (buffer : list Z)
    (total_written : Z) : M (fat16 D) bool :=
  if negb (sector_offset =? 0) || (chunk <? bytes_per_sector f) then
    o <- block_read lba ;;
    match o with
    | None => ret false
    | Some sector =>
        sector <- fat16_memcpy sector sector_offset buffer total_written (Z.to_nat chunk) ;;
        block_write lba sector
    end
  else
    whole <- fat16_memcpy (replicate 512 0) 0 buffer total_written 512 ;;
    block_write lba whole.

(** The cluster after [current] in the chain, allocated when the chain ends. *)
Definition write_next_cluster (fuel : nat) (f : fat16_fs) (current : Z) : M (fat16 D) (option Z) :=
  next_cluster <- fat16_read_fat_entry f current ;;
  if (next_cluster <? FAT16_CLUSTER_MIN) || fat16_is_eoc next_cluster
  then fat16_allocate_cluster fuel f current
  else ret (Some next_cluster).

(** One round of the write loop: [remaining] and the number of bytes written. *)
Definition write_step (fuel : nat) (index : Z) (buffer : list Z) (l : Z * Z)
  : M (fat16 D) ((Z * Z) + Z) :=
  let '(remaining, total_written) := l in
  file <- get_file index ;;
  if current_cluster file <? FAT16_CLUSTER_MIN then ret (inr (-1))
  else
    f <- deref (ffs file) ;;
    let '(sector_in_cluster, sector_offset, lba) := locate f file in
    let chunk := Z.min (bytes_per_sector f - sector_offset) remaining in
    ok <- write_chunk f lba sector_offset chunk buffer total_written ;;
    if negb ok then ret (inr (-1))
    else
      let remaining := remaining - chunk in
      let total_written := total_written + chunk in
      update_file index (fun fl => set_position (u32 (position fl + chunk)) fl) ;;
      update_file index (fun fl => if fsize fl <? position fl then set_fsize (position fl) fl else fl) ;;
      if remaining =? 0 then
        update_file index set_modified ;;
        ret (inr total_written)
      else if ends_cluster f sector_in_cluster sector_offset chunk then
        file <- get_file index ;;
        next <- write_next_cluster fuel f (current_cluster file) ;;
        match next with
        | None => ret (inr (-1))
        | Some c =>
            update_file index (set_current c) ;;
            ret (inl (remaining, total_written))
        end
      else ret (inl (remaining, total_written)).

(** [buffer] is [None] for NULL. *)
Definition fat16_write (fuel : nat) (fd : Z) (buffer : option (list Z)) (count : Z) : M (fat16 D) Z :=
  match buffer with
  | None => ret (-1)
  | Some buf =>
      if count =? 0 then ret (-1)
      else
        o <- file_of_fd fd ;;
        match o with
        | None => ret (-1)
        | Some index =>
            update_file index (fun fl =>
              if (current_cluster fl <? FAT16_CLUSTER_MIN) && (FAT16_CLUSTER_MIN <=? start_cluster fl)
              then set_current (start_cluster fl) fl else fl) ;;
            file <- get_file index ;;
            ok <- (if (position file =? 0) && (start_cluster file <? FAT16_CLUSTER_MIN) then
                     f <- deref (ffs file) ;;
                     c <- fat16_allocate_cluster fuel f FAT16_CLUSTER_FREE ;;
                     match c with
                     | None => ret false
                     | Some c => update_file index (fun fl => set_current c (set_start c fl)) ;; ret true
                     end
                   else ret true) ;;
            if negb ok then ret (-1)
            else iter fuel (write_step fuel index buf) (count, 0)
        end
  end.

Definition fat16_close (fd : Z) : M (fat16 D) Z :=
  let index := fd - FAT16_FD_BASE in
  if (index <? 0) || (FAT16_MAX_OPEN_FILES <=? index) then ret (-1)
  else
    file <- get_file index ;;
    if active file =? 0 then ret (-1)
    else
      r <- (if truthy (modified file) then fat16_update_root_entry file else ret 0) ;;
      if r <? 0 then ret (-1)
      else set_file index empty_file ;; ret 0.
End fat16.
