(* ===== verification/Fat16Dir.v ===== *)
(** * FAT16: sectors, the allocation table and the root directory

    Specifications of the operations of [Fat16] on one sector, on the FAT and on
    the root directory.  A disk is read as a function from addresses to sectors
    ([holds]); [fat_get] and [fat_put] are the entries of the FAT in all its
    copies, [slot] and [put_slot] the 32-byte entries of the root directory. *)

From Stdlib Require Import Lia ZArith.
From stdpp Require Import base list gmap numbers option tactics.
From S2P Require Import Prelude PhysMem Io Fat16.

(** ** Buffers *)

(** [buf] with the bytes [l] stored from offset [o]. *)
Definition splice (buf : list Z) (o : Z) (l : list Z) : list Z :=
  take (Z.to_nat o) buf ++ l ++ drop (Z.to_nat o + length l) buf.

(** The [n] bytes from offset [o]. *)
Definition slice (buf : list Z) (o : Z) (n : nat) : list Z := take n (drop (Z.to_nat o) buf).

Lemma length_splice buf o l :
  0 <= o -> (Z.to_nat o + length l <= length buf)%nat -> length (splice buf o l) = length buf.
Proof. intros. unfold splice. rewrite !length_app, length_take, length_drop. lia. Qed.

Lemma splice_lookup buf o l i :
  0 <= o -> (Z.to_nat o + length l <= length buf)%nat ->
  splice buf o l !! i =
  if decide (Z.to_nat o <= i < Z.to_nat o + length l)%nat then l !! (i - Z.to_nat o)%nat
  else buf !! i.
Proof.
  intros Ho Hl. unfold splice. case_decide as Hd.
  - rewrite lookup_app_r by (rewrite length_take; lia).
    rewrite length_take, lookup_app_l by lia. f_equal. lia.
  - destruct (decide (i < Z.to_nat o)%nat).
    + rewrite lookup_app_l by (rewrite length_take; lia). by apply lookup_take_lt.
    + rewrite lookup_app_r by (rewrite length_take; lia).
      rewrite length_take, lookup_app_r by lia. rewrite lookup_drop. f_equal. lia.
Qed.

Lemma splice_bytes buf o l : Forall is_byte buf -> Forall is_byte l -> Forall is_byte (splice buf o l).
Proof.
  intros Hb Hl. unfold splice. rewrite !list.Forall_app. split_and!; [by apply Forall_take|done|].
  by apply Forall_drop.
Qed.

Lemma splice_sector buf o l :
  is_sector buf -> 0 <= o -> (Z.to_nat o + length l <= 512)%nat -> Forall is_byte l ->
  is_sector (splice buf o l).
Proof.
  intros [Hl Hb] Ho Hlen Hf. split; [by rewrite length_splice by lia|by apply splice_bytes].
Qed.

Lemma splice_app buf o l1 l2 :
  0 <= o -> (Z.to_nat o + length l1 + length l2 <= length buf)%nat ->
  splice (splice buf o l1) (o + Z.of_nat (length l1)) l2 = splice buf o (l1 ++ l2).
Proof.
  intros Ho Hl. apply list_eq. intros i.
  rewrite splice_lookup by (rewrite ?length_splice; lia).
  rewrite !splice_lookup by (rewrite ?length_app; lia).
  rewrite length_app. repeat case_decide; try lia.
  - rewrite lookup_app_r by lia. f_equal. lia.
  - rewrite lookup_app_l by lia. done.
  - done.
Qed.

Lemma slice_splice buf o l :
  0 <= o -> (Z.to_nat o + length l <= length buf)%nat ->
  slice (splice buf o l) o (length l) = l.
Proof.
  intros Ho Hl. apply list_eq. intros i. unfold slice.
  destruct (decide (i < length l)%nat).
  - rewrite lookup_take_lt, lookup_drop, splice_lookup, decide_True by lia. f_equal. lia.
  - rewrite lookup_take_ge, lookup_ge_None_2 by lia. done.
Qed.

Lemma slice_splice_out buf o l o' n :
  0 <= o -> (Z.to_nat o + length l <= length buf)%nat -> 0 <= o' ->
  o' + Z.of_nat n <= o \/ o + Z.of_nat (length l) <= o' ->
  slice (splice buf o l) o' n = slice buf o' n.
Proof.
  intros Ho Hl Ho' Hd. apply list_eq. intros i. unfold slice.
  destruct (decide (i < n)%nat).
  - rewrite !lookup_take_lt, !lookup_drop, splice_lookup, decide_False by lia. done.
  - by rewrite !lookup_take_ge by lia.
Qed.

Lemma slice_lookup buf o n i : (i < n)%nat -> slice buf o n !! i = buf !! (Z.to_nat o + i)%nat.
Proof. intros. unfold slice. by rewrite lookup_take_lt, lookup_drop. Qed.

Lemma slice_bytes buf o n : Forall is_byte buf -> Forall is_byte (slice buf o n).
Proof. intros. by apply Forall_take, Forall_drop. Qed.

Lemma length_slice buf o n :
  (Z.to_nat o + n <= length buf)%nat -> length (slice buf o n) = n.
Proof. intros. unfold slice. rewrite length_take, length_drop. lia. Qed.

Lemma lor_shiftl_add a b n :
  0 <= n -> 0 <= a < 2 ^ n -> Z.lor a (Z.shiftl b n) = a + b * 2 ^ n.
Proof.
  intros Hn Ha. rewrite Z.shiftl_mul_pow2 by done.
  assert (Z.land a (b * 2 ^ n) = 0) as Hz.
  { apply Z.bits_inj'. intros k Hk. rewrite Z.land_spec, Z.bits_0. destruct (Z.ltb_spec k n).
    - by rewrite Z.mul_pow2_bits_low, andb_false_r by lia.
    - rewrite <- (Z.mod_small a (2 ^ n)) by lia. by rewrite Z.mod_pow2_bits_high by lia. }
  by rewrite Z.add_nocarry_lxor, Z.lxor_lor.
Qed.

Section buffers.
Context {S : Type}.
Implicit Types s : S.

Lemma wp_byte_at s buf o b (Q : Z -> S -> Prop) :
  0 <= o -> buf !! Z.to_nat o = Some b -> Q b s -> wp (byte_at buf o) Q s.
Proof.
  intros Ho Hb HQ. eapply wp_some_or_trap; [|exact HQ]. unfold arr_get.
  by rewrite (proj2 (Z.leb_le _ _)).
Qed.

Lemma wp_set_byte s buf o v (Q : list Z -> S -> Prop) :
  0 <= o -> (Z.to_nat o < length buf)%nat -> Q (splice buf o [u8 v]) s -> wp (set_byte buf o v) Q s.
Proof.
  intros Ho Hl HQ. eapply wp_some_or_trap; [apply arr_set_Some; lia|].
  assert (<[Z.to_nat o:=u8 v]> buf = splice buf o [u8 v]) as ->; [|done].
  apply list_eq. intros i. rewrite splice_lookup by (cbn [length]; lia). cbn [length].
  destruct (decide (i = Z.to_nat o)) as [->|].
  - rewrite list_lookup_insert_eq, decide_True by lia. by rewrite Nat.sub_diag.
  - rewrite list_lookup_insert_ne, decide_False by lia. done.
Qed.

(** Storing one more byte after [l]. *)
Lemma wp_set_next s buf o l k v (Q : list Z -> S -> Prop) :
  0 <= o -> k = o + Z.of_nat (length l) -> (Z.to_nat o + length l < length buf)%nat ->
  Q (splice buf o (l ++ [u8 v])) s -> wp (set_byte (splice buf o l) k v) Q s.
Proof.
  intros Ho -> Hl HQ. apply wp_set_byte; [lia|rewrite length_splice by lia; lia|].
  rewrite splice_app by (cbn [length]; lia). exact HQ.
Qed.

Lemma splice_nil buf o : (Z.to_nat o <= length buf)%nat -> splice buf o [] = buf.
Proof. intros. unfold splice. cbn [length app]. by rewrite Nat.add_0_r, take_drop. Qed.

Lemma wp_write_le16_next s buf o l k v (Q : list Z -> S -> Prop) :
  0 <= o -> k = o + Z.of_nat (length l) -> (Z.to_nat o + length l + 2 <= length buf)%nat ->
  Q (splice buf o (l ++ le_bytes 2 v)) s -> wp (fat16_write_le16 (splice buf o l) k v) Q s.
Proof.
  intros Ho -> Hl HQ. unfold fat16_write_le16. apply wp_bind, wp_set_next; [done|done|lia|].
  apply wp_set_next; [done|rewrite length_app; cbn [length]; lia|rewrite length_app; cbn [length]; lia|].
  rewrite <- app_assoc. change 0xFF with (Z.ones 8). rewrite !Z.land_ones by lia.
  rewrite Z.shiftr_div_pow2 by lia. unfold u8. change (2 ^ 8) with 256.
  rewrite !Z.mod_mod by lia. exact HQ.
Qed.

Lemma wp_write_le32_next s buf o l k v (Q : list Z -> S -> Prop) :
  0 <= o -> k = o + Z.of_nat (length l) -> (Z.to_nat o + length l + 4 <= length buf)%nat ->
  Q (splice buf o (l ++ le_bytes 4 v)) s -> wp (fat16_write_le32 (splice buf o l) k v) Q s.
Proof.
  intros Ho -> Hl HQ. unfold fat16_write_le32.
  do 3 (apply wp_bind, wp_set_next; [done|rewrite ?length_app; cbn [length]; lia
    |rewrite ?length_app; cbn [length]; lia|]).
  apply wp_set_next; [done|rewrite !length_app; cbn [length]; lia|rewrite !length_app; cbn [length]; lia|].
  rewrite <- !app_assoc. change 0xFF with (Z.ones 8). rewrite !Z.land_ones by lia.
  rewrite !Z.shiftr_div_pow2 by lia. unfold u8. change (2 ^ 8) with 256.
  change (2 ^ 16) with (256 * 256). change (2 ^ 24) with (256 * 256 * 256).
  rewrite <- !Z.div_div, !Z.mod_mod by lia. exact HQ.
Qed.

Lemma wp_write_le16 s buf o v (Q : list Z -> S -> Prop) :
  0 <= o -> (Z.to_nat o + 2 <= length buf)%nat ->
  Q (splice buf o (le_bytes 2 v)) s -> wp (fat16_write_le16 buf o v) Q s.
Proof.
  intros Ho Hl HQ. rewrite <- (splice_nil buf o) by lia.
  apply wp_write_le16_next; [done|cbn [length]; lia|cbn [length]; lia|exact HQ].
Qed.

Lemma byte_lookup (buf : list Z) i : (i < length buf)%nat -> exists b, buf !! i = Some b.
Proof. intros. by apply lookup_lt_is_Some_2. Qed.

Lemma slice_cons buf o b n :
  0 <= o -> buf !! Z.to_nat o = Some b -> slice buf o (Datatypes.S n) = b :: slice buf (o + 1) n.
Proof.
  intros Ho Hb. unfold slice. rewrite (drop_S _ _ _ Hb). cbn [take].
  by replace (Z.to_nat (o + 1)) with (Datatypes.S (Z.to_nat o)) by lia.
Qed.

Lemma slice_0 buf o : slice buf o 0 = [].
Proof. done. Qed.

Lemma wp_read_le16 s buf o (Q : Z -> S -> Prop) :
  0 <= o -> (Z.to_nat o + 2 <= length buf)%nat -> Forall is_byte buf ->
  Q (le_value (slice buf o 2)) s -> wp (fat16_read_le16 buf o) Q s.
Proof.
  intros Ho Hl Hb HQ. unfold fat16_read_le16.
  destruct (byte_lookup buf (Z.to_nat o)) as [b0 H0]; [lia|].
  destruct (byte_lookup buf (Z.to_nat (o + 1))) as [b1 H1]; [lia|].
  apply wp_bind. eapply wp_byte_at; [done|exact H0|].
  apply wp_bind. eapply wp_byte_at; [lia|exact H1|]. apply wp_ret.
  rewrite (slice_cons _ _ b0), (slice_cons _ _ b1) in HQ by (done || lia).
  rewrite Forall_lookup in Hb. pose proof (Hb _ _ H0) as R0. pose proof (Hb _ _ H1) as R1.
  rewrite slice_0 in HQ. cbn [le_value] in HQ. rewrite !u8_small in HQ by done.
  rewrite lor_shiftl_add by (lia || exact R0). change (2 ^ 8) with 256.
  by replace (b0 + 256 * (b1 + 256 * 0)) with (b0 + b1 * 256) in HQ by lia.
Qed.

Lemma wp_read_le32 s buf o (Q : Z -> S -> Prop) :
  0 <= o -> (Z.to_nat o + 4 <= length buf)%nat -> Forall is_byte buf ->
  Q (le_value (slice buf o 4)) s -> wp (fat16_read_le32 buf o) Q s.
Proof.
  intros Ho Hl Hb HQ. unfold fat16_read_le32.
  destruct (byte_lookup buf (Z.to_nat o)) as [b0 H0]; [lia|].
  destruct (byte_lookup buf (Z.to_nat (o + 1))) as [b1 H1]; [lia|].
  destruct (byte_lookup buf (Z.to_nat (o + 2))) as [b2 H2]; [lia|].
  destruct (byte_lookup buf (Z.to_nat (o + 3))) as [b3 H3]; [lia|].
  apply wp_bind. eapply wp_byte_at; [done|exact H0|].
  apply wp_bind. eapply wp_byte_at; [lia|exact H1|].
  apply wp_bind. eapply wp_byte_at; [lia|exact H2|].
  apply wp_bind. eapply wp_byte_at; [lia|exact H3|]. apply wp_ret.
  replace (o + 2) with (o + 1 + 1) in H2 by lia.
  replace (o + 3) with (o + 1 + 1 + 1) in H3 by lia.
  rewrite (slice_cons _ _ b0), (slice_cons _ _ b1), (slice_cons _ _ b2), (slice_cons _ _ b3)
    in HQ by (done || lia).
  rewrite Forall_lookup in Hb. pose proof (Hb _ _ H0) as R0. pose proof (Hb _ _ H1) as R1.
  pose proof (Hb _ _ H2) as R2. pose proof (Hb _ _ H3) as R3. unfold is_byte in *.
  rewrite slice_0 in HQ. cbn [le_value] in HQ. rewrite !u8_small in HQ by done.
  rewrite (lor_shiftl_add b0 b1 8) by (lia || exact R0). change (2 ^ 8) with 256.
  rewrite (lor_shiftl_add _ b2 16) by (change (2 ^ 16) with 65536; lia). change (2 ^ 16) with 65536.
  rewrite (lor_shiftl_add _ b3 24) by (change (2 ^ 24) with 16777216; lia). change (2 ^ 24) with 16777216.
  by replace (b0 + 256 * (b1 + 256 * (b2 + 256 * (b3 + 256 * 0))))
    with (b0 + b1 * 256 + b2 * 65536 + b3 * 16777216) in HQ by lia.
Qed.

Lemma wp_memcpy s dest d src so n (Q : list Z -> S -> Prop) :
  0 <= d -> 0 <= so -> (Z.to_nat d + n <= length dest)%nat -> (Z.to_nat so + n <= length src)%nat ->
  Forall is_byte src ->
  Q (splice dest d (slice src so n)) s -> wp (fat16_memcpy dest d src so n) Q s.
Proof.
  intros Hd Hs Hld Hls Hb. rewrite <- (splice_nil dest d) at 2 by lia.
  assert (forall n l so', 0 <= so' -> (Z.to_nat d + length l + n <= length dest)%nat ->
    (Z.to_nat so' + n <= length src)%nat ->
    Q (splice dest d (l ++ slice src so' n)) s ->
    wp (fat16_memcpy (splice dest d l) (d + Z.of_nat (length l)) src so' n) Q s) as H.
  { clear -Hd Hb. intros n. induction n as [|n IH]; intros l so' Hs Hl1 Hl2 HQ; cbn [fat16_memcpy].
    - apply wp_ret. unfold slice in HQ. by rewrite app_nil_r in HQ.
    - destruct (byte_lookup src (Z.to_nat so')) as [b Hb1]; [lia|].
      apply wp_bind. eapply wp_byte_at; [done|exact Hb1|].
      apply wp_bind, wp_set_next; [done|done|lia|].
      rewrite Forall_lookup in Hb. rewrite u8_small by by eapply Hb.
      replace (d + Z.of_nat (length l) + 1) with (d + Z.of_nat (length (l ++ [b])))
        by (rewrite length_app; cbn [length]; lia).
      apply IH; [lia|rewrite length_app; cbn [length]; lia|lia|].
      rewrite <- app_assoc. cbn [app]. by rewrite <- slice_cons. }
  intros HQ. pose proof (H n [] so Hs) as H'. cbn [length app] in H'. rewrite Z.add_0_r in H'.
  apply H'; [lia|lia|exact HQ].
Qed.

Lemma wp_memcmp s a ao b bo n (Q : Z -> S -> Prop) :
  0 <= ao -> 0 <= bo -> (Z.to_nat ao + n <= length a)%nat -> (Z.to_nat bo + n <= length b)%nat ->
  (forall c, (c =? 0) = bool_decide (slice a ao n = slice b bo n) -> Q c s) ->
  wp (fat16_memcmp a ao b bo n) Q s.
Proof.
  revert ao bo. induction n as [|n IH]; intros ao bo Ha Hb Hla Hlb HQ; cbn [fat16_memcmp].
  - by apply wp_ret, HQ.
  - destruct (byte_lookup a (Z.to_nat ao)) as [x Hx]; [lia|].
    destruct (byte_lookup b (Z.to_nat bo)) as [y Hy]; [lia|].
    apply wp_bind. eapply wp_byte_at; [done|exact Hx|].
    apply wp_bind. eapply wp_byte_at; [done|exact Hy|].
    rewrite (slice_cons _ _ x), (slice_cons _ _ y) in HQ by done.
    destruct (Z.eqb_spec x y) as [->|Hne].
    + apply IH; [lia..|]. intros c Hc. apply HQ. rewrite Hc. apply bool_decide_ext.
      split; congruence.
    + apply wp_ret, HQ. rewrite (proj2 (Z.eqb_neq _ _)) by lia. symmetry.
      apply bool_decide_eq_false. congruence.
Qed.
End buffers.

(** ** Disks as functions from addresses to sectors *)

Definition upd (dat : Z -> list Z) (a : Z) (l : list Z) : Z -> list Z :=
  fun b => if decide (b = a) then l else dat b.

Section disks.
Context {D : Type} `{!BlockDevice D}.
Implicit Types s : fat16 D.
Implicit Types dat : Z -> list Z.

(** The state [s] is [s0] but for the disk, which holds [dat]. *)
Record holds (s0 : fat16 D) (dat : Z -> list Z) (s : fat16 D) : Prop := {
  ho_ok : bd_ok (disk s);
  ho_data : forall a, 0 <= a < bd_sectors -> bd_data (disk s) a = dat a;
  ho_rest : s = set_disk (disk s) s0;
}.

Lemma holds_refl s : bd_ok (disk s) -> holds s (bd_data (disk s)) s.
Proof. intros H. split; [done|done|by destruct s]. Qed.

Lemma holds_ext s0 dat dat' s :
  holds s0 dat s -> (forall a, 0 <= a < bd_sectors -> dat' a = dat a) -> holds s0 dat' s.
Proof. intros [Ho Hd Hr] H. split; [done|intros a Ha; by rewrite H, Hd|done]. Qed.

Lemma holds_sector s0 dat s a : holds s0 dat s -> 0 <= a < bd_sectors -> is_sector (dat a).
Proof. intros [Ho Hd _] Ha. rewrite <- Hd by done. by apply bd_sector. Qed.

Lemma holds_files s0 dat s : holds s0 dat s -> fat16_files s = fat16_files s0.
Proof. intros [_ _ ->]. done. Qed.

Lemma wp_block_read s0 dat s lba (Q : option (list Z) -> fat16 D -> Prop) :
  holds s0 dat s -> 0 <= lba < bd_sectors ->
  (forall s', holds s0 dat s' -> Q (Some (dat lba)) s') -> wp (block_read lba) Q s.
Proof.
  intros [Ho Hd Hr] Hl HQ. unfold block_read. apply wp_zoom.
  eapply wp_mono; [by apply bd_read_spec|]. intros r d (-> & Hok & Hsame). rewrite Hd by done.
  apply HQ. split; cbn [set_disk disk]; [done| |by rewrite Hr].
  intros a Ha. by rewrite Hsame, Hd.
Qed.

Lemma wp_block_write s0 dat s lba l (Q : bool -> fat16 D -> Prop) :
  holds s0 dat s -> 0 <= lba < bd_sectors -> is_sector l ->
  (forall s', holds s0 (upd dat lba l) s' -> Q true s') -> wp (block_write lba l) Q s.
Proof.
  intros [Ho Hd Hr] Hl Hs HQ. unfold block_write. apply wp_zoom.
  eapply wp_mono; [by apply bd_write_spec|]. intros r d (-> & Hok & Hsame).
  apply HQ. split; cbn [set_disk disk]; [done| |by rewrite Hr].
  intros a Ha. rewrite Hsame by done. unfold upd. case_decide; [done|by apply Hd].
Qed.

(** ** Volumes the code handles

    512-byte sectors; boot area, FATs, root directory and data area follow each
    other and end on the disk; the FAT has an entry for every cluster. *)
Record fs_ok (f : fat16_fs) : Prop := {
  fo_bps : bytes_per_sector f = 512;
  fo_spc : 1 <= sectors_per_cluster f < 256;
  fo_fats : 1 <= num_fats f < 256;
  fo_spf : 1 <= sectors_per_fat f < 65536;
  fo_start : 0 <= fat_start_lba f;
  fo_root : root_dir_start_lba f = fat_start_lba f + num_fats f * sectors_per_fat f;
  fo_rsec : 0 <= root_dir_sectors f;
  fo_data : data_start_lba f = root_dir_start_lba f + root_dir_sectors f;
  fo_end : data_start_lba f + cluster_count f * sectors_per_cluster f <= bd_sectors;
  fo_limit : bd_sectors <= 4294967296;
  fo_clusters : 0 <= cluster_count f /\ (cluster_count f + 2) * 2 <= sectors_per_fat f * 512;
  fo_small : cluster_count f + 2 <= FAT16_CLUSTER_BAD;
}.

Definition cluster_ok (f : fat16_fs) (c : Z) : Prop := 2 <= c < cluster_count f + 2.

(** ** The file allocation table *)

(** The entry of cluster [c] in copy [i] of the FAT. *)
Definition fat_get (dat : Z -> list Z) (f : fat16_fs) (i c : Z) : Z :=
  le_value (slice (dat (fat_start_lba f + i * sectors_per_fat f + 2 * c / 512)) ((2 * c) mod 512) 2).

(** [dat] with the entry of [c] set to [v] in the first [n] copies. *)
Definition fat_put_n (n : Z) (dat : Z -> list Z) (f : fat16_fs) (c v : Z) : Z -> list Z := fun a =>
  let q := a - fat_start_lba f - 2 * c / 512 in
  if decide (0 <= q /\ q mod sectors_per_fat f = 0 /\ q / sectors_per_fat f < n)
  then splice (dat a) ((2 * c) mod 512) (le_bytes 2 v) else dat a.
Definition fat_put dat f c v : Z -> list Z := fat_put_n (num_fats f) dat f c v.

Lemma fat_sector_range f i c :
  fs_ok f -> 0 <= i < num_fats f -> 0 <= c < cluster_count f + 2 ->
  0 <= 2 * c / 512 < sectors_per_fat f /\
  fat_start_lba f <= fat_start_lba f + i * sectors_per_fat f + 2 * c / 512 < root_dir_start_lba f /\
  root_dir_start_lba f <= bd_sectors.
Proof.
  intros [] Hi Hc.
  assert (0 <= 2 * c / 512 < sectors_per_fat f) as Hq.
  { split; [apply Z.div_pos; lia|]. apply Z.div_lt_upper_bound; lia. }
  split; [done|]. nia.
Qed.

Lemma fat_offset_range c : 0 <= (2 * c) mod 512 <= 510.
Proof.
  pose proof (Z.mod_pos_bound (2 * c) 512 ltac:(lia)).
  pose proof (Z.div_mod (2 * c) 512 ltac:(lia)). lia.
Qed.

Lemma wp_read_fat_entry s0 dat s f c (Q : Z -> fat16 D -> Prop) :
  holds s0 dat s -> fs_ok f -> 0 <= c < cluster_count f + 2 ->
  (forall s', holds s0 dat s' -> Q (fat_get dat f 0 c) s') -> wp (fat16_read_fat_entry f c) Q s.
Proof.
  intros Hs Hf Hc HQ. pose proof (fat_sector_range f 0 c Hf ltac:(destruct Hf; lia) Hc) as (Hq & Hr & Hb).
  pose proof (fat_offset_range c) as Ho. unfold fat16_read_fat_entry. cbv zeta.
  rewrite (fo_bps _ Hf). pose proof (fo_limit _ Hf). pose proof (fo_small _ Hf).
  unfold FAT16_CLUSTER_BAD in *. pose proof (fo_start _ Hf).
  rewrite (u32_small (c * 2)), (Z.mul_comm c 2), u32_small by lia.
  apply wp_bind. eapply wp_block_read; [done|lia|]. intros s1 Hs1.
  pose proof (holds_sector _ _ _ (fat_start_lba f + 2 * c / 512) Hs ltac:(lia)) as [Hl Hby].
  apply wp_read_le16; [lia|lia|done|]. unfold fat_get in HQ. rewrite Z.mul_0_l, Z.add_0_r in HQ.
  by apply HQ.
Qed.

Lemma fat_put_step dat f c v i a :
  fs_ok f -> 0 <= i -> 0 <= c < cluster_count f + 2 ->
  upd (fat_put_n i dat f c v) (fat_start_lba f + i * sectors_per_fat f + 2 * c / 512)
    (splice (dat (fat_start_lba f + i * sectors_per_fat f + 2 * c / 512))
            ((2 * c) mod 512) (le_bytes 2 v)) a =
  fat_put_n (i + 1) dat f c v a.
Proof.
  intros Hf Hi Hc. unfold upd, fat_put_n. cbv zeta. set (p := 2 * c / 512) in *.
  pose proof (fo_spf _ Hf) as Hspf. set (spf := sectors_per_fat f) in *.
  case_decide as Ha.
  - rewrite decide_True; [by rewrite Ha|].
    replace (a - fat_start_lba f - p) with (i * spf) by lia.
    rewrite Z.mod_mul, Z.div_mul by lia. lia.
  - destruct (decide (0 <= a - fat_start_lba f - p /\ (a - fat_start_lba f - p) mod spf = 0 /\
      (a - fat_start_lba f - p) / spf < i)) as [(H1 & H2 & H3)|Hd].
    + rewrite decide_True by lia. done.
    + rewrite decide_False; [done|]. intros (H1 & H2 & H3). apply Hd. split_and!; [done|done|].
      assert ((a - fat_start_lba f - p) / spf <> i); [|lia]. intros E.
      pose proof (Z.div_mod (a - fat_start_lba f - p) spf ltac:(lia)). nia.
Qed.

Lemma fat_put_0 dat f c v a : fs_ok f -> fat_put_n 0 dat f c v a = dat a.
Proof.
  intros Hf. unfold fat_put_n. cbv zeta. rewrite decide_False; [done|]. intros (H1 & _ & H2).
  pose proof (fo_spf _ Hf).
  pose proof (Z.div_pos (a - fat_start_lba f - 2 * c / 512) (sectors_per_fat f)). lia.
Qed.

Lemma fat_put_same dat f c v i :
  fs_ok f -> 0 <= i -> fat_put_n i dat f c v (fat_start_lba f + i * sectors_per_fat f + 2 * c / 512) =
  dat (fat_start_lba f + i * sectors_per_fat f + 2 * c / 512).
Proof.
  intros Hf Hi. unfold fat_put_n. cbv zeta. pose proof (fo_spf _ Hf).
  replace (_ - fat_start_lba f - 2 * c / 512) with (i * sectors_per_fat f) by lia.
  rewrite Z.div_mul, decide_False by lia. done.
Qed.

Lemma wp_write_fat_entry s0 dat s f c v (Q : Z -> fat16 D -> Prop) :
  holds s0 dat s -> fs_ok f -> 0 <= c < cluster_count f + 2 ->
  (forall s', holds s0 (fat_put dat f c v) s' -> Q 0 s') -> wp (fat16_write_fat_entry f c v) Q s.
Proof.
  intros Hs Hf Hc HQ. pose proof (fat_offset_range c) as Ho.
  pose proof (fo_limit _ Hf). pose proof (fo_small _ Hf). pose proof (fo_fats _ Hf).
  unfold FAT16_CLUSTER_BAD in *. pose proof (fo_start _ Hf).
  unfold fat16_write_fat_entry. cbv zeta. rewrite (fo_bps _ Hf).
  rewrite (u32_small (c * 2)), (Z.mul_comm c 2) by lia.
  apply wp_bind. apply (wp_for (fun i _ s' => holds s0 (fat_put_n i dat f c v) s')).
  - eapply holds_ext; [exact Hs|]. intros a Ha. by apply fat_put_0.
  - intros i [] s1 Hi Hs1.
    destruct (fat_sector_range f i c Hf ltac:(lia) Hc) as (Hq & Hr & Hb).
    rewrite u32_small by lia.
    replace (fat_start_lba f + 2 * c / 512 + i * sectors_per_fat f)
      with (fat_start_lba f + i * sectors_per_fat f + 2 * c / 512) by lia.
    set (lba := fat_start_lba f + i * sectors_per_fat f + 2 * c / 512) in *.
    apply wp_bind. eapply wp_block_read; [exact Hs1|lia|]. intros s2 Hs2.
    assert (fat_put_n i dat f c v lba = dat lba) as -> by (apply fat_put_same; [done|lia]).
    pose proof (holds_sector _ _ _ lba Hs ltac:(lia)) as Hsec.
    apply wp_bind, wp_write_le16; [lia|rewrite (proj1 Hsec); lia|].
    apply wp_bind. eapply wp_block_write; [exact Hs2|lia| |].
    { apply splice_sector; [done|lia|rewrite length_le_bytes; lia|apply le_bytes_range]. }
    intros s3 Hs3. apply wp_ret. eapply holds_ext; [exact Hs3|].
    intros a _. symmetry. apply fat_put_step; [done|lia|done].
  - intros [] s1 Hs1. apply wp_ret, HQ. unfold fat_put.
    replace (num_fats f) with (0 + Z.of_nat (Z.to_nat (num_fats f))) by lia. done.
Qed.

Lemma fat_get_put dat f i c c' v :
  fs_ok f -> (forall a, 0 <= a < bd_sectors -> is_sector (dat a)) ->
  0 <= i < num_fats f -> 0 <= c < cluster_count f + 2 -> 0 <= c' < cluster_count f + 2 ->
  fat_get (fat_put dat f c v) f i c' = if decide (c' = c) then u16 v else fat_get dat f i c'.
Proof.
  intros Hf Hdat Hi Hc Hc'. unfold fat_get.
  destruct (fat_sector_range f i c' Hf Hi Hc') as (Hq' & Hr' & Hb).
  destruct (fat_sector_range f i c Hf Hi Hc) as (Hq & Hr & _).
  pose proof (fat_offset_range c) as Ho. pose proof (fat_offset_range c') as Ho'.
  pose proof (fo_start _ Hf). pose proof (fo_spf _ Hf).
  set (lba := fat_start_lba f + i * sectors_per_fat f + 2 * c' / 512) in *.
  pose proof (Hdat lba ltac:(lia)) as Hsec. unfold fat_put, fat_put_n. cbv zeta.
  destruct (decide (2 * c' / 512 = 2 * c / 512)) as [E|E].
  - rewrite decide_True.
    2: { unfold lba. rewrite E.
         replace (_ - fat_start_lba f - 2 * c / 512) with (i * sectors_per_fat f) by lia.
         rewrite Z.mod_mul, Z.div_mul by lia. lia. }
    pose proof (Z.div_mod (2 * c) 512 ltac:(lia)). pose proof (Z.div_mod (2 * c') 512 ltac:(lia)).
    destruct (decide (c' = c)) as [->|Hne].
    + change 2%nat with (length (le_bytes 2 v)) at 2.
      rewrite slice_splice by (rewrite ?length_le_bytes, ?(proj1 Hsec); lia).
      rewrite le_value_bytes. done.
    + rewrite slice_splice_out by (rewrite ?length_le_bytes, ?(proj1 Hsec); lia). done.
  - rewrite (decide_False (P := c' = c)) by congruence. rewrite decide_False; [done|].
    intros (H1 & H2 & H3).
    replace (lba - fat_start_lba f - 2 * c / 512)
      with (2 * c' / 512 - 2 * c / 512 + i * sectors_per_fat f) in H2 by (unfold lba; lia).
    rewrite Z.mod_add in H2 by lia.
    apply Z.mod_divide in H2 as [k Hk]; [|lia].
    assert (k = 0) by nia. lia.
Qed.

Lemma fat_put_other dat f c v a :
  fs_ok f -> 0 <= c < cluster_count f + 2 ->
  a < fat_start_lba f \/ root_dir_start_lba f <= a -> fat_put dat f c v a = dat a.
Proof.
  intros Hf Hc Ha. unfold fat_put, fat_put_n. cbv zeta.
  destruct (fat_sector_range f 0 c Hf ltac:(destruct Hf; lia) Hc) as (Hq & _ & _).
  rewrite decide_False; [done|]. intros (H1 & H2 & H3). destruct Ha as [Ha|Ha]; [lia|].
  rewrite (fo_root _ Hf) in Ha. pose proof (fo_spf _ Hf).
  pose proof (Z.div_mod (a - fat_start_lba f - 2 * c / 512) (sectors_per_fat f) ltac:(lia)). nia.
Qed.

Lemma fat_put_sector dat f c v a :
  is_sector (dat a) -> is_sector (fat_put dat f c v a).
Proof.
  intros Hs. unfold fat_put, fat_put_n. cbv zeta. case_decide; [|done].
  pose proof (fat_offset_range c).
  apply splice_sector; [done|lia|rewrite length_le_bytes; lia|apply le_bytes_range].
Qed.

(** The lowest free cluster. *)
Definition lowest_free dat f c : Prop :=
  cluster_ok f c /\ fat_get dat f 0 c = 0 /\
  forall c', 2 <= c' < c -> fat_get dat f 0 c' <> 0.

Definition no_free dat f : Prop := forall c, cluster_ok f c -> fat_get dat f 0 c <> 0.

Lemma wp_find_free_cluster s0 dat s f fuel (Q : option Z -> fat16 D -> Prop) :
  holds s0 dat s -> fs_ok f -> cluster_count f < Z.of_nat fuel ->
  (forall s', holds s0 dat s' -> no_free dat f -> Q None s') ->
  (forall s' c, holds s0 dat s' -> lowest_free dat f c -> Q (Some c) s') ->
  wp (fat16_find_free_cluster fuel f) Q s.
Proof.
  intros Hs Hf Hfuel HN HS. pose proof (fo_clusters _ Hf) as [Hcc _].
  pose proof (fo_small _ Hf) as Hsm. unfold FAT16_CLUSTER_BAD in Hsm.
  unfold fat16_find_free_cluster. rewrite u32_small by lia.
  apply (wp_iter (fun c s' => holds s0 dat s' /\ 2 <= c <= cluster_count f + 2 /\
      forall c', 2 <= c' < c -> fat_get dat f 0 c' <> 0)
    (fun c _ => Z.to_nat (cluster_count f + 2 - c))).
  - unfold FAT16_CLUSTER_MIN. lia.
  - unfold FAT16_CLUSTER_MIN. split_and!; [done|lia|lia|]. intros c' Hc'. lia.
  - intros c s1 (Hs1 & Hc & Hlow). destruct (Z.ltb_spec c (cluster_count f + 2)) as [Hlt|Hge].
    + apply wp_bind. eapply wp_read_fat_entry; [exact Hs1|done|lia|]. intros s2 Hs2.
      unfold FAT16_CLUSTER_FREE. destruct (Z.eqb_spec (fat_get dat f 0 c) 0) as [E|E].
      * apply wp_ret, HS; [done|]. split; [unfold cluster_ok; lia|done].
      * apply wp_ret. rewrite u16_small by lia. cbv beta. split; [|lia]. split; [done|]. split; [lia|].
        intros c' Hc'. destruct (decide (c' = c)); [by subst|]. apply Hlow. lia.
    + apply wp_ret, HN; [done|]. intros c' Hc'. apply Hlow. unfold cluster_ok in Hc'. lia.
Qed.

(** [previous] is 0 for the first cluster of a file. *)
Definition linked_to dat f (previous c : Z) : Z -> list Z :=
  let dat1 := fat_put dat f c FAT16_CLUSTER_EOC in
  if FAT16_CLUSTER_MIN <=? previous then fat_put dat1 f previous c else dat1.

Lemma wp_allocate_cluster s0 dat s f fuel previous (Q : option Z -> fat16 D -> Prop) :
  holds s0 dat s -> fs_ok f -> cluster_count f < Z.of_nat fuel ->
  0 <= previous < cluster_count f + 2 ->
  (forall s', holds s0 dat s' -> no_free dat f -> Q None s') ->
  (forall s' c, holds s0 (linked_to dat f previous c) s' -> lowest_free dat f c -> Q (Some c) s') ->
  wp (fat16_allocate_cluster fuel f previous) Q s.
Proof.
  intros Hs Hf Hfuel Hp HN HS. unfold fat16_allocate_cluster. apply wp_bind.
  eapply wp_find_free_cluster; [done|done|done|intros s' Hs' Hno; by apply wp_ret, HN|].
  intros s1 c Hs1 Hc. pose proof Hc as (Hcr & _). unfold cluster_ok in Hcr.
  apply wp_bind. eapply wp_write_fat_entry; [done|done|lia|]. intros s2 Hs2.
  change (0 <? 0) with false. cbv iota. specialize (HS). unfold linked_to in HS.
  destruct (FAT16_CLUSTER_MIN <=? previous); [|by apply wp_ret, (HS _ c)].
  apply wp_bind. eapply wp_write_fat_entry; [done|done|lia|]. intros s3 Hs3.
  apply wp_ret. change (0 <? 0) with false. cbv iota. by apply (HS _ c).
Qed.

(** ** The root directory *)

(** The 32 bytes of entry [k], and its place on the disk. *)
Definition slot_lba (f : fat16_fs) (k : Z) : Z := root_dir_start_lba f + k / 16.
Definition slot_offset (k : Z) : Z := 32 * (k mod 16).
Definition slot dat f k : list Z := slice (dat (slot_lba f k)) (slot_offset k) 32.
Definition slots (f : fat16_fs) : Z := 16 * root_dir_sectors f.

Definition byte (l : list Z) (i : nat) : Z := default 0 (l !! i).
Definition slot_end (e : list Z) : bool := byte e 0 =? 0x00.
Definition slot_free (e : list Z) : bool := (byte e 0 =? 0x00) || (byte e 0 =? 0xE5).

(** An entry of a regular file with the name [name]. *)
Definition slot_named (name : list Z) (e : list Z) : bool :=
  negb (slot_free e) && negb (is_long_name (byte e 11)) &&
  negb (truthy (Z.land (byte e 11) FAT16_ATTR_VOLUME_ID)) &&
  negb (truthy (Z.land (byte e 11) FAT16_ATTR_DIRECTORY)) &&
  bool_decide (slice e 0 11 = name).

Definition slot_cluster (e : list Z) : Z := le_value (slice e 0x1A 2).
Definition slot_size (e : list Z) : Z := le_value (slice e 0x1C 4).

(** The first index from [k] on, among [n], where [g] answers. *)
Fixpoint first_some {R} (g : Z -> option R) (k : Z) (n : nat) : option R :=
  match n with
  | O => None
  | S n' => match g k with Some v => Some v | None => first_some g (k + 1) n' end
  end.

Lemma first_some_app {R} (g : Z -> option R) k n1 n2 :
  first_some g k (n1 + n2) =
  match first_some g k n1 with Some v => Some v | None => first_some g (k + Z.of_nat n1) n2 end.
Proof.
  revert k. induction n1 as [|n1 IH]; intros k; cbn [first_some Nat.add].
  - by rewrite Z.add_0_r.
  - destruct (g k); [done|]. rewrite IH. by replace (k + 1 + Z.of_nat n1) with (k + Z.of_nat (S n1)) by lia.
Qed.

Lemma first_some_Some {R} (g : Z -> option R) k n v :
  first_some g k n = Some v ->
  exists j, k <= j < k + Z.of_nat n /\ g j = Some v /\ forall i, k <= i < j -> g i = None.
Proof.
  revert k. induction n as [|n IH]; intros k; cbn [first_some]; [done|].
  destruct (g k) eqn:E.
  - intros [= ->]. exists k. split_and!; [lia|lia|done|lia].
  - intros (j & Hj & Hg & Hlow)%IH. exists j. split_and!; [lia|lia|done|].
    intros i Hi. destruct (decide (i = k)); [by subst|]. apply Hlow. lia.
Qed.

Lemma first_some_None {R} (g : Z -> option R) k n :
  first_some g k n = None <-> forall j, k <= j < k + Z.of_nat n -> g j = None.
Proof.
  revert k. induction n as [|n IH]; intros k; cbn [first_some].
  - split; [lia|done].
  - destruct (g k) eqn:E.
    + split; [done|]. intros H. rewrite H in E by lia. done.
    + rewrite IH. split; intros H j Hj.
      * destruct (decide (j = k)); [by subst|]. apply H. lia.
      * apply H. lia.
Qed.

Lemma first_some_intro {R} (g : Z -> option R) k n j v :
  k <= j < k + Z.of_nat n -> g j = Some v -> (forall i, k <= i < j -> g i = None) ->
  first_some g k n = Some v.
Proof.
  revert k. induction n as [|n IH]; intros k Hj Hv Hlow; cbn [first_some]; [lia|].
  destruct (decide (j = k)) as [->|]; [by rewrite Hv|].
  rewrite Hlow by lia. apply IH; [lia|done|]. intros i Hi. apply Hlow. lia.
Qed.

Lemma first_some_ext {R} (g g' : Z -> option R) k n :
  (forall j, k <= j < k + Z.of_nat n -> g j = g' j) -> first_some g k n = first_some g' k n.
Proof.
  revert k. induction n as [|n IH]; intros k H; cbn [first_some]; [done|].
  rewrite (H k) by lia. destruct (g' k); [done|]. apply IH. intros j Hj. apply H. lia.
Qed.

Lemma slot_range f k : fs_ok f -> 0 <= k < slots f ->
  root_dir_start_lba f <= slot_lba f k < data_start_lba f /\ 0 <= slot_offset k <= 480 /\
  0 <= slot_lba f k < bd_sectors.
Proof.
  intros [] Hk. unfold slots, slot_lba, slot_offset in *.
  pose proof (Z.div_mod k 16 ltac:(lia)). pose proof (Z.mod_pos_bound k 16 ltac:(lia)). nia.
Qed.

(** The nested loops visit the entries in order until one of them answers. *)
Lemma wp_scan_root {R} s0 dat s f (err : R) entry (g : Z -> option R)
    (Q : unit + R -> fat16 D -> Prop) :
  holds s0 dat s -> fs_ok f ->
  (forall k s', 0 <= k < slots f -> holds s0 dat s' ->
     wp (entry (slot_lba f k) (dat (slot_lba f k)) (slot_offset k))
        (fun r s'' => holds s0 dat s'' /\ r = match g k with None => inl tt | Some v => inr v end) s') ->
  (forall s', holds s0 dat s' ->
     Q (match first_some g 0 (Z.to_nat (slots f)) with None => inl tt | Some v => inr v end) s') ->
  wp (scan_root f err entry) Q s.
Proof.
  intros Hs Hf Hentry HQ. pose proof (fo_rsec _ Hf) as Hrs. pose proof (fo_limit _ Hf) as Hlim.
  unfold scan_root. rewrite (fo_bps _ Hf). change (Z.to_nat ((512 + 31) / FAT16_ENTRY_SIZE)) with 16%nat.
  apply (wp_for (fun i _ s' => holds s0 dat s' /\ 0 <= i /\
    first_some g 0 (Z.to_nat (16 * i)) = None)).
  - split_and!; [done|lia|done].
  - intros i [] s1 Hi (Hs1 & _ & Hno).
    destruct (slot_range f (16 * i) Hf) as (Hl & _ & Hb); [unfold slots; lia|].
    assert (slot_lba f (16 * i) = root_dir_start_lba f + i) as E.
    { unfold slot_lba. rewrite (Z.mul_comm 16), Z.div_mul by lia. done. }
    rewrite E in *. rewrite u32_small by lia.
    apply wp_bind. eapply wp_block_read; [exact Hs1|lia|]. intros s2 Hs2.
    assert (forall j, 0 <= j < 16 -> slot_lba f (16 * i + j) = root_dir_start_lba f + i /\
      slot_offset (16 * i + j) = j * FAT16_ENTRY_SIZE) as Hslot.
    { intros j Hj. unfold slot_lba, slot_offset, FAT16_ENTRY_SIZE.
      replace (16 * i + j) with (j + i * 16) by lia.
      rewrite Z.div_add, Z.mod_add, Z.div_small, Z.mod_small by lia. lia. }
    apply (wp_for (fun j _ s' => holds s0 dat s' /\ 0 <= j /\
      first_some g 0 (Z.to_nat (16 * i + j)) = None)).
    + split_and!; [done|lia|]. by rewrite Z.add_0_r.
    + intros j [] s3 Hj (Hs3 & _ & Hno3). destruct (Hslot j ltac:(lia)) as [E1 E2].
      rewrite <- E1, <- E2.
      eapply wp_mono; [apply (Hentry (16 * i + j)); [unfold slots; lia|done]|].
      intros r s4 (Hs4 & ->). destruct (g (16 * i + j)) as [v|] eqn:Eg.
      * assert (first_some g 0 (Z.to_nat (slots f)) = Some v) as Hfirst.
        { apply (first_some_intro g 0 _ (16 * i + j)); [unfold slots; lia|done|].
          intros k Hk. apply (proj1 (first_some_None g 0 _) Hno3). lia. }
        specialize (HQ s4 Hs4). by rewrite Hfirst in HQ.
      * split_and!; [done|lia|].
        apply first_some_None. intros k Hk. destruct (decide (k = 16 * i + j)) as [->|]; [done|].
        apply (proj1 (first_some_None g 0 _) Hno3). lia.
    + intros [] s3 (Hs3 & _ & Hno3). split_and!; [done|lia|].
      by replace (16 * (i + 1)) with (16 * i + (0 + Z.of_nat 16)) by lia.
  - intros [] s1 (Hs1 & _ & Hno). specialize (HQ s1 Hs1).
    replace (16 * (0 + Z.of_nat (Z.to_nat (root_dir_sectors f)))) with (slots f) in Hno
      by (unfold slots; lia).
    by rewrite Hno in HQ.
Qed.

Lemma slot_byte s0 dat s f k i :
  holds s0 dat s -> fs_ok f -> 0 <= k < slots f -> (i < 32)%nat ->
  dat (slot_lba f k) !! Z.to_nat (slot_offset k + Z.of_nat i) = Some (byte (slot dat f k) i).
Proof.
  intros Hs Hf Hk Hi. destruct (slot_range f k Hf Hk) as (_ & Ho & Hb).
  pose proof (holds_sector _ _ _ _ Hs Hb) as [Hl _].
  unfold byte, slot. rewrite slice_lookup by done.
  destruct (byte_lookup (dat (slot_lba f k)) (Z.to_nat (slot_offset k) + i)) as [b Hbyte]; [lia|].
  replace (Z.to_nat (slot_offset k + Z.of_nat i)) with (Z.to_nat (slot_offset k) + i)%nat by lia.
  by rewrite Hbyte.
Qed.

(** What the loop body of [fat16_find_root_entry] answers for entry [k]. *)
Definition find_slot dat f name (k : Z) : option find_result :=
  let e := slot dat f k in
  if slot_end e then Some FindNone
  else if slot_named name e then
    Some (Found (slot_cluster e) (slot_size e) (slot_lba f k) (slot_offset k))
  else None.

Definition find_root dat f name : find_result :=
  match first_some (find_slot dat f name) 0 (Z.to_nat (slots f)) with
  | Some v => v
  | None => FindNone
  end.

Lemma slice_slice (l : list Z) o n o' n' :
  0 <= o -> 0 <= o' -> (Z.to_nat o' + n' <= n)%nat ->
  slice (slice l o n) o' n' = slice l (o + o') n'.
Proof.
  intros Ho Ho' Hn. apply list_eq. intros i. destruct (decide (i < n')%nat).
  - rewrite !slice_lookup by lia. f_equal. lia.
  - unfold slice. by rewrite !lookup_take_ge by lia.
Qed.

Lemma wp_find_root_entry s0 dat s f name (Q : find_result -> fat16 D -> Prop) :
  holds s0 dat s -> fs_ok f -> length name = 11%nat ->
  (forall s', holds s0 dat s' -> Q (find_root dat f name) s') ->
  wp (fat16_find_root_entry f name) Q s.
Proof.
  intros Hs Hf Hn HQ. unfold fat16_find_root_entry. apply wp_bind.
  apply (wp_scan_root s0 dat s f FindError _ (find_slot dat f name)); [done|done| |].
  - intros k s1 Hk Hs1. destruct (slot_range f k Hf Hk) as (_ & Ho & Hb).
    pose proof (holds_sector _ _ _ _ Hs Hb) as [Hl Hby].
    unfold find_slot, slot_named, slot_end, slot_free. cbv zeta. set (e := slot dat f k).
    apply wp_bind. eapply wp_byte_at; [lia| |].
    { rewrite <- (Z.add_0_r (slot_offset k)). apply (slot_byte s0 dat s f k 0); [done|done|done|lia]. }
    fold e. destruct (byte e 0 =? 0x00) eqn:E0; [by apply wp_ret|]. cbn [orb].
    destruct (byte e 0 =? 0xE5) eqn:E5; [by apply wp_ret|]. cbn [negb andb].
    apply wp_bind. eapply wp_byte_at; [lia|apply (slot_byte s0 dat s f k 11); [done|done|done|lia]|]. fold e.
    destruct (is_long_name (byte e 11)); [by apply wp_ret|]. cbn [negb andb].
    destruct (truthy (Z.land (byte e 11) FAT16_ATTR_VOLUME_ID)); [by apply wp_ret|]. cbn [negb andb].
    destruct (truthy (Z.land (byte e 11) FAT16_ATTR_DIRECTORY)); [by apply wp_ret|]. cbn [negb andb].
    apply wp_bind, wp_memcmp; [lia|lia|unfold FAT16_MAX_FILE_NAME; lia|unfold FAT16_MAX_FILE_NAME; lia|].
    intros c ->.
    assert (slice name 0 FAT16_MAX_FILE_NAME = name) as ->.
    { unfold slice. change (Z.to_nat 0) with 0%nat. rewrite drop_0. apply take_ge.
      unfold FAT16_MAX_FILE_NAME. lia. }
    assert (slice e 0 11 = slice (dat (slot_lba f k)) (slot_offset k) 11) as ->.
    { unfold e, slot. rewrite slice_slice by lia. by rewrite Z.add_0_r. }
    unfold FAT16_MAX_FILE_NAME. case_bool_decide; [|by apply wp_ret].
    apply wp_bind, wp_read_le16; [lia|lia|done|]. apply wp_bind, wp_read_le32; [lia|lia|done|].
    apply wp_ret. split; [done|]. unfold slot_cluster, slot_size, e, slot.
    by rewrite !slice_slice by lia.
  - intros s1 Hs1. specialize (HQ s1 Hs1). unfold find_root in HQ. revert HQ.
    destruct (first_some _ _ _); intros HQ; by apply wp_ret.
Qed.

(** The first entry that can be reused. *)
Definition find_free dat f : option Z :=
  first_some (fun k => if slot_free (slot dat f k) then Some k else None) 0 (Z.to_nat (slots f)).

Lemma first_some_fmap {R R'} (h : R -> R') (g : Z -> option R) k n :
  first_some (fun j => h <$> g j) k n = h <$> first_some g k n.
Proof.
  revert k. induction n as [|n IH]; intros k; cbn [first_some]; [done|].
  destruct (g k); cbn; [done|]. apply IH.
Qed.

Lemma wp_find_free_root_entry s0 dat s f (Q : option (Z * Z) -> fat16 D -> Prop) :
  holds s0 dat s -> fs_ok f ->
  (forall s', holds s0 dat s' ->
     Q (match find_free dat f with Some k => Some (slot_lba f k, slot_offset k) | None => None end) s') ->
  wp (fat16_find_free_root_entry f) Q s.
Proof.
  intros Hs Hf HQ. unfold fat16_find_free_root_entry. apply wp_bind.
  set (g := fun k => if slot_free (slot dat f k) then Some k else None).
  apply (wp_scan_root s0 dat s f None _ (fun k => (fun k => Some (slot_lba f k, slot_offset k)) <$> g k));
    [done|done| |].
  - intros k s1 Hk Hs1. destruct (slot_range f k Hf Hk) as (_ & Ho & Hb).
    apply wp_bind. eapply wp_byte_at; [lia| |].
    { rewrite <- (Z.add_0_r (slot_offset k)). apply (slot_byte s0 dat s f k 0); [done|done|done|lia]. }
    unfold g, slot_free. destruct (_ || _); by apply wp_ret.
  - intros s1 Hs1. rewrite first_some_fmap. specialize (HQ s1 Hs1). unfold find_free in HQ. fold g in HQ.
    revert HQ. destruct (first_some g _ _); intros HQ; cbn; by apply wp_ret.
Qed.

(** *** Storing an entry *)

Definition put_slot dat f k (e : list Z) : Z -> list Z :=
  upd dat (slot_lba f k) (splice (dat (slot_lba f k)) (slot_offset k) e).

Lemma slot_index f k k' :
  slot_lba f k = slot_lba f k' -> slot_offset k = slot_offset k' -> k = k'.
Proof.
  unfold slot_lba, slot_offset. intros.
  pose proof (Z.div_mod k 16 ltac:(lia)). pose proof (Z.div_mod k' 16 ltac:(lia)). lia.
Qed.

Lemma slot_put dat f k k' e :
  is_sector (dat (slot_lba f k)) -> length e = 32%nat ->
  slot (put_slot dat f k e) f k' = if decide (k' = k) then e else slot dat f k'.
Proof.
  intros [Hl _] He. unfold slot, put_slot, upd.
  assert (forall j, 0 <= slot_offset j <= 480) as Ho.
  { intros j. unfold slot_offset. pose proof (Z.mod_pos_bound j 16 ltac:(lia)). lia. }
  pose proof (Ho k). pose proof (Ho k').
  destruct (decide (k' = k)) as [->|Hne].
  - rewrite decide_True by done. rewrite <- He. apply slice_splice; lia.
  - case_decide as E; [|done]. rewrite E.
    assert (slot_offset k' <> slot_offset k) as Hoff.
    { intros Hoff. by apply Hne, (slot_index f). }
    apply slice_splice_out; [lia|lia|lia|]. rewrite He. unfold slot_offset in *. lia.
Qed.

Lemma put_slot_other dat f k e a : a <> slot_lba f k -> put_slot dat f k e a = dat a.
Proof. intros. unfold put_slot, upd. by rewrite decide_False. Qed.

(** The entry [fat16_create_root_entry] writes. *)
Definition new_entry (name : list Z) : list Z := name ++ 0x20 :: replicate 20 0.

Definition is_name (name : list Z) : Prop := length name = 11%nat /\ Forall is_byte name.

Lemma length_new_entry name : is_name name -> length (new_entry name) = 32%nat.
Proof. intros [Hl _]. unfold new_entry. rewrite length_app. cbn [length]. rewrite length_replicate. lia. Qed.

Lemma new_entry_bytes name : is_name name -> Forall is_byte (new_entry name).
Proof.
  intros [_ Hb]. apply list.Forall_app. split; [done|]. constructor; [by compute|].
  apply Forall_replicate. by compute.
Qed.

Lemma wp_create_root_entry s0 dat s f name k (Q : Z -> fat16 D -> Prop) :
  holds s0 dat s -> fs_ok f -> 0 <= k < slots f -> is_name name ->
  (forall s', holds s0 (put_slot dat f k (new_entry name)) s' -> Q 0 s') ->
  wp (fat16_create_root_entry name (slot_lba f k) (slot_offset k)) Q s.
Proof.
  intros Hs Hf Hk Hn HQ. destruct (slot_range f k Hf Hk) as (_ & Ho & Hb).
  pose proof (holds_sector _ _ _ _ Hs Hb) as Hsec. pose proof Hsec as [Hl _].
  pose proof Hn as [Hnl Hnb]. pose proof (length_new_entry _ Hn) as Hel.
  unfold fat16_create_root_entry. apply wp_bind. eapply wp_block_read; [done|done|]. intros s1 Hs1.
  set (o := slot_offset k) in *. set (sec := dat (slot_lba f k)) in *.
  apply wp_bind, wp_memcpy; [lia|lia|unfold FAT16_MAX_FILE_NAME; lia|unfold FAT16_MAX_FILE_NAME; lia|done|].
  assert (slice name 0 FAT16_MAX_FILE_NAME = name) as ->.
  { unfold slice. change (Z.to_nat 0) with 0%nat. rewrite drop_0. apply take_ge.
    unfold FAT16_MAX_FILE_NAME. lia. }
  do 3 (apply wp_bind, wp_set_next; [lia|rewrite ?length_app; cbn [length]; lia
    |rewrite ?length_app; cbn [length]; lia|]).
  do 7 (apply wp_bind, wp_write_le16_next; [lia|rewrite ?length_app, ?length_le_bytes; cbn [length]; lia
    |rewrite ?length_app, ?length_le_bytes; cbn [length]; lia|]).
  apply wp_bind, wp_write_le32_next;
    [lia|rewrite ?length_app, ?length_le_bytes; cbn [length]; lia
    |rewrite ?length_app, ?length_le_bytes; cbn [length]; lia|].
  rewrite <- !app_assoc. cbn [app].
  change (name ++ _) with (new_entry name).
  apply wp_bind. eapply wp_block_write; [exact Hs1|done| |].
  { apply splice_sector; [done|lia|lia|by apply new_entry_bytes]. }
  intros s2 Hs2. apply wp_ret, HQ. exact Hs2.
Qed.

Lemma wp_delete_root_entry s0 dat s f k (Q : Z -> fat16 D -> Prop) :
  holds s0 dat s -> fs_ok f -> 0 <= k < slots f ->
  (forall s', holds s0 (put_slot dat f k (0xE5 :: slice (slot dat f k) 1 31)) s' -> Q 0 s') ->
  wp (fat16_delete_root_entry (slot_lba f k) (slot_offset k)) Q s.
Proof.
  intros Hs Hf Hk HQ. destruct (slot_range f k Hf Hk) as (_ & Ho & Hb).
  pose proof (holds_sector _ _ _ _ Hs Hb) as Hsec. pose proof Hsec as [Hl _].
  unfold fat16_delete_root_entry. apply wp_bind. eapply wp_block_read; [done|done|]. intros s1 Hs1.
  apply wp_bind, wp_set_byte; [lia|lia|].
  apply wp_bind. eapply wp_block_write; [exact Hs1|done| |].
  { apply splice_sector; [done|lia|cbn [length]; lia|]. constructor; [by compute|constructor]. }
  intros s2 Hs2. apply wp_ret, HQ. eapply holds_ext; [exact Hs2|].
  intros a _. unfold put_slot, upd. case_decide; [|done].
  apply list_eq. intros i. set (sec := dat (slot_lba f k)) in *.
  assert (length (0xE5 :: slice (slot dat f k) 1 31) = 32%nat) as Hlen.
  { cbn [length]. unfold slot. rewrite slice_slice by lia. rewrite length_slice; [done|].
    fold sec. lia. }
  rewrite !splice_lookup by (cbn [length] in *; lia). rewrite Hlen. cbn [length].
  repeat case_decide; try lia.
  - by replace (i - Z.to_nat (slot_offset k))%nat with 0%nat by lia.
  - destruct (i - Z.to_nat (slot_offset k))%nat as [|j] eqn:Ej; [lia|]. cbn [lookup list_lookup].
    change ((slice (slot dat f k) 1 31) !! j = sec !! i).
    unfold slot. rewrite slice_slice, slice_lookup by lia. fold sec. f_equal. lia.
  - done.
Qed.

(** ** Looking names up after a change *)

Lemma find_root_named dat f name cl sz lba off :
  find_root dat f name = Found cl sz lba off ->
  exists k, 0 <= k < slots f /\ lba = slot_lba f k /\ off = slot_offset k /\
    slot_named name (slot dat f k) = true /\ cl = slot_cluster (slot dat f k) /\
    sz = slot_size (slot dat f k) /\
    forall j, 0 <= j < k -> find_slot dat f name j = None.
Proof.
  unfold find_root. destruct (first_some _ _ _) as [v|] eqn:E; [|done]. intros ->.
  apply first_some_Some in E as (k & Hk & Hg & Hlow). exists k. unfold find_slot in Hg.
  destruct (slot_end _); [done|]. destruct (slot_named _ _) eqn:Hn; [|done].
  injection Hg as <- <- <- <-. split_and!; [lia|lia|done..].
Qed.

Lemma find_root_no_error dat f name : find_root dat f name <> FindError.
Proof.
  unfold find_root. destruct (first_some _ _ _) as [v|] eqn:E; [|done].
  apply first_some_Some in E as (k & _ & Hg & _). unfold find_slot in Hg.
  destruct (slot_end _); [by simplify_eq|]. destruct (slot_named _ _); by simplify_eq.
Qed.

(** Before the first free entry a lookup that fails has seen no hit. *)
Lemma find_none_before dat f name k j :
  find_root dat f name = FindNone -> find_free dat f = Some k -> 0 <= j < k ->
  find_slot dat f name j = None.
Proof.
  intros Hno (i & Hi & Hfree & Hlow)%first_some_Some Hj.
  destruct (slot_free (slot dat f i)) eqn:Ei; [|done]. injection Hfree as ->.
  assert (forall m, 0 <= m < k -> slot_end (slot dat f m) = false) as Hend.
  { intros m Hm. specialize (Hlow m Hm). unfold slot_end. unfold slot_free in Hlow.
    by destruct (byte (slot dat f m) 0 =? 0). }
  destruct (find_slot dat f name j) as [v|] eqn:Ej; [|done]. exfalso. unfold find_root in Hno.
  destruct (first_some (find_slot dat f name) 0 (Z.to_nat (slots f))) as [v'|] eqn:E.
  - subst v'. apply first_some_Some in E as (m & Hm & Hg & Hlow').
    assert (m <= j). { destruct (decide (m <= j)); [done|]. rewrite Hlow' in Ej by lia. done. }
    unfold find_slot in Hg. rewrite Hend in Hg by lia. by destruct (slot_named _ _).
  - rewrite (proj1 (first_some_None _ _ _) E) in Ej by lia. done.
Qed.

Definition plain_name (name : list Z) : Prop := is_name name /\ byte name 0 <> 0 /\ byte name 0 <> 0xE5.

Lemma new_entry_named name : plain_name name ->
  slot_end (new_entry name) = false /\ slot_named name (new_entry name) = true /\
  slot_cluster (new_entry name) = 0 /\ slot_size (new_entry name) = 0.
Proof.
  intros ((Hl & Hb) & H0 & H5).
  do 11 (destruct name as [|? name]; [done|]). destruct name; [|done].
  unfold slot_named, slot_end, slot_free. cbn in *.
  apply Z.eqb_neq in H0 as ->. apply Z.eqb_neq in H5 as ->. cbn. split_and!; [done| |done|done].
  by case_bool_decide.
Qed.

Lemma find_root_created dat f name k :
  fs_ok f -> (forall a, 0 <= a < bd_sectors -> is_sector (dat a)) -> plain_name name ->
  find_root dat f name = FindNone -> find_free dat f = Some k ->
  find_root (put_slot dat f k (new_entry name)) f name = Found 0 0 (slot_lba f k) (slot_offset k).
Proof.
  intros Hf Hdat Hn Hno Hfree.
  pose proof Hfree as (i & Hi & Hik & _)%first_some_Some.
  destruct (slot_free (slot dat f i)); [|done]. injection Hik as ->.
  assert (0 <= k < slots f) as Hk by lia. destruct (slot_range f k Hf Hk) as (_ & _ & Hb).
  destruct (new_entry_named name Hn) as (He & Hnm & Hc & Hsz).
  unfold find_root.
  rewrite (first_some_intro _ 0 _ k (Found 0 0 (slot_lba f k) (slot_offset k))); [done|lia| |].
  - unfold find_slot. cbv zeta. rewrite slot_put, decide_True by (done || by apply Hdat || by apply length_new_entry, Hn).
    by rewrite He, Hnm, Hc, Hsz.
  - intros j Hj. unfold find_slot. cbv zeta.
    rewrite slot_put, decide_False by (lia || by apply Hdat || by apply length_new_entry, Hn).
    by apply (find_none_before dat f name k).
Qed.

(** No two entries carry the name. *)
Definition unique_name dat f name : Prop :=
  forall j k, 0 <= j < slots f -> 0 <= k < slots f ->
    slot_named name (slot dat f j) = true -> slot_named name (slot dat f k) = true -> j = k.

Lemma find_root_deleted dat f name k :
  fs_ok f -> (forall a, 0 <= a < bd_sectors -> is_sector (dat a)) -> unique_name dat f name ->
  0 <= k < slots f -> slot_named name (slot dat f k) = true ->
  find_root (put_slot dat f k (0xE5 :: slice (slot dat f k) 1 31)) f name = FindNone.
Proof.
  intros Hf Hdat Hu Hk Hn. destruct (slot_range f k Hf Hk) as (_ & Ho & Hb).
  pose proof (Hdat _ Hb) as [Hl _].
  set (e := 0xE5 :: slice (slot dat f k) 1 31). set (dat' := put_slot dat f k e).
  assert (length e = 32%nat) as He.
  { unfold e. cbn [length]. unfold slot. rewrite slice_slice by lia. rewrite length_slice; [done|]. lia. }
  destruct (find_root dat' f name) as [| |cl sz lba off] eqn:E; [|done|].
  - by apply find_root_no_error in E.
  - apply find_root_named in E as (j & Hj & _ & _ & Hnm & _).
    unfold dat' in Hnm. rewrite slot_put in Hnm by (done || by apply Hdat).
    case_decide as Hd.
    + unfold slot_named, slot_free, e in Hnm. cbn in Hnm. done.
    + exfalso. by apply Hd, Hu.
Qed.

(** ** The operations on paths *)

Definition chosen s (fs : fs_ptr) : fs_ptr :=
  match fs with FsNull => fat16_current_fs s | _ => fs end.
Definition fs_value s (p : fs_ptr) : option fat16_fs :=
  match p with FsNull => None | FsMounted => Some (fat16_mounted_fs s) | FsAt n => callers_fs s !! n end.

Lemma fs_value_holds s0 dat s p : holds s0 dat s -> fs_value s p = fs_value s0 p.
Proof. intros [_ _ ->]. by destruct p. Qed.

Lemma wp_with_name s fs path name f (Q : option (fs_ptr * list Z) -> fat16 D -> Prop) :
  fs_value s (chosen s fs) = Some f -> fat16_normalize_short_name path = Some name ->
  Q (Some (chosen s fs, name)) s -> wp (with_name fs path) Q s.
Proof.
  intros Hv Hn HQ. unfold with_name, use_fs. apply wp_bind, wp_bind, wp_get, wp_ret.
  fold (chosen s fs). destruct (chosen s fs); [done| |]; (destruct path; [|done]); rewrite Hn; by apply wp_ret.
Qed.

Lemma wp_deref s p f (Q : fat16_fs -> fat16 D -> Prop) :
  fs_value s p = Some f -> Q f s -> wp (deref p) Q s.
Proof.
  intros Hv HQ. unfold deref. apply wp_bind, wp_get. destruct p; simpl in Hv; [done| |].
  - injection Hv as ->. by apply wp_ret.
  - by eapply wp_some_or_trap.
Qed.

Definition create_post s f name (r : Z) s' : Prop :=
  let dat := bd_data (disk s) in
  match find_root dat f name with
  | Found _ _ _ _ => r = -1 /\ holds s dat s'
  | _ =>
      match find_free dat f with
      | Some k => r = 0 /\ holds s (put_slot dat f k (new_entry name)) s'
      | None => r = -1 /\ holds s dat s'
      end
  end.

Lemma wp_fat16_create s fs path name f :
  bd_ok (disk s) -> fs_value s (chosen s fs) = Some f -> fs_ok f ->
  fat16_normalize_short_name path = Some name -> is_name name ->
  wp (fat16_create fs path) (create_post s f name) s.
Proof.
  intros Hok Hv Hf Hn Hname. pose proof (holds_refl s Hok) as Hs.
  unfold fat16_create, create_post. cbv zeta. set (dat := bd_data (disk s)) in *.
  apply wp_bind. eapply wp_with_name; [done|done|]. apply wp_bind. eapply wp_deref; [done|].
  apply wp_bind. eapply wp_find_root_entry; [exact Hs|done|apply Hname|]. intros s1 Hs1.
  destruct (find_root dat f name); [|  |by apply wp_ret];
  (apply wp_bind; eapply wp_find_free_root_entry; [exact Hs1|done|]; intros s2 Hs2;
   destruct (find_free dat f) as [k|] eqn:Hfree; [|by apply wp_ret];
   apply first_some_Some in Hfree as (i & Hi & Hik & _); destruct (slot_free _); [|done];
   injection Hik as ->; eapply wp_create_root_entry; [exact Hs2|done|lia|done|]; by intros s3 Hs3).
Qed.

Definition delete_post s f name (r : Z) s' : Prop :=
  let dat := bd_data (disk s) in
  match find_root dat f name with
  | Found _ _ _ _ => r = 0 /\ exists k, 0 <= k < slots f /\ slot_named name (slot dat f k) = true /\
      holds s (put_slot dat f k (0xE5 :: slice (slot dat f k) 1 31)) s'
  | _ => r = -1 /\ holds s dat s'
  end.

Lemma wp_fat16_delete s fs path name f :
  bd_ok (disk s) -> fs_value s (chosen s fs) = Some f -> fs_ok f ->
  fat16_normalize_short_name path = Some name -> is_name name ->
  wp (fat16_delete fs path) (delete_post s f name) s.
Proof.
  intros Hok Hv Hf Hn Hname. pose proof (holds_refl s Hok) as Hs.
  unfold fat16_delete, delete_post. cbv zeta. set (dat := bd_data (disk s)) in *.
  apply wp_bind. eapply wp_with_name; [done|done|]. apply wp_bind. eapply wp_deref; [done|].
  apply wp_bind. eapply wp_find_root_entry; [exact Hs|done|apply Hname|]. intros s1 Hs1.
  destruct (find_root dat f name) eqn:E; [by apply wp_ret|by apply wp_ret|].
  apply find_root_named in E as (k & Hk & -> & -> & Hnm & _).
  eapply wp_delete_root_entry; [exact Hs1|done|done|]. intros s2 Hs2. split; [done|]. by exists k.
Qed.

(** The index of the first closed file. *)
Definition closed_at (l : list fat16_file) (i : Z) : option Z :=
  match arr_get l i with
  | Some fl => if active fl =? 0 then Some i else None
  | None => None
  end.
Definition free_handle (l : list fat16_file) : option Z :=
  first_some (closed_at l) 0 (Z.to_nat FAT16_MAX_OPEN_FILES).

Definition open_post s p f name (r : Z) s' : Prop :=
  let dat := bd_data (disk s) in
  match find_root dat f name with
  | Found cl sz lba off =>
      if (0 <? sz) && (cl <? FAT16_CLUSTER_MIN) then r = -1 /\ holds s dat s'
      else match free_handle (fat16_files s) with
           | None => r = -1 /\ holds s dat s'
           | Some i => r = i + FAT16_FD_BASE /\ exists l,
               arr_set (fat16_files s) i (mkFile p cl cl sz 0 lba off 0 1) = Some l /\
               holds (set_files l s) dat s'
           end
  | _ => r = -1 /\ holds s dat s'
  end.

Lemma wp_get_file s i fl (Q : fat16_file -> fat16 D -> Prop) :
  arr_get (fat16_files s) i = Some fl -> Q fl s -> wp (get_file i) Q s.
Proof. intros Hg HQ. unfold get_file. apply wp_bind, wp_get. by eapply wp_some_or_trap. Qed.

Lemma wp_set_file s i fl l (Q : unit -> fat16 D -> Prop) :
  arr_set (fat16_files s) i fl = Some l -> Q tt (set_files l s) -> wp (set_file i fl) Q s.
Proof.
  intros Hg HQ. unfold set_file. apply wp_bind, wp_get, wp_bind.
  eapply wp_some_or_trap; [done|]. by apply wp_put.
Qed.

Lemma holds_set_files s0 dat s l : holds s0 dat s -> holds (set_files l s0) dat (set_files l s).
Proof. intros [Ho Hd Hr]. split; [done|done|]. by rewrite Hr. Qed.

Lemma wp_fat16_open s fs path name f :
  bd_ok (disk s) -> fs_value s (chosen s fs) = Some f -> fs_ok f ->
  length (fat16_files s) = Z.to_nat FAT16_MAX_OPEN_FILES ->
  fat16_normalize_short_name path = Some name -> is_name name ->
  wp (fat16_open fs path) (open_post s (chosen s fs) f name) s.
Proof.
  intros Hok Hv Hf Hlen Hn Hname. pose proof (holds_refl s Hok) as Hs.
  unfold fat16_open, open_post. cbv zeta. set (dat := bd_data (disk s)) in *.
  apply wp_bind. eapply wp_with_name; [done|done|]. apply wp_bind. eapply wp_deref; [done|].
  apply wp_bind. eapply wp_find_root_entry; [exact Hs|done|apply Hname|]. intros s1 Hs1.
  destruct (find_root dat f name) as [| |cl sz lba off]; [by apply wp_ret|by apply wp_ret|].
  destruct ((0 <? sz) && (cl <? FAT16_CLUSTER_MIN)); [by apply wp_ret|].
  unfold free_handle. set (g := closed_at (fat16_files s)).
  apply wp_bind. apply (wp_for (fun i _ s' => holds s dat s' /\ 0 <= i /\
    first_some g 0 (Z.to_nat i) = None)).
  - split_and!; [done|lia|done].
  - intros i [] s2 Hi (Hs2 & _ & Hno). pose proof (holds_files _ _ _ Hs2) as Hfiles.
    destruct (arr_get_Some (fat16_files s) i) as [fl Hfl]; [lia|].
    apply wp_bind. eapply wp_get_file; [by rewrite Hfiles|].
    assert (g i = if active fl =? 0 then Some i else None) as Hgi
      by (unfold g, closed_at; by rewrite Hfl).
    assert (forall j, 0 <= j < i -> g j = None) as Hlow.
    { intros j Hj. apply (proj1 (first_some_None g 0 _) Hno). lia. }
    destruct (active fl =? 0).
    + pose proof (arr_set_Some (fat16_files s2) i (mkFile (chosen s fs) cl cl sz 0 lba off 0 1)) as Hset.
      rewrite Hfiles in Hset. specialize (Hset ltac:(lia)).
      apply wp_bind. eapply wp_set_file; [by rewrite Hfiles|]. apply wp_ret, wp_ret.
      rewrite (first_some_intro g 0 _ i i) by (done || lia). split; [done|].
      eexists. split; [exact Hset|]. by apply holds_set_files.
    + apply wp_ret. split_and!; [done|lia|]. apply first_some_None. intros j Hj.
      destruct (decide (j = i)) as [->|]; [done|]. apply Hlow. lia.
  - intros [] s2 (Hs2 & _ & Hno). apply wp_ret.
    change (0 + Z.of_nat (Z.to_nat FAT16_MAX_OPEN_FILES)) with FAT16_MAX_OPEN_FILES in Hno.
    by rewrite Hno.
Qed.
End disks.
