(* ===== verification/Fat16Path.v ===== *)
(** * FAT16: names, creation, opening, deletion, mounting

    What the operations on paths promise their callers: the 8.3 form of a name,
    create/open/delete as operations on the set of names in the root directory,
    and the layout a successful mount computes. *)

From Stdlib Require Import Lia ZArith.
From stdpp Require Import base list gmap numbers option tactics.
From S2P Require Import Prelude PhysMem Io Ata Fat16 Fat16Dir.

(** ** Short names *)

Definition is_char (c : Z) : Prop := 0 < c < 256.
Definition plain_char (c : Z) : Prop := is_char c /\ c <> 46.

(** [field] padded with blanks to [n] characters. *)
Definition pad (n : nat) (field : list Z) : list Z :=
  map fat16_toupper field ++ replicate (n - length field) 32.

Lemma toupper_char c : is_char c -> is_char (fat16_toupper c).
Proof.
  unfold is_char, fat16_toupper. intros.
  destruct (Z.leb_spec 97 c), (Z.leb_spec c 122); simpl; lia.
Qed.

Lemma insert_pad pre n c suf :
  <[length pre := c]> (pre ++ replicate (S n) 32 ++ suf) = (pre ++ [c]) ++ replicate n 32 ++ suf.
Proof.
  replace (length pre) with (length pre + 0)%nat by lia.
  rewrite insert_app_r. cbn [replicate app insert list_insert]. by rewrite <- app_assoc.
Qed.

(** The base name: the part before the dot. *)
Lemma name_chars_base base rest pre :
  Forall plain_char base -> (length pre + length base <= 8)%nat ->
  name_chars (base ++ rest) (pre ++ replicate (8 - length pre) 32 ++ replicate 3 32)
    (length pre) 0 false =
  name_chars rest ((pre ++ map fat16_toupper base) ++
      replicate (8 - length pre - length base) 32 ++ replicate 3 32)
    (length pre + length base) 0 false.
Proof.
  revert pre. induction base as [|c base IH]; intros pre Hb Hl; cbn [app map length] in *.
  - by rewrite app_nil_r, Nat.sub_0_r, Nat.add_0_r.
  - apply list.Forall_cons in Hb as [[_ Hc] Hb]. cbn [name_chars].
    rewrite (proj2 (Z.eqb_neq c 46)), (proj2 (Nat.leb_gt 8 (length pre))) by (done || lia).
    replace (8 - length pre)%nat with (S (8 - length pre - 1))%nat by lia.
    rewrite insert_pad.
    replace (S (length pre)) with (length (pre ++ [fat16_toupper c])) by (rewrite length_app; simpl; lia).
    replace (8 - length pre - 1)%nat with (8 - length (pre ++ [fat16_toupper c]))%nat
      by (rewrite length_app; simpl; lia).
    rewrite IH by (done || (rewrite length_app; simpl; lia)).
    rewrite length_app. cbn [length]. rewrite <- !app_assoc. cbn [app].
    replace (length pre + 1 + length base)%nat with (length pre + S (length base))%nat by lia.
    by replace (S (8 - (length pre + 1)) - S (length base))%nat
      with (8 - (length pre + 1) - length base)%nat by lia.
Qed.

(** The extension. *)
Lemma name_chars_ext ext base pre n :
  Forall plain_char ext -> length base = 8%nat -> (length pre + length ext <= 3)%nat ->
  name_chars ext (base ++ pre ++ replicate (3 - length pre) 32) n (length pre) true =
  Some (base ++ (pre ++ map fat16_toupper ext) ++ replicate (3 - length pre - length ext) 32, n).
Proof.
  revert pre. induction ext as [|c ext IH]; intros pre Hb H8 Hl; cbn [map length name_chars] in *.
  - by rewrite app_nil_r, Nat.sub_0_r.
  - apply list.Forall_cons in Hb as [[_ Hc] Hb].
    rewrite (proj2 (Z.eqb_neq c 46)), (proj2 (Nat.leb_gt 3 (length pre))) by (done || lia).
    rewrite <- H8, insert_app_r. replace (3 - length pre)%nat with (S (3 - length pre - 1))%nat by lia.
    pose proof (insert_pad pre (3 - length pre - 1) (fat16_toupper c) []) as Hp.
    rewrite !app_nil_r in Hp. rewrite Hp.
    replace (S (length pre)) with (length (pre ++ [fat16_toupper c])) by (rewrite length_app; simpl; lia).
    replace (3 - length pre - 1)%nat with (3 - length (pre ++ [fat16_toupper c]))%nat
      by (rewrite length_app; simpl; lia).
    rewrite IH by (done || (rewrite length_app; simpl; lia)).
    rewrite length_app. cbn [length]. rewrite <- !app_assoc. cbn [app].
    by replace (S (3 - (length pre + 1)) - S (length ext))%nat
      with (3 - (length pre + 1) - length ext)%nat by lia.
Qed.

Definition slashes (p : list Z) : Prop := Forall (fun c => c = 47) p.

Lemma skip_slashes_app p base rest :
  slashes p -> match base with [] => True | c :: _ => c <> 47 end -> base <> [] ->
  skip_slashes (p ++ base ++ rest) = base ++ rest.
Proof.
  induction 1 as [|c p -> _ IH]; intros Hb Hne; cbn [app skip_slashes].
  - destruct base as [|c base]; [done|]. cbn [app skip_slashes].
    by rewrite (proj2 (Z.eqb_neq c 47)).
  - by apply IH.
Qed.

(** A base name and an extension the 8.3 form can hold. *)
Record short_name (base ext : list Z) : Prop := {
  sn_base : Forall plain_char base;
  sn_ext : Forall plain_char ext;
  sn_base_length : (1 <= length base <= 8)%nat;
  sn_ext_length : (length ext <= 3)%nat;
  sn_start : match base with c :: _ => c <> 47 | [] => True end;
}.

Lemma normalize_dotted p base ext :
  short_name base ext -> slashes p ->
  fat16_normalize_short_name (Some (p ++ base ++ 46 :: ext)) = Some (pad 8 base ++ pad 3 ext).
Proof.
  intros [Hb He [Hl1 Hl2] Hl3 Hs] Hp. unfold fat16_normalize_short_name.
  rewrite skip_slashes_app by (done || (intros ->; simpl in *; lia)).
  pose proof (name_chars_base base (46 :: ext) [] Hb Hl2) as H1. cbn [length app Nat.sub] in H1.
  change (replicate FAT16_MAX_FILE_NAME 32) with (replicate 8 32 ++ replicate 3 32).
  cbn [Nat.add] in H1. rewrite H1. cbn [name_chars].
  change (46 =? 46) with true. cbv iota.
  pose proof (name_chars_ext ext (map fat16_toupper base ++ replicate (8 - length base) 32) []
    (length base) He) as H2.
  cbn [length app Nat.sub] in H2. rewrite <- !app_assoc in H2. rewrite H2; [| |lia].
  - rewrite (proj2 (Nat.eqb_neq (length base) 0)) by lia. unfold pad. by rewrite <- !app_assoc.
  - rewrite length_app, length_map, length_replicate. lia.
Qed.

Lemma normalize_plain p base :
  short_name base [] -> slashes p ->
  fat16_normalize_short_name (Some (p ++ base)) = Some (pad 8 base ++ pad 3 []).
Proof.
  intros [Hb He [Hl1 Hl2] Hl3 Hs] Hp. unfold fat16_normalize_short_name.
  pose proof (skip_slashes_app p base [] Hp Hs) as H0. rewrite app_nil_r in H0.
  rewrite H0 by (intros ->; simpl in *; lia).
  pose proof (name_chars_base base [] [] Hb Hl2) as H1. cbn [length app Nat.sub] in H1.
  rewrite app_nil_r in H1.
  change (replicate FAT16_MAX_FILE_NAME 32) with (replicate 8 32 ++ replicate 3 32).
  cbn [Nat.add] in H1. rewrite H1. cbn [name_chars].
  rewrite (proj2 (Nat.eqb_neq (length base) 0)) by lia. unfold pad. by rewrite <- !app_assoc.
Qed.

Lemma length_pad n l : (length l <= n)%nat -> length (pad n l) = n.
Proof. intros. unfold pad. rewrite length_app, length_map, length_replicate. lia. Qed.

Lemma pad_bytes n l : Forall plain_char l -> Forall is_byte (pad n l).
Proof.
  intros Hl. unfold pad. apply list.Forall_app. split.
  - apply Forall_map. eapply list.Forall_impl; [exact Hl|]. intros c [Hc _].
    pose proof (toupper_char c Hc) as H. unfold is_char, is_byte in *. lia.
  - apply Forall_replicate. by compute.
Qed.

Lemma short_name_ok base ext : short_name base ext -> is_name (pad 8 base ++ pad 3 ext).
Proof.
  intros [Hb He [_ Hl] Hl' _]. split; [rewrite length_app, !length_pad by done; done|].
  apply list.Forall_app. split; by apply pad_bytes.
Qed.

(** ** Creating, opening, deleting *)

Section paths.
Context {D : Type} `{!BlockDevice D}.
Implicit Types s : fat16 D.

Lemma slot_ext (dat dat' : Z -> list Z) f k :
  fs_ok f -> (forall a, 0 <= a < bd_sectors -> dat' a = dat a) -> 0 <= k < slots f ->
  slot dat' f k = slot dat f k.
Proof.
  intros Hf H Hk. destruct (slot_range f k Hf Hk) as (_ & _ & Hb). unfold slot. by rewrite H.
Qed.

Lemma find_root_ext dat dat' f name :
  fs_ok f -> (forall a, 0 <= a < bd_sectors -> dat' a = dat a) ->
  find_root dat' f name = find_root dat f name.
Proof.
  intros Hf H. unfold find_root.
  rewrite (first_some_ext (find_slot dat' f name) (find_slot dat f name)); [done|].
  intros j Hj. unfold find_slot. rewrite (slot_ext dat dat') by (done || lia). done.
Qed.

Lemma holds_chosen s0 dat s fs : holds s0 dat s -> chosen s fs = chosen s0 fs.
Proof. intros [_ _ ->]. by destruct fs. Qed.

Lemma holds_trans s0 dat s dat' s' :
  holds s0 dat s -> holds s dat' s' -> holds s0 dat' s'.
Proof. intros [? ? Hr] [? ? Hr']. split; [done|done|]. by rewrite Hr', Hr. Qed.

(** What every operation on a path starts from. *)
Record path_ready s (fs : fs_ptr) (path : option (list Z)) (f : fat16_fs) (name : list Z) : Prop := {
  pr_disk : bd_ok (disk s);
  pr_fs : fs_value s (chosen s fs) = Some f;
  pr_volume : fs_ok f;
  pr_files : length (fat16_files s) = Z.to_nat FAT16_MAX_OPEN_FILES;
  pr_path : fat16_normalize_short_name path = Some name;
  pr_name : is_name name;
}.

Lemma path_ready_holds s fs path f name dat s' :
  path_ready s fs path f name -> holds s dat s' -> path_ready s' fs path f name.
Proof.
  intros [Hd Hv Hf Hl Hp Hn] Hs. split; [apply Hs| |done| |done|done].
  - by rewrite (holds_chosen s dat s'), (fs_value_holds s dat s').
  - by rewrite (holds_files s dat s').
Qed.

Lemma wp_create_open s fs path f name k i :
  path_ready s fs path f name -> plain_name name ->
  find_root (bd_data (disk s)) f name = FindNone ->
  find_free (bd_data (disk s)) f = Some k -> free_handle (fat16_files s) = Some i ->
  wp (r <- fat16_create fs path ;; fd <- fat16_open fs path ;; ret (r, fd))
     (fun v s' => v = (0, i + FAT16_FD_BASE) /\ exists l,
        arr_set (fat16_files s) i
          (mkFile (chosen s fs) 0 0 0 0 (slot_lba f k) (slot_offset k) 0 1) = Some l /\
        holds (set_files l s) (put_slot (bd_data (disk s)) f k (new_entry name)) s') s.
Proof.
  intros Hr Hpn Hno Hfree Hh. pose proof Hr as [Hd Hv Hf Hl Hp Hn].
  apply wp_bind. eapply wp_mono; [by eapply wp_fat16_create|].
  intros r s1 Hc. unfold create_post in Hc. cbv zeta in Hc. rewrite Hno, Hfree in Hc.
  destruct Hc as [-> Hs1]. pose proof (path_ready_holds _ _ _ _ _ _ _ Hr Hs1) as [Hd1 Hv1 _ Hl1 _ _].
  apply wp_bind. eapply wp_mono; [by eapply wp_fat16_open|].
  intros fd s2 Ho. unfold open_post in Ho. cbv zeta in Ho.
  rewrite (find_root_ext (put_slot (bd_data (disk s)) f k (new_entry name))) in Ho
    by (done || by intros a Ha; apply (ho_data _ _ _ Hs1)).
  rewrite find_root_created in Ho by (done || by intros a Ha; apply bd_sector).
  cbn [andb Z.ltb Z.compare] in Ho. change (0 <? 0) with false in Ho. cbn [andb] in Ho.
  rewrite (holds_files _ _ _ Hs1), Hh, (holds_chosen _ _ _ _ Hs1) in Ho.
  destruct Ho as (-> & l & Hset & Hs2). apply wp_ret. split; [done|]. exists l. split; [done|].
  destruct Hs1 as [_ Hd1' Hs1]. rewrite Hs1 in Hs2.
  destruct Hs2 as [Hok2 Hd2 Hr2]. split; [done| |by rewrite Hr2].
  intros a Ha. rewrite Hd2 by done. cbn [set_disk disk]. by apply Hd1'.
Qed.

Lemma fat_get_ext dat dat' f i c :
  fs_ok f -> 0 <= i < num_fats f -> 0 <= c < cluster_count f + 2 ->
  (forall a, fat_start_lba f <= a < root_dir_start_lba f -> dat' a = dat a) ->
  fat_get dat' f i c = fat_get dat f i c.
Proof.
  intros Hf Hi Hc H. destruct (fat_sector_range f i c Hf Hi Hc) as (_ & Hr & _).
  unfold fat_get. by rewrite H.
Qed.

Lemma wp_delete_open s fs path f name cl sz lba off :
  path_ready s fs path f name ->
  find_root (bd_data (disk s)) f name = Found cl sz lba off ->
  unique_name (bd_data (disk s)) f name ->
  wp (r <- fat16_delete fs path ;; fd <- fat16_open fs path ;; ret (r, fd))
     (fun v s' => v = (0, -1) /\ bd_ok (disk s') /\
        forall i c, 0 <= i < num_fats f -> 0 <= c < cluster_count f + 2 ->
          fat_get (bd_data (disk s')) f i c = fat_get (bd_data (disk s)) f i c) s.
Proof.
  intros Hr Hfound Hu. pose proof Hr as [Hd Hv Hf Hl Hp Hn].
  apply wp_bind. eapply wp_mono; [by eapply wp_fat16_delete|].
  intros r s1 Hc. unfold delete_post in Hc. cbv zeta in Hc. rewrite Hfound in Hc.
  destruct Hc as (-> & k & Hk & Hnm & Hs1).
  pose proof (path_ready_holds _ _ _ _ _ _ _ Hr Hs1) as [Hd1 Hv1 _ Hl1 _ _].
  apply wp_bind. eapply wp_mono; [by eapply wp_fat16_open|].
  intros fd s2 Ho. unfold open_post in Ho. cbv zeta in Ho.
  rewrite (find_root_ext (put_slot (bd_data (disk s)) f k (0xE5 :: slice (slot (bd_data (disk s)) f k) 1 31)))
    in Ho by (done || by intros a Ha; apply (ho_data _ _ _ Hs1)).
  rewrite find_root_deleted in Ho by (done || by intros a Ha; apply bd_sector).
  destruct Ho as [-> Hs2]. apply wp_ret. split; [done|]. split; [apply Hs2|].
  intros i c Hi Hc. apply fat_get_ext; [done..|]. intros a Ha.
  destruct (slot_range f k Hf Hk) as (Hrange & _ & Hb).
  rewrite (ho_data _ _ _ Hs2), (ho_data _ _ _ Hs1) by (pose proof (fo_start _ Hf); lia).
  apply put_slot_other. lia.
Qed.
End paths.

(** ** Mounting *)

(** The fields of the boot sector. *)
Definition bpb16 (sec : list Z) (o : Z) : Z := le_value (slice sec o 2).
Definition bpb8 (sec : list Z) (o : nat) : Z := byte sec o.

Definition bpb_total (sec : list Z) : Z :=
  if negb (bpb16 sec 0x13 =? 0) then bpb16 sec 0x13 else le_value (slice sec 0x20 4).
Definition bpb_root_sectors (sec : list Z) : Z := (bpb16 sec 0x11 * 32 + 511) / 512.
(** Sectors before the data area. *)
Definition bpb_meta (sec : list Z) : Z :=
  bpb16 sec 0x0E + bpb8 sec 0x10 * bpb16 sec 0x16 + bpb_root_sectors sec.

(** The layout a boot sector of 512-byte sectors at [volume] describes. *)
Definition layout_of (sec : list Z) (volume : Z) : fat16_fs :=
  let fat_start := volume + bpb16 sec 0x0E in
  let root_start := fat_start + bpb8 sec 0x10 * bpb16 sec 0x16 in
  let data_start := root_start + bpb_root_sectors sec in
  mkFs volume 512 (bpb8 sec 0x0D) (bpb16 sec 0x0E) (bpb8 sec 0x10) (bpb16 sec 0x11)
    (bpb16 sec 0x13) (le_value (slice sec 0x20 4)) (bpb16 sec 0x16) (bpb_total sec)
    (bpb_root_sectors sec) fat_start root_start data_start
    ((bpb_total sec - bpb_meta sec) / bpb8 sec 0x0D) (slice sec 3 8 ++ [0]) (bpb16 sec 510).

Section mount.
Context {D : Type} `{!BlockDevice D}.
Implicit Types s : fat16 D.

(** A boot sector [fat16_mount] accepts and whose volume fits the disk. *)
Record bpb_ok (sec : list Z) (volume : Z) : Prop := {
  bp_sector : is_sector sec;
  bp_signature : bpb16 sec 510 = FAT16_BOOT_SIGNATURE;
  bp_bps : bpb16 sec 0x0B = 512;
  bp_spc : bpb8 sec 0x0D <> 0;
  bp_reserved : bpb16 sec 0x0E <> 0;
  bp_fats : bpb8 sec 0x10 <> 0;
  bp_root : bpb16 sec 0x11 <> 0;
  bp_spf : bpb16 sec 0x16 <> 0;
  bp_total : bpb_meta sec <= bpb_total sec;
  bp_disk : 0 <= volume /\ volume + bpb_total sec <= bd_sectors /\ bd_sectors < 4294967296;
  bp_table : ((bpb_total sec - bpb_meta sec) / bpb8 sec 0x0D + 2) * 2 <= bpb16 sec 0x16 * 512;
  bp_clusters : (bpb_total sec - bpb_meta sec) / bpb8 sec 0x0D + 2 <= FAT16_CLUSTER_BAD;
}.

Lemma bpb16_range sec o : 0 <= bpb16 sec o < 65536.
Proof.
  unfold bpb16. pose proof (le_value_range (slice sec o 2)) as H.
  assert (length (slice sec o 2) <= 2)%nat by (unfold slice; rewrite length_take; lia).
  pose proof (Z.pow_le_mono_r 256 (Z.of_nat (length (slice sec o 2))) 2). lia.
Qed.

Lemma bpb8_range sec o : is_sector sec -> 0 <= bpb8 sec o < 256.
Proof.
  intros [_ Hb]. unfold bpb8, byte. destruct (sec !! o) eqn:E; cbn; [|lia].
  rewrite Forall_lookup in Hb. by eapply Hb.
Qed.

Lemma layout_ok sec volume : bpb_ok sec volume -> fs_ok (layout_of sec volume).
Proof.
  intros [Hs _ _ Hspc Hr Hnf Hre Hspf Ht [Hv [Hd Hlim]] Htab Hcl].
  pose proof (bpb8_range sec 0x0D Hs). pose proof (bpb8_range sec 0x10 Hs).
  pose proof (bpb16_range sec 0x16). pose proof (bpb16_range sec 0x0E).
  pose proof (bpb16_range sec 0x11).
  assert (0 <= bpb_root_sectors sec) by (apply Z.div_pos; lia).
  assert (0 <= (bpb_total sec - bpb_meta sec) / bpb8 sec 0x0D) by (apply Z.div_pos; lia).
  pose proof (Z.mul_div_le (bpb_total sec - bpb_meta sec) (bpb8 sec 0x0D) ltac:(lia)).
  assert (bpb_meta sec = bpb16 sec 0x0E + bpb8 sec 0x10 * bpb16 sec 0x16 + bpb_root_sectors sec)
    as Hm by done.
  split; cbn [layout_of bytes_per_sector sectors_per_cluster num_fats sectors_per_fat fat_start_lba
    root_dir_start_lba root_dir_sectors data_start_lba cluster_count]; try lia; try done.
Qed.

(** The same state with another volume mounted. *)
Definition mounted s (fs : fs_ptr) (f : fat16_fs) : fat16 D := set_mounted f (set_fs fs f s).

Lemma holds_set_fs s0 dat s p f : holds s0 dat s -> holds (set_fs p f s0) dat (set_fs p f s).
Proof. intros [Ho Hd Hr]. destruct p; split; try done; by rewrite Hr. Qed.

Lemma set_fs_twice s p f f' : set_fs p f' (set_fs p f s) = set_fs p f' s.
Proof. destruct p; [done|done|]. cbn. by rewrite insert_insert_eq. Qed.

Lemma wp_fat16_mount s fs volume :
  bd_ok (disk s) -> fs <> FsNull -> bpb_ok (bd_data (disk s) volume) volume ->
  let f := layout_of (bd_data (disk s) volume) volume in
  wp (fat16_mount fs volume) (fun r s' => r = 0 /\ fs_ok f /\
    holds (mounted s fs f) (bd_data (disk s)) s') s.
Proof.
  intros Hok Hfs Hb f. pose proof (layout_ok _ _ Hb) as Hf. fold f in Hf.
  pose proof Hb as [Hsec Hsig Hbps Hspc Hr Hnf Hre Hspf Ht [Hv [Hd Hlim]] _ _].
  pose proof Hsec as [Hl Hby]. set (sec := bd_data (disk s) volume) in *.
  pose proof (bpb8_range sec 0x0D Hsec). pose proof (bpb8_range sec 0x10 Hsec).
  pose proof (bpb16_range sec 0x16). pose proof (bpb16_range sec 0x0E).
  pose proof (bpb16_range sec 0x11).
  assert (0 <= bpb_root_sectors sec) by (apply Z.div_pos; lia).
  assert (fat16_mount fs volume = mount_volume fs volume) as -> by by destruct fs.
  unfold mount_volume. apply wp_bind. eapply wp_block_read; [by apply holds_refl|unfold bpb_meta in *; lia|].
  intros s1 Hs1. fold sec.
  apply wp_bind, wp_read_le16; [lia|lia|done|]. fold (bpb16 sec 510). rewrite Hsig.
  change (negb (FAT16_BOOT_SIGNATURE =? FAT16_BOOT_SIGNATURE)) with false. cbv iota.
  apply wp_bind, wp_read_le16; [lia|lia|done|]. fold (bpb16 sec 0x0B). rewrite Hbps.
  assert (forall o, 0 <= o < 512 -> sec !! Z.to_nat o = Some (bpb8 sec (Z.to_nat o))) as Hbyte.
  { intros o Ho. unfold bpb8, byte. destruct (byte_lookup sec (Z.to_nat o)) as [b E]; [lia|].
    by rewrite E. }
  apply wp_bind. eapply wp_byte_at; [lia|by apply Hbyte|].
  apply wp_bind, wp_read_le16; [lia|lia|done|]. fold (bpb16 sec 0x0E).
  apply wp_bind. eapply wp_byte_at; [lia|by apply Hbyte|].
  apply wp_bind, wp_read_le16; [lia|lia|done|]. fold (bpb16 sec 0x11).
  apply wp_bind, wp_read_le16; [lia|lia|done|]. fold (bpb16 sec 0x13).
  apply wp_bind, wp_read_le16; [lia|lia|done|]. fold (bpb16 sec 0x16).
  apply wp_bind, wp_read_le32; [lia|lia|done|].
  apply wp_bind, wp_memcpy; [lia|lia|rewrite length_replicate; unfold FAT16_OEM_NAME_SIZE; lia
    |unfold FAT16_OEM_NAME_SIZE; lia|done|].
  apply wp_bind, wp_modify. change (Z.to_nat 0x0D) with 0x0D%nat. change (Z.to_nat 0x10) with 0x10%nat.
  rewrite !(proj2 (Z.eqb_neq _ 0)) by done. cbn [orb].
  cbv zeta. fold (bpb_total sec). apply wp_bind, wp_modify.
  destruct (Z.eqb_spec (bpb_total sec) 0) as [E0|_]; [unfold bpb_meta in *; lia|].
  assert (u32 (u32 (bpb16 sec 17 * 32) + (512 - 1)) / 512 = bpb_root_sectors sec) as ->.
  { unfold bpb_root_sectors. by rewrite !u32_small by (rewrite ?u32_small by lia; lia). }
  assert (bpb_meta sec = bpb16 sec 0x0E + bpb8 sec 0x10 * bpb16 sec 0x16 + bpb_root_sectors sec)
    as Hm by done.
  assert (0 <= bpb8 sec 16 * bpb16 sec 22 < 4294967296) as Hp by nia.
  rewrite (u32_small (bpb8 sec 16 * _)), <- Hm by done.
  rewrite !u32_small by (rewrite ?u32_small by lia; lia).
  apply wp_bind, wp_modify, wp_bind, wp_modify, wp_ret. split; [done|]. split; [done|].
  rewrite !set_fs_twice. unfold mounted.
  assert (splice (replicate 9 0) 0 (slice sec 3 FAT16_OEM_NAME_SIZE) = slice sec 3 8 ++ [0]) as ->.
  { unfold splice. rewrite length_slice by (unfold FAT16_OEM_NAME_SIZE; lia). done. }
  rewrite <- Hsig.
  change (mkFs volume 512 _ _ _ _ _ _ _ _ _ _ _ _ _ _ _) with f.
  destruct Hs1 as [Ho1 Hd1 Hr1]. split; [by destruct fs|by destruct fs|]. rewrite Hr1. by destruct fs.
Qed.
End mount.

(** ** A concrete volume: 16 clusters of one sector, two FATs, 16 entries *)

Definition demo_boot_sector : list Z :=
  splice (splice (splice (replicate 512 0) 0x0B (le_bytes 2 512 ++ [1] ++ le_bytes 2 1 ++ [2] ++ le_bytes 2 16 ++ le_bytes 2 20))
    0x16 (le_bytes 2 1)) 510 (le_bytes 2 0xAA55).

Definition demo_volume : drive := mkDrive {[ 0 := demo_boot_sector ]} 0 0 0 0 Idle 0.
Definition demo_fat : fat16 drive := mkFat demo_volume (replicate 16 empty_file) zero_fs FsNull ∅.
Definition demo_layout : fat16_fs := layout_of demo_boot_sector 0.
Definition demo_mounted : fat16 drive := mounted demo_fat (FsAt 0) demo_layout.
Definition demo_path : list Z := [47; 97; 46; 116; 120; 116].
Definition demo_name : list Z := pad 8 [97] ++ pad 3 [116; 120; 116].

Lemma demo_boot_is_sector : is_sector demo_boot_sector.
Proof.
  unfold demo_boot_sector. repeat apply splice_sector; try (cbn; lia).
  - split; [apply length_replicate|apply Forall_replicate; by compute].
  - repeat constructor; by compute.
  - apply le_bytes_range.
  - apply le_bytes_range.
Qed.

Lemma demo_bpb : bpb_ok (D := drive) demo_boot_sector 0.
Proof. split; [apply demo_boot_is_sector|by vm_compute..]. Qed.

Lemma demo_volume_ok : drive_ok demo_volume.
Proof.
  split; [done|]. split; [unfold LATENCY; cbn; lia|]. intros a l. cbn [demo_volume dr_sectors].
  intros [_ <-]%lookup_singleton_Some. apply demo_boot_is_sector.
Qed.

Lemma demo_path_ready : path_ready demo_mounted FsNull (Some demo_path) demo_layout demo_name.
Proof.
  split; [apply demo_volume_ok|reflexivity|apply (layout_ok (D := drive)), demo_bpb|reflexivity|by vm_compute|].
  split; [reflexivity|]. repeat constructor; by compute.
Qed.

Lemma demo_plain : plain_name demo_name.
Proof. split; [apply demo_path_ready|by compute]. Qed.

Lemma demo_short : short_name [97] [116; 120; 116].
Proof.
  split; [| |simpl; lia|simpl; lia|done];
    repeat (constructor; [split; [by compute|done]|]); constructor.
Qed.

(** ** Properties *)

(** [fat16_normalize_short_name] turns a path of an optional run of slashes,
    a base name of 1 to 8 characters and an extension of at most 3 (or no
    extension) into the upper-cased, blank-padded 11-byte form of the directory. *)
Theorem fat16_normalize_8_3 p base ext :
  short_name base ext -> slashes p ->
  fat16_normalize_short_name (Some (p ++ base ++ 46 :: ext)) = Some (pad 8 base ++ pad 3 ext) /\
  (ext = [] -> fat16_normalize_short_name (Some (p ++ base)) = Some (pad 8 base ++ pad 3 [])) /\
  is_name (pad 8 base ++ pad 3 ext).
Proof.
  intros Hs Hp. split_and!; [by apply normalize_dotted| |by apply short_name_ok].
  intros ->. by apply normalize_plain.
Qed.

Lemma fat16_normalize_8_3_witness :
  fat16_normalize_short_name (Some demo_path) = Some demo_name /\
  ([116; 120; 116] = [] -> fat16_normalize_short_name (Some [47; 97]) = Some (pad 8 [97] ++ pad 3 [])) /\
  is_name demo_name.
Proof. apply (fat16_normalize_8_3 [47] [97] [116; 120; 116]); [apply demo_short|by constructor]. Defined.

(** C30: [fat16_create] answers 0 exactly when no file of that name exists and the
    directory has a free entry; it then replaces the first free entry by an empty
    archive file of that name and changes no other byte of the disk. *)
Theorem fat16_create_correct D (HD : BlockDevice D) (s : fat16 D) fs path f name :
  path_ready s fs path f name -> wp (fat16_create fs path) (create_post s f name) s.
Proof. intros []. by apply wp_fat16_create. Qed.

Lemma fat16_create_correct_witness :
  wp (fat16_create FsNull (Some demo_path)) (create_post demo_mounted demo_layout demo_name) demo_mounted.
Proof. apply fat16_create_correct, demo_path_ready. Defined.

(** A file just created opens: [fat16_open] answers the first free handle,
    positioned at 0 in an empty file whose directory entry is the new one. *)
Theorem fat16_create_open_roundtrip D (HD : BlockDevice D) (s : fat16 D) fs path f name k i :
  path_ready s fs path f name -> plain_name name ->
  find_root (bd_data (disk s)) f name = FindNone ->
  find_free (bd_data (disk s)) f = Some k -> free_handle (fat16_files s) = Some i ->
  wp (r <- fat16_create fs path ;; fd <- fat16_open fs path ;; ret (r, fd))
     (fun v s' => v = (0, i + FAT16_FD_BASE) /\ exists l,
        arr_set (fat16_files s) i
          (mkFile (chosen s fs) 0 0 0 0 (slot_lba f k) (slot_offset k) 0 1) = Some l /\
        holds (set_files l s) (put_slot (bd_data (disk s)) f k (new_entry name)) s') s.
Proof. apply wp_create_open. Qed.

Lemma fat16_create_open_roundtrip_witness :
  wp (r <- fat16_create FsNull (Some demo_path) ;; fd <- fat16_open FsNull (Some demo_path) ;; ret (r, fd))
     (fun v s' => v = (0, 0 + FAT16_FD_BASE) /\ exists l,
        arr_set (fat16_files demo_mounted) 0
          (mkFile (chosen demo_mounted FsNull) 0 0 0 0 (slot_lba demo_layout 0) (slot_offset 0) 0 1)
          = Some l /\
        holds (set_files l demo_mounted)
          (put_slot (bd_data (disk demo_mounted)) demo_layout 0 (new_entry demo_name)) s') demo_mounted.
Proof.
  apply (fat16_create_open_roundtrip drive _ demo_mounted FsNull (Some demo_path) demo_layout demo_name 0 0);
    [apply demo_path_ready|apply demo_plain|by vm_compute|by vm_compute|by vm_compute].
Defined.

(** After [fat16_delete] of a file whose name occurs once, [fat16_open] of
    that name fails.  No entry of the FAT changes, so the clusters of the deleted
    file stay allocated. *)
Theorem fat16_delete_then_open D (HD : BlockDevice D) (s : fat16 D) fs path f name cl sz lba off :
  path_ready s fs path f name ->
  find_root (bd_data (disk s)) f name = Found cl sz lba off ->
  unique_name (bd_data (disk s)) f name ->
  wp (r <- fat16_delete fs path ;; fd <- fat16_open fs path ;; ret (r, fd))
     (fun v s' => v = (0, -1) /\ bd_ok (disk s') /\
        forall i c, 0 <= i < num_fats f -> 0 <= c < cluster_count f + 2 ->
          fat_get (bd_data (disk s')) f i c = fat_get (bd_data (disk s)) f i c) s.
Proof. apply wp_delete_open. Qed.

(** The volume with one file of 5 bytes in cluster 2. *)
Definition demo_root_sector : list Z :=
  splice (replicate 512 0) 0 (demo_name ++ [0x20] ++ replicate 14 0 ++ le_bytes 2 2 ++ le_bytes 4 5).
Definition demo_one_file : fat16 drive :=
  set_disk (mkDrive {[ 0 := demo_boot_sector; 3 := demo_root_sector ]} 0 0 0 0 Idle 0) demo_mounted.

Lemma demo_one_file_ready : path_ready demo_one_file FsNull (Some demo_path) demo_layout demo_name.
Proof.
  destruct demo_path_ready as [_ Hv Hf Hl Hp Hn]. split; [|done|done|done|done|done].
  split; [done|]. split; [cbn; lia|]. intros a l.
  cbn [demo_one_file set_disk disk dr_sectors].
  intros [[_ <-]|[_ [_ <-]%lookup_singleton_Some]]%lookup_insert_Some; [apply demo_boot_is_sector|].
  unfold demo_root_sector. apply splice_sector; [|lia|cbn; lia|].
  - split; [apply length_replicate|apply Forall_replicate; by compute].
  - repeat constructor; by compute.
Qed.

Lemma fat16_delete_then_open_witness :
  wp (r <- fat16_delete FsNull (Some demo_path) ;; fd <- fat16_open FsNull (Some demo_path) ;; ret (r, fd))
     (fun v s' => v = (0, -1) /\ bd_ok (disk s') /\
        forall i c, 0 <= i < num_fats demo_layout -> 0 <= c < cluster_count demo_layout + 2 ->
          fat_get (bd_data (disk s')) demo_layout i c =
          fat_get (bd_data (disk demo_one_file)) demo_layout i c) demo_one_file.
Proof.
  apply (fat16_delete_then_open drive _ demo_one_file FsNull (Some demo_path) demo_layout demo_name 2 5 3 0);
    [apply demo_one_file_ready|by vm_compute|].
  intros j k Hj Hk. change (slots demo_layout) with 16 in *.
  assert (forallb (fun i => negb (slot_named demo_name (slot (bd_data (disk demo_one_file)) demo_layout i))
    || (i =? 0)) (seqZ 0 16) = true) as Hall by (vm_compute; reflexivity).
  assert (forall i, 0 <= i < 16 ->
    slot_named demo_name (slot (bd_data (disk demo_one_file)) demo_layout i) = true -> i = 0) as H.
  { intros i Hi Hs. rewrite forallb_forall in Hall.
    assert (In i (seqZ 0 16)) as Hin by (apply list_elem_of_In, elem_of_seqZ; lia).
    specialize (Hall i Hin). rewrite Hs in Hall. cbn [negb orb] in Hall. lia. }
  intros H1 H2. by rewrite (H j), (H k).
Defined.

(** [fat16_mount] of a consistent 512-byte-sector boot sector answers 0 and
    mounts the layout the sector describes, in which the FATs, the root directory
    and the data area follow each other inside the disk and the FAT covers every
    cluster; the disk is only read. *)
Theorem fat16_mount_layout D (HD : BlockDevice D) (s : fat16 D) fs volume :
  bd_ok (disk s) -> fs <> FsNull -> bpb_ok (bd_data (disk s) volume) volume ->
  let f := layout_of (bd_data (disk s) volume) volume in
  wp (fat16_mount fs volume) (fun r s' => r = 0 /\ fs_ok f /\
    holds (mounted s fs f) (bd_data (disk s)) s') s.
Proof. apply wp_fat16_mount. Qed.

Lemma fat16_mount_layout_witness :
  wp (fat16_mount (FsAt 0) 0) (fun r s' => r = 0 /\ fs_ok demo_layout /\
    holds (mounted demo_fat (FsAt 0) demo_layout) (bd_data (disk demo_fat)) s') demo_fat.
Proof.
  assert (bd_data (disk demo_fat) 0 = demo_boot_sector) as E by (vm_compute; reflexivity).
  pose proof (fat16_mount_layout drive _ demo_fat (FsAt 0) 0 demo_volume_ok) as H.
  rewrite E in H. apply H; [discriminate|apply demo_bpb].
Defined.
