(* ===== verification/Fat16File.v ===== *)
(** * Contents of FAT16 files: reading, writing and closing

    A file is a chain of clusters; its bytes are the bytes of the sectors of the
    chain in order.  [fat16_read] answers a range of these bytes, [fat16_write]
    replaces a range and extends the chain by free clusters, [fat16_close] stores
    size and first cluster in the directory. *)

From stdpp Require Import base list gmap numbers option tactics.
From S2P Require Import Prelude Io Ata Fat16 Fat16Dir.

(** ** Bytes of a file *)

Definition cluster_bytes (f : fat16_fs) : Z := 512 * sectors_per_cluster f.
Definition cluster_lba (f : fat16_fs) (c : Z) : Z := data_start_lba f + (c - 2) * sectors_per_cluster f.
Definition cs_at (cs : list Z) (k : Z) : Z := default 0 (cs !! Z.to_nat k).

(** Sector [a] of the file, counted from its first byte. *)
Definition nth_sector (f : fat16_fs) (cs : list Z) (a : Z) : Z :=
  cluster_lba f (cs_at cs (a / sectors_per_cluster f)) + a mod sectors_per_cluster f.

Definition file_byte (dat : Z -> list Z) (f : fat16_fs) (cs : list Z) (q : Z) : Z :=
  byte (dat (nth_sector f cs (q / 512))) (Z.to_nat (q mod 512)).
Definition file_bytes (dat : Z -> list Z) (f : fat16_fs) (cs : list Z) (p n : Z) : list Z :=
  file_byte dat f cs <$> seqZ p n.

(** The FAT links the clusters of [cs] and ends the list. *)
Record chain (dat : Z -> list Z) (f : fat16_fs) (cs : list Z) : Prop := {
  ch_ok : Forall (cluster_ok f) cs;
  ch_link : forall k a b, cs !! k = Some a -> cs !! S k = Some b -> fat_get dat f 0 a = b;
  ch_end : forall a, list.last cs = Some a -> FAT16_CLUSTER_EOC <= fat_get dat f 0 a;
}.

Section geometry.
Context {D : Type} `{!BlockDevice D} (f : fat16_fs).
Hypothesis Hf : fs_ok f.
#[local] Set Default Proof Using "All".

Lemma chain_nodup dat cs : chain dat f cs -> NoDup cs.
Proof.
  intros [Hok Hlink Hend]. apply NoDup_alt. intros i j a Hi Hj.
  assert (forall i j, (i < j)%nat -> cs !! i = Some a -> cs !! j = Some a -> False) as Hlt.
  { clear i j Hi Hj. intros i j Hij Hi Hj. pose proof (lookup_lt_Some _ _ _ Hj) as Hjl.
    assert (forall d, (j + d < length cs)%nat -> cs !! (i + d)%nat = cs !! (j + d)%nat) as Heq.
    { induction d as [|d IH]; intros Hd; [by rewrite !Nat.add_0_r, Hi, Hj|].
      specialize (IH ltac:(lia)).
      destruct (lookup_lt_is_Some_2 cs (i + d)) as [x Hx]; [lia|].
      destruct (lookup_lt_is_Some_2 cs (i + S d)) as [y Hy]; [lia|].
      destruct (lookup_lt_is_Some_2 cs (j + S d)) as [z Hz]; [lia|].
      rewrite Nat.add_succ_r in Hy, Hz. pose proof (Hlink _ _ _ Hx Hy) as E1.
      rewrite Hx in IH. symmetry in IH. pose proof (Hlink _ _ _ IH Hz) as E2.
      rewrite !Nat.add_succ_r, Hy, Hz. congruence. }
    set (d := (length cs - 1 - j)%nat). specialize (Heq d ltac:(lia)).
    destruct (lookup_lt_is_Some_2 cs (j + d)) as [x Hx]; [lia|].
    destruct (lookup_lt_is_Some_2 cs (S (i + d))) as [y Hy]; [lia|].
    assert (list.last cs = Some x) as Hlast.
    { rewrite list.last_lookup. by replace (pred (length cs)) with (j + d)%nat by lia. }
    pose proof (Hend _ Hlast) as He. rewrite Hx in Heq. pose proof (Hlink _ _ _ Heq Hy) as Hl.
    rewrite list.Forall_forall in Hok.
    pose proof (Hok y ltac:(by apply list_elem_of_lookup; eauto)) as Hy2.
    pose proof (fo_small _ Hf). unfold cluster_ok, FAT16_CLUSTER_BAD, FAT16_CLUSTER_EOC in *. lia. }
  destruct (Nat.lt_trichotomy i j) as [H|[H|H]]; [|done|]; exfalso; eauto.
Qed.


Lemma spc_pos : 0 < sectors_per_cluster f.
Proof. destruct Hf. lia. Qed.

Lemma cs_at_ok cs k :
  Forall (cluster_ok f) cs -> 0 <= k < Z.of_nat (length cs) -> cluster_ok f (cs_at cs k).
Proof.
  intros Hcs Hk. unfold cs_at. destruct (lookup_lt_is_Some_2 cs (Z.to_nat k)) as [c Hc]; [lia|].
  rewrite Hc. cbn. rewrite list.Forall_forall in Hcs. apply Hcs. apply list_elem_of_lookup. eauto.
Qed.

Lemma cluster_sector_range c j :
  cluster_ok f c -> 0 <= j < sectors_per_cluster f ->
  data_start_lba f <= cluster_lba f c + j < bd_sectors.
Proof.
  intros Hc Hj. destruct Hf. unfold cluster_ok, cluster_lba in *. nia.
Qed.

Lemma nth_sector_range cs a :
  Forall (cluster_ok f) cs -> 0 <= a < Z.of_nat (length cs) * sectors_per_cluster f ->
  data_start_lba f <= nth_sector f cs a < bd_sectors.
Proof.
  intros Hcs Ha. pose proof spc_pos. unfold nth_sector. apply cluster_sector_range.
  - apply cs_at_ok; [done|]. split; [apply Z.div_pos; lia|]. apply Z.div_lt_upper_bound; lia.
  - by apply Z.mod_pos_bound.
Qed.

Lemma data_start_nonneg : 0 <= data_start_lba f.
Proof. destruct Hf. nia. Qed.

(** What [locate] computes. *)
Lemma locate_eq cs fl :
  Forall (cluster_ok f) cs -> 0 <= position fl < Z.of_nat (length cs) * cluster_bytes f ->
  current_cluster fl = cs_at cs (position fl / cluster_bytes f) ->
  locate f fl = ((position fl / 512) mod sectors_per_cluster f, position fl mod 512,
                 nth_sector f cs (position fl / 512)).
Proof.
  intros Hcs Hp Hc. pose proof spc_pos as Hspc. unfold cluster_bytes in *.
  set (q := position fl) in *. set (spc := sectors_per_cluster f) in *.
  assert (1 <= spc < 256) as Hs by apply Hf.
  assert (0 <= q / 512 < Z.of_nat (length cs) * spc) as Ha.
  { split; [apply Z.div_pos; lia|]. apply Z.div_lt_upper_bound; lia. }
  pose proof (nth_sector_range cs (q / 512) Hcs Ha) as Hr. pose proof data_start_nonneg as Hd.
  assert (q / (512 * spc) = q / 512 / spc) as Hq by (rewrite Z.div_div; lia).
  assert (q mod (512 * spc) = q mod 512 + 512 * ((q / 512) mod spc)) as Hm by (by rewrite Z.rem_mul_r by lia).
  pose proof (Z.mod_pos_bound q 512 ltac:(lia)). pose proof (Z.mod_pos_bound (q / 512) spc Hspc).
  assert (0 <= q / (512 * spc) < Z.of_nat (length cs)) as Hk.
  { split; [apply Z.div_pos; lia|]. apply Z.div_lt_upper_bound; lia. }
  pose proof (cs_at_ok cs _ Hcs Hk) as Hok. unfold cluster_ok in Hok.
  assert (bytes_per_sector f = 512) as Hbps by apply Hf. pose proof (fo_limit _ Hf) as Hlim.
  unfold locate. cbv zeta. rewrite Hbps. fold spc.
  rewrite (u32_small (512 * spc)) by lia.
  fold q. rewrite Hm. rewrite (Z.mul_comm 512 ((q / 512) mod spc)), Z.div_add, Z.mod_add by lia.
  rewrite (Z.div_small (q mod 512)), Z.mod_mod, Z.add_0_l by lia.
  f_equal. unfold fat16_cluster_to_lba. rewrite Hq in Hok, Hc. rewrite Hc.
  unfold nth_sector, cluster_lba in *. fold spc in Hr |- *.
  set (c := cs_at cs (q / 512 / spc)) in *. pose proof (fo_small _ Hf). unfold FAT16_CLUSTER_BAD in *.
  assert (0 <= (c - 2) * spc) by nia.
  rewrite (u32_small (c - 2)) by lia. rewrite (u32_small ((c - 2) * spc)) by lia.
  rewrite (u32_small (data_start_lba f + _)) by lia. by rewrite u32_small by lia.
Qed.

Lemma file_slice dat cs q n :
  is_sector (dat (nth_sector f cs (q / 512))) -> 0 <= q -> 0 <= n -> q mod 512 + n <= 512 ->
  slice (dat (nth_sector f cs (q / 512))) (q mod 512) (Z.to_nat n) = file_bytes dat f cs q n.
Proof using Type.
  intros [Hl _] Hq Hn Hm. pose proof (Z.mod_pos_bound q 512 ltac:(lia)) as Hr.
  pose proof (Z.div_mod q 512 ltac:(lia)) as Hdm.
  apply list_eq. intros i. unfold file_bytes. rewrite list_lookup_fmap.
  destruct (decide (i < Z.to_nat n)%nat) as [Hi|Hi].
  - rewrite slice_lookup, lookup_seqZ_lt by lia. cbn. unfold file_byte, byte.
    assert ((q + Z.of_nat i) / 512 = q / 512) as -> by (symmetry; apply (Z.div_unique _ _ _ (q mod 512 + Z.of_nat i)); lia).
    assert ((q + Z.of_nat i) mod 512 = q mod 512 + Z.of_nat i) as ->
      by (symmetry; apply (Z.mod_unique _ _ (q / 512)); lia).
    replace (Z.to_nat (q mod 512 + Z.of_nat i)) with (Z.to_nat (q mod 512) + i)%nat by lia.
    destruct (byte_lookup (dat (nth_sector f cs (q / 512))) (Z.to_nat (q mod 512) + i)) as [b ->]; [lia|done].
  - rewrite lookup_ge_None_2 by (rewrite length_slice; lia).
    rewrite (lookup_ge_None_2 (seqZ q n)); [done|]. rewrite length_seqZ. lia.
Qed.

Lemma file_bytes_app dat cs q n m :
  0 <= n -> 0 <= m -> file_bytes dat f cs q n ++ file_bytes dat f cs (q + n) m = file_bytes dat f cs q (n + m).
Proof using Type. intros. unfold file_bytes. by rewrite <- fmap_app, seqZ_app. Qed.

Lemma length_file_bytes dat cs q n : 0 <= n -> Z.of_nat (length (file_bytes dat f cs q n)) = n.
Proof using Type. intros. unfold file_bytes. rewrite length_fmap, length_seqZ. lia. Qed.

(** The cluster of the byte after a chunk. *)
Lemma next_cluster q chunk :
  0 <= q -> 0 < chunk -> q mod 512 + chunk <= 512 ->
  (q + chunk) / cluster_bytes f = q / cluster_bytes f +
    (if ends_cluster f ((q / 512) mod sectors_per_cluster f) (q mod 512) chunk then 1 else 0).
Proof.
  intros Hq Hc Hm. pose proof spc_pos as Hs. unfold cluster_bytes, ends_cluster.
  assert (bytes_per_sector f = 512) as -> by apply Hf. set (spc := sectors_per_cluster f) in *.
  rewrite <- !Z.div_div by lia. pose proof (Z.mod_pos_bound q 512 ltac:(lia)).
  pose proof (Z.div_mod q 512 ltac:(lia)). pose proof (Z.mod_pos_bound (q / 512) spc Hs).
  pose proof (Z.div_mod (q / 512) spc ltac:(lia)).
  destruct (Z.eqb_spec (q mod 512 + chunk) 512) as [E|E]; cycle 1.
  - rewrite andb_false_r, Z.add_0_r. f_equal. symmetry. apply (Z.div_unique _ _ _ (q mod 512 + chunk)); lia.
  - rewrite andb_true_r. assert ((q + chunk) / 512 = q / 512 + 1) as ->
      by (symmetry; apply (Z.div_unique _ _ _ 0); lia).
    destruct (Z.eqb_spec ((q / 512) mod spc) (spc - 1)) as [E'|E']; symmetry.
    + apply (Z.div_unique _ _ _ 0); nia.
    + apply (Z.div_unique _ _ _ ((q / 512) mod spc + 1)); lia.
Qed.

(** The last byte of a chunk lies in the cluster of its first. *)
Lemma last_byte_cluster q chunk :
  0 <= q -> 0 < chunk -> q mod 512 + chunk <= 512 -> (q + chunk - 1) / cluster_bytes f = q / cluster_bytes f.
Proof.
  intros Hq Hc Hm. destruct (decide (chunk = 1)) as [->|Hne]; [f_equal; lia|].
  pose proof (next_cluster q (chunk - 1) Hq ltac:(lia) ltac:(lia)) as Hn. unfold ends_cluster in Hn.
  rewrite (fo_bps _ Hf), (proj2 (Z.eqb_neq (q mod 512 + (chunk - 1)) 512)), andb_false_r in Hn by lia.
  replace (q + chunk - 1) with (q + (chunk - 1)) by lia. lia.
Qed.

Lemma chain_next dat cs k :
  chain dat f cs -> 0 <= k -> k + 1 < Z.of_nat (length cs) ->
  fat_get dat f 0 (cs_at cs k) = cs_at cs (k + 1).
Proof using Type.
  intros Hch Hk Hl. unfold cs_at.
  destruct (lookup_lt_is_Some_2 cs (Z.to_nat k)) as [a Ha]; [lia|].
  destruct (lookup_lt_is_Some_2 cs (S (Z.to_nat k))) as [b Hb]; [lia|].
  replace (Z.to_nat (k + 1)) with (S (Z.to_nat k)) by lia. rewrite Ha, Hb. cbn.
  by eapply ch_link.
Qed.

Lemma cluster_index (cs : list Z) q :
  0 <= q < Z.of_nat (length cs) * cluster_bytes f -> 0 <= q / cluster_bytes f < Z.of_nat (length cs).
Proof.
  intros Hq. pose proof spc_pos. unfold cluster_bytes in *.
  split; [apply Z.div_pos; lia|]. apply Z.div_lt_upper_bound; lia.
Qed.

Lemma sector_index (cs : list Z) q :
  0 <= q < Z.of_nat (length cs) * cluster_bytes f -> 0 <= q / 512 < Z.of_nat (length cs) * sectors_per_cluster f.
Proof.
  intros Hq. pose proof spc_pos. unfold cluster_bytes in *.
  split; [apply Z.div_pos; lia|]. apply Z.div_lt_upper_bound; lia.
Qed.
End geometry.

(** ** Open files *)

Section files.
Context {D : Type} `{!BlockDevice D}.
Implicit Types s : fat16 D.
Implicit Types dat : Z -> list Z.

(** The state [s] is [s0] but for the disk, which holds [dat], and file [i],
    which is [fl]. *)
Definition fholds s0 (i : Z) dat (fl : fat16_file) s : Prop :=
  exists l, arr_set (fat16_files s0) i fl = Some l /\ holds (set_files l s0) dat s.

Lemma fholds_intro s0 i dat fl s :
  holds s0 dat s -> arr_get (fat16_files s0) i = Some fl -> fholds s0 i dat fl s.
Proof.
  intros Hs Hg. exists (fat16_files s0). pose proof (arr_get_range _ _ _ Hg) as Hr.
  rewrite arr_set_Some by done. split.
  - f_equal. apply list_insert_id. unfold arr_get in Hg. by rewrite (proj2 (Z.leb_le 0 i)) in Hg by lia.
  - by destruct s0.
Qed.

Lemma fholds_holds s0 i dat fl s : fholds s0 i dat fl s -> holds s dat s.
Proof. intros (l & _ & [Ho Hd _]). split; [done|done|by destruct s]. Qed.

Lemma fholds_step s0 i dat fl s dat' s' :
  fholds s0 i dat fl s -> holds s dat' s' -> fholds s0 i dat' fl s'.
Proof.
  intros (l & Hl & [Ho Hd Hr]) [Ho' Hd' Hr']. exists l. split; [done|].
  split; [done|done|]. rewrite Hr', Hr. by destruct s0.
Qed.

Lemma fholds_value s0 i dat fl s p : fholds s0 i dat fl s -> fs_value s p = fs_value s0 p.
Proof. intros (l & _ & Hh). rewrite (fs_value_holds _ _ _ _ Hh). by destruct p. Qed.

Lemma fholds_sector s0 i dat fl s a : fholds s0 i dat fl s -> 0 <= a < bd_sectors -> is_sector (dat a).
Proof. intros (l & _ & Hh). by eapply holds_sector. Qed.

Lemma wp_file_get s0 i dat fl s (Q : fat16_file -> fat16 D -> Prop) :
  fholds s0 i dat fl s -> Q fl s -> wp (get_file i) Q s.
Proof.
  intros (l & Hl & Hh) HQ. eapply wp_get_file; [|done]. rewrite (holds_files _ _ _ Hh).
  by eapply arr_get_set_eq.
Qed.

Lemma wp_file_set s0 i dat fl fl' s (Q : unit -> fat16 D -> Prop) :
  fholds s0 i dat fl s -> (forall s', fholds s0 i dat fl' s' -> Q tt s') -> wp (set_file i fl') Q s.
Proof.
  intros (l & Hl & Hh) HQ. apply arr_set_inv in Hl as [Hr ->].
  pose proof (holds_files _ _ _ Hh) as Hfiles. cbn in Hfiles.
  eapply wp_set_file; [apply arr_set_Some; rewrite Hfiles, length_insert; lia|].
  apply HQ. exists (<[Z.to_nat i:=fl']> (fat16_files s0)). split; [by apply arr_set_Some|].
  rewrite Hfiles, list_insert_insert_eq. destruct Hh as [Ho Hd Hs]. split; [done|done|]. rewrite Hs. by destruct s0.
Qed.

Lemma wp_file_update s0 i dat fl s g (Q : unit -> fat16 D -> Prop) :
  fholds s0 i dat fl s -> (forall s', fholds s0 i dat (g fl) s' -> Q tt s') -> wp (update_file i g) Q s.
Proof.
  intros Hh HQ. unfold update_file. apply wp_bind. eapply wp_file_get; [done|].
  by eapply wp_file_set.
Qed.

(** File [i] is open on a chain [cs] that covers its size, and its current cluster
    is the one of its position. *)
Record open_file s (i : Z) (fl : fat16_file) (f : fat16_fs) (cs : list Z) : Prop := {
  of_ok : bd_ok (disk s);
  of_index : 0 <= i < FAT16_MAX_OPEN_FILES;
  of_get : arr_get (fat16_files s) i = Some fl;
  of_active : active fl <> 0;
  of_fs : fs_value s (ffs fl) = Some f;
  of_fs_ok : fs_ok f;
  of_chain : chain (bd_data (disk s)) f cs;
  of_size : 0 <= fsize fl <= Z.of_nat (length cs) * cluster_bytes f;
  of_size32 : fsize fl < 4294967296;
  of_pos : 0 <= position fl;
  of_current : position fl < fsize fl -> current_cluster fl = cs_at cs (position fl / cluster_bytes f);
}.

Lemma wp_file_of_fd s i fl f (Q : option Z -> fat16 D -> Prop) :
  0 <= i < FAT16_MAX_OPEN_FILES -> arr_get (fat16_files s) i = Some fl -> active fl <> 0 ->
  fs_value s (ffs fl) = Some f -> Q (Some i) s -> wp (file_of_fd (i + FAT16_FD_BASE)) Q s.
Proof.
  intros Hi Hg Ha Hv HQ. unfold file_of_fd. cbv zeta.
  replace (i + FAT16_FD_BASE - FAT16_FD_BASE) with i by lia.
  rewrite (proj2 (Z.ltb_ge i 0)), (proj2 (Z.leb_gt _ i)) by lia. cbn [orb].
  apply wp_bind. eapply wp_get_file; [done|]. rewrite (proj2 (Z.eqb_neq _ _)) by done.
  destruct (ffs fl); [done|by apply wp_ret|by apply wp_ret].
Qed.

(** The state of the file after [n] more bytes were read. *)
Definition moved (fl : fat16_file) (p c : Z) : fat16_file := set_position p (set_current c fl).

Definition read_inv s0 i dat fl f cs n (l : Z * list Z) s : Prop :=
  let '(remaining, out) := l in
  exists t c, 0 <= t <= n /\ remaining = n - t /\ out = file_bytes dat f cs (position fl) t /\
    fholds s0 i dat (moved fl (position fl + t) c) s /\
    (position fl + t < fsize fl -> c = cs_at cs ((position fl + t) / cluster_bytes f)).

Definition read_post s0 i dat fl f cs n (r : Z * list Z) s : Prop :=
  r = (n, file_bytes dat f cs (position fl) n) /\ exists c,
    fholds s0 i dat (moved fl (position fl + n) c) s /\
    (position fl + n < fsize fl -> c = cs_at cs ((position fl + n) / cluster_bytes f)).

Definition read_step_post s0 i dat fl f cs n remaining (r : Z * list Z + Z * list Z) s : Prop :=
  match r with
  | inl l => read_inv s0 i dat fl f cs n l s /\ (Z.to_nat (fst l) < Z.to_nat remaining)%nat
  | inr v => read_post s0 i dat fl f cs n v s
  end.

(** The move to the next cluster after [t] bytes, the last of which ended a cluster. *)
Lemma wp_read_move s0 i dat fl f cs n t k remaining s :
  fs_ok f -> chain dat f cs -> 0 <= position fl -> 0 <= t <= n -> (Z.to_nat (n - t) < Z.to_nat remaining)%nat ->
  position fl + t < Z.of_nat (length cs) * cluster_bytes f -> 0 <= k ->
  (position fl + t) / cluster_bytes f = k + 1 ->
  fholds s0 i dat (moved fl (position fl + t) (cs_at cs k)) s ->
  wp (next_cluster <- fat16_read_fat_entry f (cs_at cs k) ;;
      if (next_cluster <? FAT16_CLUSTER_MIN) || fat16_is_eoc next_cluster then
        ret (inr (Z.of_nat (length (file_bytes dat f cs (position fl) t)), file_bytes dat f cs (position fl) t))
      else
        update_file i (set_current next_cluster) ;;
        ret (inl (n - t, file_bytes dat f cs (position fl) t)))
    (read_step_post s0 i dat fl f cs n remaining) s.
Proof.
  intros Hf Hch Hp Ht Hrem Hcap Hk Hnext Hs.
  pose proof (cluster_index f Hf cs (position fl + t) ltac:(lia)) as Hk'. rewrite Hnext in Hk'.
  pose proof (cs_at_ok f Hf cs k (ch_ok _ _ _ Hch) ltac:(lia)) as Hcok.
  pose proof (cs_at_ok f Hf cs (k + 1) (ch_ok _ _ _ Hch) Hk') as Hcok'. unfold cluster_ok in *.
  apply wp_bind. eapply wp_read_fat_entry; [by eapply fholds_holds|done|lia|].
  intros s1 Hs1%(fholds_step _ _ _ _ _ _ _ Hs). rewrite (chain_next f dat cs k) by (done || lia).
  pose proof (fo_small _ Hf). unfold FAT16_CLUSTER_BAD in *. unfold fat16_is_eoc.
  rewrite (proj2 (Z.ltb_ge _ _)), (proj2 (Z.leb_gt _ _)) by (unfold FAT16_CLUSTER_MIN, FAT16_CLUSTER_EOC; lia).
  cbn [orb]. apply wp_bind. eapply wp_file_update; [exact Hs1|]. intros s2 Hs2.
  apply wp_ret. split; [|cbn [fst]; lia]. exists t, (cs_at cs (k + 1)). rewrite Hnext. by split_and!; [lia|lia|..].
Qed.

(** The bytes a read copies out of the sector. *)
Lemma wp_copy_out dat f cs q chunk sector (Q : list Z -> fat16 D -> Prop) s :
  fs_ok f -> 0 <= q -> 0 < chunk -> q mod 512 + chunk <= 512 -> is_sector (dat (nth_sector f cs (q / 512))) ->
  sector = dat (nth_sector f cs (q / 512)) -> Q (file_bytes dat f cs q chunk) s ->
  wp (fat16_memcpy (replicate (Z.to_nat chunk) 0) 0 sector (q mod 512) (Z.to_nat chunk)) Q s.
Proof.
  intros Hf Hq Hc Hm Hsec -> HQ. pose proof (Z.mod_pos_bound q 512 ltac:(lia)) as Hmod.
  apply wp_memcpy; [lia|lia|rewrite length_replicate; lia|rewrite (proj1 Hsec); lia|apply Hsec|].
  rewrite file_slice by (exact Hsec || lia).
  assert (splice (replicate (Z.to_nat chunk) 0) 0 (file_bytes dat f cs q chunk) = file_bytes dat f cs q chunk) as ->; [|done].
  unfold splice. pose proof (length_file_bytes f dat cs q chunk ltac:(lia)).
  change (Z.to_nat 0) with 0%nat. rewrite take_0, drop_ge by (rewrite length_replicate; lia). by rewrite app_nil_r.
Qed.

Lemma wp_read_step s0 i dat fl f cs n remaining out s :
  fs_ok f -> chain dat f cs -> fs_value s0 (ffs fl) = Some f -> 0 <= position fl ->
  fsize fl <= Z.of_nat (length cs) * cluster_bytes f -> fsize fl < 4294967296 ->
  position fl + n <= fsize fl ->
  read_inv s0 i dat fl f cs n (remaining, out) s ->
  wp (read_step i (remaining, out)) (read_step_post s0 i dat fl f cs n remaining) s.
Proof.
  intros Hf Hch Hv Hp0 Hcap Hsz Hn (t & c & Ht & -> & -> & Hh & Hc). unfold read_step.
  destruct (Z.leb_spec (n - t) 0) as [Hz|Hz].
  { assert (t = n) as -> by lia. apply wp_ret. split; [by rewrite length_file_bytes by lia|]. by exists c. }
  specialize (Hc ltac:(lia)). set (q := position fl + t) in *.
  assert (0 <= q < Z.of_nat (length cs) * cluster_bytes f) as Hq by lia.
  pose proof (cluster_index f Hf cs q Hq) as Hk. pose proof (sector_index f Hf cs q Hq) as Ha.
  pose proof (cs_at_ok f Hf cs _ (ch_ok _ _ _ Hch) Hk) as Hcok. rewrite <- Hc in Hcok.
  apply wp_bind. eapply wp_file_get; [exact Hh|]. change (current_cluster (moved fl q c)) with c.
  unfold cluster_ok in Hcok. rewrite (proj2 (Z.ltb_ge _ _)) by (unfold FAT16_CLUSTER_MIN; lia).
  apply wp_bind. eapply wp_deref; [by erewrite fholds_value; [exact Hv|exact Hh]|].
  rewrite (locate_eq f Hf cs (moved fl q c)) by first [apply Hch|exact Hq|exact Hc].
  change (position (moved fl q c)) with q.
  pose proof (nth_sector_range f Hf cs _ (ch_ok _ _ _ Hch) Ha) as Hsec. pose proof (data_start_nonneg f Hf) as Hd0.
  apply wp_bind. eapply wp_block_read; [by eapply fholds_holds|lia|]. intros s1 Hs1%(fholds_step _ _ _ _ _ _ _ Hh).
  rewrite (fo_bps _ Hf). cbv zeta. pose proof (Z.mod_pos_bound q 512 ltac:(lia)) as Hm.
  set (chunk := Z.min (512 - q mod 512) (n - t)) in *.
  assert (0 < chunk /\ q mod 512 + chunk <= 512 /\ chunk <= n - t) as (Hc0 & Hc1 & Hc2) by lia.
  apply wp_bind. apply (wp_copy_out dat f cs); [done|lia|done|done|by apply (fholds_sector _ _ _ _ _ _ Hs1); lia|done|].
  apply wp_bind. eapply wp_file_update; [exact Hs1|]. intros s2 Hs2.
  apply wp_bind. eapply wp_file_get; [exact Hs2|]. cbv beta.
  change (position (moved fl q c)) with q in *. rewrite (u32_small (q + chunk)) in * by lia.
  change (set_position (q + chunk) (moved fl q c)) with (moved fl (q + chunk) c) in *.
  change (position (moved fl (q + chunk) c)) with (q + chunk). change (fsize (moved fl (q + chunk) c)) with (fsize fl).
  change (current_cluster (moved fl (q + chunk) c)) with c.
  pose proof (next_cluster f Hf q chunk ltac:(lia) Hc0 Hc1) as Hnext.
  replace (n - t - chunk) with (n - (t + chunk)) by lia.
  assert (file_bytes dat f cs (position fl) t ++ file_bytes dat f cs q chunk =
    file_bytes dat f cs (position fl) (t + chunk)) as -> by (unfold q; apply file_bytes_app; lia).
  assert (q + chunk = position fl + (t + chunk)) as Hqt by lia. rewrite Hqt in *.
  destruct (Z.ltb_spec (position fl + (t + chunk)) (fsize fl)) as [Hlt|Hge]; cbn [andb]; cycle 1.
  { apply wp_ret. split; [|cbn [fst]; lia]. exists (t + chunk), c. split_and!; [lia|lia|done|done|done|intros; lia]. }
  destruct (ends_cluster f _ _ chunk).
  - rewrite Hc in *. eapply wp_read_move; try done; lia.
  - apply wp_ret. split; [|cbn [fst]; lia]. exists (t + chunk), c. split_and!; [lia|lia|done|done|done|].
    intros _. by rewrite Hnext, Z.add_0_r.
Qed.

Lemma wp_fat16_read s i fl f cs count fuel :
  open_file s i fl f cs -> 0 < count < 4294967296 ->
  let n := Z.max 0 (Z.min (fsize fl - position fl) count) in
  n < Z.of_nat fuel ->
  wp (fat16_read fuel (i + FAT16_FD_BASE) true count)
     (read_post s i (bd_data (disk s)) fl f cs n) s.
Proof.
  intros [] Hcount n Hfuel. pose proof (fholds_intro s i _ fl s (holds_refl s of_ok0) of_get0) as Hh.
  set (dat := bd_data (disk s)) in *. unfold fat16_read. cbn [negb orb].
  rewrite (proj2 (Z.eqb_neq _ _)) by lia. apply wp_bind.
  eapply wp_file_of_fd; [done|done|done|done|]. apply wp_bind. eapply wp_file_get; [exact Hh|].
  destruct (Z.leb_spec (fsize fl) (position fl)) as [Hge|Hlt].
  { apply wp_ret. assert (n = 0) as -> by lia. split; [done|]. exists (current_cluster fl).
    rewrite Z.add_0_r. unfold moved. split; [by destruct fl|lia]. }
  cbv zeta. rewrite u32_small by lia.
  assert (n = Z.min (fsize fl - position fl) count) as Hn by lia. rewrite <- Hn.
  apply (wp_iter (read_inv s i dat fl f cs n) (fun l _ => Z.to_nat (fst l))).
  - cbn [fst]. lia.
  - exists 0, (current_cluster fl). rewrite Z.add_0_r, Z.sub_0_r. split_and!; [lia|lia|done|done| |done].
    unfold moved. by destruct fl.
  - intros [remaining out] s' Hinv. eapply wp_mono; [apply (wp_read_step s i dat fl f cs n); (done || lia)|].
    intros [l'|v] s''; cbn [fst]; done.
Qed.
End files.
