(* ===== verification/Fat16Write.v ===== *)
(** * Writing FAT16 files

    [fat16_write] replaces a range of the bytes of a file and extends its chain of
    clusters by free clusters; nothing else on the volume changes. *)

From stdpp Require Import base list gmap numbers option tactics.
From S2P Require Import Prelude Io Ata Fat16 Fat16Dir Fat16Path Fat16File.

Section effect.
Context {D : Type} `{!BlockDevice D} (f : fat16_fs).
Hypothesis Hf : fs_ok f.
Implicit Types dat : Z -> list Z.
#[local] Set Default Proof Using "All".

Definition good dat : Prop := forall a, 0 <= a < bd_sectors -> is_sector (dat a).

(** ** Sectors of a chain *)

Lemma cs_at_inj cs k k' :
  NoDup cs -> 0 <= k < Z.of_nat (length cs) -> 0 <= k' < Z.of_nat (length cs) ->
  cs_at cs k = cs_at cs k' -> k = k'.
Proof using Type.
  intros Hn Hk Hk' E. unfold cs_at in E.
  destruct (lookup_lt_is_Some_2 cs (Z.to_nat k)) as [a Ha]; [lia|].
  destruct (lookup_lt_is_Some_2 cs (Z.to_nat k')) as [b Hb]; [lia|].
  rewrite Ha, Hb in E. cbn in E. subst b. pose proof (NoDup_lookup _ _ _ _ Hn Ha Hb). lia.
Qed.

Lemma cs_at_elem cs k : 0 <= k < Z.of_nat (length cs) -> cs_at cs k ∈ cs.
Proof using Type.
  intros Hk. unfold cs_at. destruct (lookup_lt_is_Some_2 cs (Z.to_nat k)) as [a Ha]; [lia|].
  rewrite Ha. apply list_elem_of_lookup. eauto.
Qed.

(** The cluster a sector of the data area belongs to. *)
Definition sector_cluster (a : Z) : Z := 2 + (a - data_start_lba f) / sectors_per_cluster f.

Lemma sector_of_cluster c j :
  0 <= j < sectors_per_cluster f -> sector_cluster (cluster_lba f c + j) = c.
Proof.
  intros Hj. unfold sector_cluster, cluster_lba.
  replace (_ + j - data_start_lba f) with (j + (c - 2) * sectors_per_cluster f) by lia.
  rewrite Z.div_add, Z.div_small by lia. lia.
Qed.

Lemma nth_sector_cluster cs a :
  sector_cluster (nth_sector f cs a) = cs_at cs (a / sectors_per_cluster f).
Proof.
  unfold nth_sector. apply sector_of_cluster, Z.mod_pos_bound, spc_pos, Hf.
Qed.

Lemma nth_sector_inj cs a b :
  NoDup cs -> 0 <= a < Z.of_nat (length cs) * sectors_per_cluster f ->
  0 <= b < Z.of_nat (length cs) * sectors_per_cluster f ->
  nth_sector f cs a = nth_sector f cs b -> a = b.
Proof.
  intros Hn Ha Hb E. pose proof (spc_pos f Hf) as Hs. set (spc := sectors_per_cluster f) in *.
  assert (a / spc = b / spc) as Hq.
  { apply (cs_at_inj cs); [done|split; [apply Z.div_pos; lia|apply Z.div_lt_upper_bound; lia]..|].
    by rewrite <- !nth_sector_cluster, E. }
  unfold nth_sector in E. fold spc in E. rewrite Hq in E.
  rewrite (Z.div_mod a spc), (Z.div_mod b spc) by lia. lia.
Qed.

(** ** The bytes after one chunk was stored *)

Lemma file_byte_chunk dat cs q l q' :
  chain dat f cs -> good dat ->
  0 <= q < Z.of_nat (length cs) * cluster_bytes f -> 0 <= q' < Z.of_nat (length cs) * cluster_bytes f ->
  q mod 512 + Z.of_nat (length l) <= 512 ->
  file_byte (upd dat (nth_sector f cs (q / 512))
               (splice (dat (nth_sector f cs (q / 512))) (q mod 512) l)) f cs q' =
  if decide (q <= q' < q + Z.of_nat (length l)) then byte l (Z.to_nat (q' - q)) else file_byte dat f cs q'.
Proof.
  intros Hch Hgood Hq Hq' Hl. pose proof (chain_nodup f Hf dat cs Hch) as Hnd.
  pose proof (sector_index f Hf cs q Hq) as Ha. pose proof (sector_index f Hf cs q' Hq') as Ha'.
  pose proof (nth_sector_range f Hf cs _ (ch_ok _ _ _ Hch) Ha) as Hr. pose proof (data_start_nonneg f Hf).
  pose proof (Hgood (nth_sector f cs (q / 512)) ltac:(lia)) as [Hlen _].
  pose proof (Z.mod_pos_bound q 512 ltac:(lia)). pose proof (Z.mod_pos_bound q' 512 ltac:(lia)).
  pose proof (Z.div_mod q 512 ltac:(lia)). pose proof (Z.div_mod q' 512 ltac:(lia)).
  unfold file_byte, upd. destruct (decide (nth_sector f cs (q' / 512) = nth_sector f cs (q / 512))) as [E|E].
  - rewrite E. apply nth_sector_inj in E; [|done..]. unfold byte. rewrite splice_lookup by lia.
    destruct (decide (q <= q' < q + Z.of_nat (length l))).
    + rewrite decide_True by lia. by replace (Z.to_nat (q' mod 512) - Z.to_nat (q mod 512))%nat with (Z.to_nat (q' - q)) by lia.
    + by rewrite decide_False by lia.
  - rewrite decide_False; [done|]. intros Hin. apply E. f_equal. lia.
Qed.

(** Disks that agree on the data area, and a longer chain. *)
Lemma file_byte_extend dat dat' cs ns q :
  Forall (cluster_ok f) cs -> (forall a, data_start_lba f <= a < bd_sectors -> dat' a = dat a) ->
  0 <= q < Z.of_nat (length cs) * cluster_bytes f ->
  file_byte dat' f (cs ++ ns) q = file_byte dat f cs q.
Proof.
  intros Hcs Hd Hq. pose proof (sector_index f Hf cs q Hq) as Ha.
  pose proof (nth_sector_range f Hf cs _ Hcs Ha) as Hr. unfold file_byte.
  assert (nth_sector f (cs ++ ns) (q / 512) = nth_sector f cs (q / 512)) as ->; [|by rewrite Hd].
  unfold nth_sector, cs_at. pose proof (spc_pos f Hf). rewrite lookup_app_l; [done|].
  apply Nat2Z.inj_lt. rewrite Z2Nat.id by (apply Z.div_pos; lia). apply Z.div_lt_upper_bound; lia.
Qed.

Lemma file_byte_range dat cs q :
  good dat -> Forall (cluster_ok f) cs -> 0 <= q < Z.of_nat (length cs) * cluster_bytes f ->
  is_byte (file_byte dat f cs q).
Proof.
  intros Hgood Hcs Hq. pose proof (sector_index f Hf cs q Hq) as Ha. pose proof (data_start_nonneg f Hf).
  pose proof (nth_sector_range f Hf cs _ Hcs Ha) as Hr. unfold file_byte, byte.
  destruct (Hgood (nth_sector f cs (q / 512)) ltac:(lia)) as [Hl Hb].
  pose proof (Z.mod_pos_bound q 512 ltac:(lia)).
  destruct (byte_lookup (dat (nth_sector f cs (q / 512))) (Z.to_nat (q mod 512))) as [b Hb']; [lia|].
  rewrite Hb'. cbn. by eapply Forall_lookup_1.
Qed.

(** ** The chain after a cluster was allocated *)

Definition last_cluster (cs : list Z) : Z := default 0 (list.last cs).

Lemma linked_get dat prev c c' j :
  good dat -> cluster_ok f c -> prev = 0 \/ cluster_ok f prev -> 0 <= j < num_fats f ->
  0 <= c' < cluster_count f + 2 ->
  fat_get (linked_to dat f prev c) f j c' =
  if decide (c' = prev /\ prev <> 0) then c else
  if decide (c' = c) then FAT16_CLUSTER_EOC else fat_get dat f j c'.
Proof.
  intros Hgood Hc Hp Hj Hc'. unfold linked_to. cbv zeta. unfold cluster_ok in *.
  pose proof (fo_small _ Hf). unfold FAT16_CLUSTER_BAD in *.
  destruct Hp as [->|Hp].
  - change (FAT16_CLUSTER_MIN <=? 0) with false. cbv iota. rewrite fat_get_put by first [done|lia|exact Hgood].
    rewrite (decide_False (P := c' = 0 /\ 0 <> 0)) by tauto. by case_decide.
  - rewrite (proj2 (Z.leb_le _ _)) by (unfold FAT16_CLUSTER_MIN; lia).
    rewrite fat_get_put by first [done|lia|intros; apply fat_put_sector; by apply Hgood].
    destruct (decide (c' = prev)) as [->|Hne].
    + rewrite decide_True by lia. apply u16_small. lia.
    + rewrite (decide_False (P := c' = prev /\ prev <> 0)) by tauto.
      rewrite fat_get_put by first [done|lia|exact Hgood]. by case_decide.
Qed.

Lemma linked_other dat prev c a :
  cluster_ok f c -> prev = 0 \/ cluster_ok f prev ->
  a < fat_start_lba f \/ root_dir_start_lba f <= a -> linked_to dat f prev c a = dat a.
Proof.
  intros Hc Hp Ha. unfold linked_to. cbv zeta. unfold cluster_ok in *.
  destruct Hp as [->|Hp]; [cbn; by rewrite fat_put_other by first [done|lia]|].
  case_match; repeat (rewrite fat_put_other; [|first [done|lia]..]); done.
Qed.

Lemma linked_good dat prev c : good dat -> good (linked_to dat f prev c).
Proof.
  intros Hg a Ha. unfold linked_to. cbv zeta. case_match; repeat apply fat_put_sector; by apply Hg.
Qed.

Lemma last_cluster_ok cs : Forall (cluster_ok f) cs -> last_cluster cs = 0 \/ cluster_ok f (last_cluster cs).
Proof using Type.
  intros Hcs. unfold last_cluster. destruct (list.last cs) as [x|] eqn:E; [right|by left]. cbn.
  rewrite list.Forall_forall in Hcs. apply Hcs. by apply list.last_Some_elem_of.
Qed.

(** Every cluster of a chain is in use. *)
Lemma chain_used dat cs c : chain dat f cs -> c ∈ cs -> fat_get dat f 0 c <> 0.
Proof using Type.
  intros [Hok Hlink Hend] [k Hk]%list_elem_of_lookup.
  destruct (cs !! S k) as [b|] eqn:Eb.
  - rewrite (Hlink _ _ _ Hk Eb). rewrite list.Forall_forall in Hok.
    pose proof (Hok b ltac:(apply list_elem_of_lookup; eauto)) as Hb. unfold cluster_ok in Hb. lia.
  - assert (list.last cs = Some c) as Hl.
    { rewrite list.last_lookup. apply lookup_lt_Some in Hk as Hlt. apply lookup_ge_None in Eb.
      by replace (pred (length cs)) with k by lia. }
    specialize (Hend _ Hl). unfold FAT16_CLUSTER_EOC in Hend. lia.
Qed.

Lemma chain_extend dat cs c :
  good dat -> chain dat f cs -> cluster_ok f c -> fat_get dat f 0 c = 0 ->
  chain (linked_to dat f (last_cluster cs) c) f (cs ++ [c]).
Proof.
  intros Hgood Hch Hc Hfree. pose proof (chain_used dat cs c Hch) as Hused.
  pose proof (chain_nodup f Hf dat cs Hch) as Hnd. pose proof Hch as [Hok Hlink Hend].
  pose proof (last_cluster_ok cs Hok) as Hp.
  assert (0 <= 0 < num_fats f) as H0 by (pose proof (fo_fats _ Hf); lia).
  assert (c ∉ cs) as Hnin by tauto. rewrite list.Forall_forall in Hok. split.
  - rewrite list.Forall_app. split; [by apply list.Forall_forall|]. by apply list.Forall_singleton.
  - intros k a b Ha Hb.
    assert (S k < length (cs ++ [c]))%nat as Hlt by (by apply lookup_lt_is_Some_1; eexists).
    rewrite length_app in Hlt. cbn in Hlt. rewrite lookup_app_l in Ha by lia.
    assert (a ∈ cs) as Hain by (apply list_elem_of_lookup; eauto).
    pose proof (Hok _ Hain) as Haok. unfold cluster_ok in Haok, Hc.
    rewrite linked_get by first [done|lia].
    destruct (decide (S k < length cs)%nat) as [Hk|Hk].
    + rewrite lookup_app_l in Hb by lia. rewrite decide_False, decide_False.
      * by apply (Hlink k).
      * intros ->. done.
      * intros [-> Hne]. unfold last_cluster in Ha, Hne. destruct (list.last cs) as [x|] eqn:El; [|done].
        cbn in Ha. rewrite list.last_lookup in El. pose proof (NoDup_lookup _ _ _ _ Hnd El Ha). lia.
    + assert (k = pred (length cs)) as -> by lia. rewrite lookup_app_r in Hb by lia.
      replace (S (pred (length cs)) - length cs)%nat with 0%nat in Hb by lia. cbn in Hb. injection Hb as <-.
      rewrite decide_True; [done|]. unfold last_cluster. rewrite list.last_lookup, Ha. cbn. lia.
  - intros a Ha. rewrite list.last_snoc in Ha. injection Ha as <-. unfold cluster_ok in Hc.
    rewrite linked_get by first [done|lia]. rewrite decide_False, decide_True; [lia|done|].
    intros [E Hne]. apply Hnin. rewrite E. unfold last_cluster in *.
    destruct (list.last cs) as [x|] eqn:El; [|done]. by apply list.last_Some_elem_of.
Qed.

(** ** The effect of a write

    [n] bytes of [buf] are stored at position [p] of the file on chain [cs]; the
    disk goes from [dat] to [dat'], the chain to [cs']. *)
Record written dat cs (p : Z) (buf : list Z) (n : Z) dat' cs' : Prop := {
  wr_chain : chain dat' f cs';
  wr_prefix : cs `prefix_of` cs';
  wr_new : forall c, c ∈ cs' -> c ∉ cs -> fat_get dat f 0 c = 0;
  wr_cap : p + n <= Z.of_nat (length cs') * cluster_bytes f;
  wr_bytes : forall q, p <= q < p + n -> file_byte dat' f cs' q = byte buf (Z.to_nat (q - p));
  wr_old : forall q, 0 <= q < Z.of_nat (length cs) * cluster_bytes f -> ~ p <= q < p + n ->
    file_byte dat' f cs' q = file_byte dat f cs q;
  wr_fat : forall j c, 0 <= j < num_fats f -> 0 <= c < cluster_count f + 2 -> c ∉ cs' ->
    fat_get dat' f j c = fat_get dat f j c;
  wr_frame : forall a, 0 <= a < bd_sectors -> a < fat_start_lba f \/ root_dir_start_lba f <= a ->
    (data_start_lba f <= a -> sector_cluster a ∉ cs') -> dat' a = dat a;
}.

Lemma written_refl dat cs p buf :
  chain dat f cs -> p <= Z.of_nat (length cs) * cluster_bytes f -> written dat cs p buf 0 dat cs.
Proof using Type.
  intros Hch Hp. split; try done; [lia|lia].
Qed.

Lemma written_chunk dat cs p buf n dat' cs' chunk :
  written dat cs p buf n dat' cs' -> good dat' -> 0 <= p -> 0 <= n -> 0 < chunk ->
  n + chunk <= Z.of_nat (length buf) -> p + n < Z.of_nat (length cs') * cluster_bytes f ->
  (p + n) mod 512 + chunk <= 512 ->
  let a := nth_sector f cs' ((p + n) / 512) in
  written dat cs p buf (n + chunk)
    (upd dat' a (splice (dat' a) ((p + n) mod 512) (slice buf n (Z.to_nat chunk)))) cs'.
Proof.
  intros [] Hgood Hp Hn Hc Hbuf Hlt Hm a. set (q := p + n) in *.
  assert (length (slice buf n (Z.to_nat chunk)) = Z.to_nat chunk) as Hlen by (apply length_slice; lia).
  assert (0 <= q < Z.of_nat (length cs') * cluster_bytes f) as Hq by lia.
  pose proof (sector_index f Hf cs' q Hq) as Ha.
  pose proof (nth_sector_range f Hf cs' _ (ch_ok _ _ _ wr_chain0) Ha) as Hr. fold a in Hr.
  assert (root_dir_start_lba f <= data_start_lba f) as Hrd by (destruct Hf; lia).
  pose proof (fun q' H => file_byte_chunk dat' cs' q _ q' wr_chain0 Hgood Hq H
    ltac:(rewrite Hlen, Z2Nat.id by lia; exact Hm)) as Hfb. rewrite Hlen, Z2Nat.id in Hfb by lia.
  assert (forall b, b < data_start_lba f -> upd dat' a (splice (dat' a) (q mod 512) (slice buf n (Z.to_nat chunk))) b = dat' b)
    as Hlow by (intros b Hb; unfold upd; by rewrite decide_False by lia).
  assert (q + chunk <= Z.of_nat (length cs') * cluster_bytes f) as Hcap.
  { pose proof (next_cluster f Hf q chunk ltac:(lia) Hc Hm) as Hnx. unfold cluster_bytes in *.
    pose proof (spc_pos f Hf). pose proof (Z.div_mod q 512 ltac:(lia)). nia. }
  assert (forall j c, 0 <= j < num_fats f -> 0 <= c < cluster_count f + 2 ->
    fat_get (upd dat' a (splice (dat' a) (q mod 512) (slice buf n (Z.to_nat chunk)))) f j c = fat_get dat' f j c) as Hfat.
  { intros j c Hj Hcc. apply fat_get_ext; [done..|]. intros b Hb. apply Hlow. lia. }
  assert (0 <= 0 < num_fats f) as H0 by (pose proof (fo_fats _ Hf); lia).
  split.
  - destruct wr_chain0 as [Hok Hlink Hend]. split; [done| |].
    + intros k x y Hx Hy. rewrite Hfat; [by eapply Hlink|done|].
      eapply Forall_lookup_1 in Hok; [|exact Hx]. unfold cluster_ok in Hok. lia.
    + intros x Hx. rewrite Hfat; [by apply Hend|done|].
      rewrite list.last_lookup in Hx. eapply Forall_lookup_1 in Hok; [|exact Hx]. unfold cluster_ok in Hok. lia.
  - done.
  - done.
  - lia.
  - intros q' Hq'. rewrite Hfb by lia. case_decide as Hd.
    + unfold byte. rewrite slice_lookup by lia. by replace (Z.to_nat n + Z.to_nat (q' - q))%nat with (Z.to_nat (q' - p)) by lia.
    + apply wr_bytes0. lia.
  - intros q' Hq' Hout. rewrite Hfb, decide_False by (try apply prefix_length in wr_prefix0; pose proof (spc_pos f Hf); unfold cluster_bytes in *; nia).
    apply wr_old0; [done|lia].
  - intros j c Hj Hcc Hnin. rewrite Hfat by done. by apply wr_fat0.
  - intros b Hb Hout Hcl. unfold upd. rewrite decide_False; [by apply wr_frame0|].
    intros ->. apply Hcl; [lia|]. unfold a. rewrite nth_sector_cluster.
    apply cs_at_elem. pose proof (spc_pos f Hf). split; [apply Z.div_pos; lia|apply Z.div_lt_upper_bound; lia].
Qed.

Lemma written_extend dat cs p buf n dat' cs' c :
  written dat cs p buf n dat' cs' -> good dat' -> 0 <= p -> 0 <= n -> cluster_ok f c ->
  fat_get dat' f 0 c = 0 ->
  written dat cs p buf n (linked_to dat' f (last_cluster cs') c) (cs' ++ [c]).
Proof.
  intros [] Hgood Hp Hn Hc Hfree. pose proof (ch_ok _ _ _ wr_chain0) as Hok.
  pose proof (last_cluster_ok cs' Hok) as Hl. unfold cluster_ok in Hc.
  assert (0 <= 0 < num_fats f) as H0 by (pose proof (fo_fats _ Hf); lia).
  assert (root_dir_start_lba f <= data_start_lba f) as Hrd by (destruct Hf; lia).
  assert (c ∉ cs') as Hnin by (intros Hin; by apply (chain_used dat' cs' c wr_chain0) in Hin).
  assert (forall q, 0 <= q < Z.of_nat (length cs') * cluster_bytes f ->
    file_byte (linked_to dat' f (last_cluster cs') c) f (cs' ++ [c]) q = file_byte dat' f cs' q) as Hfb.
  { intros q Hq. apply file_byte_extend; [done| |done]. intros a Ha. apply linked_other; [done|done|lia]. }
  pose proof (prefix_length _ _ wr_prefix0) as Hpl. pose proof (spc_pos f Hf) as Hs.
  split.
  - by apply chain_extend.
  - by apply prefix_app_r.
  - intros x [Hx| ->%list_elem_of_singleton]%elem_of_app Hx2; [by apply wr_new0|].
    rewrite <- wr_fat0 by first [done|lia]. done.
  - rewrite length_app. unfold cluster_bytes in *. cbn. nia.
  - intros q Hq. rewrite Hfb by lia. by apply wr_bytes0.
  - intros q Hq Hout. rewrite Hfb by (unfold cluster_bytes in *; nia). by apply wr_old0.
  - intros j x Hj Hx Hxn. rewrite elem_of_app, list_elem_of_singleton in Hxn.
    rewrite linked_get by first [done|lia]. rewrite decide_False, decide_False; [|tauto|].
    2: { intros [E Hne]. apply Hxn. left. rewrite E. unfold last_cluster in *.
         destruct (list.last cs') eqn:El; [by apply list.last_Some_elem_of|done]. }
    apply wr_fat0; [done|done|tauto].
  - intros a Ha Hout Hcl. rewrite linked_other by first [done|lia]. apply wr_frame0; [done|done|].
    intros Hd Hin. apply Hcl; [done|]. apply elem_of_app. by left.
Qed.
End effect.

(** ** The write loop *)

Section write.
Context {D : Type} `{!BlockDevice D} (f : fat16_fs).
Hypothesis Hf : fs_ok f.
Implicit Types s : fat16 D.
Implicit Types dat : Z -> list Z.
#[local] Set Default Proof Using "All".

Lemma holds_good s0 dat s : holds s0 dat s -> good (D := D) dat.
Proof using Type. intros Hs a Ha. by eapply holds_sector. Qed.

Lemma wp_write_chunk s0 dat s lba off chunk buf n (Q : bool -> fat16 D -> Prop) :
  holds s0 dat s -> 0 <= lba < bd_sectors -> 0 <= off -> 0 < chunk -> off + chunk <= 512 ->
  0 <= n -> n + chunk <= Z.of_nat (length buf) -> Forall is_byte buf ->
  (forall s', holds s0 (upd dat lba (splice (dat lba) off (slice buf n (Z.to_nat chunk)))) s' -> Q true s') ->
  wp (write_chunk f lba off chunk buf n) Q s.
Proof.
  intros Hs Hlba Ho Hc Hoc Hn Hbuf Hb HQ. unfold write_chunk. rewrite (fo_bps _ Hf).
  pose proof (holds_sector _ _ _ lba Hs Hlba) as Hsec.
  assert (length (slice buf n (Z.to_nat chunk)) = Z.to_nat chunk) as Hlen by (apply length_slice; lia).
  assert (is_sector (splice (dat lba) off (slice buf n (Z.to_nat chunk)))) as Hnew.
  { apply splice_sector; [done|lia|lia|by apply slice_bytes]. }
  destruct (Z.eqb_spec off 0) as [->|Hoff]; cbn [negb orb]; [destruct (Z.ltb_spec chunk 512) as [Hlt|Hge]|].
  - apply wp_bind. eapply wp_block_read; [done|done|]. intros s1 Hs1.
    apply wp_bind, wp_memcpy; [lia|lia|rewrite (proj1 Hsec); lia|lia|done|]. by eapply wp_block_write.
  - assert (chunk = 512) as -> by lia. apply wp_bind, wp_memcpy; [lia|lia|by rewrite length_replicate|lia|done|].
    assert (splice (replicate 512 0) 0 (slice buf n 512) = splice (dat lba) 0 (slice buf n 512)) as ->.
    { unfold splice. change (Z.to_nat 0) with 0%nat. rewrite !take_0. f_equal. f_equal.
      change (Z.to_nat 512) with 512%nat in Hlen. rewrite !drop_ge; [done|rewrite (proj1 Hsec); lia|rewrite length_replicate; lia]. }
    by eapply wp_block_write.
  - apply wp_bind. eapply wp_block_read; [done|done|]. intros s1 Hs1.
    apply wp_bind, wp_memcpy; [lia|lia|rewrite (proj1 Hsec); lia|lia|done|]. by eapply wp_block_write.
Qed.

Lemma last_cluster_at cs : last_cluster cs = cs_at cs (Z.of_nat (length cs) - 1).
Proof using Type.
  unfold last_cluster, cs_at. rewrite list.last_lookup. do 2 f_equal. lia.
Qed.

Lemma wp_write_next_cluster s0 dat s cs k fuel (Q : option Z -> fat16 D -> Prop) :
  holds s0 dat s -> chain dat f cs -> 0 <= k < Z.of_nat (length cs) -> cluster_count f < Z.of_nat fuel ->
  (k + 1 < Z.of_nat (length cs) -> forall s', holds s0 dat s' -> Q (Some (cs_at cs (k + 1))) s') ->
  (k + 1 = Z.of_nat (length cs) -> no_free dat f -> forall s', holds s0 dat s' -> Q None s') ->
  (k + 1 = Z.of_nat (length cs) -> forall c s', lowest_free dat f c ->
     holds s0 (linked_to dat f (last_cluster cs) c) s' -> Q (Some c) s') ->
  wp (write_next_cluster fuel f (cs_at cs k)) Q s.
Proof.
  intros Hs Hch Hk Hfuel HQ1 HQ2 HQ3. unfold write_next_cluster.
  pose proof (cs_at_ok f Hf cs k (ch_ok _ _ _ Hch) Hk) as Hok. unfold cluster_ok in Hok.
  apply wp_bind. eapply wp_read_fat_entry; [exact Hs|done|lia|]. intros s1 Hs1.
  destruct (decide (k + 1 < Z.of_nat (length cs))) as [Hlt|Hge].
  - rewrite (chain_next f dat cs k) by (done || lia).
    pose proof (cs_at_ok f Hf cs (k + 1) (ch_ok _ _ _ Hch) ltac:(lia)) as Hok'. unfold cluster_ok in Hok'.
    pose proof (fo_small _ Hf). unfold FAT16_CLUSTER_BAD in *. unfold fat16_is_eoc.
    rewrite (proj2 (Z.ltb_ge _ _)), (proj2 (Z.leb_gt _ _)) by (unfold FAT16_CLUSTER_MIN, FAT16_CLUSTER_EOC; lia).
    cbn [orb]. apply wp_ret. by apply HQ1.
  - assert (cs_at cs k = last_cluster cs) as El by (rewrite last_cluster_at; f_equal; lia).
    assert (list.last cs = Some (cs_at cs k)) as Hl.
    { rewrite El. unfold last_cluster. destruct (list.last cs) eqn:E; [done|].
      apply list.last_None in E. subst cs. cbn in Hk. lia. }
    pose proof (ch_end _ _ _ Hch _ Hl) as He. unfold fat16_is_eoc. rewrite (proj2 (Z.leb_le _ _)) by done.
    rewrite orb_true_r. eapply wp_allocate_cluster; [exact Hs1|done|done|lia| |].
    + intros s2 Hs2 Hno. apply HQ2; [lia|done|done].
    + intros s2 c Hs2 Hc. rewrite El in Hs2. by apply HQ3; [lia|..].
Qed.

Definition grown (fl : fat16_file) (p c : Z) : fat16_file := set_fsize (Z.max (fsize fl) p) (moved fl p c).

Definition write_inv s0 i dat fl cs buf n (l : Z * Z) s : Prop :=
  let '(remaining, tw) := l in
  exists dat' cs', 0 <= tw < n /\ remaining = n - tw /\ written f dat cs (position fl) buf tw dat' cs' /\
    position fl + tw < Z.of_nat (length cs') * cluster_bytes f /\ cs_at cs' 0 = start_cluster fl /\
    fholds s0 i dat' (grown fl (position fl + tw) (cs_at cs' ((position fl + tw) / cluster_bytes f))) s.

(** The file after [tw] bytes were written: its current cluster is still the one of
    the last byte. *)
Definition after_write (fl : fat16_file) cs' tw : fat16_file :=
  grown (set_start (cs_at cs' 0) fl) (position fl + tw) (cs_at cs' ((position fl + tw - 1) / cluster_bytes f)).

Definition write_post s0 i dat fl cs buf n (r : Z) s : Prop :=
  exists dat' cs' tw, written f dat cs (position fl) buf tw dat' cs' /\
   ((r = n /\ tw = n /\ fholds s0 i dat' (set_modified (after_write fl cs' n)) s) \/
    (r = -1 /\ 0 <= tw < n /\ no_free dat' f /\ fholds s0 i dat' (after_write fl cs' tw) s)).

Definition step_post s0 i dat fl cs buf n remaining (r : Z * Z + Z) s : Prop :=
  match r with
  | inl l => write_inv s0 i dat fl cs buf n l s /\ (Z.to_nat (fst l) < Z.to_nat remaining)%nat
  | inr v => write_post s0 i dat fl cs buf n v s
  end.

(** The two updates of the handle after a chunk. *)
Lemma grown_next fl q c chunk :
  0 < chunk ->
  (fun x => if fsize x <? position x then set_fsize (position x) x else x) (set_position (q + chunk) (grown fl q c)) =
  grown fl (q + chunk) c.
Proof.
  intros Hc. unfold grown, moved.
  cbn [fsize position set_position set_current set_fsize ffs start_cluster current_cluster dir_entry_lba dir_entry_offset modified active].
  destruct (Z.ltb_spec (Z.max (fsize fl) q) (q + chunk)).
  - by rewrite (Z.max_r (fsize fl) (q + chunk)) by lia.
  - by rewrite !Z.max_l by lia.
Qed.

Lemma after_write_grown fl cs tw :
  cs_at cs 0 = start_cluster fl ->
  after_write fl cs tw = grown fl (position fl + tw) (cs_at cs ((position fl + tw - 1) / cluster_bytes f)).
Proof. intros E. unfold after_write. rewrite E. by destruct fl. Qed.

(** The chain covers the byte at [p] when the cluster of the byte before goes on. *)
Lemma inside_chain (cs : list Z) p k :
  0 <= p -> p / cluster_bytes f = k -> k < Z.of_nat (length cs) -> p < Z.of_nat (length cs) * cluster_bytes f.
Proof.
  intros Hp <- Hk. pose proof (spc_pos f Hf). unfold cluster_bytes in *.
  pose proof (Z.div_mod p (512 * sectors_per_cluster f) ltac:(lia)).
  pose proof (Z.mod_pos_bound p (512 * sectors_per_cluster f) ltac:(lia)). nia.
Qed.

(** The move to the next cluster after [tw] bytes, the last of which ended a cluster. *)
Lemma wp_write_move s0 i dat fl cs buf n tw dat1 cs1 k remaining fuel s :
  0 <= position fl -> 0 < tw < n -> n - tw < remaining -> cluster_count f < Z.of_nat fuel ->
  written f dat cs (position fl) buf tw dat1 cs1 -> cs_at cs1 0 = start_cluster fl ->
  0 <= k < Z.of_nat (length cs1) -> (position fl + tw - 1) / cluster_bytes f = k -> (position fl + tw) / cluster_bytes f = k + 1 ->
  fholds s0 i dat1 (grown fl (position fl + tw) (cs_at cs1 k)) s ->
  wp (file <- get_file i ;;
      next <- write_next_cluster fuel f (current_cluster file) ;;
      match next with
      | None => ret (inr (-1))
      | Some c => update_file i (set_current c) ;; ret (inl (n - tw, tw))
      end) (step_post s0 i dat fl cs buf n remaining) s.
Proof.
  intros Hp Htw Hrem Hfuel Hw Hstart Hk Hlast Hnext Hs.
  pose proof (fholds_holds _ _ _ _ _ Hs) as Hh. pose proof (wr_chain _ _ _ _ _ _ _ _ Hw) as Hch.
  apply wp_bind. eapply wp_file_get; [exact Hs|]. change (current_cluster (grown _ _ ?c)) with c.
  apply wp_bind. apply (wp_write_next_cluster s dat1 s cs1 k); [done|done|done|done| | |].
  - intros Hlt s1 Hs1%(fholds_step _ _ _ _ _ _ _ Hs). apply wp_bind. eapply wp_file_update; [exact Hs1|].
    intros s2 Hs2. apply wp_ret. split; [|cbn [fst]; lia]. exists dat1, cs1. rewrite Hnext.
    split_and!; [lia|lia|lia|done| |done|done]. by apply (inside_chain _ _ (k + 1)); [lia|..].
  - intros _ Hno s1 Hs1%(fholds_step _ _ _ _ _ _ _ Hs). apply wp_ret.
    exists dat1, cs1, tw. split; [done|]. right. split_and!; [lia|lia|lia|done|].
    by rewrite after_write_grown, Hlast by done.
  - intros Hend c s1 (Hcok & Hfree & Hlow) Hs1%(fholds_step _ _ _ _ _ _ _ Hs).
    apply wp_bind. eapply wp_file_update; [exact Hs1|]. intros s2 Hs2. apply wp_ret. split; [|cbn [fst]; lia].
    pose proof (written_extend f Hf _ _ _ _ _ _ _ c Hw (holds_good _ _ _ Hh) Hp ltac:(lia) Hcok Hfree) as Hw2.
    exists (linked_to dat1 f (last_cluster cs1) c), (cs1 ++ [c]). rewrite Hnext.
    assert (cs_at (cs1 ++ [c]) (k + 1) = c) as Hat.
    { unfold cs_at. rewrite lookup_app_r by lia. by replace (Z.to_nat (k + 1) - length cs1)%nat with 0%nat by lia. }
    rewrite Hat. split_and!; [lia|lia|lia|done| | |done].
    + apply (inside_chain _ _ (k + 1)); [lia|done|]. rewrite length_app. cbn [length]. lia.
    + rewrite <- Hstart. unfold cs_at. by rewrite lookup_app_l by lia.
Qed.

Lemma wp_write_step s0 i dat fl cs buf n remaining tw fuel s :
  fs_value s0 (ffs fl) = Some f -> 0 <= position fl -> position fl + n < 4294967296 ->
  n <= Z.of_nat (length buf) -> Forall is_byte buf -> cluster_count f < Z.of_nat fuel ->
  write_inv s0 i dat fl cs buf n (remaining, tw) s ->
  wp (write_step fuel i buf (remaining, tw)) (step_post s0 i dat fl cs buf n remaining) s.
Proof.
  intros Hv Hp0 Hp32 Hbuf Hbytes Hfuel (dat1 & cs1 & Htw & -> & Hw & Hlt & Hstart & Hh).
  set (q := position fl + tw) in *. pose proof (wr_chain _ _ _ _ _ _ _ _ Hw) as Hch.
  assert (0 <= q < Z.of_nat (length cs1) * cluster_bytes f) as Hq by lia.
  pose proof (cluster_index f Hf cs1 q Hq) as Hk. pose proof (sector_index f Hf cs1 q Hq) as Ha.
  set (c := cs_at cs1 (q / cluster_bytes f)) in *.
  assert (cluster_ok f c) as Hcok by (apply (cs_at_ok f Hf); [apply Hch|done]). unfold cluster_ok in Hcok.
  unfold write_step. apply wp_bind. eapply wp_file_get; [exact Hh|].
  change (current_cluster (grown fl q c)) with c. rewrite (proj2 (Z.ltb_ge _ _)) by (unfold FAT16_CLUSTER_MIN; lia).
  apply wp_bind. eapply wp_deref; [by erewrite fholds_value; [exact Hv|exact Hh]|].
  rewrite (locate_eq f Hf cs1 (grown fl q c)) by first [apply Hch|exact Hq|reflexivity].
  change (position (grown fl q c)) with q. rewrite (fo_bps _ Hf). cbv zeta.
  pose proof (nth_sector_range f Hf cs1 _ (ch_ok _ _ _ Hch) Ha) as Hsec. pose proof (data_start_nonneg f Hf).
  pose proof (Z.mod_pos_bound q 512 ltac:(lia)) as Hm.
  set (chunk := Z.min (512 - q mod 512) (n - tw)) in *.
  assert (0 < chunk /\ q mod 512 + chunk <= 512 /\ chunk <= n - tw) as (Hc0 & Hc1 & Hc2) by lia.
  pose proof (fholds_holds _ _ _ _ _ Hh) as Hs.
  apply wp_bind. eapply wp_write_chunk; [exact Hs|lia|lia|lia|lia|lia|lia|done|].
  intros s1 Hs1%(fholds_step _ _ _ _ _ _ _ Hh). cbn [negb].
  pose proof (written_chunk f Hf _ _ _ _ _ _ _ chunk Hw (holds_good _ _ _ Hs) Hp0 ltac:(lia) Hc0 ltac:(lia) Hlt Hc1) as Hw1.
  cbv zeta in Hw1. fold q in Hw1. set (dat2 := upd dat1 _ _) in *.
  apply wp_bind. eapply wp_file_update; [exact Hs1|]. intros s2 Hs2.
  apply wp_bind. eapply wp_file_update; [exact Hs2|]. intros s3 Hs3. clear Hs2.
  change (position (grown fl q c)) with q in Hs3. rewrite (u32_small (q + chunk)), grown_next in Hs3 by lia.
  pose proof (next_cluster f Hf q chunk ltac:(lia) Hc0 Hc1) as Hnext.
  pose proof (last_byte_cluster f Hf q chunk ltac:(lia) Hc0 Hc1) as Hlast.
  assert (q + chunk = position fl + (tw + chunk)) as Hqt by lia. rewrite Hqt in *.
  replace (n - tw - chunk) with (n - (tw + chunk)) by lia.
  destruct (Z.eqb_spec (n - (tw + chunk)) 0) as [Hz|Hnz].
  { apply wp_bind. eapply wp_file_update; [exact Hs3|]. intros s4 Hs4. apply wp_ret.
    exists dat2, cs1, (tw + chunk). split; [done|]. left. split; [lia|]. split; [lia|].
    replace n with (tw + chunk) by lia. by rewrite after_write_grown, Hlast by done. }
  destruct (ends_cluster f _ _ chunk).
  - eapply (wp_write_move _ _ _ _ _ _ _ _ dat2 cs1 (q / cluster_bytes f)); try done; lia.
  - rewrite Z.add_0_r in Hnext. apply wp_ret. split; [|cbn [fst]; lia]. exists dat2, cs1. rewrite Hnext.
    split_and!; [lia|lia|lia|done| |done|done]. apply (inside_chain _ _ (q / cluster_bytes f)); [lia|done|lia].
Qed.

(** ** [fat16_write] *)

(** File [i] is open on chain [cs]; it is empty, or its current cluster is the one
    of its position and the position is inside the chain. *)
Record write_ready s (i : Z) (fl : fat16_file) (cs : list Z) : Prop := {
  wd_ok : bd_ok (disk s);
  wd_index : 0 <= i < FAT16_MAX_OPEN_FILES;
  wd_get : arr_get (fat16_files s) i = Some fl;
  wd_active : active fl <> 0;
  wd_fs : fs_value s (ffs fl) = Some f;
  wd_chain : chain (bd_data (disk s)) f cs;
  wd_position : 0 <= position fl <= fsize fl;
  wd_current : (cs = [] /\ position fl = 0 /\ start_cluster fl = 0 /\ current_cluster fl = 0) \/
    (position fl < Z.of_nat (length cs) * cluster_bytes f /\ start_cluster fl = cs_at cs 0 /\
     current_cluster fl = cs_at cs (position fl / cluster_bytes f));
}.

Lemma grown_same fl : position fl <= fsize fl -> grown fl (position fl) (current_cluster fl) = fl.
Proof using Type. intros H. unfold grown. rewrite Z.max_l by done. by destruct fl. Qed.

Lemma write_loop s0 i dat dat' fl cs cs' buf n fuel s :
  fs_value s0 (ffs fl) = Some f -> 0 < n -> position fl + n < 4294967296 ->
  n <= Z.of_nat (length buf) -> Forall is_byte buf ->
  cluster_count f < Z.of_nat fuel -> n < Z.of_nat fuel ->
  0 <= position fl <= fsize fl -> position fl < Z.of_nat (length cs') * cluster_bytes f ->
  start_cluster fl = cs_at cs' 0 -> current_cluster fl = cs_at cs' (position fl / cluster_bytes f) ->
  written f dat cs (position fl) buf 0 dat' cs' -> fholds s0 i dat' fl s ->
  wp (iter fuel (write_step fuel i buf) (n, 0)) (write_post s0 i dat fl cs buf n) s.
Proof.
  intros Hv Hn Hp32 Hbuf Hb Hfuel Hfuel2 Hp Hlt Hst Hcur Hw Hh.
  apply (wp_iter (write_inv s0 i dat fl cs buf n) (fun l _ => Z.to_nat (fst l))).
  - cbn [fst]. lia.
  - exists dat', cs'. rewrite Z.add_0_r, Z.sub_0_r, <- Hcur, grown_same by lia.
    by split_and!; [lia|lia|..].
  - intros [remaining tw] s' Hinv. eapply wp_mono; [by apply wp_write_step; first [done|lia]|].
    by intros [l'|v] s''.
Qed.

Lemma start_same fl c : start_cluster fl = c -> set_start c fl = fl.
Proof using Type. intros <-. by destruct fl. Qed.

Lemma wp_fat16_write s i fl cs buf n fuel :
  write_ready s i fl cs -> 0 < n -> position fl + n < 4294967296 ->
  n <= Z.of_nat (length buf) -> Forall is_byte buf ->
  cluster_count f < Z.of_nat fuel -> n < Z.of_nat fuel ->
  wp (fat16_write fuel (i + FAT16_FD_BASE) (Some buf) n)
     (write_post s i (bd_data (disk s)) fl cs buf n) s.
Proof.
  intros [] Hn Hp32 Hbuf Hb Hfuel Hfuel2. pose proof (holds_refl s wd_ok0) as Hs0.
  pose proof (fholds_intro s i _ fl s Hs0 wd_get0) as Hh.
  set (dat := bd_data (disk s)) in *. pose proof (holds_good _ _ _ Hs0) as Hgood. fold dat in Hgood.
  unfold fat16_write. rewrite (proj2 (Z.eqb_neq _ _)) by lia.
  apply wp_bind. eapply wp_file_of_fd; [done|done|done|done|].
  apply wp_bind. eapply wp_file_update; [exact Hh|]. intros s1 Hs1.
  assert (fholds s i dat fl s1) as Hs1'.
  { destruct wd_current0 as [(_ & _ & Hst & _)|(Hlt & _ & Hcur)].
    - rewrite Hst in Hs1. change (FAT16_CLUSTER_MIN <=? 0) with false in Hs1. by rewrite andb_false_r in Hs1.
    - pose proof (cs_at_ok f Hf cs _ (ch_ok _ _ _ wd_chain0) (cluster_index f Hf cs (position fl) ltac:(lia))) as Hok.
      rewrite <- Hcur in Hok. unfold cluster_ok in Hok.
      by rewrite (proj2 (Z.ltb_ge _ _)) in Hs1 by (unfold FAT16_CLUSTER_MIN; lia). }
  clear Hs1. apply wp_bind. eapply wp_file_get; [exact Hs1'|].
  destruct wd_current0 as [(-> & Hp & Hst & Hcur)|(Hlt & Hst & Hcur)]; cycle 1.
  - assert (0 < Z.of_nat (length cs)) as Hl by (unfold cluster_bytes in *; pose proof (spc_pos f Hf); nia).
    pose proof (cs_at_ok f Hf cs 0 (ch_ok _ _ _ wd_chain0) ltac:(lia)) as Hok.
    rewrite <- Hst in Hok. unfold cluster_ok in Hok.
    rewrite (proj2 (Z.ltb_ge _ FAT16_CLUSTER_MIN)), andb_false_r by (unfold FAT16_CLUSTER_MIN; lia).
    apply wp_bind, wp_ret. cbn [negb].
    apply (write_loop s i dat dat fl cs cs); [done|lia|lia|lia|done|lia|lia|lia|done|done|done| |done].
    apply written_refl; [done|lia].
  - rewrite Hp, Hst. cbn [Z.eqb Z.ltb Z.compare andb FAT16_CLUSTER_MIN].
    apply wp_bind, wp_bind. eapply wp_deref; [by erewrite fholds_value; [exact wd_fs0|exact Hs1']|].
    pose proof (fholds_holds _ _ _ _ _ Hs1') as Hs1.
    apply wp_bind. eapply wp_allocate_cluster; [exact Hs1|done|lia| | |].
    + unfold FAT16_CLUSTER_FREE. pose proof (fo_clusters _ Hf). lia.
    + intros s2 Hs2%(fholds_step _ _ _ _ _ _ _ Hs1') Hno. apply wp_ret. cbn [negb]. apply wp_ret.
      exists dat, [], 0. split; [apply written_refl; [done|cbn; lia]|]. right.
      split_and!; [done|lia|lia|done|]. unfold after_write.
      change (cs_at [] 0) with 0. rewrite (start_same fl 0) by done.
      unfold cs_at. rewrite lookup_nil. cbn [default]. rewrite Z.add_0_r, <- Hcur, grown_same by lia. done.
    + intros s2 c Hs2%(fholds_step _ _ _ _ _ _ _ Hs1') (Hcok & Hfree & _).
      apply wp_bind. eapply wp_file_update; [exact Hs2|]. intros s3 Hs3. apply wp_ret. cbn [negb].
      pose proof (written_extend f Hf _ _ _ _ _ _ _ c (written_refl f dat [] 0 buf wd_chain0 ltac:(cbn; lia))
        Hgood ltac:(lia) ltac:(lia) Hcok Hfree) as Hw. cbn [last_cluster list.last default app] in Hw.
      set (fl' := set_current c (set_start c fl)) in *.
      assert (position fl' = 0 /\ fsize fl' = fsize fl /\ start_cluster fl' = c /\ current_cluster fl' = c
        /\ ffs fl' = ffs fl) as (Hp' & Hsz' & Hst' & Hcur' & Hffs') by done.
      eapply wp_mono; [apply (write_loop s i dat (linked_to dat f 0 c) fl' [] [c]);
        rewrite ?Hp', ?Hsz', ?Hst', ?Hcur', ?Hffs'; try done; try lia|].
      * cbn. unfold cluster_bytes. pose proof (spc_pos f Hf). lia.
      * intros r s4 (dat4 & cs4 & tw & Hw4 & Hr). rewrite Hp' in Hw4. exists dat4, cs4, tw. rewrite Hp.
        split; [exact Hw4|]. unfold after_write in *. rewrite Hp' in Hr. rewrite Hp. exact Hr.
Qed.
End write.
