(* ===== verification/Fat16Roundtrip.v ===== *)
(** * What FAT16 keeps of a file

    [fat16_close] stores the first cluster and the size of a written file in its
    directory entry; a file that is created, opened, written, closed, opened again
    and read has the bytes that were written. *)

From stdpp Require Import base list gmap numbers option tactics.
From S2P Require Import Prelude PhysMem Io Ata Fat16 Fat16Dir Fat16Path Fat16File Fat16Write.

Section roundtrip.
Context {D : Type} `{!BlockDevice D} (f : fat16_fs).
Hypothesis Hf : fs_ok f.
Implicit Types s : fat16 D.
Implicit Types dat : Z -> list Z.
#[local] Set Default Proof Using "All".

(** ** Changes outside a region *)

Lemma chain_ext dat dat' cs :
  (forall a, fat_start_lba f <= a < root_dir_start_lba f -> dat' a = dat a) ->
  chain dat f cs -> chain dat' f cs.
Proof.
  intros Hd [Hok Hlink Hend]. assert (0 <= 0 < num_fats f) as H0 by (pose proof (fo_fats _ Hf); lia).
  assert (forall c, c ∈ cs -> fat_get dat' f 0 c = fat_get dat f 0 c) as Hg.
  { intros c Hc. rewrite list.Forall_forall in Hok. pose proof (Hok c Hc) as Hcc. unfold cluster_ok in Hcc.
    by apply fat_get_ext; [|done|lia|]. }
  split; [done| |].
  - intros k a b Ha Hb. rewrite Hg by (apply list_elem_of_lookup; eauto). by eapply Hlink.
  - intros a Ha. rewrite Hg by (by apply list.last_Some_elem_of). by apply Hend.
Qed.

Lemma slot_lba_root k :
  0 <= k < slots f -> root_dir_start_lba f <= slot_lba f k < data_start_lba f.
Proof.
  intros Hk. by destruct (slot_range f k Hf Hk).
Qed.

Lemma find_root_same dat dat' name :
  (forall a, root_dir_start_lba f <= a < data_start_lba f -> dat' a = dat a) ->
  find_root dat' f name = find_root dat f name.
Proof.
  intros H. unfold find_root.
  rewrite (first_some_ext (find_slot dat' f name) (find_slot dat f name)); [done|].
  intros j Hj. unfold find_slot, slot. rewrite H by (apply slot_lba_root; lia). done.
Qed.

(** ** The entry a closed file leaves *)

Definition closed_entry (e : list Z) (c n : Z) : list Z := splice e 0x1A (le_bytes 2 c ++ le_bytes 4 n).

Lemma closed_entry_fields e c n :
  length e = 32%nat ->
  length (closed_entry e c n) = 32%nat /\ slot_cluster (closed_entry e c n) = u16 c /\
  slot_size (closed_entry e c n) = u32 n /\ slice (closed_entry e c n) 0 12 = slice e 0 12.
Proof using Type.
  intros He. do 32 (destruct e as [|? e]; [done|]). destruct e; [|done].
  unfold slot_cluster, slot_size. split_and!; [done| | |done].
  - change (slice _ 26 2) with (le_bytes 2 c). by rewrite le_value_bytes.
  - change (slice _ 28 4) with (le_bytes 4 n). by rewrite le_value_bytes.
Qed.

Lemma slot_named_prefix name e e' :
  length e = 32%nat -> length e' = 32%nat -> slice e' 0 12 = slice e 0 12 ->
  slot_named name e' = slot_named name e /\ slot_end e' = slot_end e.
Proof using Type.
  intros He He' Hs. assert (forall i, (i < 12)%nat -> byte e' i = byte e i) as Hb.
  { intros i Hi. unfold byte. f_equal. transitivity (slice e' 0 12 !! i).
    - by rewrite slice_lookup.
    - rewrite Hs. by rewrite slice_lookup. }
  assert (slice e' 0 11 = slice e 0 11) as H11.
  { pose proof (slice_slice e' 0 12 0 11 ltac:(lia) ltac:(lia) ltac:(lia)) as E'.
    rewrite Hs, slice_slice in E' by lia. done. }
  unfold slot_named, slot_free, slot_end. by rewrite !Hb, H11 by lia.
Qed.

Lemma find_root_closed dat name k cl sz e' :
  good (D := D) dat -> 0 <= k < slots f ->
  find_root dat f name = Found cl sz (slot_lba f k) (slot_offset k) ->
  length e' = 32%nat -> slice e' 0 12 = slice (slot dat f k) 0 12 ->
  find_root (put_slot dat f k e') f name = Found (slot_cluster e') (slot_size e') (slot_lba f k) (slot_offset k).
Proof.
  intros Hg Hk Hfind He Hs. destruct (slot_range f k Hf Hk) as (_ & Ho & Hb).
  apply find_root_named in Hfind as (k' & Hk' & Hlba & Hoff & Hnm & _ & _ & Hlow).
  assert (k' = k) as -> by (by apply (slot_index f)).
  assert (length (slot dat f k) = 32%nat) as Hl.
  { unfold slot. apply length_slice. pose proof (Hg _ Hb) as [Hl _]. lia. }
  destruct (slot_named_prefix name _ _ Hl He Hs) as [Hn Hend].
  unfold find_root. rewrite (first_some_intro _ 0 _ k (Found (slot_cluster e') (slot_size e') (slot_lba f k) (slot_offset k)));
    [done|lia| |].
  - unfold find_slot. cbv zeta. rewrite slot_put, decide_True by (done || by apply Hg).
    rewrite Hn, Hend, Hnm. unfold slot_named, slot_free, slot_end in *. by destruct (byte (slot dat f k) 0 =? 0).
  - intros j Hj. unfold find_slot. cbv zeta. rewrite slot_put, decide_False by (lia || by apply Hg).
    apply Hlow. lia.
Qed.

(** ** [fat16_close] *)

Lemma splice_slice (sec l : list Z) o n o' :
  0 <= o -> 0 <= o' -> (Z.to_nat o + n <= length sec)%nat -> (Z.to_nat o' + length l <= n)%nat ->
  splice sec o (splice (slice sec o n) o' l) = splice sec (o + o') l.
Proof using Type.
  intros Ho Ho' Hn Hl. pose proof (length_slice sec o n Hn) as Hs.
  assert (length (splice (slice sec o n) o' l) = n) as Hs' by (by rewrite length_splice, Hs by lia).
  apply list_eq. intros i. rewrite (splice_lookup sec o), (splice_lookup sec (o + o')), Hs' by lia.
  case_decide as H1; [|by rewrite decide_False by lia].
  rewrite splice_lookup by lia. repeat case_decide; try lia; [f_equal; lia|].
  rewrite slice_lookup by lia. f_equal. lia.
Qed.

Definition close_disk dat k (fl : fat16_file) : Z -> list Z :=
  if truthy (modified fl)
  then put_slot dat f k (closed_entry (slot dat f k) (start_cluster fl) (fsize fl)) else dat.

Lemma wp_update_root_entry s0 dat s fl k (Q : Z -> fat16 D -> Prop) :
  holds s0 dat s -> 0 <= k < slots f -> dir_entry_lba fl = slot_lba f k ->
  dir_entry_offset fl = slot_offset k ->
  (forall s', holds s0 (put_slot dat f k (closed_entry (slot dat f k) (start_cluster fl) (fsize fl))) s' -> Q 0 s') ->
  wp (fat16_update_root_entry fl) Q s.
Proof.
  intros Hs Hk Hlba Hoff HQ. destruct (slot_range f k Hf Hk) as (_ & Ho & Hb).
  pose proof (holds_sector _ _ _ _ Hs Hb) as Hsec. pose proof Hsec as [Hl _].
  unfold fat16_update_root_entry. rewrite Hlba, Hoff. apply wp_bind. eapply wp_block_read; [done|done|].
  intros s1 Hs1. set (o := slot_offset k) in *. set (sec := dat (slot_lba f k)) in *.
  apply wp_bind, wp_write_le16; [lia|lia|].
  apply wp_bind, wp_write_le32_next; [lia|rewrite length_le_bytes; lia|rewrite length_le_bytes; lia|].
  apply wp_bind. eapply wp_block_write; [exact Hs1|done| |].
  { apply splice_sector; [done|lia|rewrite length_app, !length_le_bytes; lia|].
    apply list.Forall_app. split; apply le_bytes_range. }
  intros s2 Hs2. apply wp_ret, HQ. eapply holds_ext; [exact Hs2|].
  intros a _. unfold put_slot, upd. case_decide; [|done]. fold sec.
  unfold closed_entry, slot. fold sec o.
  by rewrite splice_slice by (rewrite ?length_app, ?length_le_bytes; lia).
Qed.

Lemma wp_fat16_close s0 i dat fl s k (Q : Z -> fat16 D -> Prop) :
  fholds s0 i dat fl s -> 0 <= i < FAT16_MAX_OPEN_FILES -> active fl <> 0 ->
  0 <= k < slots f -> dir_entry_lba fl = slot_lba f k -> dir_entry_offset fl = slot_offset k ->
  (forall s', fholds s0 i (close_disk dat k fl) empty_file s' -> Q 0 s') ->
  wp (fat16_close (i + FAT16_FD_BASE)) Q s.
Proof.
  intros Hh Hi Ha Hk Hlba Hoff HQ. unfold fat16_close. cbv zeta.
  replace (i + FAT16_FD_BASE - FAT16_FD_BASE) with i by lia.
  rewrite (proj2 (Z.ltb_ge i 0)), (proj2 (Z.leb_gt _ i)) by lia. cbn [orb].
  apply wp_bind. eapply wp_file_get; [exact Hh|]. rewrite (proj2 (Z.eqb_neq _ _)) by done.
  unfold close_disk in HQ. apply wp_bind. destruct (truthy (modified fl)).
  - eapply wp_update_root_entry; [by eapply fholds_holds|done|done|done|].
    intros s1 Hs1%(fholds_step _ _ _ _ _ _ _ Hh). change (0 <? 0) with false. cbv iota.
    apply wp_bind. eapply wp_file_set; [exact Hs1|]. intros s2 Hs2. by apply wp_ret, HQ.
  - apply wp_ret. change (0 <? 0) with false. cbv iota.
    apply wp_bind. eapply wp_file_set; [exact Hh|]. intros s2 Hs2. by apply wp_ret, HQ.
Qed.

(** ** Written data come back *)

Lemma fholds_trans s0 i dat fl s dat' fl' s' :
  fholds s0 i dat fl s -> fholds s i dat' fl' s' -> fholds s0 i dat' fl' s'.
Proof using Type.
  intros (l & Hl & Hh) (l' & Hl' & Hh'). exists l'.
  rewrite (holds_files _ _ _ Hh) in Hl'. cbn [set_files fat16_files] in Hl'.
  apply arr_set_inv in Hl as [Hr ->]. apply arr_set_inv in Hl' as [Hr' ->].
  rewrite list_insert_insert_eq. split; [by apply arr_set_Some|].
  destruct Hh as [_ _ Hs], Hh' as [Ho Hd Hs']. rewrite list_insert_insert_eq in Hs'.
  split; [done|done|]. rewrite Hs', Hs. by destruct s0.
Qed.

Lemma fholds_of s0 i dat fl s :
  fholds s0 i dat fl s -> fat16_files s = <[Z.to_nat i := fl]> (fat16_files s0).
Proof using Type. intros (l & [_ ->]%arr_set_inv & Hh). by rewrite (holds_files _ _ _ Hh). Qed.

Lemma path_ready_fholds s fs path name i dat fl s' :
  path_ready s fs path f name -> fholds s i dat fl s' ->
  path_ready s' fs path f name /\ chosen s' fs = chosen s fs.
Proof.
  intros [Hd Hv _ Hl Hp Hn] Hh. pose proof (fholds_of _ _ _ _ _ Hh) as Hfiles.
  assert (chosen s' fs = chosen s fs) as Hc.
  { destruct Hh as (l & _ & [_ _ ->]). by destruct fs. }
  split; [|done]. split; [apply (fholds_holds _ _ _ _ _ Hh)| |done| |done|done].
  - rewrite Hc. by rewrite (fholds_value _ _ _ _ _ _ Hh).
  - by rewrite Hfiles, length_insert.
Qed.

Lemma wp_open_again s fs path name i k cl sz (Q : Z -> fat16 D -> Prop) :
  path_ready s fs path f name -> 0 <= i < FAT16_MAX_OPEN_FILES ->
  find_root (bd_data (disk s)) f name = Found cl sz (slot_lba f k) (slot_offset k) ->
  (0 < sz -> 2 <= cl) -> free_handle (fat16_files s) = Some i ->
  (forall s', fholds s i (bd_data (disk s))
     (mkFile (chosen s fs) cl cl sz 0 (slot_lba f k) (slot_offset k) 0 1) s' -> Q (i + FAT16_FD_BASE) s') ->
  wp (fat16_open fs path) Q s.
Proof using Type.
  intros [Hd Hv Hf' Hl Hp Hn] Hi Hfind Hcl Hfree HQ.
  eapply wp_mono; [by apply (wp_fat16_open s fs path name f)|].
  intros r s' Ho. unfold open_post in Ho. cbv zeta in Ho. rewrite Hfind, Hfree in Ho.
  assert ((0 <? sz) && (cl <? FAT16_CLUSTER_MIN) = false) as E.
  { unfold FAT16_CLUSTER_MIN. destruct (Z.ltb_spec 0 sz); [|done]. cbn [andb]. apply Z.ltb_ge. auto. }
  rewrite E in Ho. destruct Ho as (-> & Hset). by apply HQ.
Qed.

Lemma written_result dat buf n dat' cs' :
  written f dat [] 0 buf n dat' cs' -> 0 < n <= Z.of_nat (length buf) ->
  file_bytes dat' f cs' 0 n = take (Z.to_nat n) buf /\ 0 < Z.of_nat (length cs') /\
  cluster_ok f (cs_at cs' 0).
Proof.
  intros Hw Hn. pose proof (wr_cap _ _ _ _ _ _ _ _ Hw). pose proof (spc_pos f Hf). unfold cluster_bytes in *.
  assert (0 < Z.of_nat (length cs')) as Hl by nia. split_and!; [|done|].
  - apply list_eq. intros j. unfold file_bytes. rewrite list_lookup_fmap.
    destruct (decide (j < Z.to_nat n)%nat) as [Hj|Hj].
    + rewrite lookup_seqZ_lt, lookup_take_lt by lia. cbn. rewrite (wr_bytes _ _ _ _ _ _ _ _ Hw) by lia.
      unfold byte. destruct (lookup_lt_is_Some_2 buf j) as [b Hb]; [lia|].
      replace (Z.to_nat (0 + Z.of_nat j - 0)) with j by lia. by rewrite Hb.
    + rewrite lookup_take_ge by lia. rewrite lookup_ge_None_2; [done|]. rewrite length_seqZ. lia.
  - by apply (cs_at_ok f Hf); [apply (wr_chain _ _ _ _ _ _ _ _ Hw)|lia].
Qed.

Lemma written_root dat cs p buf n dat' cs' a :
  written f dat cs p buf n dat' cs' -> root_dir_start_lba f <= a < data_start_lba f -> dat' a = dat a.
Proof.
  intros Hw Ha. assert (0 <= cluster_count f * sectors_per_cluster f) by (destruct Hf; nia).
  pose proof (fo_end f Hf). apply (wr_frame _ _ _ _ _ _ _ _ Hw); [destruct Hf; nia|lia|lia].
Qed.

(** The entry of a file just closed. *)
Lemma find_root_after_close dat dat' buf n cs' name k fl :
  good (D := D) dat' -> written f dat [] 0 buf n dat' cs' -> 0 <= k < slots f ->
  find_root dat f name = Found 0 0 (slot_lba f k) (slot_offset k) -> 0 <= start_cluster fl < 65536 ->
  0 <= fsize fl < 4294967296 ->
  find_root (close_disk dat' k fl) f name =
  if truthy (modified fl) then Found (start_cluster fl) (fsize fl) (slot_lba f k) (slot_offset k)
  else Found 0 0 (slot_lba f k) (slot_offset k).
Proof.
  intros Hg Hw Hk Hfind Hst Hsz. unfold close_disk.
  assert (find_root dat' f name = Found 0 0 (slot_lba f k) (slot_offset k)) as Hfind'.
  { rewrite <- Hfind. apply find_root_same. intros a Ha. by eapply written_root. }
  destruct (truthy (modified fl)); [|done].
  assert (length (slot dat' f k) = 32%nat) as Hl.
  { destruct (slot_range f k Hf Hk) as (_ & Ho & Hb). unfold slot. apply length_slice.
    pose proof (Hg _ Hb) as [Hl _]. lia. }
  destruct (closed_entry_fields _ (start_cluster fl) (fsize fl) Hl) as (He & Hc & Hn & Hs).
  rewrite (find_root_closed dat' name k 0 0) by done. by rewrite Hc, Hn, u16_small, u32_small by lia.
Qed.

(** The bytes come back, or the volume ran full and the file reads as empty. *)
Definition stored_or_full buf n (v : Z * (Z * list Z)) s : Prop :=
  v = (n, (n, take (Z.to_nat n) buf)) \/ (v = (-1, (0, [])) /\ no_free (bd_data (disk s)) f).

Lemma no_free_ext dat dat' :
  (forall a, fat_start_lba f <= a < root_dir_start_lba f -> dat' a = dat a) -> no_free dat f -> no_free dat' f.
Proof.
  intros Hd Hno c Hc. pose proof (fo_fats _ Hf). unfold cluster_ok in Hc.
  rewrite (fat_get_ext dat) by first [done|lia]. by apply Hno.
Qed.

Lemma close_disk_fat dat k fl a :
  0 <= k < slots f -> a < root_dir_start_lba f \/ data_start_lba f <= a -> close_disk dat k fl a = dat a.
Proof.
  intros Hk Ha. pose proof (slot_lba_root k Hk). unfold close_disk.
  destruct (truthy _); [|done]. apply put_slot_other. lia.
Qed.

(** The handle of a file that was just created. *)
Definition new_handle s fs k : fat16_file := mkFile (chosen s fs) 0 0 0 0 (slot_lba f k) (slot_offset k) 0 1.

(** The handle and the volume after bytes were written to it. *)
Record new_written s i k buf n (w : Z) dat1 cs tw fl1 s1 : Prop := {
  nw_written : written f (bd_data (disk s)) [] 0 buf tw dat1 cs;
  nw_holds : fholds s i dat1 fl1 s1;
  nw_active : active fl1 <> 0;
  nw_lba : dir_entry_lba fl1 = slot_lba f k;
  nw_offset : dir_entry_offset fl1 = slot_offset k;
  nw_case :
    (w = n /\ tw = n /\ start_cluster fl1 = cs_at cs 0 /\ fsize fl1 = n /\ truthy (modified fl1) = true) \/
    (w = -1 /\ no_free dat1 f /\ truthy (modified fl1) = false);
}.

Lemma wp_write_new s fs path name i k buf n fuel (Q : Z -> fat16 D -> Prop) :
  path_ready s fs path f name -> 0 <= i < FAT16_MAX_OPEN_FILES ->
  arr_get (fat16_files s) i = Some (new_handle s fs k) ->
  0 < n < 4294967296 -> n <= Z.of_nat (length buf) -> Forall is_byte buf ->
  cluster_count f < Z.of_nat fuel -> n < Z.of_nat fuel ->
  (forall w dat1 cs tw fl1 s1, new_written s i k buf n w dat1 cs tw fl1 s1 -> Q w s1) ->
  wp (fat16_write fuel (i + FAT16_FD_BASE) (Some buf) n) Q s.
Proof.
  intros [Hd Hv _ _ _ _] Hi Hget Hn Hbuf Hb Hfuel Hfuel2 HQ. set (fl := new_handle s fs k) in *. eapply wp_mono.
  { apply (wp_fat16_write f Hf s i fl [] buf n fuel); [|lia|cbn; lia|lia|done|lia|lia].
    split; [done|done|done|done|done| |cbn; lia|by left]. split; [constructor|done|done]. }
  intros w s1 (dat1 & cs & tw & Hw & Hres). change (position fl) with 0 in *.
  destruct Hres as [(-> & -> & Hh)|(-> & Htw & Hno & Hh)].
  - eapply HQ. split; [exact Hw|exact Hh|done|done|done|]. left. cbn. split_and!; [done|done|done|lia|done].
  - eapply HQ. split; [exact Hw|exact Hh|done|done|done|]. by right.
Qed.

(** Opening a file whose directory entry names the chain [cs], and reading it from
    the start. *)
Lemma wp_open_read s fs path name i k cl sz cs n fuel {B} (g : Z * list Z -> B) (Q : B -> fat16 D -> Prop) :
  path_ready s fs path f name -> 0 <= i < FAT16_MAX_OPEN_FILES ->
  find_root (bd_data (disk s)) f name = Found cl sz (slot_lba f k) (slot_offset k) ->
  free_handle (fat16_files s) = Some i -> chain (bd_data (disk s)) f cs ->
  0 <= sz <= Z.of_nat (length cs) * cluster_bytes f -> sz < 4294967296 -> (0 < sz -> 2 <= cl /\ cl = cs_at cs 0) ->
  0 < n < 4294967296 -> n < Z.of_nat fuel ->
  (forall dat' s', (forall a, 0 <= a < bd_sectors -> dat' a = bd_data (disk s) a) ->
     (forall a, 0 <= a < bd_sectors -> bd_data (disk s') a = bd_data (disk s) a) ->
     Q (g (Z.max 0 (Z.min sz n), file_bytes dat' f cs 0 (Z.max 0 (Z.min sz n)))) s') ->
  wp (fd <- fat16_open fs path ;; rd <- fat16_read fuel fd true n ;; ret (g rd)) Q s.
Proof.
  intros Hr Hi Hfind Hfree Hch Hsz Hsz32 Hcl Hn Hfuel HQ. pose proof Hr as [_ _ _ Hl _ _].
  apply wp_bind. eapply wp_open_again; [exact Hr|done|exact Hfind|intros ?; by apply Hcl|done|]. intros s3 Hh3.
  pose proof (fholds_holds _ _ _ _ _ Hh3) as Hs3. set (fl3 := mkFile _ _ _ _ _ _ _ _ _) in Hh3.
  pose proof (fo_start f Hf). pose proof (data_start_nonneg f Hf).
  assert (root_dir_start_lba f <= data_start_lba f <= bd_sectors) as Hdb.
  { assert (0 <= cluster_count f * sectors_per_cluster f) by (destruct Hf; nia). destruct Hf; lia. }
  apply wp_bind. eapply wp_mono.
  { apply (wp_fat16_read s3 i fl3 f cs n fuel); [|lia|cbn; lia].
    split; [apply Hs3|done| |done| |done| |done|cbn; lia|cbn; lia|intros Hz; cbn in Hz |- *; by apply Hcl].
    - rewrite (fholds_of _ _ _ _ _ Hh3). unfold arr_get. rewrite (proj2 (Z.leb_le _ _)) by lia.
      apply list_lookup_insert_eq. lia.
    - cbn. rewrite (fholds_value _ _ _ _ _ _ Hh3). apply Hr.
    - apply (chain_ext (bd_data (disk s))); [|done]. intros a Ha. by rewrite (ho_data _ _ _ Hs3) by lia. }
  intros rd s4 (Hrd & c & Hh4 & _). apply wp_ret. rewrite Hrd. cbn [fsize position fl3] in *. rewrite !Z.sub_0_r in *.
  apply HQ; [apply Hs3|]. intros a Ha. rewrite (ho_data _ _ _ (fholds_holds _ _ _ _ _ Hh4)) by done. by apply Hs3.
Qed.

Lemma wp_store_and_reread s fs path name i k buf n fuel :
  path_ready s fs path f name -> 0 <= i < FAT16_MAX_OPEN_FILES -> 0 <= k < slots f ->
  find_root (bd_data (disk s)) f name = Found 0 0 (slot_lba f k) (slot_offset k) ->
  arr_get (fat16_files s) i = Some (new_handle s fs k) ->
  free_handle (<[Z.to_nat i := empty_file]> (fat16_files s)) = Some i ->
  0 < n < 4294967296 -> n <= Z.of_nat (length buf) -> Forall is_byte buf ->
  cluster_count f < Z.of_nat fuel -> n < Z.of_nat fuel ->
  wp (w <- fat16_write fuel (i + FAT16_FD_BASE) (Some buf) n ;;
      c <- fat16_close (i + FAT16_FD_BASE) ;;
      fd <- fat16_open fs path ;;
      rd <- fat16_read fuel fd true n ;; ret (w, rd)) (stored_or_full buf n) s.
Proof.
  intros Hr Hi Hk Hfind Hget Hfree Hn Hbuf Hb Hfuel Hfuel2. set (dat := bd_data (disk s)) in *.
  apply wp_bind. eapply wp_write_new; [exact Hr|done|exact Hget|done|done|done|done|done|].
  intros w dat1 cs tw fl1 s1 [Hw Hh1 Ha1 Hlba1 Hoff1 Hcase].
  pose proof (holds_good _ _ _ (fholds_holds _ _ _ _ _ Hh1)) as Hgood.
  apply wp_bind. eapply wp_fat16_close; [exact Hh1|done|done|exact Hk|done|done|]. intros s2 Hh2.
  pose proof (path_ready_fholds _ _ _ _ _ _ _ _ Hr Hh2) as [Hr2 _].
  assert (forall a, 0 <= a < bd_sectors -> bd_data (disk s2) a = close_disk dat1 k fl1 a) as Hd2
    by apply (fholds_holds _ _ _ _ _ Hh2).
  pose proof (fo_start f Hf). pose proof (data_start_nonneg f Hf).
  assert (root_dir_start_lba f <= data_start_lba f <= bd_sectors) as Hdb.
  { assert (0 <= cluster_count f * sectors_per_cluster f) by (destruct Hf; nia). destruct Hf; lia. }
  pose proof (find_root_same _ _ name (fun a Ha => Hd2 a ltac:(destruct Hf; nia))) as Hfind2.
  pose proof (fholds_of _ _ _ _ _ Hh2) as Hfiles2. rewrite <- Hfiles2 in Hfree.
  assert (forall a, fat_start_lba f <= a < root_dir_start_lba f -> bd_data (disk s2) a = dat1 a) as Hfat2.
  { intros a Ha. rewrite Hd2 by lia. apply close_disk_fat; [done|lia]. }
  destruct Hcase as [(-> & -> & Hst & Hsz & Hmod)|(-> & Hno & Hmod)].
  - destruct (written_result _ _ _ _ _ Hw ltac:(lia)) as (Hdata & Hlen & Hc0).
    pose proof (fo_small f Hf). unfold cluster_ok, FAT16_CLUSTER_BAD in *.
    rewrite (find_root_after_close dat dat1 buf n cs), Hmod, Hst, Hsz in Hfind2 by (done || lia).
    eapply (wp_open_read s2 fs path name i k (cs_at cs 0) n cs n fuel (fun rd => (n, rd))); try done; try lia.
    + apply (chain_ext dat1); [done|apply Hw].
    + pose proof (wr_cap _ _ _ _ _ _ _ _ Hw). lia.
    + intros dat' s' Hdat' _. left. replace (Z.max 0 (Z.min n n)) with n by lia. do 2 f_equal.
      rewrite <- Hdata. unfold file_bytes. apply list_fmap_ext. intros j q Hj. apply lookup_seqZ in Hj as [-> Hj].
      rewrite <- (app_nil_r cs) at 1. apply (file_byte_extend f Hf); [apply Hw| |pose proof (wr_cap _ _ _ _ _ _ _ _ Hw); lia].
      intros a Ha. rewrite Hdat', Hd2 by lia. apply close_disk_fat; [done|lia].
  - eapply (wp_open_read s2 fs path name i k 0 0 [] n fuel (fun rd => (-1, rd))); try done; try lia.
    + rewrite Hfind2. unfold close_disk. rewrite Hmod, <- Hfind. apply find_root_same. intros a Ha. by eapply written_root.
    + intros dat' s' _ Hs'. right. replace (Z.max 0 (Z.min 0 n)) with 0 by lia. split; [done|].
      apply (no_free_ext dat1); [|done]. intros a Ha. rewrite Hs' by lia. by apply Hfat2.
Qed.
End roundtrip.

Lemma free_handle_again (l : list fat16_file) i fl :
  free_handle l = Some i -> free_handle (<[Z.to_nat i := empty_file]> (<[Z.to_nat i := fl]> l)) = Some i.
Proof.
  rewrite list_insert_insert_eq. intros (j & Hj & Hg & Hlow)%first_some_Some.
  assert (j = i /\ (Z.to_nat i < length l)%nat) as [-> Hl].
  { unfold closed_at in Hg. destruct (arr_get l j) eqn:E; [|done]. apply arr_get_range in E.
    destruct (active _ =? 0); [|done]. injection Hg as ->. lia. }
  apply (first_some_intro _ 0 _ i); [done| |].
  - unfold closed_at, arr_get. rewrite (proj2 (Z.leb_le _ _)), list_lookup_insert_eq by lia. done.
  - intros m Hm. specialize (Hlow m Hm). unfold closed_at, arr_get in *.
    rewrite (proj2 (Z.leb_le _ _)) in * by lia. by rewrite list_lookup_insert_ne by lia.
Qed.

(** ** A write that starts at the end of the last cluster *)

Lemma wp_write_boundary {D} `{!BlockDevice D} f (s : fat16 D) i fl cs c buf n fuel :
  fs_ok f -> bd_ok (disk s) -> 0 <= i < FAT16_MAX_OPEN_FILES -> arr_get (fat16_files s) i = Some fl ->
  active fl <> 0 -> fs_value s (ffs fl) = Some f -> Forall (cluster_ok f) cs ->
  position fl = Z.of_nat (length cs) * cluster_bytes f -> fsize fl = position fl -> position fl <> 0 ->
  cluster_ok f c -> current_cluster fl = c ->
  0 < n <= 512 -> n <= Z.of_nat (length buf) -> position fl + n < 4294967296 -> Forall is_byte buf ->
  wp (fat16_write (S fuel) (i + FAT16_FD_BASE) (Some buf) n)
     (fun r s' => r = n /\
        fholds s i (upd (bd_data (disk s)) (cluster_lba f c)
                     (splice (bd_data (disk s) (cluster_lba f c)) 0 (take (Z.to_nat n) buf)))
          (set_modified (grown fl (position fl + n) c)) s') s.
Proof.
  intros Hf Hok Hi Hget Ha Hv Hcs Hpos Hsz Hp0 Hc Hcur Hn Hbuf H32 Hb.
  pose proof (fholds_intro s i _ fl s (holds_refl s Hok) Hget) as Hh. pose proof (spc_pos f Hf) as Hspc.
  pose proof Hc as Hc'. unfold cluster_ok in Hc'.
  assert (0 <= position fl) as Hnn by (rewrite Hpos; unfold cluster_bytes; nia).
  unfold fat16_write. rewrite (proj2 (Z.eqb_neq _ _)) by lia.
  apply wp_bind. eapply wp_file_of_fd; [done|done|done|done|].
  apply wp_bind. eapply wp_file_update; [exact Hh|]. intros s1 Hs1.
  rewrite (proj2 (Z.ltb_ge _ _)) in Hs1 by (unfold FAT16_CLUSTER_MIN; lia). cbn [andb] in Hs1.
  apply wp_bind. eapply wp_file_get; [exact Hs1|]. rewrite (proj2 (Z.eqb_neq (position fl) 0)) by done. cbn [andb].
  apply wp_bind, wp_ret. cbn [negb iter]. apply wp_bind. unfold write_step.
  apply wp_bind. eapply wp_file_get; [exact Hs1|]. rewrite (proj2 (Z.ltb_ge _ _)) by (unfold FAT16_CLUSTER_MIN; lia).
  apply wp_bind. eapply wp_deref; [by erewrite fholds_value; [exact Hv|exact Hs1]|].
  assert (cs_at (cs ++ [c]) (Z.of_nat (length cs)) = c) as Hat.
  { unfold cs_at. rewrite lookup_app_r by lia. by replace (Z.to_nat (Z.of_nat (length cs)) - length cs)%nat with 0%nat by lia. }
  assert (position fl / cluster_bytes f = Z.of_nat (length cs)) as Hq.
  { rewrite Hpos, Z.div_mul; [done|]. unfold cluster_bytes. lia. }
  rewrite (locate_eq f Hf (cs ++ [c]) fl);
    [|by apply list.Forall_app; split; [|apply list.Forall_singleton]
     |rewrite length_app; cbn [length]; rewrite Hpos; unfold cluster_bytes; nia|by rewrite Hq, Hat].
  assert (position fl / 512 = Z.of_nat (length cs) * sectors_per_cluster f) as Hd.
  { rewrite Hpos. unfold cluster_bytes.
    replace (_ * (512 * _)) with (Z.of_nat (length cs) * sectors_per_cluster f * 512) by lia. by apply Z.div_mul. }
  assert (position fl mod 512 = 0) as Hm.
  { pose proof (Z.div_mod (position fl) 512 ltac:(lia)) as E. rewrite Hd in E.
    unfold cluster_bytes in Hpos. clear -E Hpos. nia. }
  rewrite Hm, Hd. unfold nth_sector. rewrite Z.mod_mul, Z.div_mul, Hat, Z.add_0_r by lia.
  pose proof (cluster_sector_range f Hf c 0 Hc ltac:(lia)) as Hr. rewrite Z.add_0_r in Hr.
  pose proof (data_start_nonneg f Hf). rewrite (fo_bps _ Hf). cbv zeta.
  replace (Z.min (512 - 0) n) with n by lia.
  apply wp_bind. eapply (wp_write_chunk f Hf); [by eapply fholds_holds|lia|lia|lia|lia|lia|lia|done|].
  intros s2 Hs2%(fholds_step _ _ _ _ _ _ _ Hs1). cbn [negb].
  apply wp_bind. eapply wp_file_update; [exact Hs2|]. intros s3 Hs3. cbv beta in Hs3.
  apply wp_bind. eapply wp_file_update; [exact Hs3|]. intros s4 Hs4. cbv beta in Hs4.
  rewrite Z.sub_diag. cbn [Z.eqb].
  apply wp_bind. eapply wp_file_update; [exact Hs4|]. intros s5 Hs5. apply wp_ret, wp_ret. split; [lia|].
  revert Hs5. rewrite (u32_small (position fl + n)) by lia. cbn [set_position fsize position].
  rewrite (proj2 (Z.ltb_lt _ _)) by lia. unfold slice. change (Z.to_nat 0) with 0%nat. rewrite drop_0.
  unfold grown, moved. rewrite Z.max_r by lia. rewrite <- Hcur. by destruct fl.
Qed.

(** ** A concrete volume with a file of 600 bytes in clusters 2 and 3 *)

Definition demo_fat_sector : list Z := splice (replicate 512 0) 4 (le_bytes 2 3 ++ le_bytes 2 0xFFFF).
Definition demo_open_disk : drive :=
  mkDrive {[ 0 := demo_boot_sector; 1 := demo_fat_sector; 2 := demo_fat_sector ]} 0 0 0 0 Idle 0.
Definition demo_open (fl : fat16_file) : fat16 drive :=
  set_files (fl :: replicate 15 empty_file) (set_disk demo_open_disk demo_mounted).
(** The file opened and read up to byte 500, and the same file with 1024 bytes, all read. *)
Definition demo_part_read : fat16_file := mkFile (FsAt 0) 2 2 600 500 3 0 0 1.
Definition demo_all_read : fat16_file := mkFile (FsAt 0) 2 3 1024 1024 3 0 0 1.

Lemma demo_layout_ok : fs_ok (D := drive) demo_layout.
Proof. apply (layout_ok (D := drive)), demo_bpb. Qed.

Lemma demo_fat_is_sector : is_sector demo_fat_sector.
Proof.
  unfold demo_fat_sector. apply splice_sector; [|lia|cbn; lia|].
  - split; [apply length_replicate|apply Forall_replicate; by compute].
  - apply list.Forall_app. split; apply le_bytes_range.
Qed.

Lemma demo_open_disk_ok : drive_ok demo_open_disk.
Proof.
  split; [done|]. split; [cbn; lia|]. intros a l. cbn [demo_open_disk dr_sectors].
  intros [[_ <-]|[_ [[_ <-]|[_ [_ <-]%lookup_singleton_Some]]%lookup_insert_Some]]%lookup_insert_Some;
    [apply demo_boot_is_sector|apply demo_fat_is_sector|apply demo_fat_is_sector].
Qed.

Lemma demo_chain fl : chain (bd_data (disk (demo_open fl))) demo_layout [2; 3].
Proof.
  split.
  - repeat (apply list.Forall_cons; split; [split; by vm_compute|]). by apply list.Forall_nil.
  - intros [|[|k]] a b Ha Hb; try done. injection Ha as <-. injection Hb as <-. by vm_compute.
  - intros a [= <-]. by vm_compute.
Qed.

Lemma demo_open_file : open_file (demo_open demo_part_read) 0 demo_part_read demo_layout [2; 3].
Proof.
  split; [apply demo_open_disk_ok|by compute|done|done|reflexivity|apply demo_layout_ok|apply demo_chain
    |by vm_compute|done|done|by vm_compute].
Qed.

Lemma demo_write_ready : write_ready demo_layout (demo_open demo_part_read) 0 demo_part_read [2; 3].
Proof.
  split; [apply demo_open_disk_ok|by compute|done|done|reflexivity|apply demo_chain|by compute|].
  right. split_and!; by vm_compute.
Qed.

(** ** Properties *)

(** C19: [fat16_read] of an open file answers the bytes of the cluster chain from
    the file's position on, as many as asked for and left in the file, crossing
    sectors and clusters; the position advances by that many and nothing else
    changes. *)
Theorem fat16_read_correct D (HD : BlockDevice D) (s : fat16 D) i fl f cs count fuel :
  open_file s i fl f cs -> 0 < count < 4294967296 ->
  let n := Z.max 0 (Z.min (fsize fl - position fl) count) in
  n < Z.of_nat fuel ->
  wp (fat16_read fuel (i + FAT16_FD_BASE) true count)
     (fun r s' => r = (n, file_bytes (bd_data (disk s)) f cs (position fl) n) /\
        exists c, fholds s i (bd_data (disk s)) (moved fl (position fl + n) c) s' /\
          (position fl + n < fsize fl -> c = cs_at cs ((position fl + n) / cluster_bytes f))) s.
Proof. apply wp_fat16_read. Qed.

Lemma fat16_read_correct_witness :
  let n := Z.max 0 (Z.min (fsize demo_part_read - position demo_part_read) 50) in
  wp (fat16_read 60 (0 + FAT16_FD_BASE) true 50)
     (fun r s' => r = (n, file_bytes (bd_data (disk (demo_open demo_part_read))) demo_layout [2; 3] (position demo_part_read) n) /\
        exists c, fholds (demo_open demo_part_read) 0 (bd_data (disk (demo_open demo_part_read)))
            (moved demo_part_read (position demo_part_read + n) c) s' /\
          (position demo_part_read + n < fsize demo_part_read ->
           c = cs_at [2; 3] ((position demo_part_read + n) / cluster_bytes demo_layout))) (demo_open demo_part_read).
Proof.
  apply (fat16_read_correct drive _ (demo_open demo_part_read) 0 demo_part_read demo_layout [2; 3] 50 60);
    [apply demo_open_file|lia|by compute].
Defined.

(** C18: [fat16_write] of [n] bytes to an open file stores them at its position,
    extending the chain by free clusters, and changes no other byte of the file,
    no FAT entry of a cluster outside the chain and no other sector; or it answers
    -1 after a part of the bytes, and then no cluster is free. *)
Theorem fat16_write_correct D (HD : BlockDevice D) (s : fat16 D) i fl f cs buf n fuel :
  fs_ok f -> write_ready f s i fl cs -> 0 < n <= Z.of_nat (length buf) ->
  position fl + n < 4294967296 -> Forall is_byte buf ->
  cluster_count f < Z.of_nat fuel -> n < Z.of_nat fuel ->
  wp (fat16_write fuel (i + FAT16_FD_BASE) (Some buf) n)
     (fun r s' => exists dat' cs' tw,
        written f (bd_data (disk s)) cs (position fl) buf tw dat' cs' /\
        ((r = n /\ tw = n /\ fholds s i dat' (set_modified (after_write f fl cs' n)) s') \/
         (r = -1 /\ 0 <= tw < n /\ no_free dat' f /\ fholds s i dat' (after_write f fl cs' tw) s'))) s.
Proof. intros Hf Hw Hn Hp Hb H1 H2. by apply (wp_fat16_write f Hf); first [done|lia]. Qed.

Lemma fat16_write_correct_witness :
  wp (fat16_write 40 (0 + FAT16_FD_BASE) (Some (replicate 30 65)) 30)
     (fun r s' => exists dat' cs' tw,
        written demo_layout (bd_data (disk (demo_open demo_part_read))) [2; 3] (position demo_part_read)
          (replicate 30 65) tw dat' cs' /\
        ((r = 30 /\ tw = 30 /\ fholds (demo_open demo_part_read) 0 dat'
            (set_modified (after_write demo_layout demo_part_read cs' 30)) s') \/
         (r = -1 /\ 0 <= tw < 30 /\ no_free dat' demo_layout /\
          fholds (demo_open demo_part_read) 0 dat' (after_write demo_layout demo_part_read cs' tw) s')))
     (demo_open demo_part_read).
Proof.
  apply (fat16_write_correct drive _ (demo_open demo_part_read) 0 demo_part_read demo_layout [2; 3]);
    [apply demo_layout_ok|apply demo_write_ready|by compute|by compute
    |apply Forall_replicate; by compute|by vm_compute|lia].
Defined.

(** C4: The bytes written to a file that was just created are the bytes read after
    it was closed and opened again, unless the volume had too few free clusters:
    then the write answers -1 and the file is empty. *)
Theorem fat16_file_roundtrip D (HD : BlockDevice D) (s : fat16 D) fs path f name k i buf n fuel :
  path_ready s fs path f name -> plain_name name ->
  find_root (bd_data (disk s)) f name = FindNone ->
  find_free (bd_data (disk s)) f = Some k -> free_handle (fat16_files s) = Some i ->
  0 < n <= Z.of_nat (length buf) -> n < 4294967296 -> Forall is_byte buf ->
  cluster_count f < Z.of_nat fuel -> n < Z.of_nat fuel ->
  wp (r <- fat16_create fs path ;;
      fd <- fat16_open fs path ;;
      w <- fat16_write fuel fd (Some buf) n ;;
      c <- fat16_close fd ;;
      fd <- fat16_open fs path ;;
      rd <- fat16_read fuel fd true n ;; ret (w, rd)) (fun v s' => stored_or_full f buf n v s') s.
Proof.
  intros Hr Hn Hno Hfree Hh Hlen H32 Hb Hfuel Hfuel2. pose proof Hr as [Hd Hv Hf Hl Hp Hname].
  pose proof (wp_create_open s fs path f name k i Hr Hn Hno Hfree Hh) as Hco.
  apply wp_bind_inv in Hco. apply wp_bind. eapply wp_mono; [exact Hco|]. cbv beta. intros r s1 Ho.
  apply wp_bind_inv in Ho. apply wp_bind. eapply wp_mono; [exact Ho|]. cbv beta. clear Ho Hco.
  intros fd s2 ([= -> ->] & l & Hset & Hs2).
  assert (0 <= i < FAT16_MAX_OPEN_FILES) as Hi by (apply arr_set_inv in Hset as [Hi _]; rewrite Hl in Hi; unfold FAT16_MAX_OPEN_FILES in *; lia).
  pose proof Hfree as (k' & Hk' & Hkk & _)%first_some_Some.
  destruct (slot_free _); [|done]. injection Hkk as ->.
  assert (fholds s i (put_slot (bd_data (disk s)) f k (new_entry name))
    (mkFile (chosen s fs) 0 0 0 0 (slot_lba f k) (slot_offset k) 0 1) s2) as Hh2 by (by exists l).
  pose proof (path_ready_fholds f Hf _ _ _ _ _ _ _ _ Hr Hh2) as [Hr2 Hc2].
  pose proof (fholds_of _ _ _ _ _ Hh2) as Hfiles.
  apply (wp_store_and_reread f Hf s2 fs path name i k); try done; try lia.
  - rewrite (find_root_ext (put_slot (bd_data (disk s)) f k (new_entry name)))
      by (done || by intros a Ha; apply (ho_data _ _ _ Hs2)).
    apply find_root_created; try done. intros a Ha. by apply bd_sector.
  - unfold new_handle. rewrite Hfiles, Hc2. unfold arr_get. rewrite (proj2 (Z.leb_le _ _)) by lia.
    apply list_lookup_insert_eq. rewrite Hl. lia.
  - rewrite Hfiles. by apply free_handle_again.
Qed.

Lemma fat16_file_roundtrip_witness :
  wp (r <- fat16_create FsNull (Some demo_path) ;;
      fd <- fat16_open FsNull (Some demo_path) ;;
      w <- fat16_write 600 fd (Some (replicate 520 65)) 520 ;;
      c <- fat16_close fd ;;
      fd <- fat16_open FsNull (Some demo_path) ;;
      rd <- fat16_read 600 fd true 520 ;; ret (w, rd))
     (fun v s' => stored_or_full demo_layout (replicate 520 65) 520 v s') demo_mounted.
Proof.
  apply (fat16_file_roundtrip drive _ demo_mounted FsNull (Some demo_path) demo_layout demo_name 0 0);
    [apply demo_path_ready|apply demo_plain|by vm_compute|by vm_compute|by vm_compute|by vm_compute|lia
    |apply Forall_replicate; by compute|by vm_compute|lia].
Defined.

(** C40: When a file fills its last cluster exactly, the next write of up to 512
    bytes goes to the first sector of that cluster: it answers success and the size
    grows, but the bytes already in the file are overwritten and the chain of
    clusters is not extended. *)
Theorem fat16_write_boundary_overwrites D (HD : BlockDevice D) (s : fat16 D) i fl f cs buf n fuel :
  fs_ok f -> bd_ok (disk s) -> 0 <= i < FAT16_MAX_OPEN_FILES -> arr_get (fat16_files s) i = Some fl ->
  active fl <> 0 -> fs_value s (ffs fl) = Some f -> Forall (cluster_ok f) cs -> cs <> [] ->
  fsize fl = Z.of_nat (length cs) * cluster_bytes f -> position fl = fsize fl ->
  current_cluster fl = last_cluster cs ->
  0 < n <= 512 -> n <= Z.of_nat (length buf) -> position fl + n < 4294967296 -> Forall is_byte buf ->
  let a := nth_sector f cs ((Z.of_nat (length cs) - 1) * sectors_per_cluster f) in
  wp (fat16_write (S fuel) (i + FAT16_FD_BASE) (Some buf) n)
     (fun r s' => r = n /\ exists fl', fsize fl' = fsize fl + n /\
        fholds s i (upd (bd_data (disk s)) a (splice (bd_data (disk s) a) 0 (take (Z.to_nat n) buf))) fl' s') s.
Proof.
  intros Hf Hok Hi Hget Ha Hv Hcs Hne Hsz Hpos Hcur Hn Hbuf H32 Hb a. pose proof (spc_pos f Hf) as Hspc.
  assert (0 < Z.of_nat (length cs)) as Hl by (destruct cs; cbn; [done|lia]).
  assert (a = cluster_lba f (last_cluster cs)) as ->.
  { unfold a, nth_sector. rewrite Z.div_mul, Z.mod_mul, Z.add_0_r, last_cluster_at by lia. done. }
  assert (cluster_ok f (last_cluster cs)) as Hc.
  { rewrite last_cluster_at. apply (cs_at_ok f Hf); [done|lia]. }
  assert (position fl <> 0) as Hp0 by (unfold cluster_bytes in *; nia).
  eapply wp_mono; [apply (wp_write_boundary f s i fl cs (last_cluster cs) buf n fuel); (done || lia)|].
  intros r s' [-> Hh]. split; [done|]. eexists. split; [|exact Hh]. cbn. lia.
Qed.

Lemma fat16_write_boundary_overwrites_witness :
  let s := demo_open demo_all_read in
  let a := nth_sector demo_layout [2; 3] ((Z.of_nat (length [2; 3]) - 1) * sectors_per_cluster demo_layout) in
  a = 5 /\
  wp (fat16_write 1 (0 + FAT16_FD_BASE) (Some [65]) 1)
     (fun r s' => r = 1 /\ exists fl', fsize fl' = fsize demo_all_read + 1 /\
        fholds s 0 (upd (bd_data (disk s)) a (splice (bd_data (disk s) a) 0 (take (Z.to_nat 1) [65]))) fl' s') s.
Proof.
  split; [by vm_compute|].
  apply (fat16_write_boundary_overwrites drive _ (demo_open demo_all_read) 0 demo_all_read demo_layout [2; 3]);
    [apply demo_layout_ok|apply demo_open_disk_ok|by compute|done|done|reflexivity
    |apply (demo_chain demo_all_read)|done|by vm_compute|done|done|lia|cbn; lia|by compute|].
  constructor; [by compute|constructor].
Defined.
