(* ===== verification/Task.v ===== *)
(** * Tasks and the scheduler ([kernel/task.c], [kernel/task.h])

    The task table, the doubly linked ready list threaded through it, the current
    task, the kernel stack slots and the family links, over the virtual memory
    machine of [Vmm] for the switches of address space.  A [task_t *] is always an
    entry of the table, so a pointer is an optional index. *)

From stdpp Require Import base list gmap numbers option tactics.
From S2P Require Import Prelude PhysMem Pmm Vmm.

Definition TASK_MAX : nat := 16.
Definition TASK_QUANTUM_DEFAULT : Z := 5.
Definition MAX_USER_CODE_PAGES : nat := 16.
Definition MAX_USER_HEAP_PAGES : nat := 16.
Definition KERNEL_STACK_REGION_START : Z := 0xC0200000.
Definition KERNEL_STACK_REGION_END : Z := 0xC03FEFFF.
Definition KERNEL_STACK_SIZE : Z := 0x4000.
Definition USER_HEAP_START : Z := 0x00800000.
Definition KERNEL_CODE_SEG : Z := 0x08.
Definition KERNEL_DATA_SEG : Z := 0x10.
Definition USER_CODE_SEG : Z := 0x1B.
Definition USER_DATA_SEG : Z := 0x23.

(** ** Data *)

Inductive task_state := TASK_UNUSED | TASK_READY | TASK_RUNNING | TASK_WAITING | TASK_ZOMBIE.
Inductive task_type := TASK_TYPE_KERNEL | TASK_TYPE_USER | TASK_TYPE_USER_PROCESS.
#[export] Instance task_state_eq : EqDecision task_state.
Proof. solve_decision. Defined.
#[export] Instance task_type_eq : EqDecision task_type.
Proof. solve_decision. Defined.

Record task_context := mkContext {
  edi : Z; esi : Z; ebp : Z; esp : Z; ebx : Z; edx : Z; ecx : Z; eax : Z;
  eip : Z; cs : Z; ss : Z; eflags : Z;
}.
#[export] Instance eta_context : Eta task_context := {| eta := fun c =>
  mkContext (edi c) (esi c) (ebp c) (esp c) (ebx c) (edx c) (ecx c) (eax c) (eip c) (cs c) (ss c) (eflags c) |}.

(** [task_t *]: an entry of the table, or NULL. *)
Definition ptr : Type := option nat.

Record task := mkTask {
  pid : Z;
  state : task_state;
  type : task_type;
  quantum : Z;
  ticks : Z;
  stack_base : Z;
  stack_top : Z;
  stack_size : Z;
  user_stack_top : Z;
  user_stack_size : Z;
  user_stack_paddr : Z;
  user_code_paddr : Z;
  user_code_frame_count : Z;
  user_code_frames : list Z;
  user_heap_start : Z;
  user_heap_size : Z;
  user_heap_frame_count : Z;
  user_heap_frames : list Z;
  page_directory_phys : Z;
  parent_pid : Z;
  parent : ptr;
  first_child : ptr;
  next_sibling : ptr;
  waiting_for_pid : Z;
  waiting_status : Z;
  wake_tick : Z;
  exit_status : Z;
  context : task_context;
  next : ptr;
  prev : ptr;
}.
#[export] Instance eta_task : Eta task := {| eta := fun t =>
  mkTask (pid t) (state t) (type t) (quantum t) (ticks t) (stack_base t) (stack_top t) (stack_size t)
    (user_stack_top t) (user_stack_size t) (user_stack_paddr t) (user_code_paddr t)
    (user_code_frame_count t) (user_code_frames t) (user_heap_start t) (user_heap_size t)
    (user_heap_frame_count t) (user_heap_frames t) (page_directory_phys t) (parent_pid t)
    (parent t) (first_child t) (next_sibling t) (waiting_for_pid t) (waiting_status t) (wake_tick t)
    (exit_status t) (context t) (next t) (prev t) |}.

Definition zero_context : task_context := mkContext 0 0 0 0 0 0 0 0 0 0 0 0.

(** The statics of [task.c], the two fields of the TSS the kernel uses, the tick
    counter of the timer, and the machine. *)
Record kernel (A : Type) := mkKernel {
  kvm : vm A;
  task_table : list task;
  current_task : ptr;
  ready_list_head : ptr;
  ready_list_tail : ptr;
  next_pid : Z;
  task_stack_slots : list bool;
  tss_esp0 : Z;
  tss_ss0 : Z;
  timer_ticks : Z;
}.
Arguments mkKernel {A}.
Arguments kvm {A}.
Arguments task_table {A}.
Arguments current_task {A}.
Arguments ready_list_head {A}.
Arguments ready_list_tail {A}.
Arguments next_pid {A}.
Arguments task_stack_slots {A}.
Arguments tss_esp0 {A}.
Arguments tss_ss0 {A}.
Arguments timer_ticks {A}.
#[export] Instance eta_kernel A : Eta (kernel A) := {| eta := fun k =>
  mkKernel (kvm k) (task_table k) (current_task k) (ready_list_head k) (ready_list_tail k)
    (next_pid k) (task_stack_slots k) (tss_esp0 k) (tss_ss0 k) (timer_ticks k) |}.

Section task.
Context {A : Type} `{!FrameAllocator A}.
Abbreviation K := (M (kernel A)).

Definition in_vm {B} (c : M (vm A) B) : K B := zoom kvm (fun v k => k <| kvm := v |>) c.

(** [*p] and [p->field = ...] *)
Definition get_task (p : ptr) : K task :=
  match p with
  | None => trap
  | Some i => k <- get ;; some_or_trap (task_table k !! i)
  end.
Definition upd_task (p : ptr) (g : task -> task) : K unit :=
  match p with
  | None => trap
  | Some i =>
      k <- get ;; t <- some_or_trap (task_table k !! i) ;;
      put (k <| task_table := <[i := g t]> (task_table k) |>)
  end.

(** ** The ready list *)

Definition task_update_tss : K unit :=
  c <- gets current_task ;;
  match c with
  | None => ret tt
  | Some _ =>
      t <- get_task c ;;
      modify (fun k => k <| tss_esp0 := stack_top t |>) ;;
      modify (fun k => k <| tss_ss0 := KERNEL_DATA_SEG |>)
  end.

Definition task_enqueue (t : ptr) : K unit :=
  upd_task t (fun x => x <| next := None |>) ;;
  tail <- gets ready_list_tail ;;
  upd_task t (fun x => x <| prev := tail |>) ;;
  (match tail with
   | Some _ => upd_task tail (fun x => x <| next := t |>)
   | None => modify (fun k => k <| ready_list_head := t |>)
   end) ;;
  modify (fun k => k <| ready_list_tail := t |>) ;;
  upd_task t (fun x => x <| state := TASK_READY |>).

Definition task_remove (t : ptr) : K unit :=
  x <- get_task t ;;
  (match prev x with
   | Some _ => upd_task (prev x) (fun y => y <| next := next x |>)
   | None => modify (fun k => k <| ready_list_head := next x |>)
   end) ;;
  x <- get_task t ;;
  (match next x with
   | Some _ => upd_task (next x) (fun y => y <| prev := prev x |>)
   | None => modify (fun k => k <| ready_list_tail := prev x |>)
   end) ;;
  upd_task t (fun x => x <| next := None |>) ;;
  upd_task t (fun x => x <| prev := None |>).

(** The address space of the current task, or the kernel's. *)
Definition load_current_cr3 : K unit :=
  c <- gets current_task ;;
  pd <- match c with
        | None => ret 0
        | Some _ => t <- get_task c ;; ret (page_directory_phys t)
        end ;;
  if negb (pd =? 0) then in_vm (load_cr3 pd)
  else kpdt <- in_vm vmm_get_kernel_pdt_phys ;; in_vm (load_cr3 kpdt).

Definition task_select_next : K ptr :=
  nxt <- gets ready_list_head ;;
  match nxt with
  | None => ret None
  | Some _ =>
      task_remove nxt ;;
      upd_task nxt (fun x => x <| state := TASK_RUNNING |>) ;;
      upd_task nxt (fun x => x <| ticks := 0 |>) ;;
      modify (fun k => k <| current_task := nxt |>) ;;
      task_update_tss ;;
      load_current_cr3 ;;
      ret nxt
  end.

Definition task_create_context (t : ptr) (entry_point : Z) : K unit :=
  upd_task t (fun x =>
    let c := context x in
    let c := c <| edi := 0 |> <| esi := 0 |> <| ebp := 0 |> <| ebx := 0 |> <| edx := 0 |>
               <| ecx := 0 |> <| eax := 0 |> <| eip := entry_point |> <| eflags := 0x202 |> in
    x <| context :=
      if decide (type x <> TASK_TYPE_KERNEL) then
        let c := if esp c =? 0 then c <| esp := u32 (user_stack_top x - 32) |> else c in
        c <| cs := USER_CODE_SEG |> <| ss := USER_DATA_SEG |>
      else
        c <| esp := u32 (stack_top x - 32) |> <| cs := KERNEL_CODE_SEG |> <| ss := KERNEL_DATA_SEG |> |>).

(** Where the code answers [&next->context] the model answers [next]. *)
Definition requeue_current : K unit :=
  c <- gets current_task ;;
  match c with
  | None => ret tt
  | Some _ =>
      t <- get_task c ;;
      if decide (state t = TASK_RUNNING) then
        upd_task c (fun x => x <| state := TASK_READY |>) ;;
        task_enqueue c
      else ret tt
  end.

Definition task_schedule : K ptr :=
  requeue_current ;;
  task_select_next.

Definition task_yield : K ptr :=
  requeue_current ;;
  task_select_next.

Definition timer_get_ticks : K Z := gets timer_ticks.

Definition timer_handle_interrupt : K unit := modify (fun k => k <| timer_ticks := u32 (timer_ticks k + 1) |>).

Definition task_wake_waiting_tasks : K unit :=
  now <- timer_get_ticks ;;
  for_each TASK_MAX 0 (fun index =>
    let t := Some (Z.to_nat index) in
    x <- get_task t ;;
    if bool_decide (state x = TASK_WAITING) && negb (wake_tick x =? 0) && (wake_tick x <=? now) then
      upd_task t (fun x => x <| state := TASK_READY |>) ;;
      upd_task t (fun x => x <| wake_tick := 0 |>) ;;
      task_enqueue t
    else ret tt).

Definition task_tick : K ptr :=
  task_wake_waiting_tasks ;;
  c <- gets current_task ;;
  match c with
  | None => ret None
  | Some _ =>
      x <- get_task c ;;
      if decide (state x <> TASK_RUNNING) then ret None
      else
        upd_task c (fun x => x <| ticks := u32 (ticks x + 1) |>) ;;
        x <- get_task c ;;
        if quantum x <=? ticks x then
          upd_task c (fun x => x <| state := TASK_READY |>) ;;
          task_enqueue c ;;
          task_select_next
        else ret None
  end.

(** Interrupt 32 of [interrupt_handler]. *)
Definition timer_irq : K ptr := timer_handle_interrupt ;; task_tick.

Definition task_get_current : K ptr := gets current_task.

Definition task_set_current (t : ptr) : K unit :=
  c <- gets current_task ;;
  if decide (t = c) then ret tt
  else
    (match t with
     | None => ret tt
     | Some _ =>
         x <- get_task t ;;
         if decide (state x = TASK_READY) then task_remove t else ret tt
     end) ;;
    modify (fun k => k <| current_task := t |>) ;;
    (match t with
     | None => ret tt
     | Some _ =>
         upd_task t (fun x => x <| state := TASK_RUNNING |>) ;;
         upd_task t (fun x => x <| ticks := 0 |>)
     end) ;;
    task_update_tss ;;
    load_current_cr3.

Definition task_get_at_index (index : Z) : ptr :=
  if Z.of_nat TASK_MAX <=? index then None else Some (Z.to_nat index).

(** ** Processes and their family *)

Definition task_init_user_heap_fields (t : ptr) : K unit :=
  match t with
  | None => ret tt
  | Some _ =>
      upd_task t (fun x => x <| user_heap_start := USER_HEAP_START |> <| user_heap_size := 0 |>
        <| user_heap_frame_count := 0 |> <| user_heap_frames := replicate MAX_USER_HEAP_PAGES 0 |>)
  end.

Definition task_init_process_fields (t : ptr) : K unit :=
  upd_task t (fun x => x <| parent_pid := 0 |> <| parent := None |> <| first_child := None |>
    <| next_sibling := None |> <| waiting_for_pid := -1 |>).

Definition task_add_child (par child : ptr) : K unit :=
  match par, child with
  | Some _, Some _ =>
      upd_task child (fun x => x <| parent := par |>) ;;
      p <- get_task par ;; upd_task child (fun x => x <| parent_pid := pid p |>) ;;
      p <- get_task par ;; upd_task child (fun x => x <| next_sibling := first_child p |>) ;;
      upd_task par (fun x => x <| first_child := child |>)
  | _, _ => ret tt
  end.

(** A cell that holds a link of a child list: the parent's [first_child], or the
    [next_sibling] of a task. *)
Inductive link := FirstChild (p : ptr) | NextSibling (p : ptr).
Definition link_get (l : link) : K ptr :=
  match l with
  | FirstChild p => t <- get_task p ;; ret (first_child t)
  | NextSibling p => t <- get_task p ;; ret (next_sibling t)
  end.
Definition link_set (l : link) (v : ptr) : K unit :=
  match l with
  | FirstChild p => upd_task p (fun x => x <| first_child := v |>)
  | NextSibling p => upd_task p (fun x => x <| next_sibling := v |>)
  end.

Definition task_remove_child (fuel : nat) (child : ptr) : K unit :=
  match child with
  | None => ret tt
  | Some _ =>
      x <- get_task child ;;
      match parent x with
      | None => ret tt
      | Some _ =>
          iter fuel (fun current =>
            v <- link_get current ;;
            match v with
            | None => ret (inr tt)
            | Some _ =>
                if decide (v = child) then
                  c <- get_task child ;; link_set current (next_sibling c) ;; ret (inr tt)
                else ret (inl (NextSibling v))
            end) (FirstChild (parent x)) ;;
          upd_task child (fun x => x <| parent := None |> <| parent_pid := 0 |> <| next_sibling := None |>)
      end
  end.

(** [wanted] is an [int], compared with an unsigned pid. *)
Definition task_find_child (fuel : nat) (par : ptr) (wanted : Z) : K ptr :=
  match par with
  | None => ret None
  | Some _ =>
      p <- get_task par ;;
      iter fuel (fun child =>
        match child with
        | None => ret (inr None)
        | Some _ =>
            c <- get_task child ;;
            if pid c =? u32 wanted then ret (inr child) else ret (inl (next_sibling c))
        end) (first_child p)
  end.

(** ** Creation and termination *)

Definition task_stack_slot_count : Z :=
  let region_size := u32 (KERNEL_STACK_REGION_END - KERNEL_STACK_REGION_START + 1) in
  let slot_count := region_size / KERNEL_STACK_SIZE in
  if Z.of_nat TASK_MAX <? slot_count then Z.of_nat TASK_MAX else slot_count.

Definition get_slot (i : Z) : K bool := k <- get ;; some_or_trap (arr_get (task_stack_slots k) i).
Definition set_slot (i : Z) (b : bool) : K unit :=
  k <- get ;; l <- some_or_trap (arr_set (task_stack_slots k) i b) ;; put (k <| task_stack_slots := l |>).

Definition task_allocate_stack (t : ptr) : K bool :=
  r <- for_ (Z.to_nat task_stack_slot_count) 0 (fun slot (_ : unit) =>
         used <- get_slot slot ;;
         if (used : bool) then ret (inl tt)
         else
           set_slot slot true ;;
           let base := u32 (KERNEL_STACK_REGION_START + slot * KERNEL_STACK_SIZE) in
           upd_task t (fun x => x <| stack_base := base |>
             <| stack_top := u32 (base + KERNEL_STACK_SIZE) |> <| stack_size := KERNEL_STACK_SIZE |>) ;;
           ret (inr true)) tt ;;
  match r with inl _ => ret false | inr b => ret b end.

Definition task_free_stack (t : ptr) : K unit :=
  x <- get_task t ;;
  if stack_base x =? 0 then ret tt
  else
    let slot := u32 (stack_base x - KERNEL_STACK_REGION_START) / KERNEL_STACK_SIZE in
    (if slot <? task_stack_slot_count then set_slot slot false else ret tt) ;;
    upd_task t (fun x => x <| stack_base := 0 |> <| stack_top := 0 |> <| stack_size := 0 |>).

Definition task_alloc : K ptr :=
  r <- for_ TASK_MAX 0 (fun index (_ : unit) =>
         let t := Some (Z.to_nat index) in
         x <- get_task t ;;
         if decide (state x = TASK_UNUSED) then
           n <- gets next_pid ;;
           modify (fun k => k <| next_pid := u32 (n + 1) |>) ;;
           upd_task t (fun x => x <| pid := n |> <| state := TASK_READY |> <| type := TASK_TYPE_KERNEL |>
             <| quantum := TASK_QUANTUM_DEFAULT |> <| ticks := 0 |> <| stack_base := 0 |>
             <| stack_top := 0 |> <| stack_size := 0 |> <| user_stack_top := 0 |>
             <| user_stack_size := 0 |> <| user_stack_paddr := 0 |> <| user_code_paddr := 0 |>
             <| user_code_frame_count := 0 |> <| user_code_frames := replicate MAX_USER_CODE_PAGES 0 |>) ;;
           task_init_user_heap_fields t ;;
           task_init_process_fields t ;;
           kpdt <- in_vm vmm_get_kernel_pdt_phys ;;
           upd_task t (fun x => x <| wake_tick := 0 |> <| exit_status := 0 |>
             <| page_directory_phys := kpdt |> <| context := zero_context |>
             <| next := None |> <| prev := None |>) ;;
           ok <- task_allocate_stack t ;;
           if (ok : bool) then ret (inr t)
           else
             upd_task t (fun x => x <| state := TASK_UNUSED |>) ;;
             ret (inr None)
         else ret (inl tt)) tt ;;
  match r with inl _ => ret None | inr p => ret p end.

Definition task_init : K unit :=
  for_each TASK_MAX 0 (fun index =>
    let t := Some (Z.to_nat index) in
    task_free_stack t ;;
    upd_task t (fun x => x <| pid := 0 |> <| state := TASK_UNUSED |> <| type := TASK_TYPE_KERNEL |>
      <| quantum := 0 |> <| ticks := 0 |> <| stack_base := 0 |> <| stack_top := 0 |> <| stack_size := 0 |>
      <| user_stack_top := 0 |> <| user_stack_size := 0 |> <| user_stack_paddr := 0 |>
      <| user_code_paddr := 0 |> <| user_code_frame_count := 0 |>
      <| user_code_frames := replicate MAX_USER_CODE_PAGES 0 |>
      <| user_heap_start := USER_HEAP_START |> <| user_heap_size := 0 |>
      <| user_heap_frame_count := 0 |> <| user_heap_frames := replicate MAX_USER_HEAP_PAGES 0 |>) ;;
    task_init_process_fields t ;;
    upd_task t (fun x => x <| wake_tick := 0 |> <| exit_status := 0 |> <| context := zero_context |>
      <| next := None |> <| prev := None |>) ;;
    set_slot index false) ;;
  modify (fun k => k <| ready_list_head := None |> <| ready_list_tail := None |>
    <| current_task := None |> <| next_pid := 1 |>).

Definition task_create (entry_point : Z) : K ptr :=
  t <- task_alloc ;;
  match t with
  | None => ret None
  | Some _ =>
      upd_task t (fun x => x <| type := TASK_TYPE_KERNEL |> <| state := TASK_READY |> <| ticks := 0 |>
        <| quantum := TASK_QUANTUM_DEFAULT |>) ;;
      task_create_context t entry_point ;;
      task_enqueue t ;;
      ret t
  end.

(** The static [validate_user_pointer] of [task.c]. *)
Definition task_validate_user_pointer (vaddr : Z) : M (vm A) bool :=
  if KERNEL_VIRT_BASE <=? vaddr then ret false
  else p <- vmm_get_phys_addr vaddr ;; ret (negb (p =? 0)).

(** The exit status stored where the waiting parent asked for it. *)
Definition deliver_status (p c : task) : M (vm A) unit :=
  old_cr3 <- read_cr3 ;;
  load_cr3 (page_directory_phys p) ;;
  ok <- (if waiting_status p =? 0 then ret false
         else task_validate_user_pointer (waiting_status p)) ;;
  (if (ok : bool) then vwrite32 (waiting_status p) (u32 (exit_status c)) else ret tt) ;;
  load_cr3 old_cr3.

(** The parent sleeps and waits for this child, or for any. *)
Definition waits_for (p c : task) : bool :=
  bool_decide (state p = TASK_WAITING) &&
  ((u32 (waiting_for_pid p) =? pid c) || (waiting_for_pid p =? -1)).

Definition task_terminate (status : Z) : K unit :=
  c <- gets current_task ;;
  match c with
  | None => ret tt
  | Some _ =>
      upd_task c (fun x => x <| exit_status := status |> <| state := TASK_ZOMBIE |>) ;;
      x <- get_task c ;;
      match parent x with
      | None => ret tt
      | Some _ =>
          p <- get_task (parent x) ;;
          if waits_for p x then
            in_vm (deliver_status p x) ;;
            upd_task (parent x) (fun y => y <| context := (context y) <| eax := pid x |> |>) ;;
            upd_task (parent x) (fun y => y <| waiting_status := 0 |> <| state := TASK_READY |>
              <| waiting_for_pid := 0 |>) ;;
            task_enqueue (parent x)
          else ret tt
      end
  end.

Definition task_exit (status : Z) : K ptr :=
  task_terminate status ;; task_schedule.

(** ** The context of an interrupted task

    [saved_regs] are the words of the interrupt frame, from EDI of [pusha] up. *)
Definition reg (saved_regs : list Z) (i : nat) : K Z := some_or_trap (saved_regs !! i).

Definition task_save_current_context (saved_regs : option (list Z)) : K unit :=
  c <- gets current_task ;;
  match c, saved_regs with
  | Some _, Some regs =>
      x <- get_task c ;;
      if decide (state x <> TASK_RUNNING) then ret tt
      else
        saved_esp <- reg regs 3 ;;
        r0 <- reg regs 0 ;; r1 <- reg regs 1 ;; r2 <- reg regs 2 ;; r4 <- reg regs 4 ;;
        r5 <- reg regs 5 ;; r6 <- reg regs 6 ;; r7 <- reg regs 7 ;;
        upd_task c (fun x => x <| context := (context x) <| edi := r0 |> <| esi := r1 |> <| ebp := r2 |>
          <| ebx := r4 |> <| edx := r5 |> <| ecx := r6 |> <| eax := r7 |> |>) ;;
        f0 <- reg regs 10 ;; f1 <- reg regs 11 ;; f2 <- reg regs 12 ;;
        if decide (type x <> TASK_TYPE_KERNEL) then
          f3 <- reg regs 13 ;; f4 <- reg regs 14 ;;
          upd_task c (fun x => x <| context := (context x) <| ss := f0 |> <| esp := f1 |>
            <| eflags := f2 |> <| cs := f3 |> <| eip := f4 |> |>)
        else
          upd_task c (fun x => x <| context := (context x) <| eip := f0 |> <| cs := f1 |>
            <| eflags := f2 |> <| esp := saved_esp |> <| ss := KERNEL_DATA_SEG |> |>)
  | _, _ => ret tt
  end.
End task.
