(* ===== verification/Paging.v ===== *)
(** * Turning paging on ([kernel/paging.c], [arch/i386/paging.s])

    [paging_init] runs on physical addresses: it fills a directory and two tables,
    then loads CR3.  What it leaves is the address space every function of [Vmm]
    works in. *)

From stdpp Require Import base list gmap numbers option tactics.
From Stdlib Require Import Lia ZArith.
From S2P Require Import Prelude PhysMem Pmm Vmm Task.

Definition IDENTITY_MAP_START : Z := 0x00000000.
Definition IDENTITY_MAP_END : Z := 0x003FFFFF.
Definition KERNEL_HEAP_START : Z := 0xC0400000.

(** ** The code *)

Section paging.
Context {A : Type} `{!FrameAllocator A}.
(** The linker labels. *)
Context (kernel_physical_start kernel_physical_end : Z).
Abbreviation V := (M (vm A)).

(** Accesses while paging is off. *)
Definition phys_set (table k v : Z) : V unit :=
  modify (fun s => set_mem (write32 (vm_mem s) (u32 (table + 4 * k)) v) s).
Definition phys_clear (p : Z) : V unit :=
  for_each (Z.to_nat PAGE_SIZE) 0 (fun i => modify (fun s => set_mem (write8 (vm_mem s) (u32 (p + i)) 0) s)).

(** [x | PAGE_PRESENT | PAGE_WRITE] *)
Definition kernel_entry (x : Z) : Z := Z.lor (Z.lor x PAGE_PRESENT) PAGE_WRITE.

Definition load_page_directory (directory : Z) : V unit := load_cr3 directory.

Definition paging_init : V unit :=
  pdt_phys <- vm_alloc_frame ;;
  pt_low_phys <- vm_alloc_frame ;;
  pt_kernel_phys <- vm_alloc_frame ;;
  phys_clear pdt_phys ;;
  phys_clear pt_low_phys ;;
  phys_clear pt_kernel_phys ;;
  let identity_entries := (IDENTITY_MAP_END - IDENTITY_MAP_START + 1) / PAGE_SIZE in
  for_each (Z.to_nat identity_entries) 0 (fun i => phys_set pt_low_phys i (kernel_entry (i * PAGE_SIZE))) ;;
  phys_set pdt_phys 0 (kernel_entry pt_low_phys) ;;
  let kernel_pde_idx := Z.shiftr KERNEL_VIRT_BASE 22 in
  let kernel_start_page := kernel_physical_start / PAGE_SIZE in
  let kernel_end_page := u32 (kernel_physical_end - 1) / PAGE_SIZE in
  let kernel_page_count := u32 (kernel_end_page - kernel_start_page + 1) in
  for_each (Z.to_nat kernel_page_count) 0
    (fun i => phys_set pt_kernel_phys i (kernel_entry (u32 ((kernel_start_page + i) * PAGE_SIZE)))) ;;
  phys_set pdt_phys kernel_pde_idx (kernel_entry pt_kernel_phys) ;;
  let heap_pde_idx := Z.shiftr KERNEL_HEAP_START 22 in
  phys_set pdt_phys heap_pde_idx 0 ;;
  let stack_pde_idx := Z.shiftr KERNEL_STACK_REGION_START 22 in
  let stack_pt_index := (KERNEL_STACK_REGION_START - KERNEL_VIRT_BASE) / PAGE_SIZE in
  let stack_region_pages := (KERNEL_STACK_REGION_END - KERNEL_STACK_REGION_START + 1) / PAGE_SIZE in
  for_each (Z.to_nat stack_region_pages) 0 (fun i =>
    stack_frame <- vm_alloc_frame ;;
    phys_set pt_kernel_phys (stack_pt_index + i) (kernel_entry stack_frame)) ;;
  phys_set pdt_phys stack_pde_idx (kernel_entry pt_kernel_phys) ;;
  phys_set pdt_phys 1023 (kernel_entry pdt_phys) ;;
  load_page_directory pdt_phys ;;
  vmm_init pdt_phys.
End paging.

(** ** Frames that are left *)

Section frames_left.
Context {A : Type} `{!FrameAllocator A}.

(** At least [n] frames can be handed out. *)
Definition frames_left (n : nat) (a : A) : Prop :=
  exists l : list Z, NoDup l /\ (n <= length l)%nat /\
    forall f, f ∈ l -> 0 <= f < fa_total a /\ 0 <= f < fa_limit /\ ~ fa_used a f.

Lemma filter_one_less (l : list Z) f :
  NoDup l -> (length l <= S (length (filter (fun g => g <> f) l)))%nat.
Proof.
  induction 1 as [|g l Hg Hnd IH]; [simpl; lia|]. rewrite list.filter_cons. case_decide as Hd; simpl; [lia|].
  assert (g = f) as -> by (by destruct (decide (g = f))).
  enough (filter (fun g => g <> f) l = l) as -> by lia. clear -Hg. induction l as [|h l IH]; [done|].
  rewrite list.not_elem_of_cons in Hg. destruct Hg. rewrite list.filter_cons, decide_True by done. by rewrite IH.
Qed.

Lemma free_frames_take n a a' f :
  frames_left (S n) a -> fa_total a' = fa_total a ->
  (forall g, 0 <= g < fa_limit -> (fa_used a' g <-> fa_used a g \/ g = f)) -> frames_left n a'.
Proof.
  intros (l & Hnd & Hlen & Hl) Ht Hu. exists (filter (fun g => g <> f) l). split_and!.
  - by apply list.NoDup_filter.
  - pose proof (filter_one_less l f Hnd). lia.
  - intros g [Hg Hgl]%list.list_elem_of_filter. destruct (Hl g Hgl) as (? & ? & Hn). rewrite Ht.
    split_and!; try lia. rewrite Hu by done. by intros [?|?].
Qed.

(** An allocation that succeeds because frames are left. *)
Lemma wp_take_frame n s (Q : Z -> vm A -> Prop) :
  fa_wf (vm_frames s) -> frames_left (S n) (vm_frames s) ->
  (forall f a', 0 < f < fa_limit -> ~ fa_used (vm_frames s) f -> fa_wf a' -> frames_left n a' ->
     (forall g, 0 <= g < fa_limit -> (fa_used a' g <-> fa_used (vm_frames s) g \/ g = f)) ->
     Q (4096 * f) (set_frames a' s)) ->
  wp vm_alloc_frame Q s.
Proof.
  intros Hwf Hfree HQ. apply wp_vm_alloc; [done| |].
  - destruct Hfree as (l & _ & Hlen & Hl). intros Hex. destruct l as [|f l]; [simpl in Hlen; lia|].
    destruct (Hl f ltac:(by left)) as (? & _ & Hn). by destruct Hn; apply Hex.
  - intros f a' Hf Hn Hwf' Ht Hu. apply HQ; [done|done|done|by eapply free_frames_take|done].
Qed.
End frames_left.

(** ** Three tables in memory *)

(** The entries of the directory [d] and of the tables [lo] and [ke]. *)
Record entries (d lo ke : Z) (P L K : Z -> Z) (m : gmap Z Z) : Prop := {
  en_dir : forall j, 0 <= j < 1024 -> ent m (4096 * d) j = P j;
  en_low : forall j, 0 <= j < 1024 -> ent m (4096 * lo) j = L j;
  en_kernel : forall j, 0 <= j < 1024 -> ent m (4096 * ke) j = K j;
}.

Definition put_entry (T : Z -> Z) (k v j : Z) : Z := if decide (k = j) then u32 v else T j.

(** One entry after one write. *)
Ltac solve_entry :=
  intros j Hj; rewrite ent_write by done; unfold put_entry; repeat case_decide;
  first [done|by auto|exfalso; intuition congruence].

Section tables.
Context {A : Type}.
Implicit Types s : vm A.

Lemma wp_phys_set s f k v Q :
  0 <= f < 1048576 -> 0 <= k < 1024 ->
  Q tt (set_mem (write32 (vm_mem s) (4096 * f + 4 * k) v) s) -> wp (phys_set (4096 * f) k v) Q s.
Proof. intros Hf Hk HQ. unfold phys_set. wp_steps. by rewrite u32_small by lia. Qed.

Lemma wp_phys_clear s f Q :
  0 <= f < 1048576 ->
  (forall m, zeroed f (vm_mem s) m -> Q tt (set_mem m s)) -> wp (phys_clear (4096 * f)) Q s.
Proof.
  intros Hf HQ. unfold phys_clear, PAGE_SIZE.
  apply (wp_for_each (fun i t => exists m, t = set_mem m s /\
    forall a, read8 m a = if decide (4096 * f <= a < 4096 * f + i) then 0 else read8 (vm_mem s) a)).
  - exists (vm_mem s). split; [by destruct s|]. intros a. by rewrite decide_False by lia.
  - intros i t Hi (m & -> & Hm). wp_steps. eexists. split; [reflexivity|]. intros a. cbn.
    rewrite read8_write8, u32_small by lia. rewrite Hm. repeat case_decide; try lia; done.
  - intros t (m & -> & Hm). apply HQ. intros a. rewrite Hm.
    pose proof (Z.div_mod a 4096 ltac:(lia)). pose proof (Z.mod_pos_bound a 4096 ltac:(lia)).
    repeat case_decide; try lia; done.
Qed.

Context (d lo ke : Z) (Hdl : d <> lo) (Hdk : d <> ke) (Hlk : lo <> ke).

Lemma entries_dir P L K m k v :
  0 <= k < 1024 -> entries d lo ke P L K m ->
  entries d lo ke (put_entry P k v) L K (write32 m (4096 * d + 4 * k) v).
Proof using Hdk Hdl Hlk.
  intros Hk [HP HL HK]. by split; solve_entry.
Qed.

Lemma entries_low P L K m k v :
  0 <= k < 1024 -> entries d lo ke P L K m ->
  entries d lo ke P (put_entry L k v) K (write32 m (4096 * lo + 4 * k) v).
Proof using Hdk Hdl Hlk.
  intros Hk [HP HL HK]. by split; solve_entry.
Qed.

Lemma entries_kernel P L K m k v :
  0 <= k < 1024 -> entries d lo ke P L K m ->
  entries d lo ke P L (put_entry K k v) (write32 m (4096 * ke + 4 * k) v).
Proof using Hdk Hdl Hlk.
  intros Hk [HP HL HK]. by split; solve_entry.
Qed.

Lemma entries_ext P L K P' L' K' m :
  entries d lo ke P L K m ->
  (forall j, 0 <= j < 1024 -> P j = P' j /\ L j = L' j /\ K j = K' j) -> entries d lo ke P' L' K' m.
Proof.
  intros [HP HL HK] Hall. split; intros j Hj; destruct (Hall j Hj) as (E1 & E2 & E3).
  - by rewrite HP, E1.
  - by rewrite HL, E2.
  - by rewrite HK, E3.
Qed.
End tables.

Lemma kernel_entry_spec f : 0 <= f < 1048576 -> kernel_entry (4096 * f) = mk_entry f PAGE_WRITE.
Proof.
  intros Hf. unfold kernel_entry. rewrite <- (mk_entry_lor f PAGE_WRITE) by (by compute).
  by rewrite <- !Z.lor_assoc, (Z.lor_comm PAGE_PRESENT).
Qed.

Lemma put_kernel_entry T k f j :
  0 <= f < 1048576 ->
  put_entry T k (kernel_entry (4096 * f)) j = if decide (k = j) then mk_entry f PAGE_WRITE else T j.
Proof.
  intros Hf. unfold put_entry. case_decide; [|done]. rewrite kernel_entry_spec by done.
  apply u32_small, mk_entry_range; [done|by compute].
Qed.

Lemma zeroed_entries d lo ke m0 m1 m2 m3 :
  zeroed d m0 m1 -> zeroed lo m1 m2 -> zeroed ke m2 m3 ->
  entries d lo ke (fun _ => 0) (fun _ => 0) (fun _ => 0) m3.
Proof.
  intros H1 H2 H3. split; intros j Hj;
    rewrite (ent_zeroed _ _ _ _ _ H3), (ent_zeroed _ _ _ _ _ H2), (ent_zeroed _ _ _ _ _ H1) by done;
    repeat case_decide; done.
Qed.

(** ** The address space of the kernel *)

(** The first 4 MB are mapped to themselves, [count] pages of the kernel image
    from page [start] on appear at [KERNEL_VIRT_BASE], the stack pages have the
    frames [gs], and nothing else is mapped below the recursive slot. *)
Record higher_half (d start count : Z) (gs : list Z) (m : gmap Z Z) : Prop := {
  hh_identity : forall pg, 0 <= pg < 1024 -> walk m (4096 * d) pg = Some (4096 * pg);
  hh_image : forall i, 0 <= i < count -> walk m (4096 * d) (0xC0000 + i) = Some (4096 * (start + i));
  hh_stack : forall i g, gs !! i = Some g -> walk m (4096 * d) (0xC0200 + Z.of_nat i) = Some (4096 * g);
  hh_other : forall pg, 1024 <= pg < 1047552 -> ~ 0xC0000 <= pg < 0xC0000 + count ->
    ~ 0xC0200 <= pg < 0xC0200 + Z.of_nat (length gs) -> walk m (4096 * d) pg = None;
}.

Definition dir_entries (d lo ke j : Z) : Z :=
  if decide (j = 0) then mk_entry lo PAGE_WRITE
  else if decide (j = 768) then mk_entry ke PAGE_WRITE
  else if decide (j = 1023) then mk_entry d PAGE_WRITE else 0.
Definition low_entries (n j : Z) : Z := if decide (j < n) then mk_entry j PAGE_WRITE else 0.
Definition image_entries (start n j : Z) : Z := if decide (j < n) then mk_entry (start + j) PAGE_WRITE else 0.
Definition stack_entries (gs : list Z) (K : Z -> Z) (j : Z) : Z :=
  if decide (512 <= j) then
    match gs !! Z.to_nat (j - 512) with Some g => mk_entry g PAGE_WRITE | None => K j end
  else K j.

Lemma frame_of_mk f : 0 <= f < 1048576 -> mk_entry f PAGE_WRITE / 4096 = f.
Proof. intros Hf. unfold mk_entry. symmetry. apply Z.div_unique with (Z.lor PAGE_WRITE PAGE_PRESENT); [left; by compute|done]. Qed.

Lemma entries_walk d lo ke P L K m pg (ok : 0 <= d < 1048576) :
  entries d lo ke P L K m -> 0 <= pg < 1048576 ->
  walk m (4096 * d) pg =
  if present (P (pg / 1024)) then
    let e := ent m (4096 * (P (pg / 1024) / 4096)) (pg mod 1024) in
    if present e then Some (4096 * (e / 4096)) else None
  else None.
Proof.
  intros He Hpg. rewrite walk_spec by done. unfold pde_frame, pde.
  pose proof (page_index pg Hpg). by rewrite (en_dir _ _ _ _ _ _ _ He) by lia.
Qed.

Lemma entries_higher_half d lo ke start count gs m :
  0 <= d < 1048576 -> 0 <= lo < 1048576 -> 0 <= ke < 1048576 ->
  0 <= start -> 0 <= count <= 512 -> start + count <= 1048576 -> (length gs <= 511)%nat ->
  Forall (fun g => 0 <= g < 1048576) gs ->
  entries d lo ke (dir_entries d lo ke) (low_entries 1024) (stack_entries gs (image_entries start count)) m ->
  higher_half d start count gs m.
Proof.
  intros Hd Hlo Hke Hst Hc Hsc Hgs Hr He.
  assert (forall pg, 0 <= pg < 1024 -> walk m (4096 * d) pg = Some (4096 * pg)) as Hid.
  { intros pg Hpg. rewrite (entries_walk _ _ _ _ _ _ _ _ Hd He) by lia.
    rewrite Z.div_small, Z.mod_small by lia. unfold dir_entries. rewrite decide_True by done.
    rewrite mk_entry_present, frame_of_mk, (en_low _ _ _ _ _ _ _ He) by lia. cbv zeta.
    unfold low_entries. by rewrite decide_True, mk_entry_present, frame_of_mk by lia. }
  assert (forall j, 0 <= j < 1024 -> walk m (4096 * d) (0xC0000 + j) =
    let e := stack_entries gs (image_entries start count) j in
    if present e then Some (4096 * (e / 4096)) else None) as Hk.
  { intros j Hj. rewrite (entries_walk _ _ _ _ _ _ _ _ Hd He) by lia.
    replace ((0xC0000 + j) / 1024) with 768 by (apply Z.div_unique with j; lia).
    replace ((0xC0000 + j) mod 1024) with j by (apply Z.mod_unique with 768; lia).
    unfold dir_entries. cbn [decide]. change (dir_entries d lo ke 768) with (mk_entry ke PAGE_WRITE).
    simpl. rewrite mk_entry_present, frame_of_mk, (en_kernel _ _ _ _ _ _ _ He) by lia. done. }
  split; [done| | |].
  - intros i Hi. rewrite Hk by lia. unfold stack_entries, image_entries. cbv zeta.
    rewrite decide_False, decide_True by lia. by rewrite mk_entry_present, frame_of_mk by lia.
  - intros i g Hg. pose proof (lookup_lt_Some _ _ _ Hg). rewrite list.Forall_lookup in Hr. specialize (Hr _ _ Hg). simpl in Hr.
    replace (0xC0200 + Z.of_nat i) with (0xC0000 + (512 + Z.of_nat i)) by lia. rewrite Hk by lia.
    unfold stack_entries. rewrite decide_True by lia.
    replace (Z.to_nat (512 + Z.of_nat i - 512)) with i by lia. rewrite Hg. cbv zeta.
    by rewrite mk_entry_present, frame_of_mk by lia.
  - intros pg Hpg Hni Hns. destruct (decide (0xC0000 <= pg < 0xC0400)) as [Hin|Hout].
    + replace pg with (0xC0000 + (pg - 0xC0000)) by lia. rewrite Hk by lia. unfold stack_entries, image_entries. cbv zeta.
      replace (if decide (512 <= pg - 0xC0000) then _ else _) with 0; [done|].
      repeat case_decide; try done; try lia.
      destruct (gs !! _) eqn:E; [|done]. apply lookup_lt_Some in E. lia.
    + rewrite (entries_walk _ _ _ _ _ _ _ _ Hd He) by lia.
      assert (0 < pg / 1024 < 1023 /\ pg / 1024 <> 768) as [Hj Hj'].
      { pose proof (Z.div_mod pg 1024 ltac:(lia)). pose proof (Z.mod_pos_bound pg 1024 ltac:(lia)). lia. }
      unfold dir_entries. by rewrite !decide_False by lia.
Qed.

Section spec.
Context {A : Type} `{!FrameAllocator A}.
Implicit Types s : vm A.

Lemma entries_vspace s d lo ke L K :
  0 <= d < 1048576 -> 0 <= lo < 1048576 -> 0 <= ke < 1048576 -> d <> lo -> d <> ke -> lo <> ke ->
  vm_cr3 s = 4096 * d -> vm_tlb s = ∅ -> fa_wf (vm_frames s) ->
  fa_used (vm_frames s) d -> fa_used (vm_frames s) lo -> fa_used (vm_frames s) ke ->
  entries d lo ke (dir_entries d lo ke) L K (vm_mem s) -> vspace d s.
Proof.
  intros Hd Hlo Hke Hdl Hdk Hlk Hc Ht Hwf Hud Hul Huk He.
  assert (forall j, 0 <= j < 1024 -> pde (vm_mem s) d j = dir_entries d lo ke j) as Hp by apply He.
  assert (forall j, 0 <= j < 1024 -> present (pde (vm_mem s) d j) = true ->
    (j = 0 /\ pde_frame (vm_mem s) d j = lo) \/ (j = 768 /\ pde_frame (vm_mem s) d j = ke) \/
    (j = 1023 /\ pde_frame (vm_mem s) d j = d)) as Hcases.
  { intros j Hj. unfold pde_frame. rewrite Hp by done. unfold dir_entries.
    repeat case_decide; intros; rewrite ?frame_of_mk by done; auto; done. }
  split; [done| |by rewrite Ht; apply tlb_of_empty|done|].
  - split; [done| | |].
    + unfold pde_frame. rewrite Hp by lia. change (dir_entries d lo ke 1023) with (mk_entry d PAGE_WRITE).
      by rewrite mk_entry_present, frame_of_mk.
    + rewrite Hp by lia. apply (mk_entry_present ke PAGE_WRITE).
    + intros i j Hi Hj Hpi Hpj E. pose proof (Hcases i Hi Hpi). pose proof (Hcases j Hj Hpj). lia.
  - intros i Hi Hpi _. by destruct (Hcases i Hi Hpi) as [[_ ->]|[[_ ->]|[_ ->]]].
Qed.

(** The three kinds of loops that fill tables. *)
Lemma wp_fill_low s d lo ke P K m Q :
  d <> lo -> d <> ke -> lo <> ke -> 0 <= lo < 1048576 ->
  entries d lo ke P (fun _ => 0) K m ->
  (forall m', entries d lo ke P (low_entries 1024) K m' -> Q tt (set_mem m' s)) ->
  wp (for_each 1024 0 (fun i => phys_set (4096 * lo) i (kernel_entry (i * PAGE_SIZE)))) Q (set_mem m s).
Proof.
  intros Hdl Hdk Hlk Hlo He HQ.
  apply (wp_for_each (fun i t => exists m', t = set_mem m' s /\ entries d lo ke P (low_entries i) K m')).
  - exists m. split; [done|]. eapply entries_ext; [exact He|]. intros j Hj. split_and!; [done| |done].
    unfold low_entries. by rewrite decide_False by lia.
  - intros i t Hi (m' & -> & Hm'). apply wp_phys_set; [done|lia|]. eexists. split; [reflexivity|].
    unfold PAGE_SIZE. rewrite (Z.mul_comm i).
    eapply entries_ext; [by apply entries_low; [..|lia|exact Hm']|]. intros j Hj. split_and!; [done| |done].
    rewrite put_kernel_entry by lia. unfold low_entries. repeat case_decide; subst; try done; lia.
  - intros t (m' & -> & Hm'). by apply HQ.
Qed.

Lemma wp_fill_image s d lo ke P L m start count Q :
  d <> lo -> d <> ke -> lo <> ke -> 0 <= ke < 1048576 ->
  0 <= start -> 0 <= count <= 512 -> start + count <= 1048576 ->
  entries d lo ke P L (fun _ => 0) m ->
  (forall m', entries d lo ke P L (image_entries start count) m' -> Q tt (set_mem m' s)) ->
  wp (for_each (Z.to_nat count) 0
        (fun i => phys_set (4096 * ke) i (kernel_entry (u32 ((start + i) * PAGE_SIZE))))) Q (set_mem m s).
Proof.
  intros Hdl Hdk Hlk Hke Hst Hc Hsc He HQ.
  apply (wp_for_each (fun i t => exists m', t = set_mem m' s /\ entries d lo ke P L (image_entries start i) m')).
  - exists m. split; [done|]. eapply entries_ext; [exact He|]. intros j Hj. split_and!; [done|done|].
    unfold image_entries. by rewrite decide_False by lia.
  - intros i t Hi (m' & -> & Hm'). apply wp_phys_set; [done|lia|]. eexists. split; [reflexivity|].
    unfold PAGE_SIZE. rewrite u32_small, (Z.mul_comm (start + i)) by lia.
    eapply entries_ext; [by apply entries_kernel; [..|lia|exact Hm']|]. intros j Hj. split_and!; [done|done|].
    rewrite put_kernel_entry by lia. unfold image_entries. repeat case_decide; subst; try done; lia.
  - intros t (m' & -> & Hm'). apply HQ. by rewrite Z2Nat.id in Hm' by lia.
Qed.

(** The frames of [gs] are used, and so are those of [base]. *)
Record stacks_taken (base gs : list Z) (n : nat) (a : A) : Prop := {
  tk_wf : fa_wf a;
  tk_free : frames_left n a;
  tk_nodup : NoDup (base ++ gs);
  tk_used : Forall (fun g => 0 < g < fa_limit /\ fa_used a g) (base ++ gs);
}.

Lemma stacks_taken_next base gs n f a a' :
  stacks_taken base gs (S n) a -> 0 < f < fa_limit -> ~ fa_used a f -> fa_wf a' -> frames_left n a' ->
  (forall g, 0 <= g < fa_limit -> (fa_used a' g <-> fa_used a g \/ g = f)) ->
  stacks_taken base (gs ++ [f]) n a'.
Proof.
  intros [Hwf Hfree Hnd Hu] Hf Hn Hwf' Hfree' Hg. rewrite list.Forall_forall in Hu. split; [done|done| |].
  - rewrite app_assoc. apply list.NoDup_app. split_and!; [done| |apply NoDup_singleton].
    intros g Hgin ->%list.list_elem_of_singleton. by destruct (Hu f Hgin).
  - rewrite app_assoc. apply list.Forall_forall. intros g [Hgin| ->%list.list_elem_of_singleton]%elem_of_app.
    + destruct (Hu g Hgin) as [? ?]. split; [done|]. apply Hg; [lia|by left].
    + split; [done|]. apply Hg; [lia|by right].
Qed.

Lemma wp_fill_stacks n s d lo ke P L K base m Q :
  d <> lo -> d <> ke -> lo <> ke -> 0 <= ke < 1048576 ->
  stacks_taken base [] (511 + n) (vm_frames s) -> entries d lo ke P L K m ->
  (forall m' gs a', length gs = 511%nat -> stacks_taken base gs n a' ->
     entries d lo ke P L (stack_entries gs K) m' -> Q tt (set_mem m' (set_frames a' s))) ->
  wp (for_each 511 0 (fun i => stack_frame <- vm_alloc_frame ;;
        phys_set (4096 * ke) (512 + i) (kernel_entry stack_frame))) Q (set_mem m s).
Proof.
  intros Hdl Hdk Hlk Hke Htk He HQ. pose proof (fa_limit_range (A := A)) as Hlim.
  apply (wp_for_each (fun i t => exists m' gs a', t = set_mem m' (set_frames a' s) /\
    Z.of_nat (length gs) = i /\ stacks_taken base gs (511 + n - Z.to_nat i) a' /\
    entries d lo ke P L (stack_entries gs K) m')).
  - exists m, [], (vm_frames s). split_and!; [by destruct s|done|by rewrite Nat.sub_0_r|].
    eapply entries_ext; [exact He|]. intros j Hj. split_and!; [done|done|].
    unfold stack_entries. rewrite lookup_nil. by case_decide.
  - intros i t Hi (m' & gs & a' & -> & Hlen & Htk' & Hm').
    replace (511 + n - Z.to_nat i)%nat with (S (511 + n - Z.to_nat (i + 1))) in Htk' by lia.
    apply wp_bind, (wp_take_frame (511 + n - Z.to_nat (i + 1))); [apply Htk'|apply Htk'|].
    intros f a2 Hf Hn Hwf2 Hfree2 Hu. apply wp_phys_set; [done|lia|].
    eexists _, (gs ++ [f]), a2. split_and!; [reflexivity|rewrite length_app; simpl; lia| |].
    + by eapply stacks_taken_next.
    + eapply entries_ext; [by apply entries_kernel; [..|lia|exact Hm']|]. intros j Hj. split_and!; [done|done|].
      rewrite put_kernel_entry by lia. unfold stack_entries. destruct (decide (512 + i = j)) as [<-|Hne].
      * rewrite decide_True by lia. rewrite lookup_app_r by lia.
        by replace (Z.to_nat (512 + i - 512) - length gs)%nat with 0%nat by lia.
      * case_decide as Hj2; [|done]. destruct (decide (j < 512 + i)).
        -- by rewrite lookup_app_l by lia.
        -- rewrite (proj2 (lookup_ge_None (gs ++ [f]) _)), (proj2 (lookup_ge_None gs _));
             [done|lia|rewrite length_app; simpl; lia].
  - intros t (m' & gs & a' & -> & Hlen & Htk' & Hm'). apply (HQ m' gs a'); [lia| |exact Hm'].
    by replace n with (511 + n - Z.to_nat (Z.of_nat 511))%nat by lia.
Qed.

(** The three frames at the start. *)
Lemma wp_take_three n s (k : Z -> Z -> Z -> M (vm A) unit) R :
  fa_wf (vm_frames s) -> frames_left (3 + n) (vm_frames s) ->
  (forall d lo ke a', stacks_taken [d; lo; ke] [] n a' ->
     wp (k (4096 * d) (4096 * lo) (4096 * ke)) R (set_frames a' s)) ->
  wp (a <- vm_alloc_frame ;; b <- vm_alloc_frame ;; c <- vm_alloc_frame ;; k a b c) R s.
Proof.
  intros Hwf Hfree Hk.
  assert (stacks_taken [] [] (3 + n) (vm_frames s)) as H0 by (split; [done|done|constructor|constructor]).
  apply wp_bind, (wp_take_frame (2 + n)); [apply H0|apply H0|]. intros d a1 Hd Hn1 Hwf1 Hf1 Hu1.
  pose proof (stacks_taken_next _ _ _ _ _ _ H0 Hd Hn1 Hwf1 Hf1 Hu1) as H1.
  apply wp_bind, (wp_take_frame (1 + n)); [apply H1|apply H1|]. intros lo a2 Hlo Hn2 Hwf2 Hf2 Hu2.
  pose proof (stacks_taken_next _ _ _ _ _ _ H1 Hlo Hn2 Hwf2 Hf2 Hu2) as H2.
  apply wp_bind, (wp_take_frame n); [apply H2|apply H2|]. intros ke a3 Hke Hn3 Hwf3 Hf3 Hu3.
  pose proof (stacks_taken_next _ _ _ _ _ _ H2 Hke Hn3 Hwf3 Hf3 Hu3) as H3.
  apply Hk. destruct H3. split; [done|done|by rewrite app_nil_r|by rewrite app_nil_r].
Qed.

(** What the kernel's linker script and the memory leave to [paging_init]: room
    for the directory, the two tables and the stacks, [n] frames for later, and an
    image of at most 2 MB, which is where the stack region starts in its table. *)
Record paging_ready (n : nat) (ks ke : Z) (a : A) : Prop := {
  pr_wf : fa_wf a;
  pr_free : frames_left (514 + n) a;
  pr_image : 0 <= ks < ke /\ ke < 4294967296;
  pr_size : (ke - 1) / 4096 - ks / 4096 < 512;
}.

(** What the filled tables are once CR3 is loaded. *)
Definition paging_post (n : nat) (start count : Z) s : Prop := exists d gs,
  vspace d s /\ kernel_pdt_phys s = 4096 * d /\ current_pdt_phys s = 4096 * d /\
  higher_half d start count gs (vm_mem s) /\ length gs = 511%nat /\ NoDup gs /\
  (forall g, g ∈ gs -> fa_used (vm_frames s) g) /\ (d ∉ gs) /\ frames_left n (vm_frames s).

Lemma tables_entered n start count d lo kt gs s :
  0 <= start -> 0 <= count <= 512 -> start + count <= 1048576 -> length gs = 511%nat ->
  stacks_taken [d; lo; kt] gs n (vm_frames s) ->
  entries d lo kt (dir_entries d lo kt) (low_entries 1024) (stack_entries gs (image_entries start count)) (vm_mem s) ->
  vm_cr3 s = 4096 * d -> vm_tlb s = ∅ -> kernel_pdt_phys s = 4096 * d -> current_pdt_phys s = 4096 * d ->
  paging_post n start count s.
Proof.
  intros Hst Hcnt Hsum Hlen [Hwf Hleft Hnd Hu] He Hc Ht Hk Hcur. pose proof (fa_limit_range (A := A)) as Hlim.
  cbn [app] in Hu, Hnd. rewrite !list.Forall_cons in Hu. destruct Hu as ((Hd & Hud) & (Hlo & Hul) & (Hkt & Huk) & Hgs).
  rewrite !list.NoDup_cons, !list.not_elem_of_cons in Hnd. destruct Hnd as ((Hdl & Hdk & Hdg) & (Hlk & _) & _ & Hnd).
  rewrite list.Forall_forall in Hgs. exists d, gs. split_and!; try done.
  - eapply (entries_vspace _ d lo kt); try exact He; try done; lia.
  - eapply (entries_higher_half d lo kt); try exact He; try lia.
    apply list.Forall_forall. intros g Hg. destruct (Hgs g Hg). lia.
  - intros g Hg. by apply Hgs.
Qed.

Lemma wp_paging_init n ks ke s :
  paging_ready n ks ke (vm_frames s) ->
  wp (paging_init ks ke) (fun _ => paging_post n (ks / 4096) ((ke - 1) / 4096 - ks / 4096 + 1)) s.
Proof.
  intros [Hwf Hfree Him Hsz]. pose proof (fa_limit_range (A := A)) as Hlim.
  unfold paging_init. eapply (wp_take_three (511 + n)); [done|done|].
  intros d lo kt a Htk. cbv beta zeta. pose proof (tk_used _ _ _ _ Htk) as Hu. pose proof (tk_nodup _ _ _ _ Htk) as Hnd.
  cbn [app] in Hu, Hnd. rewrite !list.Forall_cons in Hu. destruct Hu as ((Hd & _) & (Hlo & _) & (Hkt & _) & _).
  rewrite !list.NoDup_cons, !list.not_elem_of_cons in Hnd. destruct Hnd as ((Hdl & Hdk & _) & (Hlk & _) & _).
  apply wp_bind, wp_phys_clear; [lia|]. intros m1 Hm1.
  apply wp_bind, wp_phys_clear; [lia|]. intros m2 Hm2.
  apply wp_bind, wp_phys_clear; [lia|]. intros m3 Hm3. cbn in Hm2, Hm3.
  pose proof (zeroed_entries d lo kt _ _ _ _ Hm1 Hm2 Hm3) as He.
  change (set_mem m3 _) with (set_mem m3 (set_frames a s)).
  apply wp_bind, (wp_fill_low _ d lo kt _ _ _ _ Hdl Hdk Hlk ltac:(lia) He). clear He. intros m4 He.
  set (st := ks / 4096) in *. set (cnt := (ke - 1) / 4096 - st + 1) in *.
  assert (0 <= st <= (ke - 1) / 4096) as Hst by (split; [apply Z.div_pos; lia|apply Z.div_le_mono; lia]).
  assert ((ke - 1) / 4096 < 1048576) as Hend by (apply Z.div_lt_upper_bound; lia).
  apply wp_bind, wp_phys_set; [lia|lia|]. cbn [vm_mem set_mem].
  apply entries_dir with (k := 0) (v := kernel_entry (4096 * lo)) in He; [|done..|lia].
  set (m5 := write32 _ _ _) in *. change (set_mem m5 (set_mem m4 ?t)) with (set_mem m5 t).
  unfold PAGE_SIZE. rewrite (u32_small (ke - 1)), u32_small by lia. fold st cnt.
  apply wp_bind, (wp_fill_image _ d lo kt _ _ _ st cnt _ Hdl Hdk Hlk ltac:(lia) ltac:(lia) ltac:(lia) ltac:(lia) He).
  clear He m5. intros m6 He.
  apply wp_bind, wp_phys_set; [lia|by compute|]. cbn [vm_mem set_mem].
  change (Z.shiftr KERNEL_VIRT_BASE 22) with 768.
  apply entries_dir with (k := 768) (v := kernel_entry (4096 * kt)) in He; [|done..|lia].
  apply wp_bind, wp_phys_set; [lia|by compute|]. cbn [vm_mem set_mem].
  change (Z.shiftr KERNEL_HEAP_START 22) with 769.
  apply entries_dir with (k := 769) (v := 0) in He; [|done..|lia].
  set (m8 := write32 (write32 _ _ _) _ _) in *. change (set_mem m8 (set_mem _ (set_mem m6 ?t))) with (set_mem m8 t).
  change (Z.to_nat ((KERNEL_STACK_REGION_END - KERNEL_STACK_REGION_START + 1) / 4096)) with 511%nat.
  change ((KERNEL_STACK_REGION_START - KERNEL_VIRT_BASE) / 4096) with 512.
  apply wp_bind, (wp_fill_stacks n (set_frames a s) d lo kt _ _ _ [d; lo; kt] _ _ Hdl Hdk Hlk ltac:(lia) Htk He).
  clear He m8. intros m9 gs a' Hlen Htk' He.
  apply wp_bind, wp_phys_set; [lia|by compute|]. cbn [vm_mem set_mem].
  change (Z.shiftr KERNEL_STACK_REGION_START 22) with 768.
  apply entries_dir with (k := 768) (v := kernel_entry (4096 * kt)) in He; [|done..|lia].
  apply wp_bind, wp_phys_set; [lia|by compute|]. cbn [vm_mem set_mem].
  apply entries_dir with (k := 1023) (v := kernel_entry (4096 * d)) in He; [|done..|lia].
  unfold load_page_directory, load_cr3, vmm_init. wp_steps.
  eapply entries_ext with (P' := dir_entries d lo kt) (L' := low_entries 1024)
    (K' := stack_entries gs (image_entries st cnt)) in He; cycle 1.
  { intros j Hj. split_and!; [|done|done]. rewrite !put_kernel_entry by lia. unfold put_entry, dir_entries.
    repeat case_decide; subst; try done; try lia.
    rewrite kernel_entry_spec by lia. apply u32_small, mk_entry_range; [lia|by compute]. }
  by eapply tables_entered; [..|exact Htk'|exact He| | | |]; try done; lia.
Qed.
End spec.

(** ** The property *)

(** C7: [paging_init] builds and enters the address space every function of the
    virtual memory manager works in: the directory maps itself in its last slot,
    the first 4 MB are mapped to themselves, the kernel image appears at
    [KERNEL_VIRT_BASE], every page of the stack region has a frame of its own, the
    rest is unmapped, and the frames used are taken from the allocator, which keeps
    the others. *)
Theorem paging_init_correct A (HA : FrameAllocator A) n ks ke (s : vm A) :
  paging_ready n ks ke (vm_frames s) ->
  wp (paging_init ks ke) (fun _ s' => exists d gs,
    vspace d s' /\ kernel_pdt_phys s' = 4096 * d /\ current_pdt_phys s' = 4096 * d /\
    higher_half d (ks / 4096) ((ke - 1) / 4096 - ks / 4096 + 1) gs (vm_mem s') /\
    length gs = 511%nat /\ NoDup gs /\
    (forall g, g ∈ gs -> fa_used (vm_frames s') g) /\ (d ∉ gs) /\ frames_left n (vm_frames s')) s.
Proof. apply wp_paging_init. Qed.

(** 4 MB of memory, of which the first four frames are taken. *)
Definition demo_4mb : pmm := mkPmm (<[0%nat := 15]> (replicate 4096 0)) [] 1024.

Lemma demo_4mb_ready : paging_ready 10 0x200000 0x280000 demo_4mb.
Proof.
  split; [split; [split|]| | |]; try done.
  - apply Forall_insert; [apply Forall_replicate|]; lia.
  - exists (seqZ 4 524). split_and!; [apply NoDup_seqZ|by rewrite length_seqZ|].
    intros f [Hf1 Hf2]%elem_of_seqZ.
    assert (forallb (fun g => negb (frame_used demo_4mb g)) (seqZ 4 524) = true) as H by (by vm_compute).
    rewrite forallb_forall in H. change (fa_total demo_4mb) with 1024. change (@fa_limit pmm _) with 32768.
    split_and!; try lia. change (fa_used demo_4mb f) with (frame_used demo_4mb f = true).
    specialize (H f). rewrite <- list_elem_of_In, elem_of_seqZ in H.
    rewrite negb_true_iff in H. rewrite H by lia. done.
Qed.

Lemma paging_init_correct_witness :
  wp (paging_init 0x200000 0x280000) (fun _ s' => exists d gs,
    vspace d s' /\ kernel_pdt_phys s' = 4096 * d /\ current_pdt_phys s' = 4096 * d /\
    higher_half d 0x200 0x80 gs (vm_mem s') /\
    length gs = 511%nat /\ NoDup gs /\
    (forall g, g ∈ gs -> frame_used (vm_frames s') g = true) /\ (d ∉ gs) /\ frames_left 10 (vm_frames s')) (mkVm demo_4mb ∅ 0 ∅ 0 0).
Proof. exact (paging_init_correct pmm _ 10 0x200000 0x280000 (mkVm demo_4mb ∅ 0 ∅ 0 0) demo_4mb_ready). Defined.
