(* ===== verification/Sched.v ===== *)
(** * The scheduler against its abstract specification

    The ready list of [Task] is a doubly linked list threaded through the task
    table.  Its specification keeps a plain queue of table indices beside a table
    without links; the operations of the ready list are shown to implement the
    operations on the queue, and the scheduler to be round robin. *)

From stdpp Require Import base list gmap numbers option tactics.
From S2P Require Import Prelude PhysMem Pmm Vmm Task.

(** ** Abstraction *)

Definition strip (t : task) : task := t <| next := None |> <| prev := None |>.

Definition before (q : list nat) (n : nat) : ptr := match n with O => None | S m => q !! m end.

Section sched.
Context {A : Type} `{!FrameAllocator A}.
Implicit Types k : kernel A.

(** The kernel without the links. *)
Definition forget (k : kernel A) : kernel A :=
  k <| task_table := strip <$> task_table k |> <| ready_list_head := None |> <| ready_list_tail := None |>.

(** The ready list of [k] is the queue [q]. *)
Record queue (k : kernel A) (q : list nat) : Prop := {
  qu_head : ready_list_head k = q !! 0%nat;
  qu_tail : ready_list_tail k = before q (length q);
  qu_nodup : NoDup q;
  qu_node : forall n i, q !! n = Some i -> exists t, task_table k !! i = Some t /\
    prev t = before q n /\ next t = q !! S n;
}.

Definition repr (k k0 : kernel A) (q : list nat) : Prop := forget k = k0 /\ queue k q.

(** A field of task [i] set in the abstract state. *)
Definition kupd (i : nat) (g : task -> task) (k : kernel A) : kernel A :=
  k <| task_table := alter g i (task_table k) |>.

(** The fields that are not the table and the ends of the list. *)
Definition same_rest k k' : Prop :=
  kvm k' = kvm k /\ current_task k' = current_task k /\ next_pid k' = next_pid k /\
  task_stack_slots k' = task_stack_slots k /\ tss_esp0 k' = tss_esp0 k /\ tss_ss0 k' = tss_ss0 k /\
  timer_ticks k' = timer_ticks k.

Lemma forget_kupd k k' i g :
  same_rest k k' -> strip <$> task_table k' = alter g i (strip <$> task_table k) ->
  forget k' = kupd i g (forget k).
Proof.
  intros (H1 & H2 & H3 & H4 & H5 & H6 & H7) Ht. destruct k, k'. cbn in *. subst.
  unfold forget, kupd, update. cbn. by rewrite Ht.
Qed.

Lemma forget_same k k' :
  same_rest k k' -> strip <$> task_table k' = strip <$> task_table k -> forget k' = forget k.
Proof.
  intros (H1 & H2 & H3 & H4 & H5 & H6 & H7) Ht. destruct k, k'. cbn in *. subst.
  unfold forget, update. cbn. by rewrite Ht.
Qed.

(** An update that neither reads nor writes the links. *)
Definition linkless (g : task -> task) : Prop :=
  forall t, next (g t) = next t /\ prev (g t) = prev t /\ strip (g t) = g (strip t).

Lemma forget_table k : task_table (forget k) = strip <$> task_table k.
Proof. done. Qed.

Lemma repr_table k k0 q i t :
  repr k k0 q -> task_table k !! i = Some t -> task_table k0 !! i = Some (strip t).
Proof. intros [<- _] Ht. by rewrite forget_table, list_lookup_fmap, Ht. Qed.

Lemma repr_table_inv k k0 q i t0 :
  repr k k0 q -> task_table k0 !! i = Some t0 -> exists t, task_table k !! i = Some t /\ t0 = strip t.
Proof.
  intros [<- _] Ht. rewrite forget_table, list_lookup_fmap in Ht.
  destruct (task_table k !! i) as [t|]; [|done]. exists t. split; [done|]. by injection Ht.
Qed.

Lemma repr_length k k0 q : repr k k0 q -> length (task_table k) = length (task_table k0).
Proof. intros [<- _]. by rewrite forget_table, length_fmap. Qed.

Lemma repr_in k k0 q i : repr k k0 q -> i ∈ q -> exists t0, task_table k0 !! i = Some t0.
Proof.
  intros Hr [n Hn]%list_elem_of_lookup. destruct (qu_node _ _ (proj2 Hr) n i Hn) as (t & Ht & _).
  exists (strip t). by eapply repr_table.
Qed.

(** ** Reads and updates *)

Lemma wp_get_task k i t (Q : task -> kernel A -> Prop) :
  task_table k !! i = Some t -> Q t k -> wp (get_task (Some i)) Q k.
Proof. intros Ht HQ. unfold get_task. apply wp_bind, wp_get. by eapply wp_some_or_trap. Qed.

Lemma wp_upd_task k i t g (Q : unit -> kernel A -> Prop) :
  task_table k !! i = Some t ->
  Q tt (k <| task_table := <[i := g t]> (task_table k) |>) -> wp (upd_task (Some i) g) Q k.
Proof.
  intros Ht HQ. unfold upd_task. apply wp_bind, wp_get, wp_bind.
  eapply wp_some_or_trap; [done|]. by apply wp_put.
Qed.

Lemma wp_repr_get k k0 q i t0 (Q : task -> kernel A -> Prop) :
  repr k k0 q -> task_table k0 !! i = Some t0 ->
  (forall t, t0 = strip t -> Q t k) -> wp (get_task (Some i)) Q k.
Proof.
  intros Hr Ht HQ. destruct (repr_table_inv _ _ _ _ _ Hr Ht) as (t & Htk & ->).
  eapply wp_get_task; [done|]. by apply HQ.
Qed.

Lemma alter_insert_list (g : task -> task) (l : list task) i t : l !! i = Some t -> alter g i l = <[i := g t]> l.
Proof.
  intros Ht. apply list_eq. intros j. destruct (decide (i = j)) as [->|Hne].
  - rewrite list_lookup_alter_eq, list_lookup_insert_eq, Ht by (by eapply lookup_lt_Some). done.
  - by rewrite list_lookup_alter_ne, list_lookup_insert_ne by done.
Qed.

Lemma wp_repr_upd k k0 q i t0 g (Q : unit -> kernel A -> Prop) :
  repr k k0 q -> task_table k0 !! i = Some t0 -> linkless g ->
  (forall k', repr k' (kupd i g k0) q -> Q tt k') -> wp (upd_task (Some i) g) Q k.
Proof.
  intros Hr Ht Hg HQ. destruct (repr_table_inv _ _ _ _ _ Hr Ht) as (t & Htk & ->).
  eapply wp_upd_task; [done|]. apply HQ. destruct Hr as [<- [Hh Htl Hnd Hnode]].
  destruct (Hg t) as (Hn & Hp & Hs). split.
  - apply forget_kupd; [done|]. change (task_table (k <| task_table := ?l |>)) with l.
    rewrite list_fmap_insert, Hs. symmetry. apply alter_insert_list. by rewrite list_lookup_fmap, Htk.
  - split; [done|done|done|]. intros n j Hj. destruct (Hnode n j Hj) as (tj & Htj & Hpj & Hnj).
    destruct (decide (i = j)) as [->|Hne].
    + exists (g t). split; [by apply list_lookup_insert_eq; eapply lookup_lt_Some|].
      assert (tj = t) as -> by congruence. by rewrite Hn, Hp.
    + exists tj. split; [|done]. by etransitivity; [apply list_lookup_insert_ne|].
Qed.

(** An update of the other fields of the kernel. *)
Lemma repr_modify k k0 q (g : kernel A -> kernel A) :
  repr k k0 q -> task_table (g k) = task_table k -> ready_list_head (g k) = ready_list_head k ->
  ready_list_tail (g k) = ready_list_tail k -> forget (g k) = g (forget k) -> repr (g k) (g k0) q.
Proof.
  intros [<- [Hh Ht Hnd Hnode]] H1 H2 H3 H4. split; [done|]. split; [by rewrite H2|by rewrite H3|done|].
  by rewrite H1.
Qed.

(** ** The list operations *)

Lemma before_lt q n : (n <= length q)%nat -> n <> 0%nat -> is_Some (before q n).
Proof. intros Hl Hn. destruct n as [|n]; [done|]. cbn. apply lookup_lt_is_Some_2. lia. Qed.

Lemma before_inj (q : list nat) n m i :
  NoDup q -> before q n = Some i -> before q m = Some i -> n = m.
Proof.
  intros Hnd Hn Hm. destruct n as [|n], m as [|m]; try done.
  f_equal. by eapply NoDup_lookup.
Qed.

Lemma before_app (q r : list nat) n : (n <= length q)%nat -> before (q ++ r) n = before q n.
Proof. intros H. destruct n as [|n]; [done|]. cbn. apply lookup_app_l. lia. Qed.

Lemma queue_elem_node k q i :
  queue k q -> i ∈ q -> exists n t, q !! n = Some i /\ task_table k !! i = Some t /\
    prev t = before q n /\ next t = q !! S n.
Proof.
  intros Hq [n Hn]%list_elem_of_lookup. destruct (qu_node _ _ Hq n i Hn) as (t & Ht & Hp & Hx).
  exists n, t. done.
Qed.

(** The table after the links of task [i] changed. *)
Lemma strip_links t n p : strip (t <| next := n |> <| prev := p |>) = strip t.
Proof. done. Qed.

Lemma fmap_strip_insert (l : list task) i t t' :
  l !! i = Some t -> strip t' = strip t -> strip <$> <[i := t']> l = strip <$> l.
Proof.
  intros Ht Hs. rewrite list_fmap_insert, Hs. apply list_insert_id. by rewrite list_lookup_fmap, Ht.
Qed.

Definition set_ready (x : task) : task := x <| state := TASK_READY |>.

Lemma last_before (q : list nat) i : before q (length q) = Some i -> i ∈ q.
Proof. destruct (length q) as [|m]; [done|]. cbn. intros H. apply list_elem_of_lookup. by exists m. Qed.

(** A task linked behind the last one of the queue. *)
Lemma queue_snoc k k' q i t :
  queue k q -> i ∉ q ->
  ready_list_head k' = (if before q (length q) is Some _ then ready_list_head k else Some i) ->
  ready_list_tail k' = Some i ->
  task_table k' !! i = Some t -> prev t = before q (length q) -> next t = None ->
  (forall j x, j <> i -> task_table k !! j = Some x -> task_table k' !! j =
     Some (if decide (before q (length q) = Some j) then x <| next := Some i |> else x)) ->
  queue k' (q ++ [i]).
Proof.
  intros [Hh Htl Hnd Hnode] Hi Hh' Htl' Ht Hp Hx Hoth. split.
  - rewrite Hh', Hh. destruct q as [|x q0]; [done|]. cbn [length before].
    by destruct (lookup_lt_is_Some_2 (x :: q0) (length q0)) as [y ->]; [cbn; lia|].
  - rewrite Htl', length_app, Nat.add_1_r. cbn [before]. by rewrite list_lookup_middle.
  - apply list.NoDup_app. split_and!; [done| |apply list.NoDup_singleton]. by intros y Hy ->%list_elem_of_singleton.
  - intros n y Hy. pose proof (lookup_lt_Some _ _ _ Hy) as Hn. rewrite length_app, Nat.add_1_r in Hn.
    rewrite before_app by lia. destruct (decide (n = length q)) as [->|Hne].
    + rewrite list_lookup_middle in Hy by done. injection Hy as <-. exists t. split_and!; [done|done|].
      rewrite Hx. symmetry. apply lookup_ge_None_2. rewrite length_app, Nat.add_1_r. lia.
    + rewrite lookup_app_l in Hy by lia. assert (y <> i) by (intros ->; apply Hi, list_elem_of_lookup; by exists n).
      destruct (Hnode n y Hy) as (x & Hxk & Hpx & Hnx). eexists. split; [by apply Hoth|]. case_decide as E.
      * assert (S n = length q) as En by exact (before_inj q (S n) (length q) y Hnd Hy E).
        split; [exact Hpx|]. rewrite En. by rewrite list_lookup_middle.
      * split; [exact Hpx|]. rewrite Hnx, lookup_app_l; [done|]. assert (S n <> length q); [|lia].
        intros En. apply E. by rewrite <- En.
Qed.

Lemma before_delete (q : list nat) n m :
  (n < length q)%nat -> before (delete n q) m =
  if decide (m <= n)%nat then before q m else before q (S m).
Proof.
  intros Hn. destruct m as [|m]; [by rewrite decide_True by lia|]. cbn [before].
  rewrite list_lookup_delete. by repeat case_decide; try lia.
Qed.

(** The store to [p->next], or to the head of the list when [p] is NULL. *)
Lemma wp_link_next k (p v : ptr) (Q : unit -> kernel A -> Prop) :
  (forall j, p = Some j -> is_Some (task_table k !! j)) ->
  (forall k', same_rest k k' -> ready_list_tail k' = ready_list_tail k ->
     ready_list_head k' = (if p is Some _ then ready_list_head k else v) ->
     (forall j, task_table k' !! j =
        (fun x => if decide (p = Some j) then x <| next := v |> else x) <$> task_table k !! j) -> Q tt k') ->
  wp (match p with
      | Some _ => upd_task p (fun y => y <| next := v |>)
      | None => modify (fun k => k <| ready_list_head := v |>)
      end) Q k.
Proof.
  intros Hp HQ. destruct p as [j|].
  - destruct (Hp j eq_refl) as [x Hx]. eapply wp_upd_task; [exact Hx|]. apply HQ; [done|done|done|].
    intros j'. change (task_table (k <| task_table := ?l |>)) with l. destruct (decide (j' = j)) as [->|Hne].
    + rewrite list_lookup_insert_eq, Hx by (by eapply lookup_lt_Some). cbn. by rewrite decide_True.
    + rewrite list_lookup_insert_ne by done. destruct (task_table k !! j') as [y|]; cbn; [|done].
      by rewrite decide_False by congruence.
  - apply wp_modify, HQ; [done|done|done|]. intros j'.
    change (task_table (k <| ready_list_head := v |>)) with (task_table k).
    by destruct (task_table k !! j').
Qed.

Lemma wp_link_prev k (p v : ptr) (Q : unit -> kernel A -> Prop) :
  (forall j, p = Some j -> is_Some (task_table k !! j)) ->
  (forall k', same_rest k k' -> ready_list_head k' = ready_list_head k ->
     ready_list_tail k' = (if p is Some _ then ready_list_tail k else v) ->
     (forall j, task_table k' !! j =
        (fun x => if decide (p = Some j) then x <| prev := v |> else x) <$> task_table k !! j) -> Q tt k') ->
  wp (match p with
      | Some _ => upd_task p (fun y => y <| prev := v |>)
      | None => modify (fun k => k <| ready_list_tail := v |>)
      end) Q k.
Proof.
  intros Hp HQ. destruct p as [j|].
  - destruct (Hp j eq_refl) as [x Hx]. eapply wp_upd_task; [exact Hx|]. apply HQ; [done|done|done|].
    intros j'. change (task_table (k <| task_table := ?l |>)) with l. destruct (decide (j' = j)) as [->|Hne].
    + rewrite list_lookup_insert_eq, Hx by (by eapply lookup_lt_Some). cbn. by rewrite decide_True.
    + rewrite list_lookup_insert_ne by done. destruct (task_table k !! j') as [y|]; cbn; [|done].
      by rewrite decide_False by congruence.
  - apply wp_modify, HQ; [done|done|done|]. intros j'.
    change (task_table (k <| ready_list_tail := v |>)) with (task_table k).
    by destruct (task_table k !! j').
Qed.

Lemma same_rest_trans k k' k'' : same_rest k k' -> same_rest k' k'' -> same_rest k k''.
Proof. intros (?&?&?&?&?&?&?) (?&?&?&?&?&?&?). repeat split; congruence. Qed.

Lemma strip_table_eq (l l' : list task) :
  (forall j, strip <$> l' !! j = strip <$> l !! j) -> strip <$> l' = strip <$> l.
Proof. intros H. apply list_eq. intros j. by rewrite !list_lookup_fmap. Qed.

Lemma wp_task_enqueue k k0 q i t0 (Q : unit -> kernel A -> Prop) :
  repr k k0 q -> task_table k0 !! i = Some t0 -> i ∉ q ->
  (forall k', repr k' (kupd i set_ready k0) (q ++ [i]) -> Q tt k') ->
  wp (task_enqueue (Some i)) Q k.
Proof.
  intros Hr Ht Hi HQ. destruct (repr_table_inv _ _ _ _ _ Hr Ht) as (t & Htk & ->).
  destruct Hr as [<- Hq]. pose proof (lookup_lt_Some _ _ _ Htk) as Hlt.
  assert (before q (length q) <> Some i) as Hbi by (intros E; by apply Hi, last_before).
  unfold task_enqueue. apply wp_bind. eapply wp_upd_task; [exact Htk|].
  apply wp_bind, wp_gets. change (ready_list_tail (k <| task_table := _ |>)) with (ready_list_tail k).
  rewrite (qu_tail _ _ Hq). apply wp_bind. eapply wp_upd_task; [by apply list_lookup_insert_eq|].
  set (k2 := _ <| task_table := _ |>). set (t2 := t <| next := None |> <| prev := before q (length q) |>).
  assert (task_table k2 = <[i := t2]> (task_table k)) as Hk2 by (apply list_insert_insert_eq).
  apply wp_bind, wp_link_next.
  { intros j E. rewrite Hk2, list_lookup_insert_ne by congruence.
    destruct (queue_elem_node _ _ _ Hq (last_before _ _ E)) as (m & x & _ & -> & _). by eexists. }
  intros k3 Hr3 _ Hh3 Ht3. apply wp_bind, wp_modify.
  assert (task_table k3 !! i = Some t2) as Hi3.
  { rewrite Ht3, Hk2, list_lookup_insert_eq by done. cbn. by rewrite decide_False. }
  eapply wp_upd_task; [exact Hi3|]. set (k4 := _ <| task_table := _ |>).
  assert (task_table k4 = <[i := set_ready t2]> (task_table k3)) as Hk4 by done.
  assert (forall j, j <> i -> task_table k4 !! j = (fun x => if decide (before q (length q) = Some j)
    then x <| next := Some i |> else x) <$> task_table k !! j) as Hoth.
  { intros j Hj. by rewrite Hk4, list_lookup_insert_ne, Ht3, Hk2, list_lookup_insert_ne. }
  assert (task_table k4 !! i = Some (set_ready t2)) as Hi4
    by (rewrite Hk4; apply list_lookup_insert_eq; by eapply lookup_lt_Some).
  apply HQ. split.
  - apply forget_kupd; [by eapply same_rest_trans; [exact Hr3|]|]. apply list_eq. intros j. rewrite list_lookup_fmap.
    destruct (decide (j = i)) as [->|Hj].
    + by rewrite Hi4, list_lookup_alter_eq, list_lookup_fmap, Htk.
    + rewrite Hoth, list_lookup_alter_ne, list_lookup_fmap by done.
      destruct (task_table k !! j); [cbn|done]. by case_decide.
  - eapply (queue_snoc k k4 q i (set_ready t2)); [exact Hq|exact Hi|exact Hh3|done|exact Hi4|done|done|].
    intros j x Hj Hx. by rewrite Hoth, Hx.
Qed.

(** A task unlinked from the place [n] of the queue. *)
Lemma queue_delete k k' q n :
  queue k q -> (n < length q)%nat ->
  ready_list_head k' = (if before q n is Some _ then ready_list_head k else q !! S n) ->
  ready_list_tail k' = (if q !! S n is Some _ then ready_list_tail k else before q n) ->
  (forall m j x, m <> n -> q !! m = Some j -> task_table k !! j = Some x -> task_table k' !! j =
     Some (if decide (before q n = Some j) then x <| next := q !! S n |>
           else if decide (q !! S n = Some j) then x <| prev := before q n |> else x)) ->
  queue k' (delete n q).
Proof.
  intros [Hh Htl Hnd Hnode] Hlen Hh' Htl' Hoth. split.
  - rewrite Hh', Hh, list_lookup_delete.
    destruct n as [|m]; cbn; [done|]. by destruct (lookup_lt_is_Some_2 q m) as [x ->]; [lia|].
  - rewrite Htl', Htl, length_delete, before_delete by (done || by apply lookup_lt_is_Some_2).
    destruct (q !! S n) as [s|] eqn:Es.
    + apply lookup_lt_Some in Es. rewrite decide_False by lia. f_equal. lia.
    + apply lookup_ge_None in Es. rewrite decide_True by lia. f_equal. lia.
  - by eapply sublist_NoDup; [exact Hnd|apply sublist_delete].
  - intros m j Hj. rewrite before_delete, !list_lookup_delete in * by done.
    assert (exists m', q !! m' = Some j /\ m' <> n /\ m = if decide (m' < n)%nat then m' else pred m') as (m' & Hm' & Hne & ->).
    { case_decide; [exists m|exists (S m)]; (split; [done|]); (split; [lia|]); case_decide; lia. }
    destruct (Hnode m' j Hm') as (x & Hx & Hpx & Hnx). eexists. split; [by eapply Hoth|].
    destruct (decide (before q n = Some j)) as [E|E].
    + assert (S m' = n) as <- by exact (before_inj q (S m') n j Hnd Hm' E).
      rewrite (decide_True (P := (m' < S m')%nat)) by lia. rewrite decide_True, decide_False by lia. by split.
    + destruct (decide (q !! S n = Some j)) as [E2|E2].
      * assert (m' = S n) as -> by (by eapply NoDup_lookup).
        rewrite (decide_False (P := (S n < n)%nat)) by lia. change (pred (S n)) with n.
        rewrite decide_True, decide_False by lia. by split.
      * assert (m' <> S n) by congruence. assert (S m' <> n) by (intros <-; by apply E).
        rewrite Hpx, Hnx. destruct (decide (m' < n)%nat).
        { by rewrite !decide_True by lia. }
        rewrite !decide_False by lia. by replace (S (pred m')) with m' by lia.
Qed.

(** Removing a task from any place of the queue. *)
Lemma wp_task_remove k k0 q n i (Q : unit -> kernel A -> Prop) :
  repr k k0 q -> q !! n = Some i ->
  (forall k', repr k' k0 (delete n q) -> Q tt k') -> wp (task_remove (Some i)) Q k.
Proof.
  intros [<- Hq] Hn HQ. pose proof (qu_node _ _ Hq) as Hnode. pose proof (qu_nodup _ _ Hq) as Hnd.
  destruct (Hnode n i Hn) as (t & Ht & Hp & Hx).
  assert (forall j m, q !! m = Some j -> m <> n -> j <> i) as Hother.
  { intros j m Hm Hne ->. apply Hne. by eapply NoDup_lookup. }
  assert (before q n <> Some i) as Hpi.
  { intros E. destruct n as [|m]; [done|]. by apply (Hother i m E); [lia|]. }
  assert (q !! S n <> Some i) as Hsi by (intros E; by apply (Hother i (S n) E); [lia|]).
  unfold task_remove. apply wp_bind. eapply wp_get_task; [exact Ht|]. rewrite Hp, Hx.
  apply wp_bind, wp_link_next.
  { intros j E. destruct n as [|m]; [done|]. destruct (Hnode m j E) as (tj & Htj & _). by eexists. }
  intros k1 Hk1 Htl1 Hh1 Ht1. apply wp_bind. eapply wp_get_task.
  { rewrite Ht1, Ht. cbn. by rewrite decide_False. }
  rewrite Hx, Hp. apply wp_bind, wp_link_prev.
  { intros j E. destruct (Hnode (S n) j E) as (tj & Htj & _). rewrite Ht1, Htj. by eexists. }
  intros k2 Hk2 Hh2 Htl2 Ht2.
  assert (forall j, task_table k2 !! j = (fun x =>
    if decide (before q n = Some j) then x <| next := q !! S n |>
    else if decide (q !! S n = Some j) then x <| prev := before q n |> else x) <$> task_table k !! j) as Ht2'.
  { intros j. rewrite Ht2, Ht1. destruct (task_table k !! j) as [x|]; [cbn|done]. f_equal.
    repeat case_decide; try done. assert (S (S n) = n); [|lia]. by eapply (before_inj q); [exact Hnd| |]. }
  assert (task_table k2 !! i = Some t) as Hti by (rewrite Ht2', Ht; cbn; by rewrite !decide_False).
  apply wp_bind. eapply wp_upd_task; [exact Hti|].
  eapply wp_upd_task; [apply list_lookup_insert_eq; by eapply lookup_lt_Some|].
  set (k3 := _ <| task_table := _ |>).
  assert (task_table k3 = <[i := strip t]> (task_table k2)) as Hk3 by (apply list_insert_insert_eq).
  apply HQ. split.
  - apply forget_same; [by do 2 (eapply same_rest_trans; [eassumption|])|].
    apply strip_table_eq. intros j. rewrite Hk3. destruct (decide (j = i)) as [->|Hne].
    + by rewrite list_lookup_insert_eq, Ht by (by eapply lookup_lt_Some).
    + rewrite list_lookup_insert_ne, Ht2' by done. destruct (task_table k !! j); [cbn|done]. f_equal.
      by repeat case_decide.
  - eapply queue_delete; [exact Hq|by eapply lookup_lt_Some| | |].
    + change (ready_list_head k3) with (ready_list_head k2). by rewrite Hh2, Hh1.
    + change (ready_list_tail k3) with (ready_list_tail k2). by rewrite Htl2, Htl1.
    + intros m j x Hm Hj Hxj. rewrite Hk3, list_lookup_insert_ne by (by eapply not_eq_sym, Hother).
      by rewrite Ht2', Hxj.
Qed.
End sched.
