(* ===== verification/SchedSpec.v ===== *)
(** * The scheduler as operations on a queue

    The abstract scheduler works on a table without links and a queue of indices.
    Every operation of [task.c] that touches the ready list refines the abstract
    operation of the same name, and keeps the invariant [sched_ok]: a task is READY
    exactly when it is in the queue. *)

From stdpp Require Import base list gmap numbers option tactics.
From S2P Require Import Prelude PhysMem Pmm Vmm Task Sched.

Section spec.
Context {A : Type} `{!FrameAllocator A}.
Implicit Types k : kernel A.

(** ** The abstract scheduler *)

Definition sched : Type := kernel A * list nat.
Implicit Types s : sched.

Definition set_running (x : task) : task := x <| state := TASK_RUNNING |> <| ticks := 0 |>.
Definition set_awake (x : task) : task := x <| state := TASK_READY |> <| wake_tick := 0 |>.
Definition tick_up (x : task) : task := x <| ticks := u32 (ticks x + 1) |>.

(** The address space task [t] runs in. *)
Definition space_of k (t : task) : Z :=
  if page_directory_phys t =? 0 then kernel_pdt_phys (kvm k) else page_directory_phys t.

(** Task [i] becomes the current task. *)
Definition switch_to (i : nat) (t : task) k : kernel A :=
  kupd i set_running k <| current_task := Some i |> <| tss_esp0 := stack_top t |>
    <| tss_ss0 := KERNEL_DATA_SEG |> <| kvm := set_tlb ∅ (set_cr3 (space_of k t) (kvm k)) |>.

Definition spec_enqueue (i : nat) (s : sched) : sched := (kupd i set_ready s.1, s.2 ++ [i]).

Definition spec_select (s : sched) : ptr * sched :=
  match s.2 with
  | [] => (None, s)
  | i :: q =>
      match task_table s.1 !! i with
      | Some t => (Some i, (switch_to i t s.1, q))
      | None => (None, s)
      end
  end.

(** The current task and its table entry. *)
Definition running (s : sched) : option (nat * task) :=
  match current_task s.1 with
  | Some c => match task_table s.1 !! c with
              | Some t => if decide (state t = TASK_RUNNING) then Some (c, t) else None
              | None => None
              end
  | None => None
  end.

Definition spec_requeue (s : sched) : sched :=
  match running s with Some (c, _) => spec_enqueue c s | None => s end.

Definition spec_schedule (s : sched) : ptr * sched := spec_select (spec_requeue s).

Definition wakes (now : Z) (t : task) : bool :=
  bool_decide (state t = TASK_WAITING) && negb (wake_tick t =? 0) && (wake_tick t <=? now).

Definition spec_wake_one (i : nat) (s : sched) : sched :=
  match task_table s.1 !! i with
  | Some t => if wakes (timer_ticks s.1) t then (kupd i set_awake s.1, s.2 ++ [i]) else s
  | None => s
  end.
Definition spec_wake (s : sched) : sched := foldl (fun s i => spec_wake_one i s) s (seq 0 TASK_MAX).

(** One more tick of the running task, which loses the CPU at its quantum. *)
Definition spec_charge (s : sched) : ptr * sched :=
  match running s with
  | None => (None, s)
  | Some (c, t) =>
      let s := (kupd c tick_up s.1, s.2) in
      if quantum t <=? u32 (ticks t + 1) then spec_select (spec_enqueue c s) else (None, s)
  end.

Definition spec_tick (s : sched) : ptr * sched := spec_charge (spec_wake s).
Lemma spec_tick_eq s : spec_tick s = spec_charge (spec_wake s).
Proof. reflexivity. Qed.

(** ** The invariant *)

Record sched_ok (s : sched) : Prop := {
  so_length : length (task_table s.1) = TASK_MAX;
  so_ready : forall i t, task_table s.1 !! i = Some t -> (state t = TASK_READY <-> i ∈ s.2);
  so_nodup : NoDup s.2;
  so_range : forall i, i ∈ s.2 -> (i < TASK_MAX)%nat;
  so_current : forall c, current_task s.1 = Some c -> (c < TASK_MAX)%nat;
}.

(** The concrete kernel [k] is in the abstract state [s]. *)
Definition models k s : Prop := repr k s.1 s.2 /\ sched_ok s.

Lemma kupd_compose i g h k : kupd i g (kupd i h k) = kupd i (fun x => g (h x)) k.
Proof.
  unfold kupd, update. cbn. f_equal. apply list_eq. intros j.
  destruct (decide (i = j)) as [->|Hne].
  - rewrite !list_lookup_alter_eq. by destruct (task_table k !! j).
  - by rewrite !list_lookup_alter_ne.
Qed.

Lemma kupd_ext i g h k : (forall x, g x = h x) -> kupd i g k = kupd i h k.
Proof.
  intros H. unfold kupd, update. cbn. f_equal. apply list_eq. intros j.
  destruct (decide (i = j)) as [->|Hne].
  - rewrite !list_lookup_alter_eq. destruct (task_table k !! j); cbn; by rewrite ?H.
  - by rewrite !list_lookup_alter_ne.
Qed.

Lemma kupd_table i g k j :
  task_table (kupd i g k) !! j = if decide (i = j) then g <$> task_table k !! j else task_table k !! j.
Proof.
  change (task_table (kupd i g k)) with (alter g i (task_table k)).
  case_decide as E; [subst; apply list_lookup_alter_eq|by apply list_lookup_alter_ne].
Qed.

Lemma kupd_ne i g k j : j <> i -> task_table (kupd i g k) !! j = task_table k !! j.
Proof. intros Hj. by rewrite kupd_table, decide_False. Qed.

Lemma kupd_some i g k t : task_table k !! i = Some t -> task_table (kupd i g k) !! i = Some (g t).
Proof. intros Ht. by rewrite kupd_table, decide_True, Ht. Qed.

Lemma kupd_length i g k : length (task_table (kupd i g k)) = length (task_table k).
Proof. apply length_alter. Qed.

Lemma table_some s i : sched_ok s -> (i < TASK_MAX)%nat -> exists t, task_table s.1 !! i = Some t.
Proof. intros Hs Hi. apply lookup_lt_is_Some_2. by rewrite (so_length _ Hs). Qed.

(** ** The abstract operations preserve the invariant *)

(** A change of task [i] that leaves the queue's membership right. *)
Lemma sched_ok_kupd i g k q q' :
  sched_ok (k, q) -> NoDup q' -> (forall j, j ∈ q' -> (j < TASK_MAX)%nat) ->
  (forall j, j <> i -> j ∈ q' <-> j ∈ q) ->
  (forall t, task_table k !! i = Some t -> state (g t) = TASK_READY <-> i ∈ q') ->
  sched_ok (kupd i g k, q').
Proof.
  intros [Hl Hr Hn Hg Hc] Hn' Hg' Hq Hi. split; cbn [fst snd] in *; [by rewrite kupd_length| |done|done|exact Hc].
  intros j t. rewrite kupd_table. destruct (decide (i = j)) as [->|Hne].
  - destruct (task_table k !! j) as [t'|] eqn:E; [|done]. cbn. intros [= <-]. by apply Hi.
  - intros Ht. rewrite Hq by done. by apply Hr.
Qed.

Lemma enqueue_ok i g k q :
  sched_ok (k, q) -> (i < TASK_MAX)%nat -> i ∉ q -> (forall t, state (g t) = TASK_READY) ->
  sched_ok (kupd i g k, q ++ [i]).
Proof.
  intros Hs Hi Hq Hg. eapply sched_ok_kupd; [exact Hs|..].
  - apply list.NoDup_app. split_and!; [apply (so_nodup _ Hs)| |apply list.NoDup_singleton].
    by intros x Hx ->%list_elem_of_singleton.
  - intros j [Hj|Hj%list_elem_of_singleton]%elem_of_app; [by apply (so_range _ Hs)|by subst].
  - intros j Hj. rewrite elem_of_app, list_elem_of_singleton. tauto.
  - intros t _. rewrite Hg, elem_of_app, list_elem_of_singleton. naive_solver.
Qed.

Lemma not_ready_notin k q i t :
  sched_ok (k, q) -> task_table k !! i = Some t -> state t <> TASK_READY -> i ∉ q.
Proof. intros Hs Ht Hne Hi. by apply Hne, (so_ready _ Hs i t Ht). Qed.

Lemma sched_ok_other k k' q :
  task_table k' = task_table k -> current_task k' = current_task k -> sched_ok (k, q) -> sched_ok (k', q).
Proof. intros Ht Hc [H1 H2 H3 H4 H5]. cbn in *. split; cbn; by rewrite ?Ht, ?Hc. Qed.

Lemma spec_select_ok s : sched_ok s -> sched_ok (spec_select s).2.
Proof.
  destruct s as [k q]. intros Hs. unfold spec_select. cbn [fst snd].
  destruct q as [|i q]; [done|]. destruct (task_table k !! i) as [t|] eqn:Ht; [|done]. cbn [snd].
  destruct (proj1 (list.NoDup_cons _ _) (so_nodup _ Hs)) as [Hi Hnd].
  pose proof (so_range _ Hs i ltac:(by left)) as Hlt.
  assert (sched_ok (kupd i set_running k, q)) as [H1 H2 H3 H4 H5].
  { eapply sched_ok_kupd; [exact Hs|done|by intros j Hj; apply (so_range _ Hs); right| |done].
    intros j Hj. cbn [snd]. rewrite list.elem_of_cons. tauto. }
  split; [exact H1|exact H2|exact H3|exact H4|]. cbn. by intros c [= <-].
Qed.

Lemma running_lookup s c t :
  running s = Some (c, t) -> current_task s.1 = Some c /\ task_table s.1 !! c = Some t /\ state t = TASK_RUNNING.
Proof.
  unfold running. destruct (current_task s.1) as [c'|]; [|done].
  destruct (task_table s.1 !! c') as [t'|] eqn:E; [|done]. case_decide; [|done]. by intros [= <- <-].
Qed.

Lemma running_notin s c t : sched_ok s -> running s = Some (c, t) -> c ∉ s.2.
Proof.
  intros Hs (_ & Ht & Hst)%running_lookup. destruct s. eapply not_ready_notin; [done|exact Ht|by rewrite Hst].
Qed.

Lemma spec_requeue_ok s : sched_ok s -> sched_ok (spec_requeue s).
Proof.
  intros Hs. unfold spec_requeue. destruct (running s) as [[c t]|] eqn:E; [|done].
  pose proof (running_notin _ _ _ Hs E). destruct (running_lookup _ _ _ E) as (Hc & _).
  destruct s as [k q]. apply enqueue_ok; [done|by apply (so_current _ Hs)|done|done].
Qed.

Lemma wakes_waiting now t : wakes now t = true -> state t = TASK_WAITING.
Proof. unfold wakes. by rewrite !andb_true_iff, bool_decide_eq_true; intros [[? _] _]. Qed.

Lemma spec_wake_one_ok i s : sched_ok s -> sched_ok (spec_wake_one i s).
Proof.
  intros Hs. unfold spec_wake_one. destruct (task_table s.1 !! i) as [t|] eqn:Ht; [|done].
  destruct (wakes _ t) eqn:Hw; [|done]. destruct s as [k q]. cbn [fst snd] in *.
  apply enqueue_ok; [done| | |done].
  - rewrite <- (so_length _ Hs). by eapply lookup_lt_Some.
  - eapply not_ready_notin; [done|exact Ht|]. by rewrite (wakes_waiting _ _ Hw).
Qed.

Lemma spec_wake_ok s : sched_ok s -> sched_ok (spec_wake s).
Proof.
  unfold spec_wake. generalize (seq 0 TASK_MAX). intros l. revert s.
  induction l as [|i l IH]; intros s Hs; [done|]. by apply IH, spec_wake_one_ok.
Qed.

Lemma tick_up_ok c t k q :
  sched_ok (k, q) -> task_table k !! c = Some t -> sched_ok (kupd c tick_up k, q).
Proof.
  intros Hs Ht. eapply sched_ok_kupd; [exact Hs|apply (so_nodup _ Hs)|apply (so_range _ Hs)|done|].
  intros t' Ht'. exact (so_ready _ Hs c t' Ht').
Qed.

Lemma spec_charge_ok s : sched_ok s -> sched_ok (spec_charge s).2.
Proof.
  intros Hs. unfold spec_charge. destruct (running s) as [[c t]|] eqn:E; [|done].
  pose proof (running_notin _ _ _ Hs E) as Hn. destruct (running_lookup _ _ _ E) as (Hc & Ht & _).
  destruct s as [k q]. cbn [fst snd] in *. pose proof (tick_up_ok c t k q Hs Ht) as Hs'.
  case_match; [|done]. apply spec_select_ok, enqueue_ok; [done|by apply (so_current _ Hs)|done|done].
Qed.

Lemma spec_tick_ok s : sched_ok s -> sched_ok (spec_tick s).2.
Proof. intros Hs. rewrite spec_tick_eq. by apply spec_charge_ok, spec_wake_ok. Qed.

(** ** Refinement, operation by operation *)

Lemma wp_repr_modify k k0 q (g : kernel A -> kernel A) (Q : unit -> kernel A -> Prop) :
  repr k k0 q -> task_table (g k) = task_table k -> ready_list_head (g k) = ready_list_head k ->
  ready_list_tail (g k) = ready_list_tail k -> forget (g k) = g (forget k) ->
  (forall k', repr k' (g k0) q -> Q tt k') -> wp (modify g) Q k.
Proof.
  intros Hr H1 H2 H3 H4 HQ. apply wp_modify, HQ. pose proof (repr_modify k k0 q g Hr H1 H2 H3 H4) as [E Hq].
  split; [|done]. rewrite H4. by rewrite (proj1 Hr).
Qed.

Lemma linkless_field (g : task -> task) :
  (forall t, next (g t) = next t) -> (forall t, prev (g t) = prev t) ->
  (forall t, strip (g t) = g (strip t)) -> linkless g.
Proof. intros H1 H2 H3 t. by rewrite H1, H2, H3. Qed.

Lemma wp_in_vm_gets {B} (f : vm A -> B) k (Q : B -> kernel A -> Prop) :
  Q (f (kvm k)) k -> wp (in_vm (gets f)) Q k.
Proof. intros HQ. unfold in_vm. apply wp_zoom, wp_gets. by destruct k. Qed.

Lemma wp_load_current_cr3 k k0 q (Q : unit -> kernel A -> Prop) :
  repr k k0 q -> (forall c, current_task k0 = Some c -> is_Some (task_table k0 !! c)) ->
  (forall k', repr k' (k0 <| kvm := set_tlb ∅ (set_cr3
     (match current_task k0 with
      | Some c => match task_table k0 !! c with Some t => space_of k0 t | None => 0 end
      | None => kernel_pdt_phys (kvm k0)
      end) (kvm k0)) |>) q -> Q tt k') ->
  wp load_current_cr3 Q k.
Proof.
  intros Hr Hc HQ. pose proof Hr as [E _].
  assert (current_task k = current_task k0) as Ec by (by rewrite <- E).
  assert (kvm k = kvm k0) as Ev by (by rewrite <- E).
  assert (forall c (Q : unit -> kernel A -> Prop),
    (forall k', repr k' (k0 <| kvm := set_tlb ∅ (set_cr3 c (kvm k0)) |>) q -> Q tt k') ->
    wp (in_vm (load_cr3 c)) Q k) as Hload.
  { intros c Q' HQ'. unfold in_vm. apply wp_zoom, wp_modify, HQ'. rewrite Ev.
    pose proof (repr_modify k k0 q (fun k => k <| kvm := set_tlb ∅ (set_cr3 c (kvm k0)) |>) Hr
      eq_refl eq_refl eq_refl eq_refl) as [_ Hq1].
    split; [rewrite <- E; reflexivity|exact Hq1]. }
  unfold load_current_cr3. apply wp_bind, wp_gets. rewrite Ec. apply wp_bind.
  destruct (current_task k0) as [c|].
  - destruct (Hc c eq_refl) as [t0 Ht0]. apply wp_bind. eapply wp_repr_get; [exact Hr|exact Ht0|].
    intros t Et. apply wp_ret. rewrite Ht0 in HQ. unfold space_of in HQ. rewrite Et in HQ.
    change (page_directory_phys (strip t)) with (page_directory_phys t) in HQ.
    destruct (page_directory_phys t =? 0); cbn [negb]; [|by apply Hload].
    apply wp_bind, wp_in_vm_gets. rewrite Ev. by apply Hload.
  - apply wp_ret. cbn [Z.eqb negb]. apply wp_bind, wp_in_vm_gets. rewrite Ev. by apply Hload.
Qed.

Lemma wp_bind_reassoc {S B C D} (c : M S B) (h : B -> M S C) (h' : C -> M S D) Q (s : S) :
  wp (bind (bind c h) h') Q s -> wp (bind c (fun b => bind (h b) h')) Q s.
Proof. unfold wp, bind. by destruct (c s) as [[b s']| |]. Qed.

(** The TSS and CR3 of the task that just became current. *)
Lemma wp_switch k k0 q i t0 (Q : unit -> kernel A -> Prop) :
  repr k (k0 <| current_task := Some i |>) q -> task_table k0 !! i = Some t0 ->
  (forall k', repr k' (k0 <| current_task := Some i |> <| tss_esp0 := stack_top t0 |>
     <| tss_ss0 := KERNEL_DATA_SEG |> <| kvm := set_tlb ∅ (set_cr3 (space_of k0 t0) (kvm k0)) |>) q -> Q tt k') ->
  wp (task_update_tss ;; load_current_cr3) Q k.
Proof.
  intros Hr Ht0 HQ. unfold task_update_tss. apply wp_bind, wp_bind, wp_gets.
  assert (current_task k = Some i) as -> by exact (f_equal current_task (proj1 Hr)).
  apply wp_bind. eapply wp_repr_get; [exact Hr|exact Ht0|]. intros t Et.
  assert (stack_top t = stack_top t0) as -> by (rewrite Et; done).
  apply wp_bind. eapply (wp_repr_modify k _ q (fun k => k <| tss_esp0 := stack_top t0 |>)); [exact Hr|done..|].
  intros k6 Hr6. eapply (wp_repr_modify k6 _ q (fun k => k <| tss_ss0 := KERNEL_DATA_SEG |>)); [exact Hr6|done..|].
  intros k7 Hr7. match type of Hr7 with repr _ ?x _ => set (k9 := x) in * end.
  assert (current_task k9 = Some i) as Ec9 by reflexivity.
  assert (task_table k9 !! i = Some t0) as Ht9 by exact Ht0.
  eapply wp_load_current_cr3; [exact Hr7| |].
  { intros c. rewrite Ec9. intros [= <-]. by eexists. }
  intros k8 Hr8. apply HQ. rewrite Ec9, Ht9 in Hr8. exact Hr8.
Qed.

Lemma wp_select_next k s (Q : ptr -> kernel A -> Prop) :
  models k s -> (forall k', models k' (spec_select s).2 -> Q (spec_select s).1 k') ->
  wp task_select_next Q k.
Proof.
  intros [Hr Hs] HQ'.
  assert (forall k', repr k' (spec_select s).2.1 (spec_select s).2.2 -> Q (spec_select s).1 k') as HQ.
  { intros k' Hk'. apply HQ'. split; [done|]. by apply spec_select_ok. }
  clear HQ'. destruct s as [k0 q]. cbn [fst snd] in *. unfold spec_select in HQ. cbn [fst snd] in HQ.
  unfold task_select_next. apply wp_bind, wp_gets. rewrite (qu_head _ _ (proj2 Hr)).
  destruct q as [|i q]; [by apply wp_ret, HQ|]. cbn [lookup list_lookup].
  destruct (repr_in _ _ _ i Hr) as [t0 Ht0]; [by left|]. rewrite Ht0 in HQ. cbn [fst snd] in HQ.
  apply wp_bind. apply (wp_task_remove k k0 (i :: q) 0 i); [done|done|]. intros k1 Hr1. cbn [delete list_delete] in Hr1.
  apply wp_bind. eapply wp_repr_upd; [exact Hr1|exact Ht0|by apply linkless_field|]. intros k2 Hr2.
  apply wp_bind. eapply wp_repr_upd; [exact Hr2|by rewrite kupd_table, decide_True, Ht0 by done|by apply linkless_field|].
  intros k3 Hr3. rewrite kupd_compose in Hr3.
  rewrite (kupd_ext i _ set_running) in Hr3 by done.
  set (k4 := kupd i set_running k0) in *.
  assert (task_table k4 !! i = Some (set_running t0)) as Ht4.
  { unfold k4. by rewrite kupd_table, decide_True, Ht0. }
  apply wp_bind. eapply (wp_repr_modify k3 k4 q (fun k => k <| current_task := Some i |>)); [exact Hr3|done..|].
  intros k5 Hr5. apply (wp_bind_reassoc task_update_tss), wp_bind. eapply wp_switch; [exact Hr5|exact Ht4|].
  intros k8 Hr8. apply wp_ret, HQ. exact Hr8.
Qed.

Lemma models_current k s : models k s -> current_task k = current_task s.1.
Proof. intros [Hr _]. exact (f_equal current_task (proj1 Hr)). Qed.
Lemma models_ticks k s : models k s -> timer_ticks k = timer_ticks s.1.
Proof. intros [Hr _]. exact (f_equal timer_ticks (proj1 Hr)). Qed.

(** The state of task [i] set and the task enqueued, in one step of the specification. *)
Lemma wp_upd_enqueue k k0 q i t0 g (Q : unit -> kernel A -> Prop) :
  models k (k0, q) -> task_table k0 !! i = Some t0 -> i ∉ q -> linkless g ->
  (forall k', models k' (kupd i (fun x => set_ready (g x)) k0, q ++ [i]) -> Q tt k') ->
  wp (bind (upd_task (Some i) g) (fun _ => task_enqueue (Some i))) Q k.
Proof.
  intros [Hr Hs] Ht Hi Hg HQ. cbn [fst snd] in Hr. apply wp_bind. eapply wp_repr_upd; [exact Hr|exact Ht|done|]. intros k1 Hr1.
  eapply wp_task_enqueue; [exact Hr1|by rewrite kupd_table, decide_True, Ht by done|done|].
  intros k2 Hr2. rewrite kupd_compose in Hr2. apply HQ. split; [exact Hr2|].
  apply enqueue_ok; [done| |done|done]. rewrite <- (so_length _ Hs). by eapply lookup_lt_Some.
Qed.

Lemma wp_requeue_current k s (Q : unit -> kernel A -> Prop) :
  models k s -> (forall k', models k' (spec_requeue s) -> Q tt k') -> wp requeue_current Q k.
Proof.
  intros Hm HQ. unfold requeue_current. apply wp_bind, wp_gets. rewrite (models_current _ _ Hm).
  pose proof Hm as [Hr Hs]. destruct s as [k0 q]. cbn [fst snd] in *.
  destruct (current_task k0) as [c|] eqn:Ec.
  2: { apply wp_ret, HQ. unfold spec_requeue, running. cbn [fst]. by rewrite Ec. }
  destruct (table_some _ c Hs (so_current _ Hs c Ec)) as [t0 Ht0]. cbn [fst] in Ht0.
  apply wp_bind. eapply wp_repr_get; [exact Hr|exact Ht0|]. intros t ->.
  assert (running (k0, q) = if decide (state t = TASK_RUNNING) then Some (c, strip t) else None) as Erun
    by (unfold running; cbn [fst]; by rewrite Ec, Ht0).
  unfold spec_requeue in HQ. rewrite Erun in HQ.
  destruct (decide (state t = TASK_RUNNING)) as [E|E]; [|by apply wp_ret, HQ].
  eapply wp_upd_enqueue; [exact Hm|exact Ht0|exact (running_notin _ _ _ Hs Erun)|by apply linkless_field|].
  intros k' Hm'. apply HQ. by rewrite (kupd_ext c _ set_ready) in Hm' by done.
Qed.

Lemma wp_task_schedule k s (Q : ptr -> kernel A -> Prop) :
  models k s -> (forall k', models k' (spec_schedule s).2 -> Q (spec_schedule s).1 k') ->
  wp task_schedule Q k.
Proof.
  intros Hm HQ. unfold task_schedule. apply wp_bind. eapply wp_requeue_current; [exact Hm|].
  intros k1 Hm1. by eapply wp_select_next.
Qed.

Lemma wp_wake k s (Q : unit -> kernel A -> Prop) :
  models k s -> (forall k', models k' (spec_wake s) -> Q tt k') -> wp task_wake_waiting_tasks Q k.
Proof.
  intros Hm HQ. unfold spec_wake in HQ. unfold task_wake_waiting_tasks, timer_get_ticks. apply wp_bind, wp_gets.
  set (W := fun n => foldl (fun s i => spec_wake_one i s) s (seq 0 n)).
  assert (forall n, timer_ticks (W n).1 = timer_ticks s.1) as Hnow.
  { intros n. unfold W. generalize (seq 0 n). intros l. clear. revert s.
    induction l as [|i l IH]; intros s; [done|]. cbn [foldl]. rewrite IH.
    unfold spec_wake_one. by repeat case_match. }
  rewrite (models_ticks _ _ Hm).
  apply (wp_for_each (fun j k' => models k' (W (Z.to_nat j)))).
  { assert (W (Z.to_nat 0) = s) as -> by reflexivity. exact Hm. }
  2: { intros k'. rewrite Z.add_0_l, Nat2Z.id. fold (W TASK_MAX) in HQ. intros Hk'. apply (HQ k'). exact Hk'. }
  intros j k1 Hj Hm1. pose proof Hm1 as [Hr1 Hs1].
  replace (Z.to_nat (j + 1)) with (Z.to_nat j + 1)%nat by lia.
  assert (W (Z.to_nat j + 1)%nat = spec_wake_one (Z.to_nat j) (W (Z.to_nat j))) as ->.
  { unfold W. by rewrite seq_app, foldl_app. }
  rewrite <- (Hnow (Z.to_nat j)). destruct (W (Z.to_nat j)) as [k0 q]. cbn [fst snd] in *.
  destruct (table_some _ (Z.to_nat j) Hs1 ltac:(unfold TASK_MAX in *; lia)) as [t0 Ht0]. cbn [fst] in Ht0.
  apply wp_bind. eapply wp_repr_get; [exact Hr1|exact Ht0|]. intros t ->. cbv zeta.
  change (bool_decide (state t = TASK_WAITING) && _ && _) with (wakes (timer_ticks k0) (strip t)).
  unfold spec_wake_one. cbn [fst snd]. rewrite Ht0.
  destruct (wakes _ _) eqn:Ew; [|by apply wp_ret].
  apply wp_bind. eapply wp_repr_upd; [exact Hr1|exact Ht0|by apply linkless_field|]. intros k2 Hr2.
  assert (Z.to_nat j ∉ q) as Hn.
  { eapply not_ready_notin; [exact Hs1|exact Ht0|]. by rewrite (wakes_waiting _ _ Ew). }
  apply wp_bind. eapply wp_repr_upd; [exact Hr2|by rewrite kupd_table, decide_True, Ht0 by done|by apply linkless_field|].
  intros k3 Hr3. eapply wp_task_enqueue; [exact Hr3|by rewrite !kupd_table, !decide_True, Ht0 by done|done|].
  intros k4 Hr4. rewrite !kupd_compose in Hr4. split; [|].
  - by rewrite (kupd_ext _ _ set_awake) in Hr4 by done.
  - apply enqueue_ok; [done| |done|done]. unfold TASK_MAX in *. lia.
Qed.

(** [task_tick] after the sleepers were woken. *)
Lemma wp_charge k s (Q : ptr -> kernel A -> Prop) :
  models k s -> (forall k', models k' (spec_charge s).2 -> Q (spec_charge s).1 k') ->
  wp (c <- gets current_task ;;
      match c with
      | None => ret None
      | Some _ =>
          x <- get_task c ;;
          if decide (state x <> TASK_RUNNING) then ret None
          else
            upd_task c (fun x => x <| ticks := u32 (ticks x + 1) |>) ;;
            x <- get_task c ;;
            if quantum x <=? ticks x then
              upd_task c (fun x => x <| state := TASK_READY |>) ;;
              task_enqueue c ;;
              task_select_next
            else ret None
      end) Q k.
Proof.
  intros Hm HQ. unfold spec_charge in HQ. destruct s as [k0 q].
  apply wp_bind, wp_gets. rewrite (models_current _ _ Hm). pose proof Hm as [Hr Hs]. cbn [fst snd] in *.
  destruct (current_task k0) as [c|] eqn:Ec.
  2: { apply wp_ret. unfold running in HQ. cbn [fst] in HQ. rewrite Ec in HQ. by apply HQ. }
  destruct (table_some _ c Hs (so_current _ Hs c Ec)) as [t0 Ht0]. cbn [fst] in Ht0.
  apply wp_bind. eapply wp_repr_get; [exact Hr|exact Ht0|]. intros t ->.
  assert (running (k0, q) = if decide (state t = TASK_RUNNING) then Some (c, strip t) else None) as Erun
    by (unfold running; cbn [fst]; by rewrite Ec, Ht0).
  rewrite Erun in HQ. destruct (decide (state t = TASK_RUNNING)) as [E|E].
  2: { rewrite decide_True by done. by apply wp_ret, HQ. }
  rewrite decide_False by tauto. pose proof (running_notin _ c _ Hs Erun) as Hn. cbn [snd] in Hn.
  apply wp_bind. eapply wp_repr_upd; [exact Hr|exact Ht0|by apply linkless_field|]. intros k1 Hr1.
  assert (models k1 (kupd c tick_up k0, q)) as Hm1 by (split; [done|by eapply tick_up_ok]).
  assert (task_table (kupd c tick_up k0) !! c = Some (tick_up (strip t))) as Ht1
    by (by rewrite kupd_table, decide_True, Ht0).
  apply wp_bind. eapply wp_repr_get; [exact Hr1|exact Ht1|]. intros t' Et'.
  assert (quantum t' = quantum t) as -> by exact (eq_sym (f_equal quantum Et')).
  assert (ticks t' = u32 (ticks t + 1)) as -> by exact (eq_sym (f_equal ticks Et')).
  change (quantum (strip t)) with (quantum t) in HQ. change (ticks (strip t)) with (ticks t) in HQ.
  destruct (quantum t <=? u32 (ticks t + 1)); [|by apply wp_ret, HQ].
  apply (wp_bind_reassoc (upd_task _ _)), wp_bind. eapply wp_upd_enqueue; [exact Hm1|exact Ht1|done|by apply linkless_field|].
  intros k2 Hm2. eapply wp_select_next; [|exact HQ]. by rewrite (kupd_ext c _ set_ready) in Hm2 by done.
Qed.

Lemma wp_task_tick k s (Q : ptr -> kernel A -> Prop) :
  models k s -> (forall k', models k' (spec_tick s).2 -> Q (spec_tick s).1 k') -> wp task_tick Q k.
Proof.
  intros Hm HQ. rewrite spec_tick_eq in HQ. unfold task_tick. apply wp_bind. eapply wp_wake; [exact Hm|].
  intros k1 Hm1. generalize dependent (spec_wake s). intros s1 HQ Hm1. exact (wp_charge k1 s1 Q Hm1 HQ).
Qed.
End spec.
