(* ===== verification/SchedFair.v ===== *)
(** * The scheduler is round robin and preemptive

    The theorems of [task.c] about scheduling: the operations refine the queue of
    [SchedSpec], and no ready task waits for ever, either because the tasks call
    [task_schedule] or because the timer interrupts them. *)

From stdpp Require Import base list gmap numbers option tactics.
From S2P Require Import Prelude PhysMem Pmm Vmm Task Sched SchedSpec.

(** [n] calls, whose answers are ignored. *)
Definition repeat_op {S B} (n : nat) (c : M S B) : M S unit := for_each n 0 (fun _ => c ;; ret tt).

Lemma wp_repeat_op {S B} (c : M S B) (I : nat -> S -> Prop) n (s : S) (Q : unit -> S -> Prop) :
  I n s -> (forall m s', (m < n)%nat -> I (Datatypes.S m) s' -> wp c (fun _ s'' => I m s'') s') ->
  (forall s', I 0%nat s' -> Q tt s') -> wp (repeat_op n c) Q s.
Proof.
  intros Hs Hc HQ. unfold repeat_op.
  apply (wp_for_each (fun j s' => I (n - Z.to_nat j)%nat s')).
  - by replace (n - Z.to_nat 0)%nat with n by lia.
  - intros j s' Hj Hs'. apply wp_bind. eapply wp_mono; [apply (Hc (n - Z.to_nat j - 1)%nat); [lia|]|].
    + by replace (Datatypes.S (n - Z.to_nat j - 1)) with (n - Z.to_nat j)%nat by lia.
    + intros b s'' Hs''. apply wp_ret. by replace (n - Z.to_nat (j + 1))%nat with (n - Z.to_nat j - 1)%nat by lia.
  - intros s' Hs'. apply HQ. by replace (n - Z.to_nat (0 + Z.of_nat n))%nat with 0%nat in Hs' by lia.
Qed.

Section fair.
Context {A : Type} `{!FrameAllocator A}.
Implicit Types k : kernel A.
Implicit Types s : sched (A := A).

(** ** The abstract queue moves up *)

Lemma running_switch i t k q :
  task_table k !! i = Some t -> running (switch_to i t k, q) = Some (i, set_running t).
Proof.
  intros Ht. unfold running. cbn [fst]. change (current_task (switch_to i t k)) with (Some i). cbv iota.
  change (task_table (switch_to i t k)) with (task_table (kupd i set_running k)).
  by rewrite kupd_table, decide_True, Ht by done.
Qed.

(** A call of the scheduler runs the head of the queue and moves the others up. *)
Lemma spec_schedule_queue s n i :
  sched_ok s -> s.2 !! n = Some i ->
  match n with
  | O => exists t, running (spec_schedule s).2 = Some (i, t)
  | S m => (spec_schedule s).2.2 !! m = Some i
  end.
Proof.
  intros Hs Hi. unfold spec_schedule. pose proof (spec_requeue_ok _ Hs) as Hs1.
  assert ((spec_requeue s).2 !! n = Some i) as Hi1.
  { unfold spec_requeue. destruct (running s) as [[c t]|]; [|done]. by apply lookup_app_l_Some. }
  clear Hi Hs. destruct (spec_requeue s) as [k q]. cbn [fst snd] in *. destruct q as [|j q]; [done|].
  destruct (table_some _ j Hs1 (so_range _ Hs1 j ltac:(by left))) as [t Ht]. cbn [fst] in Ht.
  unfold spec_select. cbn [fst snd]. rewrite Ht. cbn [fst snd]. destruct n as [|n]; [|done].
  injection Hi1 as ->. eexists. by apply running_switch.
Qed.

(** Waking moves nobody in the queue and does not touch the running task. *)
Lemma spec_wake_one_keeps i s :
  sched_ok s -> (exists r, (spec_wake_one i s).2 = s.2 ++ r) /\ running (spec_wake_one i s) = running s /\
  forall P : task -> Prop, (forall t, P t -> P (set_awake t)) ->
    (forall j t, task_table s.1 !! j = Some t -> P t) ->
    forall j t, task_table (spec_wake_one i s).1 !! j = Some t -> P t.
Proof.
  intros Hs. assert (exists r, s.2 = s.2 ++ r) by (exists []; by rewrite app_nil_r).
  unfold spec_wake_one. destruct (task_table s.1 !! i) as [t|] eqn:Ht; [|by split_and!; eauto].
  destruct (wakes _ t) eqn:Hw; [|by split_and!; eauto]. pose proof (wakes_waiting _ _ Hw) as Hst.
  split_and!; [by eexists| |].
  - unfold running. cbn [fst]. change (current_task (kupd _ _ _)) with (current_task s.1).
    destruct (current_task s.1) as [c|]; [|done]. rewrite kupd_table. case_decide as E; [|done].
    subst. rewrite Ht. cbn. by rewrite Hst.
  - intros P HP Hall j t'. cbn [fst]. rewrite kupd_table. case_decide as E; [|by apply Hall].
    subst. rewrite Ht. intros [= <-]. eauto.
Qed.

Lemma spec_wake_keeps s :
  sched_ok s -> (exists r, (spec_wake s).2 = s.2 ++ r) /\ running (spec_wake s) = running s /\
  forall P : task -> Prop, (forall t, P t -> P (set_awake t)) ->
    (forall j t, task_table s.1 !! j = Some t -> P t) ->
    forall j t, task_table (spec_wake s).1 !! j = Some t -> P t.
Proof.
  unfold spec_wake. generalize (seq 0 TASK_MAX). intros l. revert s.
  induction l as [|i l IH]; intros s Hs; [split_and!; [exists []; by rewrite app_nil_r|done|done]|].
  cbn [foldl]. destruct (spec_wake_one_keeps i s Hs) as ([r1 H1] & H2 & H3).
  destruct (IH _ (spec_wake_one_ok i s Hs)) as ([r2 H4] & H5 & H6). split_and!.
  - exists (r1 ++ r2). by rewrite H4, H1, app_assoc.
  - by rewrite H5.
  - intros P HP Hall. apply H6; [done|]. by apply H3.
Qed.

(** ** The timer interrupt *)

Definition spec_clock (s : sched (A := A)) : sched (A := A) :=
  (s.1 <| timer_ticks := u32 (timer_ticks s.1 + 1) |>, s.2).
Definition spec_irq (s : sched (A := A)) : ptr * sched (A := A) := spec_tick (spec_clock s).
Lemma spec_irq_eq s : spec_irq s = spec_tick (spec_clock s).
Proof. reflexivity. Qed.

Lemma sched_ok_clock s : sched_ok s -> sched_ok (spec_clock s).
Proof. intros Hs. apply (sched_ok_other s.1); [done|done|by destruct s]. Qed.

Lemma wp_timer_irq k s (Q : ptr -> kernel A -> Prop) :
  models k s -> (forall k', models k' (spec_irq s).2 -> Q (spec_irq s).1 k') -> wp timer_irq Q k.
Proof.
  intros [Hr Hs] HQ. unfold timer_irq. apply wp_bind. unfold timer_handle_interrupt.
  eapply (wp_repr_modify k s.1 s.2 (fun k => k <| timer_ticks := u32 (timer_ticks k + 1) |>)); [exact Hr|done..|].
  intros k1 Hr1. rewrite spec_irq_eq in HQ. apply (wp_task_tick k1 (spec_clock s)); [|exact HQ].
  split; [exact Hr1|by apply sched_ok_clock].
Qed.

(** Every task's quantum is at most [B], and its tick count stays below the limit. *)
Definition quanta_le (B : Z) s : Prop :=
  forall i t, task_table s.1 !! i = Some t -> quantum t <= B.

(** The ticks until the running task must leave. *)
Definition remaining (t : task) : Z := Z.max 1 (quantum t - ticks t).

Definition in_time (B : Z) (t : task) : Prop := 0 <= ticks t /\ ticks t + 1 < 4294967296 /\ quantum t <= B.

Lemma set_awake_quantum B t : quantum t <= B -> quantum (set_awake t) <= B.
Proof. done. Qed.

(** One interrupt: the running task is charged a tick, or the head of the queue runs. *)
Lemma spec_charge_progress B s c t n i :
  sched_ok s -> quanta_le B s -> B < 4294967296 -> running s = Some (c, t) -> in_time B t -> s.2 !! n = Some i ->
  let s' := (spec_charge s).2 in
  quanta_le B s' /\
  ((exists t', running s' = Some (c, t') /\ in_time B t' /\ remaining t' < remaining t /\ s'.2 !! n = Some i) \/
   (exists c' t', running s' = Some (c', t') /\ in_time B t' /\ remaining t = 1 /\
      match n with O => c' = i | S m => s'.2 !! m = Some i end)).
Proof.
  intros Hs HB HB32 Hrun (Ht0 & Ht1 & HtB) Hi. destruct (running_lookup _ _ _ Hrun) as (Hc & Ht & Hst).
  pose proof (running_notin _ _ _ Hs Hrun) as Hcq. cbn zeta. unfold spec_charge. rewrite Hrun.
  destruct s as [k q]. cbn [fst snd] in *. rewrite (u32_small (ticks t + 1)) by lia.
  assert (forall g, (forall x, quantum (g x) = quantum x) -> quanta_le B (kupd c g k, q)) as HBg.
  { intros g Hg j x. cbn [fst]. rewrite kupd_table. case_decide; [|by apply HB]. subst. rewrite Ht.
    intros [= <-]. by rewrite Hg. }
  destruct (Z.leb_spec (quantum t) (ticks t + 1)) as [Hle|Hlt].
  - assert (remaining t = 1) as Hrem by (unfold remaining; lia).
    unfold spec_enqueue. cbn [fst snd]. rewrite kupd_compose.
    set (k1 := kupd c (fun x => set_ready (tick_up x)) k).
    destruct q as [|j q]; [done|]. assert (c <> j) by (intros ->; apply Hcq; by left).
    destruct (table_some _ j Hs (so_range _ Hs j ltac:(by left))) as [tj Htj]. cbn [fst] in Htj.
    assert (task_table k1 !! j = Some tj) as Htj1 by (unfold k1; by rewrite kupd_table, decide_False).
    unfold spec_select. cbn [app fst snd]. rewrite Htj1. cbn [fst snd]. split.
    + assert (quanta_le B (k1, q)) as HB1 by (apply (HBg (fun x => set_ready (tick_up x))); done).
      intros j' x. cbn [fst]. change (task_table (switch_to j tj k1)) with (task_table (kupd j set_running k1)).
      rewrite kupd_table. case_decide; [|by apply HB1]. subst. rewrite Htj1. intros [= <-]. apply (HB j' tj Htj).
    + right. exists j, (set_running tj). split; [by apply running_switch|]. split.
      { split; [done|]. split; [done|]. exact (HB j tj Htj). }
      split; [exact Hrem|]. destruct n as [|n]; [by injection Hi|]. by apply lookup_app_l_Some.
  - split; [by apply HBg|]. left. exists (tick_up t). split.
    { unfold running. cbn [fst snd]. change (current_task (kupd _ _ _)) with (current_task k). rewrite Hc.
      rewrite kupd_table, decide_True, Ht by done. cbn [fmap option_fmap option_map]. by rewrite decide_True. }
    assert (ticks (tick_up t) = ticks t + 1) as Etk by exact (u32_small (ticks t + 1) ltac:(lia)).
    assert (quantum (tick_up t) = quantum t) as Eq by done.
    unfold in_time, remaining. rewrite Etk, Eq. split_and!; [lia..|done].
Qed.

Lemma spec_irq_progress B s c t n i :
  sched_ok s -> quanta_le B s -> B < 4294967296 -> running s = Some (c, t) -> in_time B t -> s.2 !! n = Some i ->
  let s' := (spec_irq s).2 in
  sched_ok s' /\ quanta_le B s' /\
  ((exists t', running s' = Some (c, t') /\ in_time B t' /\ remaining t' < remaining t /\ s'.2 !! n = Some i) \/
   (exists c' t', running s' = Some (c', t') /\ in_time B t' /\ remaining t = 1 /\
      match n with O => c' = i | S m => s'.2 !! m = Some i end)).
Proof.
  intros Hs HB HB32 Hrun Hin Hi. cbn zeta. rewrite spec_irq_eq, spec_tick_eq.
  set (s0 := spec_clock s). assert (sched_ok s0) as Hs0 by by apply sched_ok_clock.
  destruct (spec_wake_keeps s0 Hs0) as ([r Hq] & Hr & HP). pose proof (spec_wake_ok s0 Hs0) as Hs1.
  split; [by apply spec_charge_ok|]. apply (spec_charge_progress B _ c t n i); try done.
  - intros j x. revert j x. apply (HP (fun x => quantum x <= B)); [apply set_awake_quantum|exact HB].
  - rewrite Hr. exact Hrun.
  - rewrite Hq. by apply lookup_app_l_Some.
Qed.

(** The interrupts one after the other. *)
Definition spec_irqs (n : nat) (s : sched (A := A)) : sched (A := A) := Nat.iter n (fun s => (spec_irq s).2) s.

Lemma spec_irqs_S n s : spec_irqs (S n) s = spec_irqs n (spec_irq s).2.
Proof. unfold spec_irqs. by rewrite Nat.iter_succ_r. Qed.

Lemma wp_irqs n k s (Q : unit -> kernel A -> Prop) :
  models k s -> (forall k', models k' (spec_irqs n s) -> Q tt k') -> wp (repeat_op n timer_irq) Q k.
Proof.
  intros Hm HQ. apply (wp_repeat_op _ (fun m k' => models k' (spec_irqs (n - m) s))).
  - by rewrite Nat.sub_diag.
  - intros m k' Hlt Hk'. eapply wp_timer_irq; [exact Hk'|]. intros k2 Hk2.
    by replace (n - m)%nat with (S (n - S m)) by lia.
  - intros k'. rewrite Nat.sub_0_r. destruct n; apply HQ.
Qed.

(** At most [m] interrupts later the task at place [n] runs. *)
Lemma irqs_reach B m : forall s c t n i,
  sched_ok s -> quanta_le B s -> 1 <= B < 4294967296 -> running s = Some (c, t) -> in_time B t ->
  s.2 !! n = Some i -> remaining t + Z.of_nat n * B <= Z.of_nat m ->
  exists m' t', (m' <= m)%nat /\ running (spec_irqs m' s) = Some (i, t').
Proof.
  induction m as [|m IH]; intros s c t n i Hs HB HBr Hrun Hin Hi Hle.
  { exfalso. assert (1 <= remaining t) by (unfold remaining; lia). nia. }
  destruct (spec_irq_progress B s c t n i Hs HB ltac:(lia) Hrun Hin Hi) as (Hs' & HB' & Hcase).
  assert (forall c' t' n', running (spec_irq s).2 = Some (c', t') -> in_time B t' ->
    (spec_irq s).2.2 !! n' = Some i -> remaining t' + Z.of_nat n' * B <= Z.of_nat m ->
    exists m' t', (m' <= S m)%nat /\ running (spec_irqs m' s) = Some (i, t')) as Hgo.
  { intros c' t' n' H1 H2 H3 H4. destruct (IH _ c' t' n' i Hs' HB' HBr H1 H2 H3 H4) as (m' & t2 & Hm' & Ht2).
    exists (S m'), t2. split; [lia|]. by rewrite spec_irqs_S. }
  destruct Hcase as [(t' & Hrun' & Hin' & Hrem & Hi')|(c' & t' & Hrun' & Hin' & Hrem & Hi')].
  - eapply Hgo; [exact Hrun'|exact Hin'|exact Hi'|lia].
  - destruct n as [|n].
    + subst c'. exists 1%nat, t'. split; [lia|exact Hrun'].
    + eapply Hgo; [exact Hrun'|exact Hin'|exact Hi'|]. unfold remaining in *. destruct Hin'. lia.
Qed.

(** The same for calls of the scheduler. *)
Definition spec_schedules (n : nat) (s : sched (A := A)) : sched (A := A) :=
  Nat.iter n (fun s => (spec_schedule s).2) s.

Lemma wp_schedules n k s (Q : unit -> kernel A -> Prop) :
  models k s -> (forall k', models k' (spec_schedules n s) -> Q tt k') -> wp (repeat_op n task_schedule) Q k.
Proof.
  intros Hm HQ. apply (wp_repeat_op _ (fun m k' => models k' (spec_schedules (n - m) s))).
  - by rewrite Nat.sub_diag.
  - intros m k' Hlt Hk'. eapply wp_task_schedule; [exact Hk'|]. intros k2 Hk2.
    by replace (n - m)%nat with (S (n - S m)) by lia.
  - intros k'. rewrite Nat.sub_0_r. destruct n; apply HQ.
Qed.

Lemma schedules_reach n : forall s i,
  sched_ok s -> s.2 !! n = Some i -> exists t, running (spec_schedules (S n) s) = Some (i, t).
Proof.
  induction n as [|n IH]; intros s i Hs Hi; pose proof (spec_schedule_queue s _ i Hs Hi) as H; [exact H|].
  assert (sched_ok (spec_schedule s).2) as Hs' by (by apply spec_select_ok, spec_requeue_ok).
  destruct (IH _ i Hs' H) as [t Ht]. exists t. unfold spec_schedules in *. by rewrite Nat.iter_succ_r.
Qed.

(** The running task of a kernel. *)
Definition runs k (i : nat) : Prop :=
  current_task k = Some i /\ exists t, task_table k !! i = Some t /\ state t = TASK_RUNNING.

Lemma models_runs k s i t : models k s -> running s = Some (i, t) -> runs k i.
Proof.
  intros Hm (Hc & Ht & Hst)%running_lookup. split; [by rewrite (models_current _ _ Hm)|].
  destruct (repr_table_inv _ _ _ _ _ (proj1 Hm) Ht) as (x & Hx & ->). by exists x.
Qed.
End fair.

(** ** A kernel with three tasks *)

Definition blank_task : task :=
  mkTask 0 TASK_UNUSED TASK_TYPE_KERNEL 0 0 0 0 0 0 0 0 0 0 [] 0 0 0 [] 0 0 None None None 0 0 0 0
    zero_context None None.
Definition demo_task (n : Z) (st : task_state) (nx pv : ptr) : task :=
  blank_task <| pid := n |> <| state := st |> <| quantum := 5 |> <| next := nx |> <| prev := pv |>.

(** Task 0 runs, tasks 1 and 2 are ready, task 3 sleeps until tick 2. *)
Definition demo_kernel : kernel pmm :=
  mkKernel demo_vm
    ([demo_task 1 TASK_RUNNING None None; demo_task 2 TASK_READY (Some 2%nat) None;
      demo_task 3 TASK_READY None (Some 1%nat); (demo_task 4 TASK_WAITING None None) <| wake_tick := 2 |>] ++
     replicate 12 blank_task)
    (Some 0%nat) (Some 1%nat) (Some 2%nat) 5 (replicate 16 false) 0 0 0.

Definition demo_sched : sched := (forget demo_kernel, [1; 2]%nat).

Lemma demo_models : models demo_kernel demo_sched.
Proof.
  split; [split; [done|]; split|].
  - done.
  - done.
  - by apply (bool_decide_unpack _).
  - intros [|[|[|n]]] i Hi; try done; injection Hi as <-; by eexists.
  - split; [done| |by apply (bool_decide_unpack _)| |by intros c [= <-]; apply (bool_decide_unpack _)].
    + intros i t Ht. do 16 (destruct i as [|i];
        [injection Ht as <-; by apply (bool_decide_unpack _)|]). done.
    + intros i Hi. unfold TASK_MAX. cbn in Hi. rewrite !list.elem_of_cons in Hi. destruct Hi as [->|[->|[]%list.elem_of_nil]]; lia.
Qed.

(** ** The theorems *)

(** C3: In a kernel whose ready list is a queue, [task_schedule] and [task_yield]
    do what the abstract scheduler does: a running task goes to the tail of the
    queue, the head runs (its context is answered, the TSS and CR3 are its own) and
    the doubly linked list is again exactly the queue. *)
Theorem task_schedule_refines A (HA : FrameAllocator A) (k : kernel A) s :
  models k s ->
  wp task_schedule (fun r k' => r = (spec_schedule s).1 /\ models k' (spec_schedule s).2) k /\
  wp task_yield (fun r k' => r = (spec_schedule s).1 /\ models k' (spec_schedule s).2) k.
Proof. intros Hm. split; by eapply wp_task_schedule. Qed.

Lemma task_schedule_refines_witness :
  wp task_schedule (fun r k' => r = Some 1%nat /\ models k' (spec_schedule demo_sched).2) demo_kernel /\
  wp task_yield (fun r k' => r = Some 1%nat /\ models k' (spec_schedule demo_sched).2) demo_kernel.
Proof. exact (task_schedule_refines pmm _ demo_kernel demo_sched demo_models). Defined.

(** C10: [task_tick] does what the abstract tick does: sleepers whose time has come
    join the queue in the order of the table, the running task is charged a tick,
    and at its quantum it goes to the tail and the head of the queue runs. *)
Theorem task_tick_refines A (HA : FrameAllocator A) (k : kernel A) s :
  models k s -> wp task_tick (fun r k' => r = (spec_tick s).1 /\ models k' (spec_tick s).2) k.
Proof. intros Hm. by eapply wp_task_tick. Qed.

Lemma task_tick_refines_witness :
  wp task_tick (fun r k' => r = None /\ models k' (spec_tick demo_sched).2) demo_kernel.
Proof. exact (task_tick_refines pmm _ demo_kernel demo_sched demo_models). Defined.

(** Round robin: the task at place [n] of the ready list runs after [n + 1]
    calls of [task_schedule]. *)
Theorem task_schedule_round_robin A (HA : FrameAllocator A) (k : kernel A) s n i :
  models k s -> s.2 !! n = Some i -> wp (repeat_op (S n) task_schedule) (fun _ k' => runs k' i) k.
Proof.
  intros Hm Hi. destruct (schedules_reach n s i (proj2 Hm) Hi) as [t Ht].
  eapply wp_schedules; [exact Hm|]. intros k' Hk'. by eapply models_runs.
Qed.

Lemma task_schedule_round_robin_witness :
  wp (repeat_op 2 task_schedule) (fun _ k' => runs k' 2) demo_kernel.
Proof. by apply (task_schedule_round_robin pmm _ demo_kernel demo_sched 1 2 demo_models). Defined.

(** C22: Preemption: when no quantum exceeds [B] and a task runs, the task at
    place [n] of the ready list runs after at most [(n + 1) * B] timer interrupts,
    whatever sleepers wake meanwhile and although nobody yields. *)
Theorem timer_irq_fair A (HA : FrameAllocator A) (k : kernel A) s B c t n i :
  models k s -> quanta_le B s -> 1 <= B < 4294967296 -> running s = Some (c, t) ->
  0 <= ticks t < 4294967295 -> s.2 !! n = Some i ->
  exists m, Z.of_nat m <= Z.of_nat (S n) * B /\ wp (repeat_op m timer_irq) (fun _ k' => runs k' i) k.
Proof.
  intros Hm HB HBr Hrun Ht Hi. destruct (running_lookup _ _ _ Hrun) as (_ & Htt & _).
  pose proof (HB _ _ Htt) as Hq.
  destruct (irqs_reach B (Z.to_nat (Z.of_nat (S n) * B)) s c t n i (proj2 Hm) HB HBr Hrun) as (m & t' & Hle & Hr').
  - split; [lia|]. split; [lia|done].
  - exact Hi.
  - unfold remaining. nia.
  - exists m. split; [nia|]. eapply wp_irqs; [exact Hm|]. intros k' Hk'. by eapply models_runs.
Qed.

Lemma timer_irq_fair_witness :
  exists m, Z.of_nat m <= 10 /\ wp (repeat_op m timer_irq) (fun _ k' => runs k' 2) demo_kernel.
Proof.
  apply (timer_irq_fair pmm _ demo_kernel demo_sched 5 0 (demo_task 1 TASK_RUNNING None None) 1 2 demo_models);
    [|done|reflexivity|done|reflexivity].
  intros i x Hx. do 16 (destruct i as [|i]; [injection Hx as <-; by compute|]). done.
Defined.
