(* ===== verification/SchedLife.v ===== *)
(** * Creation and termination of tasks

    [task_init], [task_alloc], [task_create], [task_set_current], [task_terminate]
    and [task_exit] against the abstract scheduler: which entry, pid and kernel stack
    a new task gets, that no two live tasks share a stack, and whom a dying task wakes. *)

From stdpp Require Import base list gmap numbers option tactics.
From S2P Require Import Prelude PhysMem Pmm Vmm Task Sched SchedSpec SchedFair.

Section life.
Context {A : Type} `{!FrameAllocator A}.
Implicit Types k : kernel A.
Implicit Types s : sched (A := A).

(** ** Kernel stacks *)

Definition slot_base (n : Z) : Z := KERNEL_STACK_REGION_START + n * KERNEL_STACK_SIZE.

Lemma stack_slot_count : task_stack_slot_count = 16.
Proof. reflexivity. Qed.

(** A task that has a kernel stack owns a slot, alone. *)
Definition stacks_ok k : Prop :=
  length (task_stack_slots k) = TASK_MAX /\
  forall i t, task_table k !! i = Some t -> stack_base t <> 0 ->
    exists n, 0 <= n < 16 /\ stack_base t = slot_base n /\ stack_top t = slot_base (n + 1) /\
      arr_get (task_stack_slots k) n = Some true /\
      forall j t', task_table k !! j = Some t' -> stack_base t' = stack_base t -> j = i.

Definition set_stack (n : Z) (x : task) : task :=
  x <| stack_base := u32 (slot_base n) |> <| stack_top := u32 (u32 (slot_base n) + KERNEL_STACK_SIZE) |>
    <| stack_size := KERNEL_STACK_SIZE |>.

(** The first free slot. *)
Definition free_slot (l : list bool) : option nat := fst <$> list_find (fun b => b = false) l.

Lemma free_slot_Some l n :
  free_slot l = Some n -> l !! n = Some false /\ forall m, (m < n)%nat -> l !! m = Some true.
Proof.
  unfold free_slot. destruct (list_find _ l) as [[n' b]|] eqn:E; [|done]. intros [= ->].
  apply list_find_Some in E as (Hn & -> & Hm). split; [done|]. intros m Hlt.
  destruct (lookup_lt_is_Some_2 l m) as [b Hb]; [apply lookup_lt_Some in Hn; lia|].
  rewrite Hb. specialize (Hm m b Hb Hlt). by destruct b.
Qed.

Lemma free_slot_None l m b : free_slot l = None -> l !! m = Some b -> b = true.
Proof.
  unfold free_slot. destruct (list_find _ l) eqn:E; [done|]. intros _ Hm.
  apply list_find_None in E. rewrite list.Forall_lookup in E. specialize (E m b Hm). by destruct b.
Qed.

Lemma wp_allocate_stack k k0 q i t0 (Q : bool -> kernel A -> Prop) :
  repr k k0 q -> task_table k0 !! i = Some t0 -> length (task_stack_slots k0) = TASK_MAX ->
  match free_slot (task_stack_slots k0) with
  | Some n => forall k', repr k' (kupd i (set_stack (Z.of_nat n)) k0
                <| task_stack_slots := <[n := true]> (task_stack_slots k0) |>) q -> Q true k'
  | None => Q false k
  end ->
  wp (task_allocate_stack (Some i)) Q k.
Proof.
  intros Hr Ht Hl HQ. assert (task_stack_slots k = task_stack_slots k0) as Es by exact (f_equal task_stack_slots (proj1 Hr)).
  unfold task_allocate_stack. rewrite stack_slot_count. apply wp_bind.
  apply (wp_for (fun j _ k' => k' = k /\ forall m, (m < Z.to_nat j)%nat -> task_stack_slots k0 !! m = Some true)).
  - split; [done|]. intros m Hm. lia.
  - intros j [] k' Hj [-> Hm]. unfold TASK_MAX in Hl.
    destruct (lookup_lt_is_Some_2 (task_stack_slots k0) (Z.to_nat j)) as [b Hb]; [lia|].
    apply wp_bind. unfold get_slot. apply wp_bind, wp_get. eapply wp_some_or_trap.
    { unfold arr_get. by rewrite Es, (proj2 (Z.leb_le 0 j)), Hb by lia. }
    destruct b.
    + apply wp_ret. split; [done|]. intros m Hlt.
      destruct (decide (m = Z.to_nat j)) as [->|]; [done|]. apply Hm. lia.
    + destruct (free_slot (task_stack_slots k0)) as [n|] eqn:Ef.
      2: { by discriminate (free_slot_None _ _ _ Ef Hb). }
      apply free_slot_Some in Ef as [Hn Hnm]. assert (n = Z.to_nat j) as ->.
      { destruct (lt_eq_lt_dec n (Z.to_nat j)) as [[?|]|?]; [|done|].
        - rewrite Hm in Hn by done. done.
        - rewrite Hnm in Hb by done. done. }
      unfold set_slot. apply wp_bind, wp_bind, wp_get, wp_bind. eapply wp_some_or_trap.
      { rewrite Es. apply arr_set_Some. lia. }
      apply wp_put. apply wp_bind.
      assert (repr (k <| task_stack_slots := <[Z.to_nat j := true]> (task_stack_slots k0) |>)
        (k0 <| task_stack_slots := <[Z.to_nat j := true]> (task_stack_slots k0) |>) q) as Hr1.
      { pose proof (repr_modify k k0 q (fun k => k <| task_stack_slots := <[Z.to_nat j := true]> (task_stack_slots k0) |>)
          Hr eq_refl eq_refl eq_refl eq_refl) as H. exact H. }
      eapply wp_repr_upd; [exact Hr1|exact Ht|by apply linkless_field|]. intros k2 Hr2.
      apply wp_ret, wp_ret, HQ. rewrite Z2Nat.id by lia. exact Hr2.
  - intros [] k' [-> Hm]. apply wp_ret. destruct (free_slot _) as [n|] eqn:Ef; [|done].
    apply free_slot_Some in Ef as [Hn _]. pose proof (lookup_lt_Some _ _ _ Hn). unfold TASK_MAX in Hl.
    rewrite Hm in Hn by lia. done.
Qed.

(** ** [task_alloc] *)

(** The fields [task_alloc] sets before it looks for a stack. *)
Definition reset_task (n kpdt : Z) (x : task) : task :=
  mkTask n TASK_READY TASK_TYPE_KERNEL TASK_QUANTUM_DEFAULT 0 0 0 0 0 0 0 0 0
    (replicate MAX_USER_CODE_PAGES 0) USER_HEAP_START 0 0 (replicate MAX_USER_HEAP_PAGES 0) kpdt
    0 None None None (-1) (waiting_status x) 0 0 zero_context None None.
Definition set_unused (x : task) : task := x <| state := TASK_UNUSED |>.

(** The first unused entry. *)
Definition unused_entry (l : list task) : option nat :=
  fst <$> list_find (fun x => state x = TASK_UNUSED) l.

Lemma unused_entry_Some l i :
  unused_entry l = Some i <-> exists t, l !! i = Some t /\ state t = TASK_UNUSED /\
    forall j t', (j < i)%nat -> l !! j = Some t' -> state t' <> TASK_UNUSED.
Proof.
  unfold unused_entry. split.
  - destruct (list_find _ l) as [[i' t]|] eqn:E; [|done]. intros [= ->].
    apply list_find_Some in E as (Ht & Hu & Hj). exists t. split_and!; [done..|]. intros j t' Hlt Ht'. by eapply Hj.
  - intros (t & Ht & Hu & Hj).
    assert (list_find (fun x => state x = TASK_UNUSED) l = Some (i, t)) as ->; [|done].
    apply list_find_Some. split_and!; [done..|]. intros j t' Ht' Hlt. by eapply Hj.
Qed.

Lemma unused_entry_None l : unused_entry l = None <-> forall j t, l !! j = Some t -> state t <> TASK_UNUSED.
Proof.
  unfold unused_entry. split.
  - destruct (list_find _ l) eqn:E; [done|]. intros _. apply list_find_None in E. by apply list.Forall_lookup.
  - intros H. assert (list_find (fun x => state x = TASK_UNUSED) l = None) as ->; [|done].
    by apply list_find_None, list.Forall_lookup.
Qed.

(** The pid is used up and the entry [i] reset. *)
Definition spec_reset (i : nat) k : kernel A :=
  kupd i (reset_task (next_pid k) (kernel_pdt_phys (kvm k))) k <| next_pid := u32 (next_pid k + 1) |>.

Definition spec_alloc (s : sched (A := A)) : ptr * sched (A := A) :=
  match unused_entry (task_table s.1) with
  | None => (None, s)
  | Some i =>
      match free_slot (task_stack_slots s.1) with
      | Some n => (Some i, (kupd i (set_stack (Z.of_nat n)) (spec_reset i s.1)
                              <| task_stack_slots := <[n := true]> (task_stack_slots s.1) |>, s.2))
      | None => (None, (kupd i set_unused (spec_reset i s.1), s.2))
      end
  end.

(** An update of an entry outside the queue, links included. *)
Lemma wp_repr_upd_out k k0 q i t0 g (Q : unit -> kernel A -> Prop) :
  repr k k0 q -> task_table k0 !! i = Some t0 -> i ∉ q -> (forall t, strip (g t) = g (strip t)) ->
  (forall k', repr k' (kupd i g k0) q -> Q tt k') -> wp (upd_task (Some i) g) Q k.
Proof.
  intros Hr Ht Hi Hg HQ. destruct (repr_table_inv _ _ _ _ _ Hr Ht) as (t & Htk & ->).
  destruct Hr as [<- [Hh Htl Hnd Hnode]]. eapply wp_upd_task; [exact Htk|]. apply HQ. split.
  - apply forget_kupd; [done|]. change (task_table (k <| task_table := ?l |>)) with l.
    rewrite list_fmap_insert, Hg. symmetry. apply alter_insert_list. by rewrite list_lookup_fmap, Htk.
  - split; [done|done|done|]. intros n j Hn. destruct (Hnode n j Hn) as (x & Hx & Hl).
    exists x. split; [|exact Hl]. change (task_table (k <| task_table := ?l |>)) with l.
    rewrite list_lookup_insert_ne; [done|]. intros ->. by apply Hi, list_elem_of_lookup; eauto.
Qed.

Lemma wp_kernel_pdt k k0 q (Q : Z -> kernel A -> Prop) :
  repr k k0 q -> Q (kernel_pdt_phys (kvm k0)) k -> wp (in_vm vmm_get_kernel_pdt_phys) Q k.
Proof.
  intros Hr HQ. apply wp_in_vm_gets. by rewrite (f_equal kvm (proj1 Hr : forget k = k0) : kvm k = kvm k0).
Qed.

Lemma wp_task_alloc k s (Q : ptr -> kernel A -> Prop) :
  models k s -> length (task_stack_slots s.1) = TASK_MAX ->
  (forall k', repr k' (spec_alloc s).2.1 (spec_alloc s).2.2 -> Q (spec_alloc s).1 k') -> wp task_alloc Q k.
Proof.
  intros [Hr Hs] Hsl HQ. unfold task_alloc, spec_alloc in *. destruct s as [k0 q]. cbn [fst snd] in *.
  apply wp_bind.
  apply (wp_for (fun j _ k' => k' = k /\ forall m t, (m < Z.to_nat j)%nat -> task_table k0 !! m = Some t ->
    state t <> TASK_UNUSED)); [split; [done|lia]| |].
  2: { intros [] k' [-> Hm]. apply wp_ret.
       assert (unused_entry (task_table k0) = None) as Hu.
       { apply unused_entry_None. intros j t Ht. apply (Hm j t); [|done]. apply lookup_lt_Some in Ht.
         pose proof (so_length _ Hs) as Hl. cbn [fst] in Hl. lia. }
       rewrite Hu in HQ. by apply HQ. }
  intros j [] k' Hj [-> Hm]. cbv zeta.
  destruct (table_some _ (Z.to_nat j) Hs ltac:(lia)) as [t0 Ht0]. cbn [fst] in Ht0.
  apply wp_bind. eapply wp_repr_get; [exact Hr|exact Ht0|]. intros t ->.
  destruct (decide (state t = TASK_UNUSED)) as [E|E].
  2: { apply wp_ret. split; [done|]. intros m x Hlt Hx. destruct (decide (m = Z.to_nat j)) as [->|].
       - by assert (x = strip t) as -> by congruence.
       - apply (Hm m x); [lia|done]. }
  assert (unused_entry (task_table k0) = Some (Z.to_nat j)) as Hu.
  { apply unused_entry_Some. exists (strip t). split_and!; [done..|]. intros m x Hlt Hx. by apply (Hm m x). }
  rewrite Hu in HQ. clear Hu Hm. set (i := Z.to_nat j) in *. clearbody i.
  assert (i ∉ q) as Hi by (eapply not_ready_notin; [exact Hs|exact Ht0|change (state t <> TASK_READY); by rewrite E]).
  apply wp_bind, wp_gets. assert (next_pid k = next_pid k0) as -> by exact (f_equal next_pid (proj1 Hr)).
  apply wp_bind. eapply (wp_repr_modify k k0 q (fun k => k <| next_pid := u32 (next_pid k0 + 1) |>)); [exact Hr|done..|].
  intros k1 Hr1. apply wp_bind. eapply wp_repr_upd_out; [exact Hr1|exact Ht0|done|done|]. intros k2 Hr2.
  apply wp_bind. unfold task_init_user_heap_fields.
  eapply wp_repr_upd_out; [exact Hr2|by eapply kupd_some|done|done|]. intros k3 Hr3.
  apply wp_bind. unfold task_init_process_fields.
  eapply wp_repr_upd_out; [exact Hr3|by do 2 eapply kupd_some|done|done|]. intros k4 Hr4.
  apply wp_bind. eapply wp_kernel_pdt; [exact Hr4|].
  apply wp_bind. eapply wp_repr_upd_out; [exact Hr4|by do 3 eapply kupd_some|done|done|].
  intros k5 Hr5. rewrite !kupd_compose in Hr5.
  rewrite (kupd_ext i _ (reset_task (next_pid k0) (kernel_pdt_phys (kvm k0)))) in Hr5 by done.
  change (kupd i ?g (k0 <| next_pid := ?n |>)) with (spec_reset i k0) in Hr5.
  assert (exists t1, task_table (spec_reset i k0) !! i = Some t1) as [t1 Ht1].
  { eexists. by eapply kupd_some. }
  apply wp_bind. eapply wp_allocate_stack; [exact Hr5|exact Ht1|exact Hsl|].
  change (task_stack_slots (spec_reset i k0)) with (task_stack_slots k0).
  destruct (free_slot (task_stack_slots k0)) as [n|].
  - intros k6 Hr6. apply wp_ret, wp_ret, HQ, Hr6.
  - apply wp_bind. eapply wp_repr_upd; [exact Hr5|exact Ht1|by apply linkless_field|].
    intros k6 Hr6. apply wp_ret, wp_ret, HQ, Hr6.
Qed.

(** ** [task_create] *)

Definition kernel_context (entry top : Z) : task_context :=
  mkContext 0 0 0 (u32 (top - 32)) 0 0 0 0 entry KERNEL_CODE_SEG KERNEL_DATA_SEG 0x202.

Definition start_task (entry : Z) (x : task) : task :=
  x <| type := TASK_TYPE_KERNEL |> <| state := TASK_READY |> <| ticks := 0 |>
    <| quantum := TASK_QUANTUM_DEFAULT |> <| context := kernel_context entry (stack_top x) |>.

Definition spec_create (entry : Z) (s : sched (A := A)) : ptr * sched (A := A) :=
  match spec_alloc s with
  | (Some i, s') => (Some i, (kupd i (start_task entry) s'.1, s'.2 ++ [i]))
  | (None, s') => (None, s')
  end.

(** The entry a new task gets is outside the queue. *)
Lemma unused_notin s i :
  sched_ok s -> unused_entry (task_table s.1) = Some i ->
  (i < TASK_MAX)%nat /\ (i ∉ s.2) /\ is_Some (task_table s.1 !! i).
Proof.
  intros Hs (t & Ht & Hu & _)%unused_entry_Some. split; [|split; [|done]].
  - rewrite <- (so_length _ Hs). by eapply lookup_lt_Some.
  - destruct s. eapply not_ready_notin; [exact Hs|exact Ht|by rewrite Hu].
Qed.

Lemma spec_create_ok entry s : sched_ok s -> sched_ok (spec_create entry s).2.
Proof.
  intros Hs. unfold spec_create, spec_alloc. destruct (unused_entry (task_table s.1)) as [i|] eqn:Hu; [|done].
  destruct (unused_notin _ _ Hs Hu) as (Hi & Hn & _). destruct s as [k q]. cbn [fst snd] in *.
  destruct (free_slot (task_stack_slots k)) as [n|]; cbn [fst snd].
  - set (R := reset_task (next_pid k) (kernel_pdt_phys (kvm k))).
    apply (sched_ok_other (kupd i (fun x => start_task entry (set_stack (Z.of_nat n) (R x))) k));
      [|done|by apply enqueue_ok].
    rewrite <- (kupd_compose i (start_task entry) (fun x => set_stack (Z.of_nat n) (R x))).
    by rewrite <- (kupd_compose i (set_stack (Z.of_nat n)) R).
  - set (R := reset_task (next_pid k) (kernel_pdt_phys (kvm k))).
    apply (sched_ok_other (kupd i (fun x => set_unused (R x)) k)); [|done|].
    + by rewrite <- (kupd_compose i set_unused R).
    + eapply sched_ok_kupd; [exact Hs|apply (so_nodup _ Hs)|apply (so_range _ Hs)|done|]. by intros t _.
Qed.

Lemma wp_task_create entry k s (Q : ptr -> kernel A -> Prop) :
  models k s -> length (task_stack_slots s.1) = TASK_MAX ->
  (forall k', models k' (spec_create entry s).2 -> Q (spec_create entry s).1 k') -> wp (task_create entry) Q k.
Proof.
  intros Hm Hsl HQ. pose proof (spec_create_ok entry s (proj2 Hm)) as Hok.
  unfold task_create. apply wp_bind. eapply wp_task_alloc; [exact Hm|exact Hsl|]. intros k1 Hr1.
  unfold spec_create in *. destruct (spec_alloc s) as [[i|] s1] eqn:Ea; cbn [fst snd] in *.
  2: { apply wp_ret, HQ. by split. }
  assert (unused_entry (task_table s.1) = Some i /\ s1.2 = s.2 /\ is_Some (task_table s1.1 !! i)) as (Hu & Hq & [t0 Ht0]).
  { unfold spec_alloc in Ea. destruct (unused_entry (task_table s.1)) as [i'|] eqn:Hu; [|done].
    destruct (free_slot _); [|done]. injection Ea as -> <-. split; [done|]. split; [done|].
    destruct (unused_notin _ _ (proj2 Hm) Hu) as (_ & _ & [t Ht]). eexists. by do 2 eapply kupd_some. }
  destruct (unused_notin _ _ (proj2 Hm) Hu) as (Hi & Hn & _). rewrite <- Hq in Hn.
  apply wp_bind. eapply wp_repr_upd; [exact Hr1|exact Ht0|by apply linkless_field|]. intros k2 Hr2.
  apply wp_bind. unfold task_create_context.
  eapply wp_repr_upd_out; [exact Hr2|by eapply kupd_some|done|reflexivity|]. intros k3 Hr3.
  apply wp_bind. eapply wp_task_enqueue; [exact Hr3|by do 2 eapply kupd_some|done|]. intros k4 Hr4.
  apply wp_ret, HQ. rewrite !kupd_compose in Hr4.
  rewrite (kupd_ext i _ (start_task entry)) in Hr4 by done. by split.
Qed.

(** ** The stacks of two tasks never overlap *)

Lemma stacks_ok_forget k k0 q : repr k k0 q -> stacks_ok k <-> stacks_ok k0.
Proof.
  intros Hr. assert (task_stack_slots k = task_stack_slots k0) as Es by exact (f_equal task_stack_slots (proj1 Hr)).
  unfold stacks_ok. rewrite Es. f_equiv. split; intros H i t Ht Hb.
  - destruct (repr_table_inv _ _ _ _ _ Hr Ht) as (x & Hx & ->).
    destruct (H i x Hx Hb) as (n & Hn & H1 & H2 & H3 & H4). exists n. split_and!; [lia..|done|done|done|].
    intros j t' Ht' E. destruct (repr_table_inv _ _ _ _ _ Hr Ht') as (x' & Hx' & ->). by apply (H4 j x').
  - destruct (H i (strip t) ltac:(by eapply repr_table) Hb) as (n & Hn & H1 & H2 & H3 & H4).
    exists n. split_and!; [lia..|done|done|done|]. intros j t' Ht' E. apply (H4 j (strip t')); [by eapply repr_table|done].
Qed.

Lemma slot_base_small n : 0 <= n <= 16 -> u32 (slot_base n) = slot_base n /\
  u32 (u32 (slot_base n) + KERNEL_STACK_SIZE) = slot_base (n + 1).
Proof.
  intros Hn. unfold slot_base, KERNEL_STACK_REGION_START, KERNEL_STACK_SIZE.
  rewrite !u32_small; rewrite ?u32_small; lia.
Qed.

(** A fresh stack in a free slot keeps the stacks apart. *)
Lemma stacks_ok_fresh k k' i n :
  stacks_ok k -> arr_get (task_stack_slots k) n = Some false ->
  (forall j, j <> i -> stack_base <$> task_table k' !! j = stack_base <$> task_table k !! j) ->
  (forall j, j <> i -> stack_top <$> task_table k' !! j = stack_top <$> task_table k !! j) ->
  (forall t, task_table k' !! i = Some t -> stack_base t = slot_base n /\ stack_top t = slot_base (n + 1)) ->
  arr_set (task_stack_slots k) n true = Some (task_stack_slots k') -> stacks_ok k'.
Proof.
  intros [Hl Hok] Hfree Hb Htop Hi Hset. pose proof (arr_get_range _ _ _ Hfree) as Hn. unfold TASK_MAX in Hl.
  split; [by rewrite (arr_set_length _ _ _ _ Hset)|].
  assert (forall j t, j <> i -> task_table k' !! j = Some t -> exists t0, task_table k !! j = Some t0 /\
    stack_base t = stack_base t0 /\ stack_top t = stack_top t0) as Hold.
  { intros j t Hne Ht. specialize (Hb j Hne). specialize (Htop j Hne). rewrite Ht in *.
    destruct (task_table k !! j) as [t0|]; [|done]. injection Hb. injection Htop. eauto. }
  assert (forall j t, j <> i -> task_table k' !! j = Some t -> stack_base t <> slot_base n) as Hfresh.
  { intros j t Hne Ht E. destruct (Hold j t Hne Ht) as (t0 & Ht0 & E1 & _).
    destruct (Hok j t0 Ht0) as (n' & Hn' & E2 & _ & Hu & _).
    { rewrite <- E1, E. unfold slot_base, KERNEL_STACK_REGION_START, KERNEL_STACK_SIZE. lia. }
    assert (n' = n) as -> by (unfold slot_base, KERNEL_STACK_SIZE in *; lia). by rewrite Hfree in Hu. }
  intros j t Ht Hnz. destruct (decide (j = i)) as [->|Hne].
  - destruct (Hi t Ht) as [E1 E2]. exists n. split_and!; [lia..|done|done|by eapply arr_get_set_eq|].
    intros j' t' Ht' E. destruct (decide (j' = i)); [done|]. exfalso. apply (Hfresh j' t'); [done..|congruence].
  - destruct (Hold j t Hne Ht) as (t0 & Ht0 & E1 & E2). rewrite E1 in Hnz.
    destruct (Hok j t0 Ht0 Hnz) as (n' & Hn' & E3 & E4 & Hu & Huniq).
    exists n'. split_and!; [lia..|congruence|congruence| |].
    + rewrite (arr_get_set_ne _ _ _ _ _ Hset); [done|]. intros ->. by rewrite Hfree in Hu.
    + intros j' t' Ht' E. destruct (decide (j' = i)) as [->|Hne'].
      * exfalso. apply (Hfresh j t Hne Ht). destruct (Hi t' Ht'). congruence.
      * destruct (Hold j' t' Hne' Ht') as (t1 & Ht1 & E5 & _). apply (Huniq j' t1 Ht1). congruence.
Qed.

Lemma spec_create_stacks entry s : stacks_ok s.1 -> stacks_ok (spec_create entry s).2.1.
Proof.
  intros Hok. unfold spec_create, spec_alloc. destruct (unused_entry (task_table s.1)) as [i|] eqn:Hu; [|done].
  destruct s as [k q]. cbn [fst snd] in *.
  destruct (free_slot (task_stack_slots k)) as [n|] eqn:Ef; cbn [fst snd].
  - apply free_slot_Some in Ef as [Hn _]. pose proof (lookup_lt_Some _ _ _ Hn) as Hlt.
    pose proof (proj1 Hok) as Hl. unfold TASK_MAX in Hl. destruct (slot_base_small (Z.of_nat n) ltac:(lia)) as [E1 E2].
    assert (forall k2, k2 = kupd i (start_task entry) (kupd i (set_stack (Z.of_nat n)) (spec_reset i k)
      <| task_stack_slots := <[n := true]> (task_stack_slots k) |>) ->
      forall j, j <> i -> task_table k2 !! j = task_table k !! j) as Hother.
    { intros k2 -> j Hj. etransitivity; [exact (kupd_ne i _ _ j Hj)|].
      etransitivity; [exact (kupd_ne i _ (spec_reset i k) j Hj)|]. exact (kupd_ne i _ k j Hj). }
    apply (stacks_ok_fresh k _ i (Z.of_nat n)); [done| | | | |].
    + unfold arr_get. by rewrite (proj2 (Z.leb_le 0 _)), Nat2Z.id by lia.
    + intros j Hj. f_equal. by apply Hother.
    + intros j Hj. f_equal. by apply Hother.
    + apply unused_entry_Some in Hu as (t0 & Ht0 & _). intros t Ht.
      assert (Some t = Some (start_task entry (set_stack (Z.of_nat n) (reset_task (next_pid k) (kernel_pdt_phys (kvm k)) t0)))) as [= ->].
      { rewrite <- Ht. by do 3 eapply kupd_some. }
      by split.
    + rewrite arr_set_Some by lia. by rewrite Nat2Z.id.
  - apply unused_entry_Some in Hu as (t0 & Ht0 & _). 
    set (G := fun x => set_unused (reset_task (next_pid k) (kernel_pdt_phys (kvm k)) x)).
    assert (stacks_ok (kupd i G k)) as H; [|].
    2: { unfold G in H. rewrite <- (kupd_compose i set_unused (reset_task _ _)) in H. exact H. }
    destruct Hok as [Hl Hok]. split; [done|]. change (task_stack_slots (kupd i G k)) with (task_stack_slots k).
    assert (forall j t, task_table (kupd i G k) !! j = Some t -> stack_base t <> 0 -> j <> i /\ task_table k !! j = Some t) as Hj.
    { intros j t. rewrite kupd_table. case_decide as E; [|by intros]. subst. rewrite Ht0. by intros [= <-] []. }
    intros j t Ht Hnz. destruct (Hj j t Ht Hnz) as [Hne Ht1]. destruct (Hok j t Ht1 Hnz) as (n & ? & ? & ? & ? & Huniq).
    exists n. split_and!; [lia..|done|done|done|]. intros j' t' Ht' E.
    apply (Huniq j' t'); [|done]. apply Hj; [done|]. congruence.
Qed.

(** The addresses of a kernel stack. *)
Definition in_stack (t : task) (a : Z) : Prop := stack_base t <= a < stack_top t.

Lemma stacks_ok_disjoint k i j ti tj a :
  stacks_ok k -> task_table k !! i = Some ti -> task_table k !! j = Some tj -> i <> j ->
  stack_base ti <> 0 -> stack_base tj <> 0 -> in_stack ti a ->
  ~ in_stack tj a /\ KERNEL_STACK_REGION_START <= a <= KERNEL_STACK_REGION_END.
Proof.
  intros [_ Hok] Hi Hj Hne Hbi Hbj Ha.
  destruct (Hok i ti Hi Hbi) as (n & Hn & E1 & E2 & _ & Hu). destruct (Hok j tj Hj Hbj) as (m & Hm & E3 & E4 & _ & _).
  assert (n <> m) by (intros ->; apply Hne; symmetry; apply (Hu j tj Hj); congruence).
  unfold in_stack, slot_base, KERNEL_STACK_REGION_START, KERNEL_STACK_REGION_END, KERNEL_STACK_SIZE in *. lia.
Qed.

(** ** [task_init] *)

(** Only the entry [i] may have changed, and no stack slot was taken. *)
Record touches (i : nat) k k' : Prop := {
  tc_table : length (task_table k') = length (task_table k);
  tc_slots : length (task_stack_slots k') = length (task_stack_slots k);
  tc_other : forall m, m <> i -> task_table k' !! m = task_table k !! m;
  tc_free : forall m, task_stack_slots k !! m = Some false -> task_stack_slots k' !! m = Some false;
  tc_kvm : kvm k' = kvm k;
}.

#[export] Instance touches_preorder i : PreOrder (touches i).
Proof.
  split; [by split|]. intros k1 k2 k3 [H1 H2 H3 H4 H5] [I1 I2 I3 I4 I5].
  split; [congruence|congruence| |by auto|congruence]. intros m Hm. by rewrite I3, H3.
Qed.

Lemma wp_upd_entry i k t g (Q : unit -> kernel A -> Prop) :
  task_table k !! i = Some t ->
  (forall k', touches i k k' -> task_stack_slots k' = task_stack_slots k -> task_table k' !! i = Some (g t) -> Q tt k') ->
  wp (upd_task (Some i) g) Q k.
Proof.
  intros Ht HQ. pose proof (lookup_lt_Some _ _ _ Ht) as Hlt. eapply wp_upd_task; [exact Ht|].
  apply HQ; [|done|by apply list_lookup_insert_eq]. split; [apply length_insert|done| |done|done].
  intros m Hm. by apply list_lookup_insert_ne.
Qed.

Lemma wp_free_slot i k j (Q : unit -> kernel A -> Prop) :
  0 <= j < Z.of_nat (length (task_stack_slots k)) ->
  (forall k', touches i k k' -> task_table k' = task_table k -> task_stack_slots k' !! Z.to_nat j = Some false -> Q tt k') ->
  wp (set_slot j false) Q k.
Proof.
  intros Hj HQ. unfold set_slot. apply wp_bind, wp_get, wp_bind.
  eapply wp_some_or_trap; [by apply arr_set_Some|]. apply wp_put.
  apply HQ; [|done|apply list_lookup_insert_eq; lia]. split; [done|apply length_insert|done| |done].
  intros m Hm. change (task_stack_slots _) with (<[Z.to_nat j := false]> (task_stack_slots k)).
  destruct (decide (m = Z.to_nat j)) as [->|Hne]; [apply list_lookup_insert_eq; lia|by rewrite list_lookup_insert_ne].
Qed.

Lemma wp_free_stack i k t (Q : unit -> kernel A -> Prop) :
  task_table k !! i = Some t -> length (task_stack_slots k) = TASK_MAX ->
  (forall k', touches i k k' -> Q tt k') -> wp (task_free_stack (Some i)) Q k.
Proof.
  intros Ht Hs HQ. unfold task_free_stack. apply wp_bind. eapply wp_get_task; [exact Ht|].
  destruct (stack_base t =? 0); [by apply wp_ret, HQ|]. cbv zeta. apply wp_bind. rewrite stack_slot_count.
  apply (wp_mono _ (fun _ k' => touches i k k' /\ task_table k' !! i = Some t)).
  - destruct (Z.ltb_spec (u32 (stack_base t - KERNEL_STACK_REGION_START) / KERNEL_STACK_SIZE) 16).
    + apply (wp_free_slot i); [rewrite Hs; split; [apply Z.div_pos; [apply u32_range|done]|done]|].
      intros k' Hk' E _. by rewrite E.
    + by apply wp_ret.
  - intros [] k1 [Hk1 Ht1]. eapply wp_upd_entry; [exact Ht1|]. intros k2 Hk2 _ _. apply HQ. by etransitivity.
Qed.

(** What the loop of [task_init] has done to the first [j] entries of [k0]. *)
Record cleared k0 (j : Z) k : Prop := {
  cl_table : length (task_table k) = TASK_MAX;
  cl_slots : length (task_stack_slots k) = TASK_MAX;
  cl_kvm : kvm k = kvm k0;
  cl_entry : forall i t, (i < Z.to_nat j)%nat -> task_table k !! i = Some t -> state t = TASK_UNUSED /\ stack_base t = 0;
  cl_free : forall i, (i < Z.to_nat j)%nat -> task_stack_slots k !! i = Some false;
}.

Lemma cleared_next k0 j k k' t :
  0 <= j -> cleared k0 j k -> touches (Z.to_nat j) k k' ->
  task_table k' !! Z.to_nat j = Some t -> state t = TASK_UNUSED -> stack_base t = 0 ->
  task_stack_slots k' !! Z.to_nat j = Some false -> cleared k0 (j + 1) k'.
Proof.
  intros Hj [H1 H2 H3 H4 H5] [I1 I2 I3 I4 I5] Ht Hst Hb Hf. split; [congruence|congruence|congruence| |].
  - intros i x Hi Hx. destruct (decide (i = Z.to_nat j)) as [->|Hne].
    + by replace x with t by congruence.
    + rewrite I3 in Hx by done. by apply (H4 i x); [lia|].
  - intros i Hi. destruct (decide (i = Z.to_nat j)) as [->|Hne]; [done|]. apply I4, H5. lia.
Qed.

(** An empty table is a scheduler with nothing to run. *)
Lemma idle_models k :
  length (task_table k) = TASK_MAX -> (forall i t, task_table k !! i = Some t -> state t = TASK_UNUSED) ->
  ready_list_head k = None -> ready_list_tail k = None -> current_task k = None -> models k (forget k, []).
Proof.
  intros Hl Hu Hh Ht Hc. split; [split; [done|]; split; [done|done|constructor|done]|].
  split; [by change (length (strip <$> task_table k) = TASK_MAX); rewrite length_fmap| |constructor|
    by intros i ?%list.elem_of_nil|by change (forall c, current_task k = Some c -> (c < TASK_MAX)%nat); rewrite Hc].
  intros i t. cbn [fst snd]. rewrite forget_table, list_lookup_fmap. intros Hi.
  destruct (task_table k !! i) as [x|] eqn:Ex; [|done]. injection Hi as <-. change (state (strip x)) with (state x).
  rewrite (Hu i x Ex). split; [done|by intros ?%list.elem_of_nil].
Qed.

Lemma wp_task_init k (Q : unit -> kernel A -> Prop) :
  length (task_table k) = TASK_MAX -> length (task_stack_slots k) = TASK_MAX ->
  (forall k', models k' (forget k', []) -> stacks_ok k' -> next_pid k' = 1 -> current_task k' = None ->
     (forall i t, task_table k' !! i = Some t -> state t = TASK_UNUSED) ->
     task_stack_slots k' = replicate TASK_MAX false -> kvm k' = kvm k -> Q tt k') ->
  wp task_init Q k.
Proof.
  intros Hl Hsl HQ. unfold task_init. apply wp_bind. apply (wp_for_each (cleared k)).
  - by split; try done; lia.
  - intros j k1 Hj Hc. cbv zeta. pose proof (cl_table _ _ _ Hc) as Hl1. pose proof (cl_slots _ _ _ Hc) as Hs1.
    unfold TASK_MAX in Hj, Hl1. destruct (lookup_lt_is_Some_2 (task_table k1) (Z.to_nat j)) as [t Ht]; [lia|].
    apply wp_bind. eapply wp_free_stack; [exact Ht|exact Hs1|]. intros k2 H2.
    destruct (lookup_lt_is_Some_2 (task_table k2) (Z.to_nat j)) as [t2 Ht2]; [rewrite (tc_table _ _ _ H2); lia|].
    apply wp_bind. eapply wp_upd_entry; [exact Ht2|]. intros k3 H3 _ Ht3.
    apply wp_bind. unfold task_init_process_fields. eapply wp_upd_entry; [exact Ht3|]. intros k4 H4 _ Ht4.
    apply wp_bind. eapply wp_upd_entry; [exact Ht4|]. intros k5 H5 _ Ht5.
    assert (touches (Z.to_nat j) k1 k5) as H15 by (do 3 (etransitivity; [eassumption|]); done).
    apply (wp_free_slot (Z.to_nat j)); [rewrite (tc_slots _ _ _ H15), Hs1; unfold TASK_MAX; lia|].
    intros k6 H6 E6 Hf. rewrite <- E6 in Ht5. eapply cleared_next; [lia|exact Hc|by etransitivity|exact Ht5|done|done|done].
  - intros k1 [Hl1 Hs1 Hv Hu Hf]. apply wp_modify. set (k2 := _ <| next_pid := 1 |>).
    assert (forall i t, task_table k2 !! i = Some t -> state t = TASK_UNUSED /\ stack_base t = 0) as Hu2.
    { intros i t Ht. apply (Hu i t); [|exact Ht]. apply lookup_lt_Some in Ht.
      change (task_table k2) with (task_table k1) in Ht. rewrite Hl1 in Ht. unfold TASK_MAX in *. lia. }
    apply HQ; [|split; [done|intros i t Ht Hb; exfalso; by apply Hb, (Hu2 i t)]|done|done|by apply Hu2| |done].
    + apply idle_models; try done. intros i t Ht. by apply (Hu2 i t).
    + change (task_stack_slots k2) with (task_stack_slots k1). apply list_eq. intros i.
      destruct (decide (i < TASK_MAX)%nat) as [Hi|Hi].
      * rewrite (Hf i) by (unfold TASK_MAX in *; lia). by rewrite lookup_replicate_2.
      * by rewrite !(proj2 (lookup_ge_None _ _)) by (rewrite ?Hs1, ?length_replicate; lia).
Qed.
End life.

(** ** The theorems *)

(** [task_init] establishes the invariant of the scheduler from any tables of
    the right size: every entry is unused, the ready list is empty, no task has a
    stack and every stack slot is free, no task is current, the first pid is 1, and
    the memory of the machine is as it was. *)
Theorem task_init_establishes A (HA : FrameAllocator A) (k : kernel A) :
  length (task_table k) = TASK_MAX -> length (task_stack_slots k) = TASK_MAX ->
  wp task_init (fun _ k' => models k' (forget k', []) /\ stacks_ok k' /\ next_pid k' = 1 /\
    current_task k' = None /\ (forall i t, task_table k' !! i = Some t -> state t = TASK_UNUSED) /\
    task_stack_slots k' = replicate TASK_MAX false /\ kvm k' = kvm k) k.
Proof. intros Hl Hs. by apply wp_task_init. Qed.

Lemma task_init_establishes_witness :
  wp task_init (fun _ k' => models k' (forget k', []) /\ stacks_ok k' /\ next_pid k' = 1 /\
    current_task k' = None /\ (forall i t, task_table k' !! i = Some t -> state t = TASK_UNUSED) /\
    task_stack_slots k' = replicate TASK_MAX false /\ kvm k' = kvm demo_kernel) demo_kernel.
Proof. by apply (task_init_establishes pmm _ demo_kernel). Defined.

(** C11: [task_create] does what the abstract creation does: the lowest unused
    entry becomes a kernel task with the next pid, the lowest free stack and a fresh
    context at the entry point, ready at the tail of the queue; without an unused
    entry nothing changes, and without a free stack only the pid is used up. *)
Theorem task_create_refines A (HA : FrameAllocator A) (k : kernel A) s entry :
  models k s -> length (task_stack_slots s.1) = TASK_MAX ->
  wp (task_create entry) (fun r k' => r = (spec_create entry s).1 /\ models k' (spec_create entry s).2) k.
Proof. intros Hm Hl. by eapply wp_task_create. Qed.

Lemma task_create_refines_witness :
  wp (task_create 0xC0101000) (fun r k' => r = Some 4%nat /\ models k' (spec_create 0xC0101000 demo_sched).2)
    demo_kernel.
Proof. exact (task_create_refines pmm _ demo_kernel demo_sched 0xC0101000 demo_models eq_refl). Defined.

(** C24: Creating a task keeps the kernel stacks apart: afterwards an address lies
    in the stack of at most one task, and inside the region the memory map reserves
    for kernel stacks. *)
Theorem task_create_stacks_disjoint A (HA : FrameAllocator A) (k : kernel A) s entry :
  models k s -> stacks_ok k ->
  wp (task_create entry) (fun _ k' => stacks_ok k' /\ forall i j ti tj a,
    task_table k' !! i = Some ti -> task_table k' !! j = Some tj -> i <> j ->
    stack_base ti <> 0 -> stack_base tj <> 0 -> in_stack ti a ->
    ~ in_stack tj a /\ KERNEL_STACK_REGION_START <= a <= KERNEL_STACK_REGION_END) k.
Proof.
  intros Hm Hok. pose proof (proj1 (stacks_ok_forget _ _ _ (proj1 Hm)) Hok) as Hok0.
  eapply wp_task_create; [exact Hm|apply Hok0|]. intros k' Hm'.
  assert (stacks_ok k') as Hk' by (by apply (stacks_ok_forget _ _ _ (proj1 Hm')), spec_create_stacks).
  split; [done|]. intros i j ti tj a. by apply stacks_ok_disjoint.
Qed.

Lemma demo_stacks_ok : stacks_ok demo_kernel.
Proof.
  split; [done|]. intros i t Ht Hb. exfalso. apply Hb. clear Hb.
  do 16 (destruct i as [|i]; [by injection Ht as <-|]). done.
Qed.

Lemma task_create_stacks_disjoint_witness :
  wp (task_create 0xC0101000) (fun _ k' => stacks_ok k' /\ forall i j ti tj a,
    task_table k' !! i = Some ti -> task_table k' !! j = Some tj -> i <> j ->
    stack_base ti <> 0 -> stack_base tj <> 0 -> in_stack ti a ->
    ~ in_stack tj a /\ KERNEL_STACK_REGION_START <= a <= KERNEL_STACK_REGION_END) demo_kernel.
Proof.
  exact (task_create_stacks_disjoint pmm _ demo_kernel demo_sched 0xC0101000 demo_models demo_stacks_ok).
Defined.
