(* ===== verification/SchedExit.v ===== *)
(** * Exit of a task and explicit switches

    [task_terminate], [task_exit] and [task_set_current] against the abstract
    scheduler: whom a dying task wakes and what that parent receives, that a zombie
    stays one however often the timer fires, and what a forced switch does. *)

From stdpp Require Import base list gmap numbers option tactics.
From S2P Require Import Prelude PhysMem Pmm Vmm Task Sched SchedSpec SchedFair SchedLife.

Section exit.
Context {A : Type} `{!FrameAllocator A}.
Implicit Types k : kernel A.
Implicit Types s : sched (A := A).

(** ** [task_terminate] *)

Definition zombify (status : Z) (x : task) : task := x <| exit_status := status |> <| state := TASK_ZOMBIE |>.

(** The parent after its wait: ready, with the pid of the child as its answer. *)
Definition wake_parent (child_pid : Z) (x : task) : task :=
  x <| context := (context x) <| eax := child_pid |> |> <| waiting_status := 0 |> <| state := TASK_READY |>
    <| waiting_for_pid := 0 |>.

(** The machine after the status was stored for the parent [p] of [c]. *)
Definition delivered (p c : task) (v v' : vm A) : Prop := deliver_status p c v = Ret (tt, v').

(** The abstract step, as a relation because of the store to the parent's memory. *)
Inductive spec_terminate (status : Z) : sched (A := A) -> sched (A := A) -> Prop :=
  | term_orphan k q c t :
      running (k, q) = Some (c, t) -> parent t = None ->
      spec_terminate status (k, q) (kupd c (zombify status) k, q)
  | term_silent k q c t p tp :
      running (k, q) = Some (c, t) -> parent t = Some p ->
      task_table (kupd c (zombify status) k) !! p = Some tp -> waits_for tp t = false ->
      spec_terminate status (k, q) (kupd c (zombify status) k, q)
  | term_wake k q c t p tp v' :
      running (k, q) = Some (c, t) -> parent t = Some p ->
      task_table (kupd c (zombify status) k) !! p = Some tp -> waits_for tp t = true ->
      delivered tp (zombify status t) (kvm k) v' ->
      spec_terminate status (k, q)
        (kupd p (wake_parent (pid t)) (kupd c (zombify status) k <| kvm := v' |>), q ++ [p]).

Lemma waits_for_waiting p c : waits_for p c = true -> state p = TASK_WAITING.
Proof. unfold waits_for. by rewrite andb_true_iff, bool_decide_eq_true; intros [? _]. Qed.

Lemma zombify_ok status k q c t :
  sched_ok (k, q) -> running (k, q) = Some (c, t) -> sched_ok (kupd c (zombify status) k, q).
Proof.
  intros Hs Hr. eapply sched_ok_kupd; [exact Hs|apply (so_nodup _ Hs)|apply (so_range _ Hs)|done|].
  intros x _. pose proof (running_notin _ _ _ Hs Hr). by split.
Qed.

Lemma spec_terminate_ok status s s' : sched_ok s -> spec_terminate status s s' -> sched_ok s'.
Proof.
  intros Hs Ht. destruct Ht as [k q c t Hr _|k q c t p tp Hr _ _ _|k q c t p tp v' Hr Hp Htp Hw Hd];
    [by eapply zombify_ok..|].
  pose proof (zombify_ok status _ _ _ _ Hs Hr) as Hs1.
  assert (sched_ok (kupd p (wake_parent (pid t)) (kupd c (zombify status) k), q ++ [p])) as H.
  { apply enqueue_ok; [done| | |done].
    - rewrite <- (so_length _ Hs1). by eapply lookup_lt_Some.
    - eapply not_ready_notin; [exact Hs1|exact Htp|]. by rewrite (waits_for_waiting _ _ Hw). }
  by eapply sched_ok_other; [| |exact H].
Qed.

Lemma deliver_status_strip p p' c c' (v : vm A) :
  strip p = strip p' -> strip c = strip c' -> deliver_status p c v = deliver_status p' c' v.
Proof.
  intros Hp Hc. assert (deliver_status p c = deliver_status (strip p) (strip c) (A := A)) as -> by done.
  by rewrite Hp, Hc.
Qed.

Lemma wp_task_terminate status k s s' (Q : unit -> kernel A -> Prop) :
  models k s -> spec_terminate status s s' -> (forall k', models k' s' -> Q tt k') ->
  wp (task_terminate status) Q k.
Proof.
  intros Hm Ht HQ. pose proof (spec_terminate_ok _ _ _ (proj2 Hm) Ht) as Hok.
  assert (forall k', repr k' s'.1 s'.2 -> Q tt k') as HQ' by (intros k' Hk'; apply HQ; by split).
  clear HQ. unfold task_terminate. apply wp_bind, wp_gets. rewrite (models_current _ _ Hm).
  destruct Hm as [Hr Hs].
  assert (exists k0 q c t, s = (k0, q) /\ running (k0, q) = Some (c, t)) as (k0 & q & c & t & -> & Hrun)
    by (destruct Ht; do 4 eexists; eauto).
  destruct (running_lookup _ _ _ Hrun) as (Hc & Htc & Hst). cbn [fst snd] in *. rewrite Hc.
  apply wp_bind. eapply wp_repr_upd; [exact Hr|exact Htc|by apply linkless_field|]. intros k1 Hr1.
  fold (zombify status) in Hr1.
  assert (task_table (kupd c (zombify status) k0) !! c = Some (zombify status t)) as Htz by (by eapply kupd_some).
  apply wp_bind. eapply wp_repr_get; [exact Hr1|exact Htz|]. intros x Ex.
  assert (parent x = parent t) as -> by exact (eq_sym (f_equal parent Ex)).
  assert (pid x = pid t) as Epid by exact (eq_sym (f_equal pid Ex)).
  inversion Ht as [k' q' c' t' Hrun' Hpar|k' q' c' t' p tp Hrun' Hpar Htp Hw|k' q' c' t' p tp v' Hrun' Hpar Htp Hw Hd];
    subst; rewrite Hrun in Hrun'; injection Hrun' as <- <-; rewrite Hpar.
  - by apply wp_ret, HQ'.
  - apply wp_bind. eapply wp_repr_get; [exact Hr1|exact Htp|]. intros y ->.
    assert (waits_for y x = waits_for (strip y) t) as -> by (unfold waits_for; by rewrite Epid).
    rewrite Hw. by apply wp_ret, HQ'.
  - apply wp_bind. eapply wp_repr_get; [exact Hr1|exact Htp|]. intros y ->.
    assert (waits_for y x = waits_for (strip y) t) as -> by (unfold waits_for; by rewrite Epid).
    rewrite Hw. apply wp_bind. unfold in_vm. apply wp_zoom.
    assert (kvm k1 = kvm k0) as -> by exact (f_equal kvm (proj1 Hr1)).
    unfold delivered in Hd. rewrite (deliver_status_strip (strip y) y _ x) in Hd by (done || by rewrite Ex).
    unfold wp. rewrite Hd.
    pose proof (repr_modify k1 _ q (fun k => k <| kvm := v' |>) Hr1 eq_refl eq_refl eq_refl eq_refl) as Hr2.
    cbv beta in Hr2. rewrite Epid.
    assert (p ∉ q) as Hn.
    { eapply not_ready_notin; [eapply zombify_ok; [exact Hs|exact Hrun]|exact Htp|].
      by rewrite (waits_for_waiting _ _ Hw). }
    apply wp_bind. eapply wp_repr_upd; [exact Hr2|exact Htp|by apply linkless_field|]. intros k3 Hr3.
    apply wp_bind. eapply wp_repr_upd; [exact Hr3|by eapply kupd_some|by apply linkless_field|]. intros k4 Hr4.
    eapply wp_task_enqueue; [exact Hr4|by do 2 eapply kupd_some|done|]. intros k5 Hr5.
    rewrite !kupd_compose in Hr5. rewrite (kupd_ext p _ (wake_parent (pid t))) in Hr5 by done. by apply HQ'.
Qed.

(** Without an address for the status nothing is stored. *)
Lemma delivered_nowhere p c (v : vm A) :
  waiting_status p = 0 ->
  delivered p c v (set_tlb ∅ (set_cr3 (vm_cr3 v) (set_tlb ∅ (set_cr3 (page_directory_phys p) v)))).
Proof. intros H. unfold delivered, deliver_status. by rewrite H. Qed.

Lemma wp_task_exit status k s s' (Q : ptr -> kernel A -> Prop) :
  models k s -> spec_terminate status s s' ->
  (forall k', models k' (spec_schedule s').2 -> Q (spec_schedule s').1 k') -> wp (task_exit status) Q k.
Proof.
  intros Hm Ht HQ. unfold task_exit. apply wp_bind. eapply wp_task_terminate; [exact Hm|exact Ht|].
  intros k1 Hm1. by eapply wp_task_schedule.
Qed.

(** ** A zombie stays a zombie *)

Definition zombie s (c : nat) : Prop := exists t, task_table s.1 !! c = Some t /\ state t = TASK_ZOMBIE.

Lemma zombie_kupd k q q' i g c : zombie (k, q) c -> i <> c -> zombie (kupd i g k, q') c.
Proof. intros (t & Ht & Hz) Hne. exists t. split; [|done]. etransitivity; [by apply kupd_ne, not_eq_sym|done]. Qed.

Lemma zombie_ne s i c t : zombie s c -> task_table s.1 !! i = Some t -> state t <> TASK_ZOMBIE -> i <> c.
Proof. intros (z & Hz & Hst) Ht Hne ->. by assert (t = z) as -> by congruence. Qed.

Lemma zombie_select s c : sched_ok s -> zombie s c -> zombie (spec_select s).2 c.
Proof.
  intros Hs Hz. unfold spec_select. destruct s as [k q]. cbn [fst snd]. destruct q as [|i q]; [done|].
  destruct (task_table k !! i) as [t|] eqn:Ht; [|done]. cbn [snd].
  assert (state t = TASK_READY) as Hst by (apply (so_ready _ Hs i t Ht); by left).
  destruct (zombie_kupd k (i :: q) q i set_running c Hz) as (z & Hzt & Hzs); [|by exists z].
  by eapply zombie_ne; [exact Hz|exact Ht|rewrite Hst].
Qed.

Lemma zombie_requeue s c : zombie s c -> zombie (spec_requeue s) c.
Proof.
  intros Hz. unfold spec_requeue. destruct (running s) as [[i t]|] eqn:E; [|done].
  destruct (running_lookup _ _ _ E) as (_ & Ht & Hst). destruct s as [k q].
  apply (zombie_kupd k q); [done|]. by eapply zombie_ne; [exact Hz|exact Ht|rewrite Hst].
Qed.

Lemma zombie_wake s c : zombie s c -> zombie (spec_wake s) c.
Proof.
  unfold spec_wake. generalize (seq 0 TASK_MAX). intros l. revert s.
  induction l as [|i l IH]; intros s Hz; [done|]. apply IH. unfold spec_wake_one.
  destruct (task_table s.1 !! i) as [t|] eqn:Ht; [|done]. destruct (wakes _ t) eqn:Hw; [|done].
  destruct s as [k q]. apply (zombie_kupd k q); [done|].
  eapply zombie_ne; [exact Hz|exact Ht|]. by rewrite (wakes_waiting _ _ Hw).
Qed.

Lemma zombie_charge s c : sched_ok s -> zombie s c -> zombie (spec_charge s).2 c.
Proof.
  intros Hs Hz. unfold spec_charge. destruct (running s) as [[i t]|] eqn:E; [|done].
  destruct (running_lookup _ _ _ E) as (Hc & Ht & Hst). pose proof (running_notin _ _ _ Hs E) as Hn.
  destruct s as [k q]. cbn [fst snd] in *.
  assert (i <> c) as Hne by (by eapply zombie_ne; [exact Hz|exact Ht|rewrite Hst]).
  pose proof (zombie_kupd k q q i tick_up c Hz Hne) as Hz1. case_match; [|done].
  apply zombie_select; [|by apply (zombie_kupd _ q)].
  apply enqueue_ok; [by eapply tick_up_ok|by apply (so_current _ Hs)|done|done].
Qed.

Lemma zombie_irqs n s c : sched_ok s -> zombie s c -> zombie (spec_irqs n s) c.
Proof.
  revert s. induction n as [|n IH]; intros s Hs Hz; [done|]. rewrite spec_irqs_S.
  assert (sched_ok (spec_clock s)) as Hs1 by by apply sched_ok_clock.
  assert (zombie (spec_clock s) c) as Hz1 by (by destruct s).
  rewrite spec_irq_eq, spec_tick_eq. apply IH.
  - by apply spec_charge_ok, spec_wake_ok.
  - apply zombie_charge; [by apply spec_wake_ok|by apply zombie_wake].
Qed.

Lemma zombie_schedules n s c : sched_ok s -> zombie s c -> zombie (spec_schedules n s) c.
Proof.
  revert s. induction n as [|n IH]; intros s Hs Hz; [done|]. unfold spec_schedules. rewrite Nat.iter_succ_r.
  pose proof (spec_requeue_ok _ Hs). apply IH; [by apply spec_select_ok|].
  by apply zombie_select, zombie_requeue.
Qed.

Lemma models_zombie k s c :
  models k s -> zombie s c -> exists t, task_table k !! c = Some t /\ state t = TASK_ZOMBIE.
Proof.
  intros [Hr _] (t & Ht & Hz). destruct (repr_table_inv _ _ _ _ _ Hr Ht) as (x & Hx & ->). by exists x.
Qed.

(** ** [task_set_current] *)

Definition spec_set_current (p : ptr) (s : sched (A := A)) : sched (A := A) :=
  if decide (p = current_task s.1) then s
  else
    match p with
    | None => (s.1 <| current_task := None |>
                 <| kvm := set_tlb ∅ (set_cr3 (kernel_pdt_phys (kvm s.1)) (kvm s.1)) |>, s.2)
    | Some i =>
        match task_table s.1 !! i with
        | Some t => (switch_to i t s.1, filter (fun j => j <> i) s.2)
        | None => s
        end
    end.

Lemma filter_notin (q : list nat) i : i ∉ q -> filter (fun j => j <> i) q = q.
Proof.
  induction q as [|j q IH]; [done|]. intros [Hj Hi]%list.not_elem_of_cons.
  rewrite filter_cons_True by done. by rewrite IH.
Qed.

Lemma delete_filter (q : list nat) n i :
  NoDup q -> q !! n = Some i -> delete n q = filter (fun j => j <> i) q.
Proof.
  revert n. induction q as [|j q IH]; intros n Hnd Hn; [done|].
  apply list.NoDup_cons in Hnd as [Hj Hnd]. destruct n as [|n].
  - injection Hn as ->. rewrite filter_cons_False by tauto. cbn.
    by rewrite filter_notin.
  - rewrite filter_cons_True; [cbn; f_equal; by apply IH|].
    intros ->. apply Hj, list_elem_of_lookup. by exists n.
Qed.

Lemma spec_set_current_ok p s :
  sched_ok s -> (forall i, p = Some i -> (i < TASK_MAX)%nat) -> sched_ok (spec_set_current p s).
Proof.
  intros Hs Hp. unfold spec_set_current. case_decide; [done|]. destruct s as [k q]. cbn [fst snd].
  destruct p as [i|].
  - destruct (table_some _ i Hs (Hp i eq_refl)) as [t Ht]. cbn [fst] in Ht. rewrite Ht.
    assert (sched_ok (kupd i set_running k, filter (fun j => j <> i) q)) as [H1 H2 H3 H4 H5].
    { eapply sched_ok_kupd; [exact Hs|by apply list.NoDup_filter, (so_nodup _ Hs)| | |].
      - intros j [_ Hj]%list_elem_of_filter. by apply (so_range _ Hs).
      - intros j Hj. rewrite list_elem_of_filter. tauto.
      - intros x _. rewrite list_elem_of_filter. cbn. split; [done|tauto]. }
    split; [exact H1|exact H2|exact H3|exact H4|]. intros c [= <-]. by apply Hp.
  - destruct Hs as [H1 H2 H3 H4 H5]. by split.
Qed.

Lemma wp_task_set_current p k s (Q : unit -> kernel A -> Prop) :
  models k s -> (forall i, p = Some i -> (i < TASK_MAX)%nat) ->
  (forall k', models k' (spec_set_current p s) -> Q tt k') -> wp (task_set_current p) Q k.
Proof.
  intros Hm Hp HQ. pose proof (spec_set_current_ok p s (proj2 Hm) Hp) as Hok.
  assert (forall k', repr k' (spec_set_current p s).1 (spec_set_current p s).2 -> Q tt k') as HQ'
    by (intros k' Hk'; apply HQ; by split). clear HQ Hok.
  unfold task_set_current. apply wp_bind, wp_gets. rewrite (models_current _ _ Hm).
  unfold spec_set_current in HQ'. case_decide as E; [by apply wp_ret, HQ', Hm|clear E].
  destruct Hm as [Hr Hs]. destruct s as [k0 q]. cbn [fst snd] in *. destruct p as [i|].
  - destruct (table_some _ i Hs (Hp i eq_refl)) as [t0 Ht0]. cbn [fst] in Ht0. rewrite Ht0 in HQ'. cbn [fst snd] in HQ'.
    apply wp_bind, wp_bind. eapply wp_repr_get; [exact Hr|exact Ht0|]. intros t ->.
    apply (wp_mono _ (fun _ k1 => repr k1 k0 (filter (fun j => j <> i) q))).
    { destruct (decide (state t = TASK_READY)) as [E|E].
      - apply (so_ready _ Hs i _ Ht0) in E as E'. apply list_elem_of_lookup in E' as [n Hn]. cbn [snd] in Hn.
        eapply wp_task_remove; [exact Hr|exact Hn|]. intros k1 Hr1.
        by rewrite (delete_filter q n i (so_nodup _ Hs) Hn) in Hr1.
      - apply wp_ret. rewrite filter_notin; [exact Hr|]. by eapply not_ready_notin. }
    intros [] k1 Hr1. apply wp_bind.
    eapply (wp_repr_modify k1 k0 _ (fun k => k <| current_task := Some i |>)); [exact Hr1|done..|].
    intros k2 Hr2. apply wp_bind, wp_bind.
    eapply wp_repr_upd; [exact Hr2|exact Ht0|by apply linkless_field|]. intros k3 Hr3.
    eapply wp_repr_upd; [exact Hr3|by eapply kupd_some|by apply linkless_field|]. intros k4 Hr4.
    rewrite kupd_compose, (kupd_ext i _ set_running) in Hr4 by done.
    eapply (wp_switch k4 (kupd i set_running k0)); [exact Hr4|by eapply kupd_some|exact HQ'].
  - apply wp_bind, wp_ret, wp_bind.
    eapply (wp_repr_modify k k0 q (fun k => k <| current_task := None |>)); [exact Hr|done..|].
    intros k1 Hr1. apply wp_bind, wp_ret, wp_bind. unfold task_update_tss. apply wp_bind, wp_gets.
    assert (current_task k1 = None) as -> by exact (f_equal current_task (proj1 Hr1)).
    apply wp_ret. eapply wp_load_current_cr3; [exact Hr1|done|exact HQ'].
Qed.
End exit.

(** ** The theorems *)



(** C25: A zombie never runs again: after any number of timer interrupts, and after
    any number of calls of the scheduler, it is still a zombie. *)
Theorem zombie_never_runs A (HA : FrameAllocator A) (k : kernel A) s c n :
  models k s -> zombie s c ->
  wp (repeat_op n timer_irq) (fun _ k' => ~ runs k' c /\
    exists t, task_table k' !! c = Some t /\ state t = TASK_ZOMBIE) k /\
  wp (repeat_op n task_schedule) (fun _ k' => ~ runs k' c /\
    exists t, task_table k' !! c = Some t /\ state t = TASK_ZOMBIE) k.
Proof.
  intros Hm Hz.
  assert (forall k' : kernel A, (exists t, task_table k' !! c = Some t /\ state t = TASK_ZOMBIE) ->
    ~ runs k' c /\ exists t, task_table k' !! c = Some t /\ state t = TASK_ZOMBIE) as Hno.
  { intros k' (t & Ht & Hst). split; [|by exists t]. intros (_ & t' & Ht' & Hst'). congruence. }
  destruct Hm as [Hr Hs]. split.
  - apply (wp_irqs n k s); [by split|]. intros k' Hk'. refine (Hno k' _).
    apply (models_zombie _ _ _ Hk'). by apply zombie_irqs.
  - apply (wp_schedules n k s); [by split|]. intros k' Hk'. refine (Hno k' _).
    apply (models_zombie _ _ _ Hk'). by apply zombie_schedules.
Qed.

Definition demo_dead : kernel pmm := kupd 3 (zombify 0) demo_kernel.

Lemma demo_dead_models : models demo_dead (kupd 3 (zombify 0) demo_sched.1, [1; 2]%nat).
Proof.
  split.
  - split; [apply (forget_kupd demo_kernel); [by repeat split|by vm_compute]|]. split; [done|done|by apply (bool_decide_unpack _)|].
    intros [|[|n]] i Hi; try done; injection Hi as <-; by eexists.
  - eapply (sched_ok_kupd 3 _ demo_sched.1 [1; 2]%nat); [apply demo_models|apply (so_nodup _ (proj2 demo_models))|
      apply (so_range _ (proj2 demo_models))|done|]. intros t Ht. split; [done|].
    intros H. by apply (bool_decide_pack _) in H.
Qed.

Lemma zombie_never_runs_witness :
  wp (repeat_op 40 timer_irq) (fun _ k' => ~ runs k' 3 /\
    exists t, task_table k' !! 3%nat = Some t /\ state t = TASK_ZOMBIE) demo_dead /\
  wp (repeat_op 40 task_schedule) (fun _ k' => ~ runs k' 3 /\
    exists t, task_table k' !! 3%nat = Some t /\ state t = TASK_ZOMBIE) demo_dead.
Proof. apply (zombie_never_runs pmm _ demo_dead _ 3 40 demo_dead_models). by eexists. Defined.

(** [task_set_current] takes the new task out of the ready list and makes it
    the running one, TSS and address space included; with no task the kernel's own
    address space is loaded.  The task that ran before keeps its state. *)
Theorem task_set_current_refines A (HA : FrameAllocator A) (k : kernel A) s p :
  models k s -> (forall i, p = Some i -> (i < TASK_MAX)%nat) ->
  wp (task_set_current p) (fun _ k' => models k' (spec_set_current p s)) k.
Proof. intros Hm Hp. by eapply wp_task_set_current. Qed.

Lemma task_set_current_refines_witness :
  wp (task_set_current (Some 2%nat)) (fun _ k' => models k' (spec_set_current (Some 2%nat) demo_sched)) demo_kernel.
Proof.
  apply (task_set_current_refines pmm _ demo_kernel demo_sched (Some 2%nat) demo_models).
  intros i [= <-]. by apply (bool_decide_unpack _).
Defined.
