(* ===== verification/Elf.v ===== *)
(** * The ELF loader ([kernel/elf_loader.c], [kernel/elf_loader.h])

    The file is a list of bytes; a read outside it traps.  The headers are records
    decoded from the packed structures of the file.  Segments are copied and
    relocated through the kernel's temporary page, on the machine of [Vmm]. *)

From stdpp Require Import base list gmap numbers option tactics.
From Stdlib Require Import Lia ZArith.
From S2P Require Import Prelude PhysMem Pmm Vmm Task.

Definition ELF_TEMP_PAGE : Z := 0xC0800000.
Definition ELF_MAGIC0 : Z := 0x7F.
Definition ELF_MAGIC1 : Z := 69.
Definition ELF_MAGIC2 : Z := 76.
Definition ELF_MAGIC3 : Z := 70.
Definition ELFCLASS32 : Z := 1.
Definition ELFDATA2LSB : Z := 1.
Definition EV_CURRENT : Z := 1.
Definition ET_EXEC : Z := 2.
Definition EM_386 : Z := 3.
Definition PT_LOAD : Z := 1.
Definition PF_W : Z := 0x2.
Definition SHT_SYMTAB : Z := 2.
Definition SHT_STRTAB : Z := 3.
Definition SHT_REL : Z := 9.
Definition SHF_ALLOC : Z := 0x2.
Definition R_386_32 : Z := 1.
Definition R_386_PC32 : Z := 2.
Definition SHN_UNDEF : Z := 0.
Definition SHN_ABS : Z := 0xFFF1.

(** ** The packed structures *)

Record Elf32_Ehdr := mkEhdr {
  e_ident : list Z; e_type : Z; e_machine : Z; e_version : Z; e_entry : Z; e_phoff : Z; e_shoff : Z;
  e_flags : Z; e_ehsize : Z; e_phentsize : Z; e_phnum : Z; e_shentsize : Z; e_shnum : Z; e_shstrndx : Z;
}.
Record Elf32_Phdr := mkPhdr {
  p_type : Z; p_offset : Z; p_vaddr : Z; p_paddr : Z; p_filesz : Z; p_memsz : Z; p_flags : Z; p_align : Z;
}.
Record Elf32_Shdr := mkShdr {
  sh_name : Z; sh_type : Z; sh_flags : Z; sh_addr : Z; sh_offset : Z; sh_size : Z; sh_link : Z; sh_info : Z;
  sh_addralign : Z; sh_entsize : Z;
}.
Record Elf32_Sym := mkSym {
  st_name : Z; st_value : Z; st_size : Z; st_info : Z; st_other : Z; st_shndx : Z;
}.
Record Elf32_Rel := mkRel { r_offset : Z; r_info : Z }.

Definition sizeof_Ehdr : Z := 52.
Definition sizeof_Phdr : Z := 32.
Definition sizeof_Shdr : Z := 40.
Definition sizeof_Sym : Z := 16.
Definition sizeof_Rel : Z := 8.

(** Bytes [off, off + n) of the file, and the little-endian field at [i] of a structure. *)
Definition slice (elf : list Z) (off : Z) (n : nat) : option (list Z) :=
  if (0 <=? off) && (off + Z.of_nat n <=? Z.of_nat (length elf))
  then Some (take n (drop (Z.to_nat off) elf)) else None.
Definition fld (s : list Z) (i n : nat) : Z := le_value (take n (drop i s)).

Definition ehdr_at (elf : list Z) : option Elf32_Ehdr :=
  s ← slice elf 0 52;
  Some (mkEhdr (take 16 s) (fld s 16 2) (fld s 18 2) (fld s 20 4) (fld s 24 4) (fld s 28 4) (fld s 32 4)
    (fld s 36 4) (fld s 40 2) (fld s 42 2) (fld s 44 2) (fld s 46 2) (fld s 48 2) (fld s 50 2)).
Definition phdr_at (elf : list Z) (off : Z) : option Elf32_Phdr :=
  s ← slice elf off 32;
  Some (mkPhdr (fld s 0 4) (fld s 4 4) (fld s 8 4) (fld s 12 4) (fld s 16 4) (fld s 20 4) (fld s 24 4) (fld s 28 4)).
Definition shdr_at (elf : list Z) (off : Z) : option Elf32_Shdr :=
  s ← slice elf off 40;
  Some (mkShdr (fld s 0 4) (fld s 4 4) (fld s 8 4) (fld s 12 4) (fld s 16 4) (fld s 20 4) (fld s 24 4) (fld s 28 4)
    (fld s 32 4) (fld s 36 4)).
Definition sym_at (elf : list Z) (off : Z) : option Elf32_Sym :=
  s ← slice elf off 16;
  Some (mkSym (fld s 0 4) (fld s 4 4) (fld s 8 4) (fld s 12 1) (fld s 13 1) (fld s 14 2)).
Definition rel_at (elf : list Z) (off : Z) : option Elf32_Rel :=
  s ← slice elf off 8; Some (mkRel (fld s 0 4) (fld s 4 4)).

Definition elf32_r_sym (info : Z) : Z := Z.shiftr info 8.
Definition elf32_r_type (info : Z) : Z := Z.land info 0xFF.

(** ** Header checks and address arithmetic *)

Definition ident (e : Elf32_Ehdr) (i : nat) : Z := default 0 (e_ident e !! i).

Definition validate_elf_header (ehdr : Elf32_Ehdr) (elf_size : Z) : bool :=
  if elf_size <? sizeof_Ehdr then false
  else if negb (ident ehdr 0 =? ELF_MAGIC0) || negb (ident ehdr 1 =? ELF_MAGIC1) ||
          negb (ident ehdr 2 =? ELF_MAGIC2) || negb (ident ehdr 3 =? ELF_MAGIC3) then false
  else if negb (ident ehdr 4 =? ELFCLASS32) || negb (ident ehdr 5 =? ELFDATA2LSB) ||
          negb (e_version ehdr =? EV_CURRENT) || negb (e_type ehdr =? ET_EXEC) ||
          negb (e_machine ehdr =? EM_386) then false
  else if (e_phoff ehdr =? 0) || (e_phnum ehdr =? 0) || negb (e_phentsize ehdr =? sizeof_Phdr) then false
  else if elf_size <? u32 (e_phoff ehdr + e_phnum ehdr * sizeof_Phdr) then false
  else if (e_shoff ehdr =? 0) || (e_shnum ehdr =? 0) || negb (e_shentsize ehdr =? sizeof_Shdr) then false
  else if elf_size <? u32 (e_shoff ehdr + e_shnum ehdr * sizeof_Shdr) then false
  else if e_shnum ehdr <=? e_shstrndx ehdr then false
  else true.

Definition page_align_down (addr : Z) : Z := Z.land addr (Z.lxor 0xFFFFFFFF (PAGE_SIZE - 1)).
Definition page_align_up (addr : Z) : Z := Z.land (u32 (addr + PAGE_SIZE - 1)) (Z.lxor 0xFFFFFFFF (PAGE_SIZE - 1)).

Record elf_page_mapping := mkMapping { pm_vaddr : Z; pm_paddr : Z }.

(** [pages] are the entries filled so far. *)
Fixpoint find_frame (pages : list elf_page_mapping) (page_base : Z) : Z :=
  match pages with
  | [] => 0
  | p :: l => if pm_vaddr p =? page_base then pm_paddr p else find_frame l page_base
  end.
Definition get_frame_for_vaddr (pages : list elf_page_mapping) (vaddr : Z) : Z :=
  find_frame pages (page_align_down vaddr).

Section elf.
Context {A : Type} `{!FrameAllocator A}.
Abbreviation E := (M (vm A)).

Definition program_header (ehdr : Elf32_Ehdr) (elf : list Z) (index : Z) : E (option Elf32_Phdr) :=
  if e_phnum ehdr <=? index then ret None
  else p <- some_or_trap (phdr_at elf (e_phoff ehdr + index * sizeof_Phdr)) ;; ret (Some p).

Definition section_header (ehdr : Elf32_Ehdr) (elf : list Z) (index : Z) : E (option Elf32_Shdr) :=
  if e_shnum ehdr <=? index then ret None
  else s <- some_or_trap (shdr_at elf (e_shoff ehdr + index * sizeof_Shdr)) ;; ret (Some s).

(** The offset of the name in the file: [shstrtab] is an offset too. *)
Definition section_name (sh : Elf32_Shdr) (shstrtab shstrtab_size : Z) : option Z :=
  if shstrtab_size <=? sh_name sh then None else Some (shstrtab + sh_name sh).

(** [a] is in the file, [b] a literal without its NUL. *)
Fixpoint str_equal (elf : list Z) (a : Z) (b : list Z) : E bool :=
  x <- some_or_trap (arr_get elf a) ;;
  match b with
  | [] => ret (x =? 0)
  | y :: b' => if negb (x =? 0) && (x =? y) then str_equal elf (a + 1) b' else ret (x =? y)
  end.

(** ".strtab" *)
Definition strtab_name : list Z := [46; 115; 116; 114; 116; 97; 98].

Definition resolve_symbol_address (sym : Elf32_Sym) (ehdr : Elf32_Ehdr) (elf : list Z) : E Z :=
  if st_shndx sym =? SHN_UNDEF then ret 0
  else if st_shndx sym =? SHN_ABS then ret (st_value sym)
  else if e_shnum ehdr <=? st_shndx sym then ret 0
  else
    target_sh <- section_header ehdr elf (st_shndx sym) ;;
    match target_sh with
    | None => ret 0
    | Some t => ret (u32 (sh_addr t + st_value sym))
    end.

(** One iteration of the relocation loop; [inr] is the [return -1]. *)
Definition relocate (ehdr : Elf32_Ehdr) (elf : list Z) (symtab_sh target_sh rel_sh : Elf32_Shdr)
    (pages : list elf_page_mapping) (j : Z) : E (unit + unit) :=
  rel <- some_or_trap (rel_at elf (sh_offset rel_sh + j * sizeof_Rel)) ;;
  let sym_index := elf32_r_sym (r_info rel) in
  let rel_type := elf32_r_type (r_info rel) in
  if sh_size symtab_sh / sizeof_Sym <=? sym_index then ret (inr tt)
  else
    sym <- some_or_trap (sym_at elf (sh_offset symtab_sh + sym_index * sizeof_Sym)) ;;
    sym_addr <- resolve_symbol_address sym ehdr elf ;;
    if sym_addr =? 0 then ret (inr tt)
    else
      let target_va := u32 (sh_addr target_sh + r_offset rel) in
      let frame_paddr := get_frame_for_vaddr pages target_va in
      if frame_paddr =? 0 then ret (inr tt)
      else
        vmm_map_kernel_page ELF_TEMP_PAGE frame_paddr ;;
        let page_offset := Z.land target_va (PAGE_SIZE - 1) in
        addend <- vread32 (ELF_TEMP_PAGE + page_offset) ;;
        match (if rel_type =? R_386_32 then Some (u32 (sym_addr + addend))
               else if rel_type =? R_386_PC32 then Some (u32 (sym_addr + addend - target_va))
               else None) with
        | None => vmm_unmap_page ELF_TEMP_PAGE ;; ret (inl tt)
        | Some relocated =>
            vwrite32 (ELF_TEMP_PAGE + page_offset) relocated ;;
            vmm_unmap_page ELF_TEMP_PAGE ;;
            ret (inl tt)
        end.

(** [false] is the answer -1. *)
Definition process_relocations (ehdr : Elf32_Ehdr) (elf : list Z) (elf_size : Z)
    (symtab_sh strtab_sh : option Elf32_Shdr) (pages : list elf_page_mapping) : E bool :=
  match symtab_sh, strtab_sh with
  | Some symtab_sh, Some _ =>
      r <- for_ (Z.to_nat (e_shnum ehdr)) 0 (fun i (_ : unit) =>
             rel_sh <- section_header ehdr elf i ;;
             match rel_sh with
             | None => ret (inl tt)
             | Some rel_sh =>
                 if negb (sh_type rel_sh =? SHT_REL) then ret (inl tt)
                 else if elf_size <? u32 (sh_offset rel_sh + sh_size rel_sh) then ret (inr tt)
                 else
                   target_sh <- section_header ehdr elf (sh_info rel_sh) ;;
                   match target_sh with
                   | None => ret (inl tt)
                   | Some target_sh =>
                       if Z.land (sh_flags target_sh) SHF_ALLOC =? 0 then ret (inl tt)
                       else for_ (Z.to_nat (sh_size rel_sh / sizeof_Rel)) 0
                              (fun j _ => relocate ehdr elf symtab_sh target_sh rel_sh pages j) tt
                   end
             end) tt ;;
      match r with inl _ => ret true | inr _ => ret false end
  | _, _ => ret true
  end.

(** The section of symbols and the section named [.strtab]. *)
Definition find_tables (ehdr : Elf32_Ehdr) (elf : list Z) (shstrtab shstrtab_size : Z)
    : E (option Elf32_Shdr * option Elf32_Shdr) :=
  r <- for_ (R := Empty_set) (Z.to_nat (e_shnum ehdr)) 0 (fun i '(symtab_sh, strtab_sh) =>
         sh <- section_header ehdr elf i ;;
         match sh with
         | None => ret (inl (symtab_sh, strtab_sh))
         | Some s =>
             match section_name s shstrtab shstrtab_size with
             | None => ret (inl (symtab_sh, strtab_sh))
             | Some name =>
                 if sh_type s =? SHT_SYMTAB then ret (inl (Some s, strtab_sh))
                 else if sh_type s =? SHT_STRTAB then
                   eq <- str_equal elf name strtab_name ;;
                   ret (inl (symtab_sh, if (eq : bool) then Some s else strtab_sh))
                 else ret (inl (symtab_sh, strtab_sh))
             end
         end) (None, None) ;;
  match r with inl p => ret p | inr e => match e with end end.

(** Offset in the page, start in the segment and length of the copy for page [vaddr]. *)
Definition page_copy (ph : Elf32_Phdr) (vaddr : Z) : Z * Z * Z :=
  let segment_start := p_vaddr ph in
  let offset_in_segment := if vaddr <? segment_start then segment_start - vaddr else 0 in
  if offset_in_segment <? p_filesz ph then
    let copy_start := u32 (vaddr + offset_in_segment - segment_start) in
    let copy_len := u32 (p_filesz ph - copy_start) in
    let copy_len := if PAGE_SIZE - offset_in_segment <? copy_len then PAGE_SIZE - offset_in_segment else copy_len in
    (offset_in_segment, copy_start, copy_len)
  else (offset_in_segment, 0, 0).

Definition segment_flags (ph : Elf32_Phdr) : Z :=
  let page_flags := Z.lor PAGE_PRESENT PAGE_USER in
  if Z.land (p_flags ph) PF_W =? 0 then page_flags else Z.lor page_flags PAGE_WRITE.

(** One page of a segment. *)
Definition load_page (elf : list Z) (user_pdt : Z) (ph : Elf32_Phdr) (vaddr frame : Z) : E unit :=
  vmm_map_page_for_pdt user_pdt vaddr frame (segment_flags ph) ;;
  vmm_map_kernel_page ELF_TEMP_PAGE frame ;;
  vmemset ELF_TEMP_PAGE 0 PAGE_SIZE ;;
  (let '(offset_in_segment, copy_start, copy_len) := page_copy ph vaddr in
   for_each (Z.to_nat copy_len) 0 (fun byte =>
     b <- some_or_trap (arr_get elf (p_offset ph + copy_start + byte)) ;;
     vwrite8 (ELF_TEMP_PAGE + offset_in_segment + byte) b)) ;;
  vmm_unmap_page ELF_TEMP_PAGE.

(** [inr tt] is the [return -1].  Every iteration adds one of at most
    [MAX_USER_CODE_PAGES] pages, so the bound is never reached. *)
Definition load_segment (elf : list Z) (elf_size user_pdt : Z) (ph : Elf32_Phdr)
    (loaded : list elf_page_mapping) : E (list elf_page_mapping + unit) :=
  if elf_size <? u32 (p_offset ph + p_filesz ph) then ret (inr tt)
  else
    let segment_start := p_vaddr ph in
    let segment_end := u32 (p_vaddr ph + p_memsz ph) in
    let page_end := page_align_up segment_end in
    iter (S (S MAX_USER_CODE_PAGES)) (fun '(vaddr, loaded) =>
      if vaddr <? page_end then
        if Z.of_nat MAX_USER_CODE_PAGES <=? Z.of_nat (length loaded) then ret (inr (inr tt))
        else
          frame <- vm_alloc_frame ;;
          if frame =? 0 then ret (inr (inr tt))
          else
            load_page elf user_pdt ph vaddr frame ;;
            ret (inl (u32 (vaddr + PAGE_SIZE), loaded ++ [mkMapping vaddr frame]))
      else ret (inr (inl loaded))) (page_align_down segment_start, loaded).

(** The answer is [None] for -1, and the entry point and the frames for 0. *)
Definition load_elf (elf_data : option (list Z)) (user_pdt : Z) : E (option (Z * list Z)) :=
  match elf_data with
  | None => ret None
  | Some elf =>
      let elf_size := Z.of_nat (length elf) in
      if (elf_size <? sizeof_Ehdr) || (user_pdt =? 0) then ret None
      else
        ehdr <- some_or_trap (ehdr_at elf) ;;
        if negb (validate_elf_header ehdr elf_size) then ret None
        else
          shstr_sh <- section_header ehdr elf (e_shstrndx ehdr) ;;
          match shstr_sh with
          | None => ret None
          | Some shstr =>
              if elf_size <? u32 (sh_offset shstr + sh_size shstr) then ret None
              else
                tables <- find_tables ehdr elf (sh_offset shstr) (sh_size shstr) ;;
                (let '(symtab_sh, strtab_sh) := tables in
                 if match strtab_sh with
                    | Some s => elf_size <? u32 (sh_offset s + sh_size s)
                    | None => false
                    end then ret None
                 else
                   r <- for_ (Z.to_nat (e_phnum ehdr)) 0 (fun i loaded =>
                          ph <- program_header ehdr elf i ;;
                          match ph with
                          | None => ret (inl loaded)
                          | Some ph =>
                              if negb (p_type ph =? PT_LOAD) || (p_memsz ph =? 0) then ret (inl loaded)
                              else load_segment elf elf_size user_pdt ph loaded
                          end) [] ;;
                   match r with
                   | inr _ => ret None
                   | inl loaded =>
                       ok <- process_relocations ehdr elf elf_size symtab_sh strtab_sh loaded ;;
                       if (ok : bool) then ret (Some (e_entry ehdr, pm_paddr <$> loaded))
                       else
                         for_each (length loaded) 0 (fun i =>
                           p <- some_or_trap (loaded !! Z.to_nat i) ;; vm_free_frame (pm_paddr p)) ;;
                         ret None
                   end)
          end
  end.
End elf.
