(* ===== verification/ElfSpec.v ===== *)
(** * What the ELF loader promises ([kernel/elf_loader.c])

    The loader always comes back, whatever the file says; a page it loads holds
    what the segment says. *)

From stdpp Require Import base list gmap numbers option tactics.
From Stdlib Require Import Lia ZArith.
From S2P Require Import Prelude PhysMem Pmm Vmm Task Elf.

(** ** Termination *)

Section totality.
Context {A : Type} `{!FrameAllocator A}.
Context (alloc_total : total (S := A) fa_alloc) (free_total : forall p, total (S := A) (fa_free p)).

Lemma total_mmu va : total (mmu (A := A) va).
Proof. unfold mmu. total_steps. Qed.
#[local] Hint Resolve total_mmu : total.
Lemma total_vread8 va : total (vread8 (A := A) va).
Proof. unfold vread8. total_steps. Qed.
#[local] Hint Resolve total_vread8 : total.
Lemma total_vwrite8 va v : total (vwrite8 (A := A) va v).
Proof. unfold vwrite8. total_steps. Qed.
#[local] Hint Resolve total_vwrite8 : total.
Lemma total_vread32 va : total (vread32 (A := A) va).
Proof. unfold vread32. total_steps. Qed.
#[local] Hint Resolve total_vread32 : total.
Lemma total_vwrite32 va v : total (vwrite32 (A := A) va v).
Proof. unfold vwrite32. total_steps. Qed.
#[local] Hint Resolve total_vwrite32 : total.
Lemma total_invalidate_tlb_entry va : total (invalidate_tlb_entry (A := A) va).
Proof. unfold invalidate_tlb_entry. total_steps. Qed.
#[local] Hint Resolve total_invalidate_tlb_entry : total.
Lemma total_load_cr3 c : total (load_cr3 (A := A) c).
Proof. unfold load_cr3. total_steps. Qed.
#[local] Hint Resolve total_load_cr3 : total.
Lemma total_vmemset va c n : total (vmemset (A := A) va c n).
Proof. unfold vmemset. total_steps. Qed.
#[local] Hint Resolve total_vmemset : total.
Lemma total_table_get t k : total (table_get (A := A) t k).
Proof. unfold table_get. total_steps. Qed.
#[local] Hint Resolve total_table_get : total.
Lemma total_table_set t k v : total (table_set (A := A) t k v).
Proof. unfold table_set. total_steps. Qed.
#[local] Hint Resolve total_table_set : total.
Lemma total_vm_alloc_frame : total vm_alloc_frame.
Proof using alloc_total free_total. unfold vm_alloc_frame. total_steps. Qed.
#[local] Hint Resolve total_vm_alloc_frame : total.
Lemma total_vm_free_frame p : total (vm_free_frame p).
Proof using alloc_total free_total. unfold vm_free_frame. total_steps. Qed.
#[local] Hint Resolve total_vm_free_frame : total.
Lemma total_vmm_new_table i f : total (vmm_new_table (A := A) i f).
Proof using alloc_total free_total. unfold vmm_new_table. total_steps. Qed.
#[local] Hint Resolve total_vmm_new_table : total.
Lemma total_vmm_map_page va p f : total (vmm_map_page (A := A) va p f).
Proof using alloc_total free_total. unfold vmm_map_page. total_steps. Qed.
#[local] Hint Resolve total_vmm_map_page : total.
Lemma total_vmm_unmap_page va : total (vmm_unmap_page (A := A) va).
Proof using alloc_total free_total. unfold vmm_unmap_page. total_steps. Qed.
#[local] Hint Resolve total_vmm_unmap_page : total.
Lemma total_vmm_map_page_for_pdt d va p f : total (vmm_map_page_for_pdt (A := A) d va p f).
Proof using alloc_total free_total. unfold vmm_map_page_for_pdt, read_cr3. total_steps. Qed.
#[local] Hint Resolve total_vmm_map_page_for_pdt : total.
Lemma total_vmm_map_kernel_page va p : total (vmm_map_kernel_page (A := A) va p).
Proof using alloc_total free_total. unfold vmm_map_kernel_page. total_steps. Qed.
#[local] Hint Resolve total_vmm_map_kernel_page : total.
Lemma total_program_header e l i : total (program_header (A := A) e l i).
Proof using alloc_total free_total. unfold program_header. total_steps. Qed.
#[local] Hint Resolve total_program_header : total.
Lemma total_section_header e l i : total (section_header (A := A) e l i).
Proof using alloc_total free_total. unfold section_header. total_steps. Qed.
#[local] Hint Resolve total_section_header : total.
Lemma total_resolve_symbol_address y e l : total (resolve_symbol_address (A := A) y e l).
Proof using alloc_total free_total. unfold resolve_symbol_address. total_steps. Qed.
#[local] Hint Resolve total_resolve_symbol_address : total.

Lemma total_str_equal elf a b : total (str_equal (A := A) elf a b).
Proof. revert a. induction b as [|y b IH]; intros a; cbn [str_equal]; total_steps. Qed.
#[local] Hint Resolve total_str_equal : total.

Lemma total_find_tables e l o z : total (find_tables (A := A) e l o z).
Proof using alloc_total free_total. unfold find_tables. total_steps. Qed.
Lemma total_relocate e l sy ta re pages j : total (relocate (A := A) e l sy ta re pages j).
Proof using alloc_total free_total. unfold relocate. total_steps. Qed.
#[local] Hint Resolve total_find_tables total_relocate : total.
Lemma total_process_relocations e l z sy st pages : total (process_relocations (A := A) e l z sy st pages).
Proof using alloc_total free_total. unfold process_relocations. total_steps. Qed.
Lemma total_load_page l d ph va f : total (load_page (A := A) l d ph va f).
Proof using alloc_total free_total. unfold load_page. total_steps. Qed.
#[local] Hint Resolve total_process_relocations total_load_page : total.

(** Every iteration of the page loop adds a page, and there are at most
    [MAX_USER_CODE_PAGES]. *)
Lemma total_load_segment l z d ph loaded : total (load_segment (A := A) l z d ph loaded).
Proof using alloc_total free_total.
  unfold load_segment. cbv zeta. destruct (_ <? _); [total_steps|].
  apply total_iter with (m := fun '(_, loaded) => (S MAX_USER_CODE_PAGES - length loaded)%nat).
  - total_steps.
  - intros [va ld] s [va' ld'] s' H. destruct (va <? _); [|done].
    destruct (Z.leb_spec (Z.of_nat MAX_USER_CODE_PAGES) (Z.of_nat (length ld))); [done|].
    apply bind_Ret in H as (f & s1 & _ & H). destruct (f =? 0); [done|].
    apply bind_Ret in H as ([] & s2 & _ & H). injection H as <- <- <-. rewrite length_app. simpl. lia.
  - lia.
Qed.
#[local] Hint Resolve total_load_segment : total.

Lemma total_load_elf file d : total (load_elf (A := A) file d).
Proof using alloc_total free_total. unfold load_elf. total_steps. Qed.
End totality.

(** ** Two address spaces

    The loader runs in the kernel's space, directory [d], and fills the space of
    directory [n].  Neither directory is a frame of the other's tables, and a table
    the two have in common sits in the same slot of both. *)

Section spaces.
Context {A : Type} `{!FrameAllocator A}.
Implicit Types s : vm A.

Definition as_user (n : Z) s : vm A := set_tlb ∅ (set_cr3 (4096 * n) s).

Record two_spaces (d n : Z) s : Prop := {
  sp_kernel : vspace d s;
  sp_user : vspace n (as_user n s);
  sp_dir : fresh_frame (vm_mem s) d n;
  sp_own : fresh_frame (vm_mem s) n d;
  sp_share : forall i j, 0 <= i < 1023 -> 0 <= j < 1023 ->
    present (pde (vm_mem s) n i) = true -> present (pde (vm_mem s) d j) = true ->
    pde_frame (vm_mem s) n i = pde_frame (vm_mem s) d j -> i = j;
  sp_window : present (pde (vm_mem s) d 770) = true;
}.

(** A frame the page tables do not use and the allocator has given out. *)
Record shielded (d n : Z) s (g : Z) : Prop := {
  sh_range : 0 <= g < 1048576;
  sh_kernel : fresh_frame (vm_mem s) d g;
  sh_user : fresh_frame (vm_mem s) n g;
  sh_used : g < fa_limit -> fa_used (vm_frames s) g;
}.

Definition same_frame (g : Z) (m m' : gmap Z Z) : Prop := forall a, a / 4096 = g -> read8 m' a = read8 m a.

Lemma same_frame_ent g m m' k :
  same_frame g m m' -> 0 <= k < 1024 -> ent m' (4096 * g) k = ent m (4096 * g) k.
Proof.
  intros H Hk. apply ent_ext. intros b Hb. apply H. symmetry. apply Z.div_unique with (b - 4096 * g); lia.
Qed.

Lemma same_pde_tables m m' d :
  (forall j, 0 <= j < 1024 -> pde m' d j = pde m d j) -> tables_ok m d -> tables_ok m' d.
Proof.
  intros Hp [Hr Hs Hk Hi]. split; unfold pde_frame; rewrite ?Hp by lia; [done..|].
  intros i j Hi' Hj'. rewrite !Hp by lia. by apply Hi.
Qed.

Lemma same_pde_fresh m m' d g :
  (forall j, 0 <= j < 1024 -> pde m' d j = pde m d j) -> fresh_frame m d g -> fresh_frame m' d g.
Proof. intros Hp Hf j Hj. unfold pde_frame. rewrite Hp by done. by apply Hf. Qed.

(** A directory is shielded from its own tables only as far as its last slot. *)
Lemma own_frame d s j : vspace d s -> 0 <= j < 1023 -> present (pde (vm_mem s) d j) = true ->
  pde_frame (vm_mem s) d j <> d.
Proof. intros Hv. by apply pde_frame_ne, Hv. Qed.

(** A change of memory and TLB that leaves both directories alone. *)
Lemma two_spaces_same d n s m t :
  two_spaces d n s -> (forall j, 0 <= j < 1024 -> pde m d j = pde (vm_mem s) d j) ->
  (forall j, 0 <= j < 1024 -> pde m n j = pde (vm_mem s) n j) -> tlb_of m (4096 * d) t ->
  two_spaces d n (set_mem m (set_tlb t s)).
Proof.
  intros [[Hc Ht Htl Hwf Hu] [Hc' Ht' Htl' Hwf' Hu'] Hd Ho Hsh Hw] Hpd Hpn Ht2. vm_simpl in *. split; vm_simpl in *.
  - split; vm_simpl in *; [done|by eapply same_pde_tables|done|done|].
    intros i Hi. unfold pde_frame. rewrite Hpd by done. by apply Hu.
  - split; vm_simpl in *; [done|by eapply same_pde_tables|apply tlb_of_empty|done|].
    intros i Hi. unfold pde_frame. rewrite Hpn by done. by apply Hu'.
  - by eapply same_pde_fresh.
  - by eapply same_pde_fresh.
  - intros i j Hi Hj. unfold pde_frame. rewrite Hpd, Hpn by lia. by apply Hsh.
  - by rewrite Hpd by lia.
Qed.

Lemma shielded_same d n s m t g :
  (forall j, 0 <= j < 1024 -> pde m d j = pde (vm_mem s) d j) ->
  (forall j, 0 <= j < 1024 -> pde m n j = pde (vm_mem s) n j) ->
  shielded d n s g -> shielded d n (set_mem m (set_tlb t s)) g.
Proof. intros Hd Hn []. split; vm_simpl in *; [done|by eapply same_pde_fresh|by eapply same_pde_fresh|done]. Qed.

(** *** Mapping the page in the new space *)

Lemma two_spaces_used d n s g : two_spaces d n s -> g = d \/ g = n -> g < fa_limit -> fa_used (vm_frames s) g.
Proof.
  intros Hsp Hg Hl. destruct Hg as [-> | ->].
  - destruct (sp_kernel _ _ _ Hsp) as [_ Hok _ _ Hu]. destruct (to_self _ _ Hok) as [Hp E].
    rewrite <- E. apply Hu; [lia|done|by rewrite E].
  - destruct (sp_user _ _ _ Hsp) as [_ Hok _ _ Hu]. vm_simpl in *. destruct (to_self _ _ Hok) as [Hp E].
    rewrite <- E. apply Hu; [lia|done|by rewrite E].
Qed.

(** What a mapping in the space [n] leaves alone. *)
Lemma page_mapped_frame n s s' va pa g :
  tables_ok (vm_mem s) n -> page_mapped n va pa s s' -> 0 <= va < 4294967296 -> va / 4096 / 1024 < 1023 ->
  fresh_frame (vm_mem s) n g -> (g < fa_limit -> fa_used (vm_frames s) g) ->
  fresh_frame (vm_mem s') n g /\ same_frame g (vm_mem s) (vm_mem s').
Proof.
  intros Hok Hm Hva Hi Hf Hg. pose proof (page_index _ (page_of_va va Hva)) as [Hj _].
  destruct (to_self _ _ Hok) as [Hs1 Hs2].
  assert (g <> n) as Hgn by (intros ->; by apply (Hf 1023)).
  assert (pde_frame (vm_mem s') n (va / 4096 / 1024) <> g) as Hnew.
  { destruct (present (pde (vm_mem s) n (va / 4096 / 1024))) eqn:Hp.
    - destruct (pm_frames _ _ _ _ _ Hm Hp) as [_ E]. unfold pde_frame. rewrite E. by apply Hf.
    - destruct (pm_fresh _ _ _ _ _ Hm Hp) as (Hr & Hu & _). intros <-. apply Hu, Hg. lia. }
  split.
  - intros j Hj'. destruct (decide (j = va / 4096 / 1024)) as [->|Hne]; [done|].
    unfold pde_frame. rewrite (pm_pde _ _ _ _ _ Hm) by done. by apply Hf.
  - intros a Ha. apply (pm_data _ _ _ _ _ Hm); rewrite Ha; [done| |by apply not_eq_sym].
    apply not_eq_sym, Hf; [lia|]. apply (to_kernel _ _ Hok).
Qed.

Lemma wp_map_in_user d n s va pa fl :
  two_spaces d n s -> 0 <= va < 4294967296 -> va / 4096 / 1024 < 1023 ->
  0 <= pa < 4294967296 -> 0 <= fl < 4096 ->
  wp (vmm_map_page_for_pdt (4096 * n) va pa fl) (fun _ s' =>
    two_spaces d n s' /\ same_regs s s' /\
    (forall g, shielded d n s g -> shielded d n s' g /\ same_frame g (vm_mem s) (vm_mem s')) /\
    (page_mapped n va pa s s' \/
     exhausted (vm_frames s) /\ vm_mem s' = vm_mem s /\ vm_frames s' = vm_frames s)) s.
Proof.
  intros Hsp Hva Hi Hpa Hfl. eapply wp_mono; [apply (wp_map_page_for_pdt s n); [apply Hsp|done..]|].
  intros [] s' (Hv' & Hr & Ht & Hpost).
  pose proof Hsp as [Hk Hu Hd Ho Hsh Hw]. pose proof Hr as (Hr1 & Hr2 & Hr3).
  destruct Hpost as [Hm|(_ & Hex & Em & Ef)]; cycle 1.
  { split_and!; [|done| |right; by split_and!].
    - split; rewrite ?Em; [|done..]. destruct Hk. split; rewrite ?Em, ?Ef, ?Ht; [congruence|done|apply tlb_of_empty|done|done].
    - intros g []. split; [split; by rewrite ?Em, ?Ef|]. intros a _. by rewrite Em. }
  assert (forall g, fresh_frame (vm_mem s) n g -> (g < fa_limit -> fa_used (vm_frames s) g) ->
    fresh_frame (vm_mem s') n g /\ same_frame g (vm_mem s) (vm_mem s')) as Hkeep
    by (intros; eapply page_mapped_frame; [exact (vs_tables _ _ Hu)|done..]).
  destruct (Hkeep d Ho) as [Hod Hsd]; [intros; by eapply two_spaces_used; eauto|].
  assert (forall j, 0 <= j < 1024 -> pde (vm_mem s') d j = pde (vm_mem s) d j) as Hpd
    by (intros; by apply same_frame_ent).
  pose proof (page_index _ (page_of_va va Hva)) as [Hj _].
  split_and!; [|done| |by left].
  - split; [|done|by eapply same_pde_fresh|done| |by rewrite Hpd by lia].
    + destruct Hk as [Hc Hok Htl Hwf Hus]. split; [congruence|by eapply same_pde_tables|rewrite Ht; apply tlb_of_empty|apply Hv'|].
      intros i Hi'. unfold pde_frame. rewrite Hpd by done. intros Hp Hl.
      pose proof (pde_frame_range (vm_mem s) d i) as Hrg. apply (pm_taken _ _ _ _ _ Hm); [unfold pde_frame in Hrg; lia|by apply Hus].
    + intros i j Hi' Hj'. unfold pde_frame at 2. rewrite (Hpd j) by lia. fold (pde_frame (vm_mem s) d j).
      destruct (decide (i = va / 4096 / 1024)) as [->|Hne].
      * destruct (present (pde (vm_mem s) n (va / 4096 / 1024))) eqn:Hp.
        -- destruct (pm_frames _ _ _ _ _ Hm Hp) as [_ E]. unfold pde_frame at 1. rewrite E. by apply Hsh.
        -- destruct (pm_fresh _ _ _ _ _ Hm Hp) as (Hrg & Hun & _). intros _ Hpj E. rewrite E in Hrg, Hun.
           destruct Hun. apply (vs_used _ _ Hk); [lia|done|lia].
      * unfold pde_frame at 1. rewrite (pm_pde _ _ _ _ _ Hm) by lia. by apply Hsh.
  - intros g [Hg Hgk Hgu Hgus]. destruct (Hkeep g Hgu Hgus) as [? ?]. split; [|done].
    split; [done|by eapply same_pde_fresh|done|]. intros Hl. apply (pm_taken _ _ _ _ _ Hm); [lia|by apply Hgus].
Qed.

(** *** Filling the frame through the temporary page *)

Definition ELF_TEMP_PG : Z := 770 * 1024.

Lemma elf_temp_addr : ELF_TEMP_PAGE = 4096 * ELF_TEMP_PG.
Proof. done. Qed.

Lemma same_frames_user_walk d n s m pg :
  two_spaces d n s -> (forall j, 0 <= j < 1024 -> pde m n j = pde (vm_mem s) n j) ->
  (forall g, g <> d -> g <> pde_frame (vm_mem s) d 768 -> g <> pde_frame (vm_mem s) d 770 ->
     same_frame g (vm_mem s) m) ->
  0 <= pg < 768 * 1024 -> walk m (4096 * n) pg = walk (vm_mem s) (4096 * n) pg.
Proof.
  intros Hsp Hp Hg Hpg. pose proof (vs_tables _ _ (sp_user _ _ _ Hsp)) as Hok. vm_simpl in *.
  assert (0 <= pg / 1024 < 768) as Hj by (split; [apply Z.div_pos; lia|apply Z.div_lt_upper_bound; lia]).
  rewrite !walk_spec by apply Hok. unfold pde_frame at 1. rewrite Hp by lia.
  destruct (present (pde (vm_mem s) n (pg / 1024))) eqn:Hpr; [|done]. cbv zeta.
  change (pde (vm_mem s) n (pg / 1024) / 4096) with (pde_frame (vm_mem s) n (pg / 1024)).
  rewrite (same_frame_ent _ (vm_mem s)); [done| |by apply Z.mod_pos_bound].
  apply Hg; [by apply (sp_own _ _ _ Hsp); [lia|]|..]; intros E.
  - apply (sp_share _ _ _ Hsp) in E; [lia|lia|lia|done|]. apply (to_kernel _ _ (vs_tables _ _ (sp_kernel _ _ _ Hsp))).
  - apply (sp_share _ _ _ Hsp) in E; [lia|lia|lia|done|apply (sp_window _ _ _ Hsp)].
Qed.

(** The steps on the temporary page: the user's pages and the shielded frames stay. *)
Definition kept (d n : Z) s s' : Prop :=
  two_spaces d n s' /\ same_regs s s' /\ vm_frames s' = vm_frames s /\
  (forall g, shielded d n s g -> shielded d n s' g) /\
  (forall pg, 0 <= pg < 768 * 1024 -> walk (vm_mem s') (4096 * n) pg = walk (vm_mem s) (4096 * n) pg).

Lemma kept_trans d n s1 s2 s3 : kept d n s1 s2 -> kept d n s2 s3 -> kept d n s1 s3.
Proof.
  intros (? & (?&?&?) & ? & K1 & W1) (? & (?&?&?) & ? & K2 & W2).
  split_and!; [done|split_and!; congruence|congruence|auto|]. intros pg Hpg. by rewrite W2, W1.
Qed.

Lemma kept_same d n s m t :
  two_spaces d n s -> tlb_of m (4096 * d) t ->
  (forall g, g <> d -> g <> pde_frame (vm_mem s) d 768 -> g <> pde_frame (vm_mem s) d 770 ->
     same_frame g (vm_mem s) m) ->
  (forall j, 0 <= j < 1024 -> pde m d j = pde (vm_mem s) d j) ->
  kept d n s (set_mem m (set_tlb t s)).
Proof.
  intros Hsp Ht Hg Hpd. pose proof (vs_tables _ _ (sp_kernel _ _ _ Hsp)) as Hok.
  destruct (to_self _ _ Hok) as [Hs1 Hs2].
  assert (forall j, 0 <= j < 1024 -> pde m n j = pde (vm_mem s) n j) as Hpn.
  { intros j Hj. apply same_frame_ent; [|done]. apply Hg; apply not_eq_sym.
    - rewrite <- Hs2. by apply (sp_dir _ _ _ Hsp).
    - apply (sp_dir _ _ _ Hsp); [lia|apply Hok].
    - apply (sp_dir _ _ _ Hsp); [lia|apply Hsp]. }
  split_and!; [by apply two_spaces_same|done|done|intros; by apply shielded_same|].
  intros pg Hpg. by eapply same_frames_user_walk.
Qed.

Lemma wp_map_temp d n s f :
  two_spaces d n s -> 0 <= f < 1048576 ->
  wp (vmm_map_kernel_page ELF_TEMP_PAGE (4096 * f)) (fun _ s' => kept d n s s' /\
    walk (vm_mem s') (4096 * d) ELF_TEMP_PG = Some (4096 * f) /\
    (forall g, fresh_frame (vm_mem s) d g -> same_frame g (vm_mem s) (vm_mem s'))) s.
Proof.
  intros Hsp Hf. pose proof (sp_kernel _ _ _ Hsp) as Hv. pose proof (vs_tables _ _ Hv) as Hok.
  unfold vmm_map_kernel_page. eapply wp_mono; [apply (wp_map_page s d); [done|by compute|by compute|lia|by compute]|].
  intros [] s' (Hv' & Hr & Hpost). change (ELF_TEMP_PAGE / 4096 / 1024) with 770 in Hpost.
  pose proof (sp_window _ _ _ Hsp) as Hw. destruct Hpost as [Hm|[? _]]; [|congruence].
  destruct (pm_frames _ _ _ _ _ Hm Hw) as [Hfr Hp770].
  change (ELF_TEMP_PAGE / 4096 / 1024) with 770 in Hp770.
  assert (forall j, 0 <= j < 1024 -> pde (vm_mem s') d j = pde (vm_mem s) d j) as Hpd.
  { intros j Hj. destruct (decide (j = 770)) as [->|]; [done|]. by apply (pm_pde _ _ _ _ _ Hm). }
  assert (forall g, g <> d -> g <> pde_frame (vm_mem s) d 768 -> g <> pde_frame (vm_mem s) d 770 ->
     same_frame g (vm_mem s) (vm_mem s')) as Hg.
  { intros g H1 H2 H3 a Ha. apply (pm_data _ _ _ _ _ Hm); rewrite Ha; [done|done|].
    change (ELF_TEMP_PAGE / 4096 / 1024) with 770. unfold pde_frame. by rewrite Hp770. }
  split_and!.
  - pose proof (kept_same d n s (vm_mem s') (vm_tlb s') Hsp) as Hkept.
    replace s' with (set_mem (vm_mem s') (set_tlb (vm_tlb s') s)) by (destruct s, s', Hr as (?&?&?); vm_simpl in *; by subst).
    apply Hkept; [by apply vs_tlb|done|done].
  - pose proof (pm_walk _ _ _ _ _ Hm) as E. rewrite (Z.mul_comm 4096 f), Z.div_mul in E by lia. exact E.
  - intros g Hfg. destruct (to_self _ _ Hok) as [Hs1 Hs2]. apply Hg; apply not_eq_sym.
    + rewrite <- Hs2. by apply Hfg.
    + apply Hfg; [lia|apply Hok].
    + by apply Hfg.
Qed.

(** The file bytes the page loop writes: the byte at offset [i] of the page. *)
Definition copied (elf : list Z) (ph : Elf32_Phdr) (va i : Z) : Z :=
  let '(offset, start, len) := page_copy ph va in
  if (offset <=? i) && (i <? offset + len) then u8 (default 0 (arr_get elf (p_offset ph + start + (i - offset)))) else 0.

(** Only the frame [f] changes. *)
Definition only_frame (f : Z) (m m' : gmap Z Z) : Prop := forall a, a / 4096 <> f -> read8 m' a = read8 m a.

Lemma only_frame_walk d n s m f pg :
  two_spaces d n s -> shielded d n s f -> only_frame f (vm_mem s) m -> 0 <= pg < 1048576 ->
  walk m (4096 * d) pg = walk (vm_mem s) (4096 * d) pg.
Proof.
  intros Hsp Hf Ha. destruct (fresh_same _ _ (vs_tables _ _ (sp_kernel _ _ _ Hsp)) m f (sh_kernel _ _ _ _ Hf) Ha) as (_ & _ & Hw).
  apply Hw.
Qed.

Lemma only_frame_kept d n s m t f :
  two_spaces d n s -> shielded d n s f -> tlb_of m (4096 * d) t -> only_frame f (vm_mem s) m ->
  kept d n s (set_mem m (set_tlb t s)).
Proof.
  intros Hsp Hf Ht Ha.
  destruct (fresh_same _ _ (vs_tables _ _ (sp_kernel _ _ _ Hsp)) m f (sh_kernel _ _ _ _ Hf) Ha) as (Hpd & _ & _).
  pose proof (vs_tables _ _ (sp_user _ _ _ Hsp)) as Hok. vm_simpl in *.
  destruct (fresh_same _ _ Hok m f (sh_user _ _ _ _ Hf) Ha) as (Hpn & _ & Hwn).
  split_and!; [by apply two_spaces_same|done|done|intros; by apply shielded_same|].
  intros pg Hpg. apply Hwn. lia.
Qed.

Lemma only_frame_range f off len (m m' : gmap Z Z) (v : Z -> Z) :
  0 <= off -> off + len <= 4096 ->
  (forall a, read8 m' a = if decide (4096 * f + off <= a < 4096 * f + off + len) then v a else read8 m a) ->
  only_frame f m m'.
Proof.
  intros Ho Hl Hm a Ha. rewrite Hm, decide_False; [done|]. intros Hr. apply Ha. symmetry.
  apply Z.div_unique with (a - 4096 * f); lia.
Qed.

(** The file bytes of one page: the loop after [memset]. *)
Lemma wp_copy_loop elf d n s f ofs off len :
  two_spaces d n s -> shielded d n s f -> 0 <= off -> 0 <= len -> off + len <= 4096 ->
  0 <= ofs -> ofs + len <= Z.of_nat (length elf) ->
  walk (vm_mem s) (4096 * d) ELF_TEMP_PG = Some (4096 * f) ->
  wp (for_each (Z.to_nat len) 0 (fun byte =>
        b <- some_or_trap (arr_get elf (ofs + byte)) ;; vwrite8 (ELF_TEMP_PAGE + off + byte) b))
    (fun _ s' => exists m t, s' = set_mem m (set_tlb t s) /\ tlb_of m (4096 * d) t /\
      forall a, read8 m a =
        if decide (4096 * f + off <= a < 4096 * f + off + len)
        then u8 (default 0 (arr_get elf (ofs + (a - (4096 * f + off))))) else read8 (vm_mem s) a) s.
Proof.
  intros Hsp Hf Hoff Hlen Hol Hofs Hin Hw. pose proof (sp_kernel _ _ _ Hsp) as Hv.
  apply (wp_for_each (fun i s' => exists m t, s' = set_mem m (set_tlb t s) /\ tlb_of m (4096 * d) t /\
      forall a, read8 m a =
        if decide (4096 * f + off <= a < 4096 * f + off + i)
        then u8 (default 0 (arr_get elf (ofs + (a - (4096 * f + off))))) else read8 (vm_mem s) a)).
  - exists (vm_mem s), (vm_tlb s). split_and!; [by destruct s|by apply vs_tlb|]. intros a. by rewrite decide_False by lia.
  - intros i s' Hi (m & t & -> & Ht & Hm).
    assert (only_frame f (vm_mem s) m) as Hof by (eapply only_frame_range; [| |exact Hm]; lia).
    destruct (arr_get_Some elf (ofs + i) ltac:(lia)) as [b Hb].
    apply wp_bind, (wp_some_or_trap _ b); [done|].
    rewrite elf_temp_addr, <- Z.add_assoc.
    assert (forall a, read8 (write8 m (4096 * f + (off + i)) b) a =
      if decide (4096 * f + off <= a < 4096 * f + off + (i + 1))
      then u8 (default 0 (arr_get elf (ofs + (a - (4096 * f + off))))) else read8 (vm_mem s) a) as Hm'.
    { intros a. rewrite read8_write8, Hm. destruct (decide (a = 4096 * f + (off + i))) as [->|Hne].
      - rewrite !decide_True by lia. replace (4096 * f + (off + i) - (4096 * f + off)) with i by lia. by rewrite Hb.
      - rewrite (decide_False (P := 4096 * f + (off + i) = a)) by lia. repeat case_decide; try done; lia. }
    assert (only_frame f (vm_mem s) (write8 m (4096 * f + (off + i)) b)) as Hof'
      by (eapply only_frame_range; [| |exact Hm']; lia).
    apply (wp_vwrite8 _ ELF_TEMP_PG (off + i) f); vm_simpl in *; rewrite ?(vs_cr3 _ _ Hv);
      [by compute|lia|done| |].
    + by rewrite (only_frame_walk d n s m f) by (done || by compute).
    + intros t' Ht'. eexists _, t'. split_and!; [reflexivity| |exact Hm'].
      eapply tlb_of_walk_eq; [exact Ht'|]. intros pg Hpg.
      etrans; [|symmetry]; by apply (only_frame_walk d n s _ f).
  - intros s' (m & t & -> & Ht & Hm). exists m, t. split_and!; [done|done|]. by rewrite Z2Nat.id in Hm by lia.
Qed.

Lemma wp_unmap_temp d n s :
  two_spaces d n s ->
  wp (vmm_unmap_page ELF_TEMP_PAGE) (fun _ s' => kept d n s s' /\
    (forall g, fresh_frame (vm_mem s) d g -> same_frame g (vm_mem s) (vm_mem s'))) s.
Proof.
  intros Hsp. pose proof (sp_kernel _ _ _ Hsp) as Hv. pose proof (vs_tables _ _ Hv) as Hok.
  pose proof (sp_window _ _ _ Hsp) as Hw. destruct (to_self _ _ Hok) as [Hs1 Hs2].
  eapply wp_mono; [apply (wp_unmap_page s d); [done|by compute|by compute|exact Hw]|].
  intros [] s' (Hv' & Hr & Hm). pose proof (pu_frames _ _ _ _ Hm) as Hfr.
  assert (forall g, g <> pde_frame (vm_mem s) d 770 -> same_frame g (vm_mem s) (vm_mem s')) as Hg
    by (intros g Hg a Ha; apply (pu_data _ _ _ _ Hm); by rewrite Ha).
  split.
  - replace s' with (set_mem (vm_mem s') (set_tlb (vm_tlb s') s)) by (destruct s, s', Hr as (?&?&?); vm_simpl in *; by subst).
    apply kept_same; [done|by apply vs_tlb|auto|]. intros j Hj. apply same_frame_ent; [|done].
    apply Hg, not_eq_sym. by apply pde_frame_ne.
  - intros g Hfg. apply Hg, not_eq_sym. by apply Hfg.
Qed.

(** What the file holds for the page: the copy stays inside the page and the file. *)
Definition copy_in_file (elf : list Z) (ph : Elf32_Phdr) (va : Z) : Prop :=
  let '(offset, start, len) := page_copy ph va in
  0 <= offset /\ 0 <= len /\ offset + len <= 4096 /\ 0 <= p_offset ph + start /\
  p_offset ph + start + len <= Z.of_nat (length elf).

(** One page of the segment is in place. *)
Record page_in_place (elf : list Z) (ph : Elf32_Phdr) (d n va f : Z) s s' : Prop := {
  pp_spaces : two_spaces d n s';
  pp_regs : same_regs s s';
  pp_mapped : walk (vm_mem s') (4096 * n) (va / 4096) = Some (4096 * f) \/ exhausted (vm_frames s');
  pp_others : forall pg, 0 <= pg < 768 * 1024 -> pg <> va / 4096 ->
    walk (vm_mem s') (4096 * n) pg = walk (vm_mem s) (4096 * n) pg;
  pp_shielded : forall g, shielded d n s g -> shielded d n s' g /\ (g <> f -> same_frame g (vm_mem s) (vm_mem s'));
  pp_bytes : forall i, 0 <= i < 4096 -> read8 (vm_mem s') (4096 * f + i) = copied elf ph va i;
}.

Lemma segment_flags_range ph : 0 <= segment_flags ph < 4096.
Proof. unfold segment_flags. by destruct (_ =? _). Qed.

(** [memset] and the copy, on the mapped temporary page. *)
Lemma wp_fill_page elf ph d n s va f :
  two_spaces d n s -> shielded d n s f -> copy_in_file elf ph va ->
  walk (vm_mem s) (4096 * d) ELF_TEMP_PG = Some (4096 * f) ->
  wp (vmemset ELF_TEMP_PAGE 0 PAGE_SIZE ;;
      (let '(offset_in_segment, copy_start, copy_len) := page_copy ph va in
       for_each (Z.to_nat copy_len) 0 (fun byte =>
         b <- some_or_trap (arr_get elf (p_offset ph + copy_start + byte)) ;;
         vwrite8 (ELF_TEMP_PAGE + offset_in_segment + byte) b)))
    (fun _ s' => kept d n s s' /\ only_frame f (vm_mem s) (vm_mem s') /\
       forall i, 0 <= i < 4096 -> read8 (vm_mem s') (4096 * f + i) = copied elf ph va i) s.
Proof.
  intros Hsp Hf Hc Hw. pose proof (sp_kernel _ _ _ Hsp) as Hv. unfold copied, copy_in_file in *.
  destruct (page_copy ph va) as [[off start] len]. destruct Hc as (Ho & Hl & Hol & Hs1 & Hs2).
  apply wp_bind. rewrite elf_temp_addr at 1.
  apply (wp_vmemset_page s ELF_TEMP_PG d f); [by compute|by apply vs_cr3|by apply vs_tables|
    rewrite (vs_cr3 _ _ Hv); by apply vs_tlb|by apply (sh_kernel _ _ _ _ Hf)|done|].
  intros m t Hz Ht. rewrite (vs_cr3 _ _ Hv) in Ht.
  assert (only_frame f (vm_mem s) m) as Hof by (intros a Ha; by rewrite Hz, decide_False).
  pose proof (only_frame_kept d n s m t f Hsp Hf Ht Hof) as Hk. pose proof Hk as (Hsp1 & _ & _ & Hsh1 & _).
  set (s1 := set_mem m (set_tlb t s)) in *.
  assert (walk (vm_mem s1) (4096 * d) ELF_TEMP_PG = Some (4096 * f)) as Hw1.
  { rewrite <- Hw. by apply (only_frame_walk d n s _ f). }
  eapply wp_mono; [apply (wp_copy_loop elf d n s1 f); [done|by apply Hsh1|done..]|].
  intros [] s2 (m2 & t2 & -> & Ht2 & Hm2).
  assert (only_frame f (vm_mem s1) m2) as Hof2 by (eapply only_frame_range; [| |exact Hm2]; lia).
  split_and!.
  - eapply kept_trans; [exact Hk|]. apply (only_frame_kept d n s1 m2 t2 f); [done|by apply Hsh1|done|done].
  - intros a Ha. vm_simpl in *. rewrite Hof2 by done. by apply Hof.
  - intros i Hi. vm_simpl in *. rewrite Hm2. subst s1. vm_simpl in *.
    assert ((4096 * f + i) / 4096 = f) as E by (symmetry; apply Z.div_unique with i; lia).
    destruct (Z.leb_spec off i), (Z.ltb_spec i (off + len)); cbn [andb].
    + rewrite decide_True by lia. by replace (4096 * f + i - (4096 * f + off)) with (i - off) by lia.
    + rewrite decide_False, Hz, decide_True by lia. done.
    + rewrite decide_False, Hz, decide_True by lia. done.
    + rewrite decide_False, Hz, decide_True by lia. done.
Qed.

Lemma wp_load_page elf ph d n s va f :
  two_spaces d n s -> shielded d n s f -> copy_in_file elf ph va -> 0 <= va < KERNEL_VIRT_BASE ->
  wp (load_page elf (4096 * n) ph va (4096 * f)) (fun _ s' => page_in_place elf ph d n va f s s') s.
Proof.
  intros Hsp Hf Hc Hva. unfold KERNEL_VIRT_BASE in Hva. pose proof (sh_range _ _ _ _ Hf) as Hfr.
  assert (0 <= va / 4096 < 768 * 1024) as Hpg by (split; [apply Z.div_pos; lia|apply Z.div_lt_upper_bound; lia]).
  unfold load_page. apply wp_bind. eapply wp_mono.
  { apply (wp_map_in_user d n); [done|lia|apply Z.div_lt_upper_bound; lia|lia|apply segment_flags_range]. }
  intros [] s1 (Hsp1 & Hr1 & Hsh1 & Hm1). apply wp_bind.
  eapply wp_mono; [apply (wp_map_temp d n s1 f); [done|lia]|]. intros [] s2 (Hk2 & Hw2 & Hg2).
  pose proof Hk2 as (Hsp2 & _ & _ & Hsh2 & _). destruct (Hsh1 f Hf) as [Hf1 _].
  pose proof (wp_fill_page elf ph d n s2 va f Hsp2 (Hsh2 f Hf1) Hc Hw2) as Hfill.
  apply wp_bind_inv in Hfill. apply wp_bind. eapply wp_mono; [exact Hfill|].
  cbv beta. intros [] s3' H3. apply wp_bind. eapply wp_mono; [exact H3|]. clear s3' H3.
  intros [] s3 (Hk3 & Hof3 & Hb3). pose proof Hk3 as (Hsp3 & _ & _ & Hsh3 & _).
  eapply wp_mono; [by apply (wp_unmap_temp d n s3)|]. intros [] s4 (Hk4 & Hg4).
  pose proof (kept_trans _ _ _ _ _ (kept_trans _ _ _ _ _ Hk2 Hk3) Hk4) as (Hsp4 & (Hr4a & Hr4b & Hr4c) & Hfr4 & Hsh4 & Hwk4).
  destruct Hr1 as (Hr1a & Hr1b & Hr1c). split.
  - done.
  - split_and!; congruence.
  - rewrite Hwk4 by done. destruct Hm1 as [Hm1|(Hex & _ & Ef)]; [left|right; by rewrite Hfr4, Ef].
    rewrite (pm_walk _ _ _ _ _ Hm1).
    by replace (4096 * f / 4096) with f by (rewrite Z.mul_comm, Z.div_mul; lia).
  - intros pg Hpg' Hne. rewrite Hwk4 by done. destruct Hm1 as [Hm1|(_ & Em & _)]; [|by rewrite Em].
    apply (pm_other _ _ _ _ _ Hm1); [lia|done|left; unfold TEMP_PG; lia].
  - intros g Hg. destruct (Hsh1 g Hg) as [Hg1 Hs1]. split; [by apply Hsh4|]. intros Hne a Ha.
    rewrite (Hg4 g (sh_kernel _ _ _ _ (Hsh3 _ (Hsh2 _ Hg1))) a Ha), Hof3 by congruence.
    rewrite (Hg2 g (sh_kernel _ _ _ _ Hg1) a Ha). by apply Hs1.
  - intros i Hi. rewrite (Hg4 f (sh_kernel _ _ _ _ (Hsh3 _ (Hsh2 _ Hf1)))); [by apply Hb3|].
    symmetry. apply Z.div_unique with i; lia.
Qed.

(** ** Segments *)

(** The byte at [a] of the segment in memory: file data, then zeros. *)
Definition segment_byte (elf : list Z) (ph : Elf32_Phdr) (a : Z) : Z :=
  if (p_vaddr ph <=? a) && (a <? p_vaddr ph + p_filesz ph)
  then default 0 (arr_get elf (p_offset ph + (a - p_vaddr ph))) else 0.

Definition first_page (ph : Elf32_Phdr) : Z := p_vaddr ph / 4096.
Definition page_count (ph : Elf32_Phdr) : Z := (p_vaddr ph + p_memsz ph + 4095) / 4096 - first_page ph.

(** Segments the copy arithmetic is right for: they lie in the file and below the
    kernel, and, when they have file data, their data reach past the first page's
    lead-in and into their last page. *)
Record segment_ok (elf : list Z) (ph : Elf32_Phdr) : Prop := {
  sg_bytes : Forall (fun b => 0 <= b < 256) elf;
  sg_file : 0 <= p_offset ph /\ 0 <= p_filesz ph /\ p_offset ph + p_filesz ph <= Z.of_nat (length elf) < 4294967296;
  sg_memory : 0 <= p_vaddr ph /\ 0 < p_memsz ph /\ p_vaddr ph + p_memsz ph <= KERNEL_VIRT_BASE;
  sg_head : p_filesz ph = 0 \/ p_vaddr ph mod 4096 < p_filesz ph;
  sg_tail : p_filesz ph = 0 \/ 4096 * (first_page ph + page_count ph - 1) <= p_vaddr ph + p_filesz ph;
}.

Lemma page_copy_spec elf ph k :
  segment_ok elf ph -> 0 <= k < page_count ph ->
  exists off start len, page_copy ph (4096 * (first_page ph + k)) = (off, start, len) /\
    0 <= off /\ 0 <= len /\ off + len <= 4096 /\ 0 <= start /\ start + len <= p_filesz ph /\
    (0 < len -> start = 4096 * (first_page ph + k) + off - p_vaddr ph) /\
    forall i, 0 <= i < 4096 ->
      (off <= i < off + len <-> p_vaddr ph <= 4096 * (first_page ph + k) + i < p_vaddr ph + p_filesz ph).
Proof.
  intros [_ (Ho & Hfs & Hfile) (Hv & Hm & Hkv) Hhead Htail] Hk. unfold KERNEL_VIRT_BASE in Hkv.
  pose proof (Z.div_mod (p_vaddr ph) 4096 ltac:(lia)) as Hdm.
  pose proof (Z.mod_pos_bound (p_vaddr ph) 4096 ltac:(lia)) as Hmod. fold (first_page ph) in Hdm.
  remember (4096 * (first_page ph + k)) as va eqn:Eva. unfold page_copy, PAGE_SIZE.
  destruct (Z.ltb_spec va (p_vaddr ph)) as [Hlt|Hge].
  - assert (k = 0) as -> by lia. destruct (Z.ltb_spec (p_vaddr ph - va) (p_filesz ph)) as [Hin|Hout].
    2: { eexists _, _, _. split; [reflexivity|]. split_and!; lia. }
    replace (va + (p_vaddr ph - va) - p_vaddr ph) with 0 by lia.
    rewrite (u32_small 0), Z.sub_0_r, (u32_small (p_filesz ph)) by lia.
    eexists _, _, _. split; [reflexivity|].
    destruct (Z.ltb_spec (4096 - (p_vaddr ph - va)) (p_filesz ph)); split_and!; lia.
  - destruct (Z.ltb_spec 0 (p_filesz ph)) as [Hin|Hout].
    + assert (va <= p_vaddr ph + p_filesz ph) as Hva by lia.
      rewrite Z.add_0_r, Z.sub_0_r, (u32_small (va - p_vaddr ph)), u32_small by lia.
      eexists _, _, _. split; [reflexivity|].
      destruct (Z.ltb_spec 4096 (p_filesz ph - (va - p_vaddr ph))); split_and!; lia.
    + eexists _, _, _. split; [reflexivity|]. split_and!; lia.
Qed.

Lemma copied_segment elf ph k :
  segment_ok elf ph -> 0 <= k < page_count ph ->
  copy_in_file elf ph (4096 * (first_page ph + k)) /\
  forall i, 0 <= i < 4096 ->
    copied elf ph (4096 * (first_page ph + k)) i = segment_byte elf ph (4096 * (first_page ph + k) + i).
Proof.
  intros Hs Hk. destruct (page_copy_spec elf ph k Hs Hk) as (off & start & len & E & H1 & H2 & H3 & H4 & H5 & H6 & H7).
  destruct Hs as [Hb (Ho & Hfs & Hfile & Hlen) _ _ _]. unfold copy_in_file, copied, segment_byte. rewrite E.
  split; [split_and!; lia|]. intros i Hi. specialize (H7 i Hi). remember (4096 * (first_page ph + k)) as va eqn:Eva.
  assert (forall o, u8 (default 0 (arr_get elf o)) = default 0 (arr_get elf o)) as Hu8.
  { intros o. apply u8_small. destruct (arr_get elf o) eqn:Eo; simpl; [|lia]. unfold arr_get in Eo.
    destruct (0 <=? o); [|done]. rewrite list.Forall_lookup in Hb. by apply (Hb _ _ Eo). }
  rewrite Hu8. destruct (Z.leb_spec off i), (Z.ltb_spec i (off + len)); cbn [andb].
  - rewrite (proj2 (Z.leb_le _ _)), (proj2 (Z.ltb_lt _ _)) by lia. cbn [andb]. do 2 f_equal. lia.
  - destruct (Z.leb_spec (p_vaddr ph) (va + i)), (Z.ltb_spec (va + i) (p_vaddr ph + p_filesz ph)); try done; lia.
  - destruct (Z.leb_spec (p_vaddr ph) (va + i)), (Z.ltb_spec (va + i) (p_vaddr ph + p_filesz ph)); try done; lia.
  - destruct (Z.leb_spec (p_vaddr ph) (va + i)), (Z.ltb_spec (va + i) (p_vaddr ph + p_filesz ph)); try done; lia.
Qed.

(** The mappings the loop records. *)
Definition mappings (p0 : Z) (fs : list Z) : list elf_page_mapping :=
  imap (fun k f => mkMapping (4096 * (p0 + Z.of_nat k)) (4096 * f)) fs.

(** The first pages of the segment are in place, in the frames [fs]. *)
Record pages_in_place (elf : list Z) (ph : Elf32_Phdr) (d n : Z) (fs : list Z) s0 s : Prop := {
  pi_spaces : two_spaces d n s;
  pi_regs : same_regs s0 s;
  pi_nodup : NoDup fs;
  pi_page : forall k f, fs !! k = Some f ->
    shielded d n s f /\
    (walk (vm_mem s) (4096 * n) (first_page ph + Z.of_nat k) = Some (4096 * f) \/ exhausted (vm_frames s)) /\
    forall i, 0 <= i < 4096 ->
      read8 (vm_mem s) (4096 * f + i) = segment_byte elf ph (4096 * (first_page ph + Z.of_nat k) + i);
  pi_others : forall pg, 0 <= pg < 768 * 1024 ->
    ~ first_page ph <= pg < first_page ph + Z.of_nat (length fs) ->
    walk (vm_mem s) (4096 * n) pg = walk (vm_mem s0) (4096 * n) pg;
  pi_shielded : forall g, shielded d n s0 g -> shielded d n s g /\ (g ∉ fs) /\ same_frame g (vm_mem s0) (vm_mem s);
}.

(** An allocation keeps the spaces and answers a shielded frame; an exhausted
    allocator answers 0. *)
Lemma wp_alloc_shielded d n s :
  two_spaces d n s ->
  wp vm_alloc_frame (fun p s' =>
    (p = 0 /\ s' = s /\ exhausted (vm_frames s)) \/
    exists f, p = 4096 * f /\ 0 < f /\ ~ exhausted (vm_frames s) /\ two_spaces d n s' /\ same_regs s s' /\
      vm_mem s' = vm_mem s /\ shielded d n s' f /\ ~ shielded d n s f /\
      forall g, shielded d n s g -> shielded d n s' g) s.
Proof.
  intros Hsp. pose proof (fa_limit_range (A := A)) as Hlim. pose proof Hsp as [Hk Hu Hd Ho Hsh Hw].
  unfold vm_alloc_frame. apply wp_zoom. eapply wp_mono; [apply fa_alloc_spec, Hk|].
  intros p a' (Hwf & Ht & [(-> & -> & Hall)|(f & -> & Hf & Hft & Hfu & Hus)]).
  - left. split_and!; [done|by destruct s|done].
  - right. exists f.
    assert (forall g, 0 <= g < fa_limit -> fa_used (vm_frames s) g -> fa_used a' g) as Hmono
      by (intros g Hg Hgu; apply Hus; [done|by left]).
    assert (forall d', vspace d' s -> vspace d' (set_frames a' s)) as Hvs.
    { intros d' [Hc Hok Htl Hwf' Hus']. split; vm_simpl in *; [done|done|done|done|].
      intros i Hi Hp Hl. pose proof (pde_frame_range (vm_mem s) d' i). apply Hmono; [lia|by apply Hus']. }
    assert (fresh_frame (vm_mem s) d f) as Hfd by (by apply vspace_fresh).
    assert (fresh_frame (vm_mem s) n f) as Hfn by (by apply (vspace_fresh n (as_user n s))).
    split_and!; [lia|lia|intros Hex; apply Hfu, Hex; lia| | |done| |intros [_ _ _ Hx]; apply Hfu, Hx; lia|].
    + split; vm_simpl in *; [by apply Hvs| |done|done|done|done].
      destruct Hu as [Hc Hok Htl Hwf' Hus']. unfold as_user in *. split; vm_simpl in *; [done|done|done|done|].
      intros i Hi Hp Hl. pose proof (pde_frame_range (vm_mem s) n i). apply Hmono; [lia|by apply Hus'].
    + done.
    + split; vm_simpl in *; [lia|done|done|]. intros _. apply Hus; [lia|by right].
    + intros g [Hg1 Hg2 Hg3 Hg4]. split; vm_simpl in *; [done|done|done|]. intros Hl. apply Hmono; [lia|by apply Hg4].
Qed.

Lemma mappings_snoc p0 fs f :
  mappings p0 (fs ++ [f]) = mappings p0 fs ++ [mkMapping (4096 * (p0 + Z.of_nat (length fs))) (4096 * f)].
Proof. unfold mappings. rewrite imap_app. simpl. by rewrite Nat.add_0_r. Qed.

(** One iteration extends the pages in place. *)
Lemma pages_in_place_next elf ph d n fs f s0 s s1 s2 :
  segment_ok elf ph -> Z.of_nat (length fs) < page_count ph -> pages_in_place elf ph d n fs s0 s ->
  ~ exhausted (vm_frames s) -> same_regs s s1 -> vm_mem s1 = vm_mem s -> ~ shielded d n s f ->
  (forall g, shielded d n s g -> shielded d n s1 g) -> shielded d n s1 f ->
  page_in_place elf ph d n (4096 * (first_page ph + Z.of_nat (length fs))) f s1 s2 ->
  pages_in_place elf ph d n (fs ++ [f]) s0 s2.
Proof.
  intros Hok Hk [Hsp Hr Hnd Hpg Hoth Hsh] Hex Hr1 Em Hf Hmono Hf1 [Hsp2 Hr2 Hm2 Ho2 Hs2 Hb2].
  assert (forall x, 4096 * x / 4096 = x) as Ediv by (intros x; rewrite Z.mul_comm, Z.div_mul; lia).
  rewrite Ediv in Hm2, Ho2.
  assert (forall k g, fs !! k = Some g -> g <> f) as Hne by (intros k g Hg ->; by destruct (Hpg k f Hg)).
  assert (0 <= first_page ph) as Hp0 by (apply Z.div_pos; [apply Hok|lia]).
  assert (first_page ph + page_count ph <= 768 * 1024) as Hpc.
  { unfold page_count. destruct (sg_memory _ _ Hok) as (? & ? & Hkv). unfold KERNEL_VIRT_BASE in Hkv.
    enough ((p_vaddr ph + p_memsz ph + 4095) / 4096 < 768 * 1024 + 1) by lia. apply Z.div_lt_upper_bound; lia. }
  split.
  - done.
  - destruct Hr as (?&?&?), Hr1 as (?&?&?), Hr2 as (?&?&?). split_and!; congruence.
  - apply list.NoDup_app. split_and!; [done| |apply NoDup_singleton].
    intros g Hg ->%list.list_elem_of_singleton. apply list_elem_of_lookup in Hg as [k Hg]. by apply (Hne k f).
  - intros k g Hg. apply lookup_app_Some in Hg as [Hg|[Hge Hg]].
    + destruct (Hpg k g Hg) as (Hgs & Hgw & Hgb). destruct (Hs2 g (Hmono g Hgs)) as [? Hsame].
      pose proof (lookup_lt_Some _ _ _ Hg). split_and!; [done| |].
      * destruct Hgw as [Hgw|]; [|done]. left. rewrite Ho2, Em by lia. done.
      * intros i Hi. rewrite Hsame, Em by (by eauto || (symmetry; apply Z.div_unique with i; lia)). by apply Hgb.
    + apply list_lookup_singleton_Some in Hg as [E ->]. replace k with (length fs) by lia.
      destruct (copied_segment elf ph (Z.of_nat (length fs)) Hok ltac:(lia)) as [_ Hcp].
      split_and!; [by apply Hs2|done|]. intros i Hi. rewrite Hb2 by done. by apply Hcp.
  - intros pg Hpg' Hni. rewrite length_app in Hni. cbn [length] in Hni. rewrite Ho2, Em by lia. apply Hoth; lia.
  - intros g Hg. destruct (Hsh g Hg) as (Hgs & Hgn & Hgb). assert (g <> f) as Hgf by (intros ->; done).
    destruct (Hs2 g (Hmono g Hgs)) as [? Hsame]. split_and!; [done| |].
    + intros [Hin|Hin%list.list_elem_of_singleton]%elem_of_app; done.
    + intros a Ha. rewrite Hsame, Em by done. by apply Hgb.
Qed.

Definition segment_post (elf : list Z) (ph : Elf32_Phdr) (d n : Z) (loaded : list elf_page_mapping) s0
    (r : list elf_page_mapping + unit) s : Prop :=
  match r with
  | inl loaded' => exists fs, loaded' = loaded ++ mappings (first_page ph) fs /\
      Z.of_nat (length fs) = page_count ph /\ pages_in_place elf ph d n fs s0 s
  | inr _ => (exhausted (vm_frames s) \/ Z.of_nat MAX_USER_CODE_PAGES < Z.of_nat (length loaded) + page_count ph) /\
      exists fs, Z.of_nat (length fs) < page_count ph /\ pages_in_place elf ph d n fs s0 s
  end.

Lemma wp_load_segment elf ph d n loaded s0 :
  two_spaces d n s0 -> segment_ok elf ph ->
  wp (load_segment elf (Z.of_nat (length elf)) (4096 * n) ph loaded) (segment_post elf ph d n loaded s0) s0.
Proof.
  intros Hsp Hok. pose proof Hok as [_ (Ho & Hfs & Hfile & Hlen) (Hv & Hm & Hkv) _ _]. unfold KERNEL_VIRT_BASE in Hkv.
  pose proof (fa_limit_range (A := A)) as Hlim.
  unfold load_segment. rewrite u32_small, (proj2 (Z.ltb_ge _ _)) by lia. cbv zeta.
  rewrite (u32_small (p_vaddr ph + p_memsz ph)) by lia.
  assert (page_align_down (p_vaddr ph) = 4096 * first_page ph) as -> by (apply entry_frame_spec; lia).
  assert (page_align_up (p_vaddr ph + p_memsz ph) = 4096 * (first_page ph + page_count ph)) as ->.
  { unfold page_align_up, PAGE_SIZE, page_count. rewrite u32_small by lia.
    replace (p_vaddr ph + p_memsz ph + 4096 - 1) with (p_vaddr ph + p_memsz ph + 4095) by lia.
    replace (first_page ph + ((p_vaddr ph + p_memsz ph + 4095) / 4096 - first_page ph))
      with ((p_vaddr ph + p_memsz ph + 4095) / 4096) by lia. apply entry_frame_spec. lia. }
  assert (first_page ph + page_count ph <= 768 * 1024) as Hpc.
  { unfold page_count. enough ((p_vaddr ph + p_memsz ph + 4095) / 4096 < 768 * 1024 + 1) by lia.
    apply Z.div_lt_upper_bound; lia. }
  assert (0 <= first_page ph) as Hp0 by (apply Z.div_pos; lia).
  apply (wp_iter (fun l s => exists fs, l = (4096 * (first_page ph + Z.of_nat (length fs)), loaded ++ mappings (first_page ph) fs) /\
      Z.of_nat (length fs) <= page_count ph /\ pages_in_place elf ph d n fs s0 s)
    (fun l _ => S MAX_USER_CODE_PAGES - length l.2)%nat).
  - cbn [snd]. lia.
  - exists []. split_and!; [by rewrite Z.add_0_r; cbn; rewrite app_nil_r| |].
    { cbn [length]. enough (first_page ph <= (p_vaddr ph + p_memsz ph + 4095) / 4096) by (unfold page_count; cbn; lia).
      apply Z.div_le_mono; lia. }
    split; [done|done|constructor|by intros ? ? ?|done|]. intros g Hg. split_and!; [done|by apply not_elem_of_nil|done].
  - intros l s (fs & -> & Hle & Hpi). destruct (Z.ltb_spec (4096 * (first_page ph + Z.of_nat (length fs)))
      (4096 * (first_page ph + page_count ph))) as [Hlt|Hge]; cycle 1.
    { apply wp_ret. cbv iota. exists fs. split_and!; [done|lia|done]. }
    assert (length (loaded ++ mappings (first_page ph) fs) = (length loaded + length fs)%nat) as El
      by (unfold mappings; rewrite length_app, length_imap; lia).
    destruct (Z.leb_spec (Z.of_nat MAX_USER_CODE_PAGES) (Z.of_nat (length (loaded ++ mappings (first_page ph) fs)))) as [Hmax|Hmax].
    { apply wp_ret. cbv iota. split; [right; rewrite El in Hmax; lia|]. exists fs. split; [lia|done]. }
    apply wp_bind. eapply wp_mono; [apply (wp_alloc_shielded d n), Hpi|].
    intros p s1 [(-> & -> & Hex)|(f & -> & Hf & Hnex & Hsp1 & Hr1 & Em & Hfs1 & Hnf & Hmono)].
    { apply wp_ret. cbv iota. split; [by left|]. exists fs. split; [lia|done]. }
    rewrite (proj2 (Z.eqb_neq (4096 * f) 0)) by lia. apply wp_bind.
    destruct (copied_segment elf ph (Z.of_nat (length fs)) Hok ltac:(lia)) as [Hcif _].
    eapply wp_mono; [apply (wp_load_page elf ph d n s1); [done|done|done|unfold KERNEL_VIRT_BASE; lia]|].
    intros [] s2 Hpp. apply wp_ret. cbv iota. split.
    + exists (fs ++ [f]). split_and!.
      * rewrite mappings_snoc, app_assoc, length_app. cbn [length]. f_equal.
        unfold PAGE_SIZE. rewrite u32_small by lia. lia.
      * rewrite length_app. cbn [length]. lia.
      * eapply (pages_in_place_next elf ph d n fs f s0 s s1 s2); try done. lia.
    + cbn [snd]. rewrite (length_app (loaded ++ _)). cbn [length]. lia.
Qed.
End spaces.

(** ** Properties *)



Lemma total_pmm_test_bit i : total (pmm_test_bit i).
Proof. unfold pmm_test_bit, bitmap_read. total_steps. Qed.
Lemma total_pmm_set_bit i : total (pmm_set_bit i).
Proof. unfold pmm_set_bit, bitmap_read, bitmap_write. total_steps. Qed.
Lemma total_pmm_clear_bit i : total (pmm_clear_bit i).
Proof. unfold pmm_clear_bit, bitmap_read, bitmap_write. total_steps. Qed.
#[local] Hint Resolve total_pmm_test_bit total_pmm_set_bit total_pmm_clear_bit : total.
Lemma total_pmm_alloc_frame : total pmm_alloc_frame.
Proof. unfold pmm_alloc_frame. total_steps. Qed.
Lemma total_pmm_free_frame p : total (pmm_free_frame p).
Proof. unfold pmm_free_frame. total_steps. Qed.


(** ** A concrete pair of address spaces

    The kernel's directory 2, the new directory 4; both share the tables 3 (slot
    768) and 5 (slot 770). *)

Definition demo_pair_mem : gmap Z Z :=
  write32 (write32 (write32 (write32 demo_mem (4096 * 2 + 4 * 770) (mk_entry 5 PAGE_WRITE))
    (4096 * 4 + 4 * 768) (mk_entry 3 PAGE_WRITE)) (4096 * 4 + 4 * 770) (mk_entry 5 PAGE_WRITE))
    (4096 * 4 + 4 * 1023) (mk_entry 4 PAGE_WRITE).
Definition demo_pair : vm pmm :=
  mkVm (mkPmm (<[0%nat := 63]> (replicate 4096 0)) [] 64) demo_pair_mem (4096 * 2) ∅ (4096 * 2) (4096 * 2).

Definition demo_dir (own j : Z) : Z :=
  if decide (j = 1023) then mk_entry own PAGE_WRITE
  else if decide (j = 770) then mk_entry 5 PAGE_WRITE
  else if decide (j = 768) then mk_entry 3 PAGE_WRITE else 0.

Lemma demo_pair_pde x j :
  x = 2 \/ x = 4 -> 0 <= j < 1024 -> pde demo_pair_mem x j = demo_dir x j.
Proof.
  intros Hx Hj. unfold demo_dir. destruct Hx as [-> | ->]; unfold pde, demo_pair_mem; rewrite !ent_write by lia.
  - do 3 rewrite decide_False by lia. change (ent demo_mem (4096 * 2) j) with (pde demo_mem 2 j).
    rewrite demo_pde by done. repeat case_decide; subst; try done; lia.
  - assert (ent demo_mem (4096 * 4) j = 0) as ->.
    { unfold demo_mem. rewrite !ent_write, !decide_False by lia.
      unfold ent, read32. cbn [read_bytes]. unfold read8. by rewrite !lookup_empty. }
    repeat case_decide; subst; try done; lia.
Qed.

Lemma demo_dir_frames x j :
  x = 2 \/ x = 4 -> 0 <= j < 1024 -> present (pde demo_pair_mem x j) = true ->
  (j = 768 /\ pde_frame demo_pair_mem x j = 3) \/ (j = 770 /\ pde_frame demo_pair_mem x j = 5) \/
  (j = 1023 /\ pde_frame demo_pair_mem x j = x).
Proof.
  intros Hx Hj. unfold pde_frame. rewrite demo_pair_pde by done. unfold demo_dir.
  repeat case_decide; subst; try done; intros _; [right; right|right; left|left]; (split; [done|]);
    destruct Hx as [-> | ->]; by vm_compute.
Qed.

Lemma demo_pair_space x :
  x = 2 \/ x = 4 -> vspace x (mkVm (vm_frames demo_pair) demo_pair_mem (4096 * x) ∅ (4096 * 2) (4096 * 2)).
Proof.
  intros Hx. split; vm_simpl in *.
  - done.
  - split; [lia| | |].
    + unfold pde_frame. rewrite demo_pair_pde by (done || lia). by destruct Hx as [-> | ->].
    + rewrite demo_pair_pde by (done || lia). by destruct Hx as [-> | ->].
    + intros i j Hi Hj Hpi Hpj E. pose proof (demo_dir_frames x i Hx Hi Hpi).
      pose proof (demo_dir_frames x j Hx Hj Hpj). lia.
  - apply tlb_of_empty.
  - split; [split|]; try done. apply Forall_insert; [apply Forall_replicate|]; lia.
  - intros i Hi Hp _. change (frame_used (vm_frames demo_pair) (pde_frame demo_pair_mem x i) = true).
    destruct (demo_dir_frames x i Hx Hi Hp) as [[_ ->]|[[_ ->]|[_ ->]]]; [done|done|].
    by destruct Hx as [-> | ->].
Qed.

Lemma demo_two_spaces : two_spaces 2 4 demo_pair.
Proof.
  split.
  - by apply (demo_pair_space 2); left.
  - by apply (demo_pair_space 4); right.
  - intros j Hj Hp E. pose proof (demo_dir_frames 2 j ltac:(by left) Hj Hp). cbn [demo_pair vm_mem] in E. lia.
  - intros j Hj Hp E. pose proof (demo_dir_frames 4 j ltac:(by right) Hj Hp). cbn [demo_pair vm_mem] in E. lia.
  - cbn [demo_pair vm_mem]. intros i j Hi Hj Hpi Hpj E. pose proof (demo_dir_frames 4 i ltac:(by right) ltac:(lia) Hpi).
    pose proof (demo_dir_frames 2 j ltac:(by left) ltac:(lia) Hpj). lia.
  - cbn [demo_pair vm_mem]. by rewrite demo_pair_pde by (lia || by left).
Qed.

(** 5000 bytes of data and 1000 of zeros at 0x400010. *)
Definition demo_elf : list Z := replicate (Z.to_nat 6000) 7.
Definition demo_phdr : Elf32_Phdr := mkPhdr 1 16 0x400010 0x400010 5000 6000 6 4096.

