(* ===== verification/TaskUser.v ===== *)
(** * User tasks ([kernel/task.c], lines 49-95, 257-370 and 626-1037)

    Creation of user tasks from a kernel function, an ELF file or a flat binary, the
    replacement of a process image, the initial user stack and the release of the
    resources of a process.  Arguments are vectors of strings in virtual memory. *)

From stdpp Require Import base list gmap numbers option tactics.
From Stdlib Require Import Lia ZArith.
From S2P Require Import Prelude PhysMem Pmm Vmm Task Elf.

Definition USER_CODE_BASE : Z := 0x00400000.
Definition VGA_TEXT : Z := 0xB8000.
Definition KERNEL_TEMP_VADDR : Z := 0xC0800000.
Definition PAGE_PWU : Z := Z.lor (Z.lor PAGE_PRESENT PAGE_WRITE) PAGE_USER.
Definition PAGE_PU : Z := Z.lor PAGE_PRESENT PAGE_USER.

Section user.
Context {A : Type} `{!FrameAllocator A}.
Abbreviation E := (M (vm A)).
Abbreviation K := (M (kernel A)).

(** ** The C library on virtual memory *)

(** [fuel] bounds the length of the string. *)
Definition strlen (fuel : nat) (str : Z) : E Z :=
  iter fuel (fun len =>
    c <- vread8 (u32 (str + len)) ;;
    if c =? 0 then ret (inr len) else ret (inl (u32 (len + 1)))) 0.

Definition memcpy (dest src n : Z) : E unit :=
  for_each (Z.to_nat n) 0 (fun i => b <- vread8 (u32 (src + i)) ;; vwrite8 (u32 (dest + i)) b).

(** The byte loop [dst[k] = src[k]] over one page. *)
Definition copy_page (dst src : Z) : E unit :=
  for_each (Z.to_nat PAGE_SIZE) 0 (fun k => b <- vread8 (u32 (src + k)) ;; vwrite8 (u32 (dst + k)) b).

(** ** Release of resources *)

Definition task_unmap_user_page (t : ptr) (vaddr : Z) : K unit :=
  match t with
  | None => ret tt
  | Some _ =>
      x <- get_task t ;;
      if page_directory_phys x =? 0 then ret tt
      else in_vm (vmm_unmap_page_for_pdt (page_directory_phys x) vaddr)
  end.

(** Entry [i] of a frame array of the task. *)
Definition frame_get (t : ptr) (f : task -> list Z) (i : Z) : K Z :=
  x <- get_task t ;; some_or_trap (arr_get (f x) i).
Definition set_code_frame (t : ptr) (i v : Z) : K unit :=
  x <- get_task t ;; l <- some_or_trap (arr_set (user_code_frames x) i v) ;;
  upd_task t (fun x => x <| user_code_frames := l |>).
Definition set_heap_frame (t : ptr) (i v : Z) : K unit :=
  x <- get_task t ;; l <- some_or_trap (arr_set (user_heap_frames x) i v) ;;
  upd_task t (fun x => x <| user_heap_frames := l |>).

Definition task_cleanup_user_resources (t : ptr) : K unit :=
  match t with
  | None => ret tt
  | Some _ =>
      x <- get_task t ;;
      (if negb (user_stack_paddr x =? 0) && negb (user_stack_top x =? 0) && negb (user_stack_size x =? 0) then
         task_unmap_user_page t (u32 (user_stack_top x - user_stack_size x + PAGE_SIZE)) ;;
         in_vm (vm_free_frame (user_stack_paddr x)) ;;
         upd_task t (fun x => x <| user_stack_paddr := 0 |>)
       else ret tt) ;;
      x <- get_task t ;;
      for_each (Z.to_nat (user_code_frame_count x)) 0 (fun i =>
        f <- frame_get t user_code_frames i ;;
        if f =? 0 then ret tt
        else
          task_unmap_user_page t (u32 (USER_CODE_BASE + i * PAGE_SIZE)) ;;
          in_vm (vm_free_frame f) ;;
          set_code_frame t i 0) ;;
      upd_task t (fun x => x <| user_code_frame_count := 0 |> <| user_code_paddr := 0 |>) ;;
      x <- get_task t ;;
      for_each (Z.to_nat (user_heap_frame_count x)) 0 (fun i =>
        f <- frame_get t user_heap_frames i ;;
        if f =? 0 then ret tt
        else
          y <- get_task t ;;
          task_unmap_user_page t (u32 (user_heap_start y + i * PAGE_SIZE)) ;;
          in_vm (vm_free_frame f) ;;
          set_heap_frame t i 0) ;;
      upd_task t (fun x => x <| user_heap_frame_count := 0 |> <| user_heap_size := 0 |>)
  end.

(** ** The initial user stack *)

Definition MAX_ARGS : Z := 16.

(** [while (v[n] != NULL && n < 16) n++] *)
Definition count_args (v : Z) : E Z :=
  if v =? 0 then ret 0
  else iter 18 (fun n =>
         p <- vread32 (u32 (v + 4 * n)) ;;
         if negb (p =? 0) && (n <? MAX_ARGS) then ret (inl (n + 1)) else ret (inr n)) 0.

(** The strings of [v], the last one first, below [offset]; the answer is the new
    offset and the user addresses of the strings, in order. *)
Definition push_strings (fuel : nat) (v n stack_page_vaddr offset : Z) : E (option (Z * list Z)) :=
  r <- for_ (Z.to_nat n) 0 (fun j '(offset, ptrs) =>
         let i := n - 1 - j in
         s <- vread32 (u32 (v + 4 * i)) ;;
         l <- strlen fuel s ;;
         let len := u32 (l + 1) in
         if offset <? len then ret (inr tt)
         else
           let offset := offset - len in
           for_each (Z.to_nat len) 0 (fun byte =>
             s <- vread32 (u32 (v + 4 * i)) ;;
             b <- vread8 (u32 (s + byte)) ;;
             vwrite8 (VMM_TEMP_PAGE + (offset + byte)) b) ;;
           ret (inl (offset, u32 (stack_page_vaddr + offset) :: ptrs))) (offset, []) ;;
  match r with inl p => ret (Some p) | inr _ => ret None end.

(** A NULL and the pointers, the last one first. *)
Definition push_words (ptrs : list Z) (offset : Z) : E Z :=
  let offset := offset - 4 in
  vwrite32 (VMM_TEMP_PAGE + offset) 0 ;;
  r <- for_ (R := Empty_set) (length ptrs) 0 (fun j offset =>
         let offset := offset - 4 in
         p <- some_or_trap (ptrs !! (length ptrs - 1 - Z.to_nat j)%nat) ;;
         vwrite32 (VMM_TEMP_PAGE + offset) p ;; ret (inl offset)) offset ;;
  match r with inl offset => ret offset | inr e => match e with end end.

Definition push_word (w offset : Z) : E Z :=
  vwrite32 (VMM_TEMP_PAGE + (offset - 4)) w ;; ret (offset - 4).

(** The page of the stack, in the temporary window; [None] is the answer -1. *)
Definition build_user_stack (fuel : nat) (stack_page_vaddr argv envp return_address : Z) : E (option Z) :=
  vmemset VMM_TEMP_PAGE 0 PAGE_SIZE ;;
  argc <- count_args argv ;;
  envc <- count_args envp ;;
  r <- push_strings fuel envp envc stack_page_vaddr PAGE_SIZE ;;
  match r with
  | None => ret None
  | Some (offset, env_ptrs) =>
      let offset := Z.land offset (Z.lnot 3) in
      r <- push_strings fuel argv argc stack_page_vaddr offset ;;
      match r with
      | None => ret None
      | Some (offset, arg_ptrs) =>
          let offset := Z.land offset (Z.lnot 3) in
          let stack_metadata_size := (envc + 1 + argc + 1) * 4 + 4 + (if return_address =? 0 then 0 else 4) in
          if offset <? stack_metadata_size then ret None
          else
            offset <- push_words env_ptrs offset ;;
            offset <- push_words arg_ptrs offset ;;
            offset <- push_word argc offset ;;
            offset <- (if return_address =? 0 then ret offset else push_word return_address offset) ;;
            ret (Some offset)
      end
  end.

Definition task_setup_user_stack (fuel : nat) (t : ptr) (argv envp return_address : Z) : K bool :=
  match t with
  | None => ret false
  | Some _ =>
      x <- get_task t ;;
      if (user_stack_top x =? 0) || (user_stack_size x =? 0) then ret false
      else
        let stack_page_vaddr := u32 (user_stack_top x - PAGE_SIZE) in
        if user_stack_paddr x =? 0 then ret false
        else
          in_vm (vmm_map_kernel_page VMM_TEMP_PAGE (user_stack_paddr x)) ;;
          r <- in_vm (build_user_stack fuel stack_page_vaddr argv envp return_address) ;;
          match r with
          | None => in_vm (vmm_unmap_page VMM_TEMP_PAGE) ;; ret false
          | Some offset =>
              upd_task t (fun x => x <| context := (context x) <| esp := u32 (stack_page_vaddr + offset) |> |>) ;;
              in_vm (vmm_unmap_page VMM_TEMP_PAGE) ;;
              ret true
          end
  end.

(** ** Creation *)

(** The failure exit of the creation functions. *)
Definition abandon (t : ptr) : K ptr := upd_task t (fun x => x <| state := TASK_UNUSED |>) ;; ret None.

(** The part the three creation functions begin with: an entry of the table, a
    directory, the VGA page and the type; [None] is their early [return NULL]. *)
Definition user_task_base (ty : task_type) (user_stack_top_ user_stack_size_ : Z) : K ptr :=
  t <- task_alloc ;;
  match t with
  | None => ret None
  | Some _ =>
      user_pdt <- in_vm vmm_clone_kernel_mappings ;;
      if user_pdt =? 0 then abandon t
      else
        upd_task t (fun x => x <| page_directory_phys := user_pdt |>) ;;
        in_vm (vmm_map_page_for_pdt user_pdt VGA_TEXT VGA_TEXT PAGE_PWU) ;;
        upd_task t (fun x => x <| type := ty |> <| user_stack_top := user_stack_top_ |>
          <| user_stack_size := user_stack_size_ |> <| state := TASK_READY |> <| ticks := 0 |>
          <| quantum := TASK_QUANTUM_DEFAULT |>) ;;
        ret t
  end.

Definition set_eip (t : ptr) (e : Z) : K unit :=
  upd_task t (fun x => x <| context := (context x) <| eip := e |> |>).

Definition task_create_user (entry_point user_stack_top_ user_stack_size_ : Z) : K ptr :=
  if (user_stack_top_ =? 0) || (user_stack_size_ =? 0) then ret None
  else
    t <- user_task_base TASK_TYPE_USER user_stack_top_ user_stack_size_ ;;
    match t with
    | None => ret None
    | Some _ =>
        x <- get_task t ;;
        let user_pdt := page_directory_phys x in
        stack_paddr <- in_vm vm_alloc_frame ;;
        if stack_paddr =? 0 then abandon t
        else
          upd_task t (fun x => x <| user_stack_paddr := stack_paddr |>) ;;
          code_paddr <- in_vm vm_alloc_frame ;;
          if code_paddr =? 0 then abandon t
          else
            upd_task t (fun x => x <| user_code_paddr := code_paddr |>) ;;
            in_vm (vmm_map_kernel_page KERNEL_TEMP_VADDR code_paddr) ;;
            in_vm (copy_page KERNEL_TEMP_VADDR entry_point) ;;
            in_vm (vmm_unmap_page KERNEL_TEMP_VADDR) ;;
            in_vm (vmm_map_page_for_pdt user_pdt (u32 (user_stack_top_ - PAGE_SIZE)) stack_paddr PAGE_PWU) ;;
            in_vm (vmm_map_page_for_pdt user_pdt USER_CODE_BASE code_paddr PAGE_PU) ;;
            task_create_context t entry_point ;;
            set_eip t USER_CODE_BASE ;;
            task_enqueue t ;;
            ret t
    end.

(** The frames of the code stored in the task. *)
Definition record_code_frames (t : ptr) (frames : list Z) : K unit :=
  upd_task t (fun x => x <| user_code_frame_count := Z.of_nat (length frames) |>
    <| user_code_paddr := default 0 (head frames) |>) ;;
  for_each (length frames) 0 (fun i => f <- some_or_trap (frames !! Z.to_nat i) ;; set_code_frame t i f).

(** [pmm_free_frame] of the stack frame, and of every code frame, which is cleared. *)
Definition free_user_stack (t : ptr) : K unit :=
  x <- get_task t ;;
  in_vm (vm_free_frame (user_stack_paddr x)) ;;
  upd_task t (fun x => x <| user_stack_paddr := 0 |>).
Definition free_code_frames (t : ptr) : K unit :=
  x <- get_task t ;;
  for_each (Z.to_nat (user_code_frame_count x)) 0 (fun i =>
    f <- frame_get t user_code_frames i ;;
    (if f =? 0 then ret tt else in_vm (vm_free_frame f)) ;;
    set_code_frame t i 0) ;;
  upd_task t (fun x => x <| user_code_frame_count := 0 |>).

(** The failure exit after the stack could not be built. *)
Definition abandon_stack (t : ptr) : K ptr :=
  x <- get_task t ;;
  (if user_stack_paddr x =? 0 then ret tt else free_user_stack t) ;;
  free_code_frames t ;;
  abandon t.

Definition task_create_user_from_elf (fuel : nat) (elf_data : option (list Z))
    (user_stack_top_ user_stack_size_ argv envp : Z) : K ptr :=
  if negb (bool_decide (is_Some elf_data)) || bool_decide (elf_data = Some []) ||
     (user_stack_top_ =? 0) || (user_stack_size_ =? 0) then ret None
  else
    t <- user_task_base TASK_TYPE_USER_PROCESS user_stack_top_ user_stack_size_ ;;
    match t with
    | None => ret None
    | Some _ =>
        x <- get_task t ;;
        let user_pdt := page_directory_phys x in
        stack_paddr <- in_vm vm_alloc_frame ;;
        if stack_paddr =? 0 then abandon t
        else
          upd_task t (fun x => x <| user_stack_paddr := stack_paddr |>) ;;
          in_vm (vmm_map_page_for_pdt user_pdt (u32 (user_stack_top_ - PAGE_SIZE)) stack_paddr PAGE_PWU) ;;
          r <- in_vm (load_elf elf_data user_pdt) ;;
          match r with
          | None => free_user_stack t ;; abandon t
          | Some (entry_point, page_frames) =>
              record_code_frames t page_frames ;;
              ok <- task_setup_user_stack fuel t argv envp 0 ;;
              if (ok : bool) then
                task_create_context t entry_point ;;
                set_eip t entry_point ;;
                task_enqueue t ;;
                ret t
              else abandon_stack t
          end
    end.

(** [false] is the answer -1. *)
Definition task_replace_process_image (fuel : nat) (t : ptr) (elf_data : option (list Z)) (argv envp : Z) : K bool :=
  match t with
  | None => ret false
  | Some _ =>
      x <- get_task t ;;
      if decide (type x <> TASK_TYPE_USER_PROCESS) then ret false
      else
        task_cleanup_user_resources t ;;
        x <- get_task t ;;
        let user_stack_vaddr := u32 (user_stack_top x - user_stack_size x) in
        stack_paddr <- in_vm vm_alloc_frame ;;
        if stack_paddr =? 0 then ret false
        else
          upd_task t (fun x => x <| user_stack_paddr := stack_paddr |>) ;;
          in_vm (vmm_map_page_for_pdt (page_directory_phys x) (u32 (user_stack_vaddr + PAGE_SIZE)) stack_paddr PAGE_PWU) ;;
          r <- in_vm (load_elf elf_data (page_directory_phys x)) ;;
          match r with
          | None => free_user_stack t ;; ret false
          | Some (entry_point, page_frames) =>
              record_code_frames t page_frames ;;
              ok <- task_setup_user_stack fuel t argv envp 0 ;;
              if (ok : bool) then
                task_create_context t entry_point ;;
                set_eip t entry_point ;;
                ret true
              else
                y <- get_task t ;;
                (if user_stack_paddr y =? 0 then ret tt else upd_task t (fun x => x <| user_stack_paddr := 0 |>)) ;;
                free_code_frames t ;;
                ret false
          end
  end.

(** ** A flat binary *)

(** Frames for the pages of the binary, mapped one after the other from the code
    base; [inr] holds the frames obtained before the memory ran out. *)
Definition map_binary_pages (user_pdt pages_needed : Z) : E (list Z + list Z) :=
  for_ (Z.to_nat pages_needed) 0 (fun i page_frames =>
    frame <- vm_alloc_frame ;;
    if frame =? 0 then ret (inr page_frames)
    else
      vmm_map_page_for_pdt user_pdt (u32 (USER_CODE_BASE + i * PAGE_SIZE)) frame PAGE_PWU ;;
      ret (inl (page_frames ++ [frame]))) [].

Definition free_frames (l : list Z) : E unit :=
  for_each (length l) 0 (fun j => f <- some_or_trap (l !! Z.to_nat j) ;; vm_free_frame f).

(** The bytes of the binary at [binary_data], copied page by page. *)
Definition copy_binary (page_frames : list Z) (binary_data binary_size : Z) : E unit :=
  r <- for_ (length page_frames) 0 (fun i bytes_copied =>
         if bytes_copied <? binary_size then
           f <- some_or_trap (page_frames !! Z.to_nat i) ;;
           vmm_map_kernel_page VMM_TEMP_PAGE f ;;
           let copy_size := if binary_size <? bytes_copied + PAGE_SIZE then binary_size - bytes_copied else PAGE_SIZE in
           memcpy VMM_TEMP_PAGE (u32 (binary_data + bytes_copied)) copy_size ;;
           vmm_unmap_page VMM_TEMP_PAGE ;;
           ret (inl (bytes_copied + copy_size))
         else ret (inr tt)) 0 ;;
  ret tt.

(** [mov ..., ...; mov eax, 2; int 0x80] *)
Definition exit_stub : list Z := [0x89; 0xD8; 0xB8; 0x02; 0x00; 0x00; 0x00; 0xCD; 0x80].
Definition write_stub : E unit :=
  for_each (length exit_stub) 0 (fun i => b <- some_or_trap (exit_stub !! Z.to_nat i) ;; vwrite8 (VMM_TEMP_PAGE + i) b).

Definition task_create_user_from_binary (fuel : nat) (binary_data binary_size user_stack_top_ user_stack_size_
    argv envp : Z) : K ptr :=
  if (binary_data =? 0) || (binary_size =? 0) || (user_stack_top_ =? 0) || (user_stack_size_ =? 0) then ret None
  else
    t <- user_task_base TASK_TYPE_USER_PROCESS user_stack_top_ user_stack_size_ ;;
    match t with
    | None => ret None
    | Some _ =>
        x <- get_task t ;;
        let user_pdt := page_directory_phys x in
        stack_paddr <- in_vm vm_alloc_frame ;;
        if stack_paddr =? 0 then abandon t
        else
          upd_task t (fun x => x <| user_stack_paddr := stack_paddr |>) ;;
          in_vm (vmm_map_page_for_pdt user_pdt (u32 (user_stack_top_ - PAGE_SIZE)) stack_paddr PAGE_PWU) ;;
          let pages_needed := u32 (binary_size + PAGE_SIZE - 1) / PAGE_SIZE in
          if Z.of_nat MAX_USER_CODE_PAGES <? pages_needed + 1 then free_user_stack t ;; abandon t
          else
            r <- in_vm (map_binary_pages user_pdt pages_needed) ;;
            match r with
            | inr got => in_vm (free_frames got) ;; free_user_stack t ;; abandon t
            | inl page_frames =>
                in_vm (copy_binary page_frames binary_data binary_size) ;;
                let page_count := Z.of_nat (length page_frames) in
                if Z.of_nat MAX_USER_CODE_PAGES <? page_count + 1 then
                  in_vm (free_frames page_frames) ;; free_user_stack t ;; abandon t
                else
                  stub_frame <- in_vm vm_alloc_frame ;;
                  if stub_frame =? 0 then in_vm (free_frames page_frames) ;; free_user_stack t ;; abandon t
                  else
                    let all := page_frames ++ [stub_frame] in
                    for_each (length all) 0 (fun i => f <- some_or_trap (all !! Z.to_nat i) ;; set_code_frame t i f) ;;
                    upd_task t (fun x => x <| user_code_frame_count := Z.of_nat (length all) |>
                      <| user_code_paddr := default 0 (head page_frames) |>) ;;
                    let stub_vaddr := u32 (USER_CODE_BASE + page_count * PAGE_SIZE) in
                    in_vm (vmm_map_page_for_pdt user_pdt stub_vaddr stub_frame PAGE_PU) ;;
                    in_vm (vmm_map_kernel_page VMM_TEMP_PAGE stub_frame) ;;
                    in_vm write_stub ;;
                    in_vm (vmm_unmap_page VMM_TEMP_PAGE) ;;
                    ok <- task_setup_user_stack fuel t argv envp stub_vaddr ;;
                    if (ok : bool) then
                      task_create_context t USER_CODE_BASE ;;
                      set_eip t USER_CODE_BASE ;;
                      task_enqueue t ;;
                      ret t
                    else abandon_stack t
            end
    end.
End user.
