(* ===== verification/UserStack.v ===== *)
(** * The initial stack of a process ([kernel/task.c], [task_setup_user_stack])

    The page the kernel prepares is described as a function of the argument and
    environment strings: the strings at its end, below them the vectors of
    pointers, the number of arguments and, when asked for, a return address. *)

From stdpp Require Import base list gmap numbers option tactics.
From Stdlib Require Import Lia ZArith.
From S2P Require Import Prelude PhysMem Pmm Vmm Task Sched SchedFair ElfSpec TaskUser.

(** ** Bytes laid out in a page *)

(** The list [l] over the contents [P], from offset [o] on. *)
Definition paste (P : Z -> Z) (o : Z) (l : list Z) (x : Z) : Z :=
  if decide (o <= x < o + Z.of_nat (length l)) then default 0 (l !! Z.to_nat (x - o)) else P x.

Definition strings (ls : list (list Z)) : list Z := mjoin ((fun l => l ++ [0]) <$> ls).
Definition words (ws : list Z) : list Z := mjoin (le_bytes 4 <$> ws).

(** The addresses of the strings when the first one is at [o]. *)
Fixpoint addresses (base o : Z) (ls : list (list Z)) : list Z :=
  match ls with
  | [] => []
  | l :: ls' => u32 (base + o) :: addresses base (o + Z.of_nat (length l) + 1) ls'
  end.

Lemma paste_nil P o x : paste P o [] x = P x.
Proof. unfold paste. rewrite decide_False; [done|]. cbn. lia. Qed.

Lemma paste_app P o l1 l2 x :
  paste (paste P (o + Z.of_nat (length l1)) l2) o l1 x = paste P o (l1 ++ l2) x.
Proof.
  unfold paste. rewrite length_app, Nat2Z.inj_add. repeat case_decide; try lia; try done.
  - by rewrite lookup_app_l by lia.
  - rewrite lookup_app_r by lia. do 2 f_equal. lia.
Qed.

Lemma paste_snoc P o l1 l2 o2 x :
  o2 = o + Z.of_nat (length l1) -> paste (paste P o l1) o2 l2 x = paste P o (l1 ++ l2) x.
Proof.
  intros ->. rewrite <- paste_app. unfold paste. repeat case_decide; try done; lia.
Qed.

Lemma paste_in P o l i c : l !! i = Some c -> paste P o l (o + Z.of_nat i) = c.
Proof.
  intros Hi. pose proof (lookup_lt_Some _ _ _ Hi). unfold paste. rewrite decide_True by lia.
  by replace (Z.to_nat (o + Z.of_nat i - o)) with i by lia; rewrite Hi.
Qed.

Lemma paste_out P o l x : ~ o <= x < o + Z.of_nat (length l) -> paste P o l x = P x.
Proof. intros H. unfold paste. by rewrite decide_False. Qed.

Lemma paste_ext P P' o l x : P x = P' x -> paste P o l x = paste P' o l x.
Proof. intros H. unfold paste. by case_decide. Qed.

Lemma words_cons w ws : words (w :: ws) = le_bytes 4 w ++ words ws.
Proof. done. Qed.

Lemma length_pushed_words ws : length (words ws) = (4 * length ws)%nat.
Proof. induction ws as [|w ws IH]; [done|]. rewrite words_cons, length_app, length_le_bytes, IH. cbn [length]. lia. Qed.

Lemma words_snoc ws w : words (ws ++ [w]) = words ws ++ le_bytes 4 w.
Proof. unfold words. rewrite fmap_app, join_app. cbn [fmap list_fmap mjoin list_join]. by rewrite app_nil_r. Qed.

Lemma words_app ws vs : words (ws ++ vs) = words ws ++ words vs.
Proof. unfold words. by rewrite fmap_app, join_app. Qed.

Lemma words_lookup ws i w : ws !! i = Some w -> take 4 (drop (4 * i) (words ws)) = le_bytes 4 w.
Proof.
  revert i. induction ws as [|v ws IH]; intros [|i] Hi; [done|done|injection Hi as ->|]; rewrite words_cons.
  - by rewrite drop_0, take_app_length' by (by rewrite length_le_bytes).
  - rewrite <- (IH i Hi). replace (4 * S i)%nat with (4 + 4 * i)%nat by lia. rewrite <- drop_drop.
    by rewrite (drop_app_length' (le_bytes 4 v)) by (by rewrite length_le_bytes).
Qed.

Lemma strings_cons l ls : strings (l :: ls) = (l ++ [0]) ++ strings ls.
Proof. done. Qed.

Lemma length_strings l ls : Z.of_nat (length (strings (l :: ls))) = Z.of_nat (length l) + 1 + Z.of_nat (length (strings ls)).
Proof. rewrite strings_cons, !length_app. cbn [length]. lia. Qed.

Lemma strings_drop i ls : Z.of_nat (length (strings (drop i ls))) <= Z.of_nat (length (strings ls)).
Proof.
  revert i. induction ls as [|l ls IH]; intros [|i]; try done. cbn [drop]. rewrite length_strings. pose proof (IH i). lia.
Qed.

(** *** The layout of the page *)

Definition align4 (o : Z) : Z := 4 * (o / 4).

(** Where the environment, the arguments and the vectors begin. *)
Definition env_offset (envs : list (list Z)) : Z := 4096 - Z.of_nat (length (strings envs)).
Definition arg_offset (args envs : list (list Z)) : Z :=
  align4 (env_offset envs) - Z.of_nat (length (strings args)).
Definition stack_words (base : Z) (args envs : list (list Z)) (ra : Z) : list Z :=
  (if ra =? 0 then [] else [ra]) ++ [Z.of_nat (length args)] ++
  (addresses base (arg_offset args envs) args ++ [0]) ++ addresses base (env_offset envs) envs ++ [0].
Definition stack_offset (args envs : list (list Z)) (ra : Z) : Z :=
  align4 (arg_offset args envs) - 4 * Z.of_nat (length (stack_words 0 args envs ra)).

Definition stack_page (base : Z) (args envs : list (list Z)) (ra : Z) : Z -> Z :=
  paste (paste (paste (fun _ => 0) (env_offset envs) (strings envs)) (arg_offset args envs) (strings args))
    (stack_offset args envs ra) (words (stack_words base args envs ra)).

Lemma align4_land o : Z.land o (Z.lnot 3) = align4 o.
Proof.
  change (Z.lnot 3) with (Z.lnot (Z.ones 2)). rewrite <- Z.ldiff_land, Z.ldiff_ones_r by lia.
  rewrite Z.shiftl_mul_pow2, Z.shiftr_div_pow2 by lia. unfold align4. change (2 ^ 2) with 4. lia.
Qed.

Lemma align4_bounds o : align4 o <= o < align4 o + 4.
Proof. unfold align4. pose proof (Z.div_mod o 4 ltac:(lia)). pose proof (Z.mod_pos_bound o 4 ltac:(lia)). lia. Qed.

Lemma align4_mod o : align4 o mod 4 = 0.
Proof. unfold align4. rewrite Z.mul_comm. by apply Z.mod_mul. Qed.

Lemma align4_nonneg o : 0 <= o -> 0 <= align4 o.
Proof. intros H. unfold align4. pose proof (Z.div_pos o 4 H ltac:(lia)). lia. Qed.

Lemma length_addresses base o ls : length (addresses base o ls) = length ls.
Proof. revert o. induction ls as [|l ls IH]; intros o; [done|]. cbn [addresses length]. by rewrite IH. Qed.

Lemma length_stack_words base args envs ra :
  length (stack_words base args envs ra) = (length args + length envs + if (ra =? 0)%Z then 3 else 4)%nat.
Proof. unfold stack_words. rewrite !length_app, !length_addresses. destruct (ra =? 0); cbn [length]; lia. Qed.

Lemma stack_offset_eq base args envs ra :
  stack_offset args envs ra = align4 (arg_offset args envs) - 4 * Z.of_nat (length (stack_words base args envs ra)).
Proof. unfold stack_offset. by rewrite !length_stack_words. Qed.

(** A page too small for a part is too small for the whole. *)
Lemma stack_offset_below args envs ra :
  stack_offset args envs ra <= align4 (arg_offset args envs) - 12 /\
  arg_offset args envs <= env_offset envs <= 4096.
Proof.
  unfold stack_offset, arg_offset, env_offset. rewrite length_stack_words.
  pose proof (align4_bounds (4096 - Z.of_nat (length (strings envs)))). destruct (ra =? 0); lia.
Qed.

(** *** What the process finds in the page *)

(** The pointer [p] names the string [l] in the page at [base], frame [F]. *)
Definition names (m : gmap Z Z) (F base p : Z) (l : list Z) : Prop := exists o,
  p = u32 (base + o) /\ 0 <= o /\ o + Z.of_nat (length l) + 1 <= 4096 /\
  forall i c, (l ++ [0]) !! i = Some c -> read8 m (4096 * F + (o + Z.of_nat i)) = c.

(** From [esp] on: the return address if there is one, the number of arguments, the
    NULL-terminated vectors of the arguments and of the environment. *)
Definition process_stack (m : gmap Z Z) (F base off : Z) (args envs : list (list Z)) (ra : Z) : Prop :=
  0 <= off /\ off mod 4 = 0 /\ exists ps qs,
    Forall2 (names m F base) ps args /\ Forall2 (names m F base) qs envs /\
    forall i w, ((if ra =? 0 then [] else [ra]) ++ [Z.of_nat (length args)] ++ (ps ++ [0]) ++ qs ++ [0]) !! i = Some w ->
      read32 m (4096 * F + (off + 4 * Z.of_nat i)) = w.

Definition shows (m : gmap Z Z) (F o : Z) (l : list Z) : Prop :=
  forall i c, l !! i = Some c -> read8 m (4096 * F + (o + Z.of_nat i)) = c.

Lemma shows_app m F o l1 l2 :
  shows m F o (l1 ++ l2) -> shows m F o l1 /\ shows m F (o + Z.of_nat (length l1)) l2.
Proof.
  intros H. split; intros i c Hi.
  - apply H. by apply lookup_app_l_Some.
  - replace (o + Z.of_nat (length l1) + Z.of_nat i) with (o + Z.of_nat (length l1 + i)) by lia.
    apply H. rewrite lookup_app_r by lia. by replace (length l1 + i - length l1)%nat with i by lia.
Qed.

Lemma shows_names m F base o ls :
  0 <= o -> o + Z.of_nat (length (strings ls)) <= 4096 -> shows m F o (strings ls) ->
  Forall2 (names m F base) (addresses base o ls) ls.
Proof.
  revert o. induction ls as [|l ls IH]; intros o Ho Hl Hs; [constructor|]. rewrite length_strings in Hl.
  rewrite strings_cons in Hs. apply shows_app in Hs as [H1 H2]. rewrite length_app in H2. cbn [addresses length] in *.
  constructor; [|apply IH; [lia|lia|]].
  - exists o. split_and!; [done|done|lia|exact H1].
  - by replace (o + Z.of_nat (length l) + 1) with (o + Z.of_nat (length l + 1)) by lia.
Qed.

Lemma shows_words m F o ws i w :
  shows m F o (words ws) -> ws !! i = Some w -> 0 <= w < 4294967296 ->
  read32 m (4096 * F + (o + 4 * Z.of_nat i)) = w.
Proof.
  intros Hs Hi Hw. pose proof (words_lookup _ _ _ Hi) as Hl. unfold read32.
  replace (read_bytes m (4096 * F + (o + 4 * Z.of_nat i)) 4) with (le_bytes 4 w).
  { rewrite le_value_bytes. by apply Z.mod_small. }
  rewrite <- Hl. apply list_eq_same_length with 4%nat; [by rewrite length_read_bytes|by rewrite Hl, length_le_bytes|].
  intros j b c Hj Hb Hc. rewrite read_bytes_lookup in Hc by done. simplify_eq.
  apply lookup_take_Some in Hb as [Hb _]. rewrite lookup_drop in Hb. apply Hs in Hb. rewrite <- Hb. f_equal. lia.
Qed.

Lemma shows_paste m F P o l :
  (forall x, o <= x < 4096 -> read8 m (4096 * F + x) = paste P o l x) -> o + Z.of_nat (length l) <= 4096 ->
  shows m F o l.
Proof.
  intros H Hl i c Hi. pose proof (lookup_lt_Some _ _ _ Hi). rewrite H by lia. by apply paste_in.
Qed.

Lemma addresses_range base o ls : Forall (fun p => 0 <= p < 4294967296) (addresses base o ls).
Proof. revert o. induction ls as [|l ls IH]; intros o; constructor; [apply u32_range|apply IH]. Qed.

Lemma stack_words_range base args envs ra :
  (length args <= 16)%nat -> 0 <= ra < 4294967296 ->
  Forall (fun w => 0 <= w < 4294967296) (stack_words base args envs ra).
Proof.
  intros Ha Hr. unfold stack_words. repeat apply Forall_app_2; try apply addresses_range;
    [destruct (ra =? 0)|..]; repeat constructor; lia.
Qed.

Lemma stack_page_process m F base args envs ra :
  (length args <= 16)%nat -> 0 <= ra < 4294967296 -> 0 <= stack_offset args envs ra ->
  (forall x, 0 <= x < 4096 -> read8 m (4096 * F + x) = stack_page base args envs ra x) ->
  process_stack m F base (stack_offset args envs ra) args envs ra.
Proof.
  intros Ha Hr Ho Hm. destruct (stack_offset_below args envs ra) as [H1 H2].
  pose proof (align4_bounds (arg_offset args envs)). pose proof (align4_bounds (env_offset envs)).
  pose proof (stack_offset_eq base args envs ra) as Eo. pose proof (length_pushed_words (stack_words base args envs ra)) as Hlw.
  assert (arg_offset args envs + Z.of_nat (length (strings args)) = align4 (env_offset envs)) as Ea
    by (unfold arg_offset; lia).
  assert (env_offset envs + Z.of_nat (length (strings envs)) = 4096) as Ee by (unfold env_offset; lia).
  split; [done|]. split.
  { rewrite Eo. replace (_ - _) with (align4 (arg_offset args envs) + - Z.of_nat (length (stack_words base args envs ra)) * 4) by lia.
    rewrite Z.mod_add by lia. apply align4_mod. }
  exists (addresses base (arg_offset args envs) args), (addresses base (env_offset envs) envs). split_and!.
  - apply shows_names; [lia|lia|]. eapply shows_paste; [|lia].
    intros x Hx. rewrite Hm by lia. apply paste_out. lia.
  - apply shows_names; [lia|lia|]. eapply shows_paste; [|lia].
    intros x Hx. rewrite Hm by lia. unfold stack_page. rewrite !paste_out by lia. reflexivity.
  - intros i w Hi. apply shows_words with (stack_words base args envs ra); [|exact Hi|].
    + eapply shows_paste; [intros x Hx; apply Hm; lia|lia].
    + by apply (proj1 (list.Forall_lookup _ _) (stack_words_range base args envs ra Ha Hr) i).
Qed.

(** ** Strings and vectors in the memory of the caller *)

(** The byte and the aligned word at a virtual address: its page is neither the
    temporary one nor a page table, and its frame is not one of [X]. *)
Definition source {A} (d : Z) (X : list Z) (s : vm A) (va f : Z) : Prop :=
  0 <= va < 4294967296 /\ va / 4096 < 1023 * 1024 /\ va / 4096 <> TEMP_PG /\ (f ∉ X) /\
  walk (vm_mem s) (4096 * d) (va / 4096) = Some (4096 * f).
Definition src8 {A} (d : Z) (X : list Z) (s : vm A) (va b : Z) : Prop := exists f,
  source d X s va f /\ read8 (vm_mem s) (4096 * f + va mod 4096) = b.
Definition src32 {A} (d : Z) (X : list Z) (s : vm A) (va w : Z) : Prop := exists f,
  source d X s va f /\ va mod 4 = 0 /\ read32 (vm_mem s) (4096 * f + va mod 4096) = w.

Section vectors.
Context (R8 R32 : Z -> Z -> Prop).

Definition c_str (va : Z) (l : list Z) : Prop :=
  0 < va /\ va + Z.of_nat (length l) < 4294967296 /\ Forall (fun b => 0 < b < 256) l /\
  forall i c, (l ++ [0]) !! i = Some c -> R8 (va + Z.of_nat i) c.

(** A NULL-terminated vector of strings, or no vector. *)
Definition vector (v : Z) (ls : list (list Z)) : Prop :=
  v = 0 /\ ls = [] \/
  0 < v /\ v + 4 * Z.of_nat (length ls) + 4 <= 4294967296 /\ exists ps, Forall2 c_str ps ls /\
    forall i w, (ps ++ [0]) !! i = Some w -> R32 (v + 4 * Z.of_nat i) w.
End vectors.

Lemma vector_mono (R8 R8' R32 R32' : Z -> Z -> Prop) v ls :
  (forall va b, R8 va b -> R8' va b) -> (forall va w, R32 va w -> R32' va w) ->
  vector R8 R32 v ls -> vector R8' R32' v ls.
Proof.
  intros H8 H32 [?|(Hv & Hl & ps & HF & Hp)]; [by left|right].
  split_and!; [done|done|]. exists ps. split; [|by eauto].
  eapply list.Forall2_impl; [exact HF|]. intros p l (H1 & H2 & H3 & H4). split_and!; eauto.
Qed.

(** ** The page in the temporary window *)

Section window.
Context {A : Type} `{!FrameAllocator A} (d F : Z) (s0 : vm A).
Context (Hv : vspace d s0) (HF : fresh_frame (vm_mem s0) d F)
  (Hw : walk (vm_mem s0) (4096 * d) TEMP_PG = Some (4096 * F)).

(** The page shows [P]; nothing else changed but the TLB. *)
Definition at_page (P : Z -> Z) (s : vm A) : Prop := exists m t,
  s = set_mem m (set_tlb t s0) /\ tlb_of m (4096 * d) t /\ only_frame F (vm_mem s0) m /\
  forall o, 0 <= o < 4096 -> read8 m (4096 * F + o) = P o.

Lemma at_page_ext P P' s : at_page P s -> (forall o, 0 <= o < 4096 -> P' o = P o) -> at_page P' s.
Proof.
  intros (m & t & -> & Ht & Ho & HP) HE. exists m, t. split_and!; [done..|]. intros o Hr. by rewrite HE, HP.
Qed.

Lemma window_walk m pg :
  only_frame F (vm_mem s0) m -> 0 <= pg < 1048576 -> walk m (4096 * d) pg = walk (vm_mem s0) (4096 * d) pg.
Proof using Hv HF.
  intros Ho. destruct (fresh_same _ _ (vs_tables _ _ Hv) m F HF Ho) as (_ & _ & H). apply H.
Qed.

Lemma only_frame_trans m1 m2 m3 : only_frame F m1 m2 -> only_frame F m2 m3 -> only_frame F m1 m3.
Proof. intros H1 H2 a Ha. by rewrite H2, H1. Qed.

Lemma only_frame_bytes m o l :
  0 <= o -> o + Z.of_nat (length l) <= 4096 -> only_frame F m (write_bytes m (4096 * F + o) l).
Proof.
  intros Ho Hl a Ha. apply read8_write_bytes_out. intros Hr. apply Ha. symmetry.
  apply Z.div_unique with (a - 4096 * F); lia.
Qed.

(** The page after bytes were written at [o]. *)
Lemma at_page_write P m t t' o l :
  0 <= o -> o + Z.of_nat (length l) <= 4096 -> Forall (fun b => 0 <= b < 256) l ->
  only_frame F (vm_mem s0) m -> (forall x, 0 <= x < 4096 -> read8 m (4096 * F + x) = P x) ->
  tlb_of m (4096 * d) t' ->
  at_page (paste P o l) (set_mem (write_bytes m (4096 * F + o) l) (set_tlb t' (set_mem m (set_tlb t s0)))).
Proof using Hv HF.
  intros Ho Hl Hb Hof HP Ht. eexists _, t'. pose proof (only_frame_bytes m o l Ho Hl) as Hof'.
  split_and!; [reflexivity| |by eapply only_frame_trans|].
  - eapply tlb_of_walk_eq; [exact Ht|]. intros pg Hpg. rewrite (window_walk m) by done.
    rewrite window_walk by (done || by eapply only_frame_trans). done.
  - intros x Hx. unfold paste. case_decide as Hr.
    + destruct (lookup_lt_is_Some_2 l (Z.to_nat (x - o))) as [b Hlb]; [lia|]. rewrite Hlb.
      replace (4096 * F + x) with (4096 * F + o + Z.of_nat (Z.to_nat (x - o))) by lia.
      rewrite (read8_write_bytes_in _ _ _ _ _ Hlb). apply u8_small. by eapply (proj1 (list.Forall_lookup _ _) Hb).
    + rewrite read8_write_bytes_out by lia. by apply HP.
Qed.

Lemma wp_page_byte P s o b (Q : unit -> vm A -> Prop) :
  at_page P s -> 0 <= o < 4096 -> 0 <= b < 256 -> (forall s', at_page (paste P o [b]) s' -> Q tt s') ->
  wp (vwrite8 (VMM_TEMP_PAGE + o) b) Q s.
Proof using Hv HF Hw.
  intros (m & t & -> & Ht & Hof & HP) Ho Hb HQ. rewrite temp_page_addr. pose proof (vs_cr3 _ _ Hv) as Hc.
  apply (wp_vwrite8 _ TEMP_PG o F); vm_simpl in *; rewrite ?Hc; [by compute|done|done|by rewrite window_walk|].
  intros t' Ht'. apply HQ. apply (at_page_write P m t t' o [b]); [lia|cbn; lia|by apply list.Forall_singleton|done|done|done].
Qed.

Lemma wp_page_word P s o w (Q : unit -> vm A -> Prop) :
  at_page P s -> 0 <= o -> o + 4 <= 4096 -> o mod 4 = 0 -> (forall s', at_page (paste P o (le_bytes 4 w)) s' -> Q tt s') ->
  wp (vwrite32 (VMM_TEMP_PAGE + o) w) Q s.
Proof using Hv HF Hw.
  intros (m & t & -> & Ht & Hof & HP) Ho Ho4 Hal HQ. rewrite temp_page_addr. pose proof (vs_cr3 _ _ Hv) as Hc.
  assert (o = 4 * (o / 4)) as Eo by (rewrite (Z.div_mod o 4) at 1 by lia; lia).
  pose proof (Z.div_lt_upper_bound o 4 1024 ltac:(lia) ltac:(lia)). pose proof (Z.div_pos o 4 ltac:(lia) ltac:(lia)).
  rewrite Eo. apply (wp_table_set _ TEMP_PG (o / 4) F); vm_simpl in *; rewrite ?Hc; [by compute|lia|done|by rewrite window_walk|].
  intros t' Ht'. apply HQ. rewrite <- Eo.
  apply (at_page_write P m t t' o (le_bytes 4 w)); [lia|rewrite length_le_bytes; lia|apply le_bytes_range|done|done|done].
Qed.

Lemma wp_page_clear (Q : unit -> vm A -> Prop) :
  (forall s, at_page (fun _ => 0) s -> Q tt s) -> wp (vmemset VMM_TEMP_PAGE 0 PAGE_SIZE) Q s0.
Proof using Hv HF Hw.
  intros HQ. rewrite temp_page_addr. pose proof (vs_cr3 _ _ Hv) as Hc.
  apply (wp_vmemset_page s0 TEMP_PG d F); [by compute|done|apply Hv|rewrite Hc; apply Hv|done|done|].
  intros m t Hm Ht. apply HQ. exists m, t. split_and!; [done|by rewrite Hc in Ht| |].
  - intros a Ha. rewrite Hm. by rewrite decide_False.
  - intros o Ho. rewrite Hm. rewrite decide_True; [done|]. by destruct (page_address F o ltac:(lia)).
Qed.

(** *** Reads of the caller's memory *)

Lemma wp_src8 P s va b (Q : Z -> vm A -> Prop) :
  at_page P s -> src8 d [F] s0 va b -> (forall s', at_page P s' -> Q b s') -> wp (vread8 va) Q s.
Proof using Hv HF.
  intros (m & t & -> & Ht & Hof & HP) (f & (Hva & _ & _ & Hne & Hwf) & <-) HQ. rewrite list_elem_of_singleton in Hne. pose proof (vs_cr3 _ _ Hv) as Hc.
  pose proof (Z.mod_pos_bound va 4096 ltac:(lia)). pose proof (page_of_va va Hva) as Hpg.
  rewrite (Z.div_mod va 4096) at 1 by lia.
  apply (wp_vread8 _ (va / 4096) (va mod 4096) f); vm_simpl in *; rewrite ?Hc; [done|done|done|by rewrite window_walk|].
  intros t' Ht'. rewrite Hof by (destruct (page_address f (va mod 4096)) as [-> _]; [lia|done]).
  apply HQ. by exists m, t'.
Qed.

Lemma wp_src32 P s va w (Q : Z -> vm A -> Prop) :
  at_page P s -> src32 d [F] s0 va w -> (forall s', at_page P s' -> Q w s') -> wp (vread32 va) Q s.
Proof using Hv HF.
  intros (m & t & -> & Ht & Hof & HP) (f & (Hva & _ & _ & Hne & Hwf) & Hal & <-) HQ. rewrite list_elem_of_singleton in Hne. pose proof (vs_cr3 _ _ Hv) as Hc.
  pose proof (Z.mod_pos_bound va 4096 ltac:(lia)). pose proof (page_of_va va Hva) as Hpg.
  assert (va mod 4096 = 4 * (va mod 4096 / 4)) as Eo.
  { rewrite (Z.div_mod (va mod 4096) 4) at 1 by lia. enough ((va mod 4096) mod 4 = 0) by lia.
    rewrite <- Hal. by apply Z.mod_mod_divide; exists 1024. }
  assert (va = 4096 * (va / 4096) + 4 * (va mod 4096 / 4)) as Eva by (rewrite <- Eo; apply Z.div_mod; lia).
  rewrite Eva at 1. change (vread32 (?t + 4 * ?k)) with (table_get (A := A) t k).
  apply (wp_table_get _ (va / 4096) (va mod 4096 / 4) f); vm_simpl in *; rewrite ?Hc; [done|lia|done|by rewrite window_walk|].
  intros t' Ht'. unfold ent. rewrite <- Eo.
  rewrite (read32_ext m (vm_mem s0)).
  { apply HQ. by exists m, t'. }
  intros b Hb. apply Hof. intros E. apply Hne. rewrite <- E. apply Z.div_unique with (b - 4096 * f); lia.
Qed.

Abbreviation c_string := (c_str (src8 d [F] s0)).

Lemma wp_strlen P s fuel va l (Q : Z -> vm A -> Prop) :
  at_page P s -> c_string va l -> (length l < fuel)%nat ->
  (forall s', at_page P s' -> Q (Z.of_nat (length l)) s') -> wp (strlen fuel va) Q s.
Proof using Hv HF.
  intros HP (Hva & Hl & Hn & Hb) Hf HQ. unfold strlen.
  apply (wp_iter (fun n s' => at_page P s' /\ 0 <= n <= Z.of_nat (length l))
    (fun n _ => (length l - Z.to_nat n)%nat)); [lia|by split; [|lia]|].
  intros n s' [HP' Hr]. rewrite u32_small by lia. apply wp_bind.
  destruct (lookup_lt_is_Some_2 (l ++ [0]) (Z.to_nat n)) as [c Hc]; [rewrite length_app; cbn; lia|].
  pose proof (Hb _ _ Hc) as Hs. rewrite Z2Nat.id in Hs by lia.
  eapply wp_src8; [done|exact Hs|]. intros s2 HP2. destruct (Z.eqb_spec c 0) as [->|Hc0].
  - apply wp_ret. replace n with (Z.of_nat (length l)); [by apply HQ|].
    destruct (decide (Z.to_nat n < length l)%nat) as [Hlt|]; [|lia].
    rewrite lookup_app_l in Hc by done. apply (proj1 (list.Forall_lookup _ _) Hn) in Hc; lia.
  - assert (n <> Z.of_nat (length l)).
    { intros ->. rewrite Nat2Z.id, lookup_app_r, Nat.sub_diag in Hc by done. by injection Hc. }
    rewrite u32_small by lia. apply wp_ret. split; [split; [done|lia]|lia].
Qed.

(** A vector without its end. *)
Definition pointers (v : Z) (ls : list (list Z)) : Prop := 0 <= v /\ v + 4 * Z.of_nat (length ls) <= 4294967296 /\
  exists ps, Forall2 c_string ps ls /\ forall i w, ps !! i = Some w -> src32 d [F] s0 (v + 4 * Z.of_nat i) w.

Lemma vector_pointers n v ls :
  vector (src8 d [F] s0) (src32 d [F] s0) v ls -> pointers v (take n ls).
Proof.
  intros [[-> ->]|(Hv' & Hl & ps & HF2 & Hp)].
  - rewrite take_nil. split_and!; [done|by compute|]. exists []. by split; [constructor|].
  - split_and!; [lia|rewrite length_take; lia|]. exists (take n ps). split; [by apply list.Forall2_take|].
    intros i w Hi. apply Hp. apply lookup_take_Some in Hi as [Hi _]. by apply lookup_app_l_Some.
Qed.

Lemma wp_count_args P s v ls (Q : Z -> vm A -> Prop) :
  at_page P s -> vector (src8 d [F] s0) (src32 d [F] s0) v ls ->
  (forall s', at_page P s' -> Q (Z.of_nat (length (take 16 ls))) s') -> wp (count_args v) Q s.
Proof using Hv HF.
  intros HP [[-> ->]|(Hv' & Hl & ps & HF2 & Hp)] HQ; unfold count_args.
  { apply wp_ret. by apply HQ. }
  destruct (Z.eqb_spec v 0) as [|_]; [lia|]. pose proof (list.Forall2_length _ _ _ HF2) as Hlen.
  rewrite length_take in HQ. unfold MAX_ARGS.
  apply (wp_iter (fun n s' => at_page P s' /\ 0 <= n <= Z.of_nat (min 16 (length ls)))
    (fun n _ => (17 - Z.to_nat n)%nat)); [lia|by split; [|lia]|].
  intros n s' [HP' Hr]. rewrite u32_small by lia. apply wp_bind.
  destruct (lookup_lt_is_Some_2 (ps ++ [0]) (Z.to_nat n)) as [w Hw']; [rewrite length_app; cbn; lia|].
  pose proof (Hp _ _ Hw') as Hs. rewrite Z2Nat.id in Hs by lia.
  eapply wp_src32; [done|exact Hs|]. intros s2 HP2.
  destruct (decide (n = Z.of_nat (min 16 (length ls)))) as [En|Hn].
  - replace (negb (w =? 0) && (n <? 16)) with false; [apply wp_ret; rewrite En; by apply HQ|].
    destruct (Z.ltb_spec n 16) as [Hlt|]; [|by rewrite andb_false_r].
    rewrite lookup_app_r in Hw' by lia. replace (Z.to_nat n - length ps)%nat with 0%nat in Hw' by lia.
    by injection Hw' as <-.
  - rewrite lookup_app_l in Hw' by lia. destruct (list.Forall2_lookup_l _ _ _ _ _ HF2 Hw') as (l & _ & H0 & _).
    destruct (Z.eqb_spec w 0); [lia|]. destruct (Z.ltb_spec n 16); [|lia]. apply wp_ret. split; [split; [done|lia]|lia].
Qed.

Lemma wp_copy_string P s a p l o (Q : unit -> vm A -> Prop) :
  at_page P s -> src32 d [F] s0 a p -> c_string p l -> 0 <= o -> o + Z.of_nat (length l) + 1 <= 4096 ->
  (forall s', at_page (paste P o (l ++ [0])) s' -> Q tt s') ->
  wp (for_each (Z.to_nat (Z.of_nat (length l) + 1)) 0 (fun byte =>
        s <- vread32 a ;; b <- vread8 (u32 (s + byte)) ;; vwrite8 (VMM_TEMP_PAGE + (o + byte)) b)) Q s.
Proof using Hv HF Hw.
  intros HP Ha (Hp & Hl & Hn & Hb) Ho Hol HQ. assert (length (l ++ [0]) = S (length l)) as HL by (rewrite length_app; cbn; lia).
  apply (wp_for_each (fun k => at_page (paste P o (take (Z.to_nat k) (l ++ [0]))))).
  - eapply at_page_ext; [exact HP|]. intros x _. apply paste_nil.
  - intros k s' Hk HP'. destruct (lookup_lt_is_Some_2 (l ++ [0]) (Z.to_nat k)) as [c Hc]; [lia|].
    pose proof (Hb _ _ Hc) as Hs. rewrite Z2Nat.id in Hs by lia.
    apply wp_bind. eapply wp_src32; [done|exact Ha|]. intros s2 HP2. rewrite u32_small by lia.
    apply wp_bind. eapply wp_src8; [done|exact Hs|]. intros s3 HP3.
    assert (0 <= c < 256) as Hcr.
    { apply list_elem_of_lookup_2, elem_of_app in Hc as [Hc|Hc%list_elem_of_singleton]; [|lia].
      apply (proj1 (list.Forall_forall _ _) Hn) in Hc. lia. }
    eapply wp_page_byte; [done|lia|done|]. intros s4 HP4. eapply at_page_ext; [exact HP4|]. intros x _.
    replace (Z.to_nat (k + 1)) with (S (Z.to_nat k)) by lia. rewrite (take_S_r _ _ _ Hc).
    symmetry. apply paste_snoc. rewrite length_take. lia.
  - intros s' HP'. apply HQ. rewrite take_ge in HP' by lia. done.
Qed.

(** *** The strings *)

Lemma wp_push_strings P s fuel v ls base o (Q : option (Z * list Z) -> vm A -> Prop) :
  at_page P s -> pointers v ls -> Forall (fun l => length l < fuel)%nat ls -> 0 <= o <= 4096 ->
  (forall s', let o' := o - Z.of_nat (length (strings ls)) in
     if decide (0 <= o') then at_page (paste P o' (strings ls)) s' -> Q (Some (o', addresses base o' ls)) s'
     else forall P', at_page P' s' -> Q None s') ->
  wp (push_strings fuel v (Z.of_nat (length ls)) base o) Q s.
Proof using Hv HF Hw.
  intros HP (Hv0 & Hvl & ps & HF2 & Hps) Hfu Ho HQ. unfold push_strings. apply wp_bind.
  pose proof (list.Forall2_length _ _ _ HF2) as Hlen. set (rest j := drop (length ls - Z.to_nat j) ls).
  apply (wp_for (fun j '(off, ptrs) s' => off = o - Z.of_nat (length (strings (rest j))) /\ 0 <= off /\
    ptrs = addresses base off (rest j) /\ at_page (paste P off (strings (rest j))) s')).
  - unfold rest. rewrite Nat.sub_0_r, drop_all. split_and!; [cbn; lia|lia|done|].
    eapply at_page_ext; [exact HP|]. intros x _. apply paste_nil.
  - intros j [off ptrs] s' Hj (-> & Hoff & -> & HP'). cbv zeta.
    set (i := (length ls - 1 - Z.to_nat j)%nat).
    replace (Z.of_nat (length ls) - 1 - j) with (Z.of_nat i) by lia.
    destruct (lookup_lt_is_Some_2 ls i) as [l Hl]; [lia|]. destruct (lookup_lt_is_Some_2 ps i) as [p Hp]; [lia|].
    pose proof (Forall2_lookup_lr _ _ _ _ _ _ HF2 Hp Hl) as Hpl. rewrite u32_small by lia.
    pose proof (Hps _ _ Hp) as Ha. pose proof Hpl as (Hp0 & Hpr & _).
    assert (rest (j + 1) = l :: rest j) as Er.
    { unfold rest. replace (length ls - Z.to_nat (j + 1))%nat with i by lia. rewrite (drop_S _ _ _ Hl). do 2 f_equal. lia. }
    apply wp_bind. eapply wp_src32; [done|exact Ha|]. intros s1 HP1.
    apply wp_bind. eapply wp_strlen; [done|exact Hpl|by apply (proj1 (list.Forall_lookup _ _) Hfu) in Hl|]. intros s2 HP2.
    rewrite (u32_small (Z.of_nat (length l) + 1)) by lia.
    pose proof (length_strings l (rest j)) as Els. rewrite <- Er in Els.
    destruct (Z.ltb_spec (o - Z.of_nat (length (strings (rest j)))) (Z.of_nat (length l) + 1)).
    + apply wp_ret, wp_ret. pose proof (strings_drop i ls) as Hd.
      specialize (HQ s2). rewrite decide_False in HQ; [by eapply HQ|].
      replace i with (length ls - Z.to_nat (j + 1))%nat in Hd by lia.
      fold (rest (j + 1)) in Hd. lia.
    + apply wp_bind. eapply wp_copy_string; [done|exact Ha|exact Hpl|lia|lia|]. intros s3 HP3. apply wp_ret.
      split_and!; [lia|lia| |].
      * rewrite Er. cbn [addresses]. do 2 f_equal. lia.
      * eapply at_page_ext; [exact HP3|]. intros x _. rewrite Er, strings_cons.
        rewrite <- paste_app, length_app. cbn [length]. by replace (_ + Z.of_nat (length l + 1)) with
          (o - Z.of_nat (length (strings (rest j)))) by lia.
  - intros [off ptrs] s' (-> & Hoff & -> & HP'). apply wp_ret.
    assert (rest (0 + Z.of_nat (Z.to_nat (Z.of_nat (length ls)))) = ls) as Er
      by (unfold rest; replace (length ls - _)%nat with 0%nat by lia; done).
    rewrite Er in *. specialize (HQ s'). rewrite decide_True in HQ by done. by apply HQ.
Qed.

(** *** The vectors *)

Lemma sub_mod_4 o k : o mod 4 = 0 -> (o - 4 * k) mod 4 = 0.
Proof. intros H. replace (o - 4 * k) with (o + (- k) * 4) by lia. by rewrite Z.mod_add by lia. Qed.

(** A page with words from the aligned offset [o] on. *)
Definition with_words (P : Z -> Z) (o : Z) (ws : list Z) (s : vm A) : Prop :=
  0 <= o /\ o mod 4 = 0 /\ o + 4 * Z.of_nat (length ws) <= 4096 /\ at_page (paste P o (words ws)) s.

Lemma with_no_words P o s : at_page P s -> 0 <= o <= 4096 -> o mod 4 = 0 -> with_words P o [] s.
Proof.
  intros HP Ho Hm. split_and!; [lia|done|cbn; lia|]. eapply at_page_ext; [exact HP|]. intros x _. apply paste_nil.
Qed.

Lemma wp_push P o ws w s (Q : unit -> vm A -> Prop) :
  with_words P o ws s -> 4 <= o -> (forall s', with_words P (o - 4) (w :: ws) s' -> Q tt s') ->
  wp (vwrite32 (VMM_TEMP_PAGE + (o - 4)) w) Q s.
Proof using Hv HF Hw.
  intros (Ho & Hm & Hl & HP) H4 HQ. pose proof (sub_mod_4 o 1 Hm) as Hm'.
  eapply wp_page_word; [done|lia|lia|done|]. intros s' HP'. apply HQ. split_and!; [lia|done|cbn [length]; lia|].
  eapply at_page_ext; [exact HP'|]. intros x _. rewrite words_cons, <- paste_app, length_le_bytes.
  by replace (o - 4 + Z.of_nat 4) with o by lia.
Qed.

Lemma wp_push_words P o ws ptrs s (Q : Z -> vm A -> Prop) :
  with_words P o ws s -> 4 * Z.of_nat (length ptrs + 1) <= o ->
  (forall s', let o' := o - 4 * Z.of_nat (length ptrs + 1) in
     with_words P o' ((ptrs ++ [0]) ++ ws) s' -> Q o' s') ->
  wp (push_words ptrs o) Q s.
Proof using Hv HF Hw.
  intros HP Ho HQ. unfold push_words. apply wp_bind. eapply wp_push; [done|lia|]. intros s1 HP1.
  set (rest j := drop (length ptrs - Z.to_nat j) ptrs). apply wp_bind.
  apply (wp_for (fun j off s' => off = o - 4 * Z.of_nat (length (rest j) + 1) /\
    with_words P off (rest j ++ 0 :: ws) s')).
  - unfold rest. rewrite Nat.sub_0_r, drop_all. split; [cbn; lia|]. done.
  - intros j off s' Hj [-> HP']. set (i := (length ptrs - 1 - Z.to_nat j)%nat).
    destruct (lookup_lt_is_Some_2 ptrs i) as [p Hp]; [lia|].
    assert (rest (j + 1) = p :: rest j) as Er.
    { unfold rest. replace (length ptrs - Z.to_nat (j + 1))%nat with i by lia. rewrite (drop_S _ _ _ Hp). do 2 f_equal. lia. }
    apply wp_bind. eapply wp_some_or_trap; [exact Hp|].
    assert (length (rest (j + 1)%Z) <= length ptrs)%nat as Hlr by (unfold rest; rewrite length_drop; lia).
    rewrite Er in *. cbn [length] in *.
    apply wp_bind. eapply wp_push; [done|lia|]. intros s2 HP2. apply wp_ret. split; [lia|done].
  - intros off s' [-> HP']. apply wp_ret.
    assert (rest (0 + Z.of_nat (length ptrs)) = ptrs) as Er
      by (unfold rest; replace (length ptrs - _)%nat with 0%nat by lia; done).
    rewrite Er in *. apply HQ. by rewrite <- app_assoc.
Qed.

Lemma wp_push_all P o env_ptrs arg_ptrs argc ra s (Q : option Z -> vm A -> Prop) :
  let ws := (if ra =? 0 then [] else [ra]) ++ [argc] ++ (arg_ptrs ++ [0]) ++ env_ptrs ++ [0] in
  with_words P o [] s -> 4 * Z.of_nat (length ws) <= o ->
  (forall s', let o' := o - 4 * Z.of_nat (length ws) in with_words P o' ws s' -> Q (Some o') s') ->
  wp (offset <- push_words env_ptrs o ;; offset <- push_words arg_ptrs offset ;; offset <- push_word argc offset ;;
      offset <- (if ra =? 0 then ret offset else push_word ra offset) ;; ret (Some offset)) Q s.
Proof using Hv HF Hw.
  intros ws HP Ho HQ. assert (length ws = (length arg_ptrs + length env_ptrs + if (ra =? 0)%Z then 3 else 4)%nat) as El
    by (unfold ws; rewrite !length_app; destruct (ra =? 0); cbn [length]; lia).
  apply wp_bind. eapply wp_push_words; [done|destruct (ra =? 0); lia|]. intros s1 o1 HP1. rewrite app_nil_r in HP1.
  apply wp_bind. eapply wp_push_words; [done|destruct (ra =? 0); lia|]. intros s2 o2 HP2. unfold push_word.
  apply wp_bind, wp_bind. eapply wp_push; [done|destruct (ra =? 0); lia|]. intros s3 HP3. apply wp_ret.
  assert (forall s o3, o3 = o - 4 * Z.of_nat (length ws) -> with_words P o3 ws s -> Q (Some o3) s) as HQ'
    by (intros s' o3 -> ?; by apply HQ).
  apply wp_bind. unfold ws in *. destruct (ra =? 0); cbn [app] in *.
  - apply wp_ret, wp_ret. apply HQ'; [lia|done].
  - apply wp_bind. eapply wp_push; [done|lia|]. intros s4 HP4. apply wp_ret, wp_ret. apply HQ'; [lia|done].
Qed.

(** *** The whole page *)

Lemma wp_build_user_stack fuel base argv envp argl envl ra (Q : option Z -> vm A -> Prop) :
  let args := take 16 argl in let envs := take 16 envl in
  vector (src8 d [F] s0) (src32 d [F] s0) argv argl -> vector (src8 d [F] s0) (src32 d [F] s0) envp envl ->
  Forall (fun l => length l < fuel)%nat args -> Forall (fun l => length l < fuel)%nat envs ->
  (forall s', if decide (0 <= stack_offset args envs ra)
     then at_page (stack_page base args envs ra) s' -> Q (Some (stack_offset args envs ra)) s'
     else forall P, at_page P s' -> Q None s') ->
  wp (build_user_stack fuel base argv envp ra) Q s0.
Proof using Hv HF Hw.
  intros args envs Ha He Hfa Hfe HQ. unfold build_user_stack.
  destruct (stack_offset_below args envs ra) as [Hb1 Hb2]. pose proof (align4_bounds (arg_offset args envs)) as Hb3.
  pose proof (align4_bounds (env_offset envs)) as Hb4.
  apply wp_bind, wp_page_clear. intros s1 HP1.
  apply wp_bind. eapply wp_count_args; [done|exact Ha|]. intros s2 HP2.
  apply wp_bind. eapply wp_count_args; [done|exact He|]. intros s3 HP3. fold args envs.
  apply wp_bind. eapply wp_push_strings; [done|by apply vector_pointers|done|by compute|].
  intros s4 o'. change o' with (env_offset envs). destruct (decide (0 <= env_offset envs)) as [H1|H1].
  2:{ intros P HP. apply wp_ret. specialize (HQ s4). rewrite decide_False in HQ by lia. by eapply HQ. }
  intros HP4. pose proof (align4_nonneg _ H1) as H1'. rewrite align4_land.
  apply wp_bind. eapply wp_push_strings; [done|by apply vector_pointers|done|lia|].
  intros s5 o''. change o'' with (arg_offset args envs). destruct (decide (0 <= arg_offset args envs)) as [H2|H2].
  2:{ intros P HP. apply wp_ret. specialize (HQ s5). rewrite decide_False in HQ by lia. by eapply HQ. }
  intros HP5. pose proof (align4_nonneg _ H2) as H2'. rewrite align4_land.
  pose proof (stack_offset_eq base args envs ra) as Eo. rewrite length_stack_words in Eo.
  apply (with_no_words _ (align4 (arg_offset args envs))) in HP5; [|lia|apply align4_mod].
  destruct (Z.ltb_spec (align4 (arg_offset args envs))
    ((Z.of_nat (length envs) + 1 + Z.of_nat (length args) + 1) * 4 + 4 + (if ra =? 0 then 0 else 4))) as [H3|H3].
  { apply wp_ret. specialize (HQ s5). rewrite decide_False in HQ by (destruct (ra =? 0); lia).
    destruct HP5 as (_ & _ & _ & HP5). by eapply HQ. }
  assert (4 * Z.of_nat (length (stack_words base args envs ra)) <= align4 (arg_offset args envs)) as Hfit
    by (rewrite length_stack_words; destruct (ra =? 0); lia).
  eapply wp_push_all; [done|exact Hfit|].
  intros s6 o6 (Hr & _ & _ & HP6). change o6 with
    (align4 (arg_offset args envs) - 4 * Z.of_nat (length (stack_words base args envs ra))) in *.
  specialize (HQ s6). unfold stack_page in HQ. rewrite (stack_offset_eq base) in HQ. rewrite decide_True in HQ by done.
  by apply HQ.
Qed.

Lemma at_page_vspace P s : at_page P s -> vspace d s /\ fresh_frame (vm_mem s) d F /\
  pde_frame (vm_mem s) d 768 = pde_frame (vm_mem s0) d 768.
Proof using Hv HF.
  intros (m & t & -> & Ht & Hof & _). destruct (fresh_same _ _ (vs_tables _ _ Hv) m F HF Hof) as (Hp & Hok & _).
  vm_simpl in *. split_and!; [split; vm_simpl in *; [apply Hv|done|done|apply Hv|]|by eapply same_pde_fresh|].
  - intros j Hj. unfold pde_frame. rewrite Hp by done. by apply (vs_used _ _ Hv).
  - unfold pde_frame. by rewrite Hp by lia.
Qed.

(** The window is closed: what the page showed is what its frame holds. *)
Lemma wp_close_page P s :
  at_page P s -> wp (vmm_unmap_page VMM_TEMP_PAGE) (fun _ s' => vspace d s' /\ same_regs s0 s' /\
    vm_frames s' = vm_frames s0 /\ (forall o, 0 <= o < 4096 -> read8 (vm_mem s') (4096 * F + o) = P o) /\
    forall a, a / 4096 <> F -> a / 4096 <> pde_frame (vm_mem s0) d 768 ->
      read8 (vm_mem s') a = read8 (vm_mem s0) a) s.
Proof using Hv HF.
  intros HP. destruct (at_page_vspace P s HP) as (Hv1 & Hf1 & E). destruct HP as (m & t & -> & Ht & Hof & HP).
  pose proof (to_kernel _ _ (vs_tables _ _ Hv1)) as Hp.
  eapply wp_mono; [apply (wp_unmap_page _ d); [done|by compute|by compute|exact Hp]|].
  intros [] s' (Hv' & Hr & Hm). pose proof (pu_data _ _ _ _ Hm) as Hd.
  change (VMM_TEMP_PAGE / 4096 / 1024) with 768 in *. rewrite E in Hd. vm_simpl in *.
  split_and!; [done|exact Hr|exact (pu_frames _ _ _ _ Hm)| |].
  - intros o Ho. rewrite <- HP by done. apply Hd. destruct (page_address F o Ho) as [-> _]. apply not_eq_sym.
    by apply HF; [|apply (to_kernel _ _ (vs_tables _ _ Hv))].
  - intros a Ha1 Ha2. by rewrite Hd, Hof.
Qed.
End window.

(** ** The whole function *)

Section setup.
Context {A : Type} `{!FrameAllocator A}.

(** Strings outside the page and the tables are read in the window as before it. *)
Lemma source_mapped d F s s1 va f :
  page_mapped d VMM_TEMP_PAGE (4096 * F) s s1 -> present (pde (vm_mem s) d 768) = true ->
  source d [F; d; pde_frame (vm_mem s) d 768] s va f ->
  source d [F] s1 va f /\ forall o, 0 <= o < 4096 -> read8 (vm_mem s1) (4096 * f + o) = read8 (vm_mem s) (4096 * f + o).
Proof.
  intros Hm Hp (Hva & Hpg & Hne & Hf & Hw). change (VMM_TEMP_PAGE / 4096 / 1024) with 768 in *.
  destruct (pm_frames _ _ _ _ _ Hm Hp) as [_ E]. change (VMM_TEMP_PAGE / 4096 / 1024) with 768 in *.
  rewrite !not_elem_of_cons in Hf. destruct Hf as (H1 & H2 & H3 & _). split.
  - split_and!; try done; try lia; [by rewrite list_elem_of_singleton|]. rewrite (pm_other _ _ _ _ _ Hm); [done| |done|by right].
    pose proof (page_of_va va Hva). lia.
  - intros o Ho. apply (pm_data _ _ _ _ _ Hm); destruct (page_address f o Ho) as [-> _]; [done|done|].
    change (VMM_TEMP_PAGE / 4096 / 1024) with 768. unfold pde_frame. by rewrite E.
Qed.

Lemma vector_mapped d F s s1 v ls :
  page_mapped d VMM_TEMP_PAGE (4096 * F) s s1 -> present (pde (vm_mem s) d 768) = true ->
  let X := [F; d; pde_frame (vm_mem s) d 768] in
  vector (src8 d X s) (src32 d X s) v ls -> vector (src8 d [F] s1) (src32 d [F] s1) v ls.
Proof.
  intros Hm Hp X. apply vector_mono.
  - intros va b (f & Hs & <-). destruct (source_mapped _ _ _ _ _ _ Hm Hp Hs) as [Hs1 Hr]. exists f. split; [done|].
    apply Hr. by apply Z.mod_pos_bound.
  - intros va w (f & Hs & Hal & <-). destruct (source_mapped _ _ _ _ _ _ Hm Hp Hs) as [Hs1 Hr]. exists f. split_and!; [done|done|].
    apply read32_ext. intros b Hb. pose proof (Z.mod_pos_bound va 4096 ltac:(lia)).
    assert (va mod 4096 mod 4 = 0) as Hm4 by (rewrite <- Hal; by apply Z.mod_mod_divide; exists 1024).
    pose proof (Z.div_mod (va mod 4096) 4 ltac:(lia)).
    replace b with (4096 * f + (b - 4096 * f)) by lia. apply Hr. lia.
Qed.

Lemma same_regs_trans (s1 s2 s3 : vm A) : same_regs s1 s2 -> same_regs s2 s3 -> same_regs s1 s3.
Proof. intros (? & ? & ?) (? & ? & ?). split_and!; congruence. Qed.

Lemma mapped_pde d pa s s1 j :
  page_mapped d VMM_TEMP_PAGE pa s s1 -> present (pde (vm_mem s) d 768) = true -> 0 <= j < 1024 ->
  pde (vm_mem s1) d j = pde (vm_mem s) d j.
Proof.
  intros Hm Hp Hj. destruct (decide (j = 768)) as [->|Hne].
  - apply (pm_frames _ _ _ _ _ Hm Hp).
  - by apply (pm_pde _ _ _ _ _ Hm).
Qed.

(** The page of the task is in the window, everything else is as it was. *)
Record page_open (d F : Z) (s s1 : vm A) : Prop := {
  po_space : vspace d s1;
  po_fresh : fresh_frame (vm_mem s1) d F;
  po_walk : walk (vm_mem s1) (4096 * d) TEMP_PG = Some (4096 * F);
  po_table : pde_frame (vm_mem s1) d 768 = pde_frame (vm_mem s) d 768;
  po_regs : same_regs s s1;
  po_frames : vm_frames s1 = vm_frames s;
  po_data : forall a, a / 4096 <> d -> a / 4096 <> pde_frame (vm_mem s) d 768 -> read8 (vm_mem s1) a = read8 (vm_mem s) a;
  po_vector : let X := [F; d; pde_frame (vm_mem s) d 768] in forall v ls,
    vector (src8 d X s) (src32 d X s) v ls -> vector (src8 d [F] s1) (src32 d [F] s1) v ls;
}.

Lemma wp_open_page d F s :
  vspace d s -> 0 <= F < 1048576 -> fresh_frame (vm_mem s) d F ->
  wp (vmm_map_kernel_page VMM_TEMP_PAGE (4096 * F)) (fun _ => page_open d F s) s.
Proof.
  intros Hv HFr HF. pose proof (to_kernel _ _ (vs_tables _ _ Hv)) as Hp. unfold vmm_map_kernel_page.
  eapply wp_mono; [apply (wp_map_page s d); [done|by compute|by compute|lia|by compute]|].
  intros [] s1 (Hv1 & Hr1 & [Hm|[E _]]); change (VMM_TEMP_PAGE / 4096 / 1024) with 768 in *; [|congruence].
  assert (forall j, 0 <= j < 1024 -> pde (vm_mem s1) d j = pde (vm_mem s) d j) as Hpde by (intros; by eapply mapped_pde).
  assert (pde_frame (vm_mem s1) d 768 = pde_frame (vm_mem s) d 768) as E768 by (unfold pde_frame; by rewrite Hpde).
  split; [done|by eapply same_pde_fresh| |done|done|apply (pm_frames _ _ _ _ _ Hm Hp)| |].
  - pose proof (pm_walk _ _ _ _ _ Hm) as H. by rewrite (Z.mul_comm 4096 F), Z.div_mul in H by lia.
  - intros a H1 H2. apply (pm_data _ _ _ _ _ Hm); [done|done|]. change (VMM_TEMP_PAGE / 4096 / 1024) with 768. congruence.
  - intros X v ls. by apply vector_mapped.
Qed.

(** The page of the task, and strings the current space can read. *)
Record stack_ready (d F : Z) (x : task) (argv envp : Z) (argl envl : list (list Z)) (s : vm A) : Prop := {
  sr_space : vspace d s;
  sr_range : 0 < F < 1048576;
  sr_fresh : fresh_frame (vm_mem s) d F;
  sr_stack : user_stack_top x <> 0 /\ user_stack_size x <> 0 /\ user_stack_paddr x = 4096 * F;
  sr_argv : vector (src8 d [F; d; pde_frame (vm_mem s) d 768] s) (src32 d [F; d; pde_frame (vm_mem s) d 768] s) argv argl;
  sr_envp : vector (src8 d [F; d; pde_frame (vm_mem s) d 768] s) (src32 d [F; d; pde_frame (vm_mem s) d 768] s) envp envl;
}.

(** The page is built, or stays unused; the other frames and the table of frames stay. *)
Record stack_built (d F base : Z) (args envs : list (list Z)) (ra : Z) (ok : bool) (s s' : vm A) : Prop := {
  sb_ok : ok = bool_decide (0 <= stack_offset args envs ra);
  sb_space : vspace d s';
  sb_regs : same_regs s s';
  sb_stack : ok = true -> process_stack (vm_mem s') F base (stack_offset args envs ra) args envs ra;
  sb_others : forall a, a / 4096 <> F -> a / 4096 <> d -> a / 4096 <> pde_frame (vm_mem s) d 768 ->
    read8 (vm_mem s') a = read8 (vm_mem s) a;
  sb_frames : vm_frames s' = vm_frames s;
}.

Lemma wp_task_setup_user_stack fuel i x k d F argv envp argl envl ra :
  let args := take 16 argl in let envs := take 16 envl in let base := u32 (user_stack_top x - PAGE_SIZE) in
  task_table k !! i = Some x -> stack_ready d F x argv envp argl envl (kvm k) -> 0 <= ra < 4294967296 ->
  Forall (fun l => length l < fuel)%nat args -> Forall (fun l => length l < fuel)%nat envs ->
  wp (task_setup_user_stack fuel (Some i) argv envp ra) (fun ok k' =>
    stack_built d F base args envs ra ok (kvm k) (kvm k') /\
    k' = k <| kvm := kvm k' |> <| task_table := if ok then
      <[i := x <| context := (context x) <| esp := u32 (base + stack_offset args envs ra) |> |>]> (task_table k)
      else task_table k |>) k.
Proof.
  intros args envs base Hx [Hv HFr HF (Ht & Hz & Hpa) Ha He] Hra Hfa Hfe. unfold task_setup_user_stack.
  apply wp_bind. eapply wp_get_task; [exact Hx|].
  destruct (Z.eqb_spec (user_stack_top x) 0) as [|_]; [done|]. destruct (Z.eqb_spec (user_stack_size x) 0) as [|_]; [done|].
  cbn [orb]. rewrite Hpa. destruct (Z.eqb_spec (4096 * F) 0) as [|_]; [lia|]. fold base.
  apply wp_bind, wp_zoom. eapply wp_mono; [apply (wp_open_page d F); [done|lia|done]|].
  intros [] s1 [Hv1 HF1 Hw1 E768 Hr1 Hfr1 Hd1 Hvec].
  apply wp_bind, wp_zoom. eapply (wp_build_user_stack d F s1); [done|done|done|by apply Hvec|by apply Hvec|done|done|].
  fold args envs. intros s2. destruct (decide (0 <= stack_offset args envs ra)) as [Hfit|Hfit].
  - intros HP. apply wp_bind. eapply wp_upd_task; [exact Hx|]. apply wp_bind, wp_zoom.
    eapply wp_mono; [by eapply (wp_close_page d F s1)|]. intros [] s3 (Hv3 & Hr3 & Hfr3 & HP3 & Hd3). apply wp_ret.
    split; [|by destruct k]. split; vm_simpl in *; [by rewrite bool_decide_true|done|by eapply same_regs_trans| | |exact (eq_trans Hfr3 Hfr1)].
    + intros _. by apply stack_page_process; [unfold args; rewrite length_take; lia|done|done|].
    + intros a H1 H2 H3. rewrite Hd3 by (rewrite ?E768; done). by apply Hd1.
  - intros P HP. apply wp_bind, wp_zoom. eapply wp_mono; [by eapply (wp_close_page d F s1)|].
    intros [] s3 (Hv3 & Hr3 & Hfr3 & HP3 & Hd3). apply wp_ret.
    split; [|by destruct k]. split; vm_simpl in *; [by rewrite bool_decide_false|done|by eapply same_regs_trans|done| |exact (eq_trans Hfr3 Hfr1)].
    intros a H1 H2 H3. rewrite Hd3 by (rewrite ?E768; done). by apply Hd1.
Qed.

End setup.

(** ** A concrete machine

    The machine of Vmm with one more page: frame 10 at [0xC0005000] holds a vector of
    two arguments, one of one variable, and their strings. *)

Definition demo_strings : list Z :=
  words [0xC0005020; 0xC0005023; 0; 0; 0xC0005026; 0; 0; 0] ++ strings [[108; 115]; [45; 108]; [65; 61; 49]].
Definition demo_stack_mem : gmap Z Z :=
  write_bytes (write32 demo_mem (4096 * 3 + 4 * 5) (mk_entry 10 PAGE_WRITE)) (4096 * 10) demo_strings.
Definition demo_stack_vm : vm pmm := mkVm demo_pmm demo_stack_mem (4096 * 2) ∅ (4096 * 2) (4096 * 2).
Definition demo_stack_task : task := blank_task <| user_stack_top := 0xBFFFE000 |> <| user_stack_size := 8192 |>
  <| user_stack_paddr := 4096 * 9 |>.
Definition demo_stack_kernel : kernel pmm := mkKernel demo_stack_vm [demo_stack_task] None None None 1 [] 0 0 0.

Lemma demo_stack_pde j : 0 <= j < 1024 -> pde demo_stack_mem 2 j = pde demo_mem 2 j.
Proof.
  intros Hj. apply same_frame_ent; [|done]. intros a Ha. unfold demo_stack_mem.
  assert (4096 * 2 <= a < 4096 * 3) by (pose proof (Z.div_mod a 4096 ltac:(lia)); pose proof (Z.mod_pos_bound a 4096 ltac:(lia)); lia).
  rewrite read8_write_bytes_out by lia. apply read8_write32_out. lia.
Qed.

Lemma demo_stack_space : vspace 2 demo_stack_vm.
Proof.
  destruct demo_vspace as [Hc Hok Ht Hwf Hu]. split; cbn [demo_stack_vm vm_mem vm_cr3 vm_tlb vm_frames] in *; [done| |apply tlb_of_empty|done|].
  - eapply same_pde_tables; [|exact Hok]. apply demo_stack_pde.
  - intros j Hj. unfold pde_frame. rewrite demo_stack_pde by done. by apply Hu.
Qed.

Lemma demo_stack_source va : 0 <= va < 4294967296 -> va / 4096 = 786437 ->
  source 2 [9; 2; pde_frame demo_stack_mem 2 768] demo_stack_vm va 10.
Proof.
  intros Hr Hp. split_and!; [lia|lia|rewrite Hp; by compute|rewrite Hp; by compute| |rewrite Hp; by vm_compute].
  unfold pde_frame. rewrite demo_stack_pde, demo_pde by lia. rewrite !not_elem_of_cons. split_and!; [done|done|by vm_compute|apply not_elem_of_nil].
Qed.

Ltac demo_string := split_and!; [lia|by compute|repeat (apply list.Forall_cons; split; [lia|]); apply list.Forall_nil; done|].
Ltac demo_source := exists 10; split_and?; [by apply demo_stack_source|vm_compute; reflexivity..].

Lemma demo_argv :
  vector (src8 2 [9; 2; pde_frame demo_stack_mem 2 768] demo_stack_vm) (src32 2 [9; 2; pde_frame demo_stack_mem 2 768] demo_stack_vm)
    0xC0005000 [[108; 115]; [45; 108]].
Proof.
  right. split_and!; [done|by compute|]. exists [0xC0005020; 0xC0005023]. split.
  - apply list.Forall2_cons; split; [demo_string; intros [|[|[|i]]] c Hc; simplify_eq/=; demo_source|].
    apply list.Forall2_cons; split; [demo_string; intros [|[|[|i]]] c Hc; simplify_eq/=; demo_source|constructor].
  - intros [|[|[|i]]] c Hc; simplify_eq/=; demo_source.
Qed.

Lemma demo_envp :
  vector (src8 2 [9; 2; pde_frame demo_stack_mem 2 768] demo_stack_vm) (src32 2 [9; 2; pde_frame demo_stack_mem 2 768] demo_stack_vm)
    0xC0005010 [[65; 61; 49]].
Proof.
  right. split_and!; [done|by compute|]. exists [0xC0005026]. split.
  - apply list.Forall2_cons; split; [demo_string; intros [|[|[|[|i]]]] c Hc; simplify_eq/=; demo_source|constructor].
  - intros [|[|i]] c Hc; simplify_eq/=; demo_source.
Qed.

Lemma demo_stack_ready :
  stack_ready 2 9 demo_stack_task 0xC0005000 0xC0005010 [[108; 115]; [45; 108]] [[65; 61; 49]] demo_stack_vm.
Proof.
  split; [apply demo_stack_space|lia| |by split_and!|apply demo_argv|apply demo_envp].
  intros j Hj. cbn [demo_stack_vm vm_mem]. unfold pde_frame. rewrite demo_stack_pde, demo_pde by done. by repeat case_decide.
Qed.

(** ** The theorem *)

(** C32: [task_setup_user_stack] answers 0 exactly when the strings and the vectors
    fit into the page of the stack.  It has then laid out what a program expects:
    from the stack pointer of the task on, the return address if there is one, the
    number of arguments, their NULL-terminated vector and that of the environment,
    every pointer naming a copy of its string in the page.  In both cases the address
    space is as it was, and no frame but that of the stack and the page tables has
    changed.  At most the first sixteen strings of each vector count. *)
Theorem task_setup_user_stack_correct A (HA : FrameAllocator A) fuel i x (k : kernel A) d F argv envp argl envl ra :
  let args := take 16 argl in let envs := take 16 envl in let base := u32 (user_stack_top x - PAGE_SIZE) in
  task_table k !! i = Some x -> stack_ready d F x argv envp argl envl (kvm k) -> 0 <= ra < 4294967296 ->
  Forall (fun l => length l < fuel)%nat args -> Forall (fun l => length l < fuel)%nat envs ->
  exists ok k', task_setup_user_stack fuel (Some i) argv envp ra k = Ret (ok, k') /\
    stack_built d F base args envs ra ok (kvm k) (kvm k') /\
    k' = k <| kvm := kvm k' |> <| task_table := if ok then
      <[i := x <| context := (context x) <| esp := u32 (base + stack_offset args envs ra) |> |>]> (task_table k)
      else task_table k |>.
Proof.
  intros args envs base Hx Hr Hra Hfa Hfe. apply wp_run. by apply wp_task_setup_user_stack with (argl := argl) (envl := envl).
Qed.

Lemma task_setup_user_stack_correct_witness : exists ok k',
  task_setup_user_stack 10 (Some 0%nat) 0xC0005000 0xC0005010 0 demo_stack_kernel = Ret (ok, k') /\
  stack_built 2 9 0xBFFFD000 [[108; 115]; [45; 108]] [[65; 61; 49]] 0 ok demo_stack_vm (kvm k') /\
  k' = demo_stack_kernel <| kvm := kvm k' |> <| task_table := if ok then
      <[0%nat := demo_stack_task <| context := (context demo_stack_task) <|
        esp := u32 (0xBFFFD000 + stack_offset [[108; 115]; [45; 108]] [[65; 61; 49]] 0) |> |>]> (task_table demo_stack_kernel)
      else task_table demo_stack_kernel |>.
Proof.
  apply (task_setup_user_stack_correct pmm _ 10 0 demo_stack_task demo_stack_kernel 2 9 0xC0005000 0xC0005010
    [[108; 115]; [45; 108]] [[65; 61; 49]] 0 eq_refl demo_stack_ready); [lia|repeat constructor|repeat constructor].
Defined.
