(* ===== verification/Drivers.v ===== *)
(** * Console devices ([drivers/keyboard.c], [drivers/serial.c], [drivers/timer.c],
      [arch/i386/pic.c], [arch/i386/tty.c])

    The keyboard queue, the UART, the interrupt controllers, the interval timer and
    the text terminal, over the port interface of [Io].  The keyboard's ring buffer
    is shown to be a bounded queue. *)

From stdpp Require Import base list gmap numbers option tactics.
From Stdlib Require Import Lia ZArith.
From S2P Require Import Prelude Io.

(** ** Keyboard *)

Definition KBD_DATA_PORT : Z := 0x60.
Definition KBD_EVENT_QUEUE_SIZE : Z := 32.
Definition KEY_UP : Z := 72.
Definition KEY_DOWN : Z := 80.
Definition KEY_LEFT : Z := 75.
Definition KEY_RIGHT : Z := 77.

(** The table of scan codes, as character codes. *)
Definition kbd_us : list Z :=
  [0; 27; 49; 50; 51; 52; 53; 54; 55; 56; 57; 48; 45; 61; 8;
   9; 113; 119; 101; 114; 116; 121; 117; 105; 111; 112; 91; 93; 10;
   0; 97; 115; 100; 102; 103; 104; 106; 107; 108; 59; 39; 96; 0; 92;
   122; 120; 99; 118; 98; 110; 109; 44; 46; 47; 0; 42; 0; 32].

Record kbd := mkKbd {
  keyboard_queue : list Z;
  keyboard_head : Z;
  keyboard_tail : Z;
  keyboard_count : Z;
  extended_prefix : bool;
}.
#[export] Instance eta_kbd : Eta kbd := {| eta := fun k =>
  mkKbd (keyboard_queue k) (keyboard_head k) (keyboard_tail k) (keyboard_count k) (extended_prefix k) |}.

Definition kbd_boot : kbd := mkKbd (replicate (Z.to_nat KBD_EVENT_QUEUE_SIZE) 0) 0 0 0 false.

(** [char] is signed: the answer of the table is below 128. *)
Definition translate_scan_code (scan_code : Z) : M kbd Z :=
  if scan_code =? 0xE0 then modify (fun k => k <| extended_prefix := true |>) ;; ret 0
  else if negb (Z.land scan_code 0x80 =? 0) then modify (fun k => k <| extended_prefix := false |>) ;; ret 0
  else
    e <- gets extended_prefix ;;
    if (e : bool) then
      modify (fun k => k <| extended_prefix := false |>) ;;
      ret (if scan_code =? 0x48 then KEY_UP
           else if scan_code =? 0x50 then KEY_DOWN
           else if scan_code =? 0x4B then KEY_LEFT
           else if scan_code =? 0x4D then KEY_RIGHT
           else 0)
    else if scan_code =? 0x48 then ret KEY_UP
    else if scan_code =? 0x50 then ret KEY_DOWN
    else if scan_code =? 0x4B then ret KEY_LEFT
    else if scan_code =? 0x4D then ret KEY_RIGHT
    else if scan_code <? Z.of_nat (length kbd_us) then some_or_trap (arr_get kbd_us scan_code)
    else ret 0.

Definition keyboard_has_event : M kbd bool := gets (fun k => 0 <? keyboard_count k).

Definition keyboard_get_event : M kbd Z :=
  k <- get ;;
  if keyboard_count k =? 0 then ret 0
  else
    c <- some_or_trap (arr_get (keyboard_queue k) (keyboard_tail k)) ;;
    put (k <| keyboard_tail := u32 (keyboard_tail k + 1) mod KBD_EVENT_QUEUE_SIZE |>
           <| keyboard_count := u32 (keyboard_count k - 1) |>) ;;
    ret c.

Definition keyboard_enqueue_event (c : Z) : M kbd unit :=
  k <- get ;;
  if KBD_EVENT_QUEUE_SIZE <=? keyboard_count k then ret tt
  else
    q <- some_or_trap (arr_set (keyboard_queue k) (keyboard_head k) c) ;;
    put (k <| keyboard_queue := q |>
           <| keyboard_head := u32 (keyboard_head k + 1) mod KBD_EVENT_QUEUE_SIZE |>
           <| keyboard_count := u32 (keyboard_count k + 1) |>).

(** ** Terminal *)

Definition VGA_WIDTH : Z := 80.
Definition VGA_HEIGHT : Z := 25.
Definition VGA_COLOR_LIGHT_GREY : Z := 7.
Definition VGA_COLOR_BLACK : Z := 0.

Definition vga_entry_color (fg bg : Z) : Z := u8 (Z.lor fg (Z.shiftl bg 4)).
Definition vga_entry (uc color : Z) : Z := u16 (Z.lor uc (Z.shiftl color 8)).

(** The statics of [tty.c] and the cells of the text buffer. *)
Record tty := mkTty {
  terminal_row : Z;
  terminal_column : Z;
  terminal_color : Z;
  terminal_buffer : list Z;
}.
#[export] Instance eta_tty : Eta tty := {| eta := fun t =>
  mkTty (terminal_row t) (terminal_column t) (terminal_color t) (terminal_buffer t) |}.

Definition SERIAL_COM1_BASE : Z := 0x3F8.

(** The devices behind the ports, and the state of their drivers. *)
Record console (P : Type) := mkConsole {
  con_ports : P;
  con_kbd : kbd;
  con_tty : tty;
}.
Arguments mkConsole {P}.
Arguments con_ports {P}.
Arguments con_kbd {P}.
Arguments con_tty {P}.
#[export] Instance eta_console P : Eta (console P) := {| eta := fun c =>
  mkConsole (con_ports c) (con_kbd c) (con_tty c) |}.

Section drivers.
Context {P : Type} `{!PortIO P}.
Abbreviation C := (M (console P)).

Definition on_ports {B} (c : M P B) : C B := zoom con_ports (fun p s => s <| con_ports := p |>) c.
Definition on_kbd {B} (c : M kbd B) : C B := zoom con_kbd (fun k s => s <| con_kbd := k |>) c.
Definition on_tty {B} (c : M tty B) : C B := zoom con_tty (fun t s => s <| con_tty := t |>) c.

Definition keyboard_handle_interrupt : C unit :=
  scan_code <- on_ports (inb KBD_DATA_PORT) ;;
  c <- on_kbd (translate_scan_code scan_code) ;;
  if c =? 0 then ret tt else on_kbd (keyboard_enqueue_event c).

(** ** Serial port *)

Definition SERIAL_DATA_PORT (base : Z) : Z := base.
Definition SERIAL_FIFO_CONTROL_REGISTER (base : Z) : Z := base + 2.
Definition SERIAL_LINE_CONTROL_REGISTER (base : Z) : Z := base + 3.
Definition SERIAL_MODEM_CONTROL_REGISTER (base : Z) : Z := base + 4.
Definition SERIAL_LINE_ENABLE_DLAB_80 : Z := 0x80.
Definition SERIAL_FIFO_CONFIG_C7 : Z := 0xC7.
Definition SERIAL_MODEM_CONFIG_03 : Z := 0x03.
Definition SERIAL_LINE_CONFIG_03 : Z := 0x03.

Definition serial_configure_baud_rate (com_base divisor : Z) : M P unit :=
  outb (SERIAL_LINE_CONTROL_REGISTER com_base) SERIAL_LINE_ENABLE_DLAB_80 ;;
  outb (SERIAL_DATA_PORT com_base) (Z.land (Z.shiftr divisor 8) 0x00FF) ;;
  outb (SERIAL_DATA_PORT com_base) (Z.land divisor 0x00FF).

Definition serial_is_faulty (com_base : Z) : M P Z :=
  outb (SERIAL_MODEM_CONTROL_REGISTER com_base) 0x1E ;;
  outb (SERIAL_DATA_PORT com_base) 0xAE ;;
  b <- inb (SERIAL_DATA_PORT com_base) ;;
  ret (if b =? 0xAE then 0 else 1).

Definition serial_init (com_base : Z) : M P Z :=
  outb (com_base + 1) 0x00 ;;
  serial_configure_baud_rate com_base 3 ;;
  outb (SERIAL_LINE_CONTROL_REGISTER com_base) SERIAL_LINE_CONFIG_03 ;;
  outb (SERIAL_FIFO_CONTROL_REGISTER com_base) SERIAL_FIFO_CONFIG_C7 ;;
  outb (SERIAL_MODEM_CONTROL_REGISTER com_base) SERIAL_MODEM_CONFIG_03 ;;
  outb (SERIAL_MODEM_CONTROL_REGISTER com_base) 0x1E ;;
  outb (SERIAL_DATA_PORT com_base) 0xAE ;;
  b <- inb (SERIAL_DATA_PORT com_base) ;;
  if negb (b =? 0xAE) then ret 1
  else outb (SERIAL_MODEM_CONTROL_REGISTER com_base) 0x0F ;; ret 0.

Definition serial_is_transmit_fifo_empty (com_base : Z) : M P Z :=
  b <- inb (com_base + 5) ;; ret (Z.land b 0x20).

(** [polls] bounds the wait for the transmitter. *)
Definition serial_write_char (polls : nat) (com_base a : Z) : M P unit :=
  iter polls (fun _ : unit =>
    e <- serial_is_transmit_fifo_empty com_base ;;
    if e =? 0 then ret (inl tt) else ret (inr tt)) tt ;;
  outb com_base (u8 a).

(** The string is the list of its characters before the NUL. *)
Fixpoint serial_write (polls : nat) (com_base : Z) (str : list Z) : M P unit :=
  match str with
  | [] => ret tt
  | c :: str' =>
      if c =? 0 then ret tt
      else serial_write_char polls com_base c ;; serial_write polls com_base str'
  end.

(** ** Interrupt controllers *)

Definition PIC1_COMMAND : Z := 0x20.
Definition PIC1_DATA : Z := 0x21.
Definition PIC2_COMMAND : Z := 0xA0.
Definition PIC2_DATA : Z := 0xA1.
Definition ICW1_INIT : Z := 0x11.
Definition ICW4_8086 : Z := 0x01.
Definition PIC_EOI : Z := 0x20.

Definition pic_remap : M P unit :=
  a1 <- inb PIC1_DATA ;;
  a2 <- inb PIC2_DATA ;;
  outb PIC1_COMMAND ICW1_INIT ;;
  outb PIC2_COMMAND ICW1_INIT ;;
  outb PIC1_DATA 0x20 ;;
  outb PIC2_DATA 0x28 ;;
  outb PIC1_DATA 0x04 ;;
  outb PIC2_DATA 0x02 ;;
  outb PIC1_DATA ICW4_8086 ;;
  outb PIC2_DATA ICW4_8086 ;;
  outb PIC1_DATA a1 ;;
  outb PIC2_DATA a2.

Definition pic_disable_all_irq : M P unit := outb PIC1_DATA 0xFF ;; outb PIC2_DATA 0xFF.

(** The mask bit of line [bit] cleared in the controller at [port]. *)
Definition pic_unmask (port bit : Z) : M P unit :=
  v <- inb port ;; outb port (u8 (Z.land v (Z.lnot (Z.shiftl 1 bit)))).

(** The recursive call for line 2 is on the first controller, hence not recursive again. *)
Definition pic_enable_irq (irq : Z) : M P unit :=
  if irq <? 8 then pic_unmask PIC1_DATA irq
  else pic_unmask PIC1_DATA 2 ;; pic_unmask PIC2_DATA (irq - 8).

Definition pic_sendEOI (interrupt : Z) : M P unit :=
  if (interrupt <? 0x20) || (0x2F <? interrupt) then ret tt
  else
    (if (0x28 <=? interrupt) && (interrupt <=? 0x2F) then outb PIC2_COMMAND PIC_EOI else ret tt) ;;
    outb PIC1_COMMAND PIC_EOI.

(** ** Timer *)

Definition timer_init (frequency : Z) : M P unit :=
  if frequency =? 0 then ret tt
  else
    let divisor := 1193180 / frequency in
    outb 0x43 0x36 ;;
    outb 0x40 (Z.land divisor 0xFF) ;;
    outb 0x40 (Z.land (Z.shiftr divisor 8) 0xFF).

(** ** Terminal operations *)

Definition terminal_init : M tty unit :=
  let color := vga_entry_color VGA_COLOR_LIGHT_GREY VGA_COLOR_BLACK in
  modify (fun t => t <| terminal_row := 0 |> <| terminal_column := 0 |> <| terminal_color := color |>
    <| terminal_buffer := replicate (Z.to_nat (VGA_WIDTH * VGA_HEIGHT)) (vga_entry 32 color) |>).

Definition terminal_setcolor (color : Z) : M tty unit := modify (fun t => t <| terminal_color := color |>).

Definition terminal_setcursor (column row : Z) : M tty unit :=
  if (column <? VGA_WIDTH) && (row <? VGA_HEIGHT)
  then modify (fun t => t <| terminal_column := column |> <| terminal_row := row |>)
  else ret tt.

Definition terminal_putentryat (c color x y : Z) : M tty unit :=
  t <- get ;;
  b <- some_or_trap (arr_set (terminal_buffer t) (y * VGA_WIDTH + x) (vga_entry c color)) ;;
  put (t <| terminal_buffer := b |>).

(** [++terminal_row], back to the top at the bottom. *)
Definition next_row : M tty unit :=
  modify (fun t => t <| terminal_row := u32 (terminal_row t + 1) |>) ;;
  t <- get ;;
  if terminal_row t =? VGA_HEIGHT then put (t <| terminal_row := 0 |>) else ret tt.

Definition terminal_putchar (polls : nat) (c : Z) : C unit :=
  if c =? 10 then
    on_tty (modify (fun t => t <| terminal_column := 0 |>)) ;; on_tty next_row
  else if c =? 13 then on_tty (modify (fun t => t <| terminal_column := 0 |>))
  else
    on_tty (modify (fun t => t <| terminal_column := u32 (terminal_column t + 1) |>)) ;;
    t <- on_tty get ;;
    (if terminal_column t =? VGA_WIDTH
     then on_tty (modify (fun t => t <| terminal_column := 0 |>)) ;; on_tty next_row
     else ret tt) ;;
    on_ports (serial_write polls SERIAL_COM1_BASE [c]).

Fixpoint terminal_write (polls : nat) (data : list Z) : C unit :=
  match data with
  | [] => ret tt
  | c :: data' => terminal_putchar polls c ;; terminal_write polls data'
  end.

(** The characters before the first NUL. *)
Fixpoint c_string (data : list Z) : list Z :=
  match data with
  | [] => []
  | c :: data' => if c =? 0 then [] else c :: c_string data'
  end.
Definition terminal_writestring (polls : nat) (data : list Z) : C unit := terminal_write polls (c_string data).
End drivers.

(** ** The ring buffer is a bounded queue *)

Record kbd_ok (k : kbd) : Prop := {
  kb_length : length (keyboard_queue k) = 32%nat;
  kb_tail : 0 <= keyboard_tail k < 32;
  kb_count : 0 <= keyboard_count k <= 32;
  kb_head : keyboard_head k = (keyboard_tail k + keyboard_count k) mod 32;
}.

(** The [i]-th event that waits. *)
Definition pending_at (k : kbd) (i : Z) : Z :=
  default 0 (keyboard_queue k !! Z.to_nat ((keyboard_tail k + i) mod 32)).
Definition pending (k : kbd) : list Z := pending_at k <$> seqZ 0 (keyboard_count k).

Lemma length_pending k : kbd_ok k -> Z.of_nat (length (pending k)) = keyboard_count k.
Proof. intros Hk. unfold pending. rewrite length_fmap, length_seqZ. pose proof (kb_count _ Hk). lia. Qed.

Lemma pending_nil k : kbd_ok k -> pending k = [] <-> keyboard_count k = 0.
Proof.
  intros Hk. rewrite <- length_zero_iff_nil. pose proof (length_pending k Hk). lia.
Qed.

Lemma wp_keyboard_enqueue c k (Q : unit -> kbd -> Prop) :
  kbd_ok k ->
  (forall k', kbd_ok k' -> pending k' = (if decide (length (pending k) < 32)%nat then pending k ++ [c] else pending k) ->
     extended_prefix k' = extended_prefix k -> Q tt k') ->
  wp (keyboard_enqueue_event c) Q k.
Proof.
  intros Hk HQ. pose proof (length_pending k Hk) as Hlen. pose proof Hk as [Hl Ht Hc Hh].
  unfold keyboard_enqueue_event, KBD_EVENT_QUEUE_SIZE. apply wp_bind, wp_get.
  destruct (Z.leb_spec 32 (keyboard_count k)).
  - apply wp_ret, HQ; [done| |done]. by rewrite decide_False by lia.
  - assert (0 <= keyboard_head k < 32) as Hhr by (rewrite Hh; apply Z.mod_pos_bound; lia).
    apply wp_bind. eapply wp_some_or_trap; [apply arr_set_Some; lia|]. apply wp_put, HQ; [| |done].
    + split; cbn [keyboard_queue keyboard_tail keyboard_count keyboard_head]; unfold update; cbn.
      * by rewrite length_insert.
      * done.
      * rewrite u32_small by lia. lia.
      * rewrite !u32_small by lia. rewrite Hh, Zplus_mod_idemp_l. f_equal. lia.
    + rewrite decide_True by lia. unfold pending.
      change (keyboard_count (_ <| keyboard_count := ?n |>)) with n. rewrite u32_small by lia.
      replace (seqZ 0 (keyboard_count k + 1)) with (seqZ 0 (keyboard_count k) ++ [keyboard_count k])
        by (rewrite seqZ_app by lia; done).
      rewrite fmap_app. f_equal.
      * apply list_fmap_ext. intros n i Hi. apply lookup_seqZ in Hi as [-> Hn].
        unfold pending_at, update. cbn. rewrite list_lookup_insert_ne; [done|].
        rewrite Hh. intros E%(f_equal Z.of_nat).
        rewrite !Z2Nat.id in E by (apply Z.mod_pos_bound; lia). Z.to_euclidean_division_equations; lia.
      * unfold pending_at, update. cbn. rewrite <- Hh, list_lookup_insert_eq by lia. done.
Qed.

Lemma wp_keyboard_get k (Q : Z -> kbd -> Prop) :
  kbd_ok k ->
  match pending k with
  | [] => Q 0 k
  | c :: l => forall k', kbd_ok k' -> pending k' = l -> extended_prefix k' = extended_prefix k -> Q c k'
  end ->
  wp keyboard_get_event Q k.
Proof.
  intros Hk HQ. pose proof Hk as [Hl Ht Hc Hh].
  unfold keyboard_get_event, KBD_EVENT_QUEUE_SIZE. apply wp_bind, wp_get.
  destruct (Z.eqb_spec (keyboard_count k) 0) as [E|E].
  - apply (proj2 (pending_nil k Hk)) in E. rewrite E in HQ. by apply wp_ret.
  - unfold pending in HQ. rewrite seqZ_cons in HQ by lia. cbn [fmap list_fmap] in HQ.
    destruct (lookup_lt_is_Some_2 (keyboard_queue k) (Z.to_nat (keyboard_tail k))) as [c Hc']; [lia|].
    apply wp_bind. eapply wp_some_or_trap.
    { unfold arr_get. by rewrite (proj2 (Z.leb_le 0 _)), Hc' by lia. }
    assert (pending_at k 0 = c) as Ec.
    { unfold pending_at. rewrite Z.add_0_r, Z.mod_small, Hc' by lia. done. }
    rewrite Ec in HQ. apply wp_bind, wp_put, wp_ret. apply HQ; [| |done].
    + split; unfold update; cbn; [done|..].
      * apply Z.mod_pos_bound. lia.
      * rewrite u32_small by lia. lia.
      * rewrite !u32_small by lia. rewrite Hh, Zplus_mod_idemp_l. f_equal. lia.
    + unfold pending. change (keyboard_count (_ <| keyboard_count := ?n |>)) with n. rewrite u32_small by lia.
      rewrite <- Z.sub_1_r. change (Z.succ 0) with 1. apply list_eq. intros n.
      rewrite !list_lookup_fmap. destruct (decide (Z.of_nat n < keyboard_count k - 1)).
      * rewrite !(proj2 (lookup_seqZ _ _ _ _)) by (split; [reflexivity|lia]). cbn. f_equal.
        unfold pending_at, update. cbn. rewrite u32_small, Zplus_mod_idemp_l by lia. do 4 f_equal. lia.
      * rewrite !lookup_seqZ_ge by lia. done.
Qed.

(** C27: The keyboard's ring buffer is a queue of at most 32 events: a new event
    joins the tail or is dropped when 32 wait, [keyboard_get_event] takes the oldest
    or answers 0, and [keyboard_has_event] says whether one waits. *)
Theorem keyboard_queue_refines k c :
  kbd_ok k ->
  wp (keyboard_enqueue_event c) (fun _ k' => kbd_ok k' /\
    pending k' = if decide (length (pending k) < 32)%nat then pending k ++ [c] else pending k) k /\
  wp keyboard_get_event (fun r k' => kbd_ok k' /\ r = default 0 (head (pending k)) /\ pending k' = tail (pending k)) k /\
  wp keyboard_has_event (fun r k' => r = bool_decide (pending k <> []) /\ k' = k) k.
Proof.
  intros Hk. split; [|split].
  - apply wp_keyboard_enqueue; [done|]. by intros k' ? ?.
  - apply wp_keyboard_get; [done|]. destruct (pending k) as [|x l] eqn:E; [done|]. by intros k' ? ?.
  - apply wp_gets. split; [|done]. pose proof (kb_count _ Hk). pose proof (pending_nil k Hk) as Hn.
    destruct (Z.ltb_spec 0 (keyboard_count k)); symmetry; [apply bool_decide_eq_true_2|apply bool_decide_eq_false_2];
      rewrite Hn; lia.
Qed.

Lemma keyboard_queue_refines_witness :
  wp (keyboard_enqueue_event 97) (fun _ k' => kbd_ok k' /\ pending k' = [97]) kbd_boot /\
  wp keyboard_get_event (fun r k' => kbd_ok k' /\ r = 0 /\ pending k' = []) kbd_boot /\
  wp keyboard_has_event (fun r k' => r = false /\ k' = kbd_boot) kbd_boot.
Proof. by apply (keyboard_queue_refines kbd_boot 97). Defined.
