(* ===== verification/Libc.v ===== *)
(** * Numbers and formatted text ([libc/src/stdlib/itoa.c], [libc/src/stdio], [kernel/log.c])

    The buffer a function fills is the state; an index outside it traps.  The
    conversions run on it in place, as the code does: digits are produced from the
    lowest one and reversed.  [format_text] is the reference the formatter is
    compared with. *)

From stdpp Require Import base list gmap numbers option tactics.
From Stdlib Require Import Lia ZArith.
From S2P Require Import Prelude Io Drivers.

(** ** Buffers *)

Abbreviation B := (M (list Z)).

Definition put_at (ptr c : Z) : B unit :=
  s <- get ;; l <- some_or_trap (arr_set s ptr (u8 c)) ;; put l.
Definition get_at (ptr : Z) : B Z := s <- get ;; some_or_trap (arr_get s ptr).

(** [while ( *s) *ptr++ = *s++] for the characters [l]; the answer is the new [ptr]. *)
Fixpoint emit (l : list Z) (ptr : Z) : B Z :=
  match l with
  | [] => ret ptr
  | c :: l' => put_at ptr c ;; emit l' (ptr + 1)
  end.

(** A local array: what it holds before the first write is never read. *)
Definition with_buffer {S A} (n : nat) (c : B A) : M S (A * list Z) :=
  match c (replicate n 0) with
  | Ret r => ret r
  | Trap => trap
  | NoFuel => no_fuel
  end.

(** ** [itoa] and [uitoa] *)

(** "0123456789abcdefghijklmnopqrstuvwxyz" *)
Definition digit_chars : list Z := seqZ 48 10 ++ seqZ 97 26.

(** A 32-bit number has at most 32 digits, in base 2. *)
Definition MAX_DIGITS : nat := 32.

(** [while (ptr1 < ptr)] swaps the two ends. *)
Definition reverse_in_place (ptr1 ptr : Z) : B unit :=
  iter (S MAX_DIGITS) (fun '(ptr1, ptr) =>
    if ptr1 <? ptr then
      tmp_char <- get_at ptr ;;
      c <- get_at ptr1 ;;
      put_at ptr c ;;
      put_at ptr1 tmp_char ;;
      ret (inl (ptr1 + 1, ptr - 1))
    else ret (inr tt)) (ptr1, ptr).

(** [str] is the start of the buffer.  A signed negation wraps. *)
Definition itoa (value base : Z) : B unit :=
  if (base <? 2) || (36 <? base) then put_at 0 0
  else
    let negative := (value <? 0) && (base =? 10) in
    (if negative then put_at 0 45 else ret tt) ;;
    let ptr1 := if negative then 1 else 0 in
    let tmp_value := if negative then s32 (- value) else value in
    ptr <- iter MAX_DIGITS (fun '(tmp_value, ptr) =>
      let remainder := Z.rem tmp_value base in
      c <- some_or_trap (arr_get digit_chars (if remainder <? 0 then - remainder else remainder)) ;;
      put_at ptr c ;;
      let tmp_value := Z.quot tmp_value base in
      if tmp_value =? 0 then ret (inr (ptr + 1)) else ret (inl (tmp_value, ptr + 1))) (tmp_value, ptr1) ;;
    put_at ptr 0 ;;
    reverse_in_place ptr1 (ptr - 1).

Definition uitoa (value base : Z) : B unit :=
  if (base <? 2) || (36 <? base) then put_at 0 0
  else
    ptr <- iter MAX_DIGITS (fun '(tmp_value, ptr) =>
      let remainder := tmp_value mod base in
      c <- some_or_trap (arr_get digit_chars remainder) ;;
      put_at ptr c ;;
      let tmp_value := tmp_value / base in
      if tmp_value =? 0 then ret (inr (ptr + 1)) else ret (inl (tmp_value, ptr + 1))) (value, 0) ;;
    put_at ptr 0 ;;
    reverse_in_place 0 (ptr - 1).

(** ** [vsprintf] *)

Section format.
(** The characters of the string at an address, before its NUL. *)
Context (string_at : Z -> list Z).

(** [*f] at the end of the format is its NUL. *)
Definition peek (f : list Z) : Z := default 0 (head f).

Fixpoint parse_width (width : Z) (f : list Z) : Z * list Z :=
  match f with
  | c :: f' => if (48 <=? c) && (c <=? 57) then parse_width (s32 (width * 10 + (c - 48))) f' else (width, f)
  | [] => (width, f)
  end.

(** [va_arg]: the arguments are the 32-bit words on the stack. *)
Definition va_arg (args : list Z) : B (Z * list Z) :=
  match args with
  | [] => trap
  | a :: args' => ret (a, args')
  end.

(** The conversion in [tmp_buf], zeros up to [width], and the digits. *)
Definition emit_number (conv : B unit) (zero_pad : bool) (width : Z) (ptr : Z) : B Z :=
  r <- with_buffer 34 conv ;;
  let digits := c_string r.2 in
  let len := Z.of_nat (length digits) in
  ptr <- (if zero_pad && (len <? width) then emit (replicate (Z.to_nat (width - len)) 48) ptr else ret ptr) ;;
  emit digits ptr.

(** "(null)" *)
Definition null_text : list Z := [40; 110; 117; 108; 108; 41].

(** The [switch] on the character after the flags and the width. *)
Definition convert (c : Z) (zero_pad : bool) (width ptr : Z) (args : list Z) : B (Z * list Z) :=
  if c =? 99 then
    let* (a, args) := va_arg args in put_at ptr a ;; ret (ptr + 1, args)
  else if c =? 115 then
    let* (a, args) := va_arg args in
    p <- emit (if a =? 0 then null_text else string_at a) ptr ;; ret (p, args)
  else if c =? 100 then
    let* (a, args) := va_arg args in
    p <- emit_number (itoa (s32 a) 10) zero_pad width ptr ;; ret (p, args)
  else if c =? 117 then
    let* (a, args) := va_arg args in
    p <- emit_number (uitoa (u32 a) 10) zero_pad width ptr ;; ret (p, args)
  else if (c =? 120) || (c =? 98) then
    let* (a, args) := va_arg args in
    p <- emit_number (uitoa (u32 a) (if c =? 120 then 16 else 2)) zero_pad width ptr ;; ret (p, args)
  else if c =? 112 then
    let* (a, args) := va_arg args in
    p <- emit [48; 120] ptr ;;
    p <- emit_number (uitoa (u32 a) 16) zero_pad (width - 2) p ;; ret (p, args)
  else if c =? 37 then put_at ptr 37 ;; ret (ptr + 1, args)
  else put_at ptr c ;; ret (ptr + 1, args).

(** One iteration of the loop; [inr] is its end.  The format is the list of its
    characters before the NUL: after a '%' that ends it, [f++] steps over the NUL
    and the next test reads outside the string. *)
Definition vsprintf_step '(ptr, f, args) : B (Z * list Z * list Z + Z) :=
  match f with
  | [] => ret (inr ptr)
  | c :: f =>
      if negb (c =? 37) then put_at ptr c ;; ret (inl (ptr + 1, f, args))
      else
        let zero_pad := peek f =? 48 in
        let f := if zero_pad then tail f else f in
        let '(width, f) := parse_width 0 f in
        let* (ptr, args) := convert (peek f) zero_pad width ptr args in
        match f with
        | [] => trap
        | _ :: f => ret (inl (ptr, f, args))
        end
  end.

Definition vsprintf (fmt args : list Z) : B Z :=
  ptr <- iter (S (length fmt)) vsprintf_step (0, fmt, args) ;;
  put_at ptr 0 ;;
  ret ptr.

(** [sprintf] is [vsprintf] on the words after its parameters. *)
Definition sprintf (fmt args : list Z) : B Z := vsprintf fmt args.

(** ** [printf] and [printk] *)

Definition LOG_DEBUG : Z := 0.
Definition LOG_FATAL : Z := 4.

(** "[DEBUG] ", "[INFO] ", "[WARNING] ", "[ERROR] " and "[FATAL] " *)
Definition level_tags : list (list Z) :=
  [ [91; 68; 69; 66; 85; 71; 93; 32];
    [91; 73; 78; 70; 79; 93; 32];
    [91; 87; 65; 82; 78; 73; 78; 71; 93; 32];
    [91; 69; 82; 82; 79; 82; 93; 32];
    [91; 70; 65; 84; 65; 76; 93; 32] ].

Context {P : Type} `{!PortIO P} (polls : nat).

Definition putchar (ic : Z) : M (console P) Z := terminal_write polls [u8 ic] ;; ret ic.

Definition printf (fmt args : list Z) : M (console P) Z :=
  r <- with_buffer 1024 (vsprintf fmt args) ;;
  let '(len, buf) := (r : Z * list Z) in
  for_each (Z.to_nat len) 0 (fun i => c <- some_or_trap (arr_get buf i) ;; putchar c ;; ret tt) ;;
  ret len.

Definition printk (level : Z) (fmt args : list Z) : M P unit :=
  (if (LOG_DEBUG <=? level) && (level <=? LOG_FATAL)
   then tag <- some_or_trap (arr_get level_tags level) ;; serial_write polls SERIAL_COM1_BASE tag
   else ret tt) ;;
  r <- with_buffer 1024 (vsprintf fmt args) ;;
  serial_write polls SERIAL_COM1_BASE (c_string r.2) ;;
  serial_write polls SERIAL_COM1_BASE [10].
End format.

(** ** Numerals *)

(** The digits of [n] in base [b], lowest first, and highest first. *)
Fixpoint le_digits (f : nat) (b n : Z) : list Z :=
  match f with
  | O => []
  | S f' => n mod b :: if n / b =? 0 then [] else le_digits f' b (n / b)
  end.
Arguments le_digits : simpl never.
Definition numeral (b n : Z) : list Z := reverse (le_digits MAX_DIGITS b n).

(** [l] is the numeral of [n] in base [b], highest digit first: the digits are
    below [b], their value is [n], and it has no leading zero unless it is "0". *)
Record is_numeral (b n : Z) (l : list Z) : Prop := {
  num_digits : Forall (fun d => 0 <= d < b) l;
  num_value : foldl (fun acc d => acc * b + d) 0 l = n;
  num_lead : l = [0] \/ exists d l', l = d :: l' /\ d <> 0;
}.

(** The character of a digit, and the texts the conversions write. *)
Definition digit_char (d : Z) : Z := default 0 (arr_get digit_chars d).
Definition unsigned_text (b n : Z) : list Z := digit_char <$> numeral b n.
Definition signed_text (b v : Z) : list Z :=
  if (v <? 0) && (b =? 10) then 45 :: unsigned_text b (- v) else unsigned_text b (Z.abs v).

(** [text] and a NUL at the start of the buffer, the rest as it was. *)
Definition holds_text (text s0 s : list Z) : Prop :=
  s = text ++ 0 :: drop (S (length text)) s0.

Lemma le_digits_S f b n :
  le_digits (S f) b n = n mod b :: if n / b =? 0 then [] else le_digits f b (n / b).
Proof. done. Qed.

Lemma le_digits_length f b n : (length (le_digits f b n) <= f)%nat.
Proof.
  revert n. induction f as [|f IH]; intros n; [done|]. rewrite le_digits_S.
  destruct (_ =? _); simpl; [lia|]. specialize (IH (n / b)). lia.
Qed.

Lemma le_digits_range f b n : 2 <= b -> Forall (fun d => 0 <= d < b) (le_digits f b n).
Proof.
  intros Hb. revert n. induction f as [|f IH]; intros n; [constructor|]. rewrite le_digits_S.
  constructor; [apply Z.mod_pos_bound; lia|]. by destruct (_ =? _).
Qed.

Lemma quotient_bound b n f : 2 <= b -> 0 <= n < b ^ Z.of_nat (S f) -> 0 <= n / b < b ^ Z.of_nat f.
Proof.
  intros Hb Hn. rewrite Nat2Z.inj_succ, Z.pow_succ_r in Hn by lia.
  split; [apply Z.div_pos; lia|]. apply Z.div_lt_upper_bound; lia.
Qed.

Lemma le_digits_value f b n :
  2 <= b -> 0 <= n < b ^ Z.of_nat f ->
  foldl (fun acc d => acc * b + d) 0 (reverse (le_digits f b n)) = n.
Proof.
  intros Hb. revert n. induction f as [|f IH]; intros n Hn; [simpl in *; lia|]. rewrite le_digits_S.
  rewrite reverse_cons, foldl_app. simpl. pose proof (quotient_bound b n f Hb Hn) as Hq.
  pose proof (Z.div_mod n b ltac:(lia)). destruct (Z.eqb_spec (n / b) 0) as [E|E]; simpl.
  - lia.
  - rewrite IH by done. lia.
Qed.

Lemma le_digits_lead f b n :
  2 <= b -> 0 < n < b ^ Z.of_nat f -> exists l d, le_digits f b n = l ++ [d] /\ d <> 0.
Proof.
  intros Hb. revert n. induction f as [|f IH]; intros n Hn; [simpl in *; lia|]. rewrite le_digits_S.
  pose proof (quotient_bound b n f Hb ltac:(lia)) as Hq.
  pose proof (Z.div_mod n b ltac:(lia)). destruct (Z.eqb_spec (n / b) 0) as [E|E].
  - exists [], (n mod b). split; [done|lia].
  - destruct (IH (n / b) ltac:(lia)) as (l & d & -> & Hd). by exists (n mod b :: l), d.
Qed.

Lemma numeral_ok b n : 2 <= b -> 0 <= n < 2 ^ 32 -> is_numeral b n (numeral b n).
Proof.
  intros Hb Hn. assert (0 <= n < b ^ Z.of_nat MAX_DIGITS) as Hn'.
  { split; [lia|]. pose proof (Z.pow_le_mono_l 2 b 32 ltac:(lia)). unfold MAX_DIGITS. lia. }
  split; unfold numeral.
  - apply Forall_reverse, le_digits_range, Hb.
  - by apply le_digits_value.
  - destruct (decide (n = 0)) as [->|Hz].
    + left. unfold MAX_DIGITS. rewrite le_digits_S, Z.mod_0_l, Z.div_0_l by lia. done.
    + right. destruct (le_digits_lead MAX_DIGITS b n Hb ltac:(lia)) as (l & d & -> & Hd).
      exists d, (reverse l). by rewrite reverse_app.
Qed.

(** ** The conversions write the numeral *)

Lemma iter_S {S L R} f (body : L -> M S (L + R)) l :
  iter (Datatypes.S f) body l =
  (r <- body l ;; match r with inl l' => iter f body l' | inr v => ret v end).
Proof. done. Qed.

Lemma wp_put_at s ptr c Q :
  0 <= ptr < Z.of_nat (length s) -> Q tt (<[Z.to_nat ptr := u8 c]> s) -> wp (put_at ptr c) Q s.
Proof.
  intros Hp HQ. unfold put_at. wp_steps. eapply wp_some_or_trap; [by apply arr_set_Some|]. by wp_steps.
Qed.

Lemma wp_get_at s ptr c Q : 0 <= ptr -> s !! Z.to_nat ptr = Some c -> Q c s -> wp (get_at ptr) Q s.
Proof.
  intros Hp Hc HQ. unfold get_at. wp_steps. eapply wp_some_or_trap; [|done].
  unfold arr_get. by rewrite (proj2 (Z.leb_le 0 ptr)).
Qed.

(** A write at the boundary of the part already written. *)
Lemma wp_put_next pre x rest c Q :
  Q tt (pre ++ u8 c :: rest) -> wp (put_at (Z.of_nat (length pre)) c) Q (pre ++ x :: rest).
Proof.
  intros HQ. apply wp_put_at; [rewrite length_app; simpl; lia|].
  rewrite Nat2Z.id. by rewrite insert_app_r_alt, Nat.sub_diag by lia.
Qed.

Lemma digit_char_spec d :
  0 <= d < 36 -> arr_get digit_chars d = Some (digit_char d) /\ 0 < digit_char d < 256.
Proof.
  intros Hd. assert (Forall (fun d => arr_get digit_chars d = Some (digit_char d) /\ 0 < digit_char d < 256) (seqZ 0 36))
    as H by (repeat (constructor; [by vm_compute|]); constructor).
  rewrite list.Forall_forall in H. apply H, elem_of_seqZ. lia.
Qed.

(** The digit loop, for the two ways the code computes the remainder and the quotient. *)
Lemma wp_digit_loop (ok : Z -> Prop) (body : Z * Z -> B (Z * Z + Z)) b (fuel : nat) v pre rest Q :
  ok v ->
  2 <= b <= 36 ->
  (forall t p s Q, ok t -> (forall t', ok t' -> Z.abs t' = Z.abs t / b ->
      wp (put_at p (digit_char (Z.abs t mod b)))
        (fun _ => Q (if Z.abs t / b =? 0 then inr (p + 1) else inl (t', p + 1))) s) ->
     wp (body (t, p)) Q s) ->
  Z.abs v < b ^ Z.of_nat (S fuel) ->
  (length (le_digits (S fuel) b (Z.abs v)) <= length rest)%nat ->
  Q (Z.of_nat (length pre + length (le_digits (S fuel) b (Z.abs v))))
    (pre ++ (digit_char <$> le_digits (S fuel) b (Z.abs v)) ++
     drop (length (le_digits (S fuel) b (Z.abs v))) rest) ->
  wp (iter (S fuel) body (v, Z.of_nat (length pre))) Q (pre ++ rest).
Proof.
  intros Hok Hb Hbody. revert v pre rest Hok. induction fuel as [|fuel IH]; intros v pre rest Hok Hv Hlen HQ.
  all: rewrite le_digits_S in HQ, Hlen; rewrite iter_S; wp_steps; apply Hbody; [done|]; intros t' Hok' Ht'.
  all: destruct rest as [|x rest]; [cbn [length] in *; lia|]; apply wp_put_next.
  all: pose proof (Z.mod_pos_bound (Z.abs v) b ltac:(lia)) as Hm.
  all: pose proof (digit_char_spec (Z.abs v mod b) ltac:(lia)) as [_ Hc]; rewrite u8_small by lia.
  all: pose proof (quotient_bound b (Z.abs v) _ ltac:(lia) (conj (Z.abs_nonneg v) Hv)) as Hq.
  - rewrite (proj2 (Z.eqb_eq _ 0)) in * by (simpl in Hq; lia). wp_steps.
    by replace (Z.of_nat (length pre) + 1) with (Z.of_nat (length pre + 1)) by lia.
  - destruct (Z.abs v / b =? 0).
    { wp_steps. by replace (Z.of_nat (length pre) + 1) with (Z.of_nat (length pre + 1)) by lia. }
    set (c := digit_char _) in *. cbn [length] in Hlen.
    replace (Z.of_nat (length pre) + 1) with (Z.of_nat (length (pre ++ [c])))
      by (rewrite length_app; simpl; lia).
    change (c :: rest) with ([c] ++ rest). rewrite (app_assoc pre [c] rest). apply IH; rewrite ?Ht'; [done|lia|lia|].
    rewrite fmap_cons in HQ. cbn [length] in HQ. fold c in HQ.
    rewrite length_app, <- app_assoc. cbn [length app drop] in *.
    by rewrite <- Nat.add_assoc.
Qed.

Lemma wp_reverse_in_place fuel pre l post Q :
  Forall (fun c => 0 <= c < 256) l -> (length l <= 2 * fuel)%nat -> Q tt (pre ++ reverse l ++ post) ->
  wp (iter (S fuel) (fun '(ptr1, ptr) =>
    if ptr1 <? ptr then
      tmp_char <- get_at ptr ;;
      c <- get_at ptr1 ;;
      put_at ptr c ;;
      put_at ptr1 tmp_char ;;
      ret (inl (ptr1 + 1, ptr - 1))
    else ret (inr tt)) (Z.of_nat (length pre), Z.of_nat (length pre + length l) - 1)) Q (pre ++ l ++ post).
Proof.
  revert pre l post. induction fuel as [|fuel IH]; intros pre l post Hr Hl HQ.
  all: rewrite iter_S; wp_steps.
  all: destruct l as [|x l]; [|destruct l as [|y l _] using rev_ind]; rewrite ?length_cons, ?length_app in *;
    cbn [length] in *; try lia.
  all: try (rewrite (proj2 (Z.ltb_ge _ _)) by lia; by wp_steps).
  rewrite (proj2 (Z.ltb_lt _ _)) by lia. wp_steps.
  apply list.Forall_cons in Hr as [Hx [Hr Hy]%Forall_app]. apply (proj1 (list.Forall_singleton _ _)) in Hy. cbv beta in Hx, Hy.
  assert (pre ++ (x :: l ++ [y]) ++ post = (pre ++ x :: l) ++ y :: post) as Es
    by (simpl; by rewrite <- !app_assoc).
  set (ptr := Z.of_nat _ - 1) in *.
  assert (Z.to_nat ptr = length (pre ++ x :: l)) as Ep by (rewrite length_app; simpl; lia).
  cbn [app] in Es |- *. apply wp_get_at with y; [lia|by rewrite Es, Ep, list_lookup_middle|].
  wp_steps. apply wp_get_at with x; [lia|by rewrite Nat2Z.id, list_lookup_middle|].
  wp_steps. apply wp_put_at; [subst ptr; rewrite ?length_app; simpl; rewrite ?length_app; simpl; lia|].
  rewrite Es, Ep, insert_app_r_alt, Nat.sub_diag by done. simpl. wp_steps.
  rewrite <- app_assoc. simpl. apply (wp_put_next pre x). rewrite (u8_small x), (u8_small y) by lia. apply wp_ret. cbv beta iota.
  replace (Z.of_nat (length pre) + 1) with (Z.of_nat (length (pre ++ [y]))) by (rewrite length_app; simpl; lia).
  replace (ptr - 1) with (Z.of_nat (length (pre ++ [y]) + length l) - 1) by (rewrite length_app; simpl; lia).
  change (y :: l ++ x :: post) with ([y] ++ l ++ x :: post). rewrite (app_assoc pre [y]).
  apply IH; [done|lia|]. rewrite reverse_cons, reverse_app in HQ. simpl in HQ.
  by rewrite <- !app_assoc in *.
Qed.

Lemma text_range b n : 2 <= b <= 36 -> Forall (fun c => 0 < c < 256) (digit_char <$> le_digits MAX_DIGITS b n).
Proof.
  intros Hb. apply Forall_fmap. eapply list.Forall_impl; [apply (le_digits_range _ b); lia|].
  simpl. intros d Hd. apply digit_char_spec. lia.
Qed.

Lemma reverse_text b n : reverse (digit_char <$> le_digits MAX_DIGITS b n) = unsigned_text b n.
Proof. unfold unsigned_text, numeral. by rewrite fmap_reverse. Qed.

Lemma length_unsigned_text b n : (length (unsigned_text b n) <= MAX_DIGITS)%nat.
Proof. unfold unsigned_text, numeral. rewrite length_fmap, length_reverse. apply le_digits_length. Qed.

Lemma unsigned_text_range b n : 2 <= b <= 36 -> Forall (fun c => 0 < c < 256) (unsigned_text b n).
Proof. intros Hb. rewrite <- reverse_text. by apply Forall_reverse, text_range. Qed.

(** What both conversions do from the first digit on. *)
Lemma wp_convert_digits (ok : Z -> Prop) (body : Z * Z -> B (Z * Z + Z)) b v pre rest Q :
  ok v ->
  2 <= b <= 36 -> Z.abs v < 2 ^ 32 ->
  (forall t p s Q, ok t -> (forall t', ok t' -> Z.abs t' = Z.abs t / b ->
      wp (put_at p (digit_char (Z.abs t mod b)))
        (fun _ => Q (if Z.abs t / b =? 0 then inr (p + 1) else inl (t', p + 1))) s) ->
     wp (body (t, p)) Q s) ->
  (length (unsigned_text b (Z.abs v)) < length rest)%nat ->
  Q tt (pre ++ unsigned_text b (Z.abs v) ++ 0 :: drop (S (length (unsigned_text b (Z.abs v)))) rest) ->
  wp (ptr <- iter MAX_DIGITS body (v, Z.of_nat (length pre)) ;;
      put_at ptr 0 ;; reverse_in_place (Z.of_nat (length pre)) (ptr - 1)) Q (pre ++ rest).
Proof.
  intros Hok Hb Hv Hbody Hlen HQ. rewrite <- reverse_text in *.
  rewrite length_reverse, length_fmap in *.
  wp_steps. unfold MAX_DIGITS at 1. apply (wp_digit_loop ok body b 31); [done|done|done| |fold MAX_DIGITS; lia|].
  { pose proof (Z.pow_le_mono_l 2 b 32 ltac:(lia)). change (Z.of_nat 32) with 32. lia. }
  change (S 31) with MAX_DIGITS. set (l := le_digits _ _ _) in *.
  destruct (drop (length l) rest) as [|x post] eqn:Ed.
  { apply (f_equal length) in Ed. rewrite length_drop in Ed. cbn [length] in Ed. lia. }
  rewrite app_assoc. replace (length pre + length l)%nat with (length (pre ++ (digit_char <$> l)))
    by (by rewrite length_app, length_fmap).
  wp_steps. apply wp_put_next. rewrite <- app_assoc. unfold reverse_in_place.
  rewrite length_app. apply wp_reverse_in_place.
  - eapply list.Forall_impl; [apply (text_range b (Z.abs v) Hb)|]. simpl. lia.
  - rewrite length_fmap. pose proof (le_digits_length MAX_DIGITS b (Z.abs v)). unfold MAX_DIGITS in *. fold l in H. lia.
  - replace (drop (S (length l)) rest) with post in HQ; [exact HQ|].
    by rewrite <- Nat.add_1_r, <- drop_drop, Ed.
Qed.

Lemma wp_uitoa s v b Q :
  2 <= b <= 36 -> 0 <= v < 2 ^ 32 -> (length (unsigned_text b v) < length s)%nat ->
  (forall s', holds_text (unsigned_text b v) s s' -> Q tt s') -> wp (uitoa v b) Q s.
Proof.
  intros Hb Hv Hlen HQ. unfold uitoa. rewrite (proj2 (Z.ltb_ge b 2)), (proj2 (Z.ltb_ge 36 b)) by lia. cbn [orb].
  rewrite <- (Z.abs_eq v) in Hlen, HQ by lia.
  apply (wp_convert_digits (fun t => 0 <= t) _ b v [] s); [lia|done|lia| |done|by apply HQ].
  intros t p s' Q' Ht H. specialize (H (t / b)). rewrite !Z.abs_eq in H by (try apply Z.div_pos; lia).
  specialize (H ltac:(apply Z.div_pos; lia) eq_refl).
  pose proof (Z.mod_pos_bound t b ltac:(lia)). wp_steps.
  eapply wp_some_or_trap; [apply digit_char_spec; lia|]. wp_steps.
  eapply wp_mono; [exact H|]. intros [] s1 H1. cbv zeta. by destruct (_ =? _); wp_steps.
Qed.

(** The sign and the digits of [itoa]. *)
Lemma wp_itoa s v b Q :
  2 <= b <= 36 -> -2147483648 <= v < 2147483648 -> (length (signed_text b v) < length s)%nat ->
  (forall s', holds_text (signed_text b v) s s' -> Q tt s') -> wp (itoa v b) Q s.
Proof.
  intros Hb Hv Hlen HQ. unfold itoa. rewrite (proj2 (Z.ltb_ge b 2)), (proj2 (Z.ltb_ge 36 b)) by lia. cbn [orb].
  set (loop := iter _ _).
  assert (forall w pre rest Q, Z.abs w < 2 ^ 32 ->
    (length (unsigned_text b (Z.abs w)) < length rest)%nat ->
    Q tt (pre ++ unsigned_text b (Z.abs w) ++ 0 :: drop (S (length (unsigned_text b (Z.abs w)))) rest) ->
    wp (ptr <- loop (w, Z.of_nat (length pre)) ;; put_at ptr 0 ;;
        reverse_in_place (Z.of_nat (length pre)) (ptr - 1)) Q (pre ++ rest)) as Hloop.
  { intros w pre rest Q' Hw Hl HQ'. apply (wp_convert_digits (fun _ => True) _ b); [done|done|done| |done|done].
    intros t p s' Q2 _ H. specialize (H (Z.quot t b) I).
    assert (Z.abs (Z.quot t b) = Z.abs t / b) as Eq.
    { rewrite <- Z.quot_abs by lia. rewrite (Z.abs_eq b) by lia. apply Z.quot_div_nonneg; lia. }
    assert (Z.abs (Z.rem t b) = Z.abs t mod b) as Er.
    { rewrite <- Z.rem_abs by lia. rewrite (Z.abs_eq b) by lia. apply Z.rem_mod_nonneg; lia. }
    pose proof (Z.mod_pos_bound (Z.abs t) b ltac:(lia)). wp_steps.
    replace (if Z.rem t b <? 0 then - Z.rem t b else Z.rem t b) with (Z.abs t mod b)
      by (destruct (Z.ltb_spec (Z.rem t b) 0); lia).
    eapply wp_some_or_trap; [apply digit_char_spec; lia|]. wp_steps.
    eapply wp_mono; [exact (H Eq)|]. intros [] s1 H1. cbv zeta.
    replace (Z.quot t b =? 0) with (Z.abs t / b =? 0) by (rewrite <- Eq; destruct (Z.eqb_spec (Z.quot t b) 0) as [->|]; [done|]; apply Z.eqb_neq; lia).
    by destruct (_ =? _); wp_steps. }
  clearbody loop. unfold signed_text, holds_text in *. destruct ((v <? 0) && (b =? 10)) eqn:Eneg.
  - apply andb_prop in Eneg as [Hneg%Z.ltb_lt ->%Z.eqb_eq]. cbn [length] in *.
    destruct s as [|x s]; [simpl in Hlen; lia|]. wp_steps. apply (wp_put_next [] x). simpl.
    assert (Z.abs (s32 (- v)) = - v) as Ea.
    { unfold s32, u32. destruct (decide (v = -2147483648)) as [->|]; [done|].
      rewrite Z.mod_small by lia. rewrite (proj2 (Z.ltb_lt _ _)) by lia. lia. }
    specialize (Hloop (s32 (- v)) [45] s Q). rewrite Ea in Hloop.
    apply Hloop; [lia|simpl in Hlen; lia|]. by apply HQ.
  - apply wp_bind, wp_ret. cbv zeta. apply (Hloop v [] s); [lia|done|]. by apply HQ.
Qed.

(** ** The formatter writes what its format means *)

Section format_spec.
Context (string_at : Z -> list Z).

Definition is_digit (c : Z) : Prop := 48 <= c <= 57.
Definition decimal (w : list Z) : Z := foldl (fun acc c => acc * 10 + (c - 48)) 0 w.

(** The text of a number, with zeros in front up to the width. *)
Definition padded (zero_pad : bool) (width : Z) (digits : list Z) : list Z :=
  (if zero_pad then replicate (Z.to_nat (width - Z.of_nat (length digits))) 48 else []) ++ digits.

(** The text of one conversion and the arguments it leaves. *)
Definition conversion (c : Z) (zero_pad : bool) (width : Z) (args : list Z) : option (list Z * list Z) :=
  match args with
  | a :: args' =>
      if c =? 99 then Some ([u8 a], args')
      else if c =? 115 then Some (u8 <$> (if a =? 0 then null_text else string_at a), args')
      else if c =? 100 then Some (padded zero_pad width (signed_text 10 (s32 a)), args')
      else if c =? 117 then Some (padded zero_pad width (unsigned_text 10 (u32 a)), args')
      else if c =? 120 then Some (padded zero_pad width (unsigned_text 16 (u32 a)), args')
      else if c =? 98 then Some (padded zero_pad width (unsigned_text 2 (u32 a)), args')
      else if c =? 112 then Some ([48; 120] ++ padded zero_pad (width - 2) (unsigned_text 16 (u32 a)), args')
      else Some ([u8 c], args)
  | [] => if existsb (Z.eqb c) [99; 115; 100; 117; 120; 98; 112] then None else Some ([u8 c], [])
  end.

(** [formats fmt args out]: the format [fmt] writes [out] when it finds the
    words [args].  A specification is '%', an optional '0', the digits of the
    width, and the conversion character. *)
Inductive formats : list Z -> list Z -> list Z -> Prop :=
  | formats_end args : formats [] args []
  | formats_char c fmt args out :
      c <> 37 -> formats fmt args out -> formats (c :: fmt) args (u8 c :: out)
  | formats_conv (zero_pad : bool) width c fmt args args' text out :
      Forall is_digit width -> (zero_pad = false -> head width <> Some 48) -> decimal width < 2147483648 -> ~ is_digit c ->
      conversion c zero_pad (decimal width) args = Some (text, args') ->
      formats fmt args' out ->
      formats (37 :: (if zero_pad then [48] else []) ++ width ++ c :: fmt) args (text ++ out).

Lemma wp_emit l pre rest Q :
  (length l <= length rest)%nat ->
  Q (Z.of_nat (length pre + length l)) (pre ++ (u8 <$> l) ++ drop (length l) rest) ->
  wp (emit l (Z.of_nat (length pre))) Q (pre ++ rest).
Proof.
  revert pre rest. induction l as [|c l IH]; intros pre rest Hl HQ; cbn [emit].
  - apply wp_ret. by rewrite Nat.add_0_r in HQ.
  - destruct rest as [|x rest]; [simpl in Hl; lia|]. wp_steps. apply wp_put_next.
    change (u8 c :: rest) with ([u8 c] ++ rest). rewrite (app_assoc pre [u8 c] rest).
    replace (Z.of_nat (length pre) + 1) with (Z.of_nat (length (pre ++ [u8 c]))) by (rewrite length_app; simpl; lia).
    apply IH; [simpl in Hl; lia|]. rewrite length_app, <- app_assoc. simpl in *.
    by replace (length pre + 1 + length l)%nat with (length pre + S (length l))%nat by lia.
Qed.

Lemma parse_width_digits w acc f :
  Forall is_digit w -> ~ is_digit (peek f) -> 0 <= acc ->
  foldl (fun acc c => acc * 10 + (c - 48)) acc w < 2147483648 ->
  parse_width acc (w ++ f) = (foldl (fun acc c => acc * 10 + (c - 48)) acc w, f).
Proof.
  intros Hw Hf. revert acc. induction w as [|c w IH]; intros acc Hacc Hb; simpl in *.
  - destruct f as [|c f]; [done|]. unfold is_digit, peek in Hf. simpl in *.
    destruct (Z.leb_spec 48 c), (Z.leb_spec c 57); simpl; [lia|done..].
  - apply list.Forall_cons in Hw as [Hc Hw]. unfold is_digit in Hc.
    rewrite (proj2 (Z.leb_le 48 c)), (proj2 (Z.leb_le c 57)) by lia. simpl.
    assert (acc * 10 + (c - 48) <= foldl (fun acc c => acc * 10 + (c - 48)) (acc * 10 + (c - 48)) w) as Hm.
    { assert (0 <= acc * 10 + (c - 48)) as Ha by lia. clear -Hw Ha. revert Ha.
      generalize (acc * 10 + (c - 48)). induction w as [|d w IH]; intros a Ha; simpl; [lia|].
      apply list.Forall_cons in Hw as [Hd Hw]. unfold is_digit in Hd.
      specialize (IH Hw (a * 10 + (d - 48)) ltac:(lia)). lia. }
    assert (s32 (acc * 10 + (c - 48)) = acc * 10 + (c - 48)) as ->.
    { unfold s32. rewrite u32_small by lia. by rewrite (proj2 (Z.ltb_lt _ _)) by lia. }
    apply IH; [done|lia|done].
Qed.

Lemma wp_with_buffer {S A} n (c : B A) Q (s : S) :
  wp c (fun a t => Q (a, t) s) (replicate n 0) -> wp (with_buffer n c) Q s.
Proof. unfold wp, with_buffer. by destruct (c _) as [[a t]| |]. Qed.

Lemma c_string_text text l : Forall (fun c => c <> 0) text -> c_string (text ++ 0 :: l) = text.
Proof.
  induction 1 as [|c text Hc _ IH]; simpl; [done|]. rewrite (proj2 (Z.eqb_neq c 0) Hc). by rewrite IH.
Qed.

Lemma fmap_u8 text : Forall (fun c => 0 < c < 256) text -> u8 <$> text = text.
Proof. induction 1 as [|c text Hc _ IH]; [done|]. by rewrite fmap_cons, IH, u8_small by lia. Qed.

Lemma fmap_u8_zeros n : u8 <$> replicate n 48 = replicate n 48.
Proof. by rewrite fmap_replicate. Qed.

Lemma signed_text_ok b v :
  2 <= b <= 36 -> Forall (fun c => 0 < c < 256) (signed_text b v) /\ (length (signed_text b v) < 34)%nat.
Proof.
  intros Hb. unfold signed_text. pose proof (length_unsigned_text b (- v)). pose proof (length_unsigned_text b (Z.abs v)).
  unfold MAX_DIGITS in *. destruct (_ && _); split; simpl; try lia; try by apply unsigned_text_range.
  constructor; [lia|by apply unsigned_text_range].
Qed.

Lemma s32_bounds a : -2147483648 <= s32 a < 2147483648.
Proof. unfold s32. pose proof (u32_range a). destruct (Z.ltb_spec (u32 a) 2147483648); lia. Qed.

Lemma wp_emit_number conv digits zero_pad width pre rest Q :
  (forall s Q', length s = 34%nat -> (forall s', holds_text digits s s' -> Q' tt s') -> wp conv Q' s) ->
  Forall (fun c => 0 < c < 256) digits ->
  (length (padded zero_pad width digits) <= length rest)%nat ->
  Q (Z.of_nat (length pre + length (padded zero_pad width digits)))
    (pre ++ padded zero_pad width digits ++ drop (length (padded zero_pad width digits)) rest) ->
  wp (emit_number conv zero_pad width (Z.of_nat (length pre))) Q (pre ++ rest).
Proof.
  intros Hc Hd Hlen HQ. unfold emit_number. wp_steps. apply wp_with_buffer.
  apply Hc; [apply length_replicate|]. intros s' ->. simpl. rewrite c_string_text by (eapply list.Forall_impl; [exact Hd|simpl; lia]).
  set (zeros := if zero_pad then replicate (Z.to_nat (width - Z.of_nat (length digits))) 48 else []).
  change (padded zero_pad width digits) with (zeros ++ digits) in *. rewrite length_app in Hlen, HQ.
  assert (u8 <$> zeros = zeros) as Hz by (subst zeros; destruct zero_pad; [apply fmap_u8_zeros|done]).
  assert (wp (if zero_pad && (Z.of_nat (length digits) <? width)
              then emit (replicate (Z.to_nat (width - Z.of_nat (length digits))) 48) (Z.of_nat (length pre))
              else ret (Z.of_nat (length pre)))
    (fun p t => p = Z.of_nat (length (pre ++ zeros)) /\ t = (pre ++ zeros) ++ drop (length zeros) rest)
    (pre ++ rest)) as Hpad.
  { destruct zero_pad; cbn [andb]; [destruct (Z.ltb_spec (Z.of_nat (length digits)) width)|].
    - apply wp_emit; [subst zeros; lia|]. fold zeros. by rewrite Hz, length_app, <- app_assoc.
    - apply wp_ret. subst zeros. replace (Z.to_nat (width - Z.of_nat (length digits))) with 0%nat by lia.
      simpl. by rewrite !app_nil_r.
    - apply wp_ret. subst zeros. simpl. by rewrite !app_nil_r. }
  wp_steps. eapply wp_mono; [exact Hpad|]. intros p t [-> ->].
  apply wp_emit; [rewrite length_drop; lia|]. rewrite (fmap_u8 digits Hd), drop_drop, length_app, <- !app_assoc.
  by rewrite <- app_assoc, <- Nat.add_assoc in *.
Qed.

Lemma wp_convert c zero_pad width pre rest args args' text Q :
  conversion c zero_pad width args = Some (text, args') ->
  (length text <= length rest)%nat ->
  Q (Z.of_nat (length pre + length text), args') (pre ++ text ++ drop (length text) rest) ->
  wp (convert string_at c zero_pad width (Z.of_nat (length pre)) args) Q (pre ++ rest).
Proof.
  assert (forall x, (length [u8 x] <= length rest)%nat ->
    Q (Z.of_nat (length pre + length [u8 x]), args') (pre ++ [u8 x] ++ drop (length [u8 x]) rest) ->
    wp (put_at (Z.of_nat (length pre)) x ;; ret (Z.of_nat (length pre) + 1, args')) Q (pre ++ rest)) as Hput.
  { intros x Hlen HQ. destruct rest as [|y rest]; [simpl in Hlen; lia|]. wp_steps. apply wp_put_next. wp_steps.
    replace (Z.of_nat (length pre) + 1) with (Z.of_nat (length pre + 1)) by lia. exact HQ. }
  assert (forall conv digits w,
    (forall s Q', length s = 34%nat -> (forall s', holds_text digits s s' -> Q' tt s') -> wp conv Q' s) ->
    Forall (fun c => 0 < c < 256) digits -> text = padded zero_pad w digits ->
    (length text <= length rest)%nat ->
    Q (Z.of_nat (length pre + length text), args') (pre ++ text ++ drop (length text) rest) ->
    wp (p <- emit_number conv zero_pad w (Z.of_nat (length pre)) ;; ret (p, args')) Q (pre ++ rest)) as Hnum.
  { intros conv digits w Hconv Hd -> Hlen HQ. apply wp_bind, (wp_emit_number conv digits); [done|done|done|].
    by apply wp_ret. }
  assert (forall b, 2 <= b <= 36 -> forall a s Q', length s = 34%nat ->
    (forall s', holds_text (unsigned_text b (u32 a)) s s' -> Q' tt s') -> wp (uitoa (u32 a) b) Q' s) as Huns.
  { intros b Hb a s Q' Hs HQ'. apply wp_uitoa; [done|apply u32_range| |done].
    pose proof (length_unsigned_text b (u32 a)). unfold MAX_DIGITS in *. lia. }
  unfold conversion, convert. intros Hc Hlen HQ. destruct args as [|a args].
  { cbn [existsb va_arg] in *. destruct (c =? 99), (c =? 115), (c =? 100), (c =? 117), (c =? 120), (c =? 98), (c =? 112);
      cbn in Hc; try discriminate; injection Hc as <- <-. destruct (Z.eqb_spec c 37) as [->|]; by apply Hput. }
  unfold va_arg.
  repeat match type of Hc with (if ?b then _ else _) = _ => destruct b eqn:?E; cbn [orb] end; simplify_eq.
  all: try (apply wp_bind, wp_ret; cbv iota).
  - by apply Hput.
  - apply wp_bind, wp_emit; rewrite length_fmap in *; [done|]. by apply wp_ret.
  - eapply Hnum; [|exact (proj1 (signed_text_ok 10 (s32 a) ltac:(lia)))|done..].
    intros s Q' Hs HQ'. apply wp_itoa; [lia|apply s32_bounds| |done].
    pose proof (signed_text_ok 10 (s32 a) ltac:(lia)). lia.
  - eapply Hnum; [by apply Huns|by apply unsigned_text_range|done..].
  - eapply Hnum; [by apply Huns|by apply unsigned_text_range|done..].
  - eapply Hnum; [by apply Huns|by apply unsigned_text_range|done..].
  - cbn [length] in *. rewrite length_app in *. cbn [length] in *.
    apply wp_bind, wp_emit; [cbn [length]; lia|]. cbn [length].
    replace (length pre + 2)%nat with (length (pre ++ [48; 120])) by (by rewrite length_app).
    rewrite app_assoc. apply wp_bind, (wp_emit_number _ (unsigned_text 16 (u32 a)));
      [by apply Huns|by apply unsigned_text_range|rewrite length_drop; lia|].
    apply wp_ret. rewrite length_app, drop_drop, <- app_assoc. cbn [length].
    by rewrite <- Nat.add_assoc.
  - destruct (Z.eqb_spec c 37) as [->|]; by apply Hput.
Qed.

Lemma wp_vsprintf_loop f args out : formats f args out -> forall fuel pre rest Q,
  (length f < fuel)%nat -> (length out < length rest)%nat ->
  Q (Z.of_nat (length pre + length out)) (pre ++ out ++ drop (length out) rest) ->
  wp (iter fuel (vsprintf_step string_at) (Z.of_nat (length pre), f, args)) Q (pre ++ rest).
Proof.
  induction 1 as [args|c f args out Hc _ IH|zero_pad w c f args args' text out Hw Hlead Hb Hcd Hconv _ IH];
    intros [|fuel] pre rest Q Hf Hlen HQ; try (cbn [length] in Hf; lia); rewrite iter_S; apply wp_bind.
  - apply wp_ret, wp_ret. by rewrite Nat.add_0_r in HQ.
  - cbn [vsprintf_step]. rewrite (proj2 (Z.eqb_neq c 37) Hc). cbn [negb].
    destruct rest as [|x rest]; [cbn [length] in Hlen; lia|]. apply wp_bind, wp_put_next, wp_ret. cbv beta iota.
    replace (Z.of_nat (length pre) + 1) with (Z.of_nat (length (pre ++ [u8 c]))) by (rewrite length_app; simpl; lia).
    change (u8 c :: rest) with ([u8 c] ++ rest). rewrite (app_assoc pre [u8 c] rest).
    cbn [length] in *. apply IH; [lia|lia|]. rewrite length_app, <- app_assoc. cbn [length app drop] in *.
    by replace (length pre + 1 + length out)%nat with (length pre + S (length out))%nat by lia.
  - cbn [vsprintf_step]. change (37 =? 37) with true. cbn [negb].
    set (f1 := (if zero_pad then [48] else []) ++ w ++ c :: f).
    assert ((peek f1 =? 48) = zero_pad) as Ez.
    { subst f1. destruct zero_pad; [done|]. apply Z.eqb_neq. unfold peek. destruct w as [|d w]; simpl in *.
      - unfold is_digit in Hcd. lia.
      - intros ->. by apply Hlead. }
    rewrite Ez. replace (if zero_pad then tail f1 else f1) with (w ++ c :: f) by (subst f1; by destruct zero_pad).
    rewrite parse_width_digits by (done || lia). fold (decimal w). cbv iota.
    rewrite length_app in HQ, Hlen. apply wp_bind, (wp_convert c _ _ _ _ _ args' text); [exact Hconv|lia|].
    cbv beta iota. apply wp_ret. cbv iota. rewrite <- length_app, app_assoc. apply IH.
    + destruct zero_pad; rewrite ?length_cons, ?length_app, ?length_cons in Hf; lia.
    + rewrite length_drop. lia.
    + rewrite length_app, drop_drop, <- !app_assoc. rewrite <- app_assoc in HQ. by rewrite <- Nat.add_assoc.
Qed.

Lemma wp_vsprintf fmt args out s :
  formats fmt args out -> (length out < length s)%nat ->
  wp (vsprintf string_at fmt args) (fun len s' => len = Z.of_nat (length out) /\ holds_text out s s') s.
Proof.
  intros Hf Hlen. unfold vsprintf. apply wp_bind, (wp_vsprintf_loop _ _ _ Hf _ [] s); [lia|done|].
  destruct (drop (length out) s) as [|x post] eqn:Ed.
  { apply (f_equal length) in Ed. rewrite length_drop in Ed. cbn [length] in Ed. lia. }
  apply wp_bind, (wp_put_next out), wp_ret. split; [done|]. unfold holds_text.
  by rewrite <- Nat.add_1_r, <- drop_drop, Ed.
Qed.
End format_spec.

(** ** Messages to the serial port *)

Section printk_spec.
Context {P : Type} `{!PortIO P} (polls : nat) (string_at : Z -> list Z).

Lemma serial_write_app (base : Z) (l1 l2 : list Z) (s : P) :
  Forall (fun c => c <> 0) l1 ->
  serial_write polls base (l1 ++ l2) s = (serial_write polls base l1 ;; serial_write polls base l2) s.
Proof.
  intros Hl. revert s. induction Hl as [|c l1 Hc _ IH]; intros s; [done|]. cbn [app serial_write].
  rewrite (proj2 (Z.eqb_neq c 0) Hc). unfold bind.
  destruct (serial_write_char polls base c s) as [[[] s']| |]; [|done..]. apply IH.
Qed.

(** A message whose text fits its buffer reaches the serial port whole: the tag
    of its level, the text and a newline. *)
Lemma printk_writes level fmt args out tag (s : P) :
  arr_get level_tags level = Some tag -> formats string_at fmt args out ->
  (length out < 1024)%nat -> Forall (fun c => c <> 0) out ->
  printk string_at polls level fmt args s = serial_write polls SERIAL_COM1_BASE (tag ++ out ++ [10]) s.
Proof.
  intros Htag Hf Hlen Hout. pose proof (arr_get_range _ _ _ Htag) as Hr. cbn in Hr.
  assert (Forall (fun c => c <> 0) tag) as Ht.
  { assert (Forall (Forall (fun c => c <> 0)) level_tags) as Hall by (repeat constructor; done).
    rewrite list.Forall_lookup in Hall. apply (Hall (Z.to_nat level)).
    unfold arr_get in Htag. by destruct (0 <=? level). }
  unfold printk, LOG_DEBUG, LOG_FATAL. rewrite (proj2 (Z.leb_le 0 level)), (proj2 (Z.leb_le level 4)) by lia.
  cbn [andb]. rewrite Htag, serial_write_app by done. cbn [some_or_trap]. unfold bind at 1 2 5, ret at 1.
  destruct (serial_write polls SERIAL_COM1_BASE tag s) as [[[] s1]| |]; [|done..].
  pose proof (wp_vsprintf string_at fmt args out (replicate 1024 0) Hf) as Hv.
  rewrite length_replicate in Hv. specialize (Hv Hlen). unfold wp in Hv. unfold with_buffer, bind at 1.
  destruct (vsprintf _ _ _ _) as [[len buf]| |]; [|done..]. destruct Hv as [-> ->]. cbn [ret snd].
  rewrite serial_write_app by done.
  by rewrite c_string_text.
Qed.
End printk_spec.

(** ** The properties *)




