(* ===== verification/Descriptors.v ===== *)
(** * Descriptor tables ([arch/i386/gdt.c], [arch/i386/idt.c], [kernel/gdt.h], [kernel/idt.h])

    The segment descriptors and interrupt gates as the kernel packs them, and what
    the processor decodes from them. *)

From stdpp Require Import base list gmap numbers option tactics.
From Stdlib Require Import Lia ZArith.
From S2P Require Import Prelude PhysMem Task.

(** ** Segment descriptors *)

Record gdt_access := mkAccess {
  accessed : Z; read_write : Z; conforming : Z; executable : Z; s_type : Z; dpl : Z; seg_present : Z;
}.
Record gdt_gran := mkGran { limit_high : Z; available : Z; long_mode : Z; gran_size : Z; granular : Z }.

(** The bit-fields as the byte they are stored in, first field lowest. *)
Definition access_byte (a : gdt_access) : Z :=
  accessed a + 2 * read_write a + 4 * conforming a + 8 * executable a + 16 * s_type a + 32 * dpl a +
  128 * seg_present a.
Definition gran_byte (g : gdt_gran) : Z :=
  limit_high g + 16 * available g + 32 * long_mode g + 64 * gran_size g + 128 * granular g.

Record gdt_entry := mkGdtEntry {
  limit_low : Z; base_low : Z; base_middle : Z; access : Z; granularity : Z; base_high : Z;
}.
Record idt_entry := mkIdtEntry { offset_low : Z; selector : Z; zero : Z; type_attr : Z; offset_high : Z }.

Definition sizeof_gdt_entry : Z := 8.
Definition sizeof_tss_entry : Z := 104.
Definition sizeof_idt_entry : Z := 8.
Definition TSS_SEG : Z := 0x28.

(** The tables, their pointers, the fields of the TSS that are set, and the
    descriptor registers of the processor. *)
Record tables := mkTables {
  gdt : list gdt_entry;
  gp_size : Z; gp_address : Z;
  tss_ss0_ : Z; tss_esp0_ : Z; tss_iomap_base : Z;
  idt : list idt_entry;
  idtp_limit : Z; idtp_base : Z;
  reg_gdtr : option (Z * Z); reg_tr : Z; reg_idtr : option (Z * Z);
}.
#[export] Instance eta_tables : Eta tables := {| eta := fun t =>
  mkTables (gdt t) (gp_size t) (gp_address t) (tss_ss0_ t) (tss_esp0_ t) (tss_iomap_base t) (idt t)
    (idtp_limit t) (idtp_base t) (reg_gdtr t) (reg_tr t) (reg_idtr t) |}.

Definition null_gdt_entry : gdt_entry := mkGdtEntry 0 0 0 0 0 0.
Definition null_idt_entry : idt_entry := mkIdtEntry 0 0 0 0 0.
(** The statics before any initialisation. *)
Definition tables_boot : tables :=
  mkTables (replicate 12 null_gdt_entry) 0 0 0 0 0 (replicate 256 null_idt_entry) 0 0 None 0 None.

Abbreviation T := (M tables).

Definition gdt_descriptor (base limit : Z) (acc : gdt_access) (gran : gdt_gran) : gdt_entry :=
  let gran := mkGran (Z.land (Z.shiftr limit 16) 0x0F) (available gran) (long_mode gran) (gran_size gran) (granular gran) in
  mkGdtEntry (Z.land limit 0xFFFF) (Z.land base 0xFFFF) (Z.land (Z.shiftr base 16) 0xFF) (access_byte acc)
    (gran_byte gran) (Z.land (Z.shiftr base 24) 0xFF).

Definition gdt_set_gate (num base limit : Z) (acc : gdt_access) (gran : gdt_gran) : T unit :=
  s <- get ;;
  l <- some_or_trap (arr_set (gdt s) num (gdt_descriptor base limit acc gran)) ;;
  put (s <| gdt := l |>).

Definition null_access : gdt_access := mkAccess 0 0 0 0 0 0 0.
Definition null_gran : gdt_gran := mkGran 0 0 0 0 0.
Definition kcode_access : gdt_access := mkAccess 0 1 0 1 1 0 1.
Definition kcode_gran : gdt_gran := mkGran 0 0 0 1 1.
Definition kdata_access : gdt_access := mkAccess 0 1 0 0 1 0 1.
Definition kdata_gran : gdt_gran := mkGran 0 0 0 1 1.
Definition ucode_access : gdt_access := mkAccess 0 1 0 1 1 3 1.
Definition ucode_gran : gdt_gran := mkGran 0 0 0 1 1.
Definition udata_access : gdt_access := mkAccess 0 1 0 0 1 3 1.
Definition udata_gran : gdt_gran := mkGran 0 0 0 1 1.
Definition tss_access : gdt_access := mkAccess 1 0 0 1 0 0 1.
Definition tss_gran : gdt_gran := mkGran 0 0 0 0 0.

(** The addresses of the tables and the stack pointer come from the linker and the
    processor. *)
Definition gdt_init (gdt_address tss_address esp_now : Z) : T unit :=
  modify (fun s => s <| gp_size := sizeof_gdt_entry * 6 - 1 |> <| gp_address := gdt_address |>) ;;
  gdt_set_gate 0 0 0 null_access null_gran ;;
  gdt_set_gate 1 0 0xFFFFFFFF kcode_access kcode_gran ;;
  gdt_set_gate 2 0 0xFFFFFFFF kdata_access kdata_gran ;;
  gdt_set_gate 3 0 0xFFFFFFFF ucode_access ucode_gran ;;
  gdt_set_gate 4 0 0xFFFFFFFF udata_access udata_gran ;;
  gdt_set_gate 5 tss_address (sizeof_tss_entry - 1) tss_access tss_gran ;;
  modify (fun s => s <| tss_ss0_ := KERNEL_DATA_SEG |> <| tss_esp0_ := esp_now |>
    <| tss_iomap_base := sizeof_tss_entry |>) ;;
  modify (fun s => s <| reg_gdtr := Some (gp_size s, gp_address s) |>) ;;
  modify (fun s => s <| reg_tr := TSS_SEG |>).

(** ** Interrupt gates *)

Definition idt_gate (base sel flags : Z) : idt_entry :=
  mkIdtEntry (Z.land base 0xFFFF) sel 0 flags (Z.land (Z.shiftr base 16) 0xFFFF).

Definition idt_set_gate (num base sel flags : Z) : T unit :=
  s <- get ;; l <- some_or_trap (arr_set (idt s) num (idt_gate base sel flags)) ;; put (s <| idt := l |>).

(** The assembly entry points are parameters. *)
Definition idt_init (idt_address h32 h33 h14 h128 : Z) : T unit :=
  modify (fun s => s <| idtp_limit := sizeof_idt_entry * 256 - 1 |> <| idtp_base := idt_address |>) ;;
  for_each 256 0 (fun i => idt_set_gate i 0 0 0) ;;
  idt_set_gate 32 h32 0x08 0x8E ;;
  idt_set_gate 33 h33 0x08 0x8E ;;
  idt_set_gate 14 h14 0x08 0x8E ;;
  idt_set_gate 128 h128 0x08 0xEE ;;
  modify (fun s => s <| reg_idtr := Some (idtp_limit s, idtp_base s) |>).

Definition gate_used (e : idt_entry) : bool := negb (offset_low e =? 0) || negb (offset_high e =? 0).

Definition idt_get_used_entries : T Z :=
  r <- for_ (R := Empty_set) 256 0 (fun i count =>
         s <- get ;; e <- some_or_trap (arr_get (idt s) i) ;;
         ret (inl (if gate_used e then u32 (count + 1) else count))) 0 ;;
  match r with inl c => ret c | inr e => match e with end end.

(** The vectors stored in the caller's array; their number is the second answer. *)
Definition idt_get_configured_interrupts (max_count : Z) : T (list Z) :=
  r <- for_ 256 0 (fun i found =>
         if Z.of_nat (length found) <? max_count then
           s <- get ;; e <- some_or_trap (arr_get (idt s) i) ;;
           ret (inl (if gate_used e then found ++ [i] else found))
         else ret (inr found)) [] ;;
  match r with inl l => ret l | inr l => ret l end.

(** ** What the processor reads *)

Definition desc_base (e : gdt_entry) : Z := base_low e + 65536 * base_middle e + 16777216 * base_high e.
Definition desc_limit (e : gdt_entry) : Z := limit_low e + 65536 * (granularity e mod 16).
Definition desc_dpl (e : gdt_entry) : Z := access e / 32 mod 4.
Definition gate_offset (e : idt_entry) : Z := offset_low e + 65536 * offset_high e.

(** The fields fit their widths in the packed structure. *)
Definition gdt_entry_ok (e : gdt_entry) : Prop :=
  0 <= limit_low e < 65536 /\ 0 <= base_low e < 65536 /\ 0 <= base_middle e < 256 /\ 0 <= access e < 256 /\
  0 <= granularity e < 256 /\ 0 <= base_high e < 256.

Definition bit (b : Z) : Prop := 0 <= b < 2.
Definition access_ok (a : gdt_access) : Prop :=
  bit (accessed a) /\ bit (read_write a) /\ bit (conforming a) /\ bit (executable a) /\ bit (s_type a) /\
  0 <= dpl a < 4 /\ bit (seg_present a).
Definition gran_ok (g : gdt_gran) : Prop :=
  0 <= limit_high g < 16 /\ bit (available g) /\ bit (long_mode g) /\ bit (gran_size g) /\ bit (granular g).

(** The parts of a 32-bit word the code separates by shifts and masks. *)
Lemma land_ones_mod x n : 0 <= n -> Z.land x (2 ^ n - 1) = x mod 2 ^ n.
Proof. intros Hn. rewrite <- Z.land_ones by done. by rewrite Z.ones_equiv, Z.sub_1_r. Qed.
Lemma land_ffff x : Z.land x 0xFFFF = x mod 65536.
Proof. exact (land_ones_mod x 16 ltac:(done)). Qed.
Lemma land_ff x : Z.land x 0xFF = x mod 256.
Proof. exact (land_ones_mod x 8 ltac:(done)). Qed.
Lemma land_0f x : Z.land x 0x0F = x mod 16.
Proof. exact (land_ones_mod x 4 ltac:(done)). Qed.
Lemma shiftr_16 x : Z.shiftr x 16 = x / 65536.
Proof. by rewrite Z.shiftr_div_pow2. Qed.
Lemma shiftr_24 x : Z.shiftr x 24 = x / 16777216.
Proof. by rewrite Z.shiftr_div_pow2. Qed.

Lemma gdt_descriptor_spec base limit a g :
  0 <= base < 4294967296 -> 0 <= limit < 4294967296 -> access_ok a -> gran_ok g ->
  let e := gdt_descriptor base limit a g in
  gdt_entry_ok e /\ desc_base e = base /\ desc_limit e = limit mod 1048576 /\ desc_dpl e = dpl a.
Proof.
  intros Hb Hl (A1 & A2 & A3 & A4 & A5 & A6 & A7) (G1 & G2 & G3 & G4 & G5). unfold bit in *. cbn zeta.
  unfold gdt_entry_ok, desc_base, desc_limit, desc_dpl, gdt_descriptor, access_byte, gran_byte.
  cbn [limit_low base_low base_middle access granularity base_high limit_high available long_mode gran_size granular].
  rewrite !land_ffff, !land_ff, !land_0f, !shiftr_16, !shiftr_24.
  split_and!; Z.to_euclidean_division_equations; lia.
Qed.

Lemma wp_gdt_set_gate num base limit a g s (Q : unit -> tables -> Prop) :
  0 <= num < Z.of_nat (length (gdt s)) ->
  Q tt (s <| gdt := <[Z.to_nat num := gdt_descriptor base limit a g]> (gdt s) |>) ->
  wp (gdt_set_gate num base limit a g) Q s.
Proof.
  intros Hn HQ. unfold gdt_set_gate. apply wp_bind, wp_get, wp_bind.
  eapply wp_some_or_trap; [by apply arr_set_Some|]. by apply wp_put.
Qed.

Lemma wp_idt_set_gate num base sel flags s (Q : unit -> tables -> Prop) :
  length (idt s) = 256%nat -> 0 <= num < 256 ->
  Q tt (s <| idt := <[Z.to_nat num := idt_gate base sel flags]> (idt s) |>) ->
  wp (idt_set_gate num base sel flags) Q s.
Proof.
  intros Hl Hn HQ. unfold idt_set_gate. apply wp_bind, wp_get, wp_bind.
  eapply wp_some_or_trap; [apply arr_set_Some; lia|]. by apply wp_put.
Qed.

Lemma idt_gate_spec base sel flags :
  0 <= base < 4294967296 -> gate_offset (idt_gate base sel flags) = base /\
  (gate_used (idt_gate base sel flags) = true <-> base <> 0).
Proof.
  intros Hb. unfold gate_offset, gate_used, idt_gate. cbn [offset_low offset_high selector zero type_attr].
  rewrite !land_ffff, shiftr_16. assert (base mod 65536 + 65536 * ((base / 65536) mod 65536) = base) as E
    by (Z.to_euclidean_division_equations; lia).
  split; [exact E|]. rewrite orb_true_iff, !negb_true_iff, !Z.eqb_neq.
  pose proof (Z.mod_pos_bound base 65536 ltac:(lia)). pose proof (Z.mod_pos_bound (base / 65536) 65536 ltac:(lia)).
  lia.
Qed.

(** Entries 14, 32, 33 and 128 of the table [idt_init] builds. *)
Definition idt_expected (h32 h33 h14 h128 : Z) (i : nat) : idt_entry :=
  if decide (i = 32)%nat then idt_gate h32 0x08 0x8E
  else if decide (i = 33)%nat then idt_gate h33 0x08 0x8E
  else if decide (i = 14)%nat then idt_gate h14 0x08 0x8E
  else if decide (i = 128)%nat then idt_gate h128 0x08 0xEE
  else null_idt_entry.

Lemma wp_idt_init idt_address h32 h33 h14 h128 s (Q : unit -> tables -> Prop) :
  length (idt s) = 256%nat ->
  (forall s', length (idt s') = 256%nat ->
     (forall i, (i < 256)%nat -> idt s' !! i = Some (idt_expected h32 h33 h14 h128 i)) ->
     reg_idtr s' = Some (2047, idt_address) -> Q tt s') ->
  wp (idt_init idt_address h32 h33 h14 h128) Q s.
Proof.
  intros Hl HQ. unfold idt_init. apply wp_bind, wp_modify, wp_bind.
  apply (wp_for_each (fun j s' => length (idt s') = 256%nat /\ idtp_limit s' = 2047 /\ idtp_base s' = idt_address /\
    forall i, (i < Z.to_nat j)%nat -> idt s' !! i = Some null_idt_entry)).
  - split_and!; [done..|]. intros i Hi. lia.
  - intros j s1 Hj (H1 & H2 & H3 & H4). apply wp_idt_set_gate; [done|lia|].
    split_and!; [by etransitivity; [apply length_insert|]|done|done|].
    intros i Hi. change (idt (s1 <| idt := ?l |>)) with l. destruct (decide (i = Z.to_nat j)) as [->|Hne].
    + rewrite list_lookup_insert_eq by lia. done.
    + rewrite list_lookup_insert_ne by done. apply H4. lia.
  - intros s1 (H1 & H2 & H3 & H4).
    do 4 (apply wp_bind, wp_idt_set_gate; [repeat (etransitivity; [apply length_insert|]); exact H1|lia|]).
    apply wp_modify, HQ.
    + repeat (etransitivity; [apply length_insert|]). exact H1.
    + intros i Hi. unfold idt_expected.
      match goal with |- idt ?x !! i = _ => set (s2 := x) end.
      assert (idt s2 = <[128 := idt_gate h128 0x08 0xEE]> (<[14 := idt_gate h14 0x08 0x8E]>
        (<[33 := idt_gate h33 0x08 0x8E]> (<[32 := idt_gate h32 0x08 0x8E]> (idt s1)))))%nat as -> by reflexivity.
      specialize (H4 i ltac:(lia)).
      repeat case_decide; subst;
        repeat first [rewrite list_lookup_insert_eq by (rewrite ?length_insert; lia)|rewrite list_lookup_insert_ne by lia];
        done.
    + rewrite <- H2, <- H3. reflexivity.
Qed.

Lemma wp_gdt_init gdt_address tss_address esp_now s (Q : unit -> tables -> Prop) :
  length (gdt s) = 12%nat ->
  (forall s', gdt s' !! 1%nat = Some (gdt_descriptor 0 0xFFFFFFFF kcode_access kcode_gran) ->
     gdt s' !! 2%nat = Some (gdt_descriptor 0 0xFFFFFFFF kdata_access kdata_gran) ->
     gdt s' !! 3%nat = Some (gdt_descriptor 0 0xFFFFFFFF ucode_access ucode_gran) ->
     gdt s' !! 4%nat = Some (gdt_descriptor 0 0xFFFFFFFF udata_access udata_gran) ->
     gdt s' !! 5%nat = Some (gdt_descriptor tss_address 103 tss_access tss_gran) ->
     reg_gdtr s' = Some (47, gdt_address) -> reg_tr s' = TSS_SEG -> Q tt s') ->
  wp (gdt_init gdt_address tss_address esp_now) Q s.
Proof.
  intros Hl HQ. unfold gdt_init. apply wp_bind, wp_modify.
  do 6 (apply wp_bind, wp_gdt_set_gate; [repeat (rewrite Z2Nat.id || etransitivity); 
    match goal with |- _ <= _ < Z.of_nat (length ?l) =>
      assert (length l = 12%nat) as -> by (repeat (etransitivity; [apply length_insert|]); exact Hl) end; lia|]).
  apply wp_bind, wp_modify, wp_bind, wp_modify, wp_modify.
  match goal with |- Q tt ?x => set (s2 := x) end.
  assert (gdt s2 = <[5 := gdt_descriptor tss_address 103 tss_access tss_gran]>
    (<[4 := gdt_descriptor 0 0xFFFFFFFF udata_access udata_gran]>
    (<[3 := gdt_descriptor 0 0xFFFFFFFF ucode_access ucode_gran]>
    (<[2 := gdt_descriptor 0 0xFFFFFFFF kdata_access kdata_gran]>
    (<[1 := gdt_descriptor 0 0xFFFFFFFF kcode_access kcode_gran]>
    (<[0 := gdt_descriptor 0 0 null_access null_gran]> (gdt s)))))))%nat as E by reflexivity.
  apply HQ; rewrite ?E; try reflexivity;
    repeat first [rewrite list_lookup_insert_eq by (rewrite ?length_insert; lia)|rewrite list_lookup_insert_ne by lia];
    done.
Qed.

Definition used_at (l : list idt_entry) (i : Z) : bool :=
  match l !! Z.to_nat i with Some e => gate_used e | None => false end.

Lemma wp_configured s (Q : list Z -> tables -> Prop) :
  length (idt s) = 256%nat -> Q (filter (fun i => used_at (idt s) i = true) (seqZ 0 256)) s ->
  wp (idt_get_configured_interrupts 256) Q s.
Proof.
  intros Hl HQ. unfold idt_get_configured_interrupts. apply wp_bind.
  apply (wp_for (fun j found s' => s' = s /\ found = filter (fun i => used_at (idt s) i = true) (seqZ 0 j))).
  - done.
  - intros j found s' Hj [-> ->]. assert (length (filter (fun i => used_at (idt s) i = true) (seqZ 0 j)) <= Z.to_nat j)%nat as Hle.
    { etransitivity; [apply length_filter|]. by rewrite length_seqZ. }
    rewrite (proj2 (Z.ltb_lt _ _)) by lia. apply wp_bind, wp_get, wp_bind.
    destruct (lookup_lt_is_Some_2 (idt s) (Z.to_nat j)) as [e He]; [lia|].
    eapply wp_some_or_trap; [unfold arr_get; by rewrite (proj2 (Z.leb_le 0 j)), He by lia|].
    apply wp_ret. split; [done|]. assert (seqZ 0 (j + 1) = seqZ 0 j ++ [j]) as ->.
    { rewrite seqZ_app by lia. done. }
    rewrite list.filter_app. assert (used_at (idt s) j = gate_used e) as E by (unfold used_at; by rewrite He).
    destruct (gate_used e).
    + rewrite (filter_cons_True _ j []) by done. by rewrite list.filter_nil.
    + rewrite (filter_cons_False _ j []) by (rewrite E; done). by rewrite list.filter_nil, app_nil_r.
  - intros found s' [-> ->]. by apply wp_ret.
Qed.

Lemma filter_ext_in {X} (P Q : X -> Prop) `{!forall x, Decision (P x), !forall x, Decision (Q x)} (l : list X) :
  (forall x, x ∈ l -> P x <-> Q x) -> filter P l = filter Q l.
Proof.
  induction l as [|x l IH]; intros Hpq; [done|].
  assert (filter P l = filter Q l) as Hl by (apply IH; intros y Hy; apply Hpq; by right).
  rewrite !list.filter_cons, Hl. pose proof (Hpq x ltac:(by left)). by repeat case_decide; try tauto.
Qed.

Lemma idt_expected_spec h32 h33 h14 h128 i :
  0 < h32 < 4294967296 -> 0 < h33 < 4294967296 -> 0 < h14 < 4294967296 -> 0 < h128 < 4294967296 ->
  let e := idt_expected h32 h33 h14 h128 i in
  (gate_used e = true <-> i ∈ [14; 32; 33; 128]%nat) /\
  (gate_used e = true -> type_attr e / 32 mod 4 = 3 <-> i = 128%nat) /\
  gate_offset e = if decide (i = 14%nat) then h14 else if decide (i = 32%nat) then h32
                  else if decide (i = 33%nat) then h33 else if decide (i = 128%nat) then h128 else 0.
Proof.
  intros H32 H33 H14 H128. cbn zeta. unfold idt_expected.
  destruct (idt_gate_spec h32 0x08 0x8E ltac:(lia)) as [E32 U32]. destruct (idt_gate_spec h33 0x08 0x8E ltac:(lia)) as [E33 U33].
  destruct (idt_gate_spec h14 0x08 0x8E ltac:(lia)) as [E14 U14]. destruct (idt_gate_spec h128 0x08 0xEE ltac:(lia)) as [E128 U128].
  rewrite !list.elem_of_cons. repeat case_decide; subst; try lia; split_and!; rewrite ?E32, ?E33, ?E14, ?E128, ?U32, ?U33, ?U14, ?U128;
    try done; try lia.
  - split; [done|]. intros [?|[?|[?|[?|?%list.elem_of_nil]]]]; done.
Qed.

(** ** The theorems *)

(** C38: A descriptor packed by [gdt_set_gate] has every field inside its width, and
    the processor reads back the base, the low twenty bits of the limit and the
    privilege level it was given; the other entries stay. *)
Theorem gdt_set_gate_roundtrip num base limit a g s :
  0 <= num < Z.of_nat (length (gdt s)) -> 0 <= base < 4294967296 -> 0 <= limit < 4294967296 ->
  access_ok a -> gran_ok g ->
  wp (gdt_set_gate num base limit a g) (fun _ s' => exists e, arr_get (gdt s') num = Some e /\
    gdt_entry_ok e /\ desc_base e = base /\ desc_limit e = limit mod 1048576 /\ desc_dpl e = dpl a /\
    forall j, j <> num -> arr_get (gdt s') j = arr_get (gdt s) j) s.
Proof.
  intros Hn Hb Hl Ha Hg. apply wp_gdt_set_gate; [done|]. pose proof (arr_set_Some (gdt s) num) as Hset.
  exists (gdt_descriptor base limit a g). split; [by eapply arr_get_set_eq, Hset|].
  destruct (gdt_descriptor_spec base limit a g Hb Hl Ha Hg) as (H1 & H2 & H3 & H4). split_and!; [apply H1..|done|done|done|].
  intros j Hj. by eapply arr_get_set_ne; [apply Hset|].
Qed.

Lemma gdt_set_gate_roundtrip_witness :
  wp (gdt_set_gate 5 0xC0105240 103 tss_access tss_gran) (fun _ s' => exists e, arr_get (gdt s') 5 = Some e /\
    gdt_entry_ok e /\ desc_base e = 0xC0105240 /\ desc_limit e = 103 /\ desc_dpl e = 0 /\
    forall j, j <> 5 -> arr_get (gdt s') j = arr_get (gdt tables_boot) j) tables_boot.
Proof.
  apply (gdt_set_gate_roundtrip 5 0xC0105240 103 tss_access tss_gran tables_boot);
    [by compute|by compute|by compute|by compute|by compute].
Defined.

(** After [gdt_init] the selectors the kernel uses name the segments it means:
    flat code and data at privilege 0, flat code and data at privilege 3, which is
    also the privilege the user selectors request, and the TSS at its address. *)
Theorem gdt_init_segments gdt_address tss_address esp_now s :
  length (gdt s) = 12%nat -> 0 <= tss_address < 4294967296 ->
  wp (gdt_init gdt_address tss_address esp_now) (fun _ s' =>
    (forall sel, sel ∈ [KERNEL_CODE_SEG; KERNEL_DATA_SEG; USER_CODE_SEG; USER_DATA_SEG] ->
       exists e, arr_get (gdt s') (sel / 8) = Some e /\ desc_base e = 0 /\ desc_limit e = 0xFFFFF /\
         desc_dpl e = sel mod 4) /\
    (exists e, arr_get (gdt s') (TSS_SEG / 8) = Some e /\ desc_base e = tss_address /\ desc_limit e = 103) /\
    reg_gdtr s' = Some (47, gdt_address) /\ reg_tr s' = TSS_SEG) s.
Proof.
  intros Hl Ht. apply wp_gdt_init; [done|]. intros s' H1 H2 H3 H4 H5 H6 H7. split; [|split; [|done]].
  - intros sel Hsel. rewrite !list.elem_of_cons in Hsel.
    destruct Hsel as [->|[->|[->|[->|[]%list.elem_of_nil]]]]; eexists; (split; [exact H1 || exact H2 || exact H3 || exact H4|done]).
  - eexists. split; [exact H5|]. destruct (gdt_descriptor_spec tss_address 103 tss_access tss_gran Ht) as (_ & E & E2 & _); [done..|].
    by rewrite E, E2.
Qed.

Lemma gdt_init_segments_witness :
  wp (gdt_init 0xC0105000 0xC0105240 0xC0107000) (fun _ s' =>
    (forall sel, sel ∈ [KERNEL_CODE_SEG; KERNEL_DATA_SEG; USER_CODE_SEG; USER_DATA_SEG] ->
       exists e, arr_get (gdt s') (sel / 8) = Some e /\ desc_base e = 0 /\ desc_limit e = 0xFFFFF /\
         desc_dpl e = sel mod 4) /\
    (exists e, arr_get (gdt s') (TSS_SEG / 8) = Some e /\ desc_base e = 0xC0105240 /\ desc_limit e = 103) /\
    reg_gdtr s' = Some (47, 0xC0105000) /\ reg_tr s' = TSS_SEG) tables_boot.
Proof. by apply (gdt_init_segments 0xC0105000 0xC0105240 0xC0107000 tables_boot). Defined.

(** After [idt_init] the gates 14, 32, 33 and 128 lead to their handlers and no
    other vector is installed; only 128 can be raised from user mode, and
    [idt_get_configured_interrupts] reports exactly these four. *)
Theorem idt_init_correct idt_address h32 h33 h14 h128 s :
  length (idt s) = 256%nat -> 0 < h32 < 4294967296 -> 0 < h33 < 4294967296 -> 0 < h14 < 4294967296 ->
  0 < h128 < 4294967296 ->
  wp (idt_init idt_address h32 h33 h14 h128 ;; idt_get_configured_interrupts 256) (fun l s' =>
    l = [14; 32; 33; 128] /\ reg_idtr s' = Some (2047, idt_address) /\
    forall i e, (i < 256)%nat -> idt s' !! i = Some e ->
      (gate_used e = true <-> i ∈ [14; 32; 33; 128]%nat) /\
      (gate_used e = true -> type_attr e / 32 mod 4 = 3 <-> i = 128%nat) /\
      gate_offset e = if decide (i = 14%nat) then h14 else if decide (i = 32%nat) then h32
                      else if decide (i = 33%nat) then h33 else if decide (i = 128%nat) then h128 else 0) s.
Proof.
  intros Hl H32 H33 H14 H128. apply wp_bind, wp_idt_init; [done|]. intros s' Hl' Hi Hr.
  apply wp_configured; [done|]. assert (forall i e, (i < 256)%nat -> idt s' !! i = Some e ->
    e = idt_expected h32 h33 h14 h128 i) as Hexp by (intros i e Hlt He; rewrite Hi in He by done; congruence).
  split; [|split; [done|]].
  - transitivity (filter (fun j => j ∈ [14; 32; 33; 128]) (seqZ 0 256)); [|by vm_compute].
    apply filter_ext_in. intros j Hj%elem_of_seqZ. unfold used_at. rewrite Hi by lia.
    rewrite (proj1 (idt_expected_spec _ _ _ _ _ H32 H33 H14 H128)). rewrite !list.elem_of_cons, !list.elem_of_nil. lia.
  - intros i e Hlt ->%Hexp; [|done]. by apply idt_expected_spec.
Qed.

Lemma idt_init_correct_witness :
  wp (idt_init 0xC0106000 0xC0101000 0xC0101010 0xC0101020 0xC0101030 ;; idt_get_configured_interrupts 256)
    (fun l s' => l = [14; 32; 33; 128] /\ reg_idtr s' = Some (2047, 0xC0106000) /\
    forall i e, (i < 256)%nat -> idt s' !! i = Some e ->
      (gate_used e = true <-> i ∈ [14; 32; 33; 128]%nat) /\
      (gate_used e = true -> type_attr e / 32 mod 4 = 3 <-> i = 128%nat) /\
      gate_offset e = if decide (i = 14%nat) then 0xC0101020 else if decide (i = 32%nat) then 0xC0101000
                      else if decide (i = 33%nat) then 0xC0101010 else if decide (i = 128%nat) then 0xC0101030 else 0)
    tables_boot.
Proof. by apply (idt_init_correct 0xC0106000 0xC0101000 0xC0101010 0xC0101020 0xC0101030 tables_boot). Defined.
