(* ===== verification/Module.v ===== *)
(** * Loadable kernel modules ([kernel/module.c], [kernel/module_loader.c], [kernel/module.h])

    The symbol table of the kernel, the table of loaded modules and the loader of
    relocatable ELF files.  The file is a list of bytes, as in [Elf]; module code is
    called through two parameters.  Names of kernel symbols are string literals,
    names of modules are addresses in kernel memory. *)

From stdpp Require Import base list gmap numbers option tactics.
From Stdlib Require Import Lia ZArith.
From S2P Require Import Prelude PhysMem Pmm Vmm Elf.

Definition MAX_KERNEL_SYMBOLS : Z := 64.
Definition MAX_LOADED_MODULES : nat := 16.
Definition MAX_MODULE_PAGES : nat := 16.
Definition MODULE_LOAD_BASE : Z := 0xC0900000.
Definition ET_REL : Z := 1.
Definition SHT_NOBITS : Z := 8.
Definition R_386_PLT32 : Z := 4.
Definition MAX_SECTION_MAPPINGS : nat := 64.

Inductive module_state := MODULE_STATE_UNUSED | MODULE_STATE_LOADED | MODULE_STATE_UNLOADED | MODULE_STATE_FAILED.
#[export] Instance module_state_eq : EqDecision module_state.
Proof. solve_decision. Defined.

Record kernel_symbol := mkSymbol { sym_name : list Z; sym_address : Z }.

Record module_t := mkModule {
  mod_name : Z;
  mod_version : Z;
  mod_init : Z;
  mod_exit : Z;
  mod_data : Z;
  load_base_vaddr : Z;
  load_size : Z;
  page_count : Z;
  frames : list Z;
  mod_state : module_state;
}.
#[export] Instance eta_module : Eta module_t := {| eta := fun m =>
  mkModule (mod_name m) (mod_version m) (mod_init m) (mod_exit m) (mod_data m) (load_base_vaddr m) (load_size m)
    (page_count m) (frames m) (mod_state m) |}.
Definition empty_module : module_t := mkModule 0 0 0 0 0 0 0 0 (replicate MAX_MODULE_PAGES 0) MODULE_STATE_UNUSED.

(** The statics of [module.c] and the machine. *)
Record modules (A : Type) := mkModules {
  md_vm : vm A;
  kernel_symbols : list kernel_symbol;
  loaded_modules : list module_t;
  loaded_module_count : Z;
}.
Arguments mkModules {A}.
Arguments md_vm {A}.
Arguments kernel_symbols {A}.
Arguments loaded_modules {A}.
Arguments loaded_module_count {A}.
#[export] Instance eta_modules A : Eta (modules A) := {| eta := fun m =>
  mkModules (md_vm m) (kernel_symbols m) (loaded_modules m) (loaded_module_count m) |}.

Record section_mapping := mkSection { section_index : Z; section_base_vaddr : Z }.

(** ".symtab", "module_init_fn", "module_exit_fn", "module_name_str", "module_version_str" *)
Definition symtab_name : list Z := [46; 115; 121; 109; 116; 97; 98].
Definition name_init : list Z := [109; 111; 100; 117; 108; 101; 95; 105; 110; 105; 116; 95; 102; 110].
Definition name_exit : list Z := [109; 111; 100; 117; 108; 101; 95; 101; 120; 105; 116; 95; 102; 110].
Definition name_name : list Z := [109; 111; 100; 117; 108; 101; 95; 110; 97; 109; 101; 95; 115; 116; 114].
Definition name_version : list Z :=
  [109; 111; 100; 117; 108; 101; 95; 118; 101; 114; 115; 105; 111; 110; 95; 115; 116; 114].

Definition elf32_st_bind (info : Z) : Z := Z.shiftr info 4.
Definition elf32_st_type (info : Z) : Z := Z.land info 0x0F.

Definition strtab_string (strtab strtab_size offset : Z) : option Z :=
  if strtab_size <=? offset then None else Some (strtab + offset).

(** The header check of the module loader. *)
Definition validate_module_header (ehdr : Elf32_Ehdr) (elf_size : Z) : bool :=
  if elf_size <? sizeof_Ehdr then false
  else if negb (ident ehdr 0 =? ELF_MAGIC0) || negb (ident ehdr 1 =? ELF_MAGIC1) ||
          negb (ident ehdr 2 =? ELF_MAGIC2) || negb (ident ehdr 3 =? ELF_MAGIC3) then false
  else if negb (ident ehdr 4 =? ELFCLASS32) || negb (ident ehdr 5 =? ELFDATA2LSB) ||
          negb (e_version ehdr =? EV_CURRENT) || negb (e_type ehdr =? ET_REL) ||
          negb (e_machine ehdr =? EM_386) then false
  else if (e_shoff ehdr =? 0) || (e_shnum ehdr =? 0) || negb (e_shentsize ehdr =? sizeof_Shdr) then false
  else if elf_size <? u32 (e_shoff ehdr + e_shnum ehdr * sizeof_Shdr) then false
  else if e_shnum ehdr <=? e_shstrndx ehdr then false
  else true.

(** [kstrcmp] of two strings given by the access to their bytes. *)
Definition kstrcmp {S} (fuel : nat) (a b : Z -> M S Z) : M S Z :=
  iter fuel (fun i =>
    x <- a i ;; y <- b i ;;
    if negb (x =? 0) && (x =? y) then ret (inl (i + 1)) else ret (inr (x - y))) 0.

Definition lit {S} (l : list Z) (i : Z) : M S Z := ret (default 0 (l !! Z.to_nat i)).
Definition in_file {S} (elf : list Z) (off i : Z) : M S Z := some_or_trap (arr_get elf (off + i)).

Section module.
Context {A : Type} `{!FrameAllocator A}.
Abbreviation E := (M (vm A)).
Abbreviation D := (M (modules A)).

Definition in_mem (p i : Z) : E Z := vread8 (u32 (p + i)).
Definition md_in_vm {B} (c : E B) : D B := zoom md_vm (fun v m => m <| md_vm := v |>) c.

(** ** Kernel symbols *)

Definition module_register_symbol (name : option (list Z)) (address : Z) : D bool :=
  match name with
  | None => ret false
  | Some n =>
      if address =? 0 then ret false
      else
        m <- get ;;
        if MAX_KERNEL_SYMBOLS <=? Z.of_nat (length (kernel_symbols m)) then ret false
        else put (m <| kernel_symbols := kernel_symbols m ++ [mkSymbol n address] |>) ;; ret true
  end.

(** The first symbol of that name, 0 for none. *)
Fixpoint module_get_symbol {S} (fuel : nat) (syms : list kernel_symbol) (name : Z -> M S Z) : M S Z :=
  match syms with
  | [] => ret 0
  | s :: syms' =>
      c <- kstrcmp fuel (lit (sym_name s)) name ;;
      if c =? 0 then ret (sym_address s) else module_get_symbol fuel syms' name
  end.

(** ** The loader *)

(** The mapping of a section, by its index. *)
Fixpoint find_mapping (l : list section_mapping) (index : Z) : option Z :=
  match l with
  | [] => None
  | s :: l' => if section_index s =? index then Some (section_base_vaddr s) else find_mapping l' index
  end.

Definition allocate_module_frames (m : module_t) (pages : Z) : E (bool * module_t) :=
  r <- for_ (Z.to_nat pages) 0 (fun _ m =>
         if Z.of_nat MAX_MODULE_PAGES <=? page_count m then ret (inr (false, m))
         else
           frame <- vm_alloc_frame ;;
           if frame =? 0 then ret (inr (false, m))
           else
             l <- some_or_trap (arr_set (frames m) (page_count m) frame) ;;
             ret (inl (m <| frames := l |> <| page_count := page_count m + 1 |>))) m ;;
  match r with inl m => ret (true, m) | inr p => ret p end.

Definition unmap_module_frames (m : module_t) : E unit :=
  for_each (Z.to_nat (page_count m)) 0 (fun i =>
    frame <- some_or_trap (arr_get (frames m) i) ;;
    vmm_unmap_page (u32 (load_base_vaddr m + i * PAGE_SIZE)) ;;
    vm_free_frame frame).

Definition cleanup_module_frames (m : module_t) : E module_t :=
  unmap_module_frames m ;;
  ret (m <| page_count := 0 |> <| load_size := 0 |> <| load_base_vaddr := 0 |>).

(** The sections called [.symtab] and [.strtab], of their types. *)
Definition find_named_tables (ehdr : Elf32_Ehdr) (elf : list Z) : E (option Elf32_Shdr * option Elf32_Shdr) :=
  r <- for_ (R := Empty_set) (Z.to_nat (e_shnum ehdr)) 0 (fun i '(symtab_sh, strtab_sh) =>
         sh <- section_header ehdr elf i ;;
         str <- section_header ehdr elf (e_shstrndx ehdr) ;;
         match sh, str with
         | Some sh, Some str =>
             match section_name sh (sh_offset str) (sh_size str) with
             | None => ret (inl (symtab_sh, strtab_sh))
             | Some name =>
                 a <- (if sh_type sh =? SHT_SYMTAB then str_equal elf name symtab_name else ret false) ;;
                 if (a : bool) then ret (inl (Some sh, strtab_sh))
                 else
                   b <- (if sh_type sh =? SHT_STRTAB then str_equal elf name strtab_name else ret false) ;;
                   ret (inl (symtab_sh, if (b : bool) then Some sh else strtab_sh))
             end
         | _, _ => trap
         end) (None, None) ;;
  match r with inl p => ret p | inr e => match e with end end.

Definition lookup_module_symbol (symbol_name : list Z) (ehdr : Elf32_Ehdr) (elf : list Z)
    (section_mappings : list section_mapping) : E Z :=
  let elf_size := Z.of_nat (length elf) in
  tables <- find_named_tables ehdr elf ;;
  match tables with
  | (Some symtab_sh, Some strtab_sh) =>
      if (elf_size <? u32 (sh_offset symtab_sh + sh_size symtab_sh)) ||
         (elf_size <? u32 (sh_offset strtab_sh + sh_size strtab_sh)) then ret 0
      else
        r <- for_ (Z.to_nat (sh_size symtab_sh / sizeof_Sym)) 0 (fun i (_ : unit) =>
               sym <- some_or_trap (sym_at elf (sh_offset symtab_sh + i * sizeof_Sym)) ;;
               match strtab_string (sh_offset strtab_sh) (sh_size strtab_sh) (st_name sym) with
               | None => ret (inl tt)
               | Some n =>
                   eq <- str_equal elf n symbol_name ;;
                   if (eq : bool) then
                     match find_mapping section_mappings (st_shndx sym) with
                     | Some base => ret (inr (u32 (base + st_value sym)))
                     | None => ret (inr 0)
                     end
                   else ret (inl tt)
               end) tt ;;
        match r with inl _ => ret 0 | inr v => ret v end
  | _ => ret 0
  end.

(** [strtab] is the offset and the size of the string table. *)
Definition resolve_symbol_value (fuel : nat) (syms : list kernel_symbol) (elf : list Z) (sym : Elf32_Sym)
    (section_mappings : list section_mapping) (strtab : Z * Z) : E Z :=
  if st_shndx sym =? 0 then
    match strtab_string strtab.1 strtab.2 (st_name sym) with
    | None => ret 0
    | Some n => module_get_symbol fuel syms (in_file elf n)
    end
  else
    match find_mapping section_mappings (st_shndx sym) with
    | Some base => ret (u32 (base + st_value sym))
    | None => ret 0
    end.

(** The last symbol table, and the string table named [.strtab]. *)
Definition find_reloc_tables (ehdr : Elf32_Ehdr) (elf : list Z) (shstrtab shstrtab_size : Z)
    : E (option Elf32_Shdr * option Elf32_Shdr) :=
  r <- for_ (R := Empty_set) (Z.to_nat (e_shnum ehdr)) 0 (fun i '(symtab_sh, strtab_sh) =>
         sh <- section_header ehdr elf i ;;
         match sh with
         | None => ret (inl (symtab_sh, strtab_sh))
         | Some s =>
             if sh_type s =? SHT_SYMTAB then ret (inl (Some s, strtab_sh))
             else if sh_type s =? SHT_STRTAB then
               match section_name s shstrtab shstrtab_size with
               | None => ret (inl (symtab_sh, strtab_sh))
               | Some name =>
                   eq <- str_equal elf name strtab_name ;;
                   ret (inl (symtab_sh, if (eq : bool) then Some s else strtab_sh))
               end
             else ret (inl (symtab_sh, strtab_sh))
         end) (None, None) ;;
  match r with inl p => ret p | inr e => match e with end end.

(** One relocation of section [rel_sh]; [inr] is the [return -1]. *)
Definition module_relocate (fuel : nat) (syms : list kernel_symbol) (elf : list Z) (symtab_sh rel_sh : Elf32_Shdr)
    (strtab : Z * Z) (section_mappings : list section_mapping) (target_base_vaddr j : Z) : E (unit + unit) :=
  rel <- some_or_trap (rel_at elf (sh_offset rel_sh + j * sizeof_Rel)) ;;
  let sym_index := elf32_r_sym (r_info rel) in
  let rel_type := elf32_r_type (r_info rel) in
  if negb (rel_type =? R_386_32) && negb (rel_type =? R_386_PC32) && negb (rel_type =? R_386_PLT32)
  then ret (inl tt)
  else if sh_size symtab_sh / sizeof_Sym <=? sym_index then ret (inr tt)
  else
    sym <- some_or_trap (sym_at elf (sh_offset symtab_sh + sym_index * sizeof_Sym)) ;;
    sym_value <- resolve_symbol_value fuel syms elf sym section_mappings strtab ;;
    if (sym_value =? 0) && (st_shndx sym =? 0) then ret (inr tt)
    else
      let reloc_target_va := u32 (target_base_vaddr + r_offset rel) in
      addend <- vread32 reloc_target_va ;;
      vwrite32 reloc_target_va
        (if rel_type =? R_386_32 then u32 (sym_value + addend) else u32 (sym_value + addend - reloc_target_va)) ;;
      ret (inl tt).

(** [false] is the answer -1. *)
Definition module_process_relocations (fuel : nat) (syms : list kernel_symbol) (ehdr : Elf32_Ehdr) (elf : list Z)
    (section_mappings : list section_mapping) : E bool :=
  let elf_size := Z.of_nat (length elf) in
  shstr_sh <- section_header ehdr elf (e_shstrndx ehdr) ;;
  match shstr_sh with
  | None => ret false
  | Some shstr =>
      if elf_size <? u32 (sh_offset shstr + sh_size shstr) then ret false
      else
        tables <- find_reloc_tables ehdr elf (sh_offset shstr) (sh_size shstr) ;;
        let '(symtab_sh, strtab_sh) := tables in
        let outside (t : option Elf32_Shdr) :=
          match t with Some s => elf_size <? u32 (sh_offset s + sh_size s) | None => false end in
        if outside symtab_sh || outside strtab_sh then ret false
        else
          let strtab := match strtab_sh with Some s => (sh_offset s, sh_size s) | None => (0, 0) end in
          r <- for_ (Z.to_nat (e_shnum ehdr)) 0 (fun i (_ : unit) =>
                 rel_sh <- section_header ehdr elf i ;;
                 match rel_sh, symtab_sh with
                 | Some rel_sh, Some symtab_sh =>
                     if negb (sh_type rel_sh =? SHT_REL) then ret (inl tt)
                     else if e_shnum ehdr <=? sh_info rel_sh then ret (inl tt)
                     else
                       let target_base_vaddr := default 0 (find_mapping section_mappings (sh_info rel_sh)) in
                       if target_base_vaddr =? 0 then ret (inl tt)
                       else for_ (Z.to_nat (sh_size rel_sh / sizeof_Rel)) 0 (fun j _ =>
                              module_relocate fuel syms elf symtab_sh rel_sh strtab section_mappings target_base_vaddr j) tt
                 | _, _ => ret (inl tt)
                 end) tt ;;
          match r with inl _ => ret true | inr _ => ret false end
  end.

(** The contents of one section at its place. *)
Definition fill_section (elf : list Z) (sh : Elf32_Shdr) (section_base pages : Z) : E bool :=
  if sh_type sh =? SHT_NOBITS then vmemset section_base 0 (u32 (pages * PAGE_SIZE)) ;; ret true
  else if Z.of_nat (length elf) <? u32 (sh_offset sh + sh_size sh) then ret false
  else
    for_each (Z.to_nat (sh_size sh)) 0 (fun byte =>
      b <- some_or_trap (arr_get elf (sh_offset sh + byte)) ;; vwrite8 (u32 (section_base + byte)) b) ;;
    (if sh_size sh <? pages * PAGE_SIZE
     then vmemset (section_base + sh_size sh) 0 (pages * PAGE_SIZE - sh_size sh) else ret tt) ;;
    ret true.

(** One section of the file: [inr] is the failure, with the module to clean up. *)
Definition load_section (elf : list Z) (i : Z) (sh : Elf32_Shdr) (m : module_t)
    (maps : list section_mapping) (current_offset : Z)
    : E ((module_t * list section_mapping * Z) + module_t) :=
  if (Z.land (sh_flags sh) SHF_ALLOC =? 0) || (sh_size sh =? 0) then ret (inl (m, maps, current_offset))
  else
    let align := if sh_addralign sh =? 0 then PAGE_SIZE else sh_addralign sh in
    let align := if align <? PAGE_SIZE then PAGE_SIZE else align in
    let aligned_offset := Z.land (u32 (current_offset + align - 1)) (Z.lxor 0xFFFFFFFF (align - 1)) in
    let section_base := u32 (load_base_vaddr m + aligned_offset) in
    let pages := u32 (sh_size sh + PAGE_SIZE - 1) / PAGE_SIZE in
    if Z.of_nat MAX_MODULE_PAGES <? u32 (page_count m + pages) then ret (inr m)
    else
      let first_frame_index := page_count m in
      r <- allocate_module_frames m pages ;;
      let '(ok, m) := r in
      if negb ok then ret (inr m)
      else
        for_each (Z.to_nat pages) 0 (fun page =>
          f <- some_or_trap (arr_get (frames m) (first_frame_index + page)) ;;
          vmm_map_kernel_page (u32 (section_base + page * PAGE_SIZE)) f) ;;
        ok <- fill_section elf sh section_base pages ;;
        if negb ok then ret (inr m)
        else
          let maps := if (length maps <? MAX_SECTION_MAPPINGS)%nat then maps ++ [mkSection i section_base] else maps in
          ret (inl (m, maps, u32 (aligned_offset + pages * PAGE_SIZE))).

(** A pointer stored at a symbol of the module, if the symbol exists. *)
Definition entry_point_at (symbol_name : list Z) (ehdr : Elf32_Ehdr) (elf : list Z)
    (maps : list section_mapping) (old : Z) : E Z :=
  a <- lookup_module_symbol symbol_name ehdr elf maps ;; if a =? 0 then ret old else vread32 a.

Definition loader_failed (m : module_t) : E (bool * module_t) :=
  m <- cleanup_module_frames m ;; ret (false, m <| mod_state := MODULE_STATE_FAILED |>).

Definition module_loader_load (fuel : nat) (syms : list kernel_symbol) (m : module_t) (elf : list Z)
    : E (bool * module_t) :=
  let elf_size := Z.of_nat (length elf) in
  if elf_size <? sizeof_Ehdr then ret (false, m)
  else
    ehdr <- some_or_trap (ehdr_at elf) ;;
    if negb (validate_module_header ehdr elf_size) then ret (false, m)
    else
      shstr_sh <- section_header ehdr elf (e_shstrndx ehdr) ;;
      match shstr_sh with
      | None => ret (false, m)
      | Some shstr =>
          if elf_size <? u32 (sh_offset shstr + sh_size shstr) then ret (false, m)
          else
            let m := m <| page_count := 0 |> <| load_base_vaddr := MODULE_LOAD_BASE |> <| load_size := 0 |> in
            r <- for_ (Z.to_nat (e_shnum ehdr)) 0 (fun i '(m, maps, current_offset) =>
                   sh <- section_header ehdr elf i ;;
                   match sh with
                   | None => ret (inl (m, maps, current_offset))
                   | Some sh => load_section elf i sh m maps current_offset
                   end) (m, [], 0) ;;
            match r with
            | inr m => loader_failed m
            | inl (m, maps, current_offset) =>
                let m := m <| load_size := current_offset |> in
                ok <- module_process_relocations fuel syms ehdr elf maps ;;
                if negb ok then loader_failed m
                else
                  init <- entry_point_at name_init ehdr elf maps (mod_init m) ;;
                  exit <- entry_point_at name_exit ehdr elf maps (mod_exit m) ;;
                  name <- entry_point_at name_name ehdr elf maps (mod_name m) ;;
                  version <- entry_point_at name_version ehdr elf maps (mod_version m) ;;
                  ret (true, m <| mod_init := init |> <| mod_exit := exit |> <| mod_name := name |>
                    <| mod_version := version |> <| mod_state := MODULE_STATE_LOADED |>)
            end
      end.

(** ** Loading and unloading *)

(** Module code: the answer of the function at an address. *)
Context (call_init : Z -> E Z) (call_exit : Z -> E unit).

Definition get_module (i : Z) : D module_t := m <- get ;; some_or_trap (arr_get (loaded_modules m) i).
Definition set_module (i : Z) (x : module_t) : D unit :=
  m <- get ;; l <- some_or_trap (arr_set (loaded_modules m) i x) ;; put (m <| loaded_modules := l |>).

(** The index of the module. *)
Definition module_find (fuel : nat) (name : Z) : D (option Z) :=
  if name =? 0 then ret None
  else
    n <- gets loaded_module_count ;;
    r <- for_ (Z.to_nat n) 0 (fun i (_ : unit) =>
           x <- get_module i ;;
           if mod_name x =? 0 then ret (inl tt)
           else
             c <- md_in_vm (kstrcmp fuel (in_mem (mod_name x)) (in_mem name)) ;;
             if c =? 0 then ret (inr i) else ret (inl tt)) tt ;;
    match r with inl _ => ret None | inr i => ret (Some i) end.

(** Whether a loaded module has the name of the new one. *)
Definition duplicate_name (fuel : nat) (name : Z) : D bool :=
  o <- module_find fuel name ;; ret (bool_decide (is_Some o)).

(** The frames of the module given back, its pages unmapped. *)
Definition discard_module (i : Z) (x : module_t) (st : module_state) : D bool :=
  md_in_vm (unmap_module_frames x) ;;
  set_module i (x <| page_count := 0 |> <| mod_state := st |>) ;;
  ret false.

(** [false] is the answer -1. *)
Definition module_load (fuel : nat) (elf_data : option (list Z)) : D bool :=
  match elf_data with
  | None => ret false
  | Some elf =>
      if bool_decide (elf = []) then ret false
      else
        n <- gets loaded_module_count ;;
        if Z.of_nat MAX_LOADED_MODULES <=? n then ret false
        else
          x <- get_module n ;;
          let x := x <| mod_name := 0 |> <| mod_version := 0 |> <| mod_init := 0 |> <| mod_exit := 0 |>
                     <| mod_data := 0 |> <| load_base_vaddr := 0 |> <| load_size := 0 |> <| page_count := 0 |>
                     <| mod_state := MODULE_STATE_UNUSED |> in
          set_module n x ;;
          syms <- gets kernel_symbols ;;
          r <- md_in_vm (module_loader_load fuel syms x elf) ;;
          let '(ok, x) := r in
          if negb ok then set_module n (x <| mod_state := MODULE_STATE_UNUSED |>) ;; ret false
          else
            set_module n x ;;
            dup <- (if mod_name x =? 0 then ret false else duplicate_name fuel (mod_name x)) ;;
            if (dup : bool) then discard_module n x MODULE_STATE_UNUSED
            else
              init_result <- (if mod_init x =? 0 then ret 0 else md_in_vm (call_init (mod_init x))) ;;
              if negb (init_result =? 0) then discard_module n x MODULE_STATE_FAILED
              else
                modify (fun m => m <| loaded_module_count := u32 (n + 1) |>) ;;
                ret true
  end.

Definition module_unload (fuel : nat) (name : Z) : D bool :=
  o <- module_find fuel name ;;
  match o with
  | None => ret false
  | Some i =>
      x <- get_module i ;;
      if decide (mod_state x <> MODULE_STATE_LOADED) then ret false
      else
        (if mod_exit x =? 0 then ret tt else md_in_vm (call_exit (mod_exit x))) ;;
        set_module i (x <| mod_state := MODULE_STATE_UNLOADED |>) ;;
        ret true
  end.
End module.
