(* ===== verification/Syscall.v ===== *)
(** * System calls and interrupts ([kernel/syscall.c], [kernel/syscall.h], [kernel/interrupt.c])

    The checks of user pointers, the system calls, their dispatch from the interrupt
    frame, and the interrupt handler, over the composition of the components: the
    tasks, the console, the file system and the modules. *)

From stdpp Require Import base list gmap numbers option tactics.
From Stdlib Require Import Lia ZArith.
From S2P Require Import Prelude PhysMem Pmm Vmm Io Fat16 Task Elf TaskUser Drivers Module.

Definition SYS_WRITE : Z := 1.
Definition SYS_EXIT : Z := 2.
Definition SYS_FORK : Z := 3.
Definition SYS_EXEC : Z := 4.
Definition SYS_WAIT : Z := 5.
Definition SYS_ALLOC : Z := 6.
Definition SYS_SLEEP : Z := 7.
Definition SYS_READ : Z := 8.
Definition SYS_YIELD : Z := 9.
Definition SYS_OPEN : Z := 10.
Definition SYS_READ_FILE : Z := 11.
Definition SYS_CLOSE : Z := 12.
Definition SYS_WRITE_FILE : Z := 13.
Definition SYS_LOAD_MODULE : Z := 14.
Definition SYS_UNLOAD_MODULE : Z := 15.

(** The whole kernel.  [frame] are the words of the interrupt frame, from EDI up. *)
Record os (A P D : Type) := mkOs {
  os_kernel : kernel A;
  os_console : console P;
  os_fat : fat16 D;
  os_symbols : list kernel_symbol;
  os_modules : list module_t;
  os_module_count : Z;
  frame : list Z;
}.
Arguments mkOs {A P D}.
Arguments os_kernel {A P D}.
Arguments os_console {A P D}.
Arguments os_fat {A P D}.
Arguments os_symbols {A P D}.
Arguments os_modules {A P D}.
Arguments os_module_count {A P D}.
Arguments frame {A P D}.
#[export] Instance eta_os A P D : Eta (os A P D) := {| eta := fun s =>
  mkOs (os_kernel s) (os_console s) (os_fat s) (os_symbols s) (os_modules s) (os_module_count s) (frame s) |}.

(** ** User memory *)

Section user_memory.
Context {A : Type} `{!FrameAllocator A}.
Abbreviation E := (M (vm A)).

(** [for (vaddr = start & ~0xFFF; vaddr <= end; vaddr += PAGE_SIZE)] below the kernel:
    the addresses do not wrap, and there are at most [KERNEL_VIRT_BASE / PAGE_SIZE] pages. *)
Definition check_pages (first last : Z) : E bool :=
  r <- for_ (Z.to_nat ((last - first) / PAGE_SIZE + 1)) 0 (fun i (_ : unit) =>
         p <- vmm_get_phys_addr (first + i * PAGE_SIZE) ;;
         if p =? 0 then ret (inr tt) else ret (inl tt)) tt ;;
  match r with inl _ => ret true | inr _ => ret false end.

Definition validate_user_pointer (ptr size : Z) : E bool :=
  if ptr =? 0 then ret (size =? 0)
  else if size =? 0 then ret true
  else
    let end_vaddr := u32 (ptr + size - 1) in
    if (KERNEL_VIRT_BASE <=? ptr) || (KERNEL_VIRT_BASE <=? end_vaddr) then ret false
    else check_pages (page_align_down ptr) end_vaddr.

Definition validate_user_string (str : Z) : E bool :=
  if str =? 0 then ret true
  else if KERNEL_VIRT_BASE <=? str then ret false
  else
    r <- for_ 4096 0 (fun _ vaddr =>
           p <- vmm_get_phys_addr (page_align_down vaddr) ;;
           if p =? 0 then ret (inr false)
           else
             c <- vread8 vaddr ;;
             if c =? 0 then ret (inr true)
             else if KERNEL_VIRT_BASE <=? vaddr + 1 then ret (inr false)
             else ret (inl (vaddr + 1))) str ;;
    match r with inl _ => ret false | inr b => ret b end.

Definition validate_user_pointer_array (ptrs : Z) : E bool :=
  if ptrs =? 0 then ret true
  else if KERNEL_VIRT_BASE <=? ptrs then ret false
  else
    r <- for_ 32 0 (fun _ ptrs =>
           if KERNEL_VIRT_BASE <=? ptrs then ret (inr false)
           else
             ok <- validate_user_pointer ptrs 4 ;;
             if negb ok then ret (inr false)
             else
               p <- vread32 ptrs ;;
               if p =? 0 then ret (inr true)
               else
                 ok <- validate_user_string p ;;
                 if negb ok then ret (inr false) else ret (inl (u32 (ptrs + 4)))) ptrs ;;
    match r with inl _ => ret false | inr b => ret b end.

(** The bytes of a user buffer, and the characters of a user string. *)
Fixpoint read_user (addr : Z) (n : nat) : E (list Z) :=
  match n with
  | O => ret []
  | S n' => b <- vread8 addr ;; l <- read_user (u32 (addr + 1)) n' ;; ret (b :: l)
  end.
Fixpoint write_user (addr : Z) (l : list Z) : E unit :=
  match l with
  | [] => ret tt
  | b :: l' => vwrite8 addr b ;; write_user (u32 (addr + 1)) l'
  end.
Definition read_user_string (fuel : nat) (str : Z) : E (list Z) :=
  n <- strlen fuel str ;; read_user str (Z.to_nat n).
End user_memory.

Section syscall.
Context {A P D : Type} `{!FrameAllocator A, !PortIO P, !BlockDevice D}.
Abbreviation O := (M (os A P D)).

(** Bounds on the length of strings and child lists, on FAT chains and on polls. *)
Context (fuel : nat).
(** Code of loaded modules. *)
Context (call_init : Z -> M (vm A) Z) (call_exit : Z -> M (vm A) unit).

Definition on_kernel {B} (c : M (kernel A) B) : O B := zoom os_kernel (fun k s => s <| os_kernel := k |>) c.
Definition on_vm {B} (c : M (vm A) B) : O B := on_kernel (in_vm c).
Definition on_console {B} (c : M (console P) B) : O B := zoom os_console (fun k s => s <| os_console := k |>) c.
Definition on_fat {B} (c : M (fat16 D) B) : O B := zoom os_fat (fun k s => s <| os_fat := k |>) c.
Definition on_modules {B} (c : M (modules A) B) : O B :=
  zoom (fun s => mkModules (kvm (os_kernel s)) (os_symbols s) (os_modules s) (os_module_count s))
    (fun m s => s <| os_kernel := (os_kernel s) <| kvm := md_vm m |> |> <| os_symbols := kernel_symbols m |>
                  <| os_modules := loaded_modules m |> <| os_module_count := loaded_module_count m |>) c.

(** ** Arguments and results *)

Definition saved_reg (i : nat) : O Z := s <- get ;; some_or_trap (frame s !! i).

Definition syscall_get_u32_arg (arg_index : nat) : O Z :=
  match arg_index with
  | 0%nat => saved_reg 4
  | 1%nat => saved_reg 6
  | 2%nat => saved_reg 5
  | 3%nat => saved_reg 1
  | 4%nat => saved_reg 0
  | _ => ret 0
  end.

Definition syscall_set_return_value (value : Z) : O unit :=
  s <- get ;; l <- some_or_trap (arr_set (frame s) 7 (u32 value)) ;; put (s <| frame := l |>).

(** ** The calls *)

Definition sys_write (fd buf len : Z) : O Z :=
  if (buf =? 0) || (len =? 0) then ret (-1)
  else
    ok <- on_vm (validate_user_pointer buf len) ;;
    if negb ok then ret (-1)
    else if fd =? 1 then
      data <- on_vm (read_user buf (Z.to_nat len)) ;;
      on_console (terminal_write fuel data) ;;
      ret (s32 len)
    else if fd =? 2 then
      data <- on_vm (read_user buf (Z.to_nat len)) ;;
      for_each (length data) 0 (fun i =>
        ch <- some_or_trap (data !! Z.to_nat i) ;;
        on_console (on_ports (serial_write fuel SERIAL_COM1_BASE [ch]))) ;;
      ret (s32 len)
    else ret (-1).

Definition sys_exit (status : Z) : O unit := on_kernel (task_terminate status).

(** Undo of the first [allocated] pages of a failed [sys_alloc]. *)
Definition unmap_heap_pages (current : ptr) (allocated : Z) : M (kernel A) unit :=
  for_each (Z.to_nat allocated) 0 (fun j =>
    x <- get_task current ;;
    let heap_vaddr := u32 (user_heap_start x + (user_heap_frame_count x + j) * PAGE_SIZE) in
    in_vm (vmm_unmap_page_for_pdt (page_directory_phys x) heap_vaddr) ;;
    f <- some_or_trap (arr_get (user_heap_frames x) (user_heap_frame_count x + j)) ;;
    in_vm (vm_free_frame f) ;;
    set_heap_frame current (user_heap_frame_count x + j) 0).

Definition sys_alloc (size : Z) : M (kernel A) Z :=
  if size =? 0 then ret 0
  else
    current <- task_get_current ;;
    match current with
    | None => ret 0
    | Some _ =>
        x <- get_task current ;;
        if decide (type x <> TASK_TYPE_USER_PROCESS) then ret 0
        else
          let aligned_size := page_align_up size in
          let pages_needed := aligned_size / PAGE_SIZE in
          if (pages_needed =? 0) || (Z.of_nat MAX_USER_HEAP_PAGES <? u32 (user_heap_frame_count x + pages_needed))
          then ret 0
          else
            let base_vaddr := u32 (user_heap_start x + user_heap_size x) in
            r <- for_ (Z.to_nat pages_needed) 0 (fun i (_ : unit) =>
                   frame <- in_vm vm_alloc_frame ;;
                   if frame =? 0 then unmap_heap_pages current i ;; ret (inr tt)
                   else
                     x <- get_task current ;;
                     set_heap_frame current (user_heap_frame_count x + i) frame ;;
                     let heap_vaddr := u32 (user_heap_start x + (user_heap_frame_count x + i) * PAGE_SIZE) in
                     in_vm (vmm_map_page_for_pdt (page_directory_phys x) heap_vaddr frame PAGE_PWU) ;;
                     ret (inl tt)) tt ;;
            match r with
            | inr _ => ret 0
            | inl _ =>
                upd_task current (fun x => x <| user_heap_frame_count := user_heap_frame_count x + pages_needed |>
                  <| user_heap_size := u32 (user_heap_size x + pages_needed * PAGE_SIZE) |>) ;;
                ret base_vaddr
            end
    end.

Definition sys_sleep (ms : Z) : M (kernel A) Z :=
  if ms =? 0 then ret 0
  else
    ticks <- timer_get_ticks ;;
    let delay_ticks := u32 (ms + 9) / 10 in
    current <- task_get_current ;;
    match current with
    | None => ret (-1)
    | Some _ =>
        upd_task current (fun x =>
          x <| wake_tick := u32 (ticks + (if delay_ticks =? 0 then 1 else delay_ticks)) |>
            <| state := TASK_WAITING |>) ;;
        ret 0
    end.

(** No interrupt is delivered inside the loop: gate 128 is an interrupt gate. *)
Definition sys_read (fd : Z) : O Z :=
  if negb (fd =? 0) then ret (-1)
  else
    iter fuel (fun _ : unit =>
      e <- on_console (on_kbd keyboard_has_event) ;;
      if (e : bool) then ret (inr tt)
      else
        current <- on_kernel task_get_current ;;
        match current with
        | None => ret (inl tt)
        | Some _ =>
            on_kernel (upd_task current (fun x => x <| state := TASK_WAITING |>)) ;;
            on_kernel task_schedule ;;
            ret (inl tt)
        end) tt ;;
    on_console (on_kbd keyboard_get_event).

Definition sys_open (path : Z) : O Z :=
  if path =? 0 then ret (-1)
  else
    ok <- on_vm (validate_user_string path) ;;
    if negb ok then ret (-1)
    else p <- on_vm (read_user_string fuel path) ;; on_fat (fat16_open FsNull (Some p)).

Definition sys_read_file (fd buffer count : Z) : O Z :=
  if (buffer =? 0) || (count =? 0) then ret (-1)
  else
    ok <- on_vm (validate_user_pointer buffer count) ;;
    if negb ok then ret (-1)
    else
      r <- on_fat (fat16_read fuel fd true count) ;;
      let '(n, data) := r in
      on_vm (write_user buffer data) ;;
      ret n.

Definition sys_write_file (fd buffer count : Z) : O Z :=
  if (buffer =? 0) || (count =? 0) then ret (-1)
  else
    ok <- on_vm (validate_user_pointer buffer count) ;;
    if negb ok then ret (-1)
    else
      data <- on_vm (read_user buffer (Z.to_nat count)) ;;
      on_fat (fat16_write fuel fd (Some data) count).

Definition sys_close (fd : Z) : O Z := on_fat (fat16_close fd).

Definition sys_yield : O Z := ret 0.

(** The answer 0 or -1 of a call that succeeds or fails. *)
Definition status_of (b : bool) : Z := if b then 0 else -1.

Definition sys_load_module (elf_data elf_size : Z) : O Z :=
  if (elf_data =? 0) || (elf_size =? 0) then ret (-1)
  else
    elf <- on_vm (read_user elf_data (Z.to_nat elf_size)) ;;
    ok <- on_modules (module_load call_init fuel (Some elf)) ;;
    ret (status_of ok).

Definition sys_unload_module (name : Z) : O Z :=
  if name =? 0 then ret (-1)
  else ok <- on_modules (module_unload call_exit fuel name) ;; ret (status_of ok).

(** *** Fork *)

(** The contents of frame [src_frame] copied to [dst_frame] through two windows. *)
Definition copy_frame (src_frame dst_frame : Z) : M (vm A) unit :=
  vmm_map_kernel_page VMM_TEMP_PAGE src_frame ;;
  vmm_map_kernel_page (VMM_TEMP_PAGE - PAGE_SIZE) dst_frame ;;
  copy_page (VMM_TEMP_PAGE - PAGE_SIZE) VMM_TEMP_PAGE ;;
  vmm_unmap_page VMM_TEMP_PAGE ;;
  vmm_unmap_page (VMM_TEMP_PAGE - PAGE_SIZE).

(** [pmm_free_frame] of the first [n] entries of a frame array; [vaddr] says which
    page of the child is unmapped before, if any. *)
Definition release_frames (t : ptr) (f : task -> list Z) (n : Z) (pdt : Z) (vaddr : option (Z -> Z))
    : M (kernel A) unit :=
  for_each (Z.to_nat n) 0 (fun j =>
    (match vaddr with Some v => in_vm (vmm_unmap_page_for_pdt pdt (v j)) | None => ret tt end) ;;
    p <- frame_get t f j ;; in_vm (vm_free_frame p)).

Definition code_vaddr (j : Z) : Z := u32 (USER_CODE_BASE + j * PAGE_SIZE).
Definition heap_vaddr (start j : Z) : Z := u32 (start + j * PAGE_SIZE).

(** The pages of the code; [inr] is the [return -1]. *)
Definition fork_code (current child : ptr) (child_pdt : Z) : M (kernel A) (unit + unit) :=
  cur <- get_task current ;;
  for_ (Z.to_nat (user_code_frame_count cur)) 0 (fun i _ =>
    new_frame <- in_vm vm_alloc_frame ;;
    if new_frame =? 0 then
      release_frames child user_code_frames i child_pdt None ;;
      upd_task child (fun x => x <| state := TASK_UNUSED |>) ;;
      ret (inr tt)
    else
      set_code_frame child i new_frame ;;
      src <- frame_get current user_code_frames i ;;
      in_vm (copy_frame src new_frame) ;;
      in_vm (vmm_map_page_for_pdt child_pdt (code_vaddr i) new_frame PAGE_PU) ;;
      ret (inl tt)) tt.

Definition fork_stack (current child : ptr) (child_pdt : Z) : M (kernel A) bool :=
  child_stack_frame <- in_vm vm_alloc_frame ;;
  if child_stack_frame =? 0 then
    c <- get_task child ;; cur <- get_task current ;;
    release_frames child user_code_frames (user_code_frame_count c) child_pdt (Some code_vaddr) ;;
    release_frames child user_heap_frames (user_heap_frame_count c) child_pdt (Some (heap_vaddr (user_heap_start cur))) ;;
    upd_task child (fun x => x <| state := TASK_UNUSED |>) ;;
    ret false
  else
    upd_task child (fun x => x <| user_stack_paddr := child_stack_frame |>) ;;
    cur <- get_task current ;;
    in_vm (copy_frame (user_stack_paddr cur) child_stack_frame) ;;
    in_vm (vmm_map_page_for_pdt child_pdt (u32 (user_stack_top cur - PAGE_SIZE)) child_stack_frame PAGE_PWU) ;;
    ret true.

Definition fork_heap (current child : ptr) (child_pdt : Z) : M (kernel A) (unit + unit) :=
  cur <- get_task current ;;
  upd_task child (fun x => x <| user_heap_start := user_heap_start cur |> <| user_heap_size := user_heap_size cur |>
    <| user_heap_frame_count := user_heap_frame_count cur |>) ;;
  for_ (Z.to_nat (user_heap_frame_count cur)) 0 (fun i _ =>
    new_heap_frame <- in_vm vm_alloc_frame ;;
    if new_heap_frame =? 0 then
      release_frames child user_code_frames (user_code_frame_count cur) child_pdt None ;;
      release_frames child user_heap_frames i child_pdt (Some (heap_vaddr (user_heap_start cur))) ;;
      c <- get_task child ;;
      in_vm (vm_free_frame (user_stack_paddr c)) ;;
      upd_task child (fun x => x <| state := TASK_UNUSED |>) ;;
      ret (inr tt)
    else
      set_heap_frame child i new_heap_frame ;;
      src <- frame_get current user_heap_frames i ;;
      in_vm (copy_frame src new_heap_frame) ;;
      in_vm (vmm_map_page_for_pdt child_pdt (heap_vaddr (user_heap_start cur) i) new_heap_frame PAGE_PWU) ;;
      ret (inl tt)) tt.

(** The fields of the child, the family, the context and the ready list. *)
Definition fork_finish (current child : ptr) : M (kernel A) Z :=
  cur <- get_task current ;;
  upd_task child (fun x => x <| type := TASK_TYPE_USER_PROCESS |> <| user_stack_top := user_stack_top cur |>
    <| user_stack_size := user_stack_size cur |> <| user_code_paddr := user_code_paddr cur |>
    <| state := TASK_READY |> <| ticks := 0 |> <| quantum := TASK_QUANTUM_DEFAULT |>
    <| parent_pid := pid cur |> <| parent := current |>) ;;
  task_add_child current child ;;
  upd_task child (fun x => x <| context := (context cur) <| eax := 0 |> |>) ;;
  task_enqueue child ;;
  c <- get_task child ;;
  ret (s32 (pid c)).

Definition sys_fork : M (kernel A) Z :=
  current <- task_get_current ;;
  match current with
  | None => ret (-1)
  | Some _ =>
      x <- get_task current ;;
      if decide (type x <> TASK_TYPE_USER_PROCESS) then ret (-1)
      else
        child <- task_alloc ;;
        match child with
        | None => ret (-1)
        | Some _ =>
            child_pdt <- in_vm vmm_clone_kernel_mappings ;;
            if child_pdt =? 0 then upd_task child (fun x => x <| state := TASK_UNUSED |>) ;; ret (-1)
            else
              upd_task child (fun y => y <| page_directory_phys := child_pdt |>
                <| user_code_frame_count := user_code_frame_count x |>) ;;
              r <- fork_code current child child_pdt ;;
              match r with
              | inr _ => ret (-1)
              | inl _ =>
                  ok <- fork_stack current child child_pdt ;;
                  if negb ok then ret (-1)
                  else
                    r <- fork_heap current child child_pdt ;;
                    match r with
                    | inr _ => ret (-1)
                    | inl _ => fork_finish current child
                    end
              end
        end
  end.

(** *** Exec and wait *)

Definition EXEC_BUFFER : Z := PAGE_SIZE * 4.

Definition sys_exec (path argv envp : Z) : O Z :=
  ok <- on_vm (validate_user_string path) ;;
  if negb ok then ret (-1)
  else
    ok <- on_vm (validate_user_pointer_array argv) ;;
    if negb ok then ret (-1)
    else
      ok <- on_vm (validate_user_pointer_array envp) ;;
      if negb ok then ret (-1)
      else
        current <- on_kernel task_get_current ;;
        match current with
        | None => ret (-1)
        | Some _ =>
            x <- on_kernel (get_task current) ;;
            if decide (type x <> TASK_TYPE_USER_PROCESS) then ret (-1)
            else
              p <- (if path =? 0 then ret None else l <- on_vm (read_user_string fuel path) ;; ret (Some l)) ;;
              fd <- on_fat (fat16_open FsNull p) ;;
              if fd <? 0 then ret (-1)
              else
                r <- on_fat (fat16_read fuel fd true EXEC_BUFFER) ;;
                let '(n, data) := r in
                on_fat (fat16_close fd) ;;
                if n <=? 0 then ret (-1)
                else
                  ok <- on_kernel (task_replace_process_image fuel current (Some (take (Z.to_nat n) data)) argv envp) ;;
                  ret (status_of ok)
        end.

(** The zombie [child] reaped by its parent. *)
Definition reap (child : ptr) (status : Z) : M (kernel A) Z :=
  c <- get_task child ;;
  in_vm (vwrite32 status (u32 (exit_status c))) ;;
  task_cleanup_user_resources child ;;
  kpdt <- in_vm vmm_get_kernel_pdt_phys ;;
  c <- get_task child ;;
  (if negb (page_directory_phys c =? 0) && negb (page_directory_phys c =? kpdt) then
     in_vm (vmm_free_page_directory (page_directory_phys c)) ;;
     kpdt <- in_vm vmm_get_kernel_pdt_phys ;;
     upd_task child (fun x => x <| page_directory_phys := kpdt |>)
   else ret tt) ;;
  task_free_stack child ;;
  task_remove_child fuel child ;;
  upd_task child (fun x => x <| type := TASK_TYPE_KERNEL |> <| parent := None |> <| parent_pid := 0 |>
    <| next_sibling := None |> <| waiting_for_pid := -1 |> <| waiting_status := 0 |> <| state := TASK_UNUSED |>) ;;
  ret (s32 (pid c)).

(** [pid_] is an [int]. *)
Definition sys_wait (pid_ status : Z) : M (kernel A) Z :=
  ok <- in_vm (validate_user_pointer status 4) ;;
  if negb ok then ret (-1)
  else
    current <- task_get_current ;;
    match current with
    | None => ret (-1)
    | Some _ =>
        x <- get_task current ;;
        if decide (type x <> TASK_TYPE_USER_PROCESS) then ret (-1)
        else
          child <- task_find_child fuel current pid_ ;;
          match child with
          | None => ret (-1)
          | Some _ =>
              c <- get_task child ;;
              if decide (state c = TASK_ZOMBIE) then reap child status
              else
                upd_task current (fun x => x <| waiting_for_pid := pid_ |> <| waiting_status := status |>
                  <| state := TASK_WAITING |>) ;;
                ret 0
          end
    end.

(** ** Dispatch

    A handler answers the task to resume, or none. *)

(** The shape most handlers share. *)
Definition answering (c : O Z) : O ptr := r <- c ;; syscall_set_return_value r ;; ret None.

Definition syscall_handle_write : O ptr :=
  fd <- syscall_get_u32_arg 0 ;; buf <- syscall_get_u32_arg 1 ;; len <- syscall_get_u32_arg 2 ;;
  answering (sys_write (s32 fd) buf len).
Definition syscall_handle_exit : O ptr :=
  status <- syscall_get_u32_arg 0 ;; sys_exit (s32 status) ;; on_kernel task_schedule.
Definition syscall_handle_alloc : O ptr :=
  size <- syscall_get_u32_arg 0 ;; answering (on_kernel (sys_alloc size)).
Definition syscall_handle_sleep : O ptr :=
  ms <- syscall_get_u32_arg 0 ;;
  r <- on_kernel (sys_sleep ms) ;; syscall_set_return_value r ;; on_kernel task_schedule.
Definition syscall_handle_read : O ptr :=
  fd <- syscall_get_u32_arg 0 ;; answering (sys_read (s32 fd)).
Definition syscall_handle_open : O ptr :=
  path <- syscall_get_u32_arg 0 ;; answering (sys_open path).
Definition syscall_handle_read_file : O ptr :=
  fd <- syscall_get_u32_arg 0 ;; buffer <- syscall_get_u32_arg 1 ;; count <- syscall_get_u32_arg 2 ;;
  answering (sys_read_file (s32 fd) buffer count).
Definition syscall_handle_write_file : O ptr :=
  fd <- syscall_get_u32_arg 0 ;; buffer <- syscall_get_u32_arg 1 ;; count <- syscall_get_u32_arg 2 ;;
  answering (sys_write_file (s32 fd) buffer count).
Definition syscall_handle_close : O ptr :=
  fd <- syscall_get_u32_arg 0 ;; answering (sys_close (s32 fd)).
Definition syscall_handle_yield : O ptr :=
  r <- sys_yield ;; syscall_set_return_value r ;; on_kernel task_yield.
Definition syscall_handle_load_module : O ptr :=
  elf_data <- syscall_get_u32_arg 0 ;; elf_size <- syscall_get_u32_arg 1 ;;
  answering (sys_load_module elf_data elf_size).
Definition syscall_handle_unload_module : O ptr :=
  name <- syscall_get_u32_arg 0 ;; answering (sys_unload_module name).
Definition syscall_handle_fork : O ptr := answering (on_kernel sys_fork).
Definition syscall_handle_exec : O ptr :=
  path <- syscall_get_u32_arg 0 ;; argv <- syscall_get_u32_arg 1 ;; envp <- syscall_get_u32_arg 2 ;;
  answering (sys_exec path argv envp).
Definition syscall_handle_wait : O ptr :=
  p <- syscall_get_u32_arg 0 ;; status <- syscall_get_u32_arg 1 ;;
  answering (on_kernel (sys_wait (s32 p) status)).

Definition syscall_dispatch (interrupt : Z) : O ptr :=
  if negb (interrupt =? 128) then ret None
  else
    call_number <- saved_reg 7 ;;
    if call_number =? SYS_WRITE then syscall_handle_write
    else if call_number =? SYS_EXIT then syscall_handle_exit
    else if call_number =? SYS_ALLOC then syscall_handle_alloc
    else if call_number =? SYS_SLEEP then syscall_handle_sleep
    else if call_number =? SYS_READ then syscall_handle_read
    else if call_number =? SYS_OPEN then syscall_handle_open
    else if call_number =? SYS_READ_FILE then syscall_handle_read_file
    else if call_number =? SYS_WRITE_FILE then syscall_handle_write_file
    else if call_number =? SYS_CLOSE then syscall_handle_close
    else if call_number =? SYS_YIELD then syscall_handle_yield
    else if call_number =? SYS_LOAD_MODULE then syscall_handle_load_module
    else if call_number =? SYS_UNLOAD_MODULE then syscall_handle_unload_module
    else if call_number =? SYS_FORK then syscall_handle_fork
    else if call_number =? SYS_EXEC then syscall_handle_exec
    else if call_number =? SYS_WAIT then syscall_handle_wait
    else syscall_set_return_value (-1) ;; ret None.

(** ** Interrupts *)

(** [Halt] is the endless loop of [dump_registers]; [Resume] is what the handler
    returns to the assembly stub. *)
Inductive irq_result := Halt | Resume (t : ptr).

Definition interrupt_handler : O irq_result :=
  interrupt <- saved_reg 8 ;;
  stack_cs <- saved_reg 11 ;;
  if interrupt <? 32 then
    if (interrupt =? 14) && (stack_cs =? USER_CODE_SEG) then
      on_kernel (task_terminate 14) ;;
      t <- on_kernel task_schedule ;; ret (Resume t)
    else ret Halt
  else if interrupt =? 128 then t <- syscall_dispatch interrupt ;; ret (Resume t)
  else
    next_context <- (if interrupt =? 32 then on_kernel timer_irq
                     else if interrupt =? 33 then on_console keyboard_handle_interrupt ;; ret None
                     else ret None) ;;
    on_console (on_ports (pic_sendEOI interrupt)) ;;
    ret (Resume next_context).

(** [common_interrupt_handler] of [cpu.s]: the context is saved before the handler. *)
Definition common_interrupt_handler : O irq_result :=
  s <- get ;;
  on_kernel (task_save_current_context (Some (frame s))) ;;
  interrupt_handler.
End syscall.
