(* ===== verification/Boot.v ===== *)
(** * Booting ([kernel/kernel.c], [kernel/info.c])

    [kernel_main] composes the components on one machine: the devices and the
    descriptor tables first, then the physical memory, paging, the heap and the task
    table, then the modules, the disk, the idle task and the timer.  The build is the
    default one, without DEBUG. *)

From stdpp Require Import base list gmap numbers option tactics.
From Stdlib Require Import Lia ZArith String Ascii.
From S2P Require Import Prelude PhysMem Pmm Vmm Malloc Io Ata Fat16 Fat16Path Task Paging Sched SchedSpec SchedFair SchedLife SchedExit.
From S2P Require Import Drivers Libc Descriptors Module Syscall.

(** A string literal of the source. *)
Definition chars (s : string) : list Z := (fun a => Z.of_N (N_of_ascii a)) <$> list_ascii_of_string s.

Definition LOG_INFO : Z := 1.
Definition LOG_WARNING : Z := 2.
Definition LOG_ERROR : Z := 3.
Definition MULTIBOOT_BOOTLOADER_MAGIC : Z := 0x2BADB002.

(** The kernel with the statics of [malloc.c] and the descriptor tables. *)
Record machine (P D : Type) := mkMachine {
  bt_os : os pmm P D;
  bt_headers : gmap Z header;
  bt_free_list : Z;
  bt_heap_end : Z;
  bt_tables : tables;
}.
Arguments mkMachine {P D}.
Arguments bt_os {P D}.
Arguments bt_headers {P D}.
Arguments bt_free_list {P D}.
Arguments bt_heap_end {P D}.
Arguments bt_tables {P D}.
#[export] Instance eta_machine P D : Eta (machine P D) := {| eta := fun s =>
  mkMachine (bt_os s) (bt_headers s) (bt_free_list s) (bt_heap_end s) (bt_tables s) |}.

(** The addresses the linker gives to labels, objects and functions, and the
    module that is linked into the image. *)
Record image := mkImage {
  kernel_physical_start : Z;
  kernel_physical_end : Z;
  gdt_address : Z;
  tss_address : Z;
  idt_address : Z;
  interrupt_handler_32 : Z;
  interrupt_handler_33 : Z;
  interrupt_handler_14 : Z;
  interrupt_handler_128 : Z;
  printk_address : Z;
  kmalloc_address : Z;
  kfree_address : Z;
  task_create_address : Z;
  task_exit_address : Z;
  kernel_idle : Z;
  embedded_hello_module : list Z;
}.

(** The [multiboot_info_t] at an address. *)
Definition multiboot_info_at (m : gmap Z Z) (p : Z) : multiboot_info :=
  mkMultiboot (read32 m p) (read32 m (p + 8)) (read32 m (p + 44)) (read32 m (p + 48)).

Section boot.
Context {P D : Type} `{!PortIO P, !PortIO D, !BlockDevice D}.
Abbreviation K := (M (machine P D)).

(** Bounds on loops over strings and on polls, the strings in memory, the code of
    modules, and the stack pointer at the entry. *)
Context (fuel polls : nat) (string_at : Z -> list Z) (call_init : Z -> M (vm pmm) Z) (esp_now : Z).
Context (im : image).

Definition on_os {B} (c : M (os pmm P D) B) : K B := zoom bt_os (fun o s => s <| bt_os := o |>) c.
Definition on_tables {B} (c : M tables B) : K B := zoom bt_tables (fun t s => s <| bt_tables := t |>) c.
Definition on_heap {B} (c : M (heap pmm) B) : K B :=
  zoom (fun s => mkHeap (kvm (os_kernel (bt_os s))) (bt_headers s) (bt_free_list s) (bt_heap_end s))
    (fun h s => s <| bt_os := (bt_os s) <| os_kernel := (os_kernel (bt_os s)) <| kvm := heap_vm h |> |> |>
                  <| bt_headers := headers h |> <| bt_free_list := free_list_start h |>
                  <| bt_heap_end := heap_end_vaddr h |>) c.
Definition on_com {B} (c : M P B) : K B := on_os (on_console (on_ports c)).
Definition on_disk {B} (c : M D B) : K B := on_os (on_fat (zoom disk set_disk c)).

Definition log (level : Z) (fmt : string) (args : list Z) : K unit :=
  on_com (printk string_at polls level (chars fmt) args).
Definition serial_puts (str : string) : K unit := on_com (serial_write polls SERIAL_COM1_BASE (chars str)).

(** [pmm_init] reads the boot information from memory. *)
Definition boot_pmm_init (multiboot_info_ptr : Z) : M (vm pmm) unit :=
  m <- gets vm_mem ;;
  zoom vm_frames set_frames
    (pmm_init m (kernel_physical_start im) (kernel_physical_end im) fuel (multiboot_info_at m multiboot_info_ptr)).

Definition boot_devices : K unit :=
  serial_puts "Kernel main started
" ;;
  on_tables (gdt_init (gdt_address im) (tss_address im) esp_now) ;;
  on_tables (idt_init (idt_address im) (interrupt_handler_32 im) (interrupt_handler_33 im)
               (interrupt_handler_14 im) (interrupt_handler_128 im)) ;;
  on_com pic_remap ;;
  on_com pic_disable_all_irq ;;
  on_com (pic_enable_irq 0) ;;
  on_com (pic_enable_irq 1) ;;
  _ <- on_com (serial_init SERIAL_COM1_BASE) ;;
  log LOG_INFO "kernel_main: set up serial + interrupts" [] ;;
  on_os (on_console (on_tty terminal_init)).

Definition boot_memory (multiboot_info_ptr : Z) : K unit :=
  on_os (on_vm (boot_pmm_init multiboot_info_ptr)) ;;
  on_os (on_vm (paging_init (kernel_physical_start im) (kernel_physical_end im))) ;;
  cr3 <- on_os (on_vm read_cr3) ;;
  log LOG_INFO "kernel_main: paging initialized, kernel CR3=0x%08x" [cr3] ;;
  on_heap heap_init ;;
  on_os (on_kernel task_init).

Definition EXPORT_SYMBOL (name : string) (symbol : Z) : K unit :=
  _ <- on_os (on_modules (module_register_symbol (Some (chars name)) symbol)) ;; ret tt.

Definition boot_modules : K unit :=
  EXPORT_SYMBOL "printk" (printk_address im) ;;
  EXPORT_SYMBOL "kmalloc" (kmalloc_address im) ;;
  EXPORT_SYMBOL "kfree" (kfree_address im) ;;
  EXPORT_SYMBOL "task_create" (task_create_address im) ;;
  EXPORT_SYMBOL "task_exit" (task_exit_address im) ;;
  let embedded_hello_module_size := Z.of_nat (List.length (embedded_hello_module im)) in
  if 0 <? embedded_hello_module_size then
    log LOG_INFO "Loading embedded module: size=%u bytes" [embedded_hello_module_size] ;;
    result <- on_os (on_modules (module_load call_init fuel (Some (embedded_hello_module im)))) ;;
    if (result : bool) then log LOG_INFO "Embedded module loaded successfully" []
    else log LOG_ERROR "Failed to load embedded module: error %d" [u32 (status_of result)]
  else log LOG_INFO "No embedded modules found" [].

Definition boot_disk : K unit :=
  heap_end <- on_heap heap_get_end_vaddr ;;
  log LOG_INFO "Heap init: start=0x%08x next=0x%08x" [KERNEL_HEAP_START; heap_end] ;;
  r <- on_disk block_init ;;
  if r =? 0 then log LOG_INFO "block_init: initialized" [] else log LOG_ERROR "block_init: failed" [].

(** The processor then runs on the stack of the idle task: the stack pointer has no
    state in the model. *)
Definition boot_idle : K unit :=
  serial_puts "Kernel initialized, entering multi-tasking mode
" ;;
  idle_task <- on_os (on_kernel (task_create (kernel_idle im))) ;;
  (match idle_task with
   | Some _ => on_os (on_kernel (task_set_current idle_task))
   | None => ret tt
   end) ;;
  serial_puts "Kernel initialized, starting menu
".

(** [multiboot_info] of [info.c]. *)
Definition log_multiboot_info (multiboot_magic : Z) : K unit :=
  if negb (multiboot_magic =? MULTIBOOT_BOOTLOADER_MAGIC) then
    log LOG_WARNING "Invalid magic number: 0x%08x. Expected 0x2BADB002." [multiboot_magic] ;;
    log LOG_INFO "------------------------------" []
  else ret tt.

(** Up to the call of [kernel_idle], which never returns. *)
Definition kernel_main (multiboot_magic multiboot_info_ptr : Z) : K unit :=
  boot_devices ;;
  boot_memory multiboot_info_ptr ;;
  boot_modules ;;
  boot_disk ;;
  boot_idle ;;
  on_com (timer_init 100) ;;
  log LOG_INFO "Kernel image physical range: 0x%08x - 0x%08x" [kernel_physical_start im; kernel_physical_end im] ;;
  log_multiboot_info multiboot_magic.
End boot.

(** ** Messages at boot *)

(** The serial port takes every character within the number of polls. *)
Definition serial_accepts (P : Type) `{!PortIO P} (polls : nat) : Prop :=
  forall (s : P) c, wp (serial_write_char polls SERIAL_COM1_BASE c) (fun _ _ => True) s.

Definition text_char (c : Z) : Prop := 0 < c < 256 /\ c <> 37.

Lemma formats_text string_at l fmt args out :
  Forall text_char l -> formats string_at fmt args out -> formats string_at (l ++ fmt) args (l ++ out).
Proof.
  intros Hl Hf. induction Hl as [|c l [Hc Hp] _ IH]; [done|]. cbn [app].
  rewrite <- (u8_small c) at 2 by lia. by apply formats_char.
Qed.

(** A text, a number in eight hexadecimal digits, and nothing else. *)
Lemma formats_hex string_at l a :
  Forall text_char l -> exists out,
    formats string_at (l ++ [37; 48; 56; 120]) [a] (l ++ out) /\ (List.length out <= 40)%nat /\ Forall (fun c => c <> 0) out.
Proof.
  intros Hl. exists (padded true 8 (unsigned_text 16 (u32 a))). split_and!.
  - apply formats_text; [done|].
    rewrite <- (app_nil_r (padded _ _ _)). apply (formats_conv string_at true [56] 120 [] [a] []); try done.
    + repeat constructor; done.
    + unfold is_digit. lia.
    + constructor.
  - unfold padded. rewrite length_app, length_replicate. pose proof (length_unsigned_text 16 (u32 a)) as H.
    unfold MAX_DIGITS in H. lia.
  - apply Forall_app. split; [by apply Forall_replicate|].
    eapply list.Forall_impl; [by apply unsigned_text_range|]. simpl. lia.
Qed.

Section boot_spec.
Context {P D : Type} `{!PortIO P, !PortIO D, !BlockDevice D}.
Context (fuel polls : nat) (string_at : Z -> list Z).
Context (Hcom : serial_accepts P polls).
Implicit Types s : machine P D.

Definition with_ports (p : P) s : machine P D :=
  s <| bt_os := (bt_os s) <| os_console := (os_console (bt_os s)) <| con_ports := p |> |> |>.

Lemma wp_serial_write str (Q : unit -> P -> Prop) (p : P) :
  (forall p', Q tt p') -> wp (serial_write polls SERIAL_COM1_BASE str) Q p.
Proof using Hcom.
  intros HQ. revert p. induction str as [|c str IH]; intros p; cbn [serial_write]; [by apply wp_ret|].
  destruct (c =? 0); [by apply wp_ret|]. apply wp_bind. eapply wp_mono; [apply Hcom|]. intros [] p' _. apply IH.
Qed.

Lemma wp_com {B} (c : M P B) (Q : B -> machine P D -> Prop) s :
  wp c (fun b p => Q b (with_ports p s)) (con_ports (os_console (bt_os s))) -> wp (on_com c) Q s.
Proof. intros H. unfold on_com, on_os, on_console, on_ports. by do 3 apply wp_zoom. Qed.

Lemma wp_puts str (Q : unit -> machine P D -> Prop) s :
  (forall p, Q tt (with_ports p s)) -> wp (serial_puts polls str) Q s.
Proof using Hcom. intros HQ. by apply wp_com, wp_serial_write. Qed.

(** A message whose format is a text or ends in one number. *)
Lemma wp_log level fmt args tag out (Q : unit -> machine P D -> Prop) s :
  arr_get level_tags level = Some tag -> formats string_at (chars fmt) args out ->
  (List.length out < 1024)%nat -> Forall (fun c => c <> 0) out ->
  (forall p, Q tt (with_ports p s)) -> wp (log polls string_at level fmt args) Q s.
Proof using Hcom.
  intros Ht Hf Hl Ho HQ. apply wp_com. unfold wp. rewrite (printk_writes polls string_at level _ _ out tag) by done.
  by apply wp_serial_write.
Qed.
(** ** The memory of the machine *)

Definition machine_vm s : vm pmm := kvm (os_kernel (bt_os s)).
Definition machine_heap s : heap pmm := mkHeap (machine_vm s) (bt_headers s) (bt_free_list s) (bt_heap_end s).
Definition with_kernel (k : kernel pmm) s : machine P D := s <| bt_os := (bt_os s) <| os_kernel := k |> |>.
Definition with_vm (v : vm pmm) s : machine P D := with_kernel ((os_kernel (bt_os s)) <| kvm := v |>) s.

Lemma wp_vm {B} (c : M (vm pmm) B) (Q : B -> machine P D -> Prop) s :
  wp c (fun b v => Q b (with_vm v s)) (machine_vm s) -> wp (on_os (on_vm c)) Q s.
Proof. intros H. unfold on_os, on_vm, on_kernel, in_vm. by do 3 apply wp_zoom. Qed.

Lemma wp_kernel {B} (c : M (kernel pmm) B) (Q : B -> machine P D -> Prop) s :
  wp c (fun b k => Q b (with_kernel k s)) (os_kernel (bt_os s)) -> wp (on_os (on_kernel c)) Q s.
Proof. intros H. unfold on_os, on_kernel. by do 2 apply wp_zoom. Qed.

(** What [boot_memory] asks of the boot loader: a memory map [pmm_init] can read,
    an image below 2 MB, and the 516 frames that paging, the stacks and the first
    page of the heap take. *)
Record loaded (im : image) (p : Z) (v : vm pmm) : Prop := {
  ld_image : 0 <= kernel_physical_start im < kernel_physical_end im /\ kernel_physical_end im < 4294967296 /\
    (kernel_physical_end im - 1) / 4096 - kernel_physical_start im / 4096 < 512;
  ld_map : exists l fs,
    boot_ok (vm_mem v) (kernel_physical_start im) (kernel_physical_end im) (multiboot_info_at (vm_mem v) p) l /\
    (List.length l < fuel)%nat /\ NoDup fs /\ (516 <= List.length fs)%nat /\
    forall f, f ∈ fs -> 0 <= f < BITMAP_SIZE * 8 /\ Pmm.available (multiboot_info_at (vm_mem v) p) l f = true /\
      reserved (kernel_physical_start im) (kernel_physical_end im) (multiboot_info_at (vm_mem v) p) f = false;
}.

Lemma wp_boot_pmm im p v (Q : unit -> vm pmm -> Prop) :
  loaded im p v ->
  (forall a, paging_ready 2 (kernel_physical_start im) (kernel_physical_end im) a -> Q tt (set_frames a v)) ->
  wp (boot_pmm_init fuel im p) Q v.
Proof.
  intros [Him (l & fs & Hb & Hl & Hnd & Hlen & Hfs)] HQ. unfold boot_pmm_init. apply wp_bind, wp_gets, wp_zoom.
  eapply wp_mono; [by eapply wp_pmm_init|]. intros [] a (Hwf & Ht & Hu). apply HQ. split; [| |lia|lia].
  - split; [done|]. rewrite Hu by (unfold BITMAP_SIZE; lia). unfold reserved. by rewrite orb_true_r.
  - exists fs. split_and!; [done|done|]. intros f Hf. destruct (Hfs f Hf) as (Hr & Ha & Hres).
    split; [split; [lia|by apply Ht]|]. split; [done|]. change (fa_used a f) with (frame_used a f = true).
    by rewrite Hu, Ha, Hres.
Qed.

Lemma two_unused (a : pmm) : frames_left 2 a -> exists f1 f2, f1 <> f2 /\ unused a f1 /\ unused a f2.
Proof.
  intros (l & Hnd & Hlen & Hl). destruct l as [|f1 [|f2 l]]; cbn [List.length] in Hlen; [lia|lia|].
  apply list.NoDup_cons in Hnd as [Hn _]. rewrite list.not_elem_of_cons in Hn.
  destruct (Hl f1 ltac:(by left)) as (? & ? & ?), (Hl f2 ltac:(by right; left)) as (? & ? & ?).
  exists f1, f2. split_and!; [by apply Hn|by split_and!; try lia|by split_and!; try lia].
Qed.

(** The machine after [boot_memory]: the directory [d] of the kernel with the first
    4 MB, the image and the stack pages in place, a heap of one free chunk, and a
    scheduler with nothing to run. *)
Record booted (im : image) (d : Z) s : Prop := {
  bo_kernel : kernel_pdt_phys (machine_vm s) = 4096 * d;
  bo_current : current_pdt_phys (machine_vm s) = 4096 * d;
  bo_identity : forall pg, 0 <= pg < 1024 -> walk (vm_mem (machine_vm s)) (4096 * d) pg = Some (4096 * pg);
  bo_image : forall i, 0 <= i <= (kernel_physical_end im - 1) / 4096 - kernel_physical_start im / 4096 ->
    walk (vm_mem (machine_vm s)) (4096 * d) (0xC0000 + i) = Some (4096 * (kernel_physical_start im / 4096 + i));
  bo_stacks : forall pg, KERNEL_STACK_REGION_START / 4096 <= pg <= KERNEL_STACK_REGION_END / 4096 ->
    is_Some (walk (vm_mem (machine_vm s)) (4096 * d) pg);
  bo_heap : heap_inv d [mkChunk HEAP_START 4080 true] (machine_heap s);
  bo_idle : models (os_kernel (bt_os s)) (forget (os_kernel (bt_os s)), []);
  bo_unused : forall i t, task_table (os_kernel (bt_os s)) !! i = Some t -> state t = TASK_UNUSED;
  bo_slots : task_stack_slots (os_kernel (bt_os s)) = replicate TASK_MAX false;
  bo_no_task : current_task (os_kernel (bt_os s)) = None;
  bo_pid : next_pid (os_kernel (bt_os s)) = 1;
}.

Lemma wp_heap_part {B} (c : M (heap pmm) B) (Q : B -> machine P D -> Prop) s :
  wp c (fun b h => forall s', machine_heap s' = h -> os_kernel (bt_os s') = (os_kernel (bt_os s)) <| kvm := heap_vm h |> ->
    Q b s') (machine_heap s) -> wp (on_heap c) Q s.
Proof.
  intros H. unfold on_heap. apply wp_zoom. eapply wp_mono; [exact H|]. intros b h HQ. apply HQ; [by destruct h|done].
Qed.

Lemma wp_boot_memory im p s :
  loaded im p (machine_vm s) ->
  List.length (task_table (os_kernel (bt_os s))) = TASK_MAX ->
  List.length (task_stack_slots (os_kernel (bt_os s))) = TASK_MAX ->
  wp (boot_memory fuel polls string_at im p) (fun _ s' => exists d, booted im d s') s.
Proof using Hcom.
  intros Hld Ht Hs. unfold boot_memory. apply wp_bind, wp_vm. apply wp_boot_pmm; [done|]. intros a Ha.
  apply wp_bind, wp_vm. eapply wp_mono; [eapply (wp_paging_init 2); exact Ha|].
  intros [] v (d & gs & Hv & Hk & Hc & [Hid Hi Hst _] & Hlen & _ & _ & _ & Hleft).
  apply wp_bind, wp_vm. unfold read_cr3. apply wp_gets.
  apply wp_bind.
  destruct (formats_hex string_at (chars "kernel_main: paging initialized, kernel CR3=0x") (vm_cr3 v)) as (out & Hf & Hl & Ho).
  { repeat (constructor; [by compute|]). constructor. }
  eapply wp_log; [done|exact Hf|rewrite length_app; simpl; lia| |].
  { apply Forall_app. split; [|done]. repeat (constructor; [done|]). constructor. }
  intros port. destruct (two_unused _ Hleft) as (f1 & f2 & Hne & Hf1 & Hf2).
  apply wp_bind, wp_heap_part. eapply wp_mono; [eapply (wp_heap_init d _ f1 f2); [exact Hv|exact Hne|exact Hf1|exact Hf2]|].
  intros [] h (Hh & (Hr1 & Hr2 & Hr3) & Hel) s' Eh Ek. apply wp_kernel, wp_task_init; [by rewrite Ek|by rewrite Ek|].
  intros k' Hm _ Hp Hcur Hun Hsl Hkv.
  assert (machine_heap (with_kernel k' s') = h) as Eh'.
  { rewrite <- Eh. transitivity (machine_heap (with_kernel (os_kernel (bt_os s')) s')); [|by destruct s' as [[]]].
    change (mkHeap (kvm k') (bt_headers s') (bt_free_list s') (bt_heap_end s') =
      mkHeap (kvm (os_kernel (bt_os s'))) (bt_headers s') (bt_free_list s') (bt_heap_end s')). by rewrite Hkv. }
  assert (machine_vm (with_kernel k' s') = heap_vm h) as Ev by by rewrite <- Eh'.
  change (HEAP_START / 4096) with 0xC0400 in Hel. unfold TEMP_PG in Hel.
  pose proof (ld_image _ _ _ Hld) as Him.
  exists d. split; rewrite ?Ev; try done.
  - by rewrite Hr3.
  - by rewrite Hr2.
  - intros pg Hpg. rewrite Hel by lia. by apply Hid.
  - intros i Hir. rewrite Hel by lia. apply Hi. lia.
  - change (KERNEL_STACK_REGION_START / 4096) with 0xC0200. change (KERNEL_STACK_REGION_END / 4096) with 0xC03FE.
    intros pg Hpg. rewrite Hel by lia. destruct (lookup_lt_is_Some_2 gs (Z.to_nat (pg - 0xC0200))) as [g Hg]; [lia|].
    exists (4096 * g). rewrite <- (Hst _ _ Hg). f_equal. lia.
  - by rewrite Eh'.
Qed.

(** ** The idle task *)

(** Creating a task in an empty table and making it current, abstractly. *)
Lemma first_task (e : Z) (k0 : kernel pmm) t0 :
  unused_entry (task_table k0) = Some 0%nat -> task_table k0 !! 0%nat = Some t0 ->
  task_stack_slots k0 = replicate TASK_MAX false -> current_task k0 = None ->
  let t := set_running (start_task e (set_stack 0 (reset_task (next_pid k0) (kernel_pdt_phys (kvm k0)) t0))) in
  (spec_create e (k0, [])).1 = Some 0%nat /\
  exists k1, spec_set_current (Some 0%nat) (spec_create e (k0, [])).2 = (k1, []) /\
    task_table k1 !! 0%nat = Some t /\ (forall j, j <> 0%nat -> task_table k1 !! j = task_table k0 !! j) /\
    current_task k1 = Some 0%nat /\ tss_esp0 k1 = stack_top t /\
    kvm k1 = set_tlb ∅ (set_cr3 (kernel_pdt_phys (kvm k0)) (kvm k0)).
Proof.
  intros Hu Ht Hs Hc t. unfold spec_create, spec_alloc. cbn [fst snd]. rewrite Hu, Hs. cbn [free_slot].
  change (free_slot (replicate TASK_MAX false)) with (Some 0%nat). cbn [fst snd app]. split; [done|].
  unfold spec_set_current. rewrite decide_False by (cbn [fst]; change (Some 0%nat <> current_task k0); by rewrite Hc).
  cbn [fst snd]. rewrite kupd_table, decide_True by done. cbn [task_table].
  set (k2 := kupd 0 (set_stack _) _).
  assert (task_table k2 !! 0%nat = Some (set_stack 0 (reset_task (next_pid k0) (kernel_pdt_phys (kvm k0)) t0))) as E2.
  { change (task_table k2) with (alter (set_stack 0) 0%nat (alter (reset_task (next_pid k0) (kernel_pdt_phys (kvm k0))) 0%nat (task_table k0))).
    by rewrite !list_lookup_alter_eq, Ht. }
  rewrite E2. cbn [fmap option_fmap option_map fst snd]. eexists. split; [reflexivity|]. unfold switch_to.
  split_and!; [| |done|done|].
  - change (task_table _) with (alter set_running 0%nat (alter (start_task e) 0%nat (task_table k2))).
    by rewrite !list_lookup_alter_eq, E2.
  - intros j Hj. change (alter set_running 0%nat (alter (start_task e) 0%nat (alter (set_stack 0) 0%nat
      (alter (reset_task (next_pid k0) (kernel_pdt_phys (kvm k0))) 0%nat (task_table k0)))) !! j = task_table k0 !! j).
    by rewrite !list_lookup_alter_ne.
  - change (kvm (_ <| kvm := ?v |>)) with v. f_equal. change (kvm (kupd _ _ k2)) with (kvm k0). f_equal.
    unfold space_of. by case_match.
Qed.

(** The idle task runs: it is the only task, in the first entry and on the first
    kernel stack, in the kernel's address space, and nothing is ready. *)
Record idle_runs (im : image) (d : Z) s : Prop := {
  ir_current : current_task (os_kernel (bt_os s)) = Some 0%nat;
  ir_task : exists t, task_table (os_kernel (bt_os s)) !! 0%nat = Some t /\ state t = TASK_RUNNING /\
    type t = TASK_TYPE_KERNEL /\ pid t = 1 /\ stack_base t = KERNEL_STACK_REGION_START /\
    stack_top t = KERNEL_STACK_REGION_START + KERNEL_STACK_SIZE /\
    context t = kernel_context (kernel_idle im) (stack_top t) /\ page_directory_phys t = 4096 * d;
  ir_others : forall i t, task_table (os_kernel (bt_os s)) !! S i = Some t -> state t = TASK_UNUSED;
  ir_ready : ready_list_head (os_kernel (bt_os s)) = None;
  ir_tss : tss_esp0 (os_kernel (bt_os s)) = KERNEL_STACK_REGION_START + KERNEL_STACK_SIZE;
  ir_cr3 : vm_cr3 (machine_vm s) = 4096 * d;
}.

Lemma wp_boot_idle im d s :
  booted im d s ->
  wp (boot_idle polls im) (fun _ s' => idle_runs im d s' /\ vm_mem (machine_vm s') = vm_mem (machine_vm s)) s.
Proof using Hcom.
  intros Hb. pose proof (bo_idle _ _ _ Hb) as Hm. set (k := os_kernel (bt_os s)) in *.
  destruct (lookup_lt_is_Some_2 (task_table k) 0) as [t0 Ht0].
  { rewrite (repr_length _ _ _ (proj1 Hm)). eapply Nat.lt_le_trans; [|eapply Nat.eq_le_incl, eq_sym, (so_length _ (proj2 Hm))].
    unfold TASK_MAX. lia. }
  pose proof (repr_table _ _ _ _ _ (proj1 Hm) Ht0) as Ht0'.
  destruct (first_task (kernel_idle im) (forget k) (strip t0)) as (Er & k1 & E1 & Ht1 & Hoth & Hcur & Htss & Hvm).
  - apply unused_entry_Some. exists (strip t0). split_and!; [done|exact (bo_unused _ _ _ Hb 0%nat t0 Ht0)|by intros j t' ?%Nat.nlt_0_r].
  - done.
  - apply (bo_slots _ _ _ Hb).
  - apply (bo_no_task _ _ _ Hb).
  - unfold boot_idle. apply wp_bind, wp_puts. intros p.
    apply wp_bind, wp_kernel. eapply (wp_task_create _ k (forget k, [])); [exact Hm|exact (f_equal List.length (bo_slots _ _ _ Hb))|].
    intros k' Hm'. rewrite Er. apply wp_bind, wp_kernel.
    eapply (wp_task_set_current _ k'); [exact Hm'|intros i [= <-]; unfold TASK_MAX; lia|]. intros k2 Hm2.
    rewrite E1 in Hm2. apply wp_puts. intros p'.
    destruct (repr_table_inv _ _ _ _ _ (proj1 Hm2) Ht1) as (t & Ht & Et).
    assert (forall B (f : task -> B), f t = f (strip t) -> f t = f _) as Hfield by (intros B f E; rewrite E; exact (f_equal f (eq_sym Et))).
    assert (kvm k2 = kvm k1) as Ev by exact (f_equal kvm (proj1 (proj1 Hm2))).
    assert (next_pid (forget k) = 1) as Epid by apply (bo_pid _ _ _ Hb).
    assert (kernel_pdt_phys (kvm (forget k)) = 4096 * d) as Epdt by apply (bo_kernel _ _ _ Hb).
    rewrite Epid, Epdt in *.
    split; [split|].
    + exact (eq_trans (models_current _ _ Hm2) Hcur).
    + exists t. assert (stack_top t = KERNEL_STACK_REGION_START + KERNEL_STACK_SIZE) as Etop by by apply Hfield.
      rewrite Etop. split; [exact Ht|]. split_and!; first [done|by apply Hfield].
    + intros i ti Hi. pose proof (repr_table _ _ _ _ _ (proj1 Hm2) Hi) as Hi'. cbn [fst] in Hi'.
      rewrite Hoth, forget_table, list_lookup_fmap in Hi' by done.
      destruct (task_table k !! S i) as [x|] eqn:Ex; [|done]. apply (inj Some) in Hi' as Ei.
      exact (eq_trans (f_equal state (eq_sym Ei)) (bo_unused _ _ _ Hb _ _ Ex)).
    + exact (qu_head _ _ (proj2 (proj1 Hm2))).
    + exact (eq_trans (f_equal tss_esp0 (proj1 (proj1 Hm2))) Htss).
    + change (vm_cr3 (kvm k2) = 4096 * d). by rewrite Ev, Hvm.
    + change (vm_mem (kvm k2) = vm_mem (kvm k)). by rewrite Ev, Hvm.
Qed.
End boot_spec.

(** ** The properties *)

(** C20: Once the boot loader has loaded the kernel and the memory map leaves 516
    frames, the memory part of [kernel_main] brings the machine up: the frame
    allocator, paging, the heap and the task table are initialised one on top of the
    other, and leave an address space with the first 4 MB, the kernel image and the
    stacks in place, a well-formed heap of one free chunk, and a scheduler that holds
    no task. *)
Theorem boot_memory_correct P D (HP : PortIO P) (HB : BlockDevice D) fuel polls string_at im p
    (s : machine P D) :
  serial_accepts P polls -> loaded fuel im p (machine_vm s) ->
  List.length (task_table (os_kernel (bt_os s))) = TASK_MAX ->
  List.length (task_stack_slots (os_kernel (bt_os s))) = TASK_MAX ->
  wp (boot_memory fuel polls string_at im p) (fun _ s' => exists d, booted im d s') s.
Proof. intros Hcom. by apply wp_boot_memory. Qed.

(** A machine with 16 MB above the first, a port that is always ready, and the boot
    information at 0x9800. *)
#[export] Instance ready_port : PortIO unit := {
  inb _ := ret 0x20; outb _ _ := ret tt; inw _ := ret 0; outw _ _ := ret tt;
}.

Definition demo_boot_mem : gmap Z Z :=
  write_bytes demo_map 0x9800 (le_bytes 4 64 ++ replicate 40 0 ++ le_bytes 4 48 ++ le_bytes 4 0x9000).
Definition demo_image : image :=
  mkImage 0x100000 0x180000 0 0 0 0 0 0 0 0 0 0 0 0 0xC0101000 [].
Definition demo_machine : machine unit drive :=
  mkMachine (mkOs (demo_kernel <| kvm := mkVm (mkPmm [] [] 0) demo_boot_mem 0 ∅ 0 0 |>)
    (mkConsole tt kbd_boot (mkTty 0 0 7 [])) demo_fat [] [] 0 []) ∅ 0 0 tables_boot.

Lemma ready_port_accepts : serial_accepts unit 1.
Proof. by intros [] c. Qed.

Lemma demo_loaded : loaded 3 demo_image 0x9800 (machine_vm demo_machine).
Proof.
  split; [done|]. exists [mmap_entry_at demo_boot_mem 0x9000; mmap_entry_at demo_boot_mem 0x9018], (seqZ 0x180 516).
  change (vm_mem (machine_vm demo_machine)) with demo_boot_mem.
  assert (multiboot_info_at demo_boot_mem 0x9800 = demo_boot) as -> by by vm_compute.
  split_and!; [|simpl; lia|apply NoDup_seqZ|by rewrite length_seqZ|].
  - split; [unfold BITMAP_SIZE, PAGE_SIZE; cbn; lia| |done|done].
    change (mmap_walk demo_boot_mem 0x9030 0x9000
      [mmap_entry_at demo_boot_mem 0x9000; mmap_entry_at demo_boot_mem 0x9018]).
    constructor; [done|]. change (mmap_walk demo_boot_mem 0x9030 0x9018 [mmap_entry_at demo_boot_mem 0x9018]).
    constructor; [done|]. by constructor.
  - set (l := [_; _]).
    assert (forallb (fun f => Pmm.available demo_boot l f && negb (reserved 0x100000 0x180000 demo_boot f))
      (seqZ 0x180 516) = true) as H by by vm_compute.
    rewrite forallb_forall in H. intros f Hf. specialize (H f). rewrite <- list_elem_of_In in H.
    apply H in Hf as H'. apply elem_of_seqZ in Hf. rewrite andb_true_iff, negb_true_iff in H'.
    unfold BITMAP_SIZE. split_and!; [lia|lia|apply H'|apply H'].
Qed.

Lemma boot_memory_correct_witness :
  wp (boot_memory 3 1 (fun _ => []) demo_image 0x9800) (fun _ s' => exists d, booted demo_image d s') demo_machine.
Proof.
  exact (boot_memory_correct unit drive _ _ 3 1 (fun _ => []) demo_image 0x9800 demo_machine
    ready_port_accepts demo_loaded eq_refl eq_refl).
Defined.

(** C21: From there [kernel_main] starts multitasking: the idle task is created in the
    first entry, on the first kernel stack and with the first pid, and becomes the
    running task; its stack is in the TSS, the processor stays in the kernel's
    address space, and no other task exists. *)
Theorem boot_idle_correct P D (HP : PortIO P) (HB : BlockDevice D) polls im d (s : machine P D) :
  serial_accepts P polls -> booted im d s ->
  wp (boot_idle polls im) (fun _ s' => idle_runs im d s' /\ vm_mem (machine_vm s') = vm_mem (machine_vm s)) s.
Proof. intros Hcom. by apply wp_boot_idle. Qed.

Lemma boot_idle_correct_witness :
  wp (boot_memory 3 1 (fun _ => []) demo_image 0x9800 ;; boot_idle 1 demo_image)
     (fun _ s' => exists d, idle_runs demo_image d s') demo_machine.
Proof.
  apply wp_bind. eapply wp_mono.
  { exact (wp_boot_memory 3 1 (fun _ => []) ready_port_accepts demo_image 0x9800 demo_machine demo_loaded eq_refl eq_refl). }
  intros [] s (d & Hb). eapply wp_mono; [exact (boot_idle_correct unit drive _ _ 1 demo_image d s ready_port_accepts Hb)|].
  intros [] s' [Hs' _]. by exists d.
Defined.
