(* ===== verification/User.v ===== *)
(** * User programs: the system-call wrappers ([user/include/user_syscalls.h],
      [kernel/user_syscalls.h]) and the ways a program runs

    A user program is an interaction tree over its accesses to memory and its
    [int $0x80] instructions; [Segments] loads the four
    data segment registers.  Addresses are those of the program's address space; the
    string literals and the arrays of a program are at addresses that are parameters.
    [uwp] runs a tree on a memory and a kernel that answers its calls. *)

From stdpp Require Import base list gmap numbers option tactics.
From Stdlib Require Import Lia ZArith String Ascii.
From S2P Require Import Prelude PhysMem.
From ITree Require Import ITree ITreeFacts.

Declare Scope user_scope.
Delimit Scope user_scope with user.
Notation "x <- c1 ;; c2" := (ITree.bind c1 (fun x => c2))
  (at level 100, c1 at next level, right associativity) : user_scope.
Notation "c1 ;; c2" := (ITree.bind c1 (fun _ => c2))
  (at level 100, right associativity) : user_scope.
Open Scope user_scope.

(** The registers of a call are EBX, ECX, EDX, as far as the wrapper sets them. *)
Variant userE : Type -> Type :=
  | LoadB (a : Z) : userE Z
  | StoreB (a b : Z) : userE unit
  | LoadW (a : Z) : userE Z
  | StoreW (a v : Z) : userE unit
  | Int80 (eax : Z) (regs : list Z) : userE Z
  | Segments (selector : Z) : userE unit
  | Hlt : userE unit.

Abbreviation user := (itree userE).

(** A [char] is signed. *)
Definition s8 (b : Z) : Z := if 128 <=? b then b - 256 else b.
Definition load_char (a : Z) : user Z := b <- ITree.trigger (LoadB a) ;; Ret (s8 b).
Definition store_char (a c : Z) : user unit := ITree.trigger (StoreB a (u8 c)).
Definition load_word (a : Z) : user Z := ITree.trigger (LoadW a).
Definition store_word (a v : Z) : user unit := ITree.trigger (StoreW a (u32 v)).

(** ** The wrappers *)

Definition SYS_WRITE : Z := 1.
Definition SYS_EXIT : Z := 2.
Definition SYS_FORK : Z := 3.
Definition SYS_EXEC : Z := 4.
Definition SYS_WAIT : Z := 5.
Definition SYS_ALLOC : Z := 6.
Definition SYS_SLEEP : Z := 7.
Definition SYS_READ : Z := 8.
Definition SYS_YIELD : Z := 9.
Definition SYS_OPEN : Z := 10.
Definition SYS_READ_FILE : Z := 11.
Definition SYS_CLOSE : Z := 12.
Definition SYS_WRITE_FILE : Z := 13.

Definition int80 (eax : Z) (regs : list Z) : user Z := ITree.trigger (Int80 eax regs).

Definition write (fd buf len : Z) : user Z := eax <- int80 SYS_WRITE [u32 fd; buf; len] ;; Ret (s32 eax).
Definition read (fd : Z) : user Z := eax <- int80 SYS_READ [u32 fd] ;; Ret (s32 eax).
Definition open (path : Z) : user Z := eax <- int80 SYS_OPEN [path] ;; Ret (s32 eax).
Definition read_file (fd buf len : Z) : user Z := eax <- int80 SYS_READ_FILE [u32 fd; buf; len] ;; Ret (s32 eax).
Definition write_file (fd buf len : Z) : user Z := eax <- int80 SYS_WRITE_FILE [u32 fd; buf; len] ;; Ret (s32 eax).
Definition close (fd : Z) : user Z := eax <- int80 SYS_CLOSE [u32 fd] ;; Ret (s32 eax).
Definition fork : user Z := eax <- int80 SYS_FORK [] ;; Ret (s32 eax).
Definition exec (path argv envp : Z) : user Z := eax <- int80 SYS_EXEC [path; argv; envp] ;; Ret (s32 eax).
Definition wait (pid status : Z) : user Z := eax <- int80 SYS_WAIT [u32 pid; status] ;; Ret (s32 eax).
Definition alloc (size : Z) : user Z := int80 SYS_ALLOC [size].
Definition sleep (ms : Z) : user Z := eax <- int80 SYS_SLEEP [ms] ;; Ret (s32 eax).
Definition yield : user Z := eax <- int80 SYS_YIELD [] ;; Ret (s32 eax).

(** [for (;;) hlt] *)
Definition hlt_forever : user unit := ITree.iter (fun _ : unit => ITree.trigger Hlt ;; Ret (inl tt)) tt.
Definition exit (status : Z) : user unit := _ <- int80 SYS_EXIT [u32 status] ;; hlt_forever.

(** ** Running a program

    [kernel eax regs m w] is the answer of a call, with the memory and the world it
    leaves.  [uwp Q t m w]: the tree [t] comes to its end from memory [m] and world
    [w], with a result, a memory and a world that satisfy [Q]. *)

Section run.
Context {W : Type} (kernel : Z -> list Z -> gmap Z Z -> W -> Z * gmap Z Z * W).
Abbreviation mem := (gmap Z Z).

Inductive uwp {R} (Q : R -> mem -> W -> Prop) : user R -> mem -> W -> Prop :=
  | uwp_Ret t r m w : observe t = RetF r -> Q r m w -> uwp Q t m w
  | uwp_Tau t t' m w : observe t = TauF t' -> uwp Q t' m w -> uwp Q t m w
  | uwp_LoadB t a k m w : observe t = VisF (LoadB a) k -> uwp Q (k (read8 m a)) m w -> uwp Q t m w
  | uwp_StoreB t a b k m w : observe t = VisF (StoreB a b) k -> uwp Q (k tt) (write8 m a b) w -> uwp Q t m w
  | uwp_LoadW t a k m w : observe t = VisF (LoadW a) k -> uwp Q (k (read32 m a)) m w -> uwp Q t m w
  | uwp_StoreW t a v k m w : observe t = VisF (StoreW a v) k -> uwp Q (k tt) (write32 m a v) w -> uwp Q t m w
  | uwp_Int80 t eax regs k m w v m' w' :
      observe t = VisF (Int80 eax regs) k -> kernel eax regs m w = (v, m', w') -> uwp Q (k v) m' w' -> uwp Q t m w
  | uwp_Segments t sel k m w : observe t = VisF (Segments sel) k -> uwp Q (k tt) m w -> uwp Q t m w.

Lemma uwp_observe {R} (Q : R -> mem -> W -> Prop) t t' m w : observe t = observe t' -> uwp Q t m w -> uwp Q t' m w.
Proof.
  intros E H. destruct H; rewrite E in H.
  - by eapply uwp_Ret.
  - by eapply uwp_Tau.
  - by eapply uwp_LoadB.
  - by eapply uwp_StoreB.
  - by eapply uwp_LoadW.
  - by eapply uwp_StoreW.
  - by eapply uwp_Int80.
  - by eapply uwp_Segments.
Qed.

Lemma uwp_ret {R} (Q : R -> mem -> W -> Prop) r m w : Q r m w -> uwp Q (Ret r) m w.
Proof. by apply uwp_Ret. Qed.

Lemma uwp_bind {R R'} (Q : R' -> mem -> W -> Prop) (t : user R) (k : R -> user R') m w :
  uwp (fun r m w => uwp Q (k r) m w) t m w -> uwp Q (ITree.bind t k) m w.
Proof.
  induction 1 as [t r m w E H|t t' m w E _ IH|t a c m w E _ IH|t a b c m w E _ IH|t a c m w E _ IH|t a v c m w E _ IH
    |t eax regs c m w v m' w' E Ek _ IH|t sel c m w E _ IH].
  - eapply uwp_observe; [|exact H]. by rewrite observe_bind, E.
  - eapply uwp_Tau; [by rewrite observe_bind, E|done].
  - eapply uwp_LoadB; [by rewrite observe_bind, E|done].
  - eapply uwp_StoreB; [by rewrite observe_bind, E|done].
  - eapply uwp_LoadW; [by rewrite observe_bind, E|done].
  - eapply uwp_StoreW; [by rewrite observe_bind, E|done].
  - eapply uwp_Int80; [by rewrite observe_bind, E|done|done].
  - eapply uwp_Segments; [by rewrite observe_bind, E|done].
Qed.

Lemma uwp_mono {R} (P Q : R -> mem -> W -> Prop) t m w :
  uwp P t m w -> (forall r m w, P r m w -> Q r m w) -> uwp Q t m w.
Proof.
  intros H HPQ. induction H.
  - eapply uwp_Ret; eauto.
  - by eapply uwp_Tau.
  - by eapply uwp_LoadB.
  - by eapply uwp_StoreB.
  - by eapply uwp_LoadW.
  - by eapply uwp_StoreW.
  - by eapply uwp_Int80.
  - by eapply uwp_Segments.
Qed.

(** One iteration of a loop. *)
Lemma uwp_iter_step {L R} (body : L -> user (L + R)) l m w (Q : R -> mem -> W -> Prop) :
  uwp (fun r m w => match r with inl l' => uwp Q (ITree.iter body l') m w | inr v => Q v m w end) (body l) m w ->
  uwp Q (ITree.iter body l) m w.
Proof.
  intros H.
  assert (observe (ITree.iter body l) = observe (ITree.bind (body l) (fun lr =>
    match lr with inl l => Tau (ITree.iter body l) | inr r => Ret r end))) as E by done.
  eapply uwp_observe; [symmetry; exact E|]. apply uwp_bind. eapply uwp_mono; [exact H|].
  intros [l'|v] m' w'; cbn beta iota; [|intros HQ; by apply uwp_ret]. intros H'. by eapply uwp_Tau.
Qed.

(** A loop with a variant. *)
Lemma uwp_iter {L R} (I : L -> mem -> W -> Prop) (n : L -> mem -> W -> nat) (body : L -> user (L + R)) l m w
    (Q : R -> mem -> W -> Prop) :
  I l m w ->
  (forall l' m' w', I l' m' w' -> uwp (fun r m2 w2 => match r with
      | inl l2 => I l2 m2 w2 /\ (n l2 m2 w2 < n l' m' w')%nat
      | inr v => Q v m2 w2
      end) (body l') m' w') ->
  uwp Q (ITree.iter body l) m w.
Proof.
  intros HI Hb. remember (n l m w) as k eqn:Ek. revert l m w Ek HI.
  induction k as [k IH] using lt_wf_ind. intros l m w -> HI. apply uwp_iter_step. eapply uwp_mono; [by apply Hb|].
  intros [l'|v] m' w'; [|done]. intros [HI' Hlt]. by eapply IH.
Qed.

Lemma uwp_load_char {R} (Q : R -> mem -> W -> Prop) a k m w :
  uwp Q (k (s8 (read8 m a))) m w -> uwp Q (ITree.bind (load_char a) k) m w.
Proof. intros H. apply uwp_bind. unfold load_char. apply uwp_bind. eapply uwp_LoadB; [done|]. by do 2 apply uwp_ret. Qed.

Lemma uwp_store_char (Q : unit -> mem -> W -> Prop) a c m w : Q tt (write8 m a (u8 c)) w -> uwp Q (store_char a c) m w.
Proof. intros H. eapply uwp_StoreB; [done|]. by apply uwp_ret. Qed.

Lemma uwp_load_word {R} (Q : R -> mem -> W -> Prop) a k m w :
  uwp Q (k (read32 m a)) m w -> uwp Q (ITree.bind (load_word a) k) m w.
Proof. intros H. apply uwp_bind. eapply uwp_LoadW; [done|]. by apply uwp_ret. Qed.

Lemma uwp_store_word (Q : unit -> mem -> W -> Prop) a v m w : Q tt (write32 m a (u32 v)) w -> uwp Q (store_word a v) m w.
Proof. intros H. eapply uwp_StoreW; [done|]. by apply uwp_ret. Qed.

Lemma uwp_int80 (Q : Z -> mem -> W -> Prop) eax regs m w v m' w' :
  kernel eax regs m w = (v, m', w') -> Q v m' w' -> uwp Q (int80 eax regs) m w.
Proof. intros E H. eapply uwp_Int80; [done|exact E|]. by apply uwp_ret. Qed.

(** The steps of a program, which need not come to its end. *)
Variant ustep {R} : user R * mem * W -> user R * mem * W -> Prop :=
  | ustep_Tau t t' m w : observe t = TauF t' -> ustep (t, m, w) (t', m, w)
  | ustep_LoadB t a k m w : observe t = VisF (LoadB a) k -> ustep (t, m, w) (k (read8 m a), m, w)
  | ustep_StoreB t a b k m w : observe t = VisF (StoreB a b) k -> ustep (t, m, w) (k tt, write8 m a b, w)
  | ustep_LoadW t a k m w : observe t = VisF (LoadW a) k -> ustep (t, m, w) (k (read32 m a), m, w)
  | ustep_StoreW t a v k m w : observe t = VisF (StoreW a v) k -> ustep (t, m, w) (k tt, write32 m a v, w)
  | ustep_Int80 t eax regs k m w v m' w' :
      observe t = VisF (Int80 eax regs) k -> kernel eax regs m w = (v, m', w') -> ustep (t, m, w) (k v, m', w')
  | ustep_Segments t sel k m w : observe t = VisF (Segments sel) k -> ustep (t, m, w) (k tt, m, w)
  | ustep_Hlt t k m w : observe t = VisF Hlt k -> ustep (t, m, w) (k tt, m, w).

(** [reaches t m w t' m' w']: the program [t] comes to behave as [t']. *)
Definition reaches {R} (t : user R) m w (t' : user R) m' w' : Prop :=
  exists t2, rtc ustep (t, m, w) (t2, m', w') /\ observe t2 = observe t'.

Lemma ustep_observe {R} (t t2 : user R) m w c : observe t = observe t2 -> ustep (t, m, w) c -> ustep (t2, m, w) c.
Proof.
  intros E H. inversion H; subst;
    match goal with Ho : observe t = _ |- _ => rewrite E in Ho end.
  - by eapply ustep_Tau.
  - by eapply ustep_LoadB.
  - by eapply ustep_StoreB.
  - by eapply ustep_LoadW.
  - by eapply ustep_StoreW.
  - by eapply ustep_Int80.
  - by eapply ustep_Segments.
  - by eapply ustep_Hlt.
Qed.

Lemma reaches_refl {R} (t : user R) m w : reaches t m w t m w.
Proof. by exists t. Qed.

Lemma reaches_observe {R} (t t2 : user R) m w t' m' w' :
  observe t = observe t2 -> reaches t m w t' m' w' -> reaches t2 m w t' m' w'.
Proof.
  intros E (t3 & Hr & Ht). inversion Hr as [|x y z H1 H2]; subst.
  - exists t2. split; [done|]. by rewrite <- E.
  - exists t3. split; [|done]. eapply rtc_l; [by eapply ustep_observe|done].
Qed.

Lemma reaches_trans {R} (t1 t2 t3 : user R) m1 w1 m2 w2 m3 w3 :
  reaches t1 m1 w1 t2 m2 w2 -> reaches t2 m2 w2 t3 m3 w3 -> reaches t1 m1 w1 t3 m3 w3.
Proof.
  intros (t & Hr & Ht) H. apply (reaches_observe _ t) in H as (t' & Hr' & Ht'); [|done].
  exists t'. split; [by etrans|done].
Qed.

Lemma reaches_step {R} (t t' : user R) m w m' w' : ustep (t, m, w) (t', m', w') -> reaches t m w t' m' w'.
Proof. intros H. exists t'. split; [by apply rtc_once|done]. Qed.

(** A run of the first part of a program. *)
Lemma uwp_reaches {R R'} (Q : R -> mem -> W -> Prop) (t : user R) (k : R -> user R') m w :
  uwp Q t m w -> exists r m' w', Q r m' w' /\ reaches (ITree.bind t k) m w (k r) m' w'.
Proof.
  induction 1 as [t r m w E H|t t' m w E _ IH|t a c m w E _ IH|t a b c m w E _ IH|t a c m w E _ IH|t a v c m w E _ IH
    |t eax regs c m w v m' w' E Ek _ IH|t sel c m w E _ IH].
  { exists r, m, w. split; [done|]. exists (ITree.bind t k). split; [done|]. by rewrite observe_bind, E. }
  all: destruct IH as (r & m2 & w2 & HQ & Hr); exists r, m2, w2; split; [exact HQ|];
    (eapply reaches_trans; [apply reaches_step|exact Hr]).
  - eapply ustep_Tau. by rewrite observe_bind, E.
  - eapply (ustep_LoadB _ a (fun x => ITree.bind (c x) k)). by rewrite observe_bind, E.
  - eapply (ustep_StoreB _ a b (fun x => ITree.bind (c x) k)). by rewrite observe_bind, E.
  - eapply (ustep_LoadW _ a (fun x => ITree.bind (c x) k)). by rewrite observe_bind, E.
  - eapply (ustep_StoreW _ a v (fun x => ITree.bind (c x) k)). by rewrite observe_bind, E.
  - eapply (ustep_Int80 _ eax regs (fun x => ITree.bind (c x) k)); [by rewrite observe_bind, E|done].
  - eapply (ustep_Segments _ sel (fun x => ITree.bind (c x) k)). by rewrite observe_bind, E.
Qed.

(** A loop whose body goes on. *)
Lemma reaches_iter {L R} (Q : L + R -> mem -> W -> Prop) (body : L -> user (L + R)) l m w :
  uwp Q (body l) m w -> exists r m' w', Q r m' w' /\
    match r with inl l' => reaches (ITree.iter body l) m w (ITree.iter body l') m' w' | inr _ => True end.
Proof.
  intros H. destruct (uwp_reaches Q (body l) (fun lr =>
    match lr with inl l => Tau (ITree.iter body l) | inr r => Ret r end) m w H) as (r & m' & w' & HQ & Hr).
  exists r, m', w'. split; [done|]. destruct r as [l'|]; [|done].
  apply (reaches_observe _ (ITree.iter body l)) in Hr; [|done].
  eapply reaches_trans; [exact Hr|]. by apply reaches_step, ustep_Tau.
Qed.
End run.
