(* ===== verification/UserShell.v ===== *)
(** * The shell ([user/shell.c])

    The program and what it does with a line: the words the line consists of, and the
    built-in commands. *)

From stdpp Require Import base list gmap numbers option tactics.
From Stdlib Require Import Lia ZArith String Ascii.
From S2P Require Import Prelude PhysMem Boot User.
From ITree Require Import ITree.
Open Scope user_scope.

Abbreviation length := List.length.

Definition MAX_CMD : Z := 256.
Definition MAX_ARGS : Z := 16.

Section shell.
(** The addresses of the string literals and of the arrays. *)
Context (lit : string -> Z) (cmd_buffer cmd_argv echo status buffer : Z).

Definition strcmp (s1 s2 : Z) : user Z :=
  ITree.iter (fun '(s1, s2) =>
    c1 <- load_char s1 ;;
    c2 <- load_char s2 ;;
    if negb (c1 =? 0) && negb (c2 =? 0) then
      if negb (c1 =? c2) then Ret (inr (c1 - c2)) else Ret (inl (s1 + 1, s2 + 1))
    else Ret (inr (c1 - c2))) (s1, s2).

Definition print (s : string) (len : Z) : user unit := _ <- write 2 (lit s) len ;; Ret tt.

Definition print_prompt : user unit := print "fishbone> " 10.

Definition is_blank (c : Z) : bool := (c =? 32) || (c =? 9).

(** The loop that skips blanks. *)
Definition skip_blanks (token : Z) : user Z :=
  ITree.iter (fun token => c <- load_char token ;; if is_blank c then Ret (inl (token + 1)) else Ret (inr token)) token.

(** The loop that finds the end of an argument. *)
Definition skip_word (token : Z) : user Z :=
  ITree.iter (fun token =>
    c <- load_char token ;;
    if negb (c =? 0) && negb (is_blank c) then Ret (inl (token + 1)) else Ret (inr token)) token.

Definition parse_command (cmd argv max_args : Z) : user Z :=
  argc <- ITree.iter (fun '(token, argc) =>
    c <- load_char token ;;
    if negb (c =? 0) && (argc <? max_args) then
      token <- skip_blanks token ;;
      c <- load_char token ;;
      if c =? 0 then Ret (inr argc)
      else
        store_word (argv + 4 * argc) token ;;
        token <- skip_word token ;;
        c <- load_char token ;;
        if negb (c =? 0) then store_char token 0 ;; Ret (inl (token + 1, argc + 1))
        else Ret (inl (token, argc + 1))
    else Ret (inr argc)) (cmd, 0) ;;
  store_word (argv + 4 * argc) 0 ;;
  Ret argc.

(** [cat]: the file in pieces of 512 bytes. *)
Definition cat (path : Z) : user unit :=
  fd <- open path ;;
  if fd <? 0 then print "Cannot open file
" 17
  else
    ITree.iter (fun _ : unit =>
      bytes_read <- read_file fd buffer 512 ;;
      if 0 <? bytes_read then _ <- write 2 buffer bytes_read ;; Ret (inl tt) else Ret (inr tt)) tt ;;
    _ <- close fd ;; Ret tt.

Definition run_program (argv : Z) : user unit :=
  pid <- fork ;;
  if pid =? 0 then
    path <- load_word argv ;;
    _ <- exec path argv 0 ;;
    print "Command not found
" 18 ;;
    exit 1
  else if 0 <? pid then _ <- wait pid status ;; Ret tt
  else print "Fork failed
" 12.

Definition execute_command (argv : Z) : user unit :=
  a0 <- load_word argv ;;
  if a0 =? 0 then Ret tt
  else
    r <- strcmp a0 (lit "exit") ;;
    if r =? 0 then
      print "Goodbye!
" 9 ;;
      exit 0
    else
      r <- strcmp a0 (lit "help") ;;
      if r =? 0 then
        print "Available commands:
" 19 ;;
        print "  help     - show this help
" 27 ;;
        print "  exit     - exit shell
" 23 ;;
        print "  ls       - list files
" 22 ;;
        print "  cat <file> - display file contents
" 35 ;;
        print "  <program> - execute program
" 29
      else
        r <- strcmp a0 (lit "ls") ;;
        if r =? 0 then print "Directory listing not implemented
" 34
        else
          r <- strcmp a0 (lit "cat") ;;
          a1 <- (if r =? 0 then load_word (argv + 4) else Ret 0) ;;
          if (r =? 0) && negb (a1 =? 0) then cat a1
          else run_program argv.

(** The loop that reads a line; the answer is its length. *)
Definition read_line : user Z :=
  ITree.iter (fun i =>
    if i <? MAX_CMD - 1 then
      ch <- read 0 ;;
      if (ch =? 10) || (ch =? 13) then Ret (inr i)
      else if 0 <? ch then
        store_char (cmd_buffer + i) ch ;;
        store_char echo ch ;;
        store_char (echo + 1) 0 ;;
        _ <- write 2 echo 1 ;;
        Ret (inl (i + 1))
      else Ret (inl i)
    else Ret (inr i)) 0.

(** One iteration of the loop of [main]. *)
Definition shell_step : user unit :=
  print_prompt ;;
  i <- read_line ;;
  store_char (cmd_buffer + i) 0 ;;
  print "
" 1 ;;
  if i =? 0 then Ret tt
  else
    cmd_argc <- parse_command cmd_buffer cmd_argv MAX_ARGS ;;
    if 0 <? cmd_argc then execute_command cmd_argv else Ret tt.

Definition main : user Z :=
  print "fishboneOS Shell v0.1
" 22 ;;
  print "Type 'help' for commands

" 27 ;;
  ITree.iter (fun _ : unit => shell_step ;; Ret (inl tt)) tt.
End shell.
