(* ===== verification/UserInit.v ===== *)
(** * The first program ([user/init.c])

    It reads the list of programs to start from a file, starts them and waits for
    their ends. *)

From stdpp Require Import base list gmap numbers option tactics.
From Stdlib Require Import Lia ZArith String Ascii.
From S2P Require Import Prelude PhysMem Boot User UserShell.
From ITree Require Import ITree.
Open Scope user_scope.

Definition MAX_ARGS : Z := 16.
Definition MAX_APPS : Z := 8.

(** [app_config_t]: sixteen pointers and a count. *)
Definition APP_SIZE : Z := 68.
Definition app_argv (apps i : Z) : Z := apps + APP_SIZE * i.
Definition app_argc (apps i : Z) : Z := apps + APP_SIZE * i + 64.

Section init.
(** The addresses of the literals and of the arrays. *)
Context (lit : string -> Z) (buffer apps shell_argv status : Z).

(** Moves on while the character satisfies [p]. *)
Definition skip_while (p : Z -> bool) (token : Z) : user Z :=
  ITree.iter (fun token => c <- load_char token ;; if p c then Ret (inl (token + 1)) else Ret (inr token)) token.

Definition is_space (c : Z) : bool := (c =? 32) || (c =? 9) || (c =? 10) || (c =? 13).
Definition in_comment (c : Z) : bool := negb (c =? 0) && negb (c =? 10).
Definition in_line (c : Z) : bool := negb (c =? 0) && negb (c =? 10) && negb (c =? 13).

(** The arguments of the line at [token], into [apps[i]]. *)
Definition parse_line (i token : Z) : user unit :=
  ITree.iter (fun token =>
    c <- load_char token ;;
    argc <- load_word (app_argc apps i) ;;
    if negb (c =? 0) && (s32 argc <? MAX_ARGS) then
      token <- skip_while is_blank token ;;
      c <- load_char token ;;
      if c =? 0 then Ret (inr tt)
      else
        store_word (app_argc apps i) (argc + 1) ;;
        store_word (app_argv apps i + 4 * s32 argc) token ;;
        token <- skip_while (fun c => negb (c =? 0) && negb (is_blank c)) token ;;
        c <- load_char token ;;
        if negb (c =? 0) then store_char token 0 ;; Ret (inl (token + 1)) else Ret (inl token)
    else Ret (inr tt)) token.

(** The lines of the text at [buffer]; the answer is the number of programs. *)
Definition parse_config (max_apps : Z) : user Z :=
  ITree.iter (fun '(line, app_count) =>
    c <- load_char line ;;
    if negb (c =? 0) && (app_count <? max_apps) then
      line <- skip_while is_space line ;;
      c <- load_char line ;;
      if c =? 0 then Ret (inr app_count)
      else if c =? 35 then
        line <- skip_while in_comment line ;; Ret (inl (line, app_count))
      else
        line_end <- skip_while in_line line ;;
        saved_char <- load_char line_end ;;
        store_char line_end 0 ;;
        store_word (app_argc apps app_count) 0 ;;
        parse_line app_count line ;;
        argc <- load_word (app_argc apps app_count) ;;
        let app_count := if 0 <? s32 argc then app_count + 1 else app_count in
        store_char line_end saved_char ;;
        c <- load_char line_end ;;
        Ret (inl (if negb (c =? 0) then line_end + 1 else line_end, app_count))
    else Ret (inr app_count)) (buffer, 0).

Definition read_config_file (filename max_apps : Z) : user Z :=
  fd <- open filename ;;
  if fd <? 0 then
    print lit "init: cannot open config file
" 31 ;;
    Ret (-1)
  else
    bytes_read <- read_file fd buffer 4096 ;;
    _ <- close fd ;;
    if bytes_read <=? 0 then
      print lit "init: cannot read config file
" 30 ;;
      Ret (-1)
    else
      store_char (buffer + bytes_read) 0 ;;
      parse_config max_apps.

Definition log_message (msg : Z) : user unit :=
  print lit "init: " 6 ;;
  len <- ITree.iter (fun '(p, len) =>
    c <- load_char p ;; if c =? 0 then Ret (inr len) else Ret (inl (p + 1, len + 1))) (msg, 0) ;;
  _ <- write 2 msg len ;;
  print lit "
" 1.
Definition log_text (s : string) : user unit := log_message (lit s).

(** [{"shell", NULL}] in [shell_argv], and the program replaced by the shell. *)
Definition exec_shell : user unit :=
  store_word shell_argv (lit "shell") ;;
  store_word (shell_argv + 4) 0 ;;
  _ <- exec (lit "/shell") shell_argv 0 ;; Ret tt.

Definition launch (i : Z) : user unit :=
  pid <- fork ;;
  if pid =? 0 then
    log_text "launching application" ;;
    path <- load_word (app_argv apps i) ;;
    _ <- exec path (app_argv apps i) 0 ;;
    log_text "exec failed" ;;
    exit 1
  else if pid <? 0 then log_text "fork failed"
  else Ret tt.

Definition main : user Z :=
  log_text "starting init system" ;;
  app_count <- read_config_file (lit "/init.cfg") MAX_APPS ;;
  (if app_count <? 0 then
     log_text "failed to read config, starting shell" ;;
     exec_shell ;;
     log_text "failed to start shell" ;;
     exit 1
   else Ret tt) ;;
  (if app_count =? 0 then
     log_text "no applications configured, starting shell" ;;
     exec_shell ;;
     exit 1
   else Ret tt) ;;
  log_text "read config, launching applications" ;;
  ITree.iter (fun i => if i <? app_count then launch i ;; Ret (inl (i + 1)) else Ret (inr tt)) 0 ;;
  log_text "monitoring children" ;;
  ITree.iter (fun _ : unit =>
    pid <- wait (-1) status ;;
    (if 0 <? pid then log_text "child process exited" else Ret tt) ;;
    _ <- sleep 100 ;;
    Ret (inl tt)) tt.
End init.
