(* ===== verification/UserHello.v ===== *)
(** * Small user programs ([user/hello.c], [kernel/hello_world_task.c],
      [kernel/user_init.c], [kernel/menu_user_task.c]) and the wrappers of
      [include/kernel/user_syscalls.h]

    The wrappers for tasks that are linked into the kernel are those of User under
    another name. *)

From stdpp Require Import base list gmap numbers option tactics.
From Stdlib Require Import Lia ZArith String Ascii.
From S2P Require Import Prelude PhysMem Task Boot User UserShell.
From ITree Require Import ITree.
Open Scope user_scope.

(** ** [hello.c] *)

Section hello.
Context (lit : string -> Z).

(** [while (s[0] != 0) { s++; len++; }], the end included in the pointer. *)
Definition strlen (s : Z) : user Z :=
  ITree.iter (fun '(s, len) =>
    c <- load_char s ;; if c =? 0 then Ret (inr len) else Ret (inl (s + 1, u32 (len + 1)))) (s, 0).

Definition main (argc argv : Z) : user Z :=
  print lit "Hello, fishboneOS!
" 19 ;;
  print lit "This is a user-space program running in the kernel.
" 53 ;;
  (if 1 <? argc then
     print lit "Arguments: " 11 ;;
     ITree.iter (fun i =>
       if i <? argc then
         a <- load_word (argv + 4 * i) ;;
         len <- strlen a ;;
         _ <- write 2 a len ;;
         (if i <? argc - 1 then print lit " " 1 else Ret tt) ;;
         Ret (inl (i + 1))
       else Ret (inr tt)) 1 ;;
     print lit "
" 1
   else Ret tt) ;;
  Ret 0.
End hello.

(** ** The wrappers of the kernel's own tasks *)

Definition user_init_data_segments : user unit := ITree.trigger (Segments USER_DATA_SEG).
Definition user_write := write.
Definition user_read := read.
Definition user_open := open.
Definition user_read_file := read_file.
Definition user_write_file := write_file.
Definition user_close := close.
Definition user_exit := exit.
Definition user_fork := fork.
Definition user_exec := exec.
Definition user_wait := wait.
Definition user_alloc := alloc.
Definition user_sleep := sleep.
Definition user_yield := yield.

(** ** The tasks: a message of [len] characters at [message], and the exit *)

Definition say_and_exit (message len : Z) : user unit :=
  ITree.trigger (Segments USER_DATA_SEG) ;;
  _ <- int80 1 [2; message; len] ;;
  _ <- int80 2 [0] ;;
  hlt_forever.

Definition hello_world_main (message : Z) : user unit := say_and_exit message 28.
Definition init_user_main (message : Z) : user unit := say_and_exit message 22.

(** [menu_user_task.c]; its messages are arrays on the stack, at [text s]. *)
Section menu_task.
Context (text : string -> Z).

Definition menu_user_main : user unit :=
  user_init_data_segments ;;
  _ <- user_write 1 (text "fishboneOS Menu
") 16 ;;
  _ <- user_write 1 (text "1. Boot OS
") 11 ;;
  _ <- user_write 1 (text "2. Shutdown
") 12 ;;
  _ <- user_write 2 (text "Select option: ") 15 ;;
  ITree.iter (fun _ : unit =>
    key <- user_read 0 ;;
    (if key =? 49 then
       _ <- user_write 1 (text "
Booting...
") 12 ;;
       user_exit 0
     else if key =? 50 then
       _ <- user_write 1 (text "
Shutting down...
") 18 ;;
       user_exit 0
     else Ret tt) ;;
    _ <- user_yield ;;
    Ret (inl tt)) tt.
End menu_task.
