(* ===== verification/UserShellSpec.v ===== *)
(** * What the shell does with a line

    [parse_command] splits the line into its words, in place; an iteration of the
    shell on a terminal reads a line, echoes it and runs the command its words name. *)

From stdpp Require Import base list gmap numbers option tactics.
From Stdlib Require Import Lia ZArith String Ascii.
From S2P Require Import Prelude PhysMem Boot User UserShell.
From ITree Require Import ITree.
Open Scope user_scope.

(** ** Words *)

(** The words of a text; [cur] is the word being read. *)
Fixpoint words_from (cur l : list Z) : list (list Z) :=
  match l with
  | [] => match cur with [] => [] | _ => [cur] end
  | c :: l' =>
      if is_blank c then match cur with [] => words_from [] l' | _ => cur :: words_from [] l' end
      else words_from (cur ++ [c]) l'
  end.
Definition words (l : list Z) : list (list Z) := words_from [] l.

Definition nonblank (c : Z) : Prop := is_blank c = false.
Definition blank (c : Z) : Prop := is_blank c = true.

Lemma words_blanks b l : Forall blank b -> words (b ++ l) = words l.
Proof. induction 1 as [|c b Hc _ IH]; [done|]. unfold words in *. cbn. by rewrite Hc. Qed.

Lemma words_from_word cur w l : Forall nonblank w -> words_from cur (w ++ l) = words_from (cur ++ w) l.
Proof.
  intros Hw. revert cur. induction Hw as [|c w Hc _ IH]; intros cur; cbn; [by rewrite app_nil_r|].
  by rewrite Hc, IH, <- app_assoc.
Qed.


(** The longest prefix of characters with a property. *)
Lemma span (p : Z -> bool) l :
  exists a b, l = a ++ b /\ Forall (fun c => p c = true) a /\ match b with [] => True | c :: _ => p c = false end.
Proof.
  induction l as [|c l (a & b & -> & Ha & Hb)]; [by exists [], []|].
  destruct (p c) eqn:E; [exists (c :: a), b; split_and!; [done|by constructor|done]|].
  by exists [], (c :: a ++ b).
Qed.

Lemma words_end w : w <> [] -> Forall nonblank w -> words w = [w].
Proof.
  intros Hw Hn. unfold words. rewrite <- (app_nil_r w) at 1. rewrite words_from_word by done. by destruct w.
Qed.

Lemma words_next w c l : w <> [] -> Forall nonblank w -> blank c -> words (w ++ c :: l) = w :: words l.
Proof.
  intros Hw Hn Hc. unfold words. rewrite words_from_word by done. cbn. rewrite Hc. by destruct w.
Qed.

(** ** Strings in memory *)

Definition text (l : list Z) : Prop := Forall (fun c => 0 < c < 128) l.
Definition cstr (m : gmap Z Z) (p : Z) (s : list Z) : Prop := read_bytes m p (S (length s)) = s ++ [0].

Lemma cstr_nil m p : cstr m p [] <-> read8 m p = 0.
Proof. unfold cstr. cbn. split; [by intros [= ->]|by intros ->]. Qed.

Lemma cstr_cons m p c s : cstr m p (c :: s) <-> read8 m p = c /\ cstr m (p + 1) s.
Proof. unfold cstr. cbn [length read_bytes app]. split; [by intros [= -> ->]|by intros [-> ->]]. Qed.

Lemma cstr_app m p a b : cstr m p (a ++ b) -> cstr m (p + Z.of_nat (length a)) b.
Proof.
  revert p. induction a as [|c a IH]; intros p; cbn [app length]; [by rewrite Z.add_0_r|].
  rewrite cstr_cons. intros [_ H]. apply IH in H. by replace (p + Z.of_nat (S (length a))) with (p + 1 + Z.of_nat (length a)) by lia.
Qed.

Lemma cstr_ext m m' p s :
  (forall a, p <= a < p + Z.of_nat (S (length s)) -> read8 m' a = read8 m a) -> cstr m p s -> cstr m' p s.
Proof. unfold cstr. intros H <-. by apply read_bytes_ext. Qed.

(** A prefix becomes a string when a NUL is stored after it. *)
Lemma cstr_cut m p a b : cstr m p (a ++ b) -> cstr (write8 m (p + Z.of_nat (length a)) 0) p a.
Proof.
  revert p. induction a as [|c a IH]; intros p H; cbn [app length] in *.
  - rewrite cstr_nil, read8_write8, decide_True by lia. done.
  - apply cstr_cons in H as [<- H]. apply cstr_cons. split.
    + rewrite read8_write8, decide_False by lia. done.
    + apply IH in H. by replace (p + Z.of_nat (S (length a))) with (p + 1 + Z.of_nat (length a)) by lia.
Qed.

Lemma s8_text c : 0 <= c < 128 -> s8 c = c.
Proof. intros H. unfold s8. by rewrite (proj2 (Z.leb_gt 128 c)) by lia. Qed.

Lemma text_app a b : text (a ++ b) <-> text a /\ text b.
Proof. apply list.Forall_app. Qed.

Lemma text_forallb l : forallb (fun c => (0 <? c) && (c <? 128)) l = true -> text l.
Proof.
  intros Hl. rewrite forallb_forall in Hl. apply list.Forall_forall. intros c Hc%list_elem_of_In. specialize (Hl _ Hc). lia.
Qed.

(** ** The loops *)

Section loops.
Context {W : Type} (kernel : Z -> list Z -> gmap Z Z -> W -> Z * gmap Z Z * W).
Abbreviation run := (uwp kernel).

(** The character at a pointer into a text. *)
Lemma uwp_load_at {R} (Q : R -> gmap Z Z -> W -> Prop) p s k m w :
  cstr m p s -> text s -> run Q (k (default 0 (head s))) m w -> run Q (ITree.bind (load_char p) k) m w.
Proof.
  intros Hp Ht HQ. apply uwp_load_char. destruct Ht as [|c s Hc _].
  - apply cstr_nil in Hp. by rewrite Hp.
  - apply cstr_cons in Hp as [Hp _]. by rewrite Hp, s8_text by lia.
Qed.

Lemma uwp_strcmp a b s t m w :
  cstr m a s -> cstr m b t -> text s -> text t ->
  run (fun r m' w' => m' = m /\ w' = w /\ (r = 0 <-> s = t)) (strcmp a b) m w.
Proof.
  intros Ha Hb Hs Ht. unfold strcmp. revert a b t Ha Hb Ht.
  induction Hs as [|c s Hc _ IH]; intros a b t Ha Hb Ht; apply uwp_iter_step; apply uwp_load_char, uwp_load_char.
  - apply cstr_nil in Ha. rewrite Ha. change (s8 0) with 0. cbn [negb Z.eqb andb]. apply uwp_ret. split_and!; [done..|].
    destruct Ht as [|d t Hd _]; [apply cstr_nil in Hb; by rewrite Hb|]. apply cstr_cons in Hb as [Hb _].
    rewrite Hb, s8_text by lia. split; [lia|done].
  - apply cstr_cons in Ha as [Ha Ha']. rewrite Ha, s8_text by lia. rewrite (proj2 (Z.eqb_neq c 0)) by lia.
    destruct Ht as [|d t Hd Ht].
    { apply cstr_nil in Hb. rewrite Hb. change (s8 0) with 0. cbn [negb Z.eqb andb]. apply uwp_ret.
      split_and!; [done..|]. split; [lia|done]. }
    apply cstr_cons in Hb as [Hb Hb']. rewrite Hb, s8_text by lia. rewrite (proj2 (Z.eqb_neq d 0)) by lia. cbn [negb andb].
    destruct (Z.eqb_spec c d) as [->|Hne]; cbn [negb].
    + apply uwp_ret. eapply uwp_mono; [by apply IH|]. intros r m' w' (-> & -> & Hr). split_and!; [done..|].
      rewrite Hr. split; [by intros ->|by intros [= ->]].
    + apply uwp_ret. split_and!; [done..|]. split; [lia|congruence].
Qed.

Lemma uwp_skip_blanks p a b m w (Q : Z -> gmap Z Z -> W -> Prop) :
  cstr m p (a ++ b) -> text (a ++ b) -> Forall blank a -> match b with [] => True | c :: _ => nonblank c end ->
  Q (p + Z.of_nat (length a)) m w -> run Q (skip_blanks p) m w.
Proof.
  intros Hp Ht Ha Hb HQ. revert p Hp Ht HQ. induction Ha as [|c a Hc _ IH]; intros p Hp Ht HQ;
    apply uwp_iter_step, uwp_load_char; cbn [app length] in *.
  - rewrite Z.add_0_r in HQ. destruct b as [|d b].
    + apply cstr_nil in Hp. rewrite Hp. by apply uwp_ret.
    + apply cstr_cons in Hp as [Hp _]. apply list.Forall_cons in Ht as [Hd _]. rewrite Hp, s8_text by lia.
      rewrite Hb. by apply uwp_ret.
  - apply cstr_cons in Hp as [Hp Hp']. apply list.Forall_cons in Ht as [Hd Ht]. rewrite Hp, s8_text by lia.
    rewrite Hc. apply uwp_ret, IH; [done|done|].
    by replace (p + 1 + Z.of_nat (length a)) with (p + Z.of_nat (S (length a))) by lia.
Qed.

Lemma uwp_skip_word p a b m w (Q : Z -> gmap Z Z -> W -> Prop) :
  cstr m p (a ++ b) -> text (a ++ b) -> Forall nonblank a -> match b with [] => True | c :: _ => blank c end ->
  Q (p + Z.of_nat (length a)) m w -> run Q (skip_word p) m w.
Proof.
  intros Hp Ht Ha Hb HQ. revert p Hp Ht HQ. induction Ha as [|c a Hc _ IH]; intros p Hp Ht HQ;
    apply uwp_iter_step, uwp_load_char; cbn [app length] in *.
  - rewrite Z.add_0_r in HQ. destruct b as [|d b].
    + apply cstr_nil in Hp. rewrite Hp. by apply uwp_ret.
    + apply cstr_cons in Hp as [Hp _]. apply list.Forall_cons in Ht as [Hd _]. rewrite Hp, s8_text by lia.
      rewrite Hb, andb_false_r. by apply uwp_ret.
  - apply cstr_cons in Hp as [Hp Hp']. apply list.Forall_cons in Ht as [Hd Ht]. rewrite Hp, s8_text by lia.
    rewrite Hc, (proj2 (Z.eqb_neq c 0)) by lia. apply uwp_ret, IH; [done|done|].
    by replace (p + 1 + Z.of_nat (length a)) with (p + Z.of_nat (S (length a))) by lia.
Qed.
End loops.

(** ** [parse_command] *)

(** The first words of [argv] point to the strings [ws] between [lo] and [hi]. *)
Definition arguments (m : gmap Z Z) (argv lo hi : Z) (ws : list (list Z)) : Prop :=
  forall i s, ws !! i = Some s -> exists p,
    read32 m (argv + 4 * Z.of_nat i) = p /\ lo <= p /\ p + Z.of_nat (length s) <= hi /\ cstr m p s.

(** A line at [cmd], and room for [n] pointers at [argv] beside it. *)
Record line_at (m : gmap Z Z) (cmd argv n : Z) (l : list Z) : Prop := {
  la_text : text l;
  la_line : cstr m cmd l;
  la_range : 0 < cmd /\ cmd + Z.of_nat (length l) < 4294967296;
  la_apart : argv + 4 * n <= cmd \/ cmd + Z.of_nat (length l) + 1 <= argv;
}.

(** Only the line and the vector have changed. *)
Definition line_changed (m m' : gmap Z Z) (cmd argv n : Z) (l : list Z) : Prop :=
  forall a, ~ (cmd <= a <= cmd + Z.of_nat (length l)) -> ~ (argv <= a < argv + 4 * n) -> read8 m' a = read8 m a.

Lemma arguments_ext m m' argv lo hi ws :
  (forall a, lo <= a <= hi -> read8 m' a = read8 m a) ->
  (forall a, argv <= a < argv + 4 * Z.of_nat (length ws) -> read8 m' a = read8 m a) ->
  arguments m argv lo hi ws -> arguments m' argv lo hi ws.
Proof.
  intros H1 H2 H i s Hi. destruct (H i s Hi) as (p & Hp & Hlo & Hhi & Hs). pose proof (lookup_lt_Some _ _ _ Hi).
  exists p. split_and!; [|done|done|].
  - rewrite <- Hp. apply read32_ext. intros a Ha. apply H2. lia.
  - eapply cstr_ext; [|exact Hs]. intros a Ha. apply H1. lia.
Qed.

Lemma arguments_hi m argv lo hi hi' ws : hi <= hi' -> arguments m argv lo hi ws -> arguments m argv lo hi' ws.
Proof. intros Hle H i s Hi. destruct (H i s Hi) as (p & ? & ? & ? & ?). exists p. split_and!; [done|done|lia|done]. Qed.

Lemma arguments_snoc m argv lo hi ws s p :
  arguments m argv lo hi ws -> read32 m (argv + 4 * Z.of_nat (length ws)) = p -> lo <= p -> p + Z.of_nat (length s) <= hi ->
  cstr m p s -> arguments m argv lo hi (ws ++ [s]).
Proof.
  intros H Hp Hlo Hhi Hs i t Hi. apply lookup_app_Some in Hi as [Hi|[Hi1 Hi2]]; [by apply H|].
  apply list_lookup_singleton_Some in Hi2 as [Hi2 <-]. exists p.
  replace (Z.of_nat i) with (Z.of_nat (length ws)) by lia. done.
Qed.

Section parse.
Context {W : Type} (kernel : Z -> list Z -> gmap Z Z -> W -> Z * gmap Z Z * W).
Abbreviation run := (uwp kernel).

(** What the loop has done when [token] is reached. *)
Definition parsed (m : gmap Z Z) (w : W) (cmd argv max_args : Z) (l : list Z) (x : Z * Z) (m' : gmap Z Z) (w' : W) : Prop :=
  let '(token, argc) := x in
  w' = w /\ exists fin rest, words l = fin ++ words rest /\ argc = Z.of_nat (length fin) /\ argc <= max_args /\
    cmd <= token /\ token + Z.of_nat (length rest) = cmd + Z.of_nat (length l) /\ text rest /\ cstr m' token rest /\
    arguments m' argv cmd token fin /\ line_changed m m' cmd argv (max_args + 1) l.

Lemma uwp_parse_command cmd argv max_args l m w (Q : Z -> gmap Z Z -> W -> Prop) :
  0 <= max_args -> line_at m cmd argv (max_args + 1) l ->
  (forall m', let ws := take (Z.to_nat max_args) (words l) in
     arguments m' argv cmd (cmd + Z.of_nat (length l)) ws -> read32 m' (argv + 4 * Z.of_nat (length ws)) = 0 ->
     line_changed m m' cmd argv (max_args + 1) l -> Q (Z.of_nat (length ws)) m' w) ->
  run Q (parse_command cmd argv max_args) m w.
Proof.
  intros Hmax [Hl Hcmd [Hc1 Hc2] Hap] HQ. set (n := max_args + 1) in *.
  unfold parse_command. apply uwp_bind.
  apply (uwp_iter _ (parsed m w cmd argv max_args l) (fun x _ _ => Z.to_nat (cmd + Z.of_nat (length l) - x.1))).
  { split; [done|]. exists [], l. split_and!; try done; try lia. }
  (* the end of the loop *)
  assert (forall fin token m', fin = take (Z.to_nat max_args) (words l) -> Z.of_nat (length fin) <= max_args ->
    token <= cmd + Z.of_nat (length l) -> arguments m' argv cmd token fin -> line_changed m m' cmd argv n l ->
    run Q (store_word (argv + 4 * Z.of_nat (length fin)) 0 ;; Ret (Z.of_nat (length fin))) m' w) as Hend.
  { intros fin token m' -> Hle Ht Hargs Hch. set (ws := take _ _) in *.
    apply uwp_bind, uwp_store_word, uwp_ret. apply HQ; fold ws.
    - apply (arguments_ext m'); [| |by eapply arguments_hi].
      + intros a Ha. apply read8_write32_out. lia.
      + intros a Ha. apply read8_write32_out. lia.
    - apply read32_write32_eq.
    - intros a H1 H2. rewrite read8_write32_out by lia. by apply Hch. }
  intros [token argc] m' w' (-> & fin & rest & Hw & -> & Hle & Ht1 & Ht2 & Htext & Hs & Hargs & Hch).
  assert (words rest = [] -> fin = take (Z.to_nat max_args) (words l)) as Hdone
    by (intros E; rewrite Hw, E, app_nil_r, take_ge by lia; done).
  apply (uwp_load_at _ _ _ rest); [done..|].
  destruct (Z.ltb_spec (Z.of_nat (length fin)) max_args) as [Hlt|Hge].
  2:{ rewrite andb_false_r. apply uwp_ret. apply (Hend fin token); [|done|lia|done..].
      rewrite Hw, take_app_le by lia. by rewrite take_ge by lia. }
  rewrite andb_true_r. destruct (span is_blank rest) as (a & b & -> & Ha & Hb). rewrite length_app in Ht2.
  destruct (Z.eqb_spec (default 0 (head (a ++ b))) 0) as [E0|E0]; cbn [negb].
  { apply uwp_ret. apply (Hend fin token); [|done|lia|done..]. apply Hdone.
    destruct (a ++ b) as [|c r]; [done|]. apply list.Forall_cons in Htext as [Hc _]. cbn in E0. lia. }
  pose proof (proj1 (text_app _ _) Htext) as [_ Hb']. set (token1 := token + Z.of_nat (length a)).
  assert (cstr m' token1 b) as Hs1 by by apply cstr_app.
  apply uwp_bind. eapply uwp_skip_blanks; [done..|]. fold token1. apply (uwp_load_at _ _ _ b); [done..|].
  destruct b as [|d b].
  { cbn [head default hd_error from_option]. apply uwp_ret. apply (Hend fin token); [|done|lia|done..]. apply Hdone.
    rewrite (words_blanks a []) by done. done. }
  cbn [head default hd_error from_option id]. pose proof (proj1 (list.Forall_cons _ _ _) Hb') as [Hd _].
  rewrite (proj2 (Z.eqb_neq d 0)) by lia.
  (* the pointer is stored, and the word ends *)
  set (m1 := write32 m' (argv + 4 * Z.of_nat (length fin)) (u32 token1)).
  assert (forall x, cmd <= x <= cmd + Z.of_nat (length l) -> read8 m1 x = read8 m' x) as Hm1.
  { intros x Hx. apply read8_write32_out. lia. }
  apply uwp_bind, uwp_store_word. fold m1.
  destruct (span (fun c => negb (is_blank c)) (d :: b)) as (s & r & Er & Hsn & Hr).
  assert (Forall nonblank s) as Hsn' by (eapply list.Forall_impl; [exact Hsn|]; intros x Hx; by apply negb_true_iff in Hx).
  assert (s <> []) as Hsne.
  { intros ->. cbn in Er. subst r. unfold nonblank in Hb. by rewrite Hb in Hr. }
  rewrite Er in *. rewrite length_app in Ht2. pose proof (proj1 (text_app _ _) Hb') as [_ Hr'].
  assert (cstr m1 token1 (s ++ r)) as Hs2 by (eapply cstr_ext; [|exact Hs1]; intros x Hx; apply Hm1; rewrite length_app in Hx; lia).
  apply uwp_bind. eapply uwp_skip_word; [done|done|done| |].
  { destruct r as [|x r]; [done|]. by apply negb_false_iff in Hr. }
  set (token2 := token1 + Z.of_nat (length s)). apply (uwp_load_at _ _ _ r); [by apply cstr_app|done|].
  assert (0 < length s)%nat as Hslen by (destruct s; [done|cbn; lia]).
  assert (words (a ++ s ++ r) = s :: words (tail r)) as Hwords.
  { rewrite words_blanks by done. destruct r as [|x r]; [rewrite app_nil_r; by apply words_end|].
    apply words_next; [done|done|]. by apply negb_false_iff in Hr. }
  (* the state after the step, for the memory it leaves *)
  assert (forall m2 token', (forall x, cmd <= x < token2 -> read8 m2 x = read8 m' x) ->
    (forall x, ~ (cmd <= x <= cmd + Z.of_nat (length l)) -> read8 m2 x = read8 m1 x) ->
    cstr m2 token1 s -> token2 <= token' -> token' + Z.of_nat (length (tail r)) = cmd + Z.of_nat (length l) ->
    cstr m2 token' (tail r) ->
    parsed m w cmd argv max_args l (token', Z.of_nat (length fin) + 1) m2 w /\
    (Z.to_nat (cmd + Z.of_nat (length l) - token') < Z.to_nat (cmd + Z.of_nat (length l) - token))%nat) as Hstep.
  { intros m2 token' Hlow Hout Hstr Hle' Hend' Htail. split; [|subst token1 token2; lia]. split; [done|].
    exists (fin ++ [s]), (tail r). split_and!.
    - by rewrite Hw, Hwords, <- app_assoc.
    - rewrite length_app. cbn [length]. lia.
    - lia.
    - subst token1 token2. lia.
    - done.
    - destruct r; [done|]. by apply list.Forall_cons in Hr' as [_ ?].
    - done.
    - apply (arguments_snoc _ _ _ _ _ _ token1); [| |subst token1; lia|subst token1 token2; lia|done].
      + apply (arguments_hi _ _ _ token); [subst token1 token2; lia|].
        apply (arguments_ext m'); [intros x Hx; apply Hlow; subst token1 token2; lia| |done].
        intros x Hx. rewrite Hout by lia. unfold m1. apply read8_write32_out. lia.
      + rewrite (read32_ext _ m1) by (intros x Hx; apply Hout; lia). unfold m1. rewrite read32_write32_eq.
        rewrite u32_u32. apply u32_small. subst token1. lia.
    - intros x H1 H2. rewrite Hout by lia. unfold m1. rewrite read8_write32_out by lia. by apply Hch. }
  destruct r as [|x r]; cbn [head default hd_error from_option id tail] in *.
  - apply uwp_ret. cbn [fst]. apply Hstep; [| |by rewrite app_nil_r in Hs2|lia|cbn in *; subst token1 token2; lia|].
    + intros y Hy. apply Hm1. subst token1 token2. lia.
    + done.
    + rewrite app_nil_r in Hs2. rewrite <- (app_nil_r s) in Hs2. by apply cstr_app in Hs2.
  - pose proof (proj1 (list.Forall_cons _ _ _) Hr') as [Hx _]. rewrite (proj2 (Z.eqb_neq x 0)) by lia. cbn [negb].
    apply uwp_bind, uwp_store_char, uwp_ret. cbn [length] in Ht2. cbn [fst]. apply Hstep.
    + intros y Hy. rewrite read8_write8, decide_False by lia. apply Hm1. subst token1 token2. lia.
    + intros y Hy. rewrite read8_write8, decide_False; [done|]. subst token1 token2. lia.
    + by apply cstr_cut in Hs2.
    + lia.
    + subst token1 token2. lia.
    + apply cstr_app, cstr_cons in Hs2 as [_ Hs2]. eapply cstr_ext; [|exact Hs2].
      intros y Hy. rewrite read8_write8, decide_False by lia. done.
Qed.
End parse.
