(* ===== verification/UserTerminal.v ===== *)
(** * The shell on a terminal

    A kernel whose calls 1 and 8 write to and read from a terminal, as an interface,
    and the dialogue of the shell with it. *)

From stdpp Require Import base list gmap numbers option relations tactics.
From Stdlib Require Import Lia ZArith String Ascii.
From S2P Require Import Prelude PhysMem Boot User UserShell UserShellSpec.
From ITree Require Import ITree ITreeFacts.
Open Scope user_scope.

(** ** The interface *)

(** What the calls of the kernel do for a program that writes to descriptor 2 and
    reads from descriptor 0: the text shown so far and the keys still to come. *)
Class Terminal {W : Type} (kernel : Z -> list Z -> gmap Z Z -> W -> Z * gmap Z Z * W) := {
  shown : W -> list Z;
  typed : W -> list Z;
  terminal_write : forall p n m w, 0 <= n < 4294967296 -> exists v w',
    kernel SYS_WRITE [2; p; n] m w = (v, m, w') /\
    shown w' = shown w ++ read_bytes m p (Z.to_nat n) /\ typed w' = typed w;
  terminal_read : forall c l m w, 0 <= c < 128 -> typed w = c :: l -> exists w',
    kernel SYS_READ [0] m w = (c, m, w') /\ shown w' = shown w /\ typed w' = l;
}.

(** ** The texts of the shell *)

Definition newline : string := "
".
Definition help_lines : list (string * Z) :=
  [ ("Available commands:
"%string, 19); ("  help     - show this help
"%string, 27); ("  exit     - exit shell
"%string, 23); ("  ls       - list files
"%string, 22); ("  cat <file> - display file contents
"%string, 35); ("  <program> - execute program
"%string, 29) ].
Definition banner_lines : list (string * Z) :=
  [ ("fishboneOS Shell v0.1
"%string, 22); ("Type 'help' for commands

"%string, 27) ].
Definition ls_text : string := "Directory listing not implemented
".
Definition literals : list string :=
  help_lines.*1 ++ banner_lines.*1 ++ ["fishbone> "%string; newline; ls_text; "exit"%string; "help"%string; "ls"%string].

(** The help as it appears: the lengths the source passes leave out the ends of its lines. *)
Definition help_text : list Z :=
  chars "Available commands:  help     - show this help  exit     - exit shell  ls       - list file  cat <file> - display file content  <program> - execute program".
Definition banner_text : list Z := chars "fishboneOS Shell v0.1
Type 'help' for commands

" ++ [0].

(** What the built-in commands print; [None] for the other commands. *)
Definition answer (ws : list (list Z)) : option (list Z) :=
  match ws with
  | [] => Some []
  | w :: _ =>
      if decide (w = chars "help") then Some help_text
      else if decide (w = chars "ls") then Some (chars ls_text)
      else None
  end.

Section terminal.
Context {W : Type} (kernel : Z -> list Z -> gmap Z Z -> W -> Z * gmap Z Z * W) `{!Terminal kernel}.
Context (lit : string -> Z) (cmd_buffer cmd_argv echo status buffer : Z).
Abbreviation run := (uwp kernel).
Implicit Types (m : gmap Z Z) (w : W).

(** The arrays the shell writes to. *)
Definition in_line (a : Z) : Prop := cmd_buffer <= a < cmd_buffer + 256.
Definition in_argv (a : Z) : Prop := cmd_argv <= a < cmd_argv + 68.
Definition in_echo (a : Z) : Prop := echo <= a < echo + 2.

(** The program in memory: the arrays apart from each other, and every literal outside
    of them. *)
Record linked : Prop := {
  ln_range : 0 < cmd_buffer /\ cmd_buffer + 256 <= 4294967296;
  ln_argv : cmd_argv + 68 <= cmd_buffer \/ cmd_buffer + 256 <= cmd_argv;
  ln_echo : echo + 2 <= cmd_buffer \/ cmd_buffer + 256 <= echo;
  ln_lit : forall s a, s ∈ literals -> lit s <= a < lit s + Z.of_nat (S (length (chars s))) ->
    ~ in_line a /\ ~ in_argv a /\ ~ in_echo a;
}.
Definition loaded m : Prop := forall s, s ∈ literals -> cstr m (lit s) (chars s).

Definition quiet m m' : Prop := forall a, ~ in_line a -> ~ in_argv a -> ~ in_echo a -> read8 m' a = read8 m a.

Lemma quiet_loaded m m' : linked -> quiet m m' -> loaded m -> loaded m'.
Proof.
  intros Hl Hq Hm s Hs. eapply cstr_ext; [|by apply Hm]. intros a Ha. by destruct (ln_lit Hl s a Hs Ha) as (?&?&?); apply Hq.
Qed.

Lemma read_bytes_cstr m p s n : cstr m p s -> (n <= S (length s))%nat -> read_bytes m p n = take n (s ++ [0]).
Proof.
  intros <- Hn. apply list_eq_same_length with n; [|by rewrite length_read_bytes|].
  - rewrite length_take, length_read_bytes. lia.
  - intros i x y Hi Hx Hy. rewrite lookup_take_lt in Hy by done. rewrite read_bytes_lookup in Hx, Hy by lia. congruence.
Qed.

Lemma uwp_write fd p n m w (Q : Z -> gmap Z Z -> W -> Prop) :
  fd = 2 -> 0 <= n < 4294967296 ->
  (forall v w', shown w' = shown w ++ read_bytes m p (Z.to_nat n) -> typed w' = typed w -> Q v m w') ->
  run Q (write fd p n) m w.
Proof.
  intros -> Hn HQ. destruct (terminal_write p n m w Hn) as (v & w' & E & Hs & Ht).
  unfold write. apply uwp_bind. change (u32 2) with 2. eapply uwp_int80; [exact E|]. by apply uwp_ret, HQ.
Qed.

Lemma uwp_print s n m w (Q : unit -> gmap Z Z -> W -> Prop) :
  loaded m -> s ∈ literals -> 0 <= n <= Z.of_nat (S (length (chars s))) -> n < 4294967296 ->
  (forall w', shown w' = shown w ++ take (Z.to_nat n) (chars s ++ [0]) -> typed w' = typed w -> Q tt m w') ->
  run Q (print lit s n) m w.
Proof.
  intros Hm Hs Hn Hn' HQ. unfold print. apply uwp_bind, uwp_write; [done|lia|]. intros v w' Hw Ht. apply uwp_ret, HQ; [|done].
  rewrite Hw. f_equal. apply read_bytes_cstr; [by apply Hm|lia].
Qed.

(** Several texts in a row. *)
Fixpoint print_all (l : list (string * Z)) (last : user unit) : user unit :=
  match l with
  | [] => last
  | (s, n) :: l' => print lit s n ;; print_all l' last
  end.

Lemma uwp_print_all l last m w (Q : unit -> gmap Z Z -> W -> Prop) :
  loaded m ->
  Forall (fun x => x.1 ∈ literals /\ 0 <= x.2 <= Z.of_nat (S (length (chars x.1))) /\ x.2 < 4294967296) l ->
  (forall w', shown w' = shown w ++ mjoin ((fun x => take (Z.to_nat x.2) (chars x.1 ++ [0])) <$> l) -> typed w' = typed w ->
     run Q last m w') ->
  run Q (print_all l last) m w.
Proof.
  intros Hm Hl. revert w. induction Hl as [|[s n] l (H1 & H2 & H3) _ IH]; intros w HQ; cbn [print_all].
  - apply HQ; [by rewrite app_nil_r|done].
  - apply uwp_bind, uwp_print; [done..|]. intros w1 Hw1 Ht1. apply IH. intros w2 Hw2 Ht2. apply HQ; [|congruence].
    rewrite Hw2, Hw1, <- app_assoc. done.
Qed.

(** ** Reading a line *)

Definition key_of_line (c : Z) : Prop := 0 < c < 128 /\ c <> 10 /\ c <> 13.

Lemma read_bytes_snoc m a n : read_bytes m a (S n) = read_bytes m a n ++ [read8 m (a + Z.of_nat n)].
Proof.
  revert a. induction n as [|n IH]; intros a; [cbn; by rewrite Z.add_0_r|].
  change (read_bytes m a (S (S n))) with (read8 m a :: read_bytes m (a + 1) (S n)). rewrite IH. cbn [read_bytes app].
  do 4 f_equal. lia.
Qed.

Lemma uwp_read c l m w (Q : Z -> gmap Z Z -> W -> Prop) :
  0 <= c < 128 -> typed w = c :: l ->
  (forall w', shown w' = shown w -> typed w' = l -> Q c m w') -> run Q (read 0) m w.
Proof.
  intros Hc Hw HQ. destruct (terminal_read c l m w Hc Hw) as (w' & E & Hs & Ht).
  unfold read. apply uwp_bind. change (u32 0) with 0. eapply uwp_int80; [exact E|]. apply uwp_ret.
  assert (s32 c = c) as -> by (unfold s32; rewrite u32_small by lia; by rewrite (proj2 (Z.ltb_lt _ _)) by lia). by apply HQ.
Qed.

(** The keys of a line go to the buffer and to the screen, one by one. *)
Lemma uwp_read_keys ks e rest pre m w (Q : Z -> gmap Z Z -> W -> Prop) :
  linked -> Forall key_of_line ks -> e = 10 \/ e = 13 -> (length pre + length ks < 255)%nat ->
  read_bytes m cmd_buffer (length pre) = pre -> typed w = ks ++ e :: rest ->
  (forall m' w', quiet m m' -> read_bytes m' cmd_buffer (length pre + length ks) = pre ++ ks ->
     shown w' = shown w ++ ks -> typed w' = rest -> Q (Z.of_nat (length pre + length ks)) m' w') ->
  run Q (ITree.iter (fun i =>
    if i <? MAX_CMD - 1 then
      ch <- read 0 ;;
      if (ch =? 10) || (ch =? 13) then Ret (inr i)
      else if 0 <? ch then
        store_char (cmd_buffer + i) ch ;;
        store_char echo ch ;;
        store_char (echo + 1) 0 ;;
        _ <- write 2 echo 1 ;;
        Ret (inl (i + 1))
      else Ret (inl i)
    else Ret (inr i)) (Z.of_nat (length pre))) m w.
Proof.
  intros Hl Hks He. revert pre m w. induction Hks as [|c ks (Hc & H10 & H13) _ IH]; intros pre m w Hlen Hpre Hw HQ;
    apply uwp_iter_step; unfold MAX_CMD; rewrite (proj2 (Z.ltb_lt _ _)) by (cbn [length] in *; lia); apply uwp_bind.
  - eapply uwp_read; [|exact Hw|]; [lia|]. intros w' Hw' Ht.
    assert ((e =? 10) || (e =? 13) = true) as -> by (destruct He as [-> | ->]; done). apply uwp_ret.
    rewrite Nat.add_0_r in HQ. apply HQ; [done|by rewrite app_nil_r|by rewrite Hw', app_nil_r|done].
  - eapply uwp_read; [|exact Hw|]; [lia|]. intros w1 Hw1 Ht1. cbn [length] in Hlen.
    rewrite (proj2 (Z.eqb_neq c 10)), (proj2 (Z.eqb_neq c 13)), (proj2 (Z.ltb_lt 0 c)) by lia. cbn [orb].
    apply uwp_bind, uwp_store_char, uwp_bind, uwp_store_char, uwp_bind, uwp_store_char.
    set (m1 := write8 (write8 (write8 m (cmd_buffer + Z.of_nat (length pre)) (u8 c)) echo (u8 c)) (echo + 1) (u8 0)).
    assert (quiet m m1) as Hq.
    { intros a H1 H2 H3. unfold m1, in_line, in_echo in *. by rewrite !read8_write8, !decide_False by lia. }
    assert (forall a, in_line a -> a <> cmd_buffer + Z.of_nat (length pre) -> read8 m1 a = read8 m a) as Hkeep.
    { intros a H1 H2. pose proof (ln_echo Hl). unfold m1, in_line in *. by rewrite !read8_write8, !decide_False by lia. }
    assert (read8 m1 (cmd_buffer + Z.of_nat (length pre)) = c) as Hnew.
    { pose proof (ln_echo Hl). unfold m1. rewrite !read8_write8, !(decide_False (P := echo + _ = _)), decide_False, decide_True by lia.
      rewrite !u8_small by (rewrite ?u8_small by lia; lia). done. }
    apply uwp_bind, uwp_write; [done|lia|]. intros v w2 Hw2 Ht2. apply uwp_ret.
    assert (read_bytes m1 echo (Z.to_nat 1) = [c]) as Hecho.
    { change (read_bytes m1 echo (Z.to_nat 1)) with [read8 m1 echo]. unfold m1. rewrite read8_write8, decide_False, read8_write8, decide_True by lia.
      rewrite !u8_small by (rewrite ?u8_small by lia; lia). done. }
    replace (Z.of_nat (length pre) + 1) with (Z.of_nat (length (pre ++ [c]))) by (rewrite length_app; cbn; lia).
    apply IH; [rewrite length_app; cbn; lia| |by rewrite Ht2, Ht1|].
    + rewrite length_app. cbn [length]. rewrite Nat.add_1_r, read_bytes_snoc, Hnew. f_equal.
      rewrite <- Hpre at 2. apply read_bytes_ext. intros a Ha. apply Hkeep; unfold in_line; lia.
    + intros m' w' Hq' Hb' Hs' Ht'. rewrite length_app in *. cbn [length] in *. rewrite <- Nat.add_assoc in *. cbn [Nat.add] in *.
      apply HQ; [|by rewrite <- app_assoc in Hb'| |done].
      * intros a H1 H2 H3. rewrite Hq' by done. by apply Hq.
      * rewrite Hs', Hw2, Hw1, Hecho, <- app_assoc. done.
Qed.
End terminal.

Lemma words_text l : text l -> Forall text (words l).
Proof.
  intros Hl. unfold words. assert (text []) as Hcur by constructor. revert Hcur. generalize ([] : list Z) as cur.
  induction Hl as [|c l Hc _ IH]; intros cur Hcur; cbn [words_from].
  - destruct cur; [constructor|constructor; [done|constructor]].
  - assert (text (cur ++ [c])) as Hsnoc by (apply list.Forall_app; by split; [|constructor]).
    destruct (is_blank c); [|by apply IH]. destruct cur; [|constructor; [done|]]; apply IH; constructor.
Qed.

Section session.
Context {W : Type} (kernel : Z -> list Z -> gmap Z Z -> W -> Z * gmap Z Z * W) `{!Terminal kernel}.
Context (lit : string -> Z) (cmd_buffer cmd_argv echo status buffer : Z).
Abbreviation run := (uwp kernel).
Abbreviation linked := (linked lit cmd_buffer cmd_argv echo).
Abbreviation loaded := (loaded lit).
Implicit Types (m : gmap Z Z) (w : W).

(** [strcmp] with a literal of the shell. *)
Lemma uwp_strcmp_lit s t p m w (Q : Z -> gmap Z Z -> W -> Prop) :
  loaded m -> t ∈ literals -> text (chars t) -> cstr m p s -> text s ->
  (forall r, (r =? 0) = bool_decide (s = chars t) -> Q r m w) -> run Q (strcmp p (lit t)) m w.
Proof.
  intros Hm Ht Htt Hs Hts HQ. eapply uwp_mono; [by eapply uwp_strcmp; [|by apply Hm| |]|].
  intros r m' w' (-> & -> & Hr). apply HQ. apply eq_true_iff_eq. rewrite bool_decide_eq_true, Z.eqb_eq. exact Hr.
Qed.

Lemma uwp_execute ws out hi m w (Q : unit -> gmap Z Z -> W -> Prop) :
  linked -> loaded m -> ws <> [] -> Forall text ws -> arguments m cmd_argv cmd_buffer hi ws -> answer ws = Some out ->
  (forall w', shown w' = shown w ++ out -> typed w' = typed w -> Q tt m w') ->
  run Q (execute_command lit status buffer cmd_argv) m w.
Proof.
  intros Hl Hm Hne Htext Hargs Ho HQ. destruct Htext as [|s ws Hs _]; [done|].
  destruct (Hargs 0%nat s eq_refl) as (p & Hp & Hlo & _ & Hstr). rewrite Z.add_0_r in Hp.
  unfold execute_command. apply uwp_load_word. rewrite Hp.
  rewrite (proj2 (Z.eqb_neq p 0)) by (pose proof (ln_range _ _ _ _ Hl); lia).
  assert (forall t, t ∈ literals -> forallb (fun c => (0 <? c) && (c <? 128)) (chars t) = true ->
    forall R (Q : R -> gmap Z Z -> W -> Prop) k, (forall r, (r =? 0) = bool_decide (s = chars t) -> run Q (k r) m w) ->
    run Q (ITree.bind (strcmp p (lit t)) k) m w) as Hcmp.
  { intros t Ht Hc R Q' k Hk. apply uwp_bind. eapply uwp_strcmp_lit; [done|done| |done|done|done].
    by apply text_forallb. }
  cbn [answer] in Ho.
  apply Hcmp; [by vm_compute; repeat constructor|done|]. intros r ->.
  rewrite bool_decide_false by (intros ->; by vm_compute in Ho).
  apply Hcmp; [by vm_compute; repeat constructor|done|]. intros r2 ->.
  destruct (decide (s = chars "help")) as [Eh|Eh].
  - rewrite bool_decide_true by done. injection Ho as <-.
    change (run Q (print_all lit (take 5 help_lines) (print lit "  <program> - execute program
" 29)) m w).
    apply (uwp_print_all kernel lit); [done| |].
    { repeat (constructor; [split_and!; [by vm_compute; repeat constructor|cbn; lia|cbn; lia|cbn; lia]|]). constructor. }
    intros w1 Hw1 Ht1. apply (uwp_print kernel lit); [done|by vm_compute; repeat constructor|cbn; lia|lia|].
    intros w2 Hw2 Ht2. apply HQ; [|congruence]. rewrite Hw2, Hw1, <- app_assoc. by f_equal.
  - rewrite bool_decide_false by done.
    apply Hcmp; [by vm_compute; repeat constructor|done|]. intros r3 ->.
    destruct (decide (s = chars "ls")) as [El|El]; [|done]. rewrite bool_decide_true by done. injection Ho as <-.
    apply (uwp_print kernel lit); [done|by vm_compute; repeat constructor|cbn; lia|lia|]. intros w1 Hw1 Ht1. by apply HQ.
Qed.

(** A line of keys: short enough for the buffer and with fewer than sixteen words. *)
Record line_ok (ks : list Z) : Prop := {
  lo_keys : Forall key_of_line ks;
  lo_length : (length ks < 255)%nat;
  lo_words : (length (words ks) < 16)%nat;
}.

Lemma key_text ks : Forall key_of_line ks -> text ks.
Proof. intros H. eapply list.Forall_impl; [exact H|]. unfold key_of_line. lia. Qed.

(** What an iteration leaves on the screen. *)
Definition transcript (ks out : list Z) : list Z := chars "fishbone> " ++ ks ++ [10] ++ out.

Lemma uwp_shell_step ks e rest out m w :
  linked -> loaded m -> line_ok ks -> e = 10 \/ e = 13 -> answer (words ks) = Some out -> typed w = ks ++ e :: rest ->
  run (fun _ m' w' => loaded m' /\ shown w' = shown w ++ transcript ks out /\ typed w' = rest)
    (shell_step lit cmd_buffer cmd_argv echo status buffer) m w.
Proof.
  intros Hl Hm [Hks Hlen Hwords] He Ho Hw. unfold shell_step. apply uwp_bind.
  apply (uwp_print kernel lit); [done|by vm_compute; repeat constructor|cbn; lia|lia|]. intros w1 Hw1 Ht1.
  apply uwp_bind. unfold read_line.
  eapply (uwp_read_keys kernel lit cmd_buffer cmd_argv echo ks e rest [] m w1); [done|done|done|cbn; lia|done|by rewrite Ht1|].
  intros m2 w2 Hq2 Hb2 Hs2 Ht2. cbn [length Nat.add app] in Hb2 |- *.
  apply uwp_bind, uwp_store_char. set (m3 := write8 m2 _ _).
  assert (quiet cmd_buffer cmd_argv echo m m3) as Hq3.
  { intros a H1 H2 H3. unfold m3, in_line in *. rewrite read8_write8, decide_False by lia. by apply Hq2. }
  assert (loaded m3) as Hm3 by by eapply quiet_loaded.
  assert (cstr m3 cmd_buffer ks) as Hline.
  { unfold cstr. rewrite read_bytes_snoc. unfold m3 at 2. rewrite read8_write8, decide_True by lia. f_equal.
    rewrite <- Hb2 at 2. apply read_bytes_ext. intros a Ha. unfold m3. by rewrite read8_write8, decide_False by lia. }
  apply uwp_bind, (uwp_print kernel lit); [done|by vm_compute; repeat constructor|cbn; lia|lia|]. intros w3 Hw3 Ht3.
  assert (shown w3 = shown w ++ chars "fishbone> " ++ ks ++ [10]) as Hshown.
  { rewrite Hw3, Hs2, Hw1, <- !app_assoc. done. }
  destruct (Z.eqb_spec (Z.of_nat (length ks)) 0) as [E|E].
  { destruct ks; [|done]. injection Ho as <-. apply uwp_ret. split_and!; [done| |congruence].
    by rewrite Hshown. }
  apply uwp_bind. pose proof (ln_range _ _ _ _ Hl). pose proof (ln_argv _ _ _ _ Hl).
  apply (uwp_parse_command kernel cmd_buffer cmd_argv MAX_ARGS ks); [done| |].
  { split; [by apply key_text|done|lia|unfold MAX_ARGS; lia]. }
  intros m4 ws Hargs _ Hch. change (Z.to_nat MAX_ARGS) with 16%nat in ws. subst ws. rewrite take_ge in * by lia.
  assert (loaded m4) as Hm4.
  { eapply quiet_loaded; [done| |exact Hm3]. intros a H1 H2 H3. apply Hch; unfold in_line, in_argv, MAX_ARGS in *; lia. }
  assert (forall w', shown w' = shown w3 ++ out -> typed w' = typed w3 ->
    loaded m4 /\ shown w' = shown w ++ transcript ks out /\ typed w' = rest) as Hdone.
  { intros w' H1 H2. split_and!; [done| |congruence]. rewrite H1, Hshown. unfold transcript. by rewrite <- !app_assoc. }
  destruct (Z.ltb_spec 0 (Z.of_nat (length (words ks)))) as [Hpos|Hpos].
  - eapply uwp_execute; [done|done| |apply words_text; by apply key_text|exact Hargs|exact Ho|exact Hdone].
    intros Ew. rewrite Ew in Hpos. done.
  - assert (words ks = []) as Ew by (destruct (words ks); [done|cbn in Hpos; lia]). rewrite Ew in Ho. injection Ho as <-.
    apply uwp_ret, Hdone; [by rewrite app_nil_r|done].
Qed.

Abbreviation step := (shell_step lit cmd_buffer cmd_argv echo status buffer).

(** The shell at its prompt. *)
Definition shell_loop : user Z := ITree.iter (fun _ : unit => step ;; Ret (inl tt)) tt.

Lemma reaches_session ls outs rest m w :
  linked -> loaded m -> Forall line_ok ls -> Forall2 (fun l out => answer (words l) = Some out) ls outs ->
  typed w = mjoin ((fun l => l ++ [10]) <$> ls) ++ rest ->
  exists m' w', reaches kernel shell_loop m w shell_loop m' w' /\ loaded m' /\ typed w' = rest /\
    shown w' = shown w ++ mjoin (zip_with transcript ls outs).
Proof.
  intros Hl Hm Hls Ho. revert m w Hm Hls. induction Ho as [|l out ls outs Hlo _ IH]; intros m w Hm Hls Hw.
  { exists m, w. split_and!; [apply reaches_refl|done|done|by rewrite app_nil_r]. }
  apply list.Forall_cons in Hls as [Hlok Hls].
  assert (typed w = l ++ 10 :: mjoin ((fun l => l ++ [10]) <$> ls) ++ rest) as Hw1
    by (rewrite Hw; cbn [fmap list_fmap mjoin list_join]; by rewrite <- !app_assoc).
  destruct (reaches_iter kernel (fun r m' w' => r = inl tt /\ loaded m' /\ shown w' = shown w ++ transcript l out /\
    typed w' = mjoin ((fun l => l ++ [10]) <$> ls) ++ rest) (fun _ : unit => step ;; Ret (inl tt) : user (unit + Z)) tt m w)
    as (r & m1 & w1 & (-> & Hm1 & Hs1 & Ht1) & Hr1).
  { apply uwp_bind. eapply uwp_mono; [eapply uwp_shell_step; [done|done|done|by left|exact Hlo|exact Hw1]|].
    intros _ m1 w1 (H1 & H2 & H3). by apply uwp_ret. }
  destruct (IH m1 w1 Hm1 Hls Ht1) as (m2 & w2 & Hr2 & Hm2 & Ht2 & Hs2).
  exists m2, w2. split_and!; [by eapply reaches_trans|done|done|].
  rewrite Hs2, Hs1, <- app_assoc. done.
Qed.
End session.

(** ** The properties *)

(** C36: [parse_command] splits a line into its words.  On any line of characters at
    [cmd], with room for [max_args] pointers and a NULL at [argv] beside it, it comes
    back with the number of words, at most [max_args]; the pointers lead, in order, to
    the words, each NUL-terminated inside the line; a NULL follows them; and no byte
    outside the line and the vector has changed. *)
Theorem parse_command_words {W} (kernel : Z -> list Z -> gmap Z Z -> W -> Z * gmap Z Z * W) cmd argv max_args l m w :
  0 <= max_args -> line_at m cmd argv (max_args + 1) l ->
  let ws := take (Z.to_nat max_args) (words l) in
  uwp kernel (fun argc m' w' => argc = Z.of_nat (length ws) /\ arguments m' argv cmd (cmd + Z.of_nat (length l)) ws /\
    read32 m' (argv + 4 * argc) = 0 /\ line_changed m m' cmd argv (max_args + 1) l /\ w' = w)
    (parse_command cmd argv max_args) m w.
Proof. intros Hmax Hl ws. by apply (uwp_parse_command kernel cmd argv max_args l). Qed.

(** "ls  -l" becomes "ls" and "-l". *)
Definition demo_line : list Z := chars "ls  -l".
Definition demo_line_mem : gmap Z Z := write_bytes ∅ 0x1000 (demo_line ++ [0]).

Lemma parse_command_words_witness : words demo_line = [chars "ls"; chars "-l"] /\
  uwp (fun _ _ m w => (0, m, w)) (fun argc m' _ => argc = 2 /\ arguments m' 0x2000 0x1000 0x1006 [chars "ls"; chars "-l"])
    (parse_command 0x1000 0x2000 16) demo_line_mem tt.
Proof.
  split; [reflexivity|]. eapply uwp_mono.
  - apply (parse_command_words (fun _ _ m w => (0, m, w)) 0x1000 0x2000 16 demo_line demo_line_mem tt); [lia|].
    split; [by apply text_forallb|by vm_compute|by vm_compute|].
    right. vm_compute. discriminate.
  - intros argc m' w' (Ha & Hargs & _). split; [exact Ha|exact Hargs].
Defined.


(** A terminal: the text shown and the keys to come, and two calls. *)
Definition script_kernel (eax : Z) (regs : list Z) (m : gmap Z Z) (w : list Z * list Z) : Z * gmap Z Z * (list Z * list Z) :=
  match regs with
  | [2; p; n] => if eax =? 1 then (n, m, (w.1 ++ read_bytes m p (Z.to_nat n), w.2)) else (0, m, w)
  | [0] => match w.2 with c :: l => if eax =? 8 then (c, m, (w.1, l)) else (0, m, w) | [] => (0, m, w) end
  | _ => (0, m, w)
  end.
#[export] Instance script_terminal : Terminal script_kernel.
Proof.
  refine {| shown := fst; typed := snd |}.
  - intros p n m [o i] Hn. by eexists _, _.
  - intros c l m [o i] Hc E. cbn in E. subst i. by eexists.
Defined.

Fixpoint place (a : Z) (ss : list string) (s : string) : Z :=
  match ss with
  | [] => a
  | t :: ss' => if String.eqb s t then a else place (a + 64) ss' s
  end.
Definition demo_lit : string -> Z := place 0x10000 literals.
Definition demo_program : gmap Z Z := foldr (fun s m => write_bytes m (demo_lit s) (chars s ++ [0])) ∅ literals.

Lemma demo_linked : linked demo_lit 0x1000 0x2000 0x3000.
Proof.
  split; [lia|lia|lia|]. intros s a Hs Ha.
  assert (0x10000 <= demo_lit s) as H; [|unfold in_line, in_argv, in_echo; lia]. clear Ha.
  assert (forall ss b, b <= place b ss s) as H; [|apply H].
  induction ss as [|t ss IH]; intros b; cbn [place]; [lia|]. destruct (String.eqb s t); [lia|]. specialize (IH (b + 64)). lia.
Qed.

Lemma demo_program_loaded : loaded demo_lit demo_program.
Proof.
  intros s Hs. unfold literals in Hs.
  assert (Forall (fun s => cstr demo_program (demo_lit s) (chars s)) literals) as H.
  { repeat (constructor; [by vm_compute|]). constructor. }
  rewrite list.Forall_forall in H. by apply H.
Qed.

