(* ===== verification/Info.v ===== *)
(** * Reports on the processor and the memory ([kernel/cpu.c], [kernel/info.c],
      [kernel/memory_layout.c], and the tests of [kernel/kernel.c])

    What the processor answers is a record: the control registers, EFLAGS as [popfl]
    leaves it, and [cpuid].  The reports go to the serial port; the functions marked
    DEBUG in the source are compiled in that build only. *)

From stdpp Require Import base list gmap numbers option tactics.
From Stdlib Require Import Lia ZArith String Ascii.
From S2P Require Import Prelude PhysMem Pmm Vmm Malloc Io Task Paging Drivers Libc Module Syscall Boot.

(** The part of the processor these functions look at. *)
Record processor := mkProcessor {
  cr0 : Z;
  cr2 : Z;
  cr4 : Z;
  eflags : Z;
  popfl : Z -> Z;
  cpuid : Z -> Z * Z * Z * Z;
}.

Definition CR0_PE : Z := 0x00000001.
Definition CR0_EM : Z := 0x00000004.
Definition CR0_TS : Z := 0x00000008.
Definition CR0_ET : Z := 0x00000010.
Definition CR0_NE : Z := 0x00000020.
Definition CR0_WP : Z := 0x00010000.
Definition CR0_AM : Z := 0x00040000.
Definition CR0_NW : Z := 0x20000000.
Definition CR0_CD : Z := 0x40000000.
Definition CR0_PG : Z := 0x80000000.
Definition CR3_PWT : Z := 0x00000008.
Definition CR3_PCD : Z := 0x00000010.
Definition CR4_VME : Z := 0x00000001.
Definition CR4_PSE : Z := 0x00000010.
Definition CR4_PAE : Z := 0x00000020.
Definition CR4_PGE : Z := 0x00000080.

(** ** [cpu.c] *)

(** The bit of EFLAGS that can be toggled when the processor has [cpuid]. *)
Definition cpu_has_cpuid (c : processor) : bool :=
  let original_flags := eflags c in
  let after_flags := popfl c (Z.lxor original_flags 0x200000) in
  negb (Z.land (Z.lxor original_flags after_flags) 0x200000 =? 0).

Definition cpu_cpuid (c : processor) (function : Z) : Z * Z * Z * Z := cpuid c function.

(** The string left in [vendor_out]. *)
Definition cpu_get_vendor_string (c : processor) : list Z :=
  if negb (cpu_has_cpuid c) then []
  else
    let '(_, ebx, ecx, edx) := cpu_cpuid c 0 in
    c_string (le_bytes 4 ebx ++ le_bytes 4 edx ++ le_bytes 4 ecx).

Section info.
Context {P D : Type} `{!PortIO P, !PortIO D, !BlockDevice D}.
Abbreviation K := (M (machine P D)).

Context (fuel polls depth : nat) (string_at : Z -> list Z) (c : processor).

(** The address of the [i]-th string among the arguments of a call. *)
Context (local_address : nat -> Z).

Fixpoint string_among (i : nat) (strs : list (list Z)) (a : Z) : list Z :=
  match strs with
  | [] => []
  | s :: strs' => if a =? local_address i then s else string_among (S i) strs' a
  end.

(** A message with one word, or with one string. *)
Definition note (fmt : string) (args : list Z) : K unit := log polls string_at LOG_INFO fmt args.
Definition note_string (fmt : string) (str : string) : K unit :=
  on_com (printk (string_among 0 [chars str]) polls LOG_INFO (chars fmt) [local_address 0]).
Definition flag (value mask : Z) (yes no : string) : string := if Z.land value mask =? 0 then no else yes.

(** ** [info.c] *)

Definition log_cr0_details : K unit :=
  note "--- CR0 Register ---" [] ;;
  note "Raw CR0 Value: 0x%08x" [cr0 c] ;;
  note_string "  [PE] Protected Mode: %s" (flag (cr0 c) CR0_PE "ON" "OFF (Real Mode)") ;;
  note_string "  [PG] Paging Status:  %s" (flag (cr0 c) CR0_PG "ENABLED" "DISABLED") ;;
  note_string "  [WP] Write Protect:  %s" (flag (cr0 c) CR0_WP "ON (Ring 0 cannot write to RO pages)" "OFF") ;;
  note_string "  [CD] Cache Disable:  %s" (flag (cr0 c) CR0_CD "YES (No caching)" "NO (Caching active)") ;;
  note_string "  [NW] Write-through:  %s" (flag (cr0 c) CR0_NW "DISABLED" "ENABLED") ;;
  note_string "  [TS] Task Switched:  %s" (flag (cr0 c) CR0_TS "YES (Lazy FPU saving)" "NO") ;;
  note_string "  [EM] FPU Emulation:  %s" (flag (cr0 c) CR0_EM "ON" "OFF") ;;
  note_string "  [NE] Numeric Error:  %s" (flag (cr0 c) CR0_NE "Internal" "External (DOS-style)") ;;
  note_string "  [AM] Alignment Mask: %s" (flag (cr0 c) CR0_AM "ENABLED" "DISABLED") ;;
  note_string "  [ET] Extension Type: %s" (flag (cr0 c) CR0_ET "387 Support" "287 Support") ;;
  note "---------------------------------" [].

Definition log_cr2_details : K unit :=
  note "--- CR2 Register ---" [] ;;
  note "Last Page Fault Address: 0x%08x" [cr2 c] ;;
  note "---------------------------------" [].

Definition log_cr3_details : K unit :=
  cr3 <- on_os (on_vm read_cr3) ;;
  note "--- CR3 Register ---" [] ;;
  note "Raw CR3 Value: 0x%08x" [cr3] ;;
  let pdt_phys := Z.land cr3 0xFFFFF000 in
  note "  PDT Physical Base: 0x%08x" [pdt_phys] ;;
  note_string "  [PWT] Page Writethrough: %s" (flag cr3 CR3_PWT "Enabled" "Disabled") ;;
  note_string "  [PCD] Page Cache Disable: %s" (flag cr3 CR3_PCD "Enabled" "Disabled") ;;
  note "---------------------------------" [].

Definition log_cr4_details : K unit :=
  note "--- CR4 Register ---" [] ;;
  note "Raw CR4 Value: 0x%08x" [cr4 c] ;;
  note_string "  [PSE] Page Size Extensions: %s" (flag (cr4 c) CR4_PSE "ENABLED (4MB pages allowed)" "DISABLED") ;;
  note_string "  [PAE] Physical Address Ext: %s" (flag (cr4 c) CR4_PAE "ON" "OFF") ;;
  note_string "  [PGE] Global Page Enable:   %s" (flag (cr4 c) CR4_PGE "ON" "OFF") ;;
  note_string "  [VME] Virtual-8086 Ext:     %s" (flag (cr4 c) CR4_VME "ON" "OFF") ;;
  note "---------------------------------" [].

(** ** [memory_layout.c] *)

Definition BIOS_BOOT_RESERVED_START : Z := 0x00000000.
Definition PHYS_KERNEL_BASE : Z := 0x00200000.
Definition PHYS_KERNEL_END : Z := 0x003FFFFF.
Definition MMIO_RESERVED_START : Z := 0xF0000000.
Definition USER_SPACE_START : Z := 0x00000000.
Definition USER_SPACE_END : Z := 0xBFFFFFFF.

Definition log_memory_layout : K unit :=
  note "--- Memory Layout ---" [] ;;
  note "Physical reserved:   0x%08x - 0x%08x" [BIOS_BOOT_RESERVED_START; BIOS_BOOT_RESERVED_END] ;;
  note "Physical identity:   0x%08x - 0x%08x" [IDENTITY_MAP_START; IDENTITY_MAP_END] ;;
  note "Kernel physical:     0x%08x - 0x%08x" [PHYS_KERNEL_BASE; PHYS_KERNEL_END] ;;
  note "Kernel virtual base: 0x%08x" [KERNEL_VIRT_BASE] ;;
  note "Kernel stack region: 0x%08x - 0x%08x" [KERNEL_STACK_REGION_START; KERNEL_STACK_REGION_END] ;;
  note "Kernel heap region:  0x%08x - 0x%08x" [KERNEL_HEAP_START; KERNEL_HEAP_END] ;;
  note "Recursive VMM page:  0x%08x" [VMM_PDT_VIRTUAL_ADDR] ;;
  note "Temporary VMM page:  0x%08x" [VMM_TEMP_PAGE] ;;
  note "User-space range:    0x%08x - 0x%08x" [USER_SPACE_START; USER_SPACE_END] ;;
  note "MMIO reserved start: 0x%08x" [MMIO_RESERVED_START] ;;
  note "------------------------------" [].

Definition log_system_info : K unit :=
  log_cr0_details ;;
  log_cr2_details ;;
  log_cr3_details ;;
  log_cr4_details ;;
  log_memory_layout.

(** ** The DEBUG build *)

(** A word of an object, read at its virtual address. *)
Definition word_at (a : Z) : K Z := on_os (on_vm (vread32 (u32 a))).

(** The loop over the entries of the memory map. *)
Definition log_mmap (mmap_addr mmap_length : Z) : K unit :=
  iter fuel (fun mmap =>
    if mmap <? u32 (mmap_addr + mmap_length) then
      addr <- word_at (mmap + 4) ;;
      len <- word_at (mmap + 12) ;;
      type <- word_at (mmap + 20) ;;
      note "Memory Area: 0x%08x | Length: 0x%08x | Type: %d" [addr; len; type] ;;
      size <- word_at mmap ;;
      ret (inl (u32 (mmap + size + 4)))
    else ret (inr tt)) mmap_addr.

(** [multiboot_info] as that build has it. *)
Definition debug_multiboot_info (multiboot_magic mbinfo : Z) : K unit :=
  if negb (multiboot_magic =? MULTIBOOT_BOOTLOADER_MAGIC) then log_multiboot_info polls string_at multiboot_magic
  else
    note "" [] ;;
    note "--- Multiboot Info ---" [] ;;
    note "Multiboot magic number: 0x%08x" [multiboot_magic] ;;
    flags <- word_at mbinfo ;;
    note "Flags: 0x%08x" [flags] ;;
    (if Z.testbit flags 0 then
       mem_lower <- word_at (mbinfo + 4) ;; note "Lower Memory: %d KB" [mem_lower] ;;
       mem_upper <- word_at (mbinfo + 8) ;; note "Upper Memory: %d KB" [mem_upper]
     else ret tt) ;;
    (if Z.testbit flags 1 then
       boot_device <- word_at (mbinfo + 12) ;; note "Boot Device: 0x%08x" [boot_device]
     else ret tt) ;;
    (if Z.testbit flags 2 then
       cmdline <- word_at (mbinfo + 16) ;; note "Command Line: %s" [cmdline]
     else ret tt) ;;
    (if Z.testbit flags 3 then
       mods_count <- word_at (mbinfo + 20) ;; mods_addr <- word_at (mbinfo + 24) ;;
       note "Modules Count: %d | Address: 0x%08x" [mods_count; mods_addr]
     else ret tt) ;;
    mmap_length <- word_at (mbinfo + 44) ;;
    mmap_addr <- word_at (mbinfo + 48) ;;
    (if Z.testbit flags 6 then
       note "MMap Length: 0x%x | Address: 0x%08x" [mmap_length; mmap_addr] ;;
       log_mmap mmap_addr mmap_length
     else log polls string_at LOG_ERROR "Invalid Multiboot memory map!" []) ;;
    note "------------------------------" [].

Definition boot_test_heap : K unit :=
  note "--- fishboneOS Kernel Heap Test ---" [] ;;
  test_ptr <- on_heap (kmalloc depth fuel 4) ;;
  if test_ptr =? 0 then log polls string_at LOG_ERROR "RESULT: FAILURE - kmalloc returned NULL." []
  else
    let test_value := 0xDEADBEEF in
    on_os (on_vm (vwrite32 test_ptr test_value)) ;;
    v <- word_at test_ptr ;;
    (if v =? test_value then
       v <- word_at test_ptr ;; note "RESULT: SUCCESS - Allocated at %p, Value: 0x%x" [test_ptr; v]
     else
       v <- word_at test_ptr ;;
       log polls string_at LOG_ERROR "RESULT: CORRUPTION - Expected 0x%x but found 0x%x at %p" [test_value; v; test_ptr]) ;;
    on_heap (kfree test_ptr) ;;
    note "INFO: Memory at %p has been freed." [test_ptr] ;;
    note "-----------------------------------" [].

(** The physical address is used as a virtual one. *)
Definition boot_test_pmm : K unit :=
  phys_addr <- on_os (on_vm vm_alloc_frame) ;;
  if phys_addr =? 0 then log polls string_at LOG_ERROR "PMM: Out of physical memory!" []
  else
    note "PMM: Allocated frame at physical address 0x%08x" [phys_addr] ;;
    on_os (on_vm (write_user phys_addr (chars "fishboneOS" ++ [0]))) ;;
    n <- on_os (on_vm (read_user_string fuel phys_addr)) ;;
    on_com (printk (fun _ => n) polls LOG_INFO (chars "PMM Test: Wrote to phys 0x%08x. Read back: '%s'") [phys_addr; phys_addr]).

Definition boot_run_tests : K unit := boot_test_heap ;; boot_test_pmm ;; boot_test_heap.
End info.
