(* ===== verification/Menu.v ===== *)
(** * The menus ([kernel/menu_renderer.c], and of [kernel/menu_main.c] the menus'
      data, the text on the screen and the input of a file name)

    The text buffer is the list of its cells.  A menu is one of the three static
    objects of [menu_main.c]; a callback is named by the function it points to, and
    what it does is a parameter of the renderer (MenuMain gives it). *)

From stdpp Require Import base list gmap numbers option tactics.
From Stdlib Require Import Lia ZArith String Ascii.
From S2P Require Import Prelude PhysMem Pmm Vmm Io Fat16 Task Drivers Libc Module Syscall Boot Info.

Definition KEY_ENTER : Z := 13.
Definition KEY_ESC : Z := 27.

(** ** The screen *)

Abbreviation cells := (M (list Z)).

(** The row after [y], and the position after a character at column [x]. *)
Definition next_line (y : Z) : Z := if VGA_HEIGHT <=? y + 1 then 0 else y + 1.
Definition after_char (x y : Z) : Z * Z := if VGA_WIDTH <=? x + 1 then (0, next_line y) else (x + 1, y).

Definition set_cell (i v : Z) : cells unit :=
  s <- get ;; l <- some_or_trap (arr_set s i v) ;; put l.

Definition vga_putchar_at (c color x y : Z) : cells unit :=
  if (VGA_WIDTH <=? x) || (VGA_HEIGHT <=? y) then ret tt
  else set_cell (y * VGA_WIDTH + x) (vga_entry (u8 c) color).

Fixpoint vga_writestring_at (str : list Z) (color x y : Z) : cells unit :=
  match str with
  | [] => ret tt
  | c :: str' =>
      if c =? 0 then ret tt
      else if c =? 10 then vga_writestring_at str' color 0 (next_line y)
      else
        vga_putchar_at c color x y ;;
        let '(x, y) := after_char x y in vga_writestring_at str' color x y
  end.

Definition vga_clear_screen (color : Z) : cells unit :=
  for_each (Z.to_nat VGA_HEIGHT) 0 (fun y =>
    for_each (Z.to_nat VGA_WIDTH) 0 (fun x => vga_putchar_at 32 color x y)).

(** [(uint16_t)text[i] | (uint16_t)0x07 << 8]: a [char] is signed. *)
Definition text_cell (c : Z) : Z := Z.lor (u16 (if 128 <=? u8 c then u8 c - 256 else u8 c)) 0x0700.

(** The loop [vga_display_text] and [vga_append_text] have in common; the answer is
    [current_row] and [current_col]. *)
Fixpoint vga_text (text : list Z) (row col : Z) : cells (Z * Z) :=
  match text with
  | [] => ret (row, col)
  | c :: text' =>
      if c =? 0 then ret (row, col)
      else if c =? 10 then vga_text text' (next_line row) 0
      else if c =? 13 then vga_text text' row 0
      else
        (if (col <? VGA_WIDTH) && (row <? VGA_HEIGHT)
         then set_cell (row * VGA_WIDTH + col) (text_cell c) else ret tt) ;;
        let '(col, row) := after_char col row in vga_text text' row col
  end.

Definition vga_display_text (text : list Z) : cells unit :=
  for_each (Z.to_nat VGA_HEIGHT) 0 (fun y =>
    for_each (Z.to_nat VGA_WIDTH) 0 (fun x => set_cell (y * VGA_WIDTH + x) (text_cell 32))) ;;
  _ <- vga_text text 0 0 ;; ret tt.

(** ** The menus *)

Inductive menu_id := main_menu | disk_management_menu | system_info_menu.
#[export] Instance menu_id_eq_dec : EqDecision menu_id.
Proof. solve_decision. Defined.

(** The functions of the callback pointers. *)
Inductive menu_callback :=
  | cb_boot_os | cb_list_tasks | cb_run_hello_world | cb_run_disk_hello | cb_memory_test | cb_shutdown
  | cb_disk_test | cb_disk_write_test | cb_list_files | cb_create_file | cb_delete_file
  | cb_cpu_details | cb_memory_map | cb_interrupt_table | cb_device_list.
#[export] Instance menu_callback_eq_dec : EqDecision menu_callback.
Proof. solve_decision. Defined.

Record MenuItem := mkItem {
  label : list Z;
  callback : option menu_callback;
  submenu : option menu_id;
  enabled : bool;
}.

Record Menu := mkMenu {
  title : list Z;
  items : list MenuItem;
  item_count : Z;
  current_selection : Z;
  parent_menu : option menu_id;
}.
#[export] Instance eta_Menu : Eta Menu := {| eta := fun s =>
  mkMenu (title s) (items s) (item_count s) (current_selection s) (parent_menu s) |}.

Definition item (l : string) (cb : option menu_callback) (sub : option menu_id) : MenuItem := mkItem (chars l) cb sub true.

Definition main_menu_items : list MenuItem :=
  [ item "Boot OS" (Some cb_boot_os) None;
    item "Disk Management" None (Some disk_management_menu);
    item "System Information" None (Some system_info_menu);
    item "List Tasks" (Some cb_list_tasks) None;
    item "Run Hello World Task" (Some cb_run_hello_world) None;
    item "Run /HELLO.BIN from disk" (Some cb_run_disk_hello) None;
    item "Memory Test" (Some cb_memory_test) None;
    item "Shutdown" (Some cb_shutdown) None ].

Definition disk_management_items : list MenuItem :=
  [ item "Disk Test" (Some cb_disk_test) None;
    item "FAT16 Write Test" (Some cb_disk_write_test) None;
    item "List Files" (Some cb_list_files) None;
    item "Create File" (Some cb_create_file) None;
    item "Delete File" (Some cb_delete_file) None;
    item "Back to Main Menu" None (Some main_menu) ].

Definition system_info_items : list MenuItem :=
  [ item "CPU Details" (Some cb_cpu_details) None;
    item "Memory Map" (Some cb_memory_map) None;
    item "Interrupt Table" (Some cb_interrupt_table) None;
    item "Device List" (Some cb_device_list) None;
    item "Back to Main Menu" None (Some main_menu) ].

(** The three objects: the state of the menus. *)
Record menus := mkMenus {
  the_main_menu : Menu;
  the_disk_management_menu : Menu;
  the_system_info_menu : Menu;
}.

Definition menus_boot : menus :=
  mkMenus (mkMenu (chars "Main Menu") main_menu_items 8 0 None)
    (mkMenu (chars "Disk Management") disk_management_items 6 0 (Some main_menu))
    (mkMenu (chars "System Information") system_info_items 5 0 (Some main_menu)).

Definition menu_of (ms : menus) (m : menu_id) : Menu :=
  match m with
  | main_menu => the_main_menu ms
  | disk_management_menu => the_disk_management_menu ms
  | system_info_menu => the_system_info_menu ms
  end.
Definition update_menu (m : menu_id) (g : Menu -> Menu) (ms : menus) : menus :=
  match m with
  | main_menu => mkMenus (g (the_main_menu ms)) (the_disk_management_menu ms) (the_system_info_menu ms)
  | disk_management_menu => mkMenus (the_main_menu ms) (g (the_disk_management_menu ms)) (the_system_info_menu ms)
  | system_info_menu => mkMenus (the_main_menu ms) (the_disk_management_menu ms) (g (the_system_info_menu ms))
  end.

(** ** The statics of the two files *)

Record ui := mkUi {
  ui_menus : menus;
  last_menu : option menu_id;
  last_selection : Z;
  needs_redraw : bool;
  callback_display_active : bool;
  callback_menu : option menu_id;
  input_buffer : list Z;
  input_mode : Z;
  input_len : Z;
  input_has_dot : Z;
  append_row : Z;
  append_col : Z;
}.
#[export] Instance eta_ui : Eta ui := {| eta := fun u =>
  mkUi (ui_menus u) (last_menu u) (last_selection u) (needs_redraw u) (callback_display_active u) (callback_menu u)
    (input_buffer u) (input_mode u) (input_len u) (input_has_dot u) (append_row u) (append_col u) |}.

Definition ui_boot : ui := mkUi menus_boot None 0 true false None (replicate 13 0) 0 0 0 0 0.

(** The machine with its menus. *)
Record desk (P D : Type) := mkDesk {
  dk_machine : machine P D;
  dk_ui : ui;
}.
Arguments mkDesk {P D}.
Arguments dk_machine {P D}.
Arguments dk_ui {P D}.
#[export] Instance eta_desk P D : Eta (desk P D) := {| eta := fun s => mkDesk (dk_machine s) (dk_ui s) |}.

Section menu.
Context {P D : Type} `{!PortIO P, !PortIO D, !BlockDevice D}.
Abbreviation K := (M (desk P D)).

(** The addresses of the strings a function passes to [sprintf]. *)
Context (local_address : nat -> Z).

Definition on_machine {B} (c : M (machine P D) B) : K B := zoom dk_machine (fun m s => s <| dk_machine := m |>) c.
Definition on_ui {B} (c : M ui B) : K B := zoom dk_ui (fun u s => s <| dk_ui := u |>) c.
Definition on_screen {B} (c : cells B) : K B :=
  on_machine (on_os (on_console (on_tty (zoom terminal_buffer (fun b t => t <| terminal_buffer := b |>) c)))).

Definition get_menu (m : menu_id) : K Menu := on_ui (gets (fun u => menu_of (ui_menus u) m)).
Definition set_menu (m : menu_id) (g : Menu -> Menu) : K unit :=
  on_ui (modify (fun u => u <| ui_menus := update_menu m g (ui_menus u) |>)).
Definition upd_ui (g : ui -> ui) : K unit := on_ui (modify g).

(** [char buf[n]; sprintf(buf, fmt, ...)]: the string in [buf]. *)
Definition sprintf_text (n : nat) (fmt : string) (strs : list (list Z)) (args : list Z) : K (list Z) :=
  r <- with_buffer n (sprintf (string_among local_address 0 strs) (chars fmt) args) ;; ret (c_string r.2).

(** ** Text on the screen *)

Definition display (text : list Z) : K unit := on_screen (vga_display_text text).

Definition vga_append_text (text : list Z) : K unit :=
  u <- on_ui get ;;
  let* (row, col) := on_screen (vga_text text (append_row u) (append_col u)) in
  upd_ui (fun u => u <| append_row := row |> <| append_col := col |>).

(** ** The input of a file name *)

Definition is_valid_filename_char (c : Z) : bool :=
  ((65 <=? c) && (c <=? 90)) || ((97 <=? c) && (c <=? 122)) || ((48 <=? c) && (c <=? 57)) || (c =? 46) || (c =? 95).

Definition to_upper (c : Z) : Z := if (97 <=? c) && (c <=? 122) then c - 32 else c.

(** The index of the first dot. *)
Fixpoint find_dot (l : list Z) : option nat :=
  match l with
  | [] => None
  | c :: l' => if c =? 46 then Some O else S <$> find_dot l'
  end.

(** [memset(input_buffer, 0, sizeof(input_buffer)); input_len = 0; input_has_dot = 0] *)
Definition clear_input : K unit :=
  upd_ui (fun u => u <| input_buffer := replicate 13 0 |> <| input_len := 0 |> <| input_has_dot := 0 |>).

Definition prompt : list Z := chars "Enter filename (8.3 format, e.g. FILE.TXT): ".

Definition set_input (i c : Z) : K unit :=
  u <- on_ui get ;; l <- some_or_trap (arr_set (input_buffer u) i c) ;; upd_ui (fun u => u <| input_buffer := l |>).

Definition filename_rejected (message : string) : K unit :=
  display (chars message) ;; vga_append_text prompt ;; clear_input.

Definition end_input : K unit := upd_ui (fun u => u <| input_mode := 0 |>).

(** The file system object of the function is at [FsAt 0]. *)
Definition create_named (name : list Z) : K unit :=
  r <- on_machine (on_os (on_fat (fat16_mount (FsAt 0) 0))) ;;
  if r <? 0 then
    display (chars "ERROR: Failed to mount FAT16 volume at LBA 0.

Press ESC to return to menu...") ;;
    end_input
  else
    r <- on_machine (on_os (on_fat (fat16_create (FsAt 0) (Some name)))) ;;
    (if r <? 0 then
       result <- sprintf_text 256 "ERROR: Failed to create file %s.
File may already exist or no free space in root directory.

Press ESC to return to menu..." [name] [local_address 0] ;;
       display result
     else
       result <- sprintf_text 256 "File %s created successfully.

Press ESC to return to menu..." [name] [local_address 0] ;;
       display result) ;;
    end_input.

Definition process_filename_input (key : Z) : K unit :=
  u <- on_ui get ;;
  if (key =? 10) || (key =? 13) then
    if 0 <? input_len u then
      set_input (input_len u) 0 ;;
      u <- on_ui get ;;
      let name := c_string (input_buffer u) in
      match find_dot name with
      | Some dot =>
          if (8 <? Z.of_nat dot) || (3 <? Z.of_nat (List.length name - S dot)) then
            filename_rejected "
Invalid filename format (max 8.3). Press ESC to cancel or try again.
"
          else create_named name
      | None =>
          if 8 <? input_len u then
            filename_rejected "
Filename too long (max 8 chars). Press ESC to cancel or try again.
"
          else create_named name
      end
    else ret tt
  else if key =? 27 then
    display (chars "
File creation cancelled.

Press ESC to return to menu...") ;;
    end_input
  else if (input_len u <? 12) && is_valid_filename_char key then
    if (key =? 46) && truthy (input_has_dot u) then ret tt
    else if (key =? 46) && (input_len u =? 0) then ret tt
    else
      set_input (input_len u) (to_upper key) ;;
      upd_ui (fun u => u <| input_len := input_len u + 1 |>) ;;
      (if key =? 46 then upd_ui (fun u => u <| input_has_dot := 1 |>) else ret tt) ;;
      vga_append_text [key]
  else ret tt.

(** ** The renderer *)

Definition grey_on_black : Z := vga_entry_color VGA_COLOR_LIGHT_GREY VGA_COLOR_BLACK.
Definition black_on_grey : Z := vga_entry_color VGA_COLOR_BLACK VGA_COLOR_LIGHT_GREY.

(** [for (i = 0; i < n; i++) vga_putchar_at('=', color, current_x++, 0)] *)
Definition draw_rule (n x : Z) : cells unit :=
  for_each (Z.to_nat n) 0 (fun i => vga_putchar_at 61 grey_on_black (x + i) 0).

Definition draw_title (title : list Z) : cells unit :=
  let title_len := Z.of_nat (List.length title) in
  let padding := u32 (80 - title_len - 4) / 2 in
  draw_rule padding 0 ;;
  vga_writestring_at (chars "=== ") grey_on_black padding 0 ;;
  vga_writestring_at title grey_on_black (padding + 4) 0 ;;
  vga_writestring_at (chars " ===") grey_on_black (padding + 4 + title_len) 0 ;;
  let current_x := padding + 4 + title_len + 4 in
  draw_rule (u32 (80 - current_x)) current_x.

Definition draw_item (menu : Menu) (i current_y : Z) : cells unit :=
  it <- some_or_trap (arr_get (items menu) i) ;;
  let color := if i =? current_selection menu then black_on_grey else grey_on_black in
  vga_writestring_at (if i =? current_selection menu then chars " > " else chars "   ") color 0 current_y ;;
  vga_writestring_at (label it) color 3 current_y.

Definition menu_renderer_draw (menu : Menu) : cells unit :=
  vga_clear_screen grey_on_black ;;
  draw_title (title menu) ;;
  for_each (Z.to_nat (item_count menu)) 0 (fun i => draw_item menu i (2 + i)) ;;
  let current_y := 2 + item_count menu + 1 in
  vga_writestring_at (replicate 80 61 ++ [10]) grey_on_black 0 current_y ;;
  vga_writestring_at (chars "Press ENTER to select, UP/DOWN to navigate, ESC to exit") grey_on_black 0 (current_y + 1).

Definition get_key_input : K Z :=
  b <- on_machine (on_os (on_console (on_kbd keyboard_has_event))) ;;
  if (b : bool) then on_machine (on_os (on_console (on_kbd keyboard_get_event))) else ret 0.

Definition is_up (key : Z) : bool :=
  existsb (Z.eqb key) [KEY_UP; KEY_LEFT; 119; 87; 97; 65].
Definition is_down (key : Z) : bool :=
  existsb (Z.eqb key) [KEY_DOWN; KEY_RIGHT; 115; 83; 100; 68].

(** What the callbacks do. *)
Context (call : menu_callback -> K unit).

Definition menu_renderer_handle_input (m : menu_id) : K (option menu_id) :=
  key <- get_key_input ;;
  if key =? 0 then ret (Some m)
  else
    u <- on_ui get ;;
    if truthy (input_mode u) then process_filename_input key ;; ret (Some m)
    else if callback_display_active u then
      if key =? KEY_ESC then
        upd_ui (fun u => u <| callback_display_active := false |> <| callback_menu := None |> <| needs_redraw := true |>) ;;
        ret (Some (match callback_menu u with Some c => c | None => m end))
      else ret (Some m)
    else
      menu <- get_menu m ;;
      if is_up key then
        (if 0 <? current_selection menu
         then set_menu m (fun x => x <| current_selection := current_selection x - 1 |>) else ret tt) ;;
        ret (Some m)
      else if is_down key then
        (if current_selection menu <? u32 (item_count menu - 1)
         then set_menu m (fun x => x <| current_selection := current_selection x + 1 |>) else ret tt) ;;
        ret (Some m)
      else if (key =? KEY_ENTER) || (key =? 10) then
        it <- some_or_trap (arr_get (items menu) (current_selection menu)) ;;
        match submenu it with
        | Some sub =>
            set_menu sub (fun x => x <| parent_menu := Some m |> <| current_selection := 0 |>) ;;
            ret (Some sub)
        | None =>
            (match callback it with
             | Some cb =>
                 call cb ;;
                 upd_ui (fun u => u <| callback_display_active := true |> <| callback_menu := Some m |>)
             | None => ret tt
             end) ;;
            ret (Some m)
        end
      else if key =? KEY_ESC then ret (parent_menu menu)
      else ret (Some m).

Definition menu_renderer_update (menu : option menu_id) : K (option menu_id) :=
  match menu with
  | None => ret None
  | Some m =>
      u <- on_ui get ;;
      (if callback_display_active u then ret tt
       else
         menu <- get_menu m ;;
         if needs_redraw u || bool_decide (last_menu u <> Some m) || negb (last_selection u =? current_selection menu) then
           on_screen (menu_renderer_draw menu) ;;
           upd_ui (fun u => u <| last_menu := Some m |> <| last_selection := current_selection menu |> <| needs_redraw := false |>)
         else ret tt) ;;
      next <- menu_renderer_handle_input m ;;
      menu <- get_menu m ;;
      u <- on_ui get ;;
      (if bool_decide (next <> Some m) || negb (current_selection menu =? last_selection u)
       then upd_ui (fun u => u <| needs_redraw := true |> <| callback_display_active := false |>)
       else ret tt) ;;
      ret (match next with Some n => Some n | None => Some m end)
  end.
End menu.
