(* ===== verification/MenuMain.v ===== *)
(** * What the menus do ([kernel/menu_main.c]) and the idle task ([kernel/kernel.c])

    The callbacks of the menu items, as programs on the whole machine, and the loop
    that draws the menus and handles their keys. *)

From stdpp Require Import base list gmap numbers option tactics.
From Stdlib Require Import Lia ZArith String Ascii.
From S2P Require Import Prelude PhysMem Pmm Vmm Malloc Io Fat16 Task TaskUser Paging Drivers Libc Descriptors Module Syscall.
From S2P Require Import Boot Info Menu.

Section menu_main.
Context {P D : Type} `{!PortIO P, !PortIO D, !BlockDevice D}.
Abbreviation K := (M (desk P D)).

(** Bounds on loops, polls and the recursion of [kmalloc]; the addresses of strings;
    the processor; the image. *)
Context (fuel polls depth : nat) (string_at : Z -> list Z) (local_address : nat -> Z) (cpu : processor) (im : image).
Context (hello_world_main : Z).

Definition on_fs {B} (c : M (fat16 D) B) : K B := on_machine (on_os (on_fat c)).
Definition on_tasks {B} (c : M (kernel pmm) B) : K B := on_machine (on_os (on_kernel c)).
Definition on_memory {B} (c : M (vm pmm) B) : K B := on_machine (on_os (on_vm c)).
Definition on_frames {B} (c : M pmm B) : K B := on_memory (zoom vm_frames set_frames c).
Definition terminal_puts (text : list Z) : K unit := on_machine (on_os (on_console (terminal_writestring polls text))).

(** [cli; for (;;) hlt]: an endless loop has no bound. *)
Definition halt : K unit := iter fuel (fun _ : unit => ret (inl tt)) tt.

(** A string built by several calls of [sprintf] in one array: [sprintf(buf + pos, ...)]
    runs on the rest of the array and answers the length it has written. *)
Definition sprintf_at (pos : Z) (fmt : string) (strs : list (list Z)) (args : list Z) : M (list Z) Z :=
  n <- zoom (drop (Z.to_nat pos)) (fun l s => take (Z.to_nat pos) s ++ l)
         (sprintf (string_among local_address 0 strs) (chars fmt) args) ;;
  ret (pos + n).

(** [char text[n] = "..."]: the rest of the array is zero. *)
Definition with_text {B} (n : nat) (init : list Z) (c : Z -> M (list Z) B) : K (B * list Z) :=
  with_buffer n (_ <- emit init 0 ;; c (Z.of_nat (List.length init))).

(** [itoa(value, buf, 10)] in a buffer of its own. *)
Definition decimal_text (n : nat) (value : Z) : K (list Z) :=
  r <- with_buffer n (itoa (s32 value) 10) ;; ret (c_string r.2).

Definition menu_boot_os : K unit :=
  display (chars "Booting fishboneOS...
Menu system exiting, starting user tasks...
").

(** ** Memory *)

Definition hex_digits : list Z := chars "0123456789ABCDEF".

(** The characters [format_hex_padded] leaves in [buf], up to its NUL. *)
Definition format_hex_padded (value : Z) : M (list Z) unit :=
  put_at 0 48 ;; put_at 1 120 ;;
  for_each 8 0 (fun i =>
    let shift := 28 - i * 4 in
    let digit := Z.land (Z.shiftr value shift) 0xF in
    c <- some_or_trap (arr_get hex_digits digit) ;;
    put_at (i + 2) c) ;;
  put_at 10 0.
Definition hex_text (value : Z) : K (list Z) :=
  r <- with_buffer 16 (format_hex_padded value) ;; ret (c_string r.2).

(** [append_text(dest, src)] *)
Definition append_text (src : list Z) : M (list Z) unit :=
  s <- get ;;
  p <- emit src (Z.of_nat (List.length (c_string s))) ;;
  put_at p 0.

(** [char line[n] = {0}] and what is appended to it. *)
Definition line_text (n : nat) (parts : list (list Z)) : K (list Z) :=
  r <- with_buffer n (for_each (List.length parts) 0 (fun i =>
         p <- some_or_trap (arr_get parts i) ;; append_text p)) ;;
  ret (c_string r.2).

Definition simple_heap_test : K unit :=
  terminal_puts (chars "Testing kernel heap allocation...
") ;;
  ptr1 <- on_machine (on_heap (kmalloc depth fuel 128)) ;;
  if negb (ptr1 =? 0) then
    terminal_puts (chars "✓ Allocated 128 bytes at ") ;;
    buf <- hex_text ptr1 ;;
    terminal_puts buf ;;
    terminal_puts (chars "
") ;;
    on_memory (vwrite32 ptr1 0xDEADBEEF) ;;
    v <- on_memory (vread32 ptr1) ;;
    (if v =? 0xDEADBEEF then terminal_puts (chars "✓ Memory write/read test passed
") else terminal_puts (chars "✗ Memory test failed
")) ;;
    on_machine (on_heap (kfree ptr1)) ;;
    terminal_puts (chars "✓ Memory freed successfully
")
  else terminal_puts (chars "✗ Memory allocation failed
").

(** [VGA_MEMORY[row * VGA_WIDTH + i]] for the characters of a line, [row++] for a newline. *)
Definition write_return_message (text : list Z) (row : Z) (column : Z -> Z) : cells unit :=
  r <- for_ (R := Empty_set) (List.length text) 0 (fun i row =>
         ch <- some_or_trap (arr_get text i) ;;
         if ch =? 10 then ret (inl (row + 1))
         else
           (if row <? 25 then set_cell (row * VGA_WIDTH + column i) (text_cell ch) else ret tt) ;;
           ret (inl row)) row ;;
  ret tt.

Definition menu_memory_test : K unit :=
  display (chars "==================== Memory Test =====================

") ;;
  simple_heap_test ;;
  on_screen (write_return_message (chars "
Press ESC to return to menu...") 2 (fun i => i)).

Definition menu_shutdown : K unit :=
  display (chars "==================== System Shutdown ====================

Shutting down fishboneOS...
System halted.
") ;;
  halt.

(** ** Tasks *)

(** The message of a failure: a newline sets [i] to 0 before the loop adds 1, so that
    the text is drawn again, without its first character, until the screen ends. *)
Definition write_error_message (error_msg : list Z) (row : Z) : cells unit :=
  iter fuel (fun '(i, row) =>
    match arr_get error_msg i with
    | None => ret (inr tt)
    | Some ch =>
        if negb (row <? 25) then ret (inr tt)
        else if ch =? 10 then ret (inl (1, row + 1))
        else set_cell (row * VGA_WIDTH + i) (text_cell ch) ;; ret (inl (i + 1, row))
    end) (0, row).

(** Characters one after the other, a new row after the last column. *)
Fixpoint write_wrapped (text : list Z) (row col : Z) : cells (Z * Z) :=
  match text with
  | [] => ret (row, col)
  | ch :: text' =>
      set_cell (row * VGA_WIDTH + col) (text_cell ch) ;;
      if VGA_WIDTH <=? col + 1 then write_wrapped text' (row + 1) 0 else write_wrapped text' row (col + 1)
  end.

Definition menu_run_hello_world : K unit :=
  display (chars "==================== Hello World Task =====================

Creating user-mode Hello World task...
") ;;
  hello_task <- on_tasks (task_create_user hello_world_main 0xBFFFE000 (2 * 4096)) ;;
  match hello_task with
  | None => on_screen (write_error_message (chars "ERROR: Failed to create Hello World task!
") 3)
  | Some _ =>
      x <- on_tasks (get_task hello_task) ;;
      pid_buf <- decimal_text 8 (pid x) ;;
      on_screen (
        let* (row, col) := write_wrapped (chars "Task created successfully. Check serial output for Hello World message.
Task PID: ") 3 0 in
        let* (row, col) := write_wrapped pid_buf row col in
        set_cell (row * VGA_WIDTH + col) (text_cell 10))
  end.

Definition menu_run_disk_hello : K unit :=
  display (chars "==================== Disk Hello Task ====================

") ;;
  fd <- on_fs (fat16_open FsNull (Some (chars "HELLO.BIN"))) ;;
  if fd <? 0 then display (chars "ERROR: HELLO.BIN not found in FAT16 root.

")
  else
    let size := PAGE_SIZE * Z.of_nat MAX_USER_CODE_PAGES in
    buffer <- on_machine (on_heap (kmalloc depth fuel size)) ;;
    if buffer =? 0 then
      display (chars "ERROR: Failed to allocate buffer for HELLO.BIN.

") ;;
      _ <- on_fs (fat16_close fd) ;; ret tt
    else
      r <- on_fs (fat16_read fuel fd true size) ;;
      let '(read_bytes, data) := (r : Z * list Z) in
      on_memory (write_user buffer data) ;;
      _ <- on_fs (fat16_close fd) ;;
      if read_bytes <=? 0 then
        display (chars "ERROR: Failed to read HELLO.BIN from FAT16.

") ;;
        on_machine (on_heap (kfree buffer))
      else
        hello_task <- on_tasks (task_create_user_from_binary fuel buffer (u32 read_bytes) 0xBFFFE000 (2 * PAGE_SIZE) 0 0) ;;
        on_machine (on_heap (kfree buffer)) ;;
        match hello_task with
        | None => display (chars "ERROR: Failed to create HELLO.BIN user task.

")
        | Some _ =>
            x <- on_tasks (get_task hello_task) ;;
            pid_buf <- decimal_text 12 (pid x) ;;
            result <- sprintf_text local_address 128 "Created HELLO.BIN task with PID %s.

" [pid_buf] [local_address 0] ;;
            display result
        end.

(** ** Files *)

Definition mount_failed : string := "ERROR: Failed to mount FAT16 volume at LBA 0.

Press ESC to return to menu...".

(** [sprintf(result + strlen(result), ...)] in an array of [n] bytes that holds [text]. *)
Definition sprintf_more (n : nat) (text : list Z) (fmt : string) (strs : list (list Z)) (args : list Z) : K (list Z) :=
  r <- with_text n text (fun pos => sprintf_at pos fmt strs args) ;; ret (c_string r.2).

Definition test_names : list (list Z) := [chars "README.TXT"; chars "HELLO.TXT"; chars "TEST.TXT"; chars "KERNEL.BIN"].

(** The first of the names that opens, and its descriptor. *)
Definition open_first : K (option (list Z * Z)) :=
  r <- for_ (List.length test_names) 0 (fun i (_ : unit) =>
         name <- some_or_trap (arr_get test_names i) ;;
         fd <- on_fs (fat16_open (FsAt 0) (Some name)) ;;
         if 0 <=? fd then ret (inr (name, fd)) else ret (inl tt)) tt ;;
  match r with inl _ => ret None | inr o => ret (Some o) end.

(** What is shown of a byte: printable characters, newlines and tabs. *)
Definition preview_char (ch : Z) : Z :=
  if (32 <=? ch) && (ch <? 0x7F) then ch
  else if (ch =? 10) || (ch =? 13) || (ch =? 9) then ch
  else 46.

(** [char preview[256]] *)
Definition preview_text (file_buffer : list Z) : M (list Z) unit :=
  pos <- emit (preview_char <$> take 255 file_buffer) 0 ;; put_at pos 0.

Definition menu_disk_test : K unit :=
  display (chars "==================== Disk Test ====================

") ;;
  r <- on_fs (fat16_mount (FsAt 0) 0) ;;
  if r <? 0 then display (chars mount_failed)
  else
    fs <- on_fs (deref (FsAt 0)) ;;
    result <- sprintf_text local_address 1024 "FAT16 mounted successfully.
OEM name: %.8s
Bytes/sector: %u
Sectors/cluster: %u
Reserved sectors: %u
Number of FATs: %u
Root entries: %u
Sectors/FAT: %u
FAT start LBA: %u
Root dir LBA: %u
Data start LBA: %u

" [oem_name fs] [local_address 0; bytes_per_sector fs; sectors_per_cluster fs; reserved_sector_count fs; num_fats fs;
       root_entry_count fs; sectors_per_fat fs; fat_start_lba fs; root_dir_start_lba fs; data_start_lba fs] ;;
    o <- open_first ;;
    match o with
    | None =>
        result <- sprintf_more 1024 result "File test: no known root file found.
Create README.TXT or HELLO.TXT in the FAT16 root and retry.

Press ESC to return to menu..." [] [] ;;
        display result
    | Some (opened_name, fd) =>
        r <- on_fs (fat16_read fuel fd true 128) ;;
        let '(bytes_read, data) := (r : Z * list Z) in
        _ <- on_fs (fat16_close fd) ;;
        if bytes_read <? 0 then
          result <- sprintf_more 1024 result "File test: opened %s but failed to read file.

Press ESC to return to menu..." [opened_name] [local_address 0] ;;
          display result
        else
          preview <- with_buffer 256 (preview_text (take (Z.to_nat bytes_read) data)) ;;
          result <- sprintf_more 1024 result "File test: opened %s and read %d bytes.
File preview:
%s

Press ESC to return to menu..." [opened_name; c_string preview.2] [local_address 0; u32 bytes_read; local_address 1] ;;
          display result
    end.

(** A message about [target_name] in an array of 256 bytes. *)
Definition display_about (fmt : string) (target_name : list Z) : K unit :=
  result <- sprintf_text local_address 256 fmt [target_name] [local_address 0] ;; display result.

(** The descriptor of [target_name], created when it does not exist. *)
Definition open_or_create (target_name : list Z) : K (option Z) :=
  fd <- on_fs (fat16_open (FsAt 0) (Some target_name)) ;;
  if fd <? 0 then
    r <- on_fs (fat16_create (FsAt 0) (Some target_name)) ;;
    if r <? 0 then
      display_about "ERROR: Could not create %s in root directory.
Ensure there is free space in the root directory and retry.

Press ESC to return to menu..." target_name ;;
      ret None
    else
      fd <- on_fs (fat16_open (FsAt 0) (Some target_name)) ;;
      if fd <? 0 then
        display_about "ERROR: Created %s but failed to open it afterward.
Press ESC to return to menu..." target_name ;;
        ret None
      else ret (Some fd)
  else ret (Some fd).

(** The file is read back through a new descriptor and shown. *)
Definition show_written (target_name : list Z) (written : Z) : K unit :=
  fd <- on_fs (fat16_open (FsAt 0) (Some target_name)) ;;
  if fd <? 0 then display (chars "ERROR: Failed to reopen FAT16 file after write.

Press ESC to return to menu...")
  else
    r <- on_fs (fat16_read fuel fd true 63) ;;
    let '(read_bytes, data) := (r : Z * list Z) in
    _ <- on_fs (fat16_close fd) ;;
    if read_bytes <? 0 then display (chars "ERROR: Failed to read back FAT16 file after write.

Press ESC to return to menu...")
    else
      let readback := c_string (take (Z.to_nat read_bytes) data) in
      result <- sprintf_text local_address 512 "FAT16 write test succeeded.
Wrote %d bytes to %s.
Read back %d bytes.

File contents:
%s

Press ESC to return to menu..." [target_name; readback] [u32 written; local_address 0; u32 read_bytes; local_address 1] ;;
      display result.

Definition menu_disk_write_test : K unit :=
  display (chars "==================== FAT16 Write Test ====================

") ;;
  r <- on_fs (fat16_mount (FsAt 0) 0) ;;
  if r <? 0 then display (chars mount_failed)
  else
    let target_name := chars "TEST.TXT" in
    o <- open_or_create target_name ;;
    match o with
    | None => ret tt
    | Some fd =>
        let marker := chars "FAT16 WRITE OK
" in
        written <- on_fs (fat16_write fuel fd (Some marker) (Z.of_nat (List.length marker))) ;;
        if written <? 0 then
          _ <- on_fs (fat16_close fd) ;;
          display (chars "ERROR: Failed to write to FAT16 file.

Press ESC to return to menu...")
        else
          r <- on_fs (fat16_close fd) ;;
          if r <? 0 then display (chars "ERROR: Failed to close FAT16 file after write.

Press ESC to return to menu...")
          else show_written target_name written
    end.

Definition menu_list_files : K unit :=
  display (chars "==================== List Files ====================

") ;;
  r <- on_fs (fat16_mount (FsAt 0) 0) ;;
  if r <? 0 then display (chars mount_failed)
  else
    r <- on_fs (fat16_list_root (FsAt 0)) ;;
    if r.1 <? 0 then display (chars "ERROR: Failed to list root directory.

Press ESC to return to menu...")
    else on_screen (write_return_message (chars "

File listing completed. Check serial output for details.

Press ESC to return to menu...") 3 (fun i => i mod VGA_WIDTH)).

Definition menu_create_file : K unit :=
  display (chars "==================== Create File ====================

") ;;
  upd_ui (fun u => u <| input_mode := 1 |>) ;;
  clear_input ;;
  vga_append_text prompt.

Definition menu_delete_file : K unit :=
  display (chars "==================== Delete File ====================

") ;;
  r <- on_fs (fat16_mount (FsAt 0) 0) ;;
  if r <? 0 then display (chars mount_failed)
  else
    let filename := chars "NEWFILE.TXT" in
    r <- on_fs (fat16_delete (FsAt 0) (Some filename)) ;;
    if r <? 0 then display_about "ERROR: Failed to delete file %s.
File may not exist.

Press ESC to return to menu..." filename
    else display_about "File %s deleted successfully.

Press ESC to return to menu..." filename.

(** ** Reports *)

(** Texts appended to the array at [pos], one [sprintf] each. *)
Fixpoint sprintf_lines (pos : Z) (lines : list string) : M (list Z) Z :=
  match lines with
  | [] => ret pos
  | l :: lines' => pos <- sprintf_at pos l [] [] ;; sprintf_lines pos lines'
  end.

Definition display_cpu_info : K unit :=
  let v := cpu_get_vendor_string cpu in
  let vendor := match v with [] => chars "Unknown" | _ => v end in
  total_kb <- on_frames pmm_get_total_memory_kb ;;
  free_kb <- on_frames pmm_get_free_memory_kb ;;
  r <- with_text 2000 (chars "==================== CPU Details =====================

") (fun pos =>
    pos <- sprintf_at pos "CPU Vendor: %s
" [vendor] [local_address 0] ;;
    pos <- sprintf_at pos "
Memory Summary:
" [] [] ;;
    pos <- sprintf_at pos "- Total RAM: %d MB
" [] [total_kb / 1024] ;;
    sprintf_at pos "- Available RAM: %d MB
" [] [free_kb / 1024]) ;;
  display (c_string r.2).

(** A label, an address, and for a range the second address. *)
Definition address_line (n : nat) (name : string) (a : Z) : K (list Z) :=
  buf <- hex_text a ;; line_text n [chars name; buf].
Definition range_line (n : nat) (name : string) (a b : Z) : K (list Z) :=
  buf1 <- hex_text a ;; buf2 <- hex_text b ;; line_text n [chars name; buf1; chars " - "; buf2].
Definition megabytes_line (name : string) (kb : Z) : K (list Z) :=
  buf <- decimal_text 16 (kb / 1024) ;; line_text 32 [chars name; buf; chars " MB"].

Definition ADDRESS_SPACE_END : Z := 0xFFFFFFFF.

Definition memory_lines : K (list (list Z)) :=
  total_kb <- on_frames pmm_get_total_memory_kb ;;
  total_ram_line <- megabytes_line "- Total RAM: " total_kb ;;
  free_kb <- on_frames pmm_get_free_memory_kb ;;
  available_ram_line <- megabytes_line "- Available: " free_kb ;;
  let kernel_reserved_kb := u32 (kernel_physical_end im - kernel_physical_start im) / 1024 in
  reserved_ram_line <- megabytes_line "- Kernel reserved: " kernel_reserved_kb ;;
  kernel_space_line <- range_line 64 "- Kernel space: " KERNEL_VIRT_BASE ADDRESS_SPACE_END ;;
  user_space_line <- range_line 64 "- User space: " USER_SPACE_START USER_SPACE_END ;;
  heap_start_line <- address_line 32 "- Heap start: " KERNEL_HEAP_START ;;
  heap_end_line <- address_line 32 "- Heap end: " KERNEL_HEAP_END ;;
  heap_end <- on_machine (on_heap heap_get_end_vaddr) ;;
  current_heap_line <- address_line 32 "- Current end: " heap_end ;;
  stack_start_line <- address_line 32 "- Stack start: " KERNEL_STACK_REGION_START ;;
  stack_end_line <- address_line 32 "- Stack end: " KERNEL_STACK_REGION_END ;;
  recursive_pdt_line <- address_line 32 "- Recursive PDT: " VMM_PDT_VIRTUAL_ADDR ;;
  temp_page_line <- address_line 32 "- Temp page: " VMM_TEMP_PAGE ;;
  mmio_start_line <- address_line 32 "- MMIO start: " MMIO_RESERVED_START ;;
  ret [ []; chars "Physical Memory:"; total_ram_line; reserved_ram_line; available_ram_line; [];
        chars "Virtual Memory:"; kernel_space_line; user_space_line; [];
        chars "Heap Status:"; heap_start_line; heap_end_line; current_heap_line; [];
        chars "Stack Region:"; stack_start_line; stack_end_line; [];
        chars "VMM Pages:"; recursive_pdt_line; temp_page_line; [];
        chars "MMIO Reserved:"; mmio_start_line ].

Definition memory_title : list Z := chars "==================== Memory Information ====================
".

(** [sprintf(vga_text + pos, "%s\n", lines[i])] for every line. *)
Fixpoint sprintf_strings (pos : Z) (lines : list (list Z)) : M (list Z) Z :=
  match lines with
  | [] => ret pos
  | l :: lines' => pos <- sprintf_at pos "%s
" [l] [local_address 0] ;; sprintf_strings pos lines'
  end.

Definition display_memory_info : K unit :=
  lines <- memory_lines ;;
  terminal_puts memory_title ;;
  for_each (List.length lines) 0 (fun i =>
    l <- some_or_trap (arr_get lines i) ;; terminal_puts l ;; terminal_puts [10]) ;;
  r <- with_text 2000 memory_title (fun pos => sprintf_strings pos lines) ;;
  display (c_string r.2).

Definition display_interrupt_info : K unit :=
  used_entries <- on_machine (on_tables idt_get_used_entries) ;;
  r <- with_text 1000 (chars "==================== Interrupt Table ====================

") (fun pos =>
    pos <- sprintf_at pos "IDT Information:
" [] [] ;;
    pos <- sprintf_at pos "- Total entries: 256
" [] [] ;;
    pos <- sprintf_at pos "- Used entries: %d
" [] [used_entries] ;;
    sprintf_lines pos ["
PIC Configuration:
"%string; "- Master PIC: IRQs 0-7 -> INTs 32-39
"%string; "- Slave PIC: IRQs 8-15 -> INTs 40-47
"%string]) ;;
  display (c_string r.2).

Definition display_device_info : K unit :=
  faulty <- on_machine (on_com (serial_is_faulty SERIAL_COM1_BASE)) ;;
  let serial := if faulty =? 0 then "- Serial Port (COM1) - Detected
"%string else "- Serial Port (COM1) - Not detected
"%string in
  r <- with_text 1000 (chars "==================== Device List ====================

") (fun pos => sprintf_lines pos ["Detected Devices:
"%string; serial; "- Timer (PIT 8253/8254) - Detected
"%string; "- Keyboard (PS/2) - Detected
"%string; "- VGA Text Mode Display - Detected
"%string; "
I/O Ports:
"%string; "- 0x0020-0x0021: Master PIC
"%string; "- 0x00A0-0x00A1: Slave PIC
"%string; "- 0x0040-0x0043: PIT Timer
"%string; "- 0x0060: PS/2 Keyboard Data
"%string; "- 0x0064: PS/2 Keyboard Status
"%string; "- 0x03F8-0x03FF: Serial COM1
"%string; "- 0xB8000: VGA Text Buffer
"%string]) ;;
  display (c_string r.2).

Definition state_str (st : task_state) : list Z :=
  match st with
  | TASK_UNUSED => chars "Unused"
  | TASK_READY => chars "Ready "
  | TASK_RUNNING => chars "Run   "
  | TASK_WAITING => chars "Wait  "
  | TASK_ZOMBIE => chars "Zombie"
  end.

Definition type_str (ty : task_type) : list Z := if decide (ty = TASK_TYPE_USER) then chars "User  " else chars "Kernel".

(** The lines of the tasks in use. *)
Fixpoint sprintf_tasks (pos : Z) (tasks : list task) : M (list Z) Z :=
  match tasks with
  | [] => ret pos
  | t :: tasks' =>
      if decide (state t = TASK_UNUSED) then sprintf_tasks pos tasks'
      else
        pos <- sprintf_at pos " %d   | %s | %s | %d      | %d
" [type_str (type t); state_str (state t)]
                 [pid t; local_address 0; local_address 1; quantum t; ticks t] ;;
        sprintf_tasks pos tasks'
  end.

Definition menu_list_tasks : K unit :=
  tasks <- on_tasks (gets task_table) ;;
  r <- with_text 2000 (chars "==================== TASK LIST ====================

") (fun pos =>
    pos <- sprintf_at pos "PID  | Type   | State    | Quantum | Ticks
" [] [] ;;
    pos <- sprintf_at pos "-----|--------|----------|---------|-------
" [] [] ;;
    sprintf_tasks pos (take TASK_MAX tasks)) ;;
  display (c_string r.2).

Definition menu_cpu_details : K unit := display_cpu_info.
Definition menu_memory_map : K unit := display_memory_info.
Definition menu_interrupt_table : K unit := display_interrupt_info.
Definition menu_device_list : K unit := display_device_info.

(** The function a callback pointer names. *)
Definition call_menu (cb : menu_callback) : K unit :=
  match cb with
  | cb_boot_os => menu_boot_os
  | cb_list_tasks => menu_list_tasks
  | cb_run_hello_world => menu_run_hello_world
  | cb_run_disk_hello => menu_run_disk_hello
  | cb_memory_test => menu_memory_test
  | cb_shutdown => menu_shutdown
  | cb_disk_test => menu_disk_test
  | cb_disk_write_test => menu_disk_write_test
  | cb_list_files => menu_list_files
  | cb_create_file => menu_create_file
  | cb_delete_file => menu_delete_file
  | cb_cpu_details => menu_cpu_details
  | cb_memory_map => menu_memory_map
  | cb_interrupt_table => menu_interrupt_table
  | cb_device_list => menu_device_list
  end.

Definition get_main_menu : option menu_id := Some main_menu.

(** ** The idle task *)

(** The locals of [kernel_idle] and the statics it counts in. *)
Record idle := mkIdle {
  idle_menu : option menu_id;
  last_frame_tick : Z;
  frame_counter : Z;
  kernel_last_service_tick : Z;
}.
#[export] Instance eta_idle : Eta idle := {| eta := fun s =>
  mkIdle (idle_menu s) (last_frame_tick s) (frame_counter s) (kernel_last_service_tick s) |}.

Definition FRAME_DELAY_TICKS : Z := 2.

Definition kernel_dispatch_periodic_services (st : idle) : K idle :=
  ticks <- on_tasks timer_get_ticks ;;
  ret (if negb (ticks =? kernel_last_service_tick st) then st <| kernel_last_service_tick := ticks |> else st).

(** One iteration of the loop; the answer is the task [task_yield] chose. *)
Definition idle_step (st : idle) : K (idle * ptr) :=
  current_tick <- on_tasks timer_get_ticks ;;
  st <- (if FRAME_DELAY_TICKS <=? u32 (current_tick - last_frame_tick st) then
           menu <- menu_renderer_update local_address call_menu (idle_menu st) ;;
           ret (st <| idle_menu := menu |> <| last_frame_tick := current_tick |> <| frame_counter := u32 (frame_counter st + 1) |>)
         else ret st) ;;
  (match idle_menu st with
   | None => on_machine (log polls string_at LOG_INFO "Menu exited, shutting down" []) ;; halt
   | Some _ => ret tt
   end) ;;
  st <- kernel_dispatch_periodic_services st ;;
  t <- on_tasks task_yield ;;
  ret (st, t).

(** [kernel_idle] never returns: [frames] iterations of its loop. *)
Definition kernel_idle_loop (frames : nat) : K idle :=
  on_machine (log polls string_at LOG_INFO "Starting menu system" []) ;;
  iter (S frames) (fun '(n, st) =>
    if (n =? 0)%nat then ret (inr st)
    else let* (st, _) := idle_step st in ret (inl (pred n, st))) (frames, mkIdle get_main_menu 0 0 0).
End menu_main.
