(* ===== verification/MenuSpec.v ===== *)
(** * What the menus show and do

    The screen after a text or a menu has been drawn, as a list of rows; the keys
    that move through the menus; and the file a typed name creates. *)

From stdpp Require Import base list gmap numbers option tactics.
From Stdlib Require Import Lia ZArith String Ascii.
From S2P Require Import Prelude PhysMem Pmm Vmm Io Ata Fat16 Fat16Dir Fat16Path Task Drivers Libc Module Syscall.
From S2P Require Import Boot Info Menu MenuMain.

Abbreviation length := List.length.

(** ** Cells *)

Lemma wp_set_cell pre x post i v (Q : unit -> list Z -> Prop) :
  Z.of_nat (length pre) = i -> Q tt (pre ++ v :: post) -> wp (set_cell i v) Q (pre ++ x :: post).
Proof.
  intros Hi HQ. unfold set_cell. apply wp_bind, wp_get, wp_bind. eapply wp_some_or_trap.
  { apply arr_set_Some. rewrite length_app. cbn [length]. lia. }
  apply wp_put. replace (Z.to_nat i) with (length pre + 0)%nat by lia. by rewrite insert_app_r.
Qed.

(** A screen has 25 rows of 80 cells. *)
Definition is_screen (s : list Z) : Prop := length s = 2000%nat.

Lemma wp_fill (v : Z) (cell : Z -> Z -> cells unit) s (Q : unit -> list Z -> Prop) :
  (forall x y, 0 <= x < 80 -> 0 <= y < 25 -> cell x y = set_cell (y * 80 + x) v) ->
  is_screen s -> Q tt (replicate 2000 v) ->
  wp (for_each (Z.to_nat VGA_HEIGHT) 0 (fun y => for_each (Z.to_nat VGA_WIDTH) 0 (fun x => cell x y))) Q s.
Proof.
  intros Hc Hs HQ. unfold VGA_HEIGHT, VGA_WIDTH.
  set (filled i := replicate (Z.to_nat i) v ++ drop (Z.to_nat i) s).
  apply (wp_for_each (fun y t => t = filled (80 * y))).
  - done.
  - intros y t Hy ->. apply (wp_for_each (fun x t => t = filled (80 * y + x))); [by rewrite Z.add_0_r| |].
    + intros x t Hx ->. rewrite Hc by lia. unfold filled. unfold is_screen in Hs.
      destruct (drop (Z.to_nat (80 * y + x)) s) as [|c rest] eqn:E.
      { apply (f_equal length) in E. rewrite length_drop in E. cbn in E. lia. }
      apply wp_set_cell; [rewrite length_replicate; lia|].
      replace (Z.to_nat (80 * y + (x + 1))) with (Z.to_nat (80 * y + x) + 1)%nat by lia.
      rewrite replicate_add, <- app_assoc, <- drop_drop, E. done.
    + intros t ->. by replace (80 * y + (0 + Z.of_nat (Z.to_nat 80))) with (80 * (y + 1)) by lia.
  - intros t ->. unfold filled, is_screen in *. rewrite drop_ge by lia. by rewrite app_nil_r.
Qed.

(** ** Text *)

Definition plain_text (l : list Z) : Prop := Forall (fun c => 0 < c < 256 /\ c <> 10 /\ c <> 13) l.

(** The lines of a text, separated by newlines. *)
Fixpoint text_of (lines : list (list Z)) : list Z :=
  match lines with
  | [] => []
  | [l] => l
  | l :: lines' => l ++ 10 :: text_of lines'
  end.

(** A row of the screen that shows a line, and the screen that shows some lines. *)
Definition text_row (l : list Z) : list Z := (text_cell <$> l) ++ replicate (80 - length l) (text_cell 32).
Definition screen_of (lines : list (list Z)) : list Z :=
  mjoin (text_row <$> lines) ++ replicate (80 * (25 - length lines)) (text_cell 32).

Definition short_line (l : list Z) : Prop := plain_text l /\ (length l < 80)%nat.

Lemma wp_vga_line l tail pre mid post row col (Q : Z * Z -> list Z -> Prop) :
  plain_text l -> Z.of_nat (length pre) = row * 80 + col -> 0 <= col -> col + Z.of_nat (length l) < 80 -> 0 <= row < 25 ->
  length mid = length l -> wp (vga_text tail row (col + Z.of_nat (length l))) Q (pre ++ (text_cell <$> l) ++ post) ->
  wp (vga_text (l ++ tail) row col) Q (pre ++ mid ++ post).
Proof.
  intros Hl. revert pre mid col. induction Hl as [|c l (Hc & H10 & H13) _ IH]; intros pre mid col Hp Hc0 Hcl Hr Hm HQ.
  { destruct mid; [|done]. cbn [app length fmap list_fmap] in *. by rewrite Z.add_0_r in HQ. }
  destruct mid as [|x mid]; [done|]. cbn [length] in *. injection Hm as Hm. cbn [app vga_text].
  rewrite (proj2 (Z.eqb_neq c 0)), (proj2 (Z.eqb_neq c 10)), (proj2 (Z.eqb_neq c 13)) by lia.
  unfold VGA_WIDTH, VGA_HEIGHT. rewrite (proj2 (Z.ltb_lt col 80)), (proj2 (Z.ltb_lt row 25)) by lia. cbn [andb].
  apply wp_bind. apply wp_set_cell; [lia|]. unfold after_char, VGA_WIDTH. rewrite (proj2 (Z.leb_gt 80 (col + 1))) by lia.
  replace (pre ++ text_cell c :: mid ++ post) with ((pre ++ [text_cell c]) ++ mid ++ post) by by rewrite <- app_assoc.
  apply IH; [rewrite length_app; cbn; lia|lia|lia|done|done|].
  replace (col + 1 + Z.of_nat (length l)) with (col + Z.of_nat (S (length l))) by lia. by rewrite <- app_assoc.
Qed.

Lemma length_text_row l : (length l <= 80)%nat -> length (text_row l) = 80%nat.
Proof. intros H. unfold text_row. rewrite length_app, length_fmap, length_replicate. lia. Qed.

Lemma wp_vga_lines lines pre row (Q : Z * Z -> list Z -> Prop) :
  lines <> [] -> Forall short_line lines -> Z.of_nat (length pre) = row * 80 -> 0 <= row ->
  row + Z.of_nat (length lines) <= 25 ->
  (forall p, 0 <= p.1 < 25 -> 0 <= p.2 < 80 -> Q p (pre ++ mjoin (text_row <$> lines) ++
     replicate (Z.to_nat (80 * (25 - row - Z.of_nat (length lines)))) (text_cell 32))) ->
  wp (vga_text (text_of lines) row 0) Q (pre ++ replicate (Z.to_nat (80 * (25 - row))) (text_cell 32)).
Proof.
  intros Hne Hl. revert pre row Hne. induction Hl as [|l lines [Hpl Hll] Hrest IH]; intros pre row Hne Hp Hr Hn HQ; [done|].
  cbn [length] in *.
  assert (replicate (Z.to_nat (80 * (25 - row))) (text_cell 32) =
    replicate (length l) (text_cell 32) ++ replicate (80 - length l) (text_cell 32) ++
    replicate (Z.to_nat (80 * (25 - (row + 1)))) (text_cell 32)) as ->
    by (rewrite <- !replicate_add; f_equal; lia).
  destruct lines as [|l2 lines].
  - cbn [text_of]. rewrite <- (app_nil_r l) at 1.
    eapply wp_vga_line; [done|lia|lia|lia|lia|by rewrite length_replicate|]. cbn [vga_text]. apply wp_ret.
    specialize (HQ (row, 0 + Z.of_nat (length l))). cbn [fmap list_fmap mjoin list_join fst snd length] in HQ.
    rewrite app_nil_r in HQ. unfold text_row in HQ. rewrite <- !app_assoc in HQ.
    replace (25 - row - Z.of_nat 1) with (25 - (row + 1)) in HQ by lia. apply HQ; lia.
  - change (text_of (l :: l2 :: lines)) with (l ++ 10 :: text_of (l2 :: lines)).
    eapply wp_vga_line; [done|lia|lia|lia|lia|by rewrite length_replicate|].
    cbn [vga_text]. change (10 =? 0) with false. change (10 =? 10) with true. cbv iota.
    unfold next_line, VGA_HEIGHT. rewrite (proj2 (Z.leb_gt 25 (row + 1))) by (cbn [length] in *; lia).
    replace (pre ++ (text_cell <$> l) ++ replicate (80 - length l) (text_cell 32) ++ _) with
      ((pre ++ text_row l) ++ replicate (Z.to_nat (80 * (25 - (row + 1)))) (text_cell 32))
      by (unfold text_row; by rewrite <- !app_assoc).
    apply IH; [done|rewrite length_app, length_text_row by lia; lia|lia|lia|].
    intros p Hp1 Hp2. specialize (HQ p Hp1 Hp2). rewrite fmap_cons in HQ. cbn [mjoin list_join] in HQ.
    rewrite <- !app_assoc in *. by replace (25 - (row + 1) - Z.of_nat (length (l2 :: lines))) with
      (25 - row - Z.of_nat (S (length (l2 :: lines)))) by lia.
Qed.

Lemma wp_display_text lines s (Q : unit -> list Z -> Prop) :
  lines <> [] -> Forall short_line lines -> (length lines <= 25)%nat -> is_screen s ->
  Q tt (screen_of lines) -> wp (vga_display_text (text_of lines)) Q s.
Proof.
  intros Hne Hl Hn Hs HQ. unfold vga_display_text. apply wp_bind.
  apply (wp_fill (text_cell 32)); [done|done|]. apply wp_bind.
  apply (wp_vga_lines lines [] 0); [done|done|done|lia|lia|].
  intros p _ _. apply wp_ret. cbn [app]. unfold screen_of in HQ.
  by replace (Z.to_nat (80 * (25 - 0 - Z.of_nat (length lines)))) with (80 * (25 - length lines))%nat by lia.
Qed.

Lemma rows_cons l lines : mjoin (text_row <$> l :: lines) = text_row l ++ mjoin (text_row <$> lines).
Proof. done. Qed.

Lemma length_rows lines : Forall short_line lines -> length (mjoin (text_row <$> lines)) = (80 * length lines)%nat.
Proof.
  intros Hl. induction Hl as [|l lines [_ Hll] _ IH]; [done|].
  rewrite rows_cons, length_app, length_text_row, IH by lia. cbn [length]. lia.
Qed.

Lemma length_screen_of lines : Forall short_line lines -> (length lines <= 25)%nat -> is_screen (screen_of lines).
Proof. intros Hl Hn. unfold is_screen, screen_of. rewrite length_app, length_replicate, length_rows by done. lia. Qed.

(** The character of a text at a column and a row: blank after the end of a line and
    below the last line. *)
Definition shown_char (lines : list (list Z)) (x y : nat) : Z := default 32 (lines !! y ≫= fun l => l !! x).

Lemma lookup_text_row l x : (x < 80)%nat -> text_row l !! x = Some (text_cell (default 32 (l !! x))).
Proof.
  intros Hx. unfold text_row. destruct (l !! x) as [c|] eqn:E.
  - rewrite lookup_app_l by (rewrite length_fmap; by eapply lookup_lt_Some). by rewrite list_lookup_fmap, E.
  - apply lookup_ge_None in E. rewrite lookup_app_r by (rewrite length_fmap; lia).
    rewrite length_fmap, lookup_replicate_2; [done|lia].
Qed.

Lemma lookup_rows lines k x y : Forall short_line lines -> (x < 80)%nat -> (80 * y + x < 80 * length lines + k)%nat ->
  (mjoin (text_row <$> lines) ++ replicate k (text_cell 32)) !! (80 * y + x)%nat = Some (text_cell (shown_char lines x y)).
Proof.
  intros Hl Hx. unfold shown_char. revert y. induction Hl as [|l lines [_ Hll] _ IH]; intros y Hy.
  - cbn [fmap list_fmap mjoin list_join app length] in *. rewrite lookup_replicate_2 by lia. done.
  - rewrite rows_cons, <- app_assoc. cbn [length] in *. destruct y as [|y].
    + rewrite lookup_app_l by (rewrite length_text_row; lia). rewrite Nat.mul_0_r. by apply lookup_text_row.
    + rewrite lookup_app_r by (rewrite length_text_row; lia). rewrite length_text_row by lia.
      replace (80 * S y + x - 80)%nat with (80 * y + x)%nat by lia. apply IH. lia.
Qed.

(** [vga_display_text] shows a text of at most 25 lines of less than 80 printable
    characters: on whatever screen it starts from, every cell afterwards has, in grey on
    black, the character of the text at that row and column, or a blank. *)
Theorem vga_display_text_shows lines s :
  lines <> [] -> Forall short_line lines -> (length lines <= 25)%nat -> is_screen s ->
  wp (vga_display_text (text_of lines)) (fun _ t => is_screen t /\
    forall x y, (x < 80)%nat -> (y < 25)%nat -> t !! (80 * y + x)%nat = Some (text_cell (shown_char lines x y))) s.
Proof.
  intros Hne Hl Hn Hs. apply wp_display_text; [done..|]. split; [by apply length_screen_of|].
  intros x y Hx Hy. apply lookup_rows; [done..|lia].
Qed.

Lemma vga_display_text_shows_witness :
  text_of [chars "File A.TXT created successfully."; []; chars "Press ESC to return to menu..."] =
    chars "File A.TXT created successfully.

Press ESC to return to menu..." /\
  wp (vga_display_text (text_of [chars "File A.TXT created successfully."; []; chars "Press ESC to return to menu..."]))
    (fun _ t => t !! 5%nat = Some 0x741 /\ t !! 160%nat = Some 0x750 /\ t !! 1999%nat = Some 0x720) (replicate 2000 0).
Proof.
  split; [reflexivity|].
  eapply wp_mono.
  - apply (vga_display_text_shows [chars "File A.TXT created successfully."; []; chars "Press ESC to return to menu..."]);
      [discriminate| |cbn; lia|reflexivity].
    repeat constructor; cbn; lia || discriminate.
  - intros _ t [_ H]. split; [|split].
    + exact (H 5%nat 0%nat ltac:(lia) ltac:(lia)).
    + exact (H 0%nat 2%nat ltac:(lia) ltac:(lia)).
    + exact (H 79%nat 24%nat ltac:(lia) ltac:(lia)).
Defined.

(** ** The parts of the desk *)

Section parts.
Context {P D : Type} `{!PortIO P, !PortIO D, !BlockDevice D}.
Implicit Types s : desk P D.

Definition the_console s : console P := os_console (bt_os (dk_machine s)).
Definition screen s : list Z := terminal_buffer (con_tty (the_console s)).
Definition keys s : kbd := con_kbd (the_console s).
Definition files s : fat16 D := os_fat (bt_os (dk_machine s)).

Definition set_os (g : os pmm P D -> os pmm P D) s : desk P D :=
  s <| dk_machine := (dk_machine s) <| bt_os := g (bt_os (dk_machine s)) |> |>.
Definition set_console (c : console P) s : desk P D := set_os (fun o => o <| os_console := c |>) s.
Definition set_screen (b : list Z) s : desk P D :=
  set_console ((the_console s) <| con_tty := (con_tty (the_console s)) <| terminal_buffer := b |> |>) s.
Definition set_keys (k : kbd) s : desk P D := set_console ((the_console s) <| con_kbd := k |>) s.
Definition set_files (f : fat16 D) s : desk P D := set_os (fun o => o <| os_fat := f |>) s.
Definition set_ui (u : ui) s : desk P D := s <| dk_ui := u |>.

Lemma wp_on_screen {B} (c : cells B) (Q : B -> desk P D -> Prop) s :
  wp c (fun b t => Q b (set_screen t s)) (screen s) -> wp (on_screen c) Q s.
Proof. intros H. unfold on_screen, on_machine. do 5 apply wp_zoom. exact H. Qed.

Lemma wp_on_keys {B} (c : M kbd B) (Q : B -> desk P D -> Prop) s :
  wp c (fun b t => Q b (set_keys t s)) (keys s) -> wp (on_machine (on_os (on_console (on_kbd c)))) Q s.
Proof. intros H. do 4 apply wp_zoom. exact H. Qed.

Lemma wp_on_files {B} (c : M (fat16 D) B) (Q : B -> desk P D -> Prop) s :
  wp c (fun b t => Q b (set_files t s)) (files s) -> wp (on_machine (on_os (on_fat c))) Q s.
Proof. intros H. do 3 apply wp_zoom. exact H. Qed.

Lemma wp_on_ui {B} (c : M ui B) (Q : B -> desk P D -> Prop) s :
  wp c (fun b t => Q b (set_ui t s)) (dk_ui s) -> wp (on_ui c) Q s.
Proof. intros H. apply wp_zoom. exact H. Qed.

Lemma wp_upd_ui g (Q : unit -> desk P D -> Prop) s : Q tt (set_ui (g (dk_ui s)) s) -> wp (upd_ui g) Q s.
Proof. intros H. by apply wp_on_ui, wp_modify. Qed.

Lemma wp_ui_get (Q : ui -> desk P D -> Prop) s : Q (dk_ui s) s -> wp (on_ui get) Q s.
Proof. intros H. apply wp_on_ui, wp_get. by destruct s. Qed.

Lemma wp_get_menu m (Q : Menu -> desk P D -> Prop) s : Q (menu_of (ui_menus (dk_ui s)) m) s -> wp (get_menu m) Q s.
Proof. intros H. apply wp_on_ui, wp_gets. by destruct s. Qed.

Lemma set_parts s : set_ui (dk_ui s) (set_screen (screen s) (set_keys (keys s) s)) = s.
Proof. by destruct s as [[[? [? ? []] ? ? ? ?] ? ? ? ?] ?]. Qed.
End parts.

(** A machine whose keyboard queue holds some keys, in its state before the first menu
    is drawn. *)
Definition demo_keys (l : list Z) : kbd :=
  mkKbd (l ++ replicate (32 - length l) 0) (Z.of_nat (length l) mod 32) 0 (Z.of_nat (length l)) false.
Definition demo_desk (l : list Z) : desk unit drive :=
  set_keys (demo_keys l) (set_screen (replicate 2000 0) (mkDesk demo_machine ui_boot)).

Lemma demo_keys_ok l : bool_decide (length l <= 32)%nat -> kbd_ok (demo_keys l).
Proof.
  intros H%bool_decide_unpack. split; cbn [keyboard_queue keyboard_tail keyboard_count keyboard_head demo_keys]; try lia.
  - rewrite length_app, length_replicate. lia.
  - done.
Qed.
