(* ===== verification/MenuNav.v ===== *)
(** * Moving through the menus

    What the keys of the menus do, as transitions of an abstract state: the menu shown,
    the row selected in every menu, and the menu Escape goes back to.  The frames of
    [menu_renderer_update] implement these transitions, and the screen shows the menu
    they lead to. *)

From stdpp Require Import base list gmap numbers option functions tactics.
From Stdlib Require Import Lia ZArith String Ascii.
From S2P Require Import Prelude PhysMem Pmm Vmm Io Ata Fat16 Task Drivers Libc Module Syscall Boot Info Menu MenuSpec.

(** ** What an item leads to *)

Inductive choice := Opens (m : menu_id) | Runs (cb : menu_callback).

Definition choices (m : menu_id) : list (string * choice) :=
  match m with
  | main_menu =>
      [ ("Boot OS"%string, Runs cb_boot_os); ("Disk Management"%string, Opens disk_management_menu);
        ("System Information"%string, Opens system_info_menu); ("List Tasks"%string, Runs cb_list_tasks);
        ("Run Hello World Task"%string, Runs cb_run_hello_world); ("Run /HELLO.BIN from disk"%string, Runs cb_run_disk_hello);
        ("Memory Test"%string, Runs cb_memory_test); ("Shutdown"%string, Runs cb_shutdown) ]
  | disk_management_menu =>
      [ ("Disk Test"%string, Runs cb_disk_test); ("FAT16 Write Test"%string, Runs cb_disk_write_test);
        ("List Files"%string, Runs cb_list_files); ("Create File"%string, Runs cb_create_file);
        ("Delete File"%string, Runs cb_delete_file); ("Back to Main Menu"%string, Opens main_menu) ]
  | system_info_menu =>
      [ ("CPU Details"%string, Runs cb_cpu_details); ("Memory Map"%string, Runs cb_memory_map);
        ("Interrupt Table"%string, Runs cb_interrupt_table); ("Device List"%string, Runs cb_device_list);
        ("Back to Main Menu"%string, Opens main_menu) ]
  end.
Definition heading (m : menu_id) : string :=
  match m with
  | main_menu => "Main Menu"
  | disk_management_menu => "Disk Management"
  | system_info_menu => "System Information"
  end.
Definition rows (m : menu_id) : Z := Z.of_nat (length (choices m)).

Definition item_of (c : string * choice) : MenuItem :=
  match c.2 with
  | Opens m => mkItem (chars c.1) None (Some m) true
  | Runs cb => mkItem (chars c.1) (Some cb) None true
  end.

(** ** The abstract state *)

Record nav := mkNav {
  nv_at : menu_id;
  nv_row : menu_id -> Z;
  nv_back : menu_id -> option menu_id;
}.

Definition move (i : Z) (n : nav) : nav := mkNav (nv_at n) (<[nv_at n := i]> (nv_row n)) (nv_back n).

(** The state after a key; [None] when the key runs a callback. *)
Definition press (key : Z) (n : nav) : option nav :=
  let m := nv_at n in
  let i := nv_row n m in
  if is_up key then Some (if 0 <? i then move (i - 1) n else n)
  else if is_down key then Some (if i <? rows m - 1 then move (i + 1) n else n)
  else if (key =? 13) || (key =? 10) then
    match snd <$> choices m !! Z.to_nat i with
    | Some (Opens sub) => Some (mkNav sub (<[sub := 0]> (nv_row n)) (<[sub := Some m]> (nv_back n)))
    | _ => None
    end
  else if key =? 27 then Some (mkNav (default m (nv_back n m)) (nv_row n) (nv_back n))
  else Some n.

Fixpoint presses (keys : list Z) (n : nav) : option nav :=
  match keys with
  | [] => Some n
  | key :: keys' => press key n ≫= presses keys'
  end.

(** ** The screen of a menu *)

Definition cell (color c : Z) : Z := vga_entry c color.
Definition row_of (color : Z) (l : list Z) : list Z :=
  (cell color <$> l) ++ replicate (80 - length l) (cell grey_on_black 32).

Definition heading_row (t : list Z) : list Z :=
  let pad := ((80 - length t - 4) / 2)%nat in
  replicate pad 61 ++ chars "=== " ++ t ++ chars " ===" ++ replicate (80 - (pad + length t + 8)) 61.

Definition picture (m : menu_id) (i : Z) : list Z :=
  mjoin ([row_of grey_on_black (heading_row (chars (heading m))); row_of grey_on_black []] ++
    imap (fun j c => if Z.of_nat j =? i then row_of black_on_grey (chars " > " ++ chars c.1)
                     else row_of grey_on_black (chars "   " ++ chars c.1)) (choices m) ++
    [row_of grey_on_black []; row_of grey_on_black (replicate 80 61);
     row_of grey_on_black (chars "Press ENTER to select, UP/DOWN to navigate, ESC to exit")] ++
    replicate (20 - length (choices m)) (row_of grey_on_black [])).

Definition menu_at (m : menu_id) (i : Z) (back : option menu_id) : Menu :=
  mkMenu (chars (heading m)) (item_of <$> choices m) (rows m) i back.

Definition blank_screen : list Z := replicate 2000 (cell grey_on_black 32).

Lemma menus_boot_at m : menu_of menus_boot m = menu_at m 0 (if decide (m = main_menu) then None else Some main_menu).
Proof. by destruct m. Qed.

(** Drawing goes over a blank screen. *)
Definition draw_on_blank (menu : Menu) : cells unit :=
  draw_title (title menu) ;;
  for_each (Z.to_nat (item_count menu)) 0 (fun i => draw_item menu i (2 + i)) ;;
  vga_writestring_at (replicate 80 61 ++ [10]) grey_on_black 0 (2 + item_count menu + 1) ;;
  vga_writestring_at (chars "Press ENTER to select, UP/DOWN to navigate, ESC to exit") grey_on_black 0 (2 + item_count menu + 1 + 1).

(** The rows of every menu, one by one. *)
Ltac each_row i :=
  let rec go k := lazymatch k with
    | O => idtac
    | S ?k' => destruct (Z.eq_dec i (Z.of_nat k')) as [-> | ?]; [vm_compute; reflexivity | go k']
    end in go 8%nat.

Lemma draw_blank m i back : 0 <= i < rows m -> draw_on_blank (menu_at m i back) blank_screen = Ret (tt, picture m i).
Proof. destruct m; unfold rows; cbn [choices length]; intros Hi; each_row i; lia. Qed.

Lemma length_picture m i : 0 <= i < rows m -> is_screen (picture m i).
Proof. unfold is_screen. destruct m; unfold rows; cbn [choices length]; intros Hi; each_row i; lia. Qed.

Lemma wp_draw m i back s (Q : unit -> list Z -> Prop) :
  0 <= i < rows m -> is_screen s -> Q tt (picture m i) -> wp (menu_renderer_draw (menu_at m i back)) Q s.
Proof.
  intros Hi Hs HQ. unfold menu_renderer_draw. apply wp_bind. apply (wp_fill (cell grey_on_black 32)).
  - intros x y Hx Hy. unfold vga_putchar_at, VGA_WIDTH, VGA_HEIGHT.
    by rewrite (proj2 (Z.leb_gt 80 x)), (proj2 (Z.leb_gt 25 y)) by lia.
  - done.
  - change (wp (draw_on_blank (menu_at m i back)) Q blank_screen). unfold wp. by rewrite draw_blank.
Qed.

(** ** The frames implement the transitions *)

Section frames.
Context {P D : Type} `{!PortIO P, !PortIO D, !BlockDevice D}.
Context (local_address : nat -> Z) (call : menu_callback -> M (desk P D) unit).
Implicit Types s : desk P D.

Definition represents (ms : menus) (n : nav) : Prop :=
  forall m, menu_of ms m = menu_at m (nv_row n m) (nv_back n m) /\ 0 <= nv_row n m < rows m.

(** The menus are shown, no text and no input is in the way, and unless the menu will
    be drawn again the screen has the picture of the menu drawn last. *)
Record at_rest (n : nav) s : Prop := {
  ar_menus : represents (ui_menus (dk_ui s)) n;
  ar_input : input_mode (dk_ui s) = 0;
  ar_text : callback_display_active (dk_ui s) = false;
  ar_keys : kbd_ok (keys s);
  ar_screen : is_screen (screen s);
  ar_drawn : needs_redraw (dk_ui s) = false ->
    exists m, last_menu (dk_ui s) = Some m /\ screen s = picture m (last_selection (dk_ui s));
}.

(** Only the keyboard queue, the screen and the statics of the menus change. *)
Definition only_parts s s' : Prop := exists u b k, s' = set_ui u (set_screen b (set_keys k s)).

Lemma only_parts_refl s : only_parts s s.
Proof. exists (dk_ui s), (screen s), (keys s). by rewrite set_parts. Qed.
Lemma only_parts_trans s1 s2 s3 : only_parts s1 s2 -> only_parts s2 s3 -> only_parts s1 s3.
Proof. intros (u & b & k & ->) (u' & b' & k' & ->). by exists u', b', k'. Qed.

Lemma represents_move ms n i :
  represents ms n -> 0 <= i < rows (nv_at n) ->
  represents (update_menu (nv_at n) (fun x => x <| current_selection := i |>) ms) (move i n).
Proof.
  intros H Hi m. destruct (H m) as [Hm Hr]. unfold move. cbn [nv_row nv_back nv_at].
  destruct (decide (nv_at n = m)) as [<-|Hne].
  - rewrite fn_lookup_insert. split; [|done]. unfold menu_at in Hm |- *. by destruct (nv_at n); cbn in Hm |- *; rewrite Hm.
  - rewrite fn_lookup_insert_ne by done. split; [|done]. rewrite <- Hm. by destruct (nv_at n), m.
Qed.

Lemma represents_open ms n sub :
  represents ms n ->
  represents (update_menu sub (fun x => x <| parent_menu := Some (nv_at n) |> <| current_selection := 0 |>) ms)
    (mkNav sub (<[sub := 0]> (nv_row n)) (<[sub := Some (nv_at n)]> (nv_back n))).
Proof.
  intros H m. destruct (H m) as [Hm Hr]. cbn [nv_row nv_back].
  destruct (decide (sub = m)) as [<-|Hne].
  - rewrite !fn_lookup_insert. split; [|by destruct sub]. unfold menu_at in Hm |- *. by destruct sub; cbn in Hm |- *; rewrite Hm.
  - rewrite !fn_lookup_insert_ne by done. split; [|done]. rewrite <- Hm. by destruct sub, m.
Qed.

Lemma update_menu_ext m g h ms : g (menu_of ms m) = h (menu_of ms m) -> update_menu m g ms = update_menu m h ms.
Proof. destruct m; cbn; congruence. Qed.

(** The key is taken from the queue. *)
Lemma wp_get_key s (Q : Z -> desk P D -> Prop) :
  kbd_ok (keys s) ->
  (forall k, kbd_ok k -> pending k = tail (pending (keys s)) -> Q (default 0 (head (pending (keys s)))) (set_keys k s)) ->
  wp get_key_input Q s.
Proof.
  intros Hk HQ. unfold get_key_input. apply wp_bind, wp_on_keys, wp_gets.
  assert (set_keys (keys s) s = s) as -> by by destruct s as [[[? [? ? []] ? ? ? ?] ? ? ? ?] ?].
  pose proof (pending_nil (keys s) Hk) as Hn. pose proof (kb_count _ Hk) as Hc.
  destruct (Z.ltb_spec 0 (keyboard_count (keys s))).
  - apply wp_on_keys, wp_keyboard_get; [done|].
    destruct (pending (keys s)) as [|c l]; [exfalso; destruct Hn as [Hn _]; specialize (Hn eq_refl); lia|].
    intros k' Hk' Hp _. by apply HQ.
  - apply wp_ret. rewrite (proj2 Hn) in HQ by lia. specialize (HQ (keys s) Hk). rewrite (proj2 Hn) in HQ by lia.
    assert (set_keys (keys s) s = s) as E by by destruct s as [[[? [? ? []] ? ? ? ?] ? ? ? ?] ?].
    rewrite E in HQ. by apply HQ.
Qed.

(** What the renderer does with a key, from the state after the draw. *)
Lemma wp_navigate n n' s (Q : option menu_id -> desk P D -> Prop) :
  represents (ui_menus (dk_ui s)) n -> input_mode (dk_ui s) = 0 -> callback_display_active (dk_ui s) = false -> kbd_ok (keys s) ->
  presses (firstn 1 (pending (keys s))) n = Some n' ->
  (forall ms k next, represents ms n' -> kbd_ok k -> pending k = tail (pending (keys s)) ->
     default (nv_at n) next = nv_at n' ->
     Q next (set_ui ((dk_ui s) <| ui_menus := ms |>) (set_keys k s))) ->
  wp (menu_renderer_handle_input local_address call (nv_at n)) Q s.
Proof.
  intros Hr Hi Hd Hk Hn HQ. unfold menu_renderer_handle_input. apply wp_bind, wp_get_key; [done|]. intros k Hk' Hp.
  assert (forall next, n' = mkNav (default (nv_at n) next) (nv_row n) (nv_back n) -> Q next (set_keys k s)) as Hsame.
  { intros next ->. specialize (HQ (ui_menus (dk_ui s)) k next Hr Hk' Hp eq_refl).
    by destruct s as [? []]. }
  destruct (Z.eqb_spec (default 0 (head (pending (keys s)))) 0) as [E|E].
  { apply wp_ret, Hsame. destruct (pending (keys s)) as [|c l]; cbn in E, Hn; [|subst c]; injection Hn as <-; by destruct n. }
  destruct (pending (keys s)) as [|c l]; [done|]. cbn [default head hd_error from_option id tail] in *.
  cbn [firstn take presses] in Hn. destruct (press c n) as [n2|] eqn:Hpress; [|done]. injection Hn as ->.
  apply wp_bind, wp_ui_get. change (dk_ui (set_keys k s)) with (dk_ui s). rewrite Hi, Hd.
  change (truthy 0) with false. cbv iota.
  apply wp_bind, wp_get_menu. destruct (Hr (nv_at n)) as [Hm Hrow].
  change (dk_ui (set_keys k s)) with (dk_ui s). rewrite Hm. unfold press in Hpress.
  change (current_selection (menu_at ?m ?i ?b)) with i. change (item_count (menu_at ?m ?i ?b)) with (rows m).
  set (row := nv_row n (nv_at n)) in *.
  assert (forall i g, 0 <= i < rows (nv_at n) -> move i n = n' -> g (menu_of (ui_menus (dk_ui s)) (nv_at n)) =
      (menu_of (ui_menus (dk_ui s)) (nv_at n)) <| current_selection := i |> ->
    wp (set_menu (nv_at n) g ;; ret (Some (nv_at n))) Q (set_keys k s)) as Hmove.
  { intros i g Hi' <- Hg. apply wp_bind, wp_upd_ui, wp_ret.
    rewrite (update_menu_ext _ g (fun x => x <| current_selection := i |>)) by done.
    by apply HQ; [apply represents_move|..]. }
  assert (n = n' -> wp (ret tt ;; ret (Some (nv_at n))) Q (set_keys k s)) as Hstay.
  { intros <-. apply wp_bind, wp_ret, wp_ret, Hsame. by destruct n. }
  destruct (is_up c).
  { injection Hpress as Hpress. destruct (0 <? row) eqn:E0; [|by apply Hstay].
    apply (Hmove (row - 1)); [lia|done|by rewrite Hm]. }
  destruct (is_down c).
  { injection Hpress as Hpress. rewrite u32_small by (unfold rows in *; destruct (nv_at n); cbn; lia).
    destruct (row <? rows (nv_at n) - 1) eqn:E0; [|by apply Hstay].
    apply (Hmove (row + 1)); [lia|done|by rewrite Hm]. }
  change KEY_ENTER with 13. change KEY_ESC with 27. destruct ((c =? 13) || (c =? 10)).
  - destruct (choices (nv_at n) !! Z.to_nat row) as [[lb [sub|cb]]|] eqn:Ec; [|done..]. injection Hpress as <-.
    apply wp_bind. eapply (wp_some_or_trap _ (item_of (lb, Opens sub))).
    { unfold arr_get. rewrite (proj2 (Z.leb_le 0 row)) by lia.
      change (items (menu_at (nv_at n) row _)) with (item_of <$> choices (nv_at n)). by rewrite list_lookup_fmap, Ec. }
    cbn [submenu item_of snd]. apply wp_bind, wp_upd_ui, wp_ret. by apply HQ; [apply represents_open|..].
  - destruct (c =? 27); injection Hpress as <-; apply wp_ret; apply Hsame; [done|by destruct n].
Qed.

(** One frame: the menu is drawn when it has to be, and the oldest key is handled. *)
Lemma wp_frame n n' s (Q : option menu_id -> desk P D -> Prop) :
  at_rest n s -> presses (firstn 1 (pending (keys s))) n = Some n' ->
  (forall s', at_rest n' s' -> pending (keys s') = tail (pending (keys s)) -> only_parts s s' ->
     (pending (keys s) = [] -> screen s' = picture (nv_at n) (nv_row n (nv_at n))) -> Q (Some (nv_at n')) s') ->
  wp (menu_renderer_update local_address call (Some (nv_at n))) Q s.
Proof.
  intros [Hr Hi Ht Hk Hs Hd] Hn HQ. unfold menu_renderer_update. apply wp_bind, wp_ui_get. apply wp_bind.
  destruct (Hr (nv_at n)) as [Hm Hrow]. set (row := nv_row n (nv_at n)) in *.
  apply (wp_mono _ (fun _ t => exists u b, t = set_ui u (set_screen b s) /\ ui_menus u = ui_menus (dk_ui s) /\
    input_mode u = 0 /\ callback_display_active u = false /\ last_menu u = Some (nv_at n) /\ last_selection u = row /\
    needs_redraw u = false /\ b = picture (nv_at n) row)).
  { rewrite Ht. apply wp_bind, wp_get_menu. rewrite Hm. change (current_selection (menu_at ?m ?i ?b)) with i.
    destruct (needs_redraw (dk_ui s) || _ || _) eqn:E.
    - apply wp_bind, wp_on_screen, wp_draw; [done|done|]. apply wp_upd_ui. eexists _, _. split; [reflexivity|done].
    - apply orb_false_elim in E as [[E1 E2]%orb_false_elim E3]. apply bool_decide_eq_false, dec_stable in E2.
      apply negb_false_iff, Z.eqb_eq in E3. destruct (Hd E1) as (m & Em & Es). apply wp_ret.
      exists (dk_ui s), (screen s). rewrite Em in E2. injection E2 as ->. rewrite E3 in Es.
      split_and!; [|done..]. by destruct s as [[[? [? ? []] ? ? ? ?] ? ? ? ?] ?]. }
  intros _ t (u & b & -> & Hu & Hui & Hut & Hlm & Hls & Hnr & ->).
  apply wp_bind, (wp_navigate n n'); [by change (represents (ui_menus u) n); rewrite Hu|done..|].
  intros ms k next Hms Hk' Hp Hnext. change (dk_ui (set_ui u ?t)) with u.
  set (u1 := u <| ui_menus := ms |>). set (pic := picture (nv_at n) row) in *.
  change (set_ui u1 ?x) with (set_ui u1 (set_screen pic (set_keys k s))).
  apply wp_bind, wp_get_menu, wp_bind, wp_ui_get, wp_bind.
  apply (wp_mono _ (fun _ t => exists b, t = set_ui (u1 <| needs_redraw := b |> <| callback_display_active := false |>)
    (set_screen pic (set_keys k s)))).
  { destruct (bool_decide _ || _); [by apply wp_upd_ui; exists true|apply wp_ret; exists false].
    f_equal. unfold u1. destruct u; cbn in *. unfold update. cbn. congruence. }
  intros _ t (b & ->). apply wp_ret.
  assert (match next with Some x => Some x | None => Some (nv_at n) end = Some (nv_at n')) as -> by
    (rewrite <- Hnext; by destruct next).
  apply HQ.
  - split; [done|done|done|done|by apply length_picture|]. intros _. exists (nv_at n). split; [done|].
    change (pic = picture (nv_at n) (last_selection u)). by rewrite Hls.
  - exact Hp.
  - by eexists _, _, _.
  - done.
Qed.

(** [k] calls of [menu_renderer_update], each on the menu the last one answered. *)
Fixpoint frames (k : nat) (menu : option menu_id) : M (desk P D) (option menu_id) :=
  match k with
  | O => ret menu
  | S k' => menu' <- menu_renderer_update local_address call menu ;; frames k' menu'
  end.

End frames.

Definition nav_boot : nav := mkNav main_menu (fun _ => 0) (fun m => if decide (m = main_menu) then None else Some main_menu).

(** To the disk menu, down to "Back to Main Menu", and Escape in the main menu: the keys
    lead to the disk menu again. *)
Definition demo_walk : list Z := [KEY_DOWN; 10; KEY_DOWN; KEY_DOWN; KEY_DOWN; KEY_DOWN; KEY_DOWN; 10; 27].

