(* ===== verification/MenuInput.v ===== *)
(** * The input of a file name

    What the keys of a file name add up to, as an abstract entry: a base name and,
    after a dot, an extension.  [process_filename_input] follows it, and Enter creates
    the file of that name when it has the 8.3 form. *)

From stdpp Require Import base list gmap numbers option tactics.
From Stdlib Require Import Lia ZArith String Ascii.
From S2P Require Import Prelude PhysMem Pmm Vmm Io Ata Fat16 Fat16Dir Fat16Path Task Drivers Libc Module Syscall.
From S2P Require Import Boot Info Menu MenuSpec.

(** ** The entry *)

Definition entry : Type := list Z * option (list Z).

Definition text_of_entry (e : entry) : list Z :=
  match e with
  | (base, None) => base
  | (base, Some ext) => base ++ 46 :: ext
  end.

(** The character a key stands for: letters in upper case, digits, the underscore. *)
Definition name_char (key : Z) : option Z :=
  if (97 <=? key) && (key <=? 122) then Some (key - 32)
  else if ((65 <=? key) && (key <=? 90)) || ((48 <=? key) && (key <=? 57)) || (key =? 95) then Some key
  else None.

Definition add_char (c : Z) (e : entry) : entry :=
  match e with
  | (base, None) => (base ++ [c], None)
  | (base, Some ext) => (base, Some (ext ++ [c]))
  end.
Definition add_dot (e : entry) : entry :=
  match e.2, e.1 with
  | None, _ :: _ => (e.1, Some [])
  | _, _ => e
  end.

(** A thirteenth character, a second dot and a leading dot are ignored. *)
Definition typed_step (e : entry) (key : Z) : entry :=
  if (length (text_of_entry e) <? 12)%nat then
    if key =? 46 then add_dot e
    else match name_char key with Some c => add_char c e | None => e end
  else e.
Definition typed (keys : list Z) : entry := foldl typed_step ([], None) keys.

(** The 8.3 form, and the name in the directory. *)
Definition fits (e : entry) : bool := (length e.1 <=? 8)%nat && (length (default [] e.2) <=? 3)%nat.
Definition directory_name (e : entry) : list Z := pad 8 e.1 ++ pad 3 (default [] e.2).

Definition created_lines (e : entry) : list (list Z) :=
  [chars "File " ++ text_of_entry e ++ chars " created successfully."; []; chars "Press ESC to return to menu..."].
Definition failed_lines (e : entry) : list (list Z) :=
  [chars "ERROR: Failed to create file " ++ text_of_entry e ++ chars ".";
   chars "File may already exist or no free space in root directory."; []; chars "Press ESC to return to menu..."].

Definition stored (c : Z) : Prop := 65 <= c <= 90 \/ 48 <= c <= 57 \/ c = 95.

Lemma name_char_stored key c : name_char key = Some c -> stored c.
Proof. unfold name_char, stored. repeat case_match; intros [= <-]; lia. Qed.

(** How the code finds the same character. *)
Lemma valid_name_char key :
  is_valid_filename_char key = (key =? 46) || bool_decide (is_Some (name_char key)).
Proof.
  unfold is_valid_filename_char, name_char. destruct (Z.eqb_spec key 46) as [->|]; [done|].
  repeat case_match; cbn [bool_decide orb]; rewrite ?bool_decide_true, ?bool_decide_false by (by eexists || by intros []); lia.
Qed.

Lemma to_upper_name_char key c : name_char key = Some c -> to_upper key = c.
Proof. unfold name_char, to_upper. repeat case_match; intros [= <-]; lia. Qed.

(** ** Entries *)

Record entry_ok (e : entry) : Prop := {
  en_base : Forall stored e.1;
  en_ext : Forall stored (default [] e.2);
  en_start : e.2 <> None -> e.1 <> [];
  en_length : (length (text_of_entry e) <= 12)%nat;
}.

Lemma length_text_of_entry e :
  length (text_of_entry e) = match e.2 with None => length e.1 | Some x => (length e.1 + S (length x))%nat end.
Proof. destruct e as [base [ext|]]; [|done]. apply length_app. Qed.

Lemma add_char_ok c e : stored c -> entry_ok e -> (length (text_of_entry e) < 12)%nat -> entry_ok (add_char c e).
Proof.
  intros Hc [Hb He Hs _]. rewrite length_text_of_entry. destruct e as [base [ext|]]; cbn [add_char fst snd default] in *; intros Hl.
  - split; [done|by apply list.Forall_app; split; [|constructor]|intros _; by apply Hs|]. rewrite length_text_of_entry. cbn. rewrite length_app. cbn. lia.
  - split; [by apply list.Forall_app; split; [|constructor]|done|done|]. rewrite length_text_of_entry. cbn. rewrite length_app. cbn. lia.
Qed.

Lemma add_dot_ok e : entry_ok e -> (length (text_of_entry e) < 12)%nat -> entry_ok (add_dot e).
Proof.
  intros He Hl. rewrite length_text_of_entry in Hl. unfold add_dot.
  destruct (e.2) eqn:E; [done|]. destruct (e.1) as [|c base] eqn:E1; [done|].
  split; cbn [fst snd default]; [rewrite <- E1; apply He|constructor|done|]. rewrite length_text_of_entry. cbn in *. lia.
Qed.

Lemma typed_step_ok e key : entry_ok e -> entry_ok (typed_step e key).
Proof.
  intros He. unfold typed_step. destruct (Nat.ltb_spec (length (text_of_entry e)) 12); [|done].
  destruct (key =? 46); [by apply add_dot_ok|]. destruct (name_char key) eqn:E; [|done].
  apply add_char_ok; [by eapply name_char_stored|done..].
Qed.

Lemma typed_ok keys : entry_ok (typed keys).
Proof.
  unfold typed. assert (entry_ok ([], None)) as H by (split; cbn; [constructor|constructor|done|lia]).
  revert H. generalize (([], None) : entry). induction keys as [|k keys IH]; intros e He; [done|]. apply IH. by apply typed_step_ok.
Qed.

(** ** The form of the name *)

Lemma find_dot_stored base rest : Forall stored base -> find_dot (base ++ rest) = Nat.add (length base) <$> find_dot rest.
Proof.
  induction 1 as [|c base Hc _ IH]; cbn [app find_dot]; [by destruct (find_dot rest)|].
  rewrite (proj2 (Z.eqb_neq c 46)) by (unfold stored in *; lia). rewrite IH. by destruct (find_dot rest).
Qed.

Lemma find_dot_entry e : entry_ok e -> find_dot (text_of_entry e) = match e.2 with None => None | Some _ => Some (length e.1) end.
Proof.
  intros [Hb _ _ _]. destruct e as [base [ext|]]; cbn [text_of_entry fst snd] in *.
  - rewrite find_dot_stored by done. cbn. by rewrite Nat.add_0_r.
  - rewrite <- (app_nil_r base). by rewrite find_dot_stored.
Qed.

Lemma stored_plain l : Forall stored l -> Forall plain_char l.
Proof. intros H. eapply list.Forall_impl; [exact H|]. unfold stored, plain_char, is_char. lia. Qed.

Lemma text_of_entry_chars e : entry_ok e -> Forall (fun c => 0 < c < 128 /\ c <> 10 /\ c <> 13) (text_of_entry e).
Proof.
  assert (forall l, Forall stored l -> Forall (fun c => 0 < c < 128 /\ c <> 10 /\ c <> 13) l) as H.
  { intros l Hl. eapply list.Forall_impl; [exact Hl|]. unfold stored. lia. }
  intros [Hb He _ _]. destruct e as [base [ext|]]; cbn in *; [|by apply H].
  apply list.Forall_app. split; [by apply H|]. constructor; [lia|by apply H].
Qed.

Lemma normalize_entry e : entry_ok e -> e.1 <> [] -> fits e = true ->
  fat16_normalize_short_name (Some (text_of_entry e)) = Some (directory_name e) /\ is_name (directory_name e).
Proof.
  intros [Hb He Hs Hl] Hne Hf. unfold fits in Hf. apply andb_prop in Hf as [Hf1%Nat.leb_le Hf2%Nat.leb_le].
  assert (short_name e.1 (default [] e.2)) as Hsn.
  { split; [by apply stored_plain|by apply stored_plain| |done|].
    - destruct (e.1); [done|]. cbn in *. lia.
    - destruct Hb as [|c ? Hc _]; [done|]. unfold stored in Hc. lia. }
  split; [|by apply short_name_ok]. destruct e as [base [ext|]]; cbn [text_of_entry fst snd default] in *.
  - apply (normalize_dotted []); [done|constructor].
  - apply (normalize_plain []); [done|constructor].
Qed.

(** ** The code follows the entry *)

Section input.
Context {P D : Type} `{!PortIO P, !PortIO D, !BlockDevice D}.
Context (local_address : nat -> Z).
Implicit Types s : desk P D.

(** The state of the input when the entry has been typed. *)
Record typing (e : entry) s : Prop := {
  ty_mode : input_mode (dk_ui s) = 1;
  ty_buffer : input_buffer (dk_ui s) = text_of_entry e ++ replicate (13 - length (text_of_entry e)) 0;
  ty_len : input_len (dk_ui s) = Z.of_nat (length (text_of_entry e));
  ty_dot : truthy (input_has_dot (dk_ui s)) = bool_decide (is_Some e.2);
  ty_entry : entry_ok e;
  ty_row : 0 <= append_row (dk_ui s) < 25;
  ty_col : 0 <= append_col (dk_ui s) < 80;
  ty_screen : is_screen (screen s);
}.

(** Text from any position leaves a screen and a position on it. *)
Lemma wp_vga_text text row col b :
  0 <= row < 25 -> 0 <= col < 80 -> is_screen b ->
  wp (vga_text text row col) (fun p b' => 0 <= p.1 < 25 /\ 0 <= p.2 < 80 /\ is_screen b') b.
Proof.
  revert row col b. induction text as [|c text IH]; intros row col b Hr Hc Hb; cbn [vga_text]; [by apply wp_ret|].
  assert (0 <= next_line row < 25) as Hn by (unfold next_line, VGA_HEIGHT; destruct (Z.leb_spec 25 (row + 1)); lia).
  destruct (c =? 0); [by apply wp_ret|]. destruct (c =? 10); [by apply IH|]. destruct (c =? 13); [by apply IH|].
  unfold VGA_WIDTH, VGA_HEIGHT. rewrite (proj2 (Z.ltb_lt col 80)), (proj2 (Z.ltb_lt row 25)) by lia. cbn [andb].
  unfold is_screen in Hb. apply wp_bind. unfold set_cell. apply wp_bind, wp_get, wp_bind. eapply wp_some_or_trap.
  { apply arr_set_Some. lia. }
  apply wp_put. unfold after_char, VGA_WIDTH. destruct (Z.leb_spec 80 (col + 1)); apply IH; try lia; try done;
    unfold is_screen; by rewrite length_insert.
Qed.

Lemma wp_append text s (Q : unit -> desk P D -> Prop) :
  0 <= append_row (dk_ui s) < 25 -> 0 <= append_col (dk_ui s) < 80 -> is_screen (screen s) ->
  (forall r c b, 0 <= r < 25 -> 0 <= c < 80 -> is_screen b ->
     Q tt (set_ui ((dk_ui s) <| append_row := r |> <| append_col := c |>) (set_screen b s))) ->
  wp (vga_append_text text) Q s.
Proof.
  intros Hr Hc Hs HQ. unfold vga_append_text. apply wp_bind, wp_ui_get, wp_bind, wp_on_screen.
  eapply wp_mono; [by apply wp_vga_text|]. intros [r c] b (H1 & H2 & H3). by apply wp_upd_ui, HQ.
Qed.

Lemma wp_display lines s (Q : unit -> desk P D -> Prop) :
  lines <> [] -> Forall short_line lines -> (length lines <= 25)%nat -> is_screen (screen s) ->
  Q tt (set_screen (screen_of lines) s) -> wp (display (text_of lines)) Q s.
Proof. intros H1 H2 H3 H4 HQ. by apply wp_on_screen, wp_display_text. Qed.

(** [input_buffer] with one more character. *)
Lemma wp_set_input i c l x s (Q : unit -> desk P D -> Prop) :
  input_buffer (dk_ui s) = l ++ replicate (S x) 0 -> i = Z.of_nat (length l) ->
  Q tt (set_ui ((dk_ui s) <| input_buffer := l ++ c :: replicate x 0 |>) s) -> wp (set_input i c) Q s.
Proof.
  intros Hl -> HQ. unfold set_input. apply wp_bind, wp_ui_get, wp_bind. rewrite Hl. eapply wp_some_or_trap.
  { apply arr_set_Some. rewrite length_app. cbn [length replicate]. lia. }
  rewrite Nat2Z.id. replace (length l) with (length l + 0)%nat by lia. rewrite insert_app_r. by apply wp_upd_ui.
Qed.

Lemma text_add_char c e : text_of_entry (add_char c e) = text_of_entry e ++ [c].
Proof. destruct e as [base [ext|]]; cbn; [by rewrite <- app_assoc|done]. Qed.

Lemma wp_type_key e key s :
  typing e s -> key <> 10 -> key <> 13 -> key <> 27 ->
  wp (process_filename_input local_address key) (fun _ s' => typing (typed_step e key) s' /\ files s' = files s) s.
Proof.
  intros Ht H10 H13 H27. pose proof Ht as [Hm Hb Hl Hd He Hr Hc Hs]. unfold process_filename_input.
  apply wp_bind, wp_ui_get.
  rewrite (proj2 (Z.eqb_neq key 10)), (proj2 (Z.eqb_neq key 13)), (proj2 (Z.eqb_neq key 27)) by done. cbn [orb].
  rewrite Hl, Hd, valid_name_char. pose proof (en_length _ He) as Hmax. unfold typed_step.
  destruct (Nat.ltb_spec (length (text_of_entry e)) 12) as [Hlt|Hge].
  2:{ rewrite (proj2 (Z.ltb_ge _ 12)) by lia. by apply wp_ret. }
  rewrite (proj2 (Z.ltb_lt _ 12)) by lia. cbn [andb].
  (* the steps that store a character *)
  assert (forall c e', text_of_entry e' = text_of_entry e ++ [c] -> entry_ok e' -> to_upper key = c ->
    bool_decide (is_Some e'.2) = (key =? 46) || bool_decide (is_Some e.2) ->
    wp (set_input (Z.of_nat (length (text_of_entry e))) (to_upper key) ;;
        upd_ui (fun u => u <| input_len := input_len u + 1 |>) ;;
        (if key =? 46 then upd_ui (fun u => u <| input_has_dot := 1 |>) else ret tt) ;;
        vga_append_text [key]) (fun _ s' => typing e' s' /\ files s' = files s) s) as Hstore.
  { intros c e' Htext He' -> Hdot. pose proof (en_length _ He') as Hl'. rewrite Htext, length_app in Hl'. cbn [length] in Hl'.
    apply wp_bind. eapply (wp_set_input _ _ _ (12 - length (text_of_entry e))); [rewrite Hb; do 2 f_equal; lia|done|].
    apply wp_bind, wp_upd_ui, wp_bind.
    apply (wp_mono _ (fun _ t => exists d, truthy d = bool_decide (is_Some e'.2) /\ t = set_ui ((dk_ui s)
      <| input_buffer := text_of_entry e' ++ replicate (12 - length (text_of_entry e)) 0 |>
      <| input_len := Z.of_nat (length (text_of_entry e')) |> <| input_has_dot := d |>) s)).
    - assert (text_of_entry e ++ c :: replicate (12 - length (text_of_entry e)) 0 =
        text_of_entry e' ++ replicate (12 - length (text_of_entry e)) 0) as -> by by rewrite Htext, <- app_assoc.
      assert (input_len (dk_ui s) + 1 = Z.of_nat (length (text_of_entry e'))) as Hlen
        by (rewrite Hl, Htext, length_app; cbn [length]; lia).
      destruct (key =? 46); cbn [orb] in Hdot.
      + apply wp_upd_ui. exists 1. split; [by rewrite Hdot|]. rewrite <- Hlen. done.
      + apply wp_ret. exists (input_has_dot (dk_ui s)). split; [by rewrite Hd, Hdot|]. rewrite <- Hlen. done.
    - intros _ t (d & Hd' & ->). apply wp_append; [done..|]. intros r x b Hr' Hx Hb'. split; [|done].
      split; try done. change (text_of_entry e' ++ replicate (12 - length (text_of_entry e)) 0 =
        text_of_entry e' ++ replicate (13 - length (text_of_entry e')) 0).
      rewrite Htext, length_app. do 2 f_equal. cbn [length]. lia. }
  destruct (Z.eqb_spec key 46) as [->|Hne]; cbn [orb andb].
  - unfold add_dot. destruct (e.2) as [ext|] eqn:E2.
    { rewrite bool_decide_true by (by eexists). by apply wp_ret. }
    rewrite bool_decide_false by (by intros []). destruct e as [base ?]. cbn [fst snd] in *. subst.
    destruct base as [|x base]; [by apply wp_ret|].
    rewrite (proj2 (Z.eqb_neq _ 0)) by (cbn; lia). apply (Hstore 46); [done|by apply (add_dot_ok (x :: base, None))|done|done].
  - destruct (name_char key) as [c|] eqn:Ec.
    + rewrite bool_decide_true by (by eexists). apply (Hstore c); [apply text_add_char| |by apply to_upper_name_char|].
      * apply add_char_ok; [by eapply name_char_stored|done..].
      * by destruct e as [? []].
    + rewrite bool_decide_false by (by intros []). by apply wp_ret.
Qed.

Fixpoint type_keys (ks : list Z) : M (desk P D) unit :=
  match ks with
  | [] => ret tt
  | key :: ks' => process_filename_input local_address key ;; type_keys ks'
  end.

Lemma wp_type_keys ks e s :
  typing e s -> Forall (fun k => k <> 10 /\ k <> 13 /\ k <> 27) ks ->
  wp (type_keys ks) (fun _ s' => typing (foldl typed_step e ks) s' /\ files s' = files s) s.
Proof.
  intros Ht Hk. revert e s Ht. induction Hk as [|key ks (H1 & H2 & H3) _ IH]; intros e s Ht; cbn [type_keys foldl]; [by apply wp_ret|].
  apply wp_bind. eapply wp_mono; [by apply wp_type_key|]. intros [] s1 [Ht1 <-]. by apply IH.
Qed.

(** The file has been created or not, and the message says which. *)
Definition creation_done (e : entry) s s' : Prop :=
  exists fm r, holds (mounted (files s) (FsAt 0) (layout_of (bd_data (disk (files s)) 0) 0)) (bd_data (disk (files s))) fm /\
    create_post fm (layout_of (bd_data (disk (files s)) 0) 0) (directory_name e) r (files s') /\
    input_mode (dk_ui s') = 0 /\
    screen s' = screen_of (if r <? 0 then failed_lines e else created_lines e).

(** ["pre%spost"] with the name. *)
Lemma formats_name pre post name a (str : Z -> list Z) :
  Forall text_char pre -> Forall text_char post -> Forall (fun c => 0 < c < 256) name -> a <> 0 -> str a = name ->
  formats str (pre ++ [37; 115] ++ post) [a] (pre ++ name ++ post).
Proof.
  intros Hpre Hpost Hname Ha Hs. apply formats_text; [done|].
  rewrite <- (app_nil_r post) at 1 2.
  apply (formats_conv str false [] 115 (post ++ []) [a] [] name); [constructor|done|done|unfold is_digit; lia| |].
  - cbn [conversion Z.eqb]. change (115 =? 99) with false. change (115 =? 115) with true. cbv iota.
    by rewrite (proj2 (Z.eqb_neq a 0)), Hs, fmap_u8.
  - apply formats_text; [done|constructor].
Qed.

Lemma wp_sprintf_text n fmt strs args out s (Q : list Z -> desk P D -> Prop) :
  formats (string_among local_address 0 strs) (chars fmt) args out -> (length out < n)%nat -> Forall (fun c => c <> 0) out ->
  Q out s -> wp (sprintf_text local_address n fmt strs args) Q s.
Proof.
  intros Hf Hl Ho HQ. unfold sprintf_text. apply wp_bind, wp_with_buffer.
  eapply wp_mono; [apply wp_vsprintf; [exact Hf|by rewrite length_replicate]|].
  intros len buf [_ ->]. apply wp_ret. cbn [snd]. by rewrite c_string_text.
Qed.

(** A message about the file, in an array of 256 bytes, on the screen. *)
Lemma wp_file_message e fmt pre post lines s (Q : unit -> desk P D -> Prop) :
  entry_ok e -> local_address 0 <> 0 -> is_screen (screen s) ->
  chars fmt = pre ++ [37; 115] ++ post -> forallb (fun c => (0 <? c) && (c <? 256) && negb (c =? 37)) (pre ++ post) = true ->
  (length (pre ++ post) <= 200)%nat ->
  text_of lines = pre ++ text_of_entry e ++ post -> lines <> [] -> Forall short_line lines -> (length lines <= 25)%nat ->
  Q tt (set_screen (screen_of lines) s) ->
  wp (result <- sprintf_text local_address 256 fmt [text_of_entry e] [local_address 0] ;; display result) Q s.
Proof.
  intros He Ha Hs Hfmt Hch Hlen Htext H1 H2 H3 HQ. rewrite forallb_app in Hch. apply andb_prop in Hch as [Hpre Hpost].
  assert (forall l, forallb (fun c => (0 <? c) && (c <? 256) && negb (c =? 37)) l = true -> Forall text_char l) as Hch.
  { intros l Hl. rewrite forallb_forall in Hl. apply list.Forall_forall. intros c Hc%list_elem_of_In. specialize (Hl _ Hc).
    unfold text_char. lia. }
  apply Hch in Hpre, Hpost. clear Hch.
  assert (Forall (fun c => 0 < c < 256) (text_of_entry e)) as Hname.
  { eapply list.Forall_impl; [by apply text_of_entry_chars|]. cbn. lia. }
  apply wp_bind. eapply (wp_sprintf_text _ _ _ _ (pre ++ text_of_entry e ++ post)).
  - rewrite Hfmt. apply formats_name; [done..|]. cbn [string_among]. by rewrite Z.eqb_refl.
  - pose proof (en_length _ He). rewrite !length_app in *. lia.
  - rewrite !list.Forall_app. split_and!; (eapply list.Forall_impl; [eassumption|]); unfold text_char; lia.
  - rewrite <- Htext. by apply wp_display.
Qed.

Lemma short_text l : forallb (fun c => (0 <? c) && (c <? 128) && negb (c =? 10) && negb (c =? 13)) l = true ->
  (length l < 80)%nat -> short_line l.
Proof.
  intros Hl Hn. split; [|done]. rewrite forallb_forall in Hl. apply list.Forall_forall.
  intros c Hc%list_elem_of_In. specialize (Hl _ Hc). lia.
Qed.

Lemma short_name_line pre e post :
  entry_ok e -> forallb (fun c => (0 <? c) && (c <? 128) && negb (c =? 10) && negb (c =? 13)) (pre ++ post) = true ->
  (length (pre ++ post) < 60)%nat -> short_line (pre ++ text_of_entry e ++ post).
Proof.
  intros He Hl Hn. pose proof (en_length _ He). rewrite forallb_app in Hl. apply andb_prop in Hl as [H1 H2].
  apply short_text in H1 as [H1 _], H2 as [H2 _]; rewrite ?length_app in *; try lia.
  split; [|rewrite !length_app; lia]. unfold plain_text in *. rewrite !list.Forall_app. split_and!; [done| |done].
  eapply list.Forall_impl; [by apply text_of_entry_chars|]. cbn. lia.
Qed.

Lemma created_lines_ok e : entry_ok e -> Forall short_line (created_lines e).
Proof.
  intros He. constructor; [apply short_name_line; [done|by vm_compute|cbn; lia]|].
  do 2 (constructor; [apply short_text; [by vm_compute|cbn; lia]|]). constructor.
Qed.

Lemma failed_lines_ok e : entry_ok e -> Forall short_line (failed_lines e).
Proof.
  intros He. constructor; [apply short_name_line; [done|by vm_compute|cbn; lia]|].
  do 3 (constructor; [apply short_text; [by vm_compute|cbn; lia]|]). constructor.
Qed.

(** Enter on a name of the 8.3 form. *)
Lemma wp_create_named e s :
  local_address 0 <> 0 -> entry_ok e -> e.1 <> [] -> fits e = true -> is_screen (screen s) ->
  bd_ok (disk (files s)) -> bpb_ok (bd_data (disk (files s)) 0) 0 ->
  wp (create_named local_address (text_of_entry e)) (fun _ s' => creation_done e s s') s.
Proof.
  intros Ha He Hne Hf Hs Hok Hb. destruct (normalize_entry e He Hne Hf) as [Hn Hname].
  unfold create_named. apply wp_bind, wp_on_files. eapply wp_mono; [by apply (wp_fat16_mount _ (FsAt 0) 0)|].
  intros r fm (-> & Hfs & Hm). change (0 <? 0) with false. cbv iota.
  apply wp_bind, wp_on_files. change (files (set_files fm s)) with fm.
  eapply wp_mono; [apply (wp_fat16_create fm (FsAt 0) _ (directory_name e) (layout_of (bd_data (disk (files s)) 0) 0));
    [apply Hm| |done|done|done]|].
  { rewrite (fs_value_holds _ _ _ _ Hm). cbn. by rewrite lookup_insert_eq. }
  intros r f' Hc. change (set_files f' (set_files fm s)) with (set_files f' s).
  assert (is_screen (screen (set_files f' s))) as Hs' by done.
  apply wp_bind. destruct (r <? 0) eqn:Er.
  - eapply (wp_file_message e _ (chars "ERROR: Failed to create file ") (chars ".
File may already exist or no free space in root directory.

Press ESC to return to menu...") (failed_lines e)); [done..|by vm_compute|by vm_compute|cbn; lia| |done|by apply failed_lines_ok|cbn; lia|].
    { unfold failed_lines. cbn [text_of]. rewrite <- !app_assoc. done. }
    apply wp_upd_ui. exists fm, r. split_and!; [done|done|done|]. by rewrite Er.
  - eapply (wp_file_message e _ (chars "File ") (chars " created successfully.

Press ESC to return to menu...") (created_lines e)); [done..|by vm_compute|by vm_compute|cbn; lia| |done|by apply created_lines_ok|cbn; lia|].
    { unfold created_lines. cbn [text_of]. rewrite <- !app_assoc. done. }
    apply wp_upd_ui. exists fm, r. split_and!; [done|done|done|]. by rewrite Er.
Qed.

Definition blank : entry := ([], None).

(** A rejected name: a message, a new prompt, and the input starts again. *)
Lemma wp_rejected message e s :
  let l := removelast (tail (chars message)) in
  typing e s -> chars message = text_of [[]; l; []] ->
  forallb (fun c => (0 <? c) && (c <? 128) && negb (c =? 10) && negb (c =? 13)) l = true -> (length l < 80)%nat ->
  wp (filename_rejected message) (fun _ s' => typing blank s' /\ files s' = files s) s.
Proof.
  intros l [Hm _ _ _ _ Hr Hc Hs] Hmsg Hl Hn. unfold filename_rejected. rewrite Hmsg.
  assert (Forall short_line [[]; l; []]) as Hlines.
  { repeat (constructor; [by apply short_text; [|cbn; lia]|]). constructor. }
  apply wp_bind, wp_display; [done|done|cbn; lia|done|].
  apply wp_bind, wp_append; [done|done|apply length_screen_of; [done|cbn; lia]|]. intros r c b Hr' Hc' Hb'. apply wp_upd_ui.
  split; [|done]. split; try done. split; cbn; [constructor|constructor|done|lia].
Qed.

(** The answer to Enter. *)
Definition entered (e : entry) s s' : Prop :=
  if decide (e.1 = []) then typing e s' /\ files s' = files s
  else if fits e then creation_done e s s'
  else typing blank s' /\ files s' = files s.

Lemma wp_enter e key s :
  local_address 0 <> 0 -> typing e s -> key = 10 \/ key = 13 ->
  bd_ok (disk (files s)) -> bpb_ok (bd_data (disk (files s)) 0) 0 ->
  wp (process_filename_input local_address key) (fun _ => entered e s) s.
Proof.
  intros Ha Ht Hkey Hok Hb. pose proof Ht as [Hm Hbuf Hl Hd He Hr Hc Hs]. pose proof (en_length _ He) as Hmax.
  unfold process_filename_input, entered. apply wp_bind, wp_ui_get.
  assert ((key =? 10) || (key =? 13) = true) as -> by (destruct Hkey as [-> | ->]; done).
  rewrite Hl. pose proof (length_text_of_entry e) as Hlen. destruct (decide (e.1 = [])) as [E|E].
  { assert (e.2 = None) as E2 by (destruct (e.2) eqn:E2; [exfalso; apply (en_start _ He); [by rewrite E2|done]|done]).
    rewrite Hlen, E2, E. cbn [length Z.of_nat]. change (0 <? 0) with false. by apply wp_ret. }
  assert (0 < length (text_of_entry e))%nat as Hpos by (destruct (e.1); [done|]; rewrite Hlen; destruct (e.2); cbn; lia).
  rewrite (proj2 (Z.ltb_lt 0 _)) by lia.
  apply wp_bind. eapply (wp_set_input _ _ _ (12 - length (text_of_entry e))); [rewrite Hbuf; do 2 f_equal; lia|done|].
  set (u1 := (dk_ui s) <| input_buffer := _ |>). apply wp_bind, wp_ui_get. change (dk_ui (set_ui u1 s)) with u1.
  assert (c_string (input_buffer u1) = text_of_entry e) as ->.
  { change (c_string (text_of_entry e ++ 0 :: replicate (12 - length (text_of_entry e)) 0) = text_of_entry e).
    apply c_string_text. eapply list.Forall_impl; [by apply text_of_entry_chars|]. cbn. lia. }
  assert (typing e (set_ui u1 s)) as Ht1.
  { split; try done. change (text_of_entry e ++ replicate (S (12 - length (text_of_entry e))) 0 =
      text_of_entry e ++ replicate (13 - length (text_of_entry e)) 0). do 2 f_equal. lia. }
  rewrite (find_dot_entry e He).
  assert (creation_done e (set_ui u1 s) = creation_done e s) as Hsame by done.
  assert (forall message, let l := removelast (tail (chars message)) in chars message = text_of [[]; l; []] ->
    forallb (fun c => (0 <? c) && (c <? 128) && negb (c =? 10) && negb (c =? 13)) l = true -> (length l < 80)%nat ->
    wp (filename_rejected message) (fun _ s' => typing blank s' /\ files s' = files s) (set_ui u1 s)) as Hrejected
    by exact (fun message => wp_rejected message e (set_ui u1 s) Ht1).
  assert (fits e = true -> wp (create_named local_address (text_of_entry e)) (fun _ => creation_done e s) (set_ui u1 s)) as Hgood.
  { intros Hf. rewrite <- Hsame. by apply wp_create_named. }
  unfold fits in *. destruct e as [base [ext|]]; cbn [fst snd default text_of_entry] in *.
  - change (id ext) with ext in *. rewrite length_app in *. cbn [length] in *.
    replace (length base + S (length ext) - S (length base))%nat with (length ext) by lia.
    destruct (Z.ltb_spec 8 (Z.of_nat (length base))); cbn [orb].
    { rewrite (proj2 (Nat.leb_gt _ 8)) by lia. cbn [andb]. apply Hrejected; [reflexivity|by vm_compute|vm_compute; lia]. }
    rewrite (proj2 (Nat.leb_le _ 8)) in * by lia. cbn [andb] in *.
    destruct (Z.ltb_spec 3 (Z.of_nat (length ext))).
    { rewrite (proj2 (Nat.leb_gt _ 3)) by lia. apply Hrejected; [reflexivity|by vm_compute|vm_compute; lia]. }
    rewrite (proj2 (Nat.leb_le _ 3)) in * by lia. by apply Hgood.
  - change (length ([] : list Z) <=? 3)%nat with true in *. rewrite andb_true_r in *.
    change (input_len u1) with (input_len (dk_ui s)). rewrite Hl.
    destruct (Z.ltb_spec 8 (Z.of_nat (length base))).
    { rewrite (proj2 (Nat.leb_gt _ 8)) by lia. apply Hrejected; [reflexivity|by vm_compute|vm_compute; lia]. }
    rewrite (proj2 (Nat.leb_le _ 8)) in * by lia. by apply Hgood.
Qed.

(** C33: A file name that is typed is created.  From an empty input, the keys before
    Enter add up to an entry (letters in upper case, one dot that is not the first
    character, at most twelve characters), and Enter on it does nothing when the entry is
    empty, starts the input again when it has not the 8.3 form, and otherwise mounts the
    volume, creates exactly the file of that name as [create_post] says, ends the input
    and leaves the message on the screen that tells whether the file was created. *)
Theorem filename_input_creates ks key s :
  local_address 0 <> 0 -> typing blank s -> Forall (fun k => k <> 10 /\ k <> 13 /\ k <> 27) ks -> key = 10 \/ key = 13 ->
  bd_ok (disk (files s)) -> bpb_ok (bd_data (disk (files s)) 0) 0 ->
  wp (type_keys ks ;; process_filename_input local_address key) (fun _ => entered (typed ks) s) s.
Proof.
  intros Ha Ht Hks Hkey Hok Hb. apply wp_bind. eapply wp_mono; [by apply wp_type_keys|].
  intros [] s1 [Ht1 Hfiles]. change (foldl typed_step blank ks) with (typed ks) in Ht1.
  eapply wp_mono; [apply (wp_enter (typed ks)); [done|done|done|by rewrite Hfiles..]|].
  intros [] s'. cbn beta. unfold entered, creation_done. rewrite Hfiles. done.
Qed.
End input.

(** "a.t.x" and Enter on a new volume: the second dot is ignored, and A.TX is created. *)
Definition demo_typing : desk unit drive :=
  set_ui (ui_boot <| input_mode := 1 |>) (demo_desk []).

Lemma filename_input_creates_witness :
  typed [97; 46; 116; 46; 120] = ([65], Some [84; 88]) /\
  wp (type_keys (fun _ => 1) [97; 46; 116; 46; 120] ;; process_filename_input (fun _ => 1) 10)
    (fun _ s' => exists fm r, create_post fm demo_layout (pad 8 [65] ++ pad 3 [84; 88]) r (files s')) demo_typing.
Proof.
  split; [reflexivity|].
  assert (bd_data (disk (files demo_typing)) 0 = demo_boot_sector) as E by (vm_compute; reflexivity).
  eapply wp_mono.
  - apply (filename_input_creates (fun _ => 1) [97; 46; 116; 46; 120] 10 demo_typing);
      [done| |repeat constructor; done|by left|apply demo_volume_ok|rewrite E; apply demo_bpb].
    split; [done|reflexivity|done|done| |done|done|reflexivity]. split; cbn; [constructor|constructor|done|lia].
  - intros [] s' H. unfold entered in H. change (typed _) with ([65], Some [84; 88]) in H. cbn [fst] in H.
    destruct (decide ([65] = [])) as [?|_] in H; [discriminate|]. change (fits _) with true in H. cbv iota in H.
    destruct H as (fm & r & _ & H & _). exists fm, r. rewrite E in H. exact H.
Defined.
