(* ===== verification/SyscallSpec.v ===== *)
(** * What the system calls promise about user pointers ([kernel/syscall.c])

    The page checks against the hardware walk of [Vmm], and the calls that are
    refused before they touch anything. *)

From stdpp Require Import base list gmap numbers option tactics.
From Stdlib Require Import Lia ZArith.
From S2P Require Import Prelude PhysMem Pmm Vmm Io Ata Fat16 Fat16Path Task SchedSpec SchedFair Elf TaskUser Drivers Module Syscall.

(** ** The page checks *)

Section pages.
Context {A : Type} `{!FrameAllocator A}.
Implicit Types s : vm A.

(** The page is mapped, and not to frame 0: the code cannot tell the physical
    address 0 from "not mapped". *)
Definition page_seen (m : gmap Z Z) (d pg : Z) : Prop :=
  exists f, walk m (4096 * d) pg = Some f /\ f <> 0.

(** Only the TLB may differ. *)
Definition same_but_tlb (d : Z) (s s' : vm A) : Prop := exists t, s' = set_tlb t s /\ vspace d s'.

Lemma phys_of_page m d pg : 0 <= pg -> phys_of m d (4096 * pg) <> 0 <-> page_seen m d pg.
Proof.
  intros Hpg. unfold phys_of, page_seen. rewrite (Z.mul_comm 4096 pg), Z.div_mul, Z.mod_mul by lia.
  split.
  - destruct (walk m (4096 * d) pg) as [f|]; [|done]. intros Hf. exists f. split; [done|lia].
  - intros (f & -> & Hf). lia.
Qed.

Lemma page_align_down_spec a : 0 <= a < 4294967296 -> page_align_down a = 4096 * (a / 4096).
Proof. apply entry_frame_spec. Qed.

Lemma wp_check_pages s d p last :
  vspace d s -> 0 <= p -> 0 <= last < KERNEL_VIRT_BASE ->
  wp (check_pages (4096 * p) last) (fun b s' => same_but_tlb d s s' /\
    (b = true <-> forall pg, p <= pg <= last / 4096 -> page_seen (vm_mem s) d pg)) s.
Proof.
  intros Hv Hp Hl. unfold check_pages. unfold KERNEL_VIRT_BASE in Hl.
  assert (last / 4096 < 786432) as Hq by (apply Z.div_lt_upper_bound; lia).
  assert ((last - 4096 * p) / 4096 = last / 4096 - p) as En.
  { replace (last - 4096 * p) with (last + - p * 4096) by lia. rewrite Z.div_add by lia. lia. }
  unfold PAGE_SIZE. rewrite En. apply wp_bind.
  apply (wp_for (fun i (_ : unit) t => same_but_tlb d s t /\
    forall pg, p <= pg < p + i -> page_seen (vm_mem s) d pg)).
  - split; [exists (vm_tlb s); by destruct s|lia].
  - intros i [] t Hi ((tl & -> & Hv') & Hseen). apply wp_bind.
    replace (4096 * p + i * 4096) with (4096 * (p + i)) by lia.
    eapply wp_mono; [apply (wp_get_phys_addr _ d); [exact Hv'|lia|]|].
    { rewrite (Z.mul_comm 4096), Z.div_mul by lia. apply Z.div_lt_upper_bound; lia. }
    intros ph t (-> & tl' & -> & Hv2). cbn [vm_mem set_tlb] in *.
    assert (same_but_tlb d s (set_tlb tl' (set_tlb tl s))) as Hsame by (by exists tl').
    destruct (Z.eqb_spec (phys_of (vm_mem s) d (4096 * (p + i))) 0) as [E|E].
    + apply wp_ret, wp_ret. split; [done|]. split; [done|]. intros Hall.
      assert (page_seen (vm_mem s) d (p + i)) as Hs by (apply Hall; lia).
      by apply phys_of_page in Hs; [|lia].
    + apply wp_ret. split; [done|]. intros pg Hpg. destruct (decide (pg = p + i)) as [->|].
      * by apply phys_of_page; [lia|].
      * apply Hseen. lia.
  - intros [] t (Hsame & Hseen). apply wp_ret. split; [done|]. split; [|done]. intros _ pg Hpg. apply Hseen. lia.
Qed.

(** The condition under which a buffer is accepted. *)
Definition accepted (m : gmap Z Z) (d ptr size : Z) : Prop :=
  ptr < KERNEL_VIRT_BASE /\ u32 (ptr + size - 1) < KERNEL_VIRT_BASE /\
  forall pg, ptr / 4096 <= pg <= u32 (ptr + size - 1) / 4096 -> page_seen m d pg.

Lemma wp_validate_user_pointer s d ptr size :
  vspace d s -> 0 < ptr < 4294967296 -> 0 < size ->
  wp (validate_user_pointer ptr size) (fun b s' =>
    same_but_tlb d s s' /\ (b = true <-> accepted (vm_mem s) d ptr size)) s.
Proof.
  intros Hv Hp Hs. unfold validate_user_pointer, accepted.
  rewrite (proj2 (Z.eqb_neq ptr 0)), (proj2 (Z.eqb_neq size 0)) by lia. cbv zeta.
  set (last := u32 (ptr + size - 1)). pose proof (u32_range (ptr + size - 1)) as Hl. fold last in Hl.
  destruct (Z.leb_spec KERNEL_VIRT_BASE ptr); [|destruct (Z.leb_spec KERNEL_VIRT_BASE last)]; cbn [orb].
  1,2: apply wp_ret; split; [exists (vm_tlb s); by destruct s|]; split; [done|]; intros (? & ? & _); lia.
  rewrite page_align_down_spec by lia. pose proof (Z.div_pos ptr 4096).
  eapply wp_mono; [apply (wp_check_pages s d); [done|lia|lia]|].
  intros b s' [Hsame Hb]. split; [done|]. rewrite Hb. tauto.
Qed.
End pages.



(** A buffer whose end wraps around the address space to a lower page is
    accepted without looking at a single page, although it covers the whole kernel. *)
Theorem validate_user_pointer_wraps A (HA : FrameAllocator A) (s : vm A) ptr size :
  0 < ptr < KERNEL_VIRT_BASE -> 0 < size < 4294967296 -> 4294967296 < ptr + size ->
  u32 (ptr + size - 1) < 4096 * (ptr / 4096) ->
  validate_user_pointer ptr size s = Ret (true, s) /\ ptr <= KERNEL_VIRT_BASE < ptr + size.
Proof.
  intros Hp Hs Hw Hl. unfold validate_user_pointer. unfold KERNEL_VIRT_BASE in *.
  rewrite (proj2 (Z.eqb_neq ptr 0)), (proj2 (Z.eqb_neq size 0)) by lia. cbv zeta.
  set (last := u32 (ptr + size - 1)) in *.
  pose proof (Z.div_mod ptr 4096 ltac:(lia)). pose proof (Z.mod_pos_bound ptr 4096 ltac:(lia)).
  rewrite (proj2 (Z.leb_gt _ ptr)), (proj2 (Z.leb_gt _ last)) by lia. cbn [orb].
  rewrite page_align_down_spec by lia. split; [|lia]. unfold check_pages, PAGE_SIZE.
  assert ((last - 4096 * (ptr / 4096)) / 4096 + 1 <= 0) as Hz.
  { enough ((last - 4096 * (ptr / 4096)) / 4096 < 0) by lia. apply Z.div_lt_upper_bound; lia. }
  by replace (Z.to_nat ((last - 4096 * (ptr / 4096)) / 4096 + 1)) with 0%nat by lia.
Qed.

Lemma validate_user_pointer_wraps_witness :
  validate_user_pointer 0x1000 0xFFFFFFFF demo_vm = Ret (true, demo_vm) /\
  0x1000 <= KERNEL_VIRT_BASE < 0x1000 + 0xFFFFFFFF.
Proof. by apply (validate_user_pointer_wraps pmm _ demo_vm 0x1000 0xFFFFFFFF). Defined.

(** ** Calls that are refused *)

(** The branch of the dispatch a known number takes. *)
Ltac pick_call :=
  repeat lazymatch goal with
  | |- (if ?a =? ?b then ?x else ?y) ?s = ?r =>
      let v := eval vm_compute in (a =? b) in
      lazymatch v with true => change (x s = r) | false => change (y s = r) end
  end.

Section refused.
Context {A P D : Type} `{!FrameAllocator A, !PortIO P, !BlockDevice D}.
Implicit Types s : os A P D.

(** The words of the frame: the call number and the first three arguments. *)
Record call_frame (fr : list Z) (number ebx ecx edx : Z) : Prop := {
  cf_number : fr !! 7%nat = Some number;
  cf_ebx : fr !! 4%nat = Some ebx;
  cf_ecx : fr !! 6%nat = Some ecx;
  cf_edx : fr !! 5%nat = Some edx;
}.

(** What is refused without looking at the page tables: an unknown number; a
    buffer at NULL, of length 0 or in the kernel; a path in the kernel. *)
Definition refused (number ebx ecx edx : Z) : Prop :=
  ~ SYS_WRITE <= number <= SYS_UNLOAD_MODULE \/
  (number = SYS_WRITE \/ number = SYS_READ_FILE \/ number = SYS_WRITE_FILE) /\
    (ecx = 0 \/ edx = 0 \/ KERNEL_VIRT_BASE <= ecx) \/
  (number = SYS_LOAD_MODULE /\ (ebx = 0 \/ ecx = 0)) \/
  (number = SYS_UNLOAD_MODULE /\ ebx = 0) \/
  (number = SYS_OPEN /\ (ebx = 0 \/ KERNEL_VIRT_BASE <= ebx)) \/
  (number = SYS_EXEC /\ KERNEL_VIRT_BASE <= ebx).

(** Running a pure answer inside the system leaves it alone. *)
Lemma on_vm_ret {B} (c : M (vm A) B) (b : B) s :
  (forall t, c t = Ret (b, t)) -> on_vm c s = Ret (b, s).
Proof.
  intros Hc. unfold on_vm, on_kernel, in_vm, zoom. rewrite Hc.
  by destruct s as [[] ? ? ? ? ? ?].
Qed.

Lemma validate_kernel_pointer ptr size (t : vm A) :
  KERNEL_VIRT_BASE <= ptr -> size <> 0 -> validate_user_pointer ptr size t = Ret (false, t).
Proof.
  intros Hp Hs. unfold validate_user_pointer. unfold KERNEL_VIRT_BASE in *.
  rewrite (proj2 (Z.eqb_neq ptr 0)), (proj2 (Z.eqb_neq size 0)) by lia. cbv zeta.
  by rewrite (proj2 (Z.leb_le _ ptr)) by lia.
Qed.

Lemma validate_kernel_string str (t : vm A) :
  KERNEL_VIRT_BASE <= str -> validate_user_string str t = Ret (false, t).
Proof.
  intros Hp. unfold validate_user_string. unfold KERNEL_VIRT_BASE in *.
  rewrite (proj2 (Z.eqb_neq str 0)) by lia. by rewrite (proj2 (Z.leb_le _ str)) by lia.
Qed.

Lemma run_bind {S X Y} (c : M S X) (k : X -> M S Y) t x t' : c t = Ret (x, t') -> bind c k t = k x t'.
Proof. unfold bind. by intros ->. Qed.

Definition answered (v : Z) s : os A P D := s <| frame := <[7%nat := u32 v]> (frame s) |>.

Lemma set_return_value v number s :
  frame s !! 7%nat = Some number -> syscall_set_return_value v s = Ret (tt, answered v s).
Proof.
  intros Hn%lookup_lt_Some. unfold syscall_set_return_value. cbn [bind get].
  by rewrite (arr_set_Some (frame s) 7) by lia.
Qed.

Lemma run_answering (c : M (os A P D) Z) v number s :
  frame s !! 7%nat = Some number -> c s = Ret (v, s) -> answering c s = Ret (None, answered v s).
Proof.
  intros Hn Hc. unfold answering. rewrite (run_bind _ _ _ _ _ Hc).
  by rewrite (run_bind _ _ _ _ _ (set_return_value _ _ _ Hn)).
Qed.

Lemma run_args number ebx ecx edx s :
  call_frame (frame s) number ebx ecx edx ->
  saved_reg 7 s = Ret (number, s) /\ syscall_get_u32_arg 0 s = Ret (ebx, s) /\
  syscall_get_u32_arg 1 s = Ret (ecx, s) /\ syscall_get_u32_arg 2 s = Ret (edx, s).
Proof.
  intros [H7 H4 H6 H5]. unfold syscall_get_u32_arg, saved_reg. cbn [bind get].
  by rewrite H7, H4, H6, H5.
Qed.

(** The guard of the calls that take a buffer. *)
Lemma run_guarded buf len (k : M (os A P D) Z) s :
  buf = 0 \/ len = 0 \/ KERNEL_VIRT_BASE <= buf ->
  (if (buf =? 0) || (len =? 0) then ret (-1)
   else ok <- on_vm (validate_user_pointer buf len) ;; if negb ok then ret (-1) else k) s = Ret (-1, s).
Proof.
  intros Hr. destruct (Z.eqb_spec buf 0), (Z.eqb_spec len 0); try done. cbn [orb].
  assert (KERNEL_VIRT_BASE <= buf) as Hb by tauto.
  by rewrite (run_bind _ _ _ _ _ (on_vm_ret _ _ _ (fun t => validate_kernel_pointer _ len t Hb ltac:(done)))).
Qed.

Lemma sys_path_refused {B} path (k : bool -> M (os A P D) B) s :
  KERNEL_VIRT_BASE <= path -> bind (on_vm (validate_user_string path)) k s = k false s.
Proof. intros Hp. apply run_bind, on_vm_ret. intros t. by apply validate_kernel_string. Qed.

Context (fuel : nat) (call_init : Z -> M (vm A) Z) (call_exit : Z -> M (vm A) unit).

Lemma run_refused number ebx ecx edx s :
  call_frame (frame s) number ebx ecx edx -> refused number ebx ecx edx ->
  syscall_dispatch fuel call_init call_exit 128 s = Ret (None, answered (-1) s).
Proof.
  intros Hf Hr. pose proof (cf_number _ _ _ _ _ Hf) as H7.
  destruct (run_args _ _ _ _ _ Hf) as (E7 & E0 & E1 & E2).
  unfold syscall_dispatch. cbn [Z.eqb negb Pos.eqb]. rewrite (run_bind _ _ _ _ _ E7).
  destruct Hr as [Hn|[[Hn Hp]|[[-> Hp]|[[-> Hp]|[[-> Hp]|[-> Hp]]]]]].
  - unfold SYS_WRITE, SYS_UNLOAD_MODULE in Hn.
    repeat match goal with |- (if number =? ?k then _ else _) _ = _ =>
      rewrite (proj2 (Z.eqb_neq number k)) by (unfold k; lia) end.
    by rewrite (run_bind _ _ _ _ _ (set_return_value _ _ _ H7)).
  - destruct Hn as [-> | [-> | ->]]; pick_call;
      unfold syscall_handle_write, syscall_handle_read_file, syscall_handle_write_file;
      rewrite (run_bind _ _ _ _ _ E0), (run_bind _ _ _ _ _ E1), (run_bind _ _ _ _ _ E2);
      eapply run_answering; first [done|by apply run_guarded].
  - pick_call. unfold syscall_handle_load_module.
    rewrite (run_bind _ _ _ _ _ E0), (run_bind _ _ _ _ _ E1). eapply run_answering; [done|].
    unfold sys_load_module. destruct Hp as [-> | ->]; [done|]. by rewrite orb_true_r.
  - pick_call. unfold syscall_handle_unload_module.
    rewrite (run_bind _ _ _ _ _ E0), Hp. by eapply run_answering.
  - pick_call. unfold syscall_handle_open. rewrite (run_bind _ _ _ _ _ E0).
    eapply run_answering; [done|]. unfold sys_open. destruct (Z.eqb_spec ebx 0); [done|].
    destruct Hp; [done|]. by rewrite sys_path_refused.
  - pick_call. unfold syscall_handle_exec.
    rewrite (run_bind _ _ _ _ _ E0), (run_bind _ _ _ _ _ E1), (run_bind _ _ _ _ _ E2).
    eapply run_answering; [done|]. unfold sys_exec. by rewrite sys_path_refused.
Qed.
End refused.


(** A [SYS_WRITE] of 16 bytes at the start of the kernel. *)
Definition demo_frame : list Z := [0; 0; 0; 0; 1; 16; 0xC0000000; 1; 128; 0; 0; 27; 0; 0; 35].
Definition demo_os : os pmm drive drive :=
  mkOs demo_kernel (mkConsole demo_volume kbd_boot (mkTty 0 0 7 [])) demo_fat [] [] 0 demo_frame.

