(* ===== verification/SyscallIo.v ===== *)
(** * System calls on files through user memory ([kernel/syscall.c])

    The buffers of [SYS_WRITE_FILE] and [SYS_READ_FILE] are bytes of the process's
    address space: they are read and written through the page tables and the TLB, and
    handed to the file system.  The file is the one of [Fat16Write] and [Fat16File]. *)

From stdpp Require Import base list gmap numbers option tactics.
From Stdlib Require Import Lia ZArith.
From S2P Require Import Prelude PhysMem Pmm Vmm Io Ata Fat16 Fat16Dir Fat16File Fat16Write Fat16Path Fat16Roundtrip Task SchedFair ElfSpec TaskUser Drivers Module Syscall SyscallSpec.

(** ** Buffers of a process *)

Section buffers.
Context {A : Type} `{!FrameAllocator A}.
Implicit Types s : vm A.

(** The byte at a virtual address, and the bytes of a buffer. *)
Definition user_byte (m : gmap Z Z) (d va : Z) : Z := read8 m (phys_of m d va).
Definition user_bytes (m : gmap Z Z) (d p n : Z) : list Z := user_byte m d <$> seqZ p n.

(** A buffer below the kernel whose pages are all mapped. *)
Record user_buffer (m : gmap Z Z) (d p n : Z) : Prop := {
  ub_start : 0 < p;
  ub_size : 0 < n;
  ub_end : p + n <= KERNEL_VIRT_BASE;
  ub_seen : forall va, p <= va < p + n -> page_seen m d (va / 4096);
}.

Lemma user_buffer_tail m d p n : user_buffer m d p n -> 1 < n -> user_buffer m d (p + 1) (n - 1).
Proof. intros [Hp Hn He Hs] H. split; [lia..|]. intros va Hva. apply Hs. lia. Qed.

Lemma user_buffer_accepted m d p n : user_buffer m d p n -> accepted m d p n.
Proof.
  intros [Hp Hn He Hs]. unfold accepted, KERNEL_VIRT_BASE in *. rewrite u32_small by lia.
  split_and!; [lia|lia|]. intros pg Hpg.
  pose proof (Z.div_mod p 4096 ltac:(lia)). pose proof (Z.mod_pos_bound p 4096 ltac:(lia)).
  pose proof (Z.div_mod (p + n - 1) 4096 ltac:(lia)). pose proof (Z.mod_pos_bound (p + n - 1) 4096 ltac:(lia)).
  destruct (Z.le_gt_cases p (4096 * pg)).
  - specialize (Hs (4096 * pg)). rewrite (Z.mul_comm 4096), Z.div_mul in Hs by lia. apply Hs. lia.
  - replace pg with (p / 4096) by lia. apply Hs. lia.
Qed.

Lemma walk_frame m d pg f : 0 <= d < 1048576 -> walk m (4096 * d) pg = Some f -> f = 4096 * (f / 4096).
Proof.
  intros Hd. rewrite walk_spec by done. destruct (present _); [|done]. cbv zeta.
  destruct (present _); [|done]. intros E. injection E as <-. set (k := _ / 4096).
  by rewrite (Z.mul_comm 4096 k), Z.div_mul, Z.mul_comm by lia.
Qed.

(** The physical byte behind a mapped address. *)
Lemma page_seen_phys s d va :
  vspace d s -> page_seen (vm_mem s) d (va / 4096) -> exists f,
    walk (vm_mem s) (4096 * d) (va / 4096) = Some (4096 * f) /\ phys_of (vm_mem s) d va = 4096 * f + va mod 4096.
Proof.
  intros Hv (f & Hf & _). exists (f / 4096). unfold phys_of.
  pose proof (walk_frame _ _ _ _ (to_range _ _ (vs_tables _ _ Hv)) Hf) as E. by rewrite <- E, Hf.
Qed.

Lemma vspace_tlb d s t : vspace d s -> tlb_of (vm_mem s) (4096 * d) t -> vspace d (set_tlb t s).
Proof. by intros [] Ht. Qed.

Lemma same_but_tlb_refl d s : vspace d s -> same_but_tlb d s s.
Proof. intros Hv. exists (vm_tlb s). by destruct s. Qed.

Lemma wp_user_read s d va (Q : Z -> vm A -> Prop) :
  vspace d s -> 0 <= va < 4294967296 -> page_seen (vm_mem s) d (va / 4096) ->
  (forall s', same_but_tlb d s s' -> Q (user_byte (vm_mem s) d va) s') -> wp (vread8 va) Q s.
Proof.
  intros Hv Hva (f & Hw & Hp)%page_seen_phys HQ; [|done].
  rewrite (Z.div_mod va 4096) by lia. pose proof (vs_cr3 _ _ Hv) as Hc.
  apply (wp_vread8 s _ _ f); rewrite ?Hc; [by apply page_of_va|by apply Z.mod_pos_bound|apply Hv|done|].
  intros t Ht. unfold user_byte in HQ. rewrite Hp in HQ. apply HQ. exists t. split; [done|by apply vspace_tlb].
Qed.

Lemma user_bytes_cons m d p n : 0 < n -> user_bytes m d p n = user_byte m d p :: user_bytes m d (p + 1) (n - 1).
Proof. intros Hn. unfold user_bytes. rewrite seqZ_cons by lia. cbn [fmap list_fmap]. by rewrite Z.add_1_r, <- Z.sub_1_r. Qed.

Lemma user_bytes_is_byte m d p n : Forall is_byte (user_bytes m d p n).
Proof. apply list.Forall_fmap, list.Forall_true. intros va. apply read8_range. Qed.

Lemma length_user_bytes m d p n : length (user_bytes m d p n) = Z.to_nat n.
Proof. unfold user_bytes. by rewrite length_fmap, length_seqZ. Qed.

Lemma wp_read_user n s d p (Q : list Z -> vm A -> Prop) :
  vspace d s -> user_buffer (vm_mem s) d p (Z.of_nat n) ->
  (forall s', same_but_tlb d s s' -> Q (user_bytes (vm_mem s) d p (Z.of_nat n)) s') -> wp (read_user p n) Q s.
Proof.
  revert s p Q. induction n as [|n IH]; intros s p Q Hv Hb HQ; [by destruct Hb|]. pose proof Hb as [Hp _ He Hs].
  unfold KERNEL_VIRT_BASE in He. cbn [read_user].
  apply wp_bind, (wp_user_read s d); [done|lia|apply Hs; lia|]. intros s1 (t & -> & Hv1). rewrite user_bytes_cons in HQ by lia.
  replace (Z.of_nat (S n) - 1) with (Z.of_nat n) in HQ by lia.
  rewrite u32_small by lia. apply wp_bind. destruct (decide (n = 0%nat)) as [->|Hn].
  { apply wp_ret, wp_ret. apply HQ. by exists t. }
  apply IH; [done| |].
  - replace (Z.of_nat n) with (Z.of_nat (S n) - 1) by lia. vm_simpl in *. apply user_buffer_tail; [done|lia].
  - intros s2 (t' & -> & Hv2). apply wp_ret. apply HQ. by exists t'.
Qed.

(** *** Storing to a buffer *)

(** No page of the buffer is a page table, and no two of them share a frame. *)
Record private_pages (m : gmap Z Z) (d p n : Z) : Prop := {
  pp_table : forall va f, p <= va < p + n -> walk m (4096 * d) (va / 4096) = Some (4096 * f) -> fresh_frame m d f;
  pp_inj : forall va va' f, p <= va < p + n -> p <= va' < p + n ->
    walk m (4096 * d) (va / 4096) = Some f -> walk m (4096 * d) (va' / 4096) = Some f -> va / 4096 = va' / 4096;
}.

(** The state after [l] was stored at [p]: every translation is the same, the buffer
    holds [l], and every other physical byte is what it was. *)
Record stored (d p : Z) (l : list Z) s s' : Prop := {
  so_vspace : vspace d s';
  so_rest : exists m t, s' = set_mem m (set_tlb t s);
  so_walk : forall pg, 0 <= pg < 1048576 -> walk (vm_mem s') (4096 * d) pg = walk (vm_mem s) (4096 * d) pg;
  so_pde : forall j, 0 <= j < 1024 -> pde (vm_mem s') d j = pde (vm_mem s) d j;
  so_bytes : user_bytes (vm_mem s') d p (Z.of_nat (length l)) = l;
  so_other : forall a, (forall va, p <= va < p + Z.of_nat (length l) -> a <> phys_of (vm_mem s) d va) ->
    read8 (vm_mem s') a = read8 (vm_mem s) a;
}.

Lemma stored_phys d p l s s' va :
  stored d p l s s' -> 0 <= va < 4294967296 -> phys_of (vm_mem s') d va = phys_of (vm_mem s) d va.
Proof. intros H Hva. unfold phys_of. rewrite (so_walk _ _ _ _ _ H); [done|by apply page_of_va]. Qed.

Lemma wp_user_write s d va b (Q : unit -> vm A -> Prop) :
  vspace d s -> 0 <= va < 4294967296 -> is_byte b -> page_seen (vm_mem s) d (va / 4096) ->
  private_pages (vm_mem s) d va 1 ->
  (forall s', stored d va [b] s s' -> Q tt s') -> wp (vwrite8 va b) Q s.
Proof.
  intros Hv Hva Hb Hseen [Ht _] HQ. destruct (page_seen_phys _ _ _ Hv Hseen) as (f & Hw & Hp).
  specialize (Ht va f ltac:(lia) Hw). pose proof (vs_cr3 _ _ Hv) as Hc.
  rewrite (Z.div_mod va 4096) by lia. pose proof (Z.mod_pos_bound va 4096 ltac:(lia)) as Hmod.
  apply (wp_vwrite8 s _ _ f); rewrite ?Hc; [by apply page_of_va|done|apply Hv|done|].
  intros t Htl. apply HQ. set (m := write8 _ _ _).
  assert (forall a, a / 4096 <> f -> read8 m a = read8 (vm_mem s) a) as Hof.
  { intros a Ha. unfold m. rewrite read8_write8, decide_False; [done|]. intros <-. apply Ha.
    by apply page_address. }
  destruct (fresh_same _ _ (vs_tables _ _ Hv) m f Ht Hof) as (Hpde & Hok & Hwalk).
  split; vm_simpl in *; [|by exists m, t|done|done| |].
  - destruct Hv as [_ _ _ Hwf Hu]. split; vm_simpl in *; [done|done|by eapply tlb_of_walk_eq|done|].
    intros i Hi. unfold pde_frame. rewrite Hpde by done. by apply Hu.
  - cbn [length]. change (Z.of_nat 1) with 1. rewrite user_bytes_cons by lia. f_equal.
    unfold user_byte, phys_of. rewrite Hwalk, Hw by (by apply page_of_va).
    unfold m. rewrite read8_write8, decide_True by done. by apply u8_small.
  - intros a Ha. unfold m. rewrite read8_write8, decide_False; [done|]. intros <-.
    apply (Ha va); [cbn [length]; lia|done].
Qed.

Lemma private_tail m d p n : private_pages m d p n -> private_pages m d (p + 1) (n - 1).
Proof. intros [Ht Hi]. split; intros; [eapply Ht|eapply Hi]; try done; lia. Qed.

Lemma private_head m d p n : 0 < n -> private_pages m d p n -> private_pages m d p 1.
Proof. intros Hn [Ht Hi]. split; intros; [eapply Ht|eapply Hi]; try done; lia. Qed.

(** Two addresses of a private buffer are two physical bytes. *)
Lemma private_phys s d p n va va' :
  vspace d s -> user_buffer (vm_mem s) d p n -> private_pages (vm_mem s) d p n ->
  p <= va < p + n -> p <= va' < p + n -> phys_of (vm_mem s) d va = phys_of (vm_mem s) d va' -> va = va'.
Proof.
  intros Hv Hb Hp Hva Hva' E.
  destruct (page_seen_phys s d va Hv) as (f & Hw & Ef); [by apply Hb|].
  destruct (page_seen_phys s d va' Hv) as (f' & Hw' & Ef'); [by apply Hb|].
  pose proof (Z.div_mod va 4096 ltac:(lia)). pose proof (Z.mod_pos_bound va 4096 ltac:(lia)).
  pose proof (Z.div_mod va' 4096 ltac:(lia)). pose proof (Z.mod_pos_bound va' 4096 ltac:(lia)).
  assert (f = f') as <- by lia. pose proof (pp_inj _ _ _ _ Hp va va' _ Hva Hva' Hw Hw'). lia.
Qed.

Lemma stored_nil d p s t : vspace d (set_tlb t s) -> stored d p [] s (set_tlb t s).
Proof. intros Hv. split; vm_simpl in *; try done. exists (vm_mem s), t. by destruct s. Qed.

Lemma stored_buffer d p l s s' q n :
  stored d p l s s' -> 0 <= q -> q + n <= 4294967296 -> user_buffer (vm_mem s) d q n -> user_buffer (vm_mem s') d q n.
Proof.
  intros H Hq He [H1 H2 H3 Hs]. split; [done..|]. intros va Hva. destruct (Hs va Hva) as (f & Hf & Hn).
  exists f. split; [|done]. rewrite (so_walk _ _ _ _ _ H); [done|apply page_of_va; lia].
Qed.

Lemma stored_private d p l s s' q n :
  stored d p l s s' -> 0 <= q -> q + n <= 4294967296 -> private_pages (vm_mem s) d q n -> private_pages (vm_mem s') d q n.
Proof.
  intros H Hq He [Ht Hi].
  assert (forall va, q <= va < q + n ->
    walk (vm_mem s') (4096 * d) (va / 4096) = walk (vm_mem s) (4096 * d) (va / 4096)) as Hw
    by (intros va Hva; apply (so_walk _ _ _ _ _ H), page_of_va; lia).
  split.
  - intros va f Hva. rewrite Hw by done. intros Hf. eapply same_pde_fresh; [apply H|]. by eapply Ht.
  - intros va va' f Hva Hva'. rewrite !Hw by done. by apply Hi.
Qed.

Lemma stored_cons d p b l s s1 s2 :
  vspace d s -> let n := Z.of_nat (length (b :: l)) in
  user_buffer (vm_mem s) d p n -> private_pages (vm_mem s) d p n ->
  stored d p [b] s s1 -> stored d (p + 1) l s1 s2 -> stored d p (b :: l) s s2.
Proof.
  intros Hv n Hb Hp H1 H2. pose proof Hb as [Hp0 Hn He _]. unfold KERNEL_VIRT_BASE in He.
  assert (n = Z.of_nat (length l) + 1) as En by (unfold n; cbn [length]; lia).
  pose proof (so_bytes _ _ _ _ _ H1) as Hb1. cbn [length] in Hb1. change (Z.of_nat 1) with 1 in Hb1.
  rewrite user_bytes_cons in Hb1 by lia. injection Hb1 as Hb1.
  assert (forall va, p <= va < p + n -> phys_of (vm_mem s1) d va = phys_of (vm_mem s) d va) as Hph
    by (intros va Hva; apply (stored_phys _ _ _ _ _ _ H1); lia).
  split.
  - apply H2.
  - destruct (so_rest _ _ _ _ _ H1) as (m1 & t1 & ->), (so_rest _ _ _ _ _ H2) as (m2 & t2 & ->). by exists m2, t2.
  - intros pg Hpg. by rewrite (so_walk _ _ _ _ _ H2), (so_walk _ _ _ _ _ H1).
  - intros j Hj. by rewrite (so_pde _ _ _ _ _ H2), (so_pde _ _ _ _ _ H1).
  - fold n. rewrite user_bytes_cons by lia. replace (n - 1) with (Z.of_nat (length l)) by lia.
    rewrite (so_bytes _ _ _ _ _ H2). f_equal. rewrite <- Hb1. unfold user_byte.
    rewrite (stored_phys _ _ _ _ _ p H2) by lia. apply (so_other _ _ _ _ _ H2). intros va Hva.
    rewrite !Hph by lia. intros E. apply (private_phys s d p n) in E; [lia|done..|lia|lia].
  - fold n. intros a Ha. rewrite (so_other _ _ _ _ _ H2).
    + apply (so_other _ _ _ _ _ H1). cbn [length]. intros va Hva. apply Ha. lia.
    + intros va Hva. rewrite Hph by lia. apply Ha. lia.
Qed.

Lemma wp_write_user l s d p (Q : unit -> vm A -> Prop) :
  vspace d s -> Forall is_byte l -> let n := Z.of_nat (length l) in
  l = [] \/ user_buffer (vm_mem s) d p n /\ private_pages (vm_mem s) d p n ->
  (forall s', stored d p l s s' -> Q tt s') -> wp (write_user p l) Q s.
Proof.
  intros Hv Hl. revert s p Q Hv. induction Hl as [|b l Hb Hl IH]; intros s p Q Hv n Hbuf HQ; cbn [write_user].
  { apply wp_ret, HQ. destruct s as [fr m c t cur ker]. by apply (stored_nil d p (mkVm fr m c t cur ker) t). }
  destruct Hbuf as [|[Hbuf Hp]]; [done|]. pose proof Hbuf as [Hp0 Hn He Hs]. unfold KERNEL_VIRT_BASE in He.
  assert (n = Z.of_nat (length l) + 1) as En by (unfold n; cbn [length]; lia).
  apply wp_bind, (wp_user_write s d); [done|lia|done|apply Hs; lia|by eapply private_head|].
  intros s1 H1. rewrite u32_small by lia. apply IH; [apply H1| |].
  - destruct l as [|b' l']; [by left|right]. cbn [length] in *. replace (Z.of_nat _) with (n - 1) by lia.
    split; [eapply (stored_buffer _ _ _ _ _ _ _ H1)|eapply (stored_private _ _ _ _ _ _ _ H1)]; try lia;
      [apply user_buffer_tail; [done|lia]|by apply private_tail].
  - intros s2 H2. apply HQ. by eapply stored_cons.
Qed.
End buffers.

(** ** The calls *)

Section calls.
Context {A P D : Type} `{!FrameAllocator A, !PortIO P, !BlockDevice D}.
Context (fuel : nat) (call_init : Z -> M (vm A) Z) (call_exit : Z -> M (vm A) unit).
Implicit Types s : os A P D.
Abbreviation dispatch := (syscall_dispatch (P := P) (D := D) fuel call_init call_exit 128).

Definition vm_of s : vm A := kvm (os_kernel s).
Definition with_vm (v : vm A) s : os A P D := s <| os_kernel := (os_kernel s) <| kvm := v |> |>.
Definition with_fat (f : fat16 D) s : os A P D := s <| os_fat := f |>.

Lemma wp_on_vm {B} (c : M (vm A) B) s (Q : B -> os A P D -> Prop) :
  wp c (fun b v => Q b (with_vm v s)) (vm_of s) -> wp (on_vm c) Q s.
Proof. intros H. unfold on_vm, on_kernel, in_vm. by do 2 apply wp_zoom. Qed.

Lemma wp_on_fat {B} (c : M (fat16 D) B) s (Q : B -> os A P D -> Prop) :
  wp c (fun b f => Q b (with_fat f s)) (os_fat s) -> wp (on_fat c) Q s.
Proof. intros H. by apply wp_zoom. Qed.

Lemma wp_returns {S B} (c : M S B) (x x' : S) b (Q : B -> S -> Prop) : c x = Ret (b, x') -> Q b x' -> wp c Q x.
Proof. unfold wp. by intros ->. Qed.

(** A call with three arguments, and its answer in EAX. *)
Lemma wp_call3 number ebx ecx edx (h : Z -> Z -> Z -> M (os A P D) Z) s (Q : ptr -> os A P D -> Prop) :
  call_frame (frame s) number ebx ecx edx ->
  wp (h ebx ecx edx) (fun v s' => frame s' = frame s /\ Q None (answered v s')) s ->
  wp (a <- syscall_get_u32_arg 0 ;; b <- syscall_get_u32_arg 1 ;; c <- syscall_get_u32_arg 2 ;;
      answering (h a b c)) Q s.
Proof.
  intros Hf Hh. destruct (run_args _ _ _ _ _ Hf) as (_ & E0 & E1 & E2).
  apply wp_bind. eapply wp_returns; [exact E0|]. apply wp_bind. eapply wp_returns; [exact E1|].
  apply wp_bind. eapply wp_returns; [exact E2|]. unfold answering. apply wp_bind.
  eapply wp_mono; [exact Hh|]. intros v s' [Hfr HQ]. apply wp_bind.
  eapply wp_returns; [|by apply wp_ret]. eapply set_return_value. rewrite Hfr. apply Hf.
Qed.

(** The test of a good buffer. *)
Lemma wp_guard buf len (k : M (os A P D) Z) s d (Q : Z -> os A P D -> Prop) :
  vspace d (vm_of s) -> user_buffer (vm_mem (vm_of s)) d buf len ->
  (forall v, same_but_tlb d (vm_of s) v -> wp k Q (with_vm v s)) ->
  wp (if (buf =? 0) || (len =? 0) then ret (-1)
      else ok <- on_vm (validate_user_pointer buf len) ;; if negb ok then ret (-1) else k) Q s.
Proof.
  intros Hv Hb Hk. pose proof Hb as [Hb1 Hb2 Hb3 _]. unfold KERNEL_VIRT_BASE in Hb3.
  rewrite (proj2 (Z.eqb_neq buf 0)), (proj2 (Z.eqb_neq len 0)) by lia. cbn [orb].
  apply wp_bind, wp_on_vm. eapply wp_mono; [apply (wp_validate_user_pointer _ d); [done|lia|lia]|].
  cbv beta. intros b v [Hsame Hok]. rewrite (proj2 Hok) by (by apply user_buffer_accepted). cbn [negb]. by apply Hk.
Qed.

(** The descriptor of an open file, taken for a signed number. *)
Lemma file_fd i : 0 <= i < FAT16_MAX_OPEN_FILES -> s32 (i + FAT16_FD_BASE) = i + FAT16_FD_BASE.
Proof.
  unfold FAT16_MAX_OPEN_FILES, FAT16_FD_BASE, s32. intros Hi. rewrite u32_small by lia. by rewrite (proj2 (Z.ltb_lt _ _)) by lia.
Qed.

Lemma wp_write_file buf count s d i fl f cs (Q : ptr -> os A P D -> Prop) :
  call_frame (frame s) SYS_WRITE_FILE (i + FAT16_FD_BASE) buf count ->
  vspace d (vm_of s) -> user_buffer (vm_mem (vm_of s)) d buf count ->
  fs_ok (D := D) f -> write_ready f (os_fat s) i fl cs -> position fl + count < 4294967296 ->
  cluster_count f < Z.of_nat fuel -> count < Z.of_nat fuel ->
  (forall v n ft, same_but_tlb d (vm_of s) v ->
     write_post f (os_fat s) i (bd_data (disk (os_fat s))) fl cs (user_bytes (vm_mem (vm_of s)) d buf count) count n ft ->
     Q None (answered n (with_fat ft (with_vm v s)))) ->
  wp dispatch Q s.
Proof.
  intros Hf Hv Hb Hfs Hw Hp H1 H2 HQ. pose proof Hb as [_ Hn _ _]. unfold syscall_dispatch. cbn [Z.eqb negb Pos.eqb].
  destruct (run_args _ _ _ _ _ Hf) as (E & _). apply wp_bind. eapply wp_returns; [exact E|].
  match goal with |- wp ?c _ _ => change c with (syscall_handle_write_file (A := A) (P := P) (D := D) fuel) end.
  unfold syscall_handle_write_file. eapply (wp_call3 _ _ _ _ (fun a => sys_write_file fuel (s32 a))); [exact Hf|].
  rewrite (file_fd i) by apply Hw. unfold sys_write_file.
  apply (wp_guard _ _ _ _ d); [done|done|]. intros v (t & -> & Hv1).
  apply wp_bind, wp_on_vm. apply (wp_read_user _ _ d); [done|by rewrite Z2Nat.id by lia|].
  intros v2 (t2 & -> & Hv2). rewrite Z2Nat.id by lia. vm_simpl in *. apply wp_on_fat.
  eapply wp_mono; [apply (wp_fat16_write f Hfs _ i fl cs); try done|].
  - by rewrite length_user_bytes, Z2Nat.id by lia.
  - apply user_bytes_is_byte.
  - intros n ft Hpost. split; [done|]. apply (HQ (set_tlb t2 (vm_of s))); [by exists t2|done].
Qed.

(** The bytes of a file are bytes. *)
Lemma file_bytes_ok f dat cs p n :
  fs_ok (D := D) f -> chain dat f cs -> (forall a, 0 <= a < bd_sectors -> is_sector (dat a)) ->
  0 <= p -> p + n <= Z.of_nat (length cs) * cluster_bytes f -> Forall is_byte (file_bytes dat f cs p n).
Proof.
  intros Hf Hc Hd Hp Hn. apply list.Forall_fmap, list.Forall_forall. intros q Hq%elem_of_seqZ.
  apply (file_byte_range f Hf); [done|apply Hc|lia].
Qed.

Lemma wp_read_file buf count s d i fl f cs (Q : ptr -> os A P D -> Prop) :
  let n := Z.max 0 (Z.min (fsize fl - position fl) count) in
  call_frame (frame s) SYS_READ_FILE (i + FAT16_FD_BASE) buf count ->
  vspace d (vm_of s) -> user_buffer (vm_mem (vm_of s)) d buf count -> private_pages (vm_mem (vm_of s)) d buf count ->
  open_file (os_fat s) i fl f cs -> n < Z.of_nat fuel ->
  (forall v ft, let data := file_bytes (bd_data (disk (os_fat s))) f cs (position fl) n in
     stored d buf data (vm_of s) v ->
     read_post (os_fat s) i (bd_data (disk (os_fat s))) fl f cs n (n, data) ft ->
     Q None (answered n (with_vm v (with_fat ft s)))) ->
  wp dispatch Q s.
Proof.
  intros n Hf Hv Hb Hpp Ho Hfuel HQ. pose proof Hb as [Hb0 Hc Hb1 Hb2]. unfold KERNEL_VIRT_BASE in Hb1.
  unfold syscall_dispatch. cbn [Z.eqb negb Pos.eqb].
  destruct (run_args _ _ _ _ _ Hf) as (E & _). apply wp_bind. eapply wp_returns; [exact E|].
  match goal with |- wp ?c _ _ => change c with (syscall_handle_read_file (A := A) (P := P) (D := D) fuel) end.
  unfold syscall_handle_read_file. eapply (wp_call3 _ _ _ _ (fun a => sys_read_file fuel (s32 a))); [exact Hf|].
  rewrite (file_fd i) by apply Ho. unfold sys_read_file.
  apply (wp_guard _ _ _ _ d); [done|done|]. intros v (t & -> & Hv1).
  apply wp_bind, wp_on_fat. eapply wp_mono; [apply (wp_fat16_read _ i fl f cs count fuel Ho); [lia|exact Hfuel]|].
  cbv beta. intros r ft [-> Hpost]. fold n in Hpost |- *. apply wp_bind, wp_on_vm.
  set (data := file_bytes _ _ _ _ _) in *.
  assert (Z.of_nat (length data) = n) as El by (unfold data, file_bytes; rewrite length_fmap, length_seqZ; lia).
  apply (wp_write_user data _ d); [done| | |].
  - destruct Ho as [Hok _ _ _ _ Hfs Hch Hsz _ Hpos _]. destruct (decide (position fl < fsize fl)).
    + apply file_bytes_ok; [done|done|intros; by apply bd_sector|done|lia].
    + destruct data; [constructor|cbn [length] in El; lia].
  - destruct (decide (n = 0)); [left; by destruct data; [|cbn [length] in El; lia]|right]. rewrite El. split.
    + split; [done|lia|unfold KERNEL_VIRT_BASE; lia|]. intros va Hva. apply Hb2. lia.
    + destruct Hpp as [Ht Hi]. split; intros; [eapply Ht|eapply Hi]; try done; lia.
  - intros v2 Hst. apply wp_ret. split; [done|]. apply HQ; [|by split].
    destruct Hst as [H1 H2 H3 H4 H5 H6]. split; [done| |done..]. destruct H2 as (m & t' & ->). by exists m, t'.
Qed.
End calls.

(** C14: [SYS_WRITE_FILE] with a buffer of mapped user pages and the descriptor of an
    open file stores the bytes that the process sees in its buffer at the position of
    the file, answers their number in EAX, and leaves the memory of the process, the
    tasks, the console and the modules alone; or it answers -1 when no cluster is free. *)
Theorem syscall_write_file_stores A P D (HA : FrameAllocator A) (HP : PortIO P) (HD : BlockDevice D)
    fuel call_init call_exit (s : os A P D) d buf count i fl f cs :
  call_frame (frame s) SYS_WRITE_FILE (i + FAT16_FD_BASE) buf count ->
  vspace d (vm_of s) -> user_buffer (vm_mem (vm_of s)) d buf count ->
  fs_ok (D := D) f -> write_ready f (os_fat s) i fl cs -> position fl + count < 4294967296 ->
  cluster_count f < Z.of_nat fuel -> count < Z.of_nat fuel ->
  wp (syscall_dispatch fuel call_init call_exit 128) (fun r s' =>
    let sent := user_bytes (vm_mem (vm_of s)) d buf count in
    r = None /\ exists v n ft dat' cs' tw,
      s' = answered n (with_fat ft (with_vm v s)) /\ same_but_tlb d (vm_of s) v /\
      written f (bd_data (disk (os_fat s))) cs (position fl) sent tw dat' cs' /\
      ((n = count /\ tw = count /\ fholds (os_fat s) i dat' (set_modified (after_write f fl cs' count)) ft) \/
       (n = -1 /\ 0 <= tw < count /\ no_free dat' f /\ fholds (os_fat s) i dat' (after_write f fl cs' tw) ft))) s.
Proof.
  intros Hf Hv Hb Hfs Hw Hp H1 H2. eapply wp_write_file; try done.
  intros v n ft Hsame (dat' & cs' & tw & Hwr & Hor). split; [done|]. by exists v, n, ft, dat', cs', tw.
Qed.

(** C15: [SYS_READ_FILE] with a buffer of mapped user pages that are no page tables and
    have frames of their own, and the descriptor of an open file: the process then sees
    in its buffer the bytes of the file from its position on, as many as asked for and
    left, and EAX holds their number; every other byte of physical memory, every
    translation, the disk, the tasks, the console and the modules are what they were. *)
Theorem syscall_read_file_delivers A P D (HA : FrameAllocator A) (HP : PortIO P) (HD : BlockDevice D)
    fuel call_init call_exit (s : os A P D) d buf count i fl f cs :
  let n := Z.max 0 (Z.min (fsize fl - position fl) count) in
  call_frame (frame s) SYS_READ_FILE (i + FAT16_FD_BASE) buf count ->
  vspace d (vm_of s) -> user_buffer (vm_mem (vm_of s)) d buf count -> private_pages (vm_mem (vm_of s)) d buf count ->
  open_file (os_fat s) i fl f cs -> n < Z.of_nat fuel ->
  wp (syscall_dispatch fuel call_init call_exit 128) (fun r s' => r = None /\ exists v ft c,
    s' = answered n (with_vm v (with_fat ft s)) /\
    stored d buf (file_bytes (bd_data (disk (os_fat s))) f cs (position fl) n) (vm_of s) v /\
    fholds (os_fat s) i (bd_data (disk (os_fat s))) (moved fl (position fl + n) c) ft /\
    (position fl + n < fsize fl -> c = cs_at cs ((position fl + n) / cluster_bytes f))) s.
Proof.
  intros n Hf Hv Hb Hpp Ho Hfuel. eapply wp_read_file; try done.
  intros v ft data Hst [_ (c & Hh & Hc)]. split; [done|]. by exists v, ft, c.
Qed.

(** ** A concrete machine

    The machine of [Vmm] with table 4 for the first 4 MB, whose pages 1 and 2 are the
    frames 5 and 6 with the text of a process across their border, and the file of
    [Fat16Roundtrip], read up to byte 500. *)

Definition demo_text : list Z := seqZ 65 30.
Definition demo_user_mem : gmap Z Z :=
  write_bytes (write_bytes
    (write32 (write32 (write32 demo_mem (4096 * 2) (mk_entry 4 PAGE_PWU)) (4096 * 4 + 4) (mk_entry 5 PAGE_PWU))
      (4096 * 4 + 8) (mk_entry 6 PAGE_PWU))
    (4096 * 5 + 4080) (take 16 demo_text)) (4096 * 6) (drop 16 demo_text).
Definition demo_user_vm : vm pmm :=
  mkVm (mkPmm (<[0%nat := 127]> (replicate 4096 0)) [] 64) demo_user_mem (4096 * 2) ∅ (4096 * 2) (4096 * 2).

Definition demo_user_os (fr : list Z) : os pmm drive drive :=
  mkOs (demo_kernel <| kvm := demo_user_vm |>) (mkConsole demo_volume kbd_boot (mkTty 0 0 7 []))
    (demo_open demo_part_read) [] [] 0 fr.
Definition demo_call (number : Z) : list Z := [0; 0; 0; 0; 3; 30; 0x1FF0; number; 128; 0; 0; 27; 0; 0; 35].

Lemma demo_user_pde j :
  0 <= j < 1024 -> pde demo_user_mem 2 j = if decide (j = 0) then mk_entry 4 PAGE_PWU else pde demo_mem 2 j.
Proof.
  intros Hj. unfold demo_user_mem.
  set (m := write32 demo_mem (4096 * 2) (mk_entry 4 PAGE_PWU)).
  match goal with |- pde ?x _ _ = _ => assert (pde x 2 j = pde m 2 j) as -> end.
  { apply same_frame_ent; [|done]. intros a Ha.
    pose proof (Z.div_mod a 4096 ltac:(lia)). pose proof (Z.mod_pos_bound a 4096 ltac:(lia)).
    rewrite !read8_write_bytes_out by (cbn [length take drop]; lia). by rewrite !read8_write32_out by lia. }
  unfold m. change (4096 * 2) with (4096 * 2 + 4 * 0) at 1. unfold pde. rewrite ent_write by lia.
  destruct (decide (j = 0)) as [->|]; [by rewrite decide_True|by rewrite decide_False by lia].
Qed.

Lemma demo_user_frames j : 0 <= j < 1024 -> present (pde demo_user_mem 2 j) = true ->
  pde_frame demo_user_mem 2 j = if decide (j = 0) then 4 else if decide (j = 768) then 3 else 2.
Proof.
  intros Hj. unfold pde_frame. rewrite demo_user_pde, demo_pde by done.
  repeat case_decide; subst; intros Hp; first [by vm_compute|done|lia].
Qed.

Lemma demo_user_space : vspace 2 demo_user_vm.
Proof.
  split; cbn [demo_user_vm vm_mem vm_cr3 vm_tlb vm_frames]; [done| |apply tlb_of_empty| |].
  - destruct demo_tables as [Hr Hs Hk Hi]. split; [done| | |].
    + unfold pde_frame. by rewrite demo_user_pde by lia.
    + by rewrite demo_user_pde by lia.
    + intros i j Hi' Hj' Hpi Hpj. rewrite !demo_user_frames by (done || lia).
      revert Hpi Hpj. rewrite !demo_user_pde, !demo_pde by lia. repeat case_decide; subst; intros; done.
  - split; [|done]. split; cbn [pmm_bitmap pmm_regions total_frames].
    + rewrite length_insert. apply length_replicate.
    + apply Forall_insert; [apply Forall_replicate|]; lia.
    + unfold BITMAP_SIZE. lia.
    + by compute.
  - intros j Hj Hp. change (pde_frame demo_user_mem 2 j < 32768 ->
      frame_used (mkPmm (<[0%nat := 127]> (replicate 4096 0)) [] 64) (pde_frame demo_user_mem 2 j) = true).
    rewrite demo_user_frames by done. repeat case_decide; intros; by vm_compute.
Qed.

Lemma demo_user_page va : 0x1FF0 <= va < 0x1FF0 + 30 ->
  (va / 4096 = 1 /\ walk demo_user_mem (4096 * 2) (va / 4096) = Some 20480) \/
  (va / 4096 = 2 /\ walk demo_user_mem (4096 * 2) (va / 4096) = Some 24576).
Proof.
  intros Hva. destruct (decide (va < 0x2000)); [left|right].
  - assert (va / 4096 = 1) as -> by (symmetry; apply Z.div_unique with (va - 4096); lia). split; [done|by vm_compute].
  - assert (va / 4096 = 2) as -> by (symmetry; apply Z.div_unique with (va - 8192); lia). split; [done|by vm_compute].
Qed.

Lemma demo_user_buffer : user_buffer demo_user_mem 2 0x1FF0 30.
Proof.
  split; [done|done|by compute|]. intros va [[-> Hw]|[-> Hw]]%demo_user_page; eexists; (split; [exact Hw|done]).
Qed.

Lemma demo_user_private : private_pages demo_user_mem 2 0x1FF0 30.
Proof.
  split.
  - intros va f Hva Hf j Hj Hp. rewrite demo_user_frames by done.
    destruct (demo_user_page va Hva) as [[_ Hw]|[_ Hw]]; rewrite Hw in Hf; injection Hf as Hf; repeat case_decide; lia.
  - intros va va' f Hva Hva'.
    destruct (demo_user_page va Hva) as [[-> Hw]|[-> Hw]], (demo_user_page va' Hva') as [[-> Hw']|[-> Hw']];
      rewrite ?Hw, ?Hw'; congruence.
Qed.

Lemma syscall_write_file_stores_witness : let s := demo_user_os (demo_call SYS_WRITE_FILE) in
  wp (syscall_dispatch 40 (fun _ => ret 0) (fun _ => ret tt) 128) (fun r s' =>
    let sent := user_bytes demo_user_mem 2 0x1FF0 30 in
    r = None /\ exists v n ft dat' cs' tw,
      s' = answered n (with_fat ft (with_vm v s)) /\ same_but_tlb 2 demo_user_vm v /\
      written demo_layout (bd_data (disk (os_fat s))) [2; 3] 500 sent tw dat' cs' /\
      ((n = 30 /\ tw = 30 /\ fholds (os_fat s) 0 dat' (set_modified (after_write demo_layout demo_part_read cs' 30)) ft) \/
       (n = -1 /\ 0 <= tw < 30 /\ no_free dat' demo_layout /\
        fholds (os_fat s) 0 dat' (after_write demo_layout demo_part_read cs' tw) ft))) s /\
  user_bytes demo_user_mem 2 0x1FF0 30 = demo_text.
Proof.
  split; [|by vm_compute].
  apply (syscall_write_file_stores pmm drive drive _ _ _ 40 (fun _ => ret 0) (fun _ => ret tt)
    (demo_user_os (demo_call SYS_WRITE_FILE)) 2 0x1FF0 30 0 demo_part_read demo_layout [2; 3]);
    [by split|apply demo_user_space|apply demo_user_buffer|apply demo_layout_ok|apply demo_write_ready|by compute|by vm_compute|lia].
Defined.

Lemma syscall_read_file_delivers_witness : let s := demo_user_os (demo_call SYS_READ_FILE) in
  wp (syscall_dispatch 40 (fun _ => ret 0) (fun _ => ret tt) 128) (fun r s' => r = None /\ exists v ft c,
    s' = answered 30 (with_vm v (with_fat ft s)) /\
    stored 2 0x1FF0 (file_bytes (bd_data (disk (os_fat s))) demo_layout [2; 3] 500 30) demo_user_vm v /\
    fholds (os_fat s) 0 (bd_data (disk (os_fat s))) (moved demo_part_read (500 + 30) c) ft /\
    (500 + 30 < 600 -> c = cs_at [2; 3] ((500 + 30) / cluster_bytes demo_layout))) s.
Proof.
  apply (syscall_read_file_delivers pmm drive drive _ _ _ 40 (fun _ => ret 0) (fun _ => ret tt)
    (demo_user_os (demo_call SYS_READ_FILE)) 2 0x1FF0 30 0 demo_part_read demo_layout [2; 3]);
    [by split|apply demo_user_space|apply demo_user_buffer|apply demo_user_private|apply demo_open_file|by compute].
Defined.
