(* ===== verification/SyscallAlloc.v ===== *)
(** * The heap of a process ([kernel/syscall.c], [sys_alloc])

    [SYS_ALLOC] grows the heap of the calling process by whole pages.  The pages of a
    call are described together, so that the growth and its undoing when memory runs
    out are one invariant. *)

From stdpp Require Import base list gmap numbers option tactics.
From Stdlib Require Import Lia ZArith.
From S2P Require Import Prelude PhysMem Pmm Vmm Io Ata Fat16 Task Sched SchedFair Elf ElfSpec TaskUser Drivers Module Syscall SyscallSpec SyscallIo.

(** ** The pages of the heap *)

Section pages.
Context {A : Type} `{!FrameAllocator A} (n : Z).
Implicit Types s : vm A.

(** The slot of the directory that holds the heap. *)
Definition HEAP_SLOT : Z := USER_HEAP_START / 4096 / 1024.
Definition heap_table s : bool := present (pde (vm_mem s) n HEAP_SLOT).

(** From [s0] on, the frames [fs] were taken for the pages from [p0] on; the first
    [q] of them have been given back. *)
Record heap_pages (p0 : Z) (fs : list Z) (q : Z) s0 s : Prop := {
  hp_space : vspace n (as_user n s);
  hp_regs : same_regs s0 s;
  hp_start : fs = [] -> s = s0;
  hp_total : fa_total (vm_frames s) = fa_total (vm_frames s0);
  hp_table : fs = [] \/ heap_table s = true;
  hp_page : forall k f, fs !! k = Some f ->
    walk (vm_mem s) (4096 * n) (p0 + Z.of_nat k) = if Z.of_nat k <? q then None else Some (4096 * f);
  hp_other : forall pg, 0 <= pg < 1023 * 1024 -> pg <> TEMP_PG -> ~ p0 <= pg < p0 + Z.of_nat (length fs) ->
    walk (vm_mem s) (4096 * n) pg = walk (vm_mem s0) (4096 * n) pg;
  hp_frame : forall k f, fs !! k = Some f -> 0 < f < fa_limit /\ fresh_frame (vm_mem s) n f /\
    ~ fa_used (vm_frames s0) f /\ (fa_used (vm_frames s) f <-> q <= Z.of_nat k);
  hp_nodup : NoDup fs;
  hp_taken : forall g, 0 <= g < fa_limit -> fa_used (vm_frames s0) g -> fa_used (vm_frames s) g;
  hp_exact : heap_table s0 = true -> forall g, 0 <= g < fa_limit -> fa_used (vm_frames s) g ->
    fa_used (vm_frames s0) g \/ exists k, fs !! k = Some g /\ q <= Z.of_nat k;
}.

Lemma heap_pages_nil p0 s : vspace n (as_user n s) -> heap_pages p0 [] 0 s s.
Proof. intros Hv. split; try done; [by left|by constructor|by left]. Qed.

(** There is a table for the heap, or there are frames for a page and a table. *)
Definition heap_room s : Prop := heap_table s = true \/
  exists f g, f <> g /\ (0 <= f < fa_total (vm_frames s) /\ f < fa_limit /\ ~ fa_used (vm_frames s) f) /\
    (0 <= g < fa_total (vm_frames s) /\ g < fa_limit /\ ~ fa_used (vm_frames s) g).

Definition in_heap (p : Z) : Prop := 2048 <= p < 2064.

Lemma in_heap_page p : in_heap p -> let va := 4096 * p in
  0 <= va < 4294967296 /\ va / 4096 = p /\ va / 4096 / 1024 = HEAP_SLOT /\ p <> TEMP_PG.
Proof.
  intros [H1 H2] va. unfold va. rewrite (Z.mul_comm 4096), Z.div_mul by lia.
  split_and!; [lia|lia|done| |unfold TEMP_PG; by intros ->].
  change HEAP_SLOT with 2. symmetry. apply Z.div_unique with (p - 2048); lia.
Qed.

(** *** A page more *)

Lemma tables_user s : vspace n (as_user n s) -> tables_ok (vm_mem s) n.
Proof. intros Hv. exact (vs_tables _ _ Hv). Qed.

(** The directory is none of its tables. *)
Lemma space_frames s a' : vspace n (as_user n s) -> fa_wf a' ->
  (forall i, 0 <= i < 1024 -> present (pde (vm_mem s) n i) = true -> pde_frame (vm_mem s) n i < fa_limit ->
     fa_used a' (pde_frame (vm_mem s) n i)) -> vspace n (as_user n (set_frames a' s)).
Proof. intros [Hc Hok Ht _ _] Hwf Hu. by split. Qed.

(** What allocating [f] did. *)
Record took (f : Z) s (a' : A) : Prop := {
  tk_range : 0 < f < fa_limit;
  tk_free : ~ fa_used (vm_frames s) f;
  tk_wf : fa_wf a';
  tk_total : fa_total a' = fa_total (vm_frames s);
  tk_used : forall g, 0 <= g < fa_limit -> fa_used a' g <-> fa_used (vm_frames s) g \/ g = f;
}.

Lemma took_space f s a' : vspace n (as_user n s) -> took f s a' -> vspace n (as_user n (set_frames a' s)).
Proof.
  intros Hv [Hr Hf Hwf _ Hu]. apply space_frames; [done|done|]. intros i Hi Hp Hl.
  pose proof (pde_frame_range (vm_mem s) n i). apply Hu; [lia|]. left. by apply (vs_used _ _ Hv).
Qed.

Lemma took_room f s a' : heap_room s -> took f s a' -> heap_table s = false -> ~ exhausted a'.
Proof.
  intros [?|(g & h & Hne & (Hg & Hgl & Hgu) & (Hh & Hhl & Hhu))] [_ _ _ Ht Hu] Hno; [congruence|].
  intros Hex. unfold exhausted in Hex. rewrite Ht in Hex.
  pose proof (Hex g Hg) as H1. pose proof (Hex h Hh) as H2. apply Hu in H1; [|lia]. apply Hu in H2; [|lia].
  destruct H1, H2; try done. congruence.
Qed.

Lemma lookup_one {B} (l : list B) x k y : (l ++ [x]) !! k = Some y -> l !! k = Some y \/ k = length l /\ y = x.
Proof. intros [?|[? [? ->]%list_lookup_singleton_Some]]%lookup_app_Some; [by left|right]. split; [lia|done]. Qed.

(** The page after the frame [f] was taken and mapped. *)
Section grow.
Context (p0 : Z) (fs : list Z) (f : Z) (s0 s s' : vm A) (a' : A).
Abbreviation p := (p0 + Z.of_nat (length fs)).
Context (H : heap_pages p0 fs 0 s0 s) (Hp0 : 2048 <= p0) (Hp : in_heap p) (Htk : took f s a')
  (Hm : page_mapped n (4096 * p) (4096 * f) (set_frames a' s) s') (Hv' : vspace n (as_user n s'))
  (Hr : same_regs (set_frames a' s) s').
#[local] Set Default Proof Using "All".

Lemma grow_mono g : 0 <= g < fa_limit -> fa_used a' g -> fa_used (vm_frames s') g.
Proof. exact (pm_taken _ _ _ _ _ Hm g). Qed.

Lemma grow_old g : 0 <= g < fa_limit -> fa_used (vm_frames s) g -> fa_used a' g.
Proof. intros Hg Hu. apply (tk_used _ _ _ Htk); [done|by left]. Qed.

Lemma grow_new : fa_used a' f.
Proof. pose proof (tk_range _ _ _ Htk). apply (tk_used _ _ _ Htk); [lia|by right]. Qed.

Lemma grow_fresh g : 0 <= g < fa_limit -> fresh_frame (vm_mem s) n g -> fa_used a' g -> fresh_frame (vm_mem s') n g.
Proof.
  intros Hg Hfr Hu. destruct (in_heap_page p Hp) as (Hva & _ & Es & _).
  eapply (page_mapped_frame n (set_frames a' s)); [apply tables_user|exact Hm|done|by rewrite Es|done|done].
  eapply took_space; [apply H|done].
Qed.

Lemma grow_page k g : (fs ++ [f]) !! k = Some g -> walk (vm_mem s') (4096 * n) (p0 + Z.of_nat k) = Some (4096 * g).
Proof.
  destruct (in_heap_page p Hp) as (_ & Ep & Es & _). pose proof (pm_walk _ _ _ _ _ Hm) as Hw. rewrite Ep in Hw.
  intros [Hk|[-> ->]]%lookup_one.
  - pose proof (lookup_lt_Some _ _ _ Hk). rewrite (pm_other _ _ _ _ _ Hm); rewrite ?Ep; [|unfold in_heap in *; lia|lia|].
    + pose proof (hp_page _ _ _ _ _ H k g Hk) as Hg. by rewrite (proj2 (Z.ltb_ge _ _)) in Hg by lia.
    + left. apply (in_heap_page (p0 + Z.of_nat k)). unfold in_heap in *. lia.
  - rewrite Hw. by rewrite (Z.mul_comm 4096 f), Z.div_mul, Z.mul_comm by lia.
Qed.

Lemma grow_frame k g : (fs ++ [f]) !! k = Some g -> 0 < g < fa_limit /\ fresh_frame (vm_mem s') n g /\
  ~ fa_used (vm_frames s0) g /\ (fa_used (vm_frames s') g <-> 0 <= Z.of_nat k).
Proof.
  pose proof (tk_range _ _ _ Htk) as Hf. intros [Hk|[-> ->]]%lookup_one.
  - destruct (hp_frame _ _ _ _ _ H k g Hk) as (Hg & Hfr & Hg0 & Hgu).
    assert (fa_used (vm_frames s) g) as Hu by (apply Hgu; lia).
    split_and!; [lia|lia|apply grow_fresh; [lia|done|apply grow_old; [lia|done]]|done|].
    split; [lia|]. intros _. apply grow_mono; [lia|]. apply grow_old; [lia|done].
  - split_and!; [lia|lia| | |split; [lia|intros _; apply grow_mono; [lia|apply grow_new]]].
    + apply grow_fresh; [lia| |apply grow_new]. by apply (vspace_fresh n (as_user n s)); [apply H|done|apply Htk].
    + intros Hu. apply (tk_free _ _ _ Htk), (hp_taken _ _ _ _ _ H); [lia|done].
Qed.

Lemma grow_exact g : heap_table s0 = true -> 0 <= g < fa_limit -> fa_used (vm_frames s') g ->
  fa_used (vm_frames s0) g \/ exists k, (fs ++ [f]) !! k = Some g /\ 0 <= Z.of_nat k.
Proof.
  intros Ht0 Hg Hu. destruct (in_heap_page p Hp) as (_ & _ & Es & _).
  assert (heap_table s = true) as Ht.
  { destruct (hp_table _ _ _ _ _ H) as [E|E]; [|done]. by rewrite (hp_start _ _ _ _ _ H E). }
  destruct (pm_frames _ _ _ _ _ Hm) as [Efr _]; [by rewrite Es|].
  rewrite Efr in Hu. apply (tk_used _ _ _ Htk) in Hu; [|done]. destruct Hu as [Hu| ->].
  - destruct (hp_exact _ _ _ _ _ H Ht0 g Hg Hu) as [?|(k & Hk & Hq)]; [by left|right].
    exists k. split; [by apply lookup_app_l_Some|done].
  - right. exists (length fs). split; [by rewrite lookup_app_r, Nat.sub_diag by lia|lia].
Qed.

Lemma grow_pages : heap_pages p0 (fs ++ [f]) 0 s0 s'.
Proof.
  destruct (in_heap_page p Hp) as (_ & Ep & Es & Htmp).
  split; [exact Hv'| |by destruct fs| | | | |apply grow_frame| | |intros; by apply grow_exact].
  - destruct (hp_regs _ _ _ _ _ H) as (?&?&?), Hr as (?&?&?). vm_simpl in *. split_and!; congruence.
  - rewrite (pm_total _ _ _ _ _ Hm). vm_simpl in *. by rewrite (tk_total _ _ _ Htk), (hp_total _ _ _ _ _ H).
  - right. pose proof (pm_present _ _ _ _ _ Hm) as Hpres. by rewrite Es in Hpres.
  - intros k g Hk. rewrite (proj2 (Z.ltb_ge _ _)) by lia. by apply grow_page.
  - intros pg Hpg Hpt Hout. rewrite length_app in Hout. cbn [length] in Hout.
    rewrite (pm_other _ _ _ _ _ Hm); vm_simpl in *; rewrite ?Ep; [|done|lia|by left].
    apply (hp_other _ _ _ _ _ H); [done|done|lia].
  - apply list.NoDup_app. split_and!; [apply H| |apply list.NoDup_singleton].
    intros g [k Hk]%list_elem_of_lookup ->%list.list_elem_of_singleton.
    apply (tk_free _ _ _ Htk). apply (hp_frame _ _ _ _ _ H k f Hk). lia.
  - intros g Hg Hu. apply grow_mono, grow_old; [done|done|]. by apply (hp_taken _ _ _ _ _ H).
Qed.
End grow.

Lemma wp_heap_map p0 fs f s0 s a' :
  heap_pages p0 fs 0 s0 s -> heap_room s0 -> 2048 <= p0 -> in_heap (p0 + Z.of_nat (length fs)) -> took f s a' ->
  wp (vmm_map_page_for_pdt (4096 * n) (4096 * (p0 + Z.of_nat (length fs))) (4096 * f) PAGE_PWU)
     (fun _ s' => heap_pages p0 (fs ++ [f]) 0 s0 s') (set_frames a' s).
Proof.
  intros H Hroom Hp0 Hp Htk. destruct (in_heap_page _ Hp) as (Hva & _ & Eslot & _).
  pose proof (fa_limit_range (A := A)) as Hlim. pose proof (tk_range _ _ _ Htk) as Hf.
  pose proof (took_space f s a' (hp_space _ _ _ _ _ H) Htk) as Hv.
  eapply wp_mono; [apply (wp_map_page_for_pdt (set_frames a' s) n); [exact Hv|done|by rewrite Eslot|lia|by compute]|].
  intros [] s' (Hv' & Hr & _ & [Hm|(Hno & Hex & _)]); vm_simpl in *; [by eapply grow_pages|exfalso].
  rewrite Eslot in Hno. destruct (hp_table _ _ _ _ _ H) as [E|E]; [|unfold heap_table in E; congruence].
  pose proof (hp_start _ _ _ _ _ H E) as ->. by apply (took_room f s0 a').
Qed.

(** *** A page less *)

Lemma wp_unmap_page_for_pdt s va :
  vspace n (as_user n s) -> 0 <= va < 4294967296 -> va / 4096 / 1024 < 1023 ->
  present (pde (vm_mem s) n (va / 4096 / 1024)) = true ->
  wp (vmm_unmap_page_for_pdt (4096 * n) va) (fun _ s' =>
    vspace n (as_user n s') /\ same_regs s s' /\ page_unmapped n va s s') s.
Proof.
  intros Hv Hva Hi Hp. unfold vmm_unmap_page_for_pdt, read_cr3, load_cr3. wp_steps.
  eapply wp_mono; [by apply (wp_unmap_page (as_user n s) n)|]. intros [] s1 (Hv1 & (?&?&?) & Hu). wp_steps.
  vm_simpl in *. split_and!; [|by split_and!|by destruct Hu].
  destruct Hv1. split; vm_simpl in *; [done|done|apply tlb_of_empty|done|done].
Qed.

(** Unmapping leaves the directory alone. *)
Lemma unmapped_pde s s' va j : vspace n (as_user n s) -> page_unmapped n va s s' ->
  0 <= va / 4096 / 1024 < 1023 -> present (pde (vm_mem s) n (va / 4096 / 1024)) = true -> 0 <= j < 1024 ->
  pde (vm_mem s') n j = pde (vm_mem s) n j.
Proof.
  intros Hv Hu Hi Hp Hj. apply same_frame_ent; [|done]. intros a Ha. apply (pu_data _ _ _ _ Hu). rewrite Ha.
  apply not_eq_sym. exact (own_frame n (as_user n s) _ Hv Hi Hp).
Qed.

(** The page after its frame [f] was unmapped and freed. *)
Section shrink.
Context (p0 : Z) (fs : list Z) (q : nat) (f : Z) (s0 s s1 : vm A) (a' : A).
Abbreviation p := (p0 + Z.of_nat q).
Context (H : heap_pages p0 fs (Z.of_nat q) s0 s) (Hq : fs !! q = Some f) (Hp0 : 2048 <= p0)
  (Hp : in_heap (p0 + Z.of_nat (length fs) - 1))
  (Hu : page_unmapped n (4096 * p) s s1) (Hv1 : vspace n (as_user n s1)) (Hr : same_regs s s1)
  (Hwf : fa_wf a') (Ht : fa_total a' = fa_total (vm_frames s1))
  (Hg : forall g, 0 <= g < fa_limit -> fa_used a' g <-> fa_used (vm_frames s1) g /\ g <> f).
#[local] Set Default Proof Using "All".

Lemma shrink_in k g : fs !! k = Some g -> in_heap (p0 + Z.of_nat k).
Proof. intros Hk%lookup_lt_Some. unfold in_heap in *. lia. Qed.

Lemma shrink_pde j : 0 <= j < 1024 -> pde (vm_mem s1) n j = pde (vm_mem s) n j.
Proof.
  destruct (in_heap_page _ (shrink_in q f Hq)) as (_ & _ & Es & _). destruct (hp_table _ _ _ _ _ H) as [E|E]; [by rewrite E in Hq|].
  apply (unmapped_pde _ _ _ _ (hp_space _ _ _ _ _ H) Hu); by rewrite Es.
Qed.

Lemma shrink_fresh g : fresh_frame (vm_mem s) n g -> fresh_frame (vm_mem s1) n g.
Proof. apply same_pde_fresh, shrink_pde. Qed.

Lemma shrink_page k g : fs !! k = Some g -> walk (vm_mem s1) (4096 * n) (p0 + Z.of_nat k) =
  if Z.of_nat k <? Z.of_nat q + 1 then None else Some (4096 * g).
Proof.
  intros Hk. destruct (in_heap_page _ (shrink_in q f Hq)) as (_ & Ep & _).
  pose proof (shrink_in k g Hk) as Hin. unfold in_heap in Hin. destruct (decide (k = q)) as [->|Hne].
  - rewrite (proj2 (Z.ltb_lt _ _)) by lia. pose proof (pu_walk _ _ _ _ Hu) as Hw. by rewrite Ep in Hw.
  - rewrite (pu_other _ _ _ _ Hu); rewrite ?Ep; [|lia|lia]. rewrite (hp_page _ _ _ _ _ H k g Hk).
    by destruct (Z.ltb_spec (Z.of_nat k) (Z.of_nat q)), (Z.ltb_spec (Z.of_nat k) (Z.of_nat q + 1)); try lia.
Qed.

Lemma shrink_used g : 0 <= g < fa_limit -> fa_used a' g <-> fa_used (vm_frames s) g /\ g <> f.
Proof. intros Hrg. rewrite Hg by done. by rewrite (pu_frames _ _ _ _ Hu). Qed.

Lemma shrink_frame k g : fs !! k = Some g -> 0 < g < fa_limit /\ fresh_frame (vm_mem s1) n g /\
  ~ fa_used (vm_frames s0) g /\ (fa_used a' g <-> Z.of_nat q + 1 <= Z.of_nat k).
Proof.
  intros Hk. destruct (hp_frame _ _ _ _ _ H k g Hk) as (Hgr & Hfr & Hg0 & Hgu).
  split_and!; [lia|lia|by apply shrink_fresh|done|]. rewrite shrink_used, Hgu by lia. split.
  - intros [Hle Hne]. destruct (decide (k = q)) as [->|]; [congruence|lia].
  - intros Hle. split; [lia|]. intros ->. pose proof (NoDup_lookup _ _ _ _ (hp_nodup _ _ _ _ _ H) Hk Hq). lia.
Qed.

Lemma shrink_exact g : heap_table s0 = true -> 0 <= g < fa_limit -> fa_used a' g ->
  fa_used (vm_frames s0) g \/ exists k, fs !! k = Some g /\ Z.of_nat q + 1 <= Z.of_nat k.
Proof.
  intros Ht0 Hrg [Hus Hne]%shrink_used; [|done].
  destruct (hp_exact _ _ _ _ _ H Ht0 g Hrg Hus) as [?|(k & Hk & Hle)]; [by left|right].
  exists k. split; [done|]. destruct (decide (k = q)) as [->|]; [congruence|lia].
Qed.

Lemma shrink_pages : heap_pages p0 fs (Z.of_nat q + 1) s0 (set_frames a' s1).
Proof.
  destruct (in_heap_page _ (shrink_in q f Hq)) as (_ & Ep & _).
  destruct (hp_frame _ _ _ _ _ H q f Hq) as (Hf & Hfr & Hf0 & _).
  split; vm_simpl in *; [| |intros ->; done| | |apply shrink_page| |apply shrink_frame|apply (hp_nodup _ _ _ _ _ H)| |intros; by apply shrink_exact].
  - apply space_frames; [done|done|]. intros i Hi Hpr Hl. pose proof (pde_frame_range (vm_mem s1) n i).
    apply Hg; [lia|]. split; [by apply (vs_used _ _ Hv1)|]. by apply (shrink_fresh f Hfr).
  - destruct (hp_regs _ _ _ _ _ H) as (?&?&?), Hr as (?&?&?). split_and!; vm_simpl in *; congruence.
  - rewrite Ht, (pu_frames _ _ _ _ Hu). apply (hp_total _ _ _ _ _ H).
  - destruct (hp_table _ _ _ _ _ H) as [E|E]; [by left|right]. unfold heap_table in *. vm_simpl in *. by rewrite shrink_pde.
  - intros pg Hpg Hpt Hout. rewrite (pu_other _ _ _ _ Hu); rewrite ?Ep; [by apply (hp_other _ _ _ _ _ H)|lia|].
    pose proof (lookup_lt_Some _ _ _ Hq). lia.
  - intros g Hrg Hus. apply shrink_used; [done|]. split; [by apply (hp_taken _ _ _ _ _ H)|]. by intros ->.
Qed.
End shrink.

Lemma wp_heap_unmap p0 fs q f s0 s :
  heap_pages p0 fs (Z.of_nat q) s0 s -> fs !! q = Some f -> 2048 <= p0 -> in_heap (p0 + Z.of_nat (length fs) - 1) ->
  wp (vmm_unmap_page_for_pdt (4096 * n) (4096 * (p0 + Z.of_nat q))) (fun _ s1 =>
    wp (vm_free_frame (4096 * f)) (fun _ s2 => heap_pages p0 fs (Z.of_nat q + 1) s0 s2 /\
      forall g, 0 <= g < fa_limit -> fa_used (vm_frames s) g -> fa_used (vm_frames s2) g \/ g = f) s1) s.
Proof.
  intros H Hq Hp0 Hp. pose proof (lookup_lt_Some _ _ _ Hq).
  destruct (in_heap_page (p0 + Z.of_nat q)) as (Hva & _ & Eslot & _); [unfold in_heap in *; lia|].
  destruct (hp_table _ _ _ _ _ H) as [E|E]; [exfalso; by rewrite E in Hq|]. pose proof (fa_limit_range (A := A)) as Hlim.
  destruct (hp_frame _ _ _ _ _ H q f Hq) as (Hf & _).
  eapply wp_mono; [apply wp_unmap_page_for_pdt; [exact (hp_space _ _ _ _ _ H)|done|by rewrite Eslot|by rewrite Eslot]|].
  intros [] s1 (Hv1 & Hr & Hu). unfold vm_free_frame. apply wp_zoom.
  eapply wp_mono; [apply fa_free_spec; [apply (vs_alloc _ _ Hv1)|lia]|]. intros [] a' (Hwf & Ht & Hg).
  rewrite (Z.mul_comm 4096 f), Z.div_mul in Hg by lia. split; [by eapply shrink_pages|].
  intros g Hrg Hus. destruct (decide (g = f)); [by right|left]. apply Hg; [done|]. by rewrite (pu_frames _ _ _ _ Hu).
Qed.
End pages.

(** ** The call *)

Section alloc.
Context {A : Type} `{!FrameAllocator A}.
Implicit Types k : kernel A.

(** The entries of the frame array from [c] on, for the frames [fs] of which the
    first [q] were given back. *)
Record heap_entries (c : Z) (fs : list Z) (q : Z) (l l' : list Z) : Prop := {
  he_length : length l' = length l;
  he_frame : forall j f, fs !! j = Some f ->
    l' !! (Z.to_nat c + j)%nat = Some (if Z.of_nat j <? q then 0 else 4096 * f);
  he_other : forall j, Z.of_nat j < c \/ c + Z.of_nat (length fs) <= Z.of_nat j -> l' !! j = l !! j;
}.

Lemma heap_entries_grow c fs f l l' l'' :
  0 <= c -> heap_entries c fs 0 l l' -> arr_set l' (c + Z.of_nat (length fs)) (4096 * f) = Some l'' ->
  heap_entries c (fs ++ [f]) 0 l l''.
Proof.
  intros Hc [Hl Hf Ho] Hs. pose proof (arr_set_length _ _ _ _ Hs) as Hl2. apply arr_set_inv in Hs as [Hr ->].
  replace (Z.to_nat (c + Z.of_nat (length fs))) with (Z.to_nat c + length fs)%nat in * by lia. split.
  - congruence.
  - intros j g [Hj|[-> ->]]%lookup_one.
    + pose proof (lookup_lt_Some _ _ _ Hj). rewrite list_lookup_insert_ne by lia. by apply Hf.
    + rewrite (proj2 (Z.ltb_ge _ _)) by lia. apply list_lookup_insert_eq. lia.
  - intros j Hj. rewrite length_app in Hj. cbn [length] in Hj. rewrite list_lookup_insert_ne by lia. apply Ho. lia.
Qed.

Lemma heap_entries_shrink c fs q l l' l'' :
  0 <= c -> (q < length fs)%nat -> heap_entries c fs (Z.of_nat q) l l' -> arr_set l' (c + Z.of_nat q) 0 = Some l'' ->
  heap_entries c fs (Z.of_nat q + 1) l l''.
Proof.
  intros Hc Hq [Hl Hf Ho] Hs. pose proof (arr_set_length _ _ _ _ Hs) as Hl2. apply arr_set_inv in Hs as [Hr ->].
  replace (Z.to_nat (c + Z.of_nat q)) with (Z.to_nat c + q)%nat in * by lia. split.
  - congruence.
  - intros j g Hj. destruct (decide (j = q)) as [->|Hne].
    + rewrite (proj2 (Z.ltb_lt _ _)) by lia. apply list_lookup_insert_eq. lia.
    + rewrite list_lookup_insert_ne by lia. rewrite (Hf j g Hj).
      by destruct (Z.ltb_spec (Z.of_nat j) (Z.of_nat q)), (Z.ltb_spec (Z.of_nat j) (Z.of_nat q + 1)); try lia.
  - intros j Hj. rewrite list_lookup_insert_ne by lia. by apply Ho.
Qed.

(** A user process with [c] pages of heap in the address space of directory [n]. *)
Record heap_process (n : Z) (i : nat) (x : task) k : Prop := {
  pr_current : current_task k = Some i;
  pr_task : task_table k !! i = Some x;
  pr_type : type x = TASK_TYPE_USER_PROCESS;
  pr_directory : page_directory_phys x = 4096 * n;
  pr_start : user_heap_start x = USER_HEAP_START;
  pr_count : 0 <= user_heap_frame_count x <= Z.of_nat MAX_USER_HEAP_PAGES;
  pr_size : user_heap_size x = 4096 * user_heap_frame_count x;
  pr_frames : length (user_heap_frames x) = MAX_USER_HEAP_PAGES;
  pr_space : vspace n (as_user n (kvm k));
}.

(** The kernel with another memory and another entry for the process. *)
Definition with_task (v : vm A) (i : nat) (y : task) k : kernel A :=
  k <| kvm := v |> <| task_table := <[i := y]> (task_table k) |>.

Section run.
Context (n : Z) (i : nat) (x : task) (k0 : kernel A) (Hx : heap_process n i x k0).
Abbreviation c := (user_heap_frame_count x).
Definition heap_page0 : Z := 2048 + c.

Definition heap_inv (fs : list Z) (q : Z) k : Prop := exists v l,
  k = with_task v i (x <| user_heap_frames := l |>) k0 /\
  heap_pages n heap_page0 fs q (kvm k0) v /\ heap_entries c fs q (user_heap_frames x) l.

Lemma with_task_lookup v y : task_table (with_task v i y k0) !! i = Some y.
Proof using Hx.
  apply list_lookup_insert_eq. by eapply lookup_lt_Some, Hx.
Qed.

Lemma with_task_again v y v' y' :
  (with_task v i y k0) <| kvm := v' |> <| task_table := <[i := y']> (task_table (with_task v i y k0)) |> = with_task v' i y' k0.
Proof using Type.
  change (k0 <| kvm := v' |> <| task_table := <[i := y']> (<[i := y]> (task_table k0)) |> = with_task v' i y' k0).
  by rewrite list_insert_insert_eq.
Qed.

Lemma heap_address j : 0 <= j -> c + j < 16 ->
  u32 (user_heap_start x + (c + j) * PAGE_SIZE) = 4096 * (heap_page0 + j).
Proof using Hx.
  intros Hj Hc. destruct Hx. rewrite pr_start0. unfold USER_HEAP_START, PAGE_SIZE, heap_page0 in *. rewrite u32_small by lia. lia.
Qed.

Lemma wp_its_get v y (Q : task -> kernel A -> Prop) :
  Q y (with_task v i y k0) -> wp (get_task (Some i)) Q (with_task v i y k0).
Proof using Hx. intros HQ. eapply wp_get_task; [apply with_task_lookup|exact HQ]. Qed.

Lemma wp_its_upd v y g (Q : unit -> kernel A -> Prop) :
  Q tt (with_task v i (g y) k0) -> wp (upd_task (Some i) g) Q (with_task v i y k0).
Proof using Hx.
  intros HQ. eapply wp_upd_task; [apply with_task_lookup|]. by rewrite <- (with_task_again v y v (g y)) in HQ.
Qed.

Lemma wp_its_vm {B} v y (cc : M (vm A) B) (Q : B -> kernel A -> Prop) :
  wp cc (fun b v' => Q b (with_task v' i y k0)) v -> wp (in_vm cc) Q (with_task v i y k0).
Proof using Type. intros H. by apply wp_zoom. Qed.

Lemma wp_its_frame v l j f (Q : unit -> kernel A -> Prop) :
  0 <= j < Z.of_nat (length l) ->
  (forall l', arr_set l j f = Some l' -> Q tt (with_task v i (x <| user_heap_frames := l' |>) k0)) ->
  wp (set_heap_frame (Some i) j f) Q (with_task v i (x <| user_heap_frames := l |>) k0).
Proof using Hx.
  intros Hj HQ. unfold set_heap_frame. apply wp_bind, wp_its_get. pose proof (arr_set_Some l j f Hj) as E.
  apply wp_bind. eapply wp_some_or_trap; [exact E|]. apply wp_its_upd. by apply HQ.
Qed.

Lemma heap_inv_length fs q k : heap_inv fs q k -> exists v l, k = with_task v i (x <| user_heap_frames := l |>) k0 /\
  heap_pages n heap_page0 fs q (kvm k0) v /\ heap_entries c fs q (user_heap_frames x) l /\ length l = MAX_USER_HEAP_PAGES.
Proof using Hx.
  intros (v & l & -> & Hp & He). exists v, l. split_and!; [done..|]. rewrite (he_length _ _ _ _ _ He). apply Hx.
Qed.

Lemma heap_inv_start : heap_inv [] 0 k0.
Proof using Hx.
  exists (kvm k0), (user_heap_frames x). split_and!.
  - destruct Hx as [_ Ht _ _ _ _ _ _ _]. unfold with_task. destruct k0, x. cbn in *. by rewrite list_insert_id.
  - apply heap_pages_nil, Hx.
  - split; [done|done|]. intros; done.
Qed.

(** *** Giving the pages back *)

(** Every frame is taken, but for those of [fs]. *)
Definition all_taken (fs : list Z) k : Prop := forall g, 0 <= g < fa_limit -> g < fa_total (vm_frames (kvm k)) ->
  fa_used (vm_frames (kvm k)) g \/ g ∈ fs.

Lemma heap_page_range q : 0 <= q -> c + q <= 16 -> 2048 <= heap_page0 /\ (0 < q -> in_heap (heap_page0 + q - 1)).
Proof using Hx. intros Hq Hc. pose proof (pr_count _ _ _ _ Hx). unfold in_heap, heap_page0. lia. Qed.

Lemma wp_unmap_heap_page fs (q : nat) k :
  heap_inv fs (Z.of_nat q) k -> (q < length fs)%nat -> c + Z.of_nat (length fs) <= 16 -> all_taken fs k ->
  wp (y <- get_task (Some i) ;;
      in_vm (vmm_unmap_page_for_pdt (page_directory_phys y)
        (u32 (user_heap_start y + (user_heap_frame_count y + Z.of_nat q) * PAGE_SIZE))) ;;
      f <- some_or_trap (arr_get (user_heap_frames y) (user_heap_frame_count y + Z.of_nat q)) ;;
      in_vm (vm_free_frame f) ;;
      set_heap_frame (Some i) (user_heap_frame_count y + Z.of_nat q) 0)
     (fun _ k' => heap_inv fs (Z.of_nat q + 1) k' /\ all_taken fs k') k.
Proof using Hx.
  intros (v & l & -> & Hp & He & Hl)%heap_inv_length Hq Hc Hall. pose proof (pr_count _ _ _ _ Hx) as Hcnt.
  destruct (lookup_lt_is_Some_2 fs q) as [f Hf]; [lia|].
  destruct (heap_page_range (Z.of_nat (length fs))) as [Hp0 Hin]; [lia|lia|].
  apply wp_bind, wp_its_get. change (user_heap_start (x <| user_heap_frames := l |>)) with (user_heap_start x).
  change (user_heap_frame_count (x <| user_heap_frames := l |>)) with c. rewrite heap_address by lia.
  change (page_directory_phys (x <| user_heap_frames := l |>)) with (page_directory_phys x). rewrite (pr_directory _ _ _ _ Hx).
  apply wp_bind, wp_its_vm. eapply wp_mono; [apply (wp_heap_unmap n heap_page0 fs q f (kvm k0)); [done|done|done|apply Hin; lia]|].
  intros [] v1 Hfree. apply wp_bind. eapply (wp_some_or_trap _ (4096 * f)).
  { change (arr_get l (c + Z.of_nat q) = Some (4096 * f)). unfold arr_get. rewrite (proj2 (Z.leb_le _ _)) by lia.
    rewrite Z2Nat.inj_add, Nat2Z.id by lia. rewrite (he_frame _ _ _ _ _ He q f Hf). by rewrite (proj2 (Z.ltb_ge _ _)) by lia. }
  apply wp_bind, wp_its_vm. eapply wp_mono; [exact Hfree|]. intros [] v2 [Hp2 Hmono].
  apply wp_its_frame; [unfold MAX_USER_HEAP_PAGES in Hl; lia|]. intros l' Hl'. split.
  - exists v2, l'. split_and!; [done|done|]. eapply heap_entries_shrink; [lia|lia|exact He|done].
  - intros g Hg Ht. change (g < fa_total (vm_frames v2)) in Ht.
    rewrite (hp_total _ _ _ _ _ _ Hp2), <- (hp_total _ _ _ _ _ _ Hp) in Ht.
    destruct (Hall g Hg Ht) as [Hu|?]; [|by right].
    destruct (Hmono g Hg Hu) as [?| ->]; [by left|right]. apply list_elem_of_lookup. by exists q.
Qed.

Lemma wp_unmap_heap_pages fs k (Q : unit -> kernel A -> Prop) :
  heap_inv fs 0 k -> c + Z.of_nat (length fs) <= 16 -> exhausted (vm_frames (kvm k)) ->
  (forall k', heap_inv fs (Z.of_nat (length fs)) k' -> all_taken fs k' -> Q tt k') ->
  wp (unmap_heap_pages (Some i) (Z.of_nat (length fs))) Q k.
Proof using Hx.
  intros Hinv Hc Hex HQ. unfold unmap_heap_pages. rewrite Nat2Z.id.
  apply (wp_for_each (fun q k' => heap_inv fs q k' /\ all_taken fs k')).
  - split; [done|]. intros g Hg Ht. left. apply Hex. lia.
  - intros q k' Hq [Hk Hall]. replace q with (Z.of_nat (Z.to_nat q)) in * by lia.
    apply wp_unmap_heap_page; [done|lia|done|done].
  - intros k' [Hk Hall]. by apply HQ.
Qed.

(** *** Taking the pages *)

Definition heap_pages_of (size : Z) : Z := (size + 4095) / 4096.

(** What [sys_alloc] leaves: nothing done, the pages taken, or memory ran out. *)
Definition alloc_post (pages r : Z) k : Prop :=
  16 < c + pages /\ r = 0 /\ k = k0 \/
  c + pages <= 16 /\ exists fs v l,
    (Z.of_nat (length fs) = pages /\ r = 4096 * heap_page0 /\
     heap_pages n heap_page0 fs 0 (kvm k0) v /\ heap_entries c fs 0 (user_heap_frames x) l /\
     k = with_task v i (x <| user_heap_frames := l |> <| user_heap_frame_count := c + pages |>
       <| user_heap_size := 4096 * (c + pages) |>) k0) \/
    (Z.of_nat (length fs) < pages /\ r = 0 /\ all_taken fs k /\
     heap_pages n heap_page0 fs (Z.of_nat (length fs)) (kvm k0) v /\
     heap_entries c fs (Z.of_nat (length fs)) (user_heap_frames x) l /\
     k = with_task v i (x <| user_heap_frames := l |>) k0).

Lemma wp_alloc_page fs j k (Q : unit + unit -> kernel A -> Prop) :
  heap_inv fs 0 k -> heap_room n (kvm k0) -> j = Z.of_nat (length fs) -> c + j < 16 ->
  (forall f k', heap_inv (fs ++ [f]) 0 k' -> Q (inl tt) k') ->
  (forall k', heap_inv fs j k' -> all_taken fs k' -> Q (inr tt) k') ->
  wp (frame <- in_vm vm_alloc_frame ;;
      if frame =? 0 then unmap_heap_pages (Some i) j ;; ret (inr tt)
      else
        x <- get_task (Some i) ;;
        set_heap_frame (Some i) (user_heap_frame_count x + j) frame ;;
        let heap_vaddr := u32 (user_heap_start x + (user_heap_frame_count x + j) * PAGE_SIZE) in
        in_vm (vmm_map_page_for_pdt (page_directory_phys x) heap_vaddr frame PAGE_PWU) ;;
        ret (inl tt)) Q k.
Proof using Hx.
  intros Hinv Hroom -> Hc Hl Hr. pose proof (pr_count _ _ _ _ Hx) as Hcnt.
  pose proof (heap_inv_length _ _ _ Hinv) as (v & l & -> & Hp & He & Hlen).
  destruct (heap_page_range (Z.of_nat (length fs) + 1)) as [Hp0 Hin]; [lia|lia|].
  apply wp_bind, wp_its_vm, wp_vm_alloc; [apply (vs_alloc _ _ (hp_space _ _ _ _ _ _ Hp))| |].
  - intros Hex. apply wp_bind, wp_unmap_heap_pages; [done|lia|done|]. intros k' Hk Hall. apply wp_ret. by apply Hr.
  - intros f a' Hf Hfree Hwf Ht Hu. rewrite (proj2 (Z.eqb_neq _ 0)) by lia.
    apply wp_bind, wp_its_get. change (user_heap_start (x <| user_heap_frames := l |>)) with (user_heap_start x).
    change (user_heap_frame_count (x <| user_heap_frames := l |>)) with c. cbv zeta. rewrite heap_address by lia.
    change (page_directory_phys (x <| user_heap_frames := l |>)) with (page_directory_phys x). rewrite (pr_directory _ _ _ _ Hx).
    apply wp_bind, wp_its_frame; [unfold MAX_USER_HEAP_PAGES in Hlen; lia|]. intros l' Hl'.
    apply wp_bind, wp_its_vm. eapply wp_mono; [apply (wp_heap_map n heap_page0 fs f (kvm k0) v a'); try done|].
    + replace (heap_page0 + Z.of_nat (length fs)) with (heap_page0 + (Z.of_nat (length fs) + 1) - 1) by lia. apply Hin. lia.
    + intros [] v' Hp'. apply wp_ret, (Hl f). exists v', l'. split_and!; [done|done|].
      eapply heap_entries_grow; [lia|exact He|done].
Qed.

Lemma aligned_pages size : 0 < size < 4294967296 ->
  page_align_up size / PAGE_SIZE = (if 4294963201 <=? size then 0 else heap_pages_of size).
Proof using Type.
  intros Hs. unfold page_align_up, PAGE_SIZE, heap_pages_of. pose proof (u32_range (size + 4096 - 1)) as Hr.
  change (Z.lxor 0xFFFFFFFF (4096 - 1)) with 0xFFFFF000. fold (entry_frame (u32 (size + 4096 - 1))).
  rewrite entry_frame_spec by done. rewrite (Z.mul_comm 4096), Z.div_mul by lia.
  destruct (Z.leb_spec 4294963201 size).
  - unfold u32 in *. replace (size + 4096 - 1) with (size - 4294963201 + 1 * 4294967296) by lia.
    rewrite Z.mod_add, Z.mod_small, Z.div_small by lia. done.
  - rewrite u32_small by lia. f_equal. lia.
Qed.

Lemma wp_sys_alloc size : 0 < size < 4294967296 -> heap_room n (kvm k0) ->
  wp (sys_alloc size) (alloc_post (heap_pages_of size)) k0.
Proof using Hx.
  intros Hs Hroom. pose proof (pr_count _ _ _ _ Hx) as Hcnt. unfold MAX_USER_HEAP_PAGES in Hcnt.
  assert (0 < heap_pages_of size < 1048577) as Hpg.
  { unfold heap_pages_of. split; [apply Z.div_str_pos; lia|apply Z.div_lt_upper_bound; lia]. }
  assert (4294963201 <= size -> 16 < heap_pages_of size) as Hbig.
  { intros Hb. unfold heap_pages_of. apply Z.lt_le_trans with ((4294963201 + 4095) / 4096); [done|apply Z.div_le_mono; lia]. }
  unfold sys_alloc. rewrite (proj2 (Z.eqb_neq size 0)) by lia. unfold task_get_current.
  apply wp_bind, wp_gets. rewrite (pr_current _ _ _ _ Hx). cbv beta iota.
  apply wp_bind. eapply wp_get_task; [apply Hx|]. rewrite decide_False by (intros Hne; by apply Hne, Hx).
  cbv zeta. rewrite aligned_pages by done.
  destruct (Z.leb_spec 4294963201 size) as [Hb|Hb]; [apply wp_ret; left; split_and!; [apply Hbig in Hb; lia|done|done]|].
  clear Hbig. set (pages := heap_pages_of size) in *. rewrite (proj2 (Z.eqb_neq pages 0)), u32_small by lia.
  change (Z.of_nat MAX_USER_HEAP_PAGES) with 16. cbn [orb].
  destruct (Z.ltb_spec 16 (c + pages)) as [Hlt|Hle]; [apply wp_ret; by left|].
  apply wp_bind, (wp_for (fun j _ k => exists fs, j = Z.of_nat (length fs) /\ heap_inv fs 0 k)).
  - exists []. split; [done|apply heap_inv_start].
  - intros j [] k Hj (fs & -> & Hinv). apply (wp_alloc_page fs); [done|done|done|lia| |].
    + intros f k' Hk'. exists (fs ++ [f]). split; [rewrite length_app; cbn [length]; lia|done].
    + intros k' (v & l & -> & Hp & He) Hall. apply wp_ret. right. split; [done|].
      exists fs, v, l. right. split_and!; try done; lia.
  - intros [] k (fs & Hlen & (v & l & -> & Hp & He)). apply wp_bind, wp_its_upd, wp_ret.
    rewrite Z2Nat.id in Hlen by lia. right. split; [done|]. exists fs, v, l. left.
    assert (u32 (user_heap_start x + user_heap_size x) = 4096 * heap_page0) as ->.
    { rewrite (pr_start _ _ _ _ Hx), (pr_size _ _ _ _ Hx). unfold USER_HEAP_START, heap_page0. rewrite u32_small by lia. lia. }
    split_and!; [lia|done|done|done|].
    change (user_heap_size (x <| user_heap_frames := l |>)) with (user_heap_size x).
    change (user_heap_frame_count (x <| user_heap_frames := l |>)) with c.
    rewrite (pr_size _ _ _ _ Hx). unfold PAGE_SIZE.
    replace (u32 (4096 * c + pages * 4096)) with (4096 * (c + pages)); [done|]. rewrite u32_small by lia. lia.
Qed.

End run.
End alloc.


(** A process without a heap asks for 5000 bytes on the machine of [Vmm]. *)
Definition demo_process : task :=
  (demo_task 1 TASK_RUNNING None None) <| type := TASK_TYPE_USER_PROCESS |> <| page_directory_phys := 4096 * 2 |>
    <| user_heap_start := USER_HEAP_START |> <| user_heap_frames := replicate 16 0 |>.
Definition demo_heap_kernel : kernel pmm := demo_kernel <| task_table := demo_process :: drop 1 (task_table demo_kernel) |>.
Definition demo_heap_os : os pmm drive drive := demo_os <| os_kernel := demo_heap_kernel |>
  <| frame := [0; 0; 0; 0; 5000; 0; 0; SYS_ALLOC; 128; 0; 0; 27; 0; 0; 35] |>.

Lemma demo_heap_room : heap_room (A := pmm) 2 demo_vm.
Proof.
  right. exists 4, 5. split; [done|].
  assert (forall f, f = 4 \/ f = 5 -> ~ frame_used demo_pmm f = true) as H by (intros f [-> | ->]; by vm_compute).
  split; (split; [by compute|split; [by compute|apply H; lia]]).
Qed.

