(* ===== verification/Fishbone.v ===== *)
(** * The stepwise kernel (src/src/kernel/fishbone)

    A second, smaller kernel of the repository: the serial port, the two descriptor
    tables and a self test that divides by zero.  It is run against a 16550 serial
    port, [uart]. *)

From stdpp Require Import base list gmap numbers option tactics.
From Stdlib Require Import Lia ZArith String Ascii.
From S2P Require Import Prelude Io.

(** ** The serial port ([drivers/serial.c]) *)

Definition SERIAL_COM1_BASE : Z := 0x3F8.
Definition SERIAL_DATA_PORT (base : Z) : Z := base.
Definition SERIAL_FIFO_CONTROL_REGISTER (base : Z) : Z := base + 2.
Definition SERIAL_LINE_CONTROL_REGISTER (base : Z) : Z := base + 3.
Definition SERIAL_MODEM_CONTROL_REGISTER (base : Z) : Z := base + 4.
Definition SERIAL_LINE_ENABLE_DLAB_80 : Z := 0x80.
Definition SERIAL_FIFO_CONFIG_C7 : Z := 0xC7.
Definition SERIAL_MODEM_CONFIG_03 : Z := 0x03.
Definition SERIAL_LINE_CONFIG_03 : Z := 0x03.

Section serial.
Context {P : Type} `{!PortIO P}.

Definition serial_configure_baud_rate (com_base divisor : Z) : M P unit :=
  outb (SERIAL_LINE_CONTROL_REGISTER com_base) SERIAL_LINE_ENABLE_DLAB_80 ;;
  outb (SERIAL_DATA_PORT com_base) (Z.land (Z.shiftr divisor 8) 0x00FF) ;;
  outb (SERIAL_DATA_PORT com_base) (Z.land divisor 0x00FF).

Definition serial_init (com_base : Z) : M P Z :=
  outb (com_base + 1) 0x00 ;;
  serial_configure_baud_rate com_base 3 ;;
  outb (SERIAL_LINE_CONTROL_REGISTER com_base) SERIAL_LINE_CONFIG_03 ;;
  outb (SERIAL_FIFO_CONTROL_REGISTER com_base) SERIAL_FIFO_CONFIG_C7 ;;
  outb (SERIAL_MODEM_CONTROL_REGISTER com_base) SERIAL_MODEM_CONFIG_03 ;;
  outb (SERIAL_MODEM_CONTROL_REGISTER com_base) 0x1E ;;
  outb (SERIAL_DATA_PORT com_base) 0xAE ;;
  b <- inb (SERIAL_DATA_PORT com_base) ;;
  if negb (b =? 0xAE) then ret 1
  else outb (SERIAL_MODEM_CONTROL_REGISTER com_base) 0x0F ;; ret 0.

Definition serial_is_faulty (com_base : Z) : M P Z :=
  outb (SERIAL_MODEM_CONTROL_REGISTER com_base) 0x1E ;;
  outb (SERIAL_DATA_PORT com_base) 0xAE ;;
  b <- inb (SERIAL_DATA_PORT com_base) ;;
  if negb (b =? 0xAE) then outb (SERIAL_MODEM_CONTROL_REGISTER com_base) 0x0F ;; ret 1
  else outb (SERIAL_MODEM_CONTROL_REGISTER com_base) 0x0F ;; ret 0.

Definition serial_is_transmit_fifo_empty (com_base : Z) : M P Z :=
  b <- inb (com_base + 5) ;; ret (Z.land b 0x20).

(** [polls] bounds the wait for the transmitter. *)
Definition serial_write_char (polls : nat) (com_base a : Z) : M P unit :=
  iter polls (fun _ : unit =>
    e <- serial_is_transmit_fifo_empty com_base ;;
    if e =? 0 then ret (inl tt) else ret (inr tt)) tt ;;
  outb com_base (u8 a).

(** A string is the list of its characters, up to a NUL. *)
Fixpoint serial_write (polls : nat) (com_base : Z) (str : list Z) : M P unit :=
  match str with
  | [] => ret tt
  | c :: str' => if c =? 0 then ret tt else serial_write_char polls com_base c ;; serial_write polls com_base str'
  end.
End serial.

(** ** The descriptor tables ([arch/i386/gdt.c], [arch/i386/idt.c]) *)

Record gdt_entry := mkGdtEntry {
  limit_low : Z; base_low : Z; base_middle : Z; access : Z; granularity : Z; base_high : Z;
}.
Record idt_entry := mkIdtEntry { offset_low : Z; selector : Z; zero : Z; type_attr : Z; offset_high : Z }.
Definition sizeof_gdt_entry : Z := 8.
Definition sizeof_idt_entry : Z := 8.
Definition null_gdt_entry : gdt_entry := mkGdtEntry 0 0 0 0 0 0.
Definition null_idt_entry : idt_entry := mkIdtEntry 0 0 0 0 0.

(** The statics of the kernel and the registers its assembly loads. *)
Record fishbone (P : Type) := mkFishbone {
  ports : P;
  gdt_entries : list gdt_entry;
  gdt_ptr : Z * Z;
  idt_entries : list idt_entry;
  idt_ptr : Z * Z;
  kernel_test_failures : Z;
  divide_by_zero_triggered : Z;
  reg_gdtr : option (Z * Z);
  reg_tr : Z;
  reg_idtr : option (Z * Z);
}.
Arguments mkFishbone {P}.
Arguments ports {P}.
Arguments gdt_entries {P}.
Arguments gdt_ptr {P}.
Arguments idt_entries {P}.
Arguments idt_ptr {P}.
Arguments kernel_test_failures {P}.
Arguments divide_by_zero_triggered {P}.
Arguments reg_gdtr {P}.
Arguments reg_tr {P}.
Arguments reg_idtr {P}.
#[export] Instance eta_fishbone P : Eta (fishbone P) := {| eta := fun s =>
  mkFishbone (ports s) (gdt_entries s) (gdt_ptr s) (idt_entries s) (idt_ptr s) (kernel_test_failures s)
    (divide_by_zero_triggered s) (reg_gdtr s) (reg_tr s) (reg_idtr s) |}.

Definition gdt_descriptor (base limit access gran : Z) : gdt_entry :=
  mkGdtEntry (Z.land limit 0xFFFF) (Z.land base 0xFFFF) (Z.land (Z.shiftr base 16) 0xFF) access
    (Z.lor (Z.land (Z.shiftr limit 16) 0x0F) (Z.land gran 0xF0)) (Z.land (Z.shiftr base 24) 0xFF).
Definition idt_gate (base sel flags : Z) : idt_entry :=
  mkIdtEntry (Z.land base 0xFFFF) sel 0 flags (Z.land (Z.shiftr base 16) 0xFFFF).

Section kernel.
Context {P : Type} `{!PortIO P}.
Abbreviation K := (M (fishbone P)).

(** The addresses of the tables and of the assembly entry point. *)
Context (polls : nat) (gdt_address idt_address interrupt_handler_0 : Z).

Definition on_ports {B} (c : M P B) : K B := zoom ports (fun p s => s <| ports := p |>) c.

Definition gdt_set_gate (num base limit access gran : Z) : K unit :=
  s <- get ;;
  l <- some_or_trap (arr_set (gdt_entries s) num (gdt_descriptor base limit access gran)) ;;
  put (s <| gdt_entries := l |>).

(** [memset] clears the six entries; [load_gdt] and [load_tss] load GDTR and TR. *)
Definition gdt_init : K unit :=
  modify (fun s => s <| gdt_ptr := (sizeof_gdt_entry * 6 - 1, gdt_address) |>) ;;
  modify (fun s => s <| gdt_entries := replicate 6 null_gdt_entry |>) ;;
  gdt_set_gate 0 0 0 0 0 ;;
  gdt_set_gate 1 0 0xFFFFFFFF 0x9A 0xCF ;;
  gdt_set_gate 2 0 0xFFFFFFFF 0x92 0xCF ;;
  gdt_set_gate 3 0 0xFFFFFFFF 0xFA 0xCF ;;
  gdt_set_gate 4 0 0xFFFFFFFF 0xF2 0xCF ;;
  gdt_set_gate 5 0 0 0x89 0x00 ;;
  modify (fun s => s <| reg_gdtr := Some (gdt_ptr s) |>) ;;
  modify (fun s => s <| reg_tr := 0x2B |>).

Definition idt_set_gate (num base sel flags : Z) : K unit :=
  s <- get ;; l <- some_or_trap (arr_set (idt_entries s) num (idt_gate base sel flags)) ;; put (s <| idt_entries := l |>).

Definition idt_init : K unit :=
  modify (fun s => s <| idt_ptr := (sizeof_idt_entry * 256 - 1, idt_address) |>) ;;
  for_each 256 0 (fun i =>
    s <- get ;; l <- some_or_trap (arr_set (idt_entries s) i null_idt_entry) ;; put (s <| idt_entries := l |>)) ;;
  idt_set_gate 0 interrupt_handler_0 0x08 0x8E ;;
  modify (fun s => s <| reg_idtr := Some (idt_ptr s) |>).

Definition idt_get_gate_offset (num : Z) : K Z :=
  s <- get ;; e <- some_or_trap (arr_get (idt_entries s) num) ;;
  ret (Z.lor (Z.shiftl (offset_high e) 16) (offset_low e)).

(** ** The self test ([kernel/test.h], [arch/i386/interrupt.c], [kernel/kernel.c]) *)

Definition divide_by_zero_handler : K unit := modify (fun s => s <| divide_by_zero_triggered := 1 |>).

(** [div] by zero: the processor enters gate 0 of the loaded table; the entry point calls
    the handler and returns behind the instruction.  Without such a gate it shuts down. *)
Definition divide_error : K unit :=
  s <- get ;;
  offset <- idt_get_gate_offset 0 ;;
  e <- some_or_trap (arr_get (idt_entries s) 0) ;;
  if decide (reg_idtr s = Some (sizeof_idt_entry * 256 - 1, idt_address)) then
    if Z.testbit (type_attr e) 7 && (offset =? interrupt_handler_0) then divide_by_zero_handler else trap
  else trap.

Definition chars (s : string) : list Z := (fun a => Z.of_N (N_of_ascii a)) <$> list_ascii_of_string s.
Definition serial_puts (str : string) : K unit := on_ports (serial_write polls SERIAL_COM1_BASE (chars str)).
Definition nl : string := "
".

Definition TEST_START (name : string) : K unit := serial_puts ("[TEST_START] " ++ name ++ nl).
Definition TEST_PASS (name msg : string) : K unit := serial_puts ("[TEST_PASS] " ++ name ++ ": " ++ msg ++ nl).
Definition TEST_FAIL (name msg : string) : K unit :=
  modify (fun s => s <| kernel_test_failures := s32 (kernel_test_failures s + 1) |>) ;;
  serial_puts ("[TEST_FAIL] " ++ name ++ ": " ++ msg ++ nl).
Definition TEST_END : K unit := serial_puts ("[TEST_END]" ++ nl).

Definition boot_run_tests : K unit :=
  TEST_START "serial_loopback" ;;
  faulty <- on_ports (serial_is_faulty SERIAL_COM1_BASE) ;;
  (if faulty =? 0 then TEST_PASS "serial_loopback" "COM1 loopback verified"
   else TEST_FAIL "serial_loopback" "COM1 loopback failed") ;;
  TEST_START "boot_message" ;;
  TEST_PASS "boot_message" "Boot message queued" ;;
  TEST_START "divide_by_zero" ;;
  modify (fun s => s <| divide_by_zero_triggered := 0 |>) ;;
  divide_error ;;
  t <- gets divide_by_zero_triggered ;;
  (if negb (t =? 0) then TEST_PASS "divide_by_zero" "Exception handled successfully"
   else TEST_FAIL "divide_by_zero" "Exception not triggered") ;;
  TEST_END.

(** [DEBUG] is the build option; the answer is the state the processor halts in. *)
Definition kernel_main (DEBUG : bool) (magic : Z) : K unit :=
  if negb (magic =? 0x2BADB002) then ret tt
  else
    _ <- on_ports (serial_init SERIAL_COM1_BASE) ;;
    gdt_init ;;
    serial_puts ("[INFO] GDT initialized" ++ nl) ;;
    idt_init ;;
    serial_puts ("[INFO] IDT initialized" ++ nl) ;;
    serial_puts ("fishboneOS booting" ++ nl) ;;
    if DEBUG then boot_run_tests else ret tt.
End kernel.

(** ** A 16550 serial port that is always ready to send

    Bit 7 of the line control register selects the divisor latch behind the first two
    ports; bit 4 of the modem control register loops the data port back. *)

Record uart := mkUart {
  dll : Z; dlm : Z; ier : Z; fcr : Z; lcr : Z; mcr : Z; rbr : Z; sent : list Z;
}.
#[export] Instance eta_uart : Eta uart := {| eta := fun u =>
  mkUart (dll u) (dlm u) (ier u) (fcr u) (lcr u) (mcr u) (rbr u) (sent u) |}.

Definition latch (u : uart) : bool := Z.testbit (lcr u) 7.
Definition loopback (u : uart) : bool := Z.testbit (mcr u) 4.

Definition uart_in (p : Z) : M uart Z :=
  gets (fun u =>
    if p =? 0x3F8 then (if latch u then dll u else rbr u)
    else if p =? 0x3F9 then (if latch u then dlm u else ier u)
    else if p =? 0x3FB then lcr u else if p =? 0x3FC then mcr u
    else if p =? 0x3FD then 0x60 else 0).
Definition uart_out (p v : Z) : M uart unit :=
  modify (fun u =>
    if p =? 0x3F8 then (if latch u then u <| dll := v |> else if loopback u then u <| rbr := v |> else u <| sent := sent u ++ [v] |>)
    else if p =? 0x3F9 then (if latch u then u <| dlm := v |> else u <| ier := v |>)
    else if p =? 0x3FA then u <| fcr := v |>
    else if p =? 0x3FB then u <| lcr := v |> else if p =? 0x3FC then u <| mcr := v |> else u).
#[export] Instance uart_PortIO : PortIO uart := {
  inb := uart_in; outb := uart_out; inw _ := trap; outw _ _ := trap;
}.

(** The port after [serial_init]: the high byte of the divisor is never written as such. *)
Definition uart_ready (u u' : uart) : Prop :=
  lcr u' = 3 /\ mcr u' = 0x0F /\ dll u' = 3 /\ dlm u' = (if latch u then 0 else dlm u).

(** What follows the first store of [serial_init] sets the line control register first. *)
Lemma run_serial_init u : exists u',
  serial_init SERIAL_COM1_BASE u = Ret (0, u') /\ uart_ready u u' /\ sent u' = sent u.
Proof.
  destruct (if latch u then u <| dlm := 0 |> else u <| ier := 0 |>) as [a b c d e f g l] eqn:E.
  assert (dlm (mkUart a b c d e f g l) = (if latch u then 0 else dlm u) /\ sent (mkUart a b c d e f g l) = sent u) as [Hb Hl]
    by (rewrite <- E; by destruct (latch u)).
  exists (mkUart 3 b c 0xC7 3 0x0F 0xAE l). split; [|done]. unfold serial_init at 1. unfold bind at 1.
  change (outb (SERIAL_COM1_BASE + 1) 0 u) with (Ret (tt, if latch u then u <| dlm := 0 |> else u <| ier := 0 |>)).
  rewrite E. vm_compute. reflexivity.
Qed.

Lemma run_serial_is_faulty u : lcr u = 3 -> exists u',
  serial_is_faulty SERIAL_COM1_BASE u = Ret (0, u') /\ lcr u' = 3 /\ mcr u' = 0x0F /\ sent u' = sent u /\
  dll u' = dll u /\ dlm u' = dlm u.
Proof.
  intros E. destruct u as [a b c d e f g l]. cbn [lcr] in E. subst e.
  exists (mkUart a b c d 3 0x0F 0xAE l). split; [|done]. vm_compute. reflexivity.
Qed.

(** The port after more characters. *)
Definition more (l : list Z) (u : uart) : uart := u <| sent := sent u ++ l |>.

Lemma more_more l1 l2 u : more l2 (more l1 u) = more (l1 ++ l2) u.
Proof. destruct u. unfold more, update. cbn. by rewrite app_assoc. Qed.

Lemma wp_uart_write polls l u (Q : unit -> uart -> Prop) :
  (0 < polls)%nat -> latch u = false -> loopback u = false -> Forall (fun c => 0 < c < 256) l ->
  Q tt (more l u) -> wp (serial_write polls SERIAL_COM1_BASE l) Q u.
Proof.
  intros Hp H1 H2 Hl. revert u H1 H2 Q. induction Hl as [|c l Hc _ IH]; intros u H1 H2 Q HQ; cbn [serial_write].
  - apply wp_ret. unfold more in HQ. rewrite app_nil_r in HQ. by destruct u.
  - rewrite (proj2 (Z.eqb_neq c 0)) by lia. unfold serial_write_char. destruct polls as [|polls]; [lia|].
    apply wp_bind, wp_bind. cbn [iter]. apply wp_bind. unfold serial_is_transmit_fifo_empty. do 2 apply wp_bind.
    apply wp_gets. change (SERIAL_COM1_BASE + 5) with 0x3FD. cbv beta. cbn [Z.eqb Pos.eqb]. apply wp_ret. cbn [Z.eqb Z.land Pos.land].
    do 2 apply wp_ret. apply wp_modify. change (SERIAL_COM1_BASE =? 0x3F8) with true. cbv iota. rewrite H1, H2, (u8_small c) by lia.
    change (u <| sent := sent u ++ [c] |>) with (more [c] u).
    apply IH; [exact H1|exact H2|]. rewrite more_more. exact HQ.
Qed.

(** ** The run of the kernel *)

(** The table of segments: null, flat code and data for the kernel and for the user,
    and a task state of no size. *)
Definition fishbone_gdt : list gdt_entry :=
  [null_gdt_entry; mkGdtEntry 0xFFFF 0 0 0x9A 0xCF 0; mkGdtEntry 0xFFFF 0 0 0x92 0xCF 0;
   mkGdtEntry 0xFFFF 0 0 0xFA 0xCF 0; mkGdtEntry 0xFFFF 0 0 0xF2 0xCF 0; mkGdtEntry 0 0 0 0x89 0 0].

Definition boot_text : list Z := chars "[INFO] GDT initialized
[INFO] IDT initialized
fishboneOS booting
".
Definition test_text : list Z := chars "[TEST_START] serial_loopback
[TEST_PASS] serial_loopback: COM1 loopback verified
[TEST_START] boot_message
[TEST_PASS] boot_message: Boot message queued
[TEST_START] divide_by_zero
[TEST_PASS] divide_by_zero: Exception handled successfully
[TEST_END]
".

Section run.
Context (polls : nat) (Hpolls : (0 < polls)%nat) (gdt_address idt_address h0 : Z) (Hh0 : 0 <= h0 < 4294967296).
Abbreviation state := (fishbone uart).

(** The port after [serial_init] on [u], and [log] since then. *)
Record port_ok (u : uart) (log : list Z) (p : uart) : Prop := {
  po_ready : uart_ready u p;
  po_sent : sent p = sent u ++ log;
}.

Definition printable (l : list Z) : bool := forallb (fun c => (0 <? c) && (c <? 256)) l.

Lemma wp_say u log str (s : state) (Q : unit -> state -> Prop) :
  port_ok u log (ports s) -> printable (chars str) = true ->
  (forall p, port_ok u (log ++ chars str) p -> Q tt (s <| ports := p |>)) ->
  wp (serial_puts polls str) Q s.
Proof using Hpolls.
  intros [(H1 & H2 & H3 & H4) Hs] Hl HQ. unfold serial_puts, on_ports. apply wp_zoom.
  apply wp_uart_write; [done|unfold latch; by rewrite H1|unfold loopback; by rewrite H2| |].
  - apply list.Forall_forall. intros c Hc%list_elem_of_In. unfold printable in Hl. rewrite forallb_forall in Hl.
    apply Hl in Hc. lia.
  - apply HQ. split; [done|]. change (sent (more (chars str) (ports s))) with (sent (ports s) ++ chars str).
    by rewrite Hs, <- app_assoc.
Qed.

Lemma run_gdt_init (s : state) : gdt_init gdt_address s =
  Ret (tt, s <| gdt_ptr := (47, gdt_address) |> <| gdt_entries := fishbone_gdt |>
             <| reg_gdtr := Some (47, gdt_address) |> <| reg_tr := 0x2B |>).
Proof using Type. destruct s. vm_compute. reflexivity. Qed.

(** Gate 0 leads to the entry point; the other gates are absent. *)
Definition fishbone_idt : list idt_entry := idt_gate h0 0x08 0x8E :: replicate 255 null_idt_entry.

Lemma wp_idt_gate_0 (s : state) (Q : unit -> state -> Prop) :
  List.length (idt_entries s) = 256%nat ->
  Q tt (s <| idt_ptr := (2047, idt_address) |> <| idt_entries := fishbone_idt |>
          <| reg_idtr := Some (2047, idt_address) |>) ->
  wp (idt_init idt_address h0) Q s.
Proof using Type.
  clear Hpolls Hh0. intros Hlen HQ. unfold idt_init. apply wp_bind, wp_modify, wp_bind.
  set (s1 := s <| idt_ptr := (sizeof_idt_entry * 256 - 1, idt_address) |>).
  apply (wp_for_each (fun i s' => s' = s1 <| idt_entries := replicate (Z.to_nat i) null_idt_entry ++ drop (Z.to_nat i) (idt_entries s) |>)).
  - by destruct s.
  - intros i s' Hi ->. apply wp_bind, wp_get, wp_bind.
    set (l := _ ++ _). change (idt_entries (s1 <| idt_entries := l |>)) with l.
    assert (List.length l = 256%nat) as Hl by (unfold l; rewrite length_app, length_replicate, length_drop; lia).
    eapply wp_some_or_trap; [apply arr_set_Some; lia|]. apply wp_put.
    destruct (lookup_lt_is_Some_2 (idt_entries s) (Z.to_nat i)) as [e He]; [lia|].
    assert (<[Z.to_nat i := null_idt_entry]> l = replicate (Z.to_nat (i + 1)) null_idt_entry ++ drop (Z.to_nat (i + 1)) (idt_entries s)) as <-; [|done].
    unfold l. rewrite (drop_S (idt_entries s) e (Z.to_nat i)) by done.
    rewrite insert_app_r_alt by (rewrite length_replicate; lia). rewrite length_replicate, Nat.sub_diag. cbn [insert list_insert].
    replace (Z.to_nat (i + 1)) with (S (Z.to_nat i)) by lia. rewrite replicate_S_end, <- app_assoc. done.
  - intros s' ->. change (Z.to_nat (0 + Z.of_nat 256)) with 256%nat. rewrite drop_ge, app_nil_r by lia.
    unfold idt_set_gate. apply wp_bind, wp_bind, wp_get, wp_bind. eapply wp_some_or_trap; [reflexivity|].
    apply wp_put, wp_modify. exact HQ.
Qed.

Lemma gate_offset : Z.lor (Z.shiftl (Z.land (Z.shiftr h0 16) 0xFFFF) 16) (Z.land h0 0xFFFF) = h0.
Proof using Hh0.
  clear Hpolls polls.
  change 0xFFFF with (Z.ones 16). apply Z.bits_inj'. intros n Hn. rewrite Z.lor_spec.
  destruct (Z.ltb_spec n 16).
  - rewrite Z.shiftl_spec_low, Z.land_spec, Z.ones_spec_low by lia. by rewrite andb_true_r.
  - rewrite Z.shiftl_spec, !Z.land_spec, (Z.ones_spec_high 16 n) by lia. rewrite andb_false_r, orb_false_r.
    rewrite Z.shiftr_spec by lia. replace (n - 16 + 16) with n by lia. destruct (Z.ltb_spec n 32).
    + rewrite Z.ones_spec_low by lia. by rewrite andb_true_r.
    + rewrite Z.ones_spec_high by lia. rewrite andb_false_r. symmetry. destruct (Z.eq_dec h0 0) as [->|]; [by apply Z.bits_0|].
      apply Z.bits_above_log2; [lia|]. apply Z.log2_lt_pow2; [lia|]. pose proof (Z.pow_le_mono_r 2 32 n). lia.
Qed.

Lemma wp_divide_error (s : state) (Q : unit -> state -> Prop) :
  idt_entries s = fishbone_idt -> reg_idtr s = Some (2047, idt_address) ->
  Q tt (s <| divide_by_zero_triggered := 1 |>) -> wp (divide_error idt_address h0) Q s.
Proof using Hh0.
  intros Ht Hr HQ. unfold divide_error, idt_get_gate_offset. apply wp_bind, wp_get, wp_bind, wp_bind, wp_get, wp_bind.
  rewrite Ht. eapply wp_some_or_trap; [reflexivity|]. apply wp_ret, wp_bind. eapply wp_some_or_trap; [reflexivity|].
  rewrite decide_True by (by rewrite Hr). cbn [idt_gate offset_high offset_low type_attr].
  rewrite gate_offset, Z.eqb_refl. apply wp_modify. exact HQ.
Qed.

Lemma wp_is_faulty u log (s : state) (Q : Z -> state -> Prop) :
  port_ok u log (ports s) -> (forall p, port_ok u log p -> Q 0 (s <| ports := p |>)) ->
  wp (on_ports (serial_is_faulty SERIAL_COM1_BASE)) Q s.
Proof using Type.
  intros [(H1 & H2 & H3 & H4) Hs] HQ. apply wp_zoom.
  destruct (run_serial_is_faulty (ports s) H1) as (p & E & E1 & E2 & E3 & E4 & E5). unfold wp. rewrite E.
  apply HQ. split; [split_and!; congruence|congruence].
Qed.

Lemma wp_boot_run_tests u log (s : state) (Q : unit -> state -> Prop) :
  port_ok u log (ports s) -> idt_entries s = fishbone_idt -> reg_idtr s = Some (2047, idt_address) ->
  (forall p, port_ok u (log ++ test_text) p -> Q tt (s <| divide_by_zero_triggered := 1 |> <| ports := p |>)) ->
  wp (boot_run_tests polls idt_address h0) Q s.
Proof using Hpolls Hh0.
  intros Hs Ht Hr HQ. unfold boot_run_tests, TEST_START, TEST_PASS, TEST_END.
  apply wp_bind. eapply wp_say; [exact Hs|reflexivity|]. intros p1 H1.
  apply wp_bind. eapply wp_is_faulty; [exact H1|]. intros p2 H2.
  apply wp_bind. eapply wp_say; [exact H2|reflexivity|]. intros p3 H3.
  apply wp_bind. eapply wp_say; [exact H3|reflexivity|]. intros p4 H4.
  apply wp_bind. eapply wp_say; [exact H4|reflexivity|]. intros p5 H5.
  apply wp_bind. eapply wp_say; [exact H5|reflexivity|]. intros p6 H6.
  apply wp_bind, wp_modify, wp_bind, wp_divide_error; [exact Ht|exact Hr|].
  apply wp_bind, wp_gets, wp_bind. eapply wp_say; [exact H6|reflexivity|]. intros p7 H7.
  eapply wp_say; [exact H7|reflexivity|]. intros p8 H8.
  assert (port_ok u (log ++ test_text) p8) as H.
  { rewrite <- !app_assoc in H8. exact H8. }
  apply HQ in H. destruct s. exact H.
Qed.

(** What the kernel leaves when it halts. *)
Record fishbone_up (DEBUG : bool) (s s' : state) : Prop := {
  fu_port : port_ok (ports s) (boot_text ++ if DEBUG then test_text else []) (ports s');
  fu_gdt : gdt_entries s' = fishbone_gdt;
  fu_gdtr : reg_gdtr s' = Some (47, gdt_address);
  fu_tr : reg_tr s' = 0x2B;
  fu_idt : idt_entries s' = fishbone_idt;
  fu_idtr : reg_idtr s' = Some (2047, idt_address);
  fu_failures : kernel_test_failures s' = kernel_test_failures s;
}.

Lemma wp_kernel_main DEBUG (s : state) :
  List.length (idt_entries s) = 256%nat ->
  wp (kernel_main polls gdt_address idt_address h0 DEBUG 0x2BADB002) (fun _ s' => fishbone_up DEBUG s s') s.
Proof using Hpolls Hh0.
  intros Hlen. unfold kernel_main. cbn [Z.eqb Pos.eqb negb]. apply wp_bind, wp_zoom.
  destruct (run_serial_init (ports s)) as (p & E & Hp & Hsent). unfold wp at 1. rewrite E.
  assert (port_ok (ports s) [] p) as H0 by (split; [done|by rewrite app_nil_r]).
  apply wp_bind. unfold wp at 1. rewrite run_gdt_init.
  apply wp_bind. eapply wp_say; [exact H0|reflexivity|]. intros p1 H1.
  apply wp_bind, wp_idt_gate_0; [exact Hlen|].
  apply wp_bind. eapply wp_say; [exact H1|reflexivity|]. intros p2 H2.
  apply wp_bind. eapply wp_say; [exact H2|reflexivity|]. intros p3 H3.
  assert (port_ok (ports s) boot_text p3) as H by exact H3. destruct DEBUG.
  - eapply wp_boot_run_tests; [exact H|reflexivity|reflexivity|]. intros p4 H4. by split.
  - apply wp_ret. split; try reflexivity. by rewrite app_nil_r.
Qed.
End run.


Definition demo_uart : uart := mkUart 1 0 0 0 0 0 0 [].
Definition demo_fishbone : fishbone uart :=
  mkFishbone demo_uart (replicate 6 null_gdt_entry) (0, 0) (replicate 256 null_idt_entry) (0, 0) 0 0 None 0 None.

