(* ===== verification/Barebones.v ===== *)
(** * The smallest kernel (src/src/kernel/barebones/kernel.c)

    A text screen and one line on it.  The screen is described as a ring of cells: the
    cursor comes back to the first cell after the last one, and nothing scrolls. *)

From stdpp Require Import base list gmap numbers option tactics.
From Stdlib Require Import Lia ZArith.
From S2P Require Import Prelude.

Definition VGA_WIDTH : Z := 80.
Definition VGA_HEIGHT : Z := 25.
Definition VGA_COLOR_BLACK : Z := 0.
Definition VGA_COLOR_LIGHT_GREY : Z := 7.

(** The statics and the memory at [VGA_MEMORY]. *)
Record screen := mkScreen {
  terminal_row : Z; terminal_column : Z; terminal_color : Z; terminal_buffer : list Z;
}.
#[export] Instance eta_screen : Eta screen := {| eta := fun s =>
  mkScreen (terminal_row s) (terminal_column s) (terminal_color s) (terminal_buffer s) |}.

Definition vga_entry_color (fg bg : Z) : Z := u8 (Z.lor fg (Z.shiftl bg 4)).
Definition vga_entry (uc color : Z) : Z := u16 (Z.lor (u8 uc) (Z.shiftl color 8)).

(** The characters of a string before its NUL. *)
Fixpoint strlen (str : list Z) : nat :=
  match str with
  | [] => 0
  | c :: str' => if c =? 0 then 0 else S (strlen str')
  end.

Definition terminal_putentryat (c color x y : Z) : M screen unit :=
  s <- get ;;
  b <- some_or_trap (arr_set (terminal_buffer s) (y * VGA_WIDTH + x) (vga_entry c color)) ;;
  put (s <| terminal_buffer := b |>).

Definition terminal_init : M screen unit :=
  modify (fun s => s <| terminal_row := 0 |> <| terminal_column := 0 |>
    <| terminal_color := vga_entry_color VGA_COLOR_LIGHT_GREY VGA_COLOR_BLACK |>) ;;
  for_each (Z.to_nat VGA_HEIGHT) 0 (fun y =>
    for_each (Z.to_nat VGA_WIDTH) 0 (fun x =>
      s <- get ;;
      b <- some_or_trap (arr_set (terminal_buffer s) (y * VGA_WIDTH + x) (vga_entry 32 (terminal_color s))) ;;
      put (s <| terminal_buffer := b |>))).

Definition terminal_setcolor (color : Z) : M screen unit := modify (fun s => s <| terminal_color := color |>).

Definition terminal_putchar (c : Z) : M screen unit :=
  s <- get ;;
  terminal_putentryat c (terminal_color s) (terminal_column s) (terminal_row s) ;;
  modify (fun s => s <| terminal_column := u32 (terminal_column s + 1) |>) ;;
  s <- get ;;
  if terminal_column s =? VGA_WIDTH then
    put (s <| terminal_column := 0 |> <| terminal_row := u32 (terminal_row s + 1) |>) ;;
    s <- get ;;
    if terminal_row s =? VGA_HEIGHT then put (s <| terminal_row := 0 |>) else ret tt
  else ret tt.

Definition terminal_write (data : list Z) (size : nat) : M screen unit :=
  for_each size 0 (fun i => c <- some_or_trap (arr_get data i) ;; terminal_putchar c).
Definition terminal_writestring (data : list Z) : M screen unit := terminal_write data (strlen data).

(** "Hello, kernel World!" and a newline. *)
Definition hello : list Z :=
  [72; 101; 108; 108; 111; 44; 32; 107; 101; 114; 110; 101; 108; 32; 87; 111; 114; 108; 100; 33; 10].
Definition kernel_main : M screen unit := terminal_init ;; terminal_writestring hello.

(** ** The screen as a ring of cells *)

Record screen_ok (s : screen) : Prop := {
  sc_row : 0 <= terminal_row s < 25;
  sc_column : 0 <= terminal_column s < 80;
  sc_buffer : length (terminal_buffer s) = 2000%nat;
}.
Definition cursor (s : screen) : Z := terminal_row s * 80 + terminal_column s.
Definition cell (s : screen) (k : Z) : Z := default 0 (terminal_buffer s !! Z.to_nat k).

Lemma wp_putchar c s (Q : unit -> screen -> Prop) :
  screen_ok s ->
  (forall s', screen_ok s' -> cursor s' = (cursor s + 1) mod 2000 -> terminal_color s' = terminal_color s ->
     (forall k, 0 <= k < 2000 -> cell s' k = if decide (k = cursor s) then vga_entry c (terminal_color s) else cell s k) ->
     Q tt s') ->
  wp (terminal_putchar c) Q s.
Proof.
  intros [Hr Hc Hb] HQ. unfold terminal_putchar, terminal_putentryat. apply wp_bind, wp_get, wp_bind, wp_bind, wp_get, wp_bind.
  unfold VGA_WIDTH, VGA_HEIGHT. eapply wp_some_or_trap; [apply arr_set_Some; lia|].
  set (b := <[_ := _]> _).
  assert (forall k, 0 <= k < 2000 -> default 0 (b !! Z.to_nat k) =
    if decide (k = cursor s) then vga_entry c (terminal_color s) else cell s k) as Hcell.
  { intros k Hk. unfold b, cell, cursor. case_decide as E.
    - rewrite E, list_lookup_insert_eq by lia. done.
    - rewrite list_lookup_insert_ne by lia. done. }
  assert (length b = 2000%nat) as Hlb by (unfold b; by rewrite length_insert).
  clearbody b. apply wp_put, wp_bind, wp_modify, wp_bind, wp_get.
  change (terminal_column (_ <| terminal_column := ?v |>)) with v.
  change (terminal_column (s <| terminal_buffer := b |>)) with (terminal_column s). rewrite u32_small by lia.
  destruct (Z.eqb_spec (terminal_column s + 1) 80) as [E|E].
  - apply wp_bind, wp_put, wp_bind, wp_get. change (terminal_row (_ <| terminal_row := ?v |>)) with v.
    change (terminal_row (s <| terminal_buffer := b |> <| terminal_column := _ |>)) with (terminal_row s). rewrite u32_small by lia.
    destruct (Z.eqb_spec (terminal_row s + 1) 25) as [E2|E2].
    + apply wp_put, HQ; [split; unfold update; cbn; lia| |done|exact Hcell]. unfold cursor, update. cbn. by replace (_ + 1) with 2000 by lia.
    + apply wp_ret, HQ; [split; unfold update; cbn; lia| |done|exact Hcell]. unfold cursor, update. cbn. rewrite Z.mod_small by lia. lia.
  - apply wp_ret, HQ; [split; unfold update; cbn; lia| |done|exact Hcell]. unfold cursor, update. cbn. rewrite Z.mod_small by lia. lia.
Qed.

(** The cell [d] places after the cursor. *)
Definition after (s : screen) (k : Z) : Z := (k - cursor s) mod 2000.

Lemma cursor_range s : screen_ok s -> 0 <= cursor s < 2000.
Proof. intros []. unfold cursor. lia. Qed.

Lemma after_cell s k i : screen_ok s -> 0 <= k < 2000 -> 0 <= i < 2000 ->
  k = (cursor s + i) mod 2000 <-> after s k = i.
Proof.
  intros Hs Hk Hi. pose proof (cursor_range s Hs). unfold after. split; intros E; Z.to_euclidean_division_equations; lia.
Qed.

(** The text [l] was written from [s] on. *)
Record written (s : screen) (l : list Z) (s' : screen) : Prop := {
  wr_ok : screen_ok s';
  wr_cursor : cursor s' = (cursor s + Z.of_nat (length l)) mod 2000;
  wr_color : terminal_color s' = terminal_color s;
  wr_cell : forall k, 0 <= k < 2000 -> cell s' k =
    match l !! Z.to_nat (after s k) with
    | Some c => vga_entry c (terminal_color s)
    | None => cell s k
    end;
}.

Lemma written_nil s : screen_ok s -> written s [] s.
Proof. intros Hs. split; try done. cbn. rewrite Z.add_0_r, Z.mod_small by by apply cursor_range. done. Qed.

Lemma wp_write l s (Q : unit -> screen -> Prop) :
  screen_ok s -> (length l <= 2000)%nat -> (forall s', written s l s' -> Q tt s') ->
  wp (terminal_write l (length l)) Q s.
Proof.
  intros Hs Hl HQ. unfold terminal_write.
  apply (wp_for_each (fun i s' => written s (take (Z.to_nat i) l) s')).
  - by apply written_nil.
  - intros i s' Hi [Ho Hc Hcol Hcell]. destruct (lookup_lt_is_Some_2 l (Z.to_nat i)) as [c Hc']; [lia|].
    apply wp_bind. eapply wp_some_or_trap; [unfold arr_get; rewrite (proj2 (Z.leb_le 0 i)) by lia; exact Hc'|].
    apply wp_putchar; [done|]. intros s2 Ho2 Hc2 Hcol2 Hcell2.
    rewrite length_take, Nat.min_l, Z2Nat.id in Hc by lia. pose proof (cursor_range s Hs) as Hrs.
    assert (Z.to_nat (i + 1) = S (Z.to_nat i)) as En by lia. split.
    + done.
    + rewrite length_take, Nat.min_l, Z2Nat.id by lia. rewrite Hc2, Hc, Zplus_mod_idemp_l. f_equal. lia.
    + congruence.
    + intros k Hk. rewrite Hcell2, Hcol, Hc by done. pose proof (after_cell s k i Hs Hk ltac:(lia)) as Ha.
      pose proof (Z.mod_pos_bound (k - cursor s) 2000 ltac:(lia)) as Hb. fold (after s k) in Hb. rewrite En. case_decide as E.
      * apply Ha in E. rewrite E. rewrite lookup_take_lt by lia. by rewrite Hc'.
      * rewrite Hcell by done. destruct (Z.lt_trichotomy (after s k) i) as [?|[?|?]]; [|tauto|].
        -- by rewrite !lookup_take_lt by lia.
        -- by rewrite !lookup_take_ge by lia.
  - intros s' Hs'. rewrite take_ge in Hs' by lia. by apply HQ.
Qed.

(** *** Clearing *)

Definition blank : Z := vga_entry 32 (vga_entry_color VGA_COLOR_LIGHT_GREY VGA_COLOR_BLACK).

(** The first [n] cells are blank, the cursor is at the start. *)
Record cleared (n : Z) (s : screen) : Prop := {
  cl_row : terminal_row s = 0;
  cl_column : terminal_column s = 0;
  cl_color : terminal_color s = vga_entry_color VGA_COLOR_LIGHT_GREY VGA_COLOR_BLACK;
  cl_length : length (terminal_buffer s) = 2000%nat;
  cl_cell : forall k, 0 <= k < n -> cell s k = blank;
}.

Lemma wp_terminal_init s (Q : unit -> screen -> Prop) :
  length (terminal_buffer s) = 2000%nat -> (forall s', cleared 2000 s' -> Q tt s') -> wp terminal_init Q s.
Proof.
  intros Hb HQ. unfold terminal_init. apply wp_bind, wp_modify.
  apply (wp_for_each (fun y s' => cleared (y * 80) s')).
  - split; try done. intros k Hk. lia.
  - intros y s' Hy Hs'. change (Z.of_nat (Z.to_nat VGA_HEIGHT)) with 25 in Hy.
    apply (wp_for_each (fun x s' => cleared (y * 80 + x) s')); [by rewrite Z.add_0_r| |].
    + intros x s2 Hx [H1 H2 H3 H4 H5]. change (Z.of_nat (Z.to_nat VGA_WIDTH)) with 80 in Hx.
      apply wp_bind, wp_get, wp_bind. unfold VGA_WIDTH. eapply wp_some_or_trap; [apply arr_set_Some; lia|]. apply wp_put.
      split; unfold update; cbn; [done|done|done|by rewrite length_insert|].
      intros k Hk. unfold cell. cbn. destruct (decide (k = y * 80 + x)) as [->|Hne].
      * rewrite list_lookup_insert_eq by lia. by rewrite H3.
      * rewrite list_lookup_insert_ne by lia. apply H5. lia.
    + intros s2 Hs2. change (0 + Z.of_nat (Z.to_nat VGA_WIDTH)) with 80 in Hs2. by replace ((y + 1) * 80) with (y * 80 + 80) by lia.
  - intros s' Hs'. by apply HQ.
Qed.

(** A text of at most 2000 characters lands in the cells from the cursor on, around the
    end of the screen, and leaves the other cells alone; every character takes a cell,
    the newline too. *)
Theorem terminal_write_ring l s :
  screen_ok s -> (length l <= 2000)%nat -> wp (terminal_write l (length l)) (fun _ s' => written s l s') s.
Proof. intros Hs Hl. by apply wp_write. Qed.

Lemma terminal_write_ring_witness :
  let s := mkScreen 24 79 7 (replicate 2000 0) in
  wp (terminal_write [72; 105] 2) (fun _ s' => cursor s' = 1 /\ cell s' 1999 = vga_entry 72 7 /\ cell s' 0 = vga_entry 105 7) s.
Proof.
  cbv zeta. eapply wp_mono; [apply (terminal_write_ring [72; 105] (mkScreen 24 79 7 (replicate 2000 0)))|].
  - split; [cbn; lia|cbn; lia|apply length_replicate].
  - cbn. lia.
  - intros [] s' [_ Hc _ Hk]. split; [rewrite Hc; reflexivity|]. split; rewrite Hk by lia; reflexivity.
Defined.

(** The screen of the smallest kernel: its greeting in the first cells, the newline as
    a character among them, and blanks. *)
Theorem barebones_kernel_main s :
  length (terminal_buffer s) = 2000%nat ->
  wp kernel_main (fun _ s' => forall k, 0 <= k < 2000 ->
    cell s' k = match hello !! Z.to_nat k with Some c => vga_entry c 7 | None => vga_entry 32 7 end) s.
Proof.
  intros Hb. unfold kernel_main. apply wp_bind, wp_terminal_init; [done|]. intros s1 [H1 H2 H3 H4 H5].
  unfold terminal_writestring. change (strlen hello) with (length hello).
  assert (cursor s1 = 0) as Hc by (unfold cursor; rewrite H1, H2; done).
  apply wp_write; [split; lia|by apply (bool_decide_unpack _)|]. intros s2 [_ _ _ Hk] k Hr.
  rewrite Hk by done. unfold after. rewrite Hc, Z.sub_0_r, Z.mod_small, H3 by done. rewrite H5 by done. reflexivity.
Qed.
