(* ===== verification/HelloModule.v ===== *)
(** * The example module (src/src/kernel/monolithic/modules/hello_module.c)

    Its two functions and its metadata, which [module_loader_load] finds under the
    names of the symbols; the functions print through the kernel's [printk]. *)

From stdpp Require Import base list gmap numbers option tactics.
From Stdlib Require Import Lia ZArith String.
From S2P Require Import Prelude Io Drivers Libc Boot.

Section hello.
Context {P : Type} `{!PortIO P} (polls : nat) (string_at : Z -> list Z).

Definition module_init : M P Z :=
  printk string_at polls LOG_INFO (chars "hello_module: module loaded and initialized!") [] ;; ret 0.
Definition module_exit : M P unit :=
  printk string_at polls LOG_INFO (chars "hello_module: module unloading") [].
End hello.

Definition module_name_str : list Z := chars "hello_module".
Definition module_version_str : list Z := chars "1.0".

(** ** The messages *)

Definition plain (c : Z) : bool := (0 <? c) && (c <? 256) && negb (c =? 37).

(** A format without a percent sign is its own text. *)
Lemma formats_plain string_at l : forallb plain l = true -> formats string_at l [] l.
Proof.
  induction l as [|c l IH]; intros H; [constructor|]. cbn [forallb] in H. apply andb_true_iff in H as [Hc H].
  unfold plain in Hc. assert (0 < c < 256 /\ c <> 37) as [Hr Hne] by lia.
  rewrite <- (u8_small c) at 2 by lia. apply formats_char; [done|by apply IH].
Qed.

Theorem hello_module_prints {P} `{!PortIO P} polls string_at (s : P) :
  module_init polls string_at s =
    (serial_write polls SERIAL_COM1_BASE (chars "[INFO] hello_module: module loaded and initialized!
") ;; ret 0) s /\
  module_exit polls string_at s =
    serial_write polls SERIAL_COM1_BASE (chars "[INFO] hello_module: module unloading
") s.
Proof.
  assert (forall l, forallb plain l = true -> Forall (fun c => c <> 0) l) as Hnz.
  { intros l H. rewrite forallb_forall in H. apply list.Forall_forall. intros c Hc%list_elem_of_In ->. by apply H in Hc. }
  split; unfold module_init, module_exit.
  - unfold bind. rewrite (printk_writes polls string_at LOG_INFO _ [] (chars "hello_module: module loaded and initialized!") (chars "[INFO] "));
      [done|reflexivity|by apply formats_plain|vm_compute; lia|by apply Hnz].
  - rewrite (printk_writes polls string_at LOG_INFO _ [] (chars "hello_module: module unloading") (chars "[INFO] "));
      [done|reflexivity|by apply formats_plain|vm_compute; lia|by apply Hnz].
Qed.
